(* ===== verification/_CoqProject ===== *)
-Q . S2P
Prelude.v
Fair.v
GoTime.v
GoStrings.v
Model.v
Sha256.v
GoUrl.v
GoConv.v
GoFlag.v
GoDate.v
GoUtf8.v
GoJson.v
Scheduler.v
Http.v
Policy.v
Jobs.v
Wire.v
WireOk.v
Server.v
Env.v
Manager.v
Machine.v
Refinement.v
Scenario.v
System.v
Lifecycle.v
Progress.v
Webhook.v
Agent.v
Api.v
Typing.v
Registry.v
AgentService.v
Tls.v
StubBackends.v
AgentClient.v
Docker.v
Containers.v
GithubApp.v
Bounds.v
Commands.v
Lifetime.v
Fleet.v
