(* ===== verification/Prelude.v ===== *)
(** * CIFleet: a verification development

    CIFleet turns privately owned machines into an on-demand fleet of GitHub
    Actions runners.  A controller receives signed webhook deliveries from
    GitHub, decides which jobs to trust, places each on a node, asks GitHub for
    a just-in-time runner and the node's agent for a container that runs it,
    and tears both down afterwards.  Agents register by heartbeats.  This
    library models the program's own logic and proves what makes it correct.

    ** The program's parts and the files that model them

    Go itself.
    - [Prelude]: 64-bit integers with wrap-around ([wrap64], [+w], [-w], [*w]),
      [sort.SliceStable] ([sort_stable], [first_min]), the iteration order of a
      map as an argument ([shuffle picks]: every order is some [picks]), errors
      and [result].
    - [Fair]: executions of labelled step relations, fairness, [leads_to].
    - [GoTime]: [time.Time] and [time.Duration] (nanoseconds since year 1, with
      saturating subtraction).  [GoStrings]: byte strings, UTF-8, the functions
      of [strings] in use; the Unicode case tables are the class [Unicode].
      [GoConv]: [strconv] and [path/filepath].  [GoUrl]: escaping of path
      segments; [url.Parse] is the class [UrlParser].  [Sha256]: SHA-256, HMAC
      and hexadecimal, with the published vectors as examples.  [Http]: the
      requests and responses the handlers see, and bounded readers.
    - [GoFlag]: [flag], [time.ParseDuration] (with its [float64] fractions) and
      [strconv] with base 0.  [GoDate]: the calendar, and times as RFC 3339
      texts.  [GoUtf8]: what is left of a string by the replacement of invalid
      bytes.  [GoJson]: the parser and the two printers of [encoding/json].

    The controller ([src/internal/controller], [src/internal/scheduler]).
    - [Model]: [internal/model/model.go] and the types of
      [internal/backend/backend.go].
    - [Scheduler]: [scheduler.go], [Place] with its filter, order and choice of
      backend.
    - [Server]: [server.go], the registry of nodes; its state is the record
      [Server], its handlers [heartbeat], [listNodes], [schedule].
    - [Policy]: [github_policy.go]: trust, labels, names.
    - [Wire], [WireOk]: the [json] tags of all structs as field tables, the
      encoders and decoders of the state file, of every request and of every
      answer, and their round trips.
    - [Jobs], [Env], [Manager]: the runner manager of [github_jobs.go],
      [github_state.go], [github_provision.go] and [github_lifecycle.go].  Its
      state [St] is the job map and the history of calls to the outside world;
      one definition per Go function, in the state monad [M].
    - [Machine], [Refinement], [System]: the abstract job machine, the proof
      that the manager only takes its transitions, and the running process
      ([sys_step]: submit, event, tick, crash at any call and restart).
    - [Lifecycle], [Progress]: what each operation of the manager does.
      [Scenario] gives a concrete fleet to run examples and witnesses on.
      [Bounds]: how many calls a pass makes, and the time a job gets.
    - [Webhook]: [webhook.go], the ingress; it submits through the class
      [EventSubmitter], which the manager's queue implements.
    - [AgentClient]: [agent_client.go], the client side of the agents' API.

    The agent ([src/internal/agent], [src/internal/backend]).
    - [Agent], [AgentService]: [server.go] and [service.go], against the
      backend interface [Backend_].
    - [Docker]: [docker.go], every docker command line; [docker_backend] is an
      instance of [Backend_].  [Containers]: which operation and which request
      can make docker do what.  [StubBackends]: [kvm.go] and [hyperv.go].

    The HTTP APIs of both.
    - [Api]: the three route tables, from the bytes of a request to the bytes of
      the answer.  [Typing]: what the decoders guarantee for any bytes.
      [Registry]: the registry as a function of the requests received.
    - [Tls]: [src/internal/tlsutil/tls.go], and what a server with such a
      configuration makes of a connection.

    GitHub ([src/internal/githubapp]).
    - [GithubApp]: [client.go], the private key, JWTs, the cache of installation
      tokens, the three API calls.

    The commands ([src/cmd]).
    - [Commands]: both [main.go]: from environment and flags to what the
      listeners serve, and what that composition guarantees.
    - [Lifetime]: the same two functions from there on: one thread per
      goroutine (service or manager, listeners, shutdown, [main]), signals, the
      exit and its status, restarts.

    The whole.
    - [Fleet]: a controller's life, a network that may refuse a request, lose
      its answer or outlast the client's timeout, and started agents with their
      own ticks, other peers, and the requests that were abandoned.

    ** The outside world

    Nothing is assumed to answer.  The manager's environment [Env], the docker
    host [DockerHost] and the GitHub host [GHost] are records of functions of
    the history of calls, so a theorem that quantifies over them holds for all
    failures, delays, heartbeats between two calls and iteration orders; a
    concrete record makes every operation run.  The file system is computed from
    the history ([fs_after]); a failed write may leave any content, and a crash
    is a suffix of a history.  The assumptions on the environment of the manager
    are collected in [EnvOk]: the registry is well formed, instances have
    identifiers, runner identifiers and sizes are 64-bit integers, JIT
    configurations are UTF-8, and the
    state file the first process finds is absent or holds a job map of the
    machine.  [deployed_controller_env] derives them for the process that
    [main] builds from the HTTP client, the GitHub client, the controller's own
    API and the flags; only the last one is left, a condition on the disk.

    ** What the theorems show

    - Refinement and invariants ([System], through [Refinement] and [Machine]):
      the job map only moves by the transitions of the abstract machine; nodes
      are never overcommitted while their reports are honest; no instance is requested without a trusted run;
      the record on disk precedes the request; records are well formed in
      memory and on disk at every instant, crashes included.
    - Behaviour of the operations ([Lifecycle], [Progress]): atomic saves and
      the round trip through a restart; idempotent deliveries; teardown and
      its retry; undoing a refused launch; recovery after a crash; a job that
      can run does run.  Two of them state defects: cleanup is given up when
      the node is not registered ([cleanup_forgotten_node]), and a runner name
      can lead to two nodes ([nodeFromRunnerName_ambiguous]).  The main loop
      comes back after a bounded number of calls, and the configured timeout is
      the one the agent applies ([Bounds]).
    - Components ([Scheduler], [Server], [Policy]): complete characterisations
      of placement, snapshot, trust policy and label translation, the registry
      invariant, and the identity check on heartbeats; the registry is the last
      good heartbeat of each node, however requests interleave ([Registry]).
    - The edges ([Webhook], [AgentClient], [Agent], [Docker], [GithubApp]):
      only signed deliveries are submitted; a call through client and agent
      server is the backend's operation; only the controller's certificate
      reaches a backend; heartbeats register what was measured; containers are
      named, labelled and expired so that they are found again; cache
      directories stay below their root; tokens are fresh and not mixed up.
      Decoded values have their Go types and survive re-encoding ([Typing]).
    - The deployed processes ([Commands]): an agent that started without
      [-insecure-http] acts for the controller's verified certificate only, a
      controller changes a node's entry for that node's certificate only, the
      ingress takes signed deliveries only.
    - The running processes ([Lifetime]): the controller process refines the
      system of [System], so its theorems hold through shutdowns, exits and
      restarts; a process that is told to stop does stop, in every fair
      execution ([controller_stops], [agent_stops]); each exit status has its
      reasons.  Four of them state defects of the way they stop: requests in
      progress are cut, a failed ingress listener or a refused service
      configuration looks like a clean exit, and an acknowledged delivery can
      be lost with the queue.
    - End to end ([Fleet]): every container on every worker is that of a trusted
      job on the controller's disk, down to its command line; every instance
      the controller believes in was started by a worker's docker; and a
      failed request that is not still running when the controller cleans up
      leaves no container behind, if the cleanup reaches the worker.  A request
      that outlives the client's timeout can ([late_container_survives]).

    ** Bounds and fuel

    Loops of the source are recursions on their list, string or iteration
    order; the two endless loops ([Run] of the manager and of the agent's
    service) are step relations, the second also a fold over its ticks.  Two
    library functions take fuel: the JSON parser recurses on the nesting and the
    length of its text, with fuel for twice that length ([enough]); [value_fuel]
    proves that more of it never changes the answer; [ParseDuration] consumes a
    character per step and gets the length of its text.  Nesting is limited to
    [max_depth], as in [encoding/json].  Arithmetic that can leave 64 bits wraps
    as in Go.

    ** What is not modelled

    [net/http] itself (a request that matches no route, header limits,
    redirects; the client's timeout is an outcome of a request in [Fleet]), the certificate parsers and chain verification of
    [crypto/tls] and [crypto/x509], RSA, PEM and [url.Parse]: libraries the
    source calls, here parameters whose every behaviour is covered.  The texts
    of errors are the class [ErrorText]: no decision of the program depends on
    them.  A slice is a list: nil and empty are not told apart, so an empty
    slice that was decoded from brackets is written as null.  The logger, but
    for the errors that end a process; [context] cancellation, other than as an
    error of a call and as the end of the two loops.  In [Lifetime] a request
    is carried out when it is accepted and answered later, and the ten seconds
    of a shutdown are a step that may happen at any time; the control plane's
    effect on the registry belongs to the environment, as everywhere.  In
    [Fleet] the network does not change what it delivers (TLS), name
    resolution and the path of a URL are one parameter, and a request that its
    sender abandoned is carried out as a whole, at any later moment, or never:
    what docker makes of a client that is killed half-way is docker's.
    Goroutines: only the manager's goroutine changes the job map and the token
    mutex is held over a whole refresh, so those operations are sequential; the
    registry is read under its lock, at any state a heartbeat can leave. *)

From stdpp Require Import base decidable list sorting numbers strings gmap.
From Stdlib Require Import ZArith Lia.

Open Scope Z_scope.

(** ** Machine integers

    Go's [int] (on the 64-bit targets of the fleet), [int64] and
    [time.Duration] are 64-bit two's complement integers.  They are kept as
    [Z]; every arithmetic operation of the source that can leave the range is
    written with its wrap-around. *)

Definition int64_min : Z := - 2 ^ 63.
Definition int64_max : Z := 2 ^ 63 - 1.

Definition wrap64 (z : Z) : Z := (z + 2 ^ 63) mod 2 ^ 64 - 2 ^ 63.

Definition in_int64 (z : Z) : Prop := int64_min <= z <= int64_max.

Declare Scope go_scope.
Delimit Scope go_scope with go.
Notation "x '+w' y" := (wrap64 (x + y)) (at level 50, left associativity) : go_scope.
Notation "x '-w' y" := (wrap64 (x - y)) (at level 50, left associativity) : go_scope.
Notation "x '*w' y" := (wrap64 (x * y)) (at level 40, left associativity) : go_scope.
Open Scope go_scope.

Lemma wrap64_range z : in_int64 (wrap64 z).
Proof.
  unfold in_int64, wrap64, int64_min, int64_max.
  pose proof (Z.mod_pos_bound (z + 2 ^ 63) (2 ^ 64)). lia.
Qed.

Lemma wrap64_id z : in_int64 z -> wrap64 z = z.
Proof.
  unfold in_int64, wrap64, int64_min, int64_max. intros H.
  rewrite Z.mod_small; lia.
Qed.

Lemma wrap64_congr x y : wrap64 x = wrap64 y <-> x mod 2 ^ 64 = y mod 2 ^ 64.
Proof.
  unfold wrap64. split; intros H.
  - assert (((x + 2 ^ 63) mod 2 ^ 64 + - 2 ^ 63) mod 2 ^ 64
            = ((y + 2 ^ 63) mod 2 ^ 64 + - 2 ^ 63) mod 2 ^ 64) as E by (f_equal; lia).
    rewrite !Zplus_mod_idemp_l in E.
    replace (x + 2 ^ 63 + - 2 ^ 63) with x in E by lia.
    by replace (y + 2 ^ 63 + - 2 ^ 63) with y in E by lia.
  - f_equal. by rewrite <- (Zplus_mod_idemp_l x), H, Zplus_mod_idemp_l.
Qed.

Lemma wrap64_mod z : wrap64 z mod 2 ^ 64 = z mod 2 ^ 64.
Proof. apply wrap64_congr, wrap64_id, wrap64_range. Qed.

Lemma wrap64_add_l x y : wrap64 x +w y = x +w y.
Proof.
  apply wrap64_congr.
  by rewrite <- Zplus_mod_idemp_l, wrap64_mod, Zplus_mod_idemp_l.
Qed.

Lemma wrap64_add_r x y : x +w wrap64 y = x +w y.
Proof. by rewrite Z.add_comm, wrap64_add_l, Z.add_comm. Qed.

(** ** Errors and results

    A Go [error] is a value: one of the sentinel errors the code compares with
    [errors.Is], a message, a format with its arguments ([fmt.Errorf] without
    [%w], kept unexpanded), or a message wrapping another error ([%w]). *)

Inductive error : Type :=
| ErrNoPlacement
| ErrEventQueueFull
| ErrMsg (msg : string)
| ErrFmt (format : string) (args : list string)
| ErrWrap (msg : string) (cause : error).

(** [errors.Is(err, scheduler.ErrNoPlacement)]: unwraps the chain. *)
Fixpoint is_ErrNoPlacement (e : error) : bool :=
  match e with
  | ErrNoPlacement => true
  | ErrWrap _ e' => is_ErrNoPlacement e'
  | _ => false
  end.

Inductive result (A : Type) : Type :=
| Ok (a : A)
| Err (e : error).
Arguments Ok {A} a.
Arguments Err {A} e.

(** An [error] return value: [None] is Go's [nil]. *)
Notation nil_error := (@None error) (only parsing).

(** ** Map iteration order

    A [for range] over a Go map visits the entries in an unspecified order.
    The order is an input of the model: a list of picks, each choosing the
    next entry among those not visited yet.  Every pick list gives a
    permutation ([shuffle_perm]) and every permutation is given by some pick
    list ([shuffle_complete]), so quantifying over the picks is quantifying
    over the iteration orders. *)

Fixpoint shuffle {A} (picks : list nat) (l : list A) : list A :=
  match picks with
  | [] => l
  | n :: picks' =>
      let i := (n mod length l)%nat in
      match l !! i with
      | Some x => x :: shuffle picks' (delete i l)
      | None => []
      end
  end.

Lemma shuffle_perm {A} (picks : list nat) (l : list A) : shuffle picks l ≡ₚ l.
Proof.
  revert l. induction picks as [|n picks IH]; intros l; [done|]. cbn.
  destruct (l !! (n mod length l)%nat) as [x|] eqn:E.
  - rewrite IH. symmetry. by apply delete_Permutation.
  - apply lookup_ge_None in E. destruct l as [|a l]; [done|].
    pose proof (Nat.mod_upper_bound n (length (a :: l))). simpl in *. lia.
Qed.

Lemma shuffle_complete {A} (l l' : list A) :
  l' ≡ₚ l -> exists picks, shuffle picks l = l'.
Proof.
  revert l. induction l' as [|x l' IH]; intros l Hp.
  { apply Permutation_nil_l in Hp as <-. by exists []. }
  assert (x ∈ l) as [i Hi]%list_elem_of_lookup by (rewrite <- Hp; left).
  pose proof (lookup_lt_Some _ _ _ Hi) as Hlt.
  destruct (IH (delete i l)) as [picks Hpicks].
  { apply (Permutation_cons_inv (a := x)). rewrite Hp. by apply delete_Permutation. }
  exists (i :: picks). cbn. rewrite Nat.mod_small, Hi by done. by rewrite Hpicks.
Qed.

Lemma elem_of_shuffle {A} picks (l : list A) x : x ∈ shuffle picks l <-> x ∈ l.
Proof. by rewrite shuffle_perm. Qed.

(** ** Stable sorting

    [sort.SliceStable(xs, less)] has one result for a strict weak order
    [less]: the stable sort.  It is computed here by insertion; the lemmas
    give what the callers use: the result is a permutation, it is sorted, and
    its head is the first of the minimal elements. *)

Section sorting.
Context {A : Type} (less : A -> A -> bool).

Fixpoint insert_stable (x : A) (l : list A) : list A :=
  match l with
  | [] => [x]
  | y :: l' => if less y x then y :: insert_stable x l' else x :: y :: l'
  end.

Fixpoint sort_stable (l : list A) : list A :=
  match l with
  | [] => []
  | x :: l' => insert_stable x (sort_stable l')
  end.

(** The first element that no other element precedes. *)
Fixpoint first_min (l : list A) : option A :=
  match l with
  | [] => None
  | x :: l' =>
      match first_min l' with
      | Some y => if less y x then Some y else Some x
      | None => Some x
      end
  end.

Lemma insert_stable_perm x l : insert_stable x l ≡ₚ x :: l.
Proof.
  induction l as [|y l IH]; cbn; [done|].
  destruct (less y x); [|done]. rewrite IH. apply Permutation_swap.
Qed.

Lemma sort_stable_perm l : sort_stable l ≡ₚ l.
Proof.
  induction l as [|x l IH]; cbn; [done|].
  by rewrite insert_stable_perm, IH.
Qed.

Lemma sort_stable_head l : head (sort_stable l) = first_min l.
Proof.
  induction l as [|x l IH]; cbn; [done|].
  rewrite <- IH. destruct (sort_stable l) as [|y l']; cbn; [done|].
  by destruct (less y x).
Qed.

(** [less] is the strict part of a total preorder. *)
Class StrictWeak : Prop := {
  less_asym x y : less x y = true -> less y x = false;
  less_co_trans x y z : less x y = false -> less y z = false -> less x z = false;
}.

Context `{Hless : !StrictWeak}.

#[export] Instance less_le_trans : Transitive (fun a b => less b a = false).
Proof. intros x y z Hxy Hyz. by apply less_co_trans with y. Qed.

Lemma insert_stable_sorted x l :
  Sorted (fun a b => less b a = false) l ->
  Sorted (fun a b => less b a = false) (insert_stable x l).
Proof.
  induction l as [|y l IH]; cbn; intros Hs; [by repeat constructor|].
  destruct (less y x) eqn:E; [|by constructor; [|constructor]].
  apply Sorted_inv in Hs as [Hs Hy]. constructor; [by apply IH|].
  destruct l as [|z l]; cbn; [constructor; by apply less_asym|].
  destruct (less z x); constructor; [by inversion Hy|by apply less_asym].
Qed.

Lemma sort_stable_sorted l : Sorted (fun a b => less b a = false) (sort_stable l).
Proof. induction l; cbn; [constructor|by apply insert_stable_sorted]. Qed.

(** [first_min] picks the leftmost minimum: nothing is smaller, and
    everything before it is larger. *)
Lemma first_min_spec l x :
  first_min l = Some x <->
  exists l1 l2, l = l1 ++ x :: l2
    /\ Forall (fun y => less x y = true) l1
    /\ Forall (fun y => less y x = false) (x :: l2).
Proof.
  assert (Hirr : forall a, less a a = false).
  { intros a. destruct (less a a) eqn:E; [|done]. by rewrite less_asym in E. }
  revert x. induction l as [|a l IH]; intros x; cbn.
  { split; [done|]. intros (l1 & l2 & H & _). by destruct l1. }
  destruct (first_min l) as [y|] eqn:Ey.
  - destruct (proj1 (IH y) eq_refl) as (l1 & l2 & -> & H1 & H2).
    destruct (less y a) eqn:Eya.
    + split.
      * intros [= <-]. exists (a :: l1), l2. split_and!; [done|by constructor|done].
      * intros (k1 & k2 & Heq & K1 & K2). f_equal.
        destruct k1 as [|b k1]; cbn in Heq; injection Heq as -> Heq.
        { exfalso. rewrite Forall_cons, <- Heq, Forall_app, Forall_cons in K2.
          destruct K2 as (_ & _ & K & _). congruence. }
        apply Forall_cons in K1 as [_ K1].
        assert (Some y = Some x) as [= ?]; [|done].
        apply (IH x). eauto.
    + split.
      * intros [= <-]. exists [], (l1 ++ y :: l2). split_and!; [done..|].
        constructor; [apply Hirr|]. apply Forall_app. split.
        -- eapply Forall_impl; [exact H1|]. intros z Hz.
           apply less_co_trans with y; [by apply less_asym|done].
        -- eapply Forall_impl; [exact H2|]. intros z Hz.
           by apply less_co_trans with y.
      * intros (k1 & k2 & Heq & K1 & K2). f_equal.
        destruct k1 as [|b k1]; cbn in Heq; injection Heq as -> Heq; [done|].
        exfalso. apply Forall_cons in K1 as [Kb K1].
        assert (Some y = Some x) as [= ->]; [apply (IH x); eauto|]. congruence.
  - split.
    + intros [= <-]. exists [], l. split_and!; [done..|].
      destruct l as [|b l]; [by constructor|]. cbn in Ey.
      destruct (first_min l) as [z|]; [destruct (less z b)|]; discriminate.
    + destruct l as [|b l].
      * intros (k1 & k2 & Heq & _). destruct k1 as [|? [|??]]; cbn in Heq; congruence.
      * cbn in Ey. destruct (first_min l) as [z|]; [destruct (less z b)|]; discriminate.
Qed.

Lemma first_min_None l : first_min l = None <-> l = [].
Proof.
  destruct l as [|a l]; cbn; [done|].
  destruct (first_min l) as [y|]; [destruct (less y a)|]; done.
Qed.
End sorting.

(** Splitting an [omap] at one of its elements splits the argument there. *)
Lemma omap_split {A B} (f : A -> option B) (l : list A) (k1 k2 : list B) (y : B) :
  omap f l = k1 ++ y :: k2 ->
  exists l1 x l2, l = l1 ++ x :: l2 /\ omap f l1 = k1 /\ f x = Some y /\ omap f l2 = k2.
Proof.
  revert k1. induction l as [|a l IH]; intros k1; cbn; [by destruct k1|].
  destruct (f a) as [b|] eqn:E.
  - destruct k1 as [|c k1]; cbn; intros [= -> Heq].
    + by exists [], a, l.
    + apply IH in Heq as (l1 & x & l2 & -> & <- & ? & ?).
      exists (a :: l1), x, l2. cbn. by rewrite E.
  - intros (l1 & x & l2 & -> & <- & ? & ?)%IH.
    exists (a :: l1), x, l2. cbn. by rewrite E.
Qed.

(** ** Automation shared by the components *)

Create HintDb fleet.
#[export] Hint Resolve wrap64_range : fleet.

(** [Forall P [x1; ...; xn]], one goal per element. *)
Ltac forall_list := repeat first [apply Forall_cons; split | apply Forall_nil; exact I].

(** Case analysis on the scrutinee of a [match] or [if], with its equation. *)
Ltac destruct_scrutinee term :=
  match term with
  | context [match ?scrutinee with _ => _ end] => destruct scrutinee eqn:?
  end.
Ltac destruct_match := match goal with |- ?claim => destruct_scrutinee claim end.
Ltac destruct_match_in H := let claim := type of H in destruct_scrutinee claim.
