(* ===== verification/Fair.v ===== *)
(** * Fair executions of threads

    A process is a labelled step relation: the label is the thread that moves.
    An execution is a sequence of states in which each state is followed by a
    step or by itself; it is fair to a thread when the thread, again and again,
    moves or cannot.  [ensures] is the rule that turns one helpful step into
    progress under fairness, [exec_stable] carries what no step undoes. *)

From S2P Require Import Prelude.
From stdpp Require Import base relations.
From Stdlib Require Import Arith Lia.

Section fair.
Context {State Thread : Type} (step : Thread -> State -> State -> Prop).

Definition enabled (t : Thread) (s : State) : Prop := exists s', step t s s'.

(** [None]: nothing happens. *)
Definition moves (l : option Thread) (s s' : State) : Prop :=
  match l with Some t => step t s s' | None => s' = s end.

Record Execution : Type := mkExecution {
  ex_state : nat -> State;
  ex_label : nat -> option Thread;
  ex_moves : forall i, moves (ex_label i) (ex_state i) (ex_state (S i));
}.

(** Weak fairness: at any time, the thread will move, or will be unable to. *)
Definition fair (t : Thread) (e : Execution) : Prop :=
  forall i, exists j, i <= j /\ (ex_label e j = Some t \/ ~ enabled t (ex_state e j)).

(** [P] leads to [Q]: whenever [P] holds, [Q] holds then or later. *)
Definition leads_to (e : Execution) (P Q : State -> Prop) : Prop :=
  forall i, P (ex_state e i) -> exists j, i <= j /\ Q (ex_state e j).

Lemma leads_to_trans e P Q R : leads_to e P Q -> leads_to e Q R -> leads_to e P R.
Proof.
  intros HPQ HQR i Hi. destruct (HPQ i Hi) as (j & Hij & Hj).
  destruct (HQR j Hj) as (k & Hjk & Hk). exists k. split; [lia|done].
Qed.

Lemma leads_to_impl e P Q : (forall s, P s -> Q s) -> leads_to e P Q.
Proof. intros H i Hi. exists i. eauto. Qed.

(** An invariant of the execution may be assumed. *)
Lemma leads_to_under e (I P Q : State -> Prop) :
  (forall i, I (ex_state e i)) -> leads_to e (fun s => I s /\ P s) Q -> leads_to e P Q.
Proof. intros HI H i Hi. by apply H. Qed.

Lemma leads_to_or e P1 P2 Q :
  leads_to e P1 Q -> leads_to e P2 Q -> leads_to e (fun s => P1 s \/ P2 s) Q.
Proof. intros H1 H2 i [Hi|Hi]; eauto. Qed.

(** A property that no step leaves holds for ever. *)
Lemma exec_stable e (P : State -> Prop) :
  (forall t s s', P s -> step t s s' -> P s') ->
  forall i j, i <= j -> P (ex_state e i) -> P (ex_state e j).
Proof.
  intros HP i j Hij Hi. induction Hij as [|j Hij IH]; [done|].
  pose proof (ex_moves e j) as Hm. destruct (ex_label e j); [|by rewrite Hm]. by eapply HP.
Qed.

(** In [P] the thread [t] can move and its moves establish [Q]; the moves of
    the others leave [P] or establish [Q]. *)
Lemma ensures e t (P Q : State -> Prop) :
  fair t e ->
  (forall s, P s -> enabled t s) ->
  (forall s s', P s -> step t s s' -> Q s') ->
  (forall t' s s', P s -> step t' s s' -> P s' \/ Q s') ->
  leads_to e P Q.
Proof.
  intros Hfair Hen Hhelp Hsafe i Hi. destruct (Hfair i) as (j & Hij & Hj).
  assert (Hrun : forall k, i <= k -> P (ex_state e k) \/ exists l, i <= l /\ Q (ex_state e l)).
  { intros k Hik. induction Hik as [|k Hik [IH|IH]]; [by left| |by right].
    pose proof (ex_moves e k) as Hm. destruct (ex_label e k) as [t'|]; cbn in Hm.
    - destruct (Hsafe _ _ _ IH Hm) as [?|?]; [by left|]. right. exists (S k). split; [lia|done].
    - rewrite Hm. by left. }
  destruct (Hrun j Hij) as [HP|HQ]; [|done]. destruct Hj as [Hl|Hdis].
  - exists (S j). split; [lia|]. pose proof (ex_moves e j) as Hm. rewrite Hl in Hm. by eapply Hhelp.
  - by destruct Hdis; apply Hen.
Qed.
(** Two threads in turn: [t1] takes [P1] to [P2], [t2] takes [P2] to [Q]. *)
Lemma ensures_twice e t1 t2 (P1 P2 Q : State -> Prop) :
  fair t1 e -> fair t2 e ->
  (forall s, P1 s -> enabled t1 s) -> (forall s, P2 s -> enabled t2 s) ->
  (forall s s', P1 s -> step t1 s s' -> P2 s' \/ Q s') ->
  (forall s s', P2 s -> step t2 s s' -> Q s') ->
  (forall t s s', P1 s -> step t s s' -> P1 s' \/ P2 s' \/ Q s') ->
  (forall t s s', P2 s -> step t s s' -> P2 s' \/ Q s') ->
  leads_to e (fun s => P1 s \/ P2 s \/ Q s) Q.
Proof.
  intros Hf1 Hf2 He1 He2 H1 H2 Hs1 Hs2.
  assert (Hsecond : leads_to e (fun s => P2 s \/ Q s) Q)
    by (apply leads_to_or; [by apply (ensures e t2)|by apply leads_to_impl]).
  apply leads_to_or; [|done]. eapply leads_to_trans; [|exact Hsecond].
  by apply (ensures e t1).
Qed.
End fair.
Arguments ex_state {State Thread step}.
Arguments ex_label {State Thread step}.
Arguments mkExecution {State Thread step}.
