(* ===== verification/GoTime.v ===== *)
(** * Go's [time] package, as far as the sources use it

    A [time.Time] is the number of nanoseconds since Go's zero time
    (January 1, year 1, 00:00:00 UTC); all times of the program are in UTC and
    carry no monotonic reading ([UTC] strips it).  A [time.Duration] is a
    64-bit count of nanoseconds.  [Add] is exact (the second counter of a
    [time.Time] spans 292 billion years), [Sub] saturates, as documented. *)

From S2P Require Import Prelude.
From stdpp Require Import base numbers.
From Stdlib Require Import ZArith Lia.
Open Scope Z_scope.

Definition Time : Set := Z.
Definition Duration : Set := Z.

Definition Second : Duration := 10 ^ 9.
Definition Minute : Duration := 60 * Second.
Definition Hour : Duration := 60 * Minute.

(** The zero value [time.Time{}]. *)
Definition zeroTime : Time := 0.

Definition time_IsZero (t : Time) : bool := t =? zeroTime.
Definition time_After (t u : Time) : bool := u <? t.
Definition time_Add (t : Time) (d : Duration) : Time := t + d.

Definition time_Sub (t u : Time) : Duration :=
  Z.max int64_min (Z.min int64_max (t - u)).

(** Seconds from Go's zero time to the Unix epoch. *)
Definition unix_epoch : Z := 62135596800.
Definition time_Unix (t : Time) : Z := t / Second - unix_epoch.

(** [d / time.Second] on durations: Go's integer division truncates. *)
Definition duration_seconds (d : Duration) : Z := Z.quot d Second.

Lemma time_Sub_exact t u : in_int64 (t - u) -> time_Sub t u = t - u.
Proof. unfold in_int64, time_Sub. lia. Qed.

(** Comparing a saturated difference with an in-range bound is comparing the
    exact difference. *)
Lemma time_Sub_le t u d : in_int64 d -> d < int64_max -> time_Sub t u <= d <-> t <= u + d.
Proof. unfold in_int64, time_Sub, int64_min, int64_max. lia. Qed.

Lemma time_Sub_gt t u d : in_int64 d -> d < int64_max -> d < time_Sub t u <-> u + d < t.
Proof. unfold in_int64, time_Sub, int64_min, int64_max. lia. Qed.
