(* ===== verification/GoStrings.v ===== *)
(** * Go strings and the [strings]/[unicode]/[strconv] functions the sources use

    A Go string is a sequence of bytes, here Stdlib's [string] (one [ascii]
    per byte).  UTF-8 decoding and encoding are written out, with Go's
    treatment of invalid bytes (one [RuneError] per byte).  The two tables of
    the Unicode character database the functions consult, lower-casing and
    simple folding of non-ASCII runes, are the operations of the class
    [Unicode]; on ASCII both are fixed by the definitions. *)

From S2P Require Import Prelude.
From stdpp Require Import base list numbers strings pretty.
From Stdlib Require Import ZArith Ascii String Lia.
Open Scope string_scope.
Open Scope list_scope.
Open Scope Z_scope.

(** ** Bytes and lists of bytes *)

Definition byte_of (c : ascii) : Z := Z.of_N (N_of_ascii c).
Definition of_byte (z : Z) : ascii := ascii_of_N (Z.to_N z).

Lemma byte_of_bounds c : 0 <= byte_of c < 256.
Proof. unfold byte_of. pose proof (N_ascii_bounded c). lia. Qed.

Lemma of_byte_of c : of_byte (byte_of c) = c.
Proof. unfold of_byte, byte_of. rewrite N2Z.id. apply ascii_N_embedding. Qed.

Lemma byte_of_of z : 0 <= z < 256 -> byte_of (of_byte z) = z.
Proof. intros. unfold of_byte, byte_of. rewrite N_ascii_embedding; lia. Qed.

Fixpoint drop_while {A} (f : A -> bool) (input : list A) : list A :=
  match input with
  | x :: rest => if f x then drop_while f rest else input
  | [] => []
  end.

Fixpoint rdrop_while {A} (f : A -> bool) (input : list A) : list A :=
  match input with
  | x :: rest =>
      match rdrop_while f rest with
      | [] => if f x then [] else [x]
      | kept => x :: kept
      end
  | [] => []
  end.

Fixpoint sconcat (l : list string) : string :=
  match l with
  | [] => ""
  | s :: l' => s +:+ sconcat l'
  end.

(** ** UTF-8 *)

Definition RuneError : Z := 65533.

Definition is_cont (b : Z) : bool := (128 <=? b) && (b <=? 191).

(** The ranges of the second byte, as in [unicode/utf8]'s accept table. *)
Definition valid2 (b0 b1 : Z) : bool := (194 <=? b0) && (b0 <=? 223) && is_cont b1.
Definition valid3 (b0 b1 b2 : Z) : bool :=
  (224 <=? b0) && (b0 <=? 239) && is_cont b1 && is_cont b2
  && implb (b0 =? 224) (160 <=? b1) && implb (b0 =? 237) (b1 <=? 159).
Definition valid4 (b0 b1 b2 b3 : Z) : bool :=
  (240 <=? b0) && (b0 <=? 244) && is_cont b1 && is_cont b2 && is_cont b3
  && implb (b0 =? 240) (144 <=? b1) && implb (b0 =? 244) (b1 <=? 143).

(** [for _, r := range s]: the runes of a string, each with its bytes. *)
Fixpoint chunks (s : string) : list (Z * string) :=
  match s with
  | "" => []
  | String c0 s1 =>
      let b0 := byte_of c0 in
      let bad := (RuneError, String c0 "") in
      if b0 <? 128 then (b0, String c0 "") :: chunks s1 else
      match s1 with
      | "" => [bad]
      | String c1 s2 =>
          let b1 := byte_of c1 in
          if valid2 b0 b1
          then ((b0 - 192) * 64 + (b1 - 128), String c0 (String c1 "")) :: chunks s2 else
          match s2 with
          | "" => bad :: chunks s1
          | String c2 s3 =>
              let b2 := byte_of c2 in
              if valid3 b0 b1 b2
              then (((b0 - 224) * 64 + (b1 - 128)) * 64 + (b2 - 128),
                    String c0 (String c1 (String c2 ""))) :: chunks s3 else
              match s3 with
              | "" => bad :: chunks s1
              | String c3 s4 =>
                  let b3 := byte_of c3 in
                  if valid4 b0 b1 b2 b3
                  then ((((b0 - 240) * 64 + (b1 - 128)) * 64 + (b2 - 128)) * 64 + (b3 - 128),
                        String c0 (String c1 (String c2 (String c3 "")))) :: chunks s4
                  else bad :: chunks s1
              end
          end
      end
  end.

Definition runes (s : string) : list Z := (chunks s).*1.

(** [utf8.AppendRune]: surrogates and out-of-range values encode as
    [RuneError]. *)
Definition encode_rune (r : Z) : string :=
  let r := if (r <? 0) || (1114111 <? r) || ((55296 <=? r) && (r <=? 57343))
           then RuneError else r in
  if r <? 128 then String (of_byte r) ""
  else if r <? 2048 then
    String (of_byte (192 + r / 64)) (String (of_byte (128 + r mod 64)) "")
  else if r <? 65536 then
    String (of_byte (224 + r / 4096))
      (String (of_byte (128 + (r / 64) mod 64)) (String (of_byte (128 + r mod 64)) ""))
  else
    String (of_byte (240 + r / 262144))
      (String (of_byte (128 + (r / 4096) mod 64))
        (String (of_byte (128 + (r / 64) mod 64)) (String (of_byte (128 + r mod 64)) ""))).

(** ** Character classes *)

Class Unicode : Set := {
  uni_ToLower : Z -> Z;  (** [unicode.ToLower] on runes above ASCII *)
  uni_fold : Z -> Z;     (** the representative of a rune's simple-folding orbit:
                             the lower-case ASCII letter when the orbit has one *)
}.

Definition ascii_lower (b : Z) : Z := if (65 <=? b) && (b <=? 90) then b + 32 else b.

(** [unicode.IsSpace]. *)
Definition is_space (r : Z) : bool :=
  (9 <=? r) && (r <=? 13) || (r =? 32) || (r =? 133) || (r =? 160) || (r =? 5760)
  || (8192 <=? r) && (r <=? 8202) || (r =? 8232) || (r =? 8233) || (r =? 8239)
  || (r =? 8287) || (r =? 12288).

Definition is_ascii_byte (c : ascii) : bool := byte_of c <? 128.

Fixpoint smap (f : Z -> Z) (s : string) : string :=
  match s with
  | "" => ""
  | String c s' => String (of_byte (f (byte_of c))) (smap f s')
  end.

Fixpoint sforall (f : ascii -> bool) (s : string) : bool :=
  match s with
  | "" => true
  | String c s' => f c && sforall f s'
  end.

(** ** The functions of package [strings] *)

Section strings.
Context `{Unicode}.

Definition rune_ToLower (r : Z) : Z := if r <? 128 then ascii_lower r else uni_ToLower r.
Definition rune_fold (r : Z) : Z := if r <? 128 then ascii_lower r else uni_fold r.

(** [strings.ToLower]: the ASCII fast path, else [strings.Map]. *)
Definition ToLower (s : string) : string :=
  if sforall is_ascii_byte s then smap ascii_lower s
  else sconcat (map (fun r => encode_rune (rune_ToLower r)) (runes s)).

(** [strings.EqualFold]: equality rune by rune under simple folding. *)
Definition EqualFold (s t : string) : bool :=
  bool_decide (map rune_fold (runes s) = map rune_fold (runes t)).
End strings.

Definition TrimSpace (s : string) : string :=
  sconcat (rdrop_while (fun c => is_space c.1) (drop_while (fun c => is_space c.1) (chunks s))).*2.

(** [strings.Trim], [strings.TrimRight] with an ASCII cutset. *)
Definition in_cutset (cutset : string) (c : ascii) : bool :=
  bool_decide (c ∈ list_ascii_of_string cutset).
Definition TrimRight (s cutset : string) : string :=
  string_of_list_ascii (rdrop_while (in_cutset cutset) (list_ascii_of_string s)).
Definition Trim (s cutset : string) : string :=
  string_of_list_ascii
    (rdrop_while (in_cutset cutset) (drop_while (in_cutset cutset) (list_ascii_of_string s))).

Definition HasPrefix (s prefix : string) : bool := String.prefix prefix s.

Fixpoint sdrop (n : nat) (s : string) : string :=
  match n, s with
  | O, _ => s
  | S _, "" => ""
  | S n', String _ s' => sdrop n' s'
  end.

Definition TrimPrefix (s prefix : string) : string :=
  if HasPrefix s prefix then sdrop (String.length prefix) s else s.

Fixpoint Contains (s substr : string) : bool :=
  HasPrefix s substr
  || match s with
     | "" => false
     | String _ s' => Contains s' substr
     end.

(** [strings.Split(s, sep)] and [strings.SplitN(s, sep, 2)] for a one-byte
    separator. *)
Fixpoint Split (s : string) (sep : ascii) : list string :=
  match s with
  | "" => [""]
  | String c s' =>
      if Ascii.eqb c sep then "" :: Split s' sep
      else match Split s' sep with
           | p :: ps => String c p :: ps
           | [] => [String c ""]
           end
  end.

Fixpoint SplitN2 (s : string) (sep : ascii) : list string :=
  match s with
  | "" => [""]
  | String c s' =>
      if Ascii.eqb c sep then [""; s']
      else match SplitN2 s' sep with
           | p :: ps => String c p :: ps
           | [] => [String c ""]
           end
  end.

(** [strings.Fields]. *)
Fixpoint fields_of (cs : list (Z * string)) (cur : string) : list string :=
  match cs with
  | [] => if String.eqb cur "" then [] else [cur]
  | (r, b) :: cs' =>
      if is_space r
      then if String.eqb cur "" then fields_of cs' "" else cur :: fields_of cs' ""
      else fields_of cs' (cur +:+ b)
  end.
Definition Fields (s : string) : list string := fields_of (chunks s) "".

(** [strconv.FormatInt(n, 10)], [strconv.Itoa(n)], [%d]. *)
Definition FormatInt (n : Z) : string := pretty n.

(** ** [path/filepath] on Unix *)

(** The loop of [filepath.Clean] over the path components; [out] is the
    stack of kept components, innermost first. *)
Fixpoint clean_loop (rooted : bool) (parts out : list string) : list string :=
  match parts with
  | [] => rev out
  | p :: parts' =>
      if String.eqb p "" || String.eqb p "." then clean_loop rooted parts' out
      else if String.eqb p ".." then
        match out with
        | o :: out' =>
            if String.eqb o ".." then clean_loop rooted parts' (".." :: out)
            else clean_loop rooted parts' out'
        | [] => clean_loop rooted parts' (if rooted then [] else [".."])
        end
      else clean_loop rooted parts' (p :: out)
  end.

Fixpoint join_slash (parts : list string) : string :=
  match parts with
  | [] => ""
  | [p] => p
  | p :: parts' => p +:+ "/" +:+ join_slash parts'
  end.

Definition filepath_Clean (path : string) : string :=
  let rooted := HasPrefix path "/" in
  let body := join_slash (clean_loop rooted (Split path "/"%char) []) in
  if rooted then "/" +:+ body else if String.eqb body "" then "." else body.

(** The path up to and including the last separator. *)
Definition dir_part (path : string) : string :=
  string_of_list_ascii
    (rdrop_while (fun c => negb (Ascii.eqb c "/"%char)) (list_ascii_of_string path)).

Definition filepath_Dir (path : string) : string := filepath_Clean (dir_part path).

Example filepath_Dir_state :
  filepath_Dir "/var/lib/cifleet/controller-state.json" = "/var/lib/cifleet".
Proof. reflexivity. Qed.
Example filepath_Dir_bare : filepath_Dir "state.json" = ".".
Proof. reflexivity. Qed.
Example filepath_Clean_dots :
  map filepath_Clean ["/a/./b//../c"; "a/../.."; "/.."; "//"; "./x/"]
  = ["/a/c"; ".."; "/"; "/"; "x"].
Proof. reflexivity. Qed.

(** ** Lemmas: strings as lists of bytes *)

Lemma sapp_cons c s t : String c s +:+ t = String c (s +:+ t).
Proof. done. Qed.

Lemma list_ascii_app s t :
  list_ascii_of_string (s +:+ t) = list_ascii_of_string s ++ list_ascii_of_string t.
Proof. induction s as [|c s IH]; [done|]. rewrite sapp_cons. cbn. by rewrite IH. Qed.

Lemma list_ascii_inj s t : list_ascii_of_string s = list_ascii_of_string t -> s = t.
Proof.
  intros E. rewrite <- (string_of_list_ascii_of_string s), E.
  apply string_of_list_ascii_of_string.
Qed.

Lemma sapp_assoc s t u : (s +:+ t) +:+ u = s +:+ (t +:+ u).
Proof. apply list_ascii_inj. by rewrite !list_ascii_app, app_assoc. Qed.

Lemma sapp_nil_r s : s +:+ "" = s.
Proof. apply list_ascii_inj. by rewrite list_ascii_app, app_nil_r. Qed.

Lemma slength_app s t : String.length (s +:+ t) = (String.length s + String.length t)%nat.
Proof. induction s as [|c s IH]; [done|]. rewrite sapp_cons. cbn. by rewrite IH. Qed.

Lemma sforall_Forall f s : sforall f s = true <-> Forall (fun c => f c = true) (list_ascii_of_string s).
Proof.
  induction s as [|c s IH]; cbn; [by split|].
  by rewrite andb_true_iff, IH, Forall_cons.
Qed.

Lemma sforall_app f s t : sforall f (s +:+ t) = sforall f s && sforall f t.
Proof.
  induction s as [|c s IH]; [done|]. rewrite sapp_cons. cbn. rewrite IH. by destruct (f c).
Qed.

Lemma sforall_impl (f g : ascii -> bool) s :
  (forall c, f c = true -> g c = true) -> sforall f s = true -> sforall g s = true.
Proof.
  intros Hfg. induction s as [|c s IH]; cbn; [done|].
  rewrite !andb_true_iff. naive_solver.
Qed.

(** *** Trimming a list on both ends *)

Definition trim_list {A} (f : A -> bool) (l : list A) : list A := rdrop_while f (drop_while f l).

Lemma drop_while_suffix {A} (f : A -> bool) l :
  exists a, l = a ++ drop_while f l /\ Forall (fun x => f x = true) a.
Proof.
  induction l as [|x l (a & Ha & Hf)]; cbn; [by exists []|].
  destruct (f x) eqn:E; [|by exists []]. exists (x :: a). cbn. split; [by f_equal|by constructor].
Qed.

Lemma rdrop_while_prefix {A} (f : A -> bool) l :
  exists b, l = rdrop_while f l ++ b /\ Forall (fun x => f x = true) b.
Proof.
  induction l as [|x l (b & Hb & Hf)]; cbn; [by exists []|].
  destruct (rdrop_while f l) as [|y l'] eqn:E; cbn in *.
  - destruct (f x) eqn:Ef; [|exists b; by subst].
    exists (x :: b). subst. split; [done|by constructor].
  - exists b. by rewrite Hb.
Qed.

Lemma head_drop_while {A} (f : A -> bool) l x :
  head (drop_while f l) = Some x -> f x = false.
Proof.
  induction l as [|y l IH]; cbn; [done|]. destruct (f y) eqn:E; [done|]. cbn. naive_solver.
Qed.

Lemma last_rdrop_while {A} (f : A -> bool) l x :
  last (rdrop_while f l) = Some x -> f x = false.
Proof.
  induction l as [|y l IH]; cbn; [done|].
  destruct (rdrop_while f l) as [|z l']; [|done].
  destruct (f y) eqn:E; cbn; naive_solver.
Qed.

Lemma head_rdrop_while {A} (f : A -> bool) l x :
  head (rdrop_while f l) = Some x -> head l = Some x.
Proof.
  destruct l as [|y l]; cbn; [done|].
  destruct (rdrop_while f l); [destruct (f y)|]; cbn; naive_solver.
Qed.

(** The result keeps no trimmable element at either end ... *)
Lemma trim_list_ends {A} (f : A -> bool) l x :
  head (trim_list f l) = Some x \/ last (trim_list f l) = Some x -> f x = false.
Proof.
  unfold trim_list. intros [H|H].
  - by apply head_rdrop_while, head_drop_while in H.
  - by apply last_rdrop_while in H.
Qed.

(** ... and a list without one is left as it is. *)
Lemma trim_list_id {A} (f : A -> bool) l :
  (forall x, head l = Some x \/ last l = Some x -> f x = false) -> trim_list f l = l.
Proof.
  intros H. unfold trim_list.
  assert (drop_while f l = l) as ->.
  { destruct l as [|x l]; cbn; [done|]. by rewrite (H x) by (left; done). }
  assert (Hl : forall x, last l = Some x -> f x = false) by naive_solver. clear H.
  induction l as [|x l IH]; cbn; [done|]. destruct l as [|y l].
  - cbn. by rewrite (Hl x).
  - rewrite IH by done. done.
Qed.

Lemma trim_list_idemp {A} (f : A -> bool) l : trim_list f (trim_list f l) = trim_list f l.
Proof. apply trim_list_id, trim_list_ends. Qed.

Lemma Forall_trim_list {A} (P : A -> Prop) (f : A -> bool) l :
  Forall P l -> Forall P (trim_list f l).
Proof.
  intros H. unfold trim_list.
  destruct (drop_while_suffix f l) as (a & Ha & _).
  rewrite Ha in H. apply Forall_app in H as [_ H].
  destruct (rdrop_while_prefix f (drop_while f l)) as (b & Hb & _).
  rewrite Hb in H. by apply Forall_app in H as [H _].
Qed.

Lemma list_Trim s cutset :
  list_ascii_of_string (Trim s cutset) = trim_list (in_cutset cutset) (list_ascii_of_string s).
Proof. unfold Trim. by rewrite list_ascii_of_string_of_list_ascii. Qed.

(** *** UTF-8 *)

Lemma sconcat_chunks s : sconcat (chunks s).*2 = s.
Proof.
  enough (forall n s, (String.length s <= n)%nat -> sconcat (chunks s).*2 = s) by eauto.
  clear s. induction n as [|n IH]; intros [|c0 s1]; cbn; intros Hn; try done; try lia.
  destruct (_ <? 128); [cbn; by rewrite IH by lia|].
  destruct s1 as [|c1 s2]; [done|]. cbn in Hn.
  destruct (valid2 _ _); [cbn; by rewrite IH by lia|].
  destruct s2 as [|c2 s3]; [cbn [fmap list_fmap sconcat snd]; by rewrite IH by (cbn; lia)|].
  cbn in Hn.
  destruct (valid3 _ _ _); [cbn [fmap list_fmap sconcat snd]; by rewrite IH by (cbn; lia)|].
  destruct s3 as [|c3 s4]; [cbn [fmap list_fmap sconcat snd]; by rewrite IH by (cbn; lia)|].
  cbn in Hn.
  destruct (valid4 _ _ _ _); cbn [fmap list_fmap sconcat snd]; by rewrite IH by (cbn; lia).
Qed.

Lemma runes_ascii s :
  sforall is_ascii_byte s = true -> runes s = map byte_of (list_ascii_of_string s).
Proof.
  unfold runes. induction s as [|c s IH]; [done|]. cbn [sforall].
  intros [Hc Hs]%andb_true_iff. unfold is_ascii_byte in Hc. cbn [chunks].
  rewrite Hc. cbn. f_equal. by apply IH.
Qed.

(** ** [EqualFold] is an equivalence *)

Section fold.
Context `{Unicode}.

#[export] Instance EqualFold_equiv : Equivalence (fun s t => EqualFold s t = true).
Proof.
  unfold EqualFold. split; red; intros *; rewrite !bool_decide_eq_true; congruence.
Qed.
End fold.

(** ** Prefixes and substrings *)

Lemma HasPrefix_spec s p : HasPrefix s p = true <-> exists t, s = p +:+ t.
Proof.
  unfold HasPrefix. revert s. induction p as [|c p IH]; intros s.
  { split; [by exists s|by destruct s]. }
  destruct s as [|d s]; [split; [done|by intros []]|].
  cbn. setoid_rewrite sapp_cons. destruct (ascii_dec c d) as [->|Hne].
  - rewrite IH. split; intros [t Ht]; exists t; [by subst|congruence].
  - split; [done|]. intros [t Ht]. congruence.
Qed.

Lemma TrimPrefix_app p t : TrimPrefix (p +:+ t) p = t.
Proof.
  unfold TrimPrefix. rewrite (proj2 (HasPrefix_spec _ _)) by eauto.
  induction p as [|c p IH]; [done|]. rewrite sapp_cons. cbn [String.length sdrop]. done.
Qed.

Lemma Contains_app a b c : Contains (a +:+ b +:+ c) b = true.
Proof.
  induction a as [|d a IH].
  - assert (H : HasPrefix (b +:+ c) b = true) by (apply HasPrefix_spec; eauto).
    change ("" +:+ b +:+ c) with (b +:+ c).
    destruct (b +:+ c); cbn [Contains]; by rewrite H.
  - rewrite sapp_cons. cbn [Contains]. by rewrite IH, orb_true_r.
Qed.

(** ** Decimal numbers *)

Definition is_digit (c : ascii) : bool := (48 <=? byte_of c) && (byte_of c <=? 57).

Lemma pretty_N_char_digit n : is_digit (pretty_N_char n) = true.
Proof. unfold pretty_N_char. by repeat destruct_match. Qed.

Lemma pretty_N_go_digits n s :
  sforall is_digit s = true -> sforall is_digit (pretty_N_go n s) = true.
Proof.
  revert s. induction (N.lt_wf_0 n) as [n _ IH]. intros s Hs.
  destruct (decide (n = 0%N)) as [->|Hn]; [by rewrite pretty_N_go_0|].
  rewrite pretty_N_go_step by lia. apply IH.
  - apply N.div_lt; lia.
  - cbn. by rewrite Hs, andb_true_r, pretty_N_char_digit.
Qed.

Lemma FormatInt_digits n : 0 <= n -> sforall is_digit (FormatInt n) = true.
Proof.
  intros Hn. unfold FormatInt, pretty, pretty_Z.
  destruct n as [|p|p]; [done| |lia].
  unfold pretty, pretty_positive, pretty, pretty_N. 
  destruct (decide _); [done|]. by apply pretty_N_go_digits.
Qed.

Lemma pretty_N_go_nonempty n s : s <> "" -> pretty_N_go n s <> "".
Proof.
  revert s. induction (N.lt_wf_0 n) as [n _ IH]. intros s Hs.
  destruct (decide (n = 0%N)) as [->|Hn]; [by rewrite pretty_N_go_0|].
  rewrite pretty_N_go_step by lia. apply IH; [apply N.div_lt; lia|done].
Qed.

Lemma FormatInt_nonempty n : FormatInt n <> "".
Proof.
  assert (Hp : forall m, pretty_N_go (Npos m) "" <> "").
  { intros m. rewrite pretty_N_go_step by lia. by apply pretty_N_go_nonempty. }
  unfold FormatInt, pretty, pretty_Z. destruct n as [|p|p]; [done| |done].
  unfold pretty, pretty_positive, pretty, pretty_N. destruct (decide _); [done|apply Hp].
Qed.

#[export] Instance FormatInt_inj : Inj (=) (=) FormatInt.
Proof. unfold FormatInt. apply _. Qed.
