(* ===== verification/Model.v ===== *)
(** * The data model: [internal/model/model.go] and [internal/backend/backend.go]

    [OS], [Arch], [BackendKind] and [Isolation] are Go string types: any
    string can arrive in a heartbeat or a request, the named constants are
    the ones the code knows.  Go [int]s are [Z] (see the prelude). *)

From S2P Require Import Prelude GoTime.
From stdpp Require Import base list strings gmap.
From Stdlib Require Import ZArith.
Open Scope string_scope.
Open Scope list_scope.
Open Scope Z_scope.

(** ** [internal/model] *)

Definition OS : Set := string.
Definition Arch : Set := string.
Definition BackendKind : Set := string.
Definition Isolation : Set := string.

Definition OSLinux : OS := "linux".
Definition OSWindows : OS := "windows".
Definition OSMacOS : OS := "macos".
Definition ArchAMD64 : Arch := "amd64".
Definition ArchARM64 : Arch := "arm64".
Definition BackendDocker : BackendKind := "docker".
Definition BackendKVM : BackendKind := "kvm".
Definition BackendHyperV : BackendKind := "hyperv".
Definition BackendNative : BackendKind := "native".
Definition IsolationContainer : Isolation := "container".
Definition IsolationVM : Isolation := "vm".
Definition IsolationNative : Isolation := "native".

Record Capacity : Set := mkCapacity {
  TotalCPU : Z;
  FreeCPU : Z;
  TotalMemoryM : Z;
  FreeMemoryM : Z;
  RunningJobs : Z;
}.

Definition zeroCapacity : Capacity := mkCapacity 0 0 0 0 0.

Record Node : Set := mkNode {
  node_ID : string;
  node_Endpoint : string;
  node_OS : OS;
  node_Arch : Arch;
  node_Backends : list BackendKind;
  node_Capabilities : list string;
  node_Labels : list string;
  node_Capacity : Capacity;
  node_Online : bool;
  node_LastSeen : Time;
}.

Definition zeroNode : Node := mkNode "" "" "" "" [] [] [] zeroCapacity false zeroTime.

Definition set_Capacity (c : Capacity) (n : Node) : Node :=
  mkNode (node_ID n) (node_Endpoint n) (node_OS n) (node_Arch n) (node_Backends n)
    (node_Capabilities n) (node_Labels n) c (node_Online n) (node_LastSeen n).
Definition set_Online (b : bool) (n : Node) : Node :=
  mkNode (node_ID n) (node_Endpoint n) (node_OS n) (node_Arch n) (node_Backends n)
    (node_Capabilities n) (node_Labels n) (node_Capacity n) b (node_LastSeen n).
Definition set_LastSeen (t : Time) (n : Node) : Node :=
  mkNode (node_ID n) (node_Endpoint n) (node_OS n) (node_Arch n) (node_Backends n)
    (node_Capabilities n) (node_Labels n) (node_Capacity n) (node_Online n) t.

Record JobRequirements : Set := mkJobRequirements {
  req_Repository : string;
  req_OS : OS;
  req_Arch : Arch;
  req_Isolation : Isolation;
  req_Capabilities : list string;
  req_CPU : Z;
  req_MemoryM : Z;
}.

Definition set_req_Capabilities (caps : list string) (r : JobRequirements) : JobRequirements :=
  mkJobRequirements (req_Repository r) (req_OS r) (req_Arch r) (req_Isolation r) caps
    (req_CPU r) (req_MemoryM r).

Record Placement : Set := mkPlacement {
  NodeID : string;
  Backend : BackendKind;
}.

(** ** [internal/backend] *)

Record CacheMount : Set := mkCacheMount {
  mount_Name : string;
  mount_Target : string;
  mount_ReadOnly : bool;
}.

Record JobSpec : Set := mkJobSpec {
  spec_ID : string;
  spec_Repository : string;
  spec_RunnerConfig : string;
  spec_Image : string;
  spec_Command : list string;
  spec_CPU : Z;
  spec_MemoryM : Z;
  spec_Environment : gmap string string;
  spec_CacheMounts : list CacheMount;
  spec_Timeout : Duration;
  spec_TimeoutSeconds : Z;
}.

Record Instance_ : Set := mkInstance {
  inst_ID : string;
  inst_Backend : BackendKind;
  inst_NodeID : string;
  inst_Deadline : Time;
}.

(** [JobSpec.EffectiveTimeout]: the conversion to nanoseconds is an [int64]
    multiplication and wraps. *)
Definition EffectiveTimeout (s : JobSpec) (fallback : Duration) : Duration :=
  if 0 <? spec_Timeout s then spec_Timeout s
  else if 0 <? spec_TimeoutSeconds s then spec_TimeoutSeconds s *w Second
  else fallback.

(** A positive timeout up to 9223372036 seconds is converted exactly. *)
Lemma EffectiveTimeout_seconds s fallback :
  spec_Timeout s = 0 -> 0 < spec_TimeoutSeconds s <= 9223372036 ->
  EffectiveTimeout s fallback = spec_TimeoutSeconds s * Second.
Proof.
  intros H0 H. unfold EffectiveTimeout. rewrite H0. cbn.
  destruct (Z.ltb_spec 0 (spec_TimeoutSeconds s)); [|lia].
  apply wrap64_id. unfold in_int64, int64_min, int64_max, Second. lia.
Qed.
