(* ===== verification/Sha256.v ===== *)
(** * SHA-256, HMAC-SHA-256 and hexadecimal

    The parts of [crypto/sha256], [crypto/hmac] and [encoding/hex] the program
    uses, on byte strings: FIPS 180-4 with 32-bit words as [Z] and explicit
    wrap-around, RFC 2104 for the keyed hash.  The reference vectors are
    examples. *)

From S2P Require Import Prelude GoStrings.
From stdpp Require Import base list strings.
From Stdlib Require Import ZArith Ascii String Lia.
Open Scope string_scope.
Open Scope list_scope.
Open Scope Z_scope.

(** ** 32-bit words *)

Definition w32 (z : Z) : Z := z mod 2 ^ 32.
Definition rotr (n x : Z) : Z := Z.lor (Z.shiftr x n) (w32 (Z.shiftl x (32 - n))).
Definition not32 (x : Z) : Z := Z.lxor x (2 ^ 32 - 1).

Definition Ch (x y z : Z) : Z := Z.lxor (Z.land x y) (Z.land (not32 x) z).
Definition Maj (x y z : Z) : Z := Z.lxor (Z.land x y) (Z.lxor (Z.land x z) (Z.land y z)).
Definition Sigma0 (x : Z) : Z := Z.lxor (rotr 2 x) (Z.lxor (rotr 13 x) (rotr 22 x)).
Definition Sigma1 (x : Z) : Z := Z.lxor (rotr 6 x) (Z.lxor (rotr 11 x) (rotr 25 x)).
Definition sigma0 (x : Z) : Z := Z.lxor (rotr 7 x) (Z.lxor (rotr 18 x) (Z.shiftr x 3)).
Definition sigma1 (x : Z) : Z := Z.lxor (rotr 17 x) (Z.lxor (rotr 19 x) (Z.shiftr x 10)).

(** The standard defines its constants as the first 32 bits of the fractional
    parts of the cube roots of the first 64 primes, and of the square roots of
    the first 8; they are computed from that definition. *)
Definition is_prime (n : nat) : bool :=
  forallb (fun d => negb (Nat.eqb (n mod d) 0)) (seq 2 (n - 2)).

Definition primes (count : nat) : list Z :=
  map Z.of_nat (take count (List.filter is_prime (seq 2 310))).

(** The integer cube root of [n], bit by bit from [2^(bits-1)] down. *)
Fixpoint cube_root (bits : nat) (n root : Z) : Z :=
  match bits with
  | O => root
  | S b =>
      let next := root + 2 ^ Z.of_nat b in
      cube_root b n (if next * next * next <=? n then next else root)
  end.

Definition round_constants : list Z :=
  Eval vm_compute in map (fun p => w32 (cube_root 35 (p * 2 ^ 96) 0)) (primes 64).

Definition initial_hash : list Z :=
  Eval vm_compute in map (fun p => w32 (Z.sqrt (p * 2 ^ 64))) (primes 8).

Example constants_published :
  nth 0 round_constants 0 = 0x428a2f98 /\ nth 63 round_constants 0 = 0xc67178f2
  /\ nth 7 initial_hash 0 = 0x5be0cd19.
Proof. repeat split. Qed.

(** ** The compression function *)

(** The message schedule: the newest word first, [n] words to add. *)
Fixpoint extend_schedule (n : nat) (ws : list Z) : list Z :=
  match n with
  | O => ws
  | S n' =>
      let w := nth 15 ws 0 + sigma0 (nth 14 ws 0) + nth 6 ws 0 + sigma1 (nth 1 ws 0) in
      extend_schedule n' (w32 w :: ws)
  end.

Definition schedule_of (block : list Z) : list Z := rev (extend_schedule 48 (rev block)).

Definition sha_round (st : list Z) (kw : Z * Z) : list Z :=
  match st with
  | [a; b; c; d; e; f; g; h] =>
      let t1 := h + Sigma1 e + Ch e f g + kw.1 + kw.2 in
      let t2 := Sigma0 a + Maj a b c in
      [w32 (t1 + t2); a; b; c; w32 (d + t1); e; f; g]
  | _ => st
  end.

Definition compress (st block : list Z) : list Z :=
  zip_with (fun x y => w32 (x + y)) st
    (fold_left sha_round (zip round_constants (schedule_of block)) st).

(** ** Padding and digests *)

Definition bytes_of (s : string) : list Z := map byte_of (list_ascii_of_string s).
Definition string_of_bytes (l : list Z) : string := string_of_list_ascii (map of_byte l).

(** [n] big-endian bytes of [z]. *)
Fixpoint be_bytes (n : nat) (z : Z) : list Z :=
  match n with
  | O => []
  | S n' => be_bytes n' (z / 256) ++ [z mod 256]
  end.

Fixpoint be_word (l : list Z) (acc : Z) : Z :=
  match l with
  | [] => acc
  | b :: l' => be_word l' (acc * 256 + b)
  end.

(** A one bit, zeros up to 56 modulo 64 bytes, the length in bits. *)
Definition pad (msg : list Z) : list Z :=
  let n := List.length msg in
  let zeros := Z.to_nat ((55 - Z.of_nat n) mod 64) in
  msg ++ [128] ++ replicate zeros 0 ++ be_bytes 8 (8 * Z.of_nat n).

Fixpoint group (size count : nat) (l : list Z) : list (list Z) :=
  match count with
  | O => []
  | S n => take size l :: group size n (drop size l)
  end.

Definition blocks (msg : list Z) : list (list Z) :=
  let padded := pad msg in
  map (fun block => map (fun w => be_word w 0) (group 4 16 block))
    (group 64 (List.length padded / 64) padded).

Definition sha256_bytes (msg : list Z) : list Z :=
  fold_left compress (blocks msg) initial_hash ≫= be_bytes 4.

(** [sha256.Sum256]. *)
Definition Sum256 (s : string) : string := string_of_bytes (sha256_bytes (bytes_of s)).

(** ** HMAC *)

Definition hmac_key (key : list Z) : list Z :=
  let k := if (64 <? List.length key)%nat then sha256_bytes key else key in
  k ++ replicate (64 - List.length k) 0.

Definition hmac_bytes (key msg : list Z) : list Z :=
  let k := hmac_key key in
  sha256_bytes (map (Z.lxor 0x5c) k ++ sha256_bytes (map (Z.lxor 0x36) k ++ msg)).

(** [mac := hmac.New(sha256.New, secret); mac.Write(body); mac.Sum(nil)]. *)
Definition hmac_sha256 (secret body : string) : string :=
  string_of_bytes (hmac_bytes (bytes_of secret) (bytes_of body)).

(** ** Hexadecimal *)

Definition hex_digit (v : Z) : ascii := of_byte (if v <? 10 then 48 + v else 87 + v).

Fixpoint hex_EncodeToString (s : string) : string :=
  match s with
  | "" => ""
  | String c s' =>
      String (hex_digit (byte_of c / 16))
        (String (hex_digit (byte_of c mod 16)) (hex_EncodeToString s'))
  end.

Definition from_hex (c : ascii) : option Z :=
  let b := byte_of c in
  if (48 <=? b) && (b <=? 57) then Some (b - 48)
  else if (97 <=? b) && (b <=? 102) then Some (b - 87)
  else if (65 <=? b) && (b <=? 70) then Some (b - 55)
  else None.

(** [hex.DecodeString]; [None] is an error (odd length or a bad digit). *)
Fixpoint hex_DecodeString (s : string) : option string :=
  match s with
  | "" => Some ""
  | String c1 (String c2 s') =>
      match from_hex c1, from_hex c2, hex_DecodeString s' with
      | Some h, Some l, Some t => Some (String (of_byte (16 * h + l)) t)
      | _, _, _ => None
      end
  | String _ "" => None
  end.

(** ** Reference vectors *)

Example sha256_empty :
  hex_EncodeToString (Sum256 "") = "e3b0c44298fc1c149afbf4c8996fb92427ae41e4649b934ca495991b7852b855".
Proof. vm_compute. reflexivity. Qed.

Example sha256_abc :
  hex_EncodeToString (Sum256 "abc") = "ba7816bf8f01cfea414140de5dae2223b00361a396177a9cb410ff61f20015ad".
Proof. vm_compute. reflexivity. Qed.

Example sha256_two_blocks :
  hex_EncodeToString (Sum256 "abcdbcdecdefdefgefghfghighijhijkijkljklmklmnlmnomnopnopq")
  = "248d6a61d20638b8e5c026930c3e6039a33ce45964ff2167f6ecedd419db06c1".
Proof. vm_compute. reflexivity. Qed.

(** RFC 4231, test case 2. *)
Example hmac_rfc4231 :
  hex_EncodeToString (hmac_sha256 "Jefe" "what do ya want for nothing?")
  = "5bdcc146bf60754e6a042426089575c75a003f089d2739839dec58b964ec3843".
Proof. vm_compute. reflexivity. Qed.

(** ** Lemmas *)

Lemma from_hex_digit v : 0 <= v < 16 -> from_hex (hex_digit v) = Some v.
Proof.
  intros Hv. unfold from_hex, hex_digit. destruct (Z.ltb_spec v 10); rewrite byte_of_of by lia.
  - replace ((48 <=? 48 + v) && (48 + v <=? 57)) with true by lia. f_equal. lia.
  - replace ((48 <=? 87 + v) && (87 + v <=? 57)) with false by lia.
    replace ((97 <=? 87 + v) && (87 + v <=? 102)) with true by lia. f_equal. lia.
Qed.

(** Decoding what was encoded gives it back. *)
Lemma hex_roundtrip s : hex_DecodeString (hex_EncodeToString s) = Some s.
Proof.
  induction s as [|c s IH]; cbn [hex_EncodeToString hex_DecodeString]; [done|].
  pose proof (byte_of_bounds c). rewrite !from_hex_digit, IH.
  - do 2 f_equal. rewrite <- Z.div_mod by lia. apply of_byte_of.
  - apply Z.mod_pos_bound. lia.
  - split; [apply Z.div_pos; lia|apply Z.div_lt_upper_bound; lia].
Qed.

(** A string that decodes is an encoding, up to the case of its letters. *)
Lemma from_hex_lower c v :
  from_hex c = Some v -> 0 <= v < 16 /\ of_byte (ascii_lower (byte_of c)) = hex_digit v.
Proof.
  unfold from_hex, hex_digit, ascii_lower. pose proof (byte_of_bounds c).
  intros Hv. repeat destruct_match_in Hv; try done; injection Hv as <-; (split; [lia|]);
    f_equal; repeat destruct_match; lia.
Qed.

Lemma hex_decode_encode s t :
  hex_DecodeString s = Some t -> smap ascii_lower s = hex_EncodeToString t.
Proof.
  revert t. induction s as [s IH] using (induction_ltof1 _ String.length).
  destruct s as [|c1 [|c2 s]]; intros t; cbn [hex_DecodeString]; [by intros [= <-]|done|].
  destruct (from_hex c1) as [h|] eqn:E1; [|done]. destruct (from_hex c2) as [l|] eqn:E2; [|done].
  destruct (hex_DecodeString s) as [u|] eqn:E3; [|done]. intros [= <-].
  apply from_hex_lower in E1 as [H1 E1], E2 as [H2 E2].
  cbn [smap hex_EncodeToString]. rewrite byte_of_of by lia. rewrite E1, E2.
  rewrite (IH s) with u; [|unfold ltof; cbn; lia|done].
  replace ((16 * h + l) / 16) with h by (apply (Z.div_unique _ _ _ l); lia).
  by replace ((16 * h + l) mod 16) with l by (apply (Z.mod_unique _ _ h); lia).
Qed.

Lemma length_be_bytes n z : List.length (be_bytes n z) = n.
Proof. revert z. induction n as [|n IH]; intros z; cbn; [done|]. rewrite length_app, IH. cbn. lia. Qed.

(** *** Sizes *)

Lemma length_sha_round st kw : List.length st = 8%nat -> List.length (sha_round st kw) = 8%nat.
Proof. by destruct st as [|a [|b [|c [|d [|e [|f [|g [|h [|]]]]]]]]]. Qed.

Lemma length_sha_rounds l st :
  List.length st = 8%nat -> List.length (fold_left sha_round l st) = 8%nat.
Proof.
  revert st. induction l as [|kw l IH]; cbn; intros st Hst; [done|]. apply IH.
  by apply length_sha_round.
Qed.

Lemma length_compressions l st :
  List.length st = 8%nat -> List.length (fold_left compress l st) = 8%nat.
Proof.
  revert st. induction l as [|b l IH]; cbn; intros st Hst; [done|]. apply IH.
  unfold compress. rewrite length_zip_with, length_sha_rounds by done. lia.
Qed.

Lemma length_words l : List.length (l ≫= be_bytes 4) = (4 * List.length l)%nat.
Proof.
  induction l as [|x l IH]; [done|]. rewrite bind_cons, length_app, IH, length_be_bytes.
  cbn [List.length]. lia.
Qed.

(** A digest has 32 bytes. *)
Lemma length_Sum256 s : List.length (list_ascii_of_string (Sum256 s)) = 32%nat.
Proof.
  unfold Sum256, string_of_bytes. rewrite list_ascii_of_string_of_list_ascii.
  unfold sha256_bytes. rewrite length_map, length_words, length_compressions; done.
Qed.

Lemma hex_digit_hex v : 0 <= v < 16 -> is_Some (from_hex (hex_digit v)).
Proof. intros Hv. rewrite from_hex_digit by done. eauto. Qed.

Lemma hex_encode_hex s :
  sforall (fun c => bool_decide (is_Some (from_hex c))) (hex_EncodeToString s) = true.
Proof.
  induction s as [|c s IH]; [done|]. cbn [hex_EncodeToString sforall].
  pose proof (byte_of_bounds c). rewrite IH, !bool_decide_eq_true_2; [done|apply hex_digit_hex..].
  - apply Z.mod_pos_bound. lia.
  - split; [apply Z.div_pos; lia|apply Z.div_lt_upper_bound; lia].
Qed.
