(* ===== verification/GoUrl.v ===== *)
(** * Path segments of URLs: the parts of [net/url] the program uses

    [url.PathEscape] and its inverse on a path segment, byte by byte.
    [url.Parse] is only asked for a scheme and a host; it is the type class
    [UrlParser]. *)

From S2P Require Import Prelude GoStrings Sha256.
From stdpp Require Import base list strings.
From Stdlib Require Import ZArith Ascii String Lia.
Open Scope string_scope.
Open Scope list_scope.
Open Scope Z_scope.

Record URL : Set := mkURL { url_Scheme : string; url_Host : string }.

(** [url.Parse]; [None] is an error. *)
Class UrlParser : Set := url_Parse : string -> option URL.

(** [shouldEscape(c, encodePathSegment)], negated: letters, digits, the
    unreserved [-_.~], and the reserved bytes a segment may hold. *)
Definition path_safe (b : Z) : bool :=
  (97 <=? b) && (b <=? 122) || (65 <=? b) && (b <=? 90) || (48 <=? b) && (b <=? 57)
  || (b =? 45) || (b =? 95) || (b =? 46) || (b =? 126)
  || (b =? 36) || (b =? 38) || (b =? 43) || (b =? 58) || (b =? 61) || (b =? 64).

Definition upper_hex (v : Z) : ascii := of_byte (if v <? 10 then 48 + v else 55 + v).

Fixpoint PathEscape (s : string) : string :=
  match s with
  | "" => ""
  | String c s' =>
      if path_safe (byte_of c) then String c (PathEscape s')
      else String "%" (String (upper_hex (byte_of c / 16))
             (String (upper_hex (byte_of c mod 16)) (PathEscape s')))
  end.

(** [url.PathUnescape]; [None] is an error. *)
Fixpoint PathUnescape (s : string) : option string :=
  match s with
  | "" => Some ""
  | String c s' =>
      if Ascii.eqb c "%" then
        match s' with
        | String c1 (String c2 s'') =>
            match from_hex c1, from_hex c2, PathUnescape s'' with
            | Some h, Some l, Some t => Some (String (of_byte (16 * h + l)) t)
            | _, _, _ => None
            end
        | _ => None
        end
      else match PathUnescape s' with Some t => Some (String c t) | None => None end
  end.

Lemma from_hex_upper v : 0 <= v < 16 -> from_hex (upper_hex v) = Some v.
Proof.
  intros Hv. unfold from_hex, upper_hex. destruct (Z.ltb_spec v 10); rewrite byte_of_of by lia;
    repeat destruct_match; try lia; f_equal; lia.
Qed.

(** A segment survives the trip through a URL. *)
Lemma PathUnescape_PathEscape s : PathUnescape (PathEscape s) = Some s.
Proof.
  induction s as [|c s IH]; [done|]. cbn [PathEscape]. pose proof (byte_of_bounds c).
  destruct (path_safe (byte_of c)) eqn:Es; cbn [PathUnescape].
  - destruct (Ascii.eqb_spec c "%") as [->|]; [done|]. by rewrite IH.
  - rewrite Ascii.eqb_refl, !from_hex_upper, IH.
    + do 2 f_equal. rewrite <- Z.div_mod by lia. apply of_byte_of.
    + apply Z.mod_pos_bound. lia.
    + split; [apply Z.div_pos; lia|apply Z.div_lt_upper_bound; lia].
Qed.

(** An escaped segment has no slash: it stays one segment. *)
Lemma PathEscape_one_segment s : sforall (fun c => negb (Ascii.eqb c "/")) (PathEscape s) = true.
Proof.
  assert (Hhex : forall v, 0 <= v < 16 -> Ascii.eqb (upper_hex v) "/" = false).
  { intros v Hv. destruct (Ascii.eqb_spec (upper_hex v) "/") as [E|]; [|done].
    apply from_hex_upper in Hv. by rewrite E in Hv. }
  induction s as [|c s IH]; [done|]. cbn [PathEscape]. pose proof (byte_of_bounds c).
  destruct (path_safe (byte_of c)) eqn:Es; cbn [sforall]; rewrite IH.
  - by destruct (Ascii.eqb_spec c "/") as [->|].
  - rewrite !Hhex; [done|..].
    + apply Z.mod_pos_bound. lia.
    + split; [apply Z.div_pos; lia|apply Z.div_lt_upper_bound; lia].
Qed.

#[export] Instance PathEscape_inj : Inj (=) (=) PathEscape.
Proof.
  intros s t E. apply (f_equal PathUnescape) in E. rewrite !PathUnescape_PathEscape in E. congruence.
Qed.
