(* ===== verification/GoConv.v ===== *)
(** * Numbers, paths: the parts of [strconv] and [path/filepath] the backend uses

    [strconv.ParseInt(s, 10, 64)] and [strconv.Atoi] with their range errors,
    and what [filepath.Clean] does to a path that ends in ordinary
    components. *)

From S2P Require Import Prelude GoStrings.
From stdpp Require Import base list strings pretty.
From Stdlib Require Import ZArith Ascii String Lia.
Open Scope string_scope.
Open Scope list_scope.
Open Scope Z_scope.

(** ** Decimal integers *)

Fixpoint parse_digits (acc : Z) (s : string) : option Z :=
  match s with
  | "" => Some acc
  | String c s' => if is_digit c then parse_digits (acc * 10 + (byte_of c - 48)) s' else None
  end.

Definition parse_unsigned (s : string) : option Z :=
  if String.eqb s "" then None else parse_digits 0 s.

(** [None] is an error: bad syntax or a value outside 64 bits. *)
Definition ParseInt (s : string) : option Z :=
  let value :=
    match s with
    | String c s' =>
        if Ascii.eqb c "-" then option_map Z.opp (parse_unsigned s')
        else if Ascii.eqb c "+" then parse_unsigned s'
        else parse_unsigned s
    | "" => None
    end in
  match value with
  | Some v => if (int64_min <=? v) && (v <=? int64_max) then Some v else None
  | None => None
  end.

Lemma ParseInt_range s n : ParseInt s = Some n -> int64_min <= n <= int64_max.
Proof.
  unfold ParseInt. destruct (match s with "" => None | _ => _ end) as [v|]; [|done].
  destruct (_ && _) eqn:E; [|done]. intros [= <-]. lia.
Qed.

(** [strconv.Atoi]; [int] has 64 bits. *)
Definition Atoi (s : string) : option Z := ParseInt s.

Example ParseInt_examples :
  map ParseInt ["42"; "-7"; "+5"; ""; "-"; "4 2"; "9223372036854775807"; "9223372036854775808"]
  = [Some 42; Some (-7); Some 5; None; None; None; Some int64_max; None].
Proof. reflexivity. Qed.

Lemma digit_value n :
  (n < 10)%N -> is_digit (pretty_N_char n) = true /\ byte_of (pretty_N_char n) - 48 = Z.of_N n.
Proof.
  intros Hn. split; [apply pretty_N_char_digit|].
  destruct n as [|p]; [done|]. do 4 (destruct p as [p|p|]; try done; try lia).
Qed.

Lemma parse_pretty_N_go n s : parse_digits 0 (pretty_N_go n s) = parse_digits (Z.of_N n) s.
Proof.
  revert s. induction (N.lt_wf_0 n) as [n _ IH]. intros s.
  destruct (decide (n = 0%N)) as [->|Hn]; [by rewrite pretty_N_go_0|].
  rewrite pretty_N_go_step by lia. rewrite IH by (apply N.div_lt; lia). cbn [parse_digits].
  destruct (digit_value (n mod 10)) as [-> ->]; [by apply N.mod_lt|].
  f_equal. rewrite <- (N2Z.inj_mul _ 10), <- N2Z.inj_add. f_equal.
  rewrite N.mul_comm. symmetry. apply N.div_mod. done.
Qed.

Lemma parse_FormatInt n : 0 <= n -> parse_unsigned (FormatInt n) = Some n.
Proof.
  intros Hn. unfold parse_unsigned.
  destruct (String.eqb_spec (FormatInt n) "") as [E|_]; [by apply FormatInt_nonempty in E|].
  unfold FormatInt, pretty, pretty_Z. destruct n as [|p|p]; [done| |lia].
  unfold pretty, pretty_positive, pretty, pretty_N. case_decide; [done|].
  by rewrite parse_pretty_N_go.
Qed.

(** What [FormatInt] writes, [ParseInt] reads. *)
Lemma ParseInt_FormatInt n : 0 <= n <= int64_max -> ParseInt (FormatInt n) = Some n.
Proof.
  intros Hn. pose proof (FormatInt_digits n ltac:(lia)) as Hd.
  pose proof (FormatInt_nonempty n) as Hne. pose proof (parse_FormatInt n ltac:(lia)) as Hp.
  unfold ParseInt. destruct (FormatInt n) as [|c s]; [done|]. cbn [sforall] in Hd.
  apply andb_true_iff in Hd as [Hc _].
  destruct (Ascii.eqb_spec c "-") as [->|_]; [done|]. destruct (Ascii.eqb_spec c "+") as [->|_]; [done|].
  rewrite Hp. unfold int64_min, int64_max in *. by replace (_ && _) with true by lia.
Qed.

(** A string of visible ASCII characters has nothing to trim. *)
Definition visible (c : ascii) : bool := (32 <? byte_of c) && (byte_of c <? 127).

Lemma TrimSpace_visible s : sforall visible s = true -> TrimSpace s = s.
Proof.
  intros Hs. unfold TrimSpace. fold (trim_list (fun c : Z * string => is_space c.1) (chunks s)).
  rewrite trim_list_id; [apply sconcat_chunks|]. intros [r b] Hend.
  assert (Hr : r ∈ runes s).
  { unfold runes. apply list_elem_of_fmap. exists (r, b). split; [done|].
    destruct Hend as [Hh|Hl]; [by apply head_Some_elem_of in Hh|by apply last_Some_elem_of in Hl]. }
  rewrite runes_ascii in Hr.
  2: { revert Hs. apply sforall_impl. unfold visible, is_ascii_byte. lia. }
  apply list_elem_of_fmap in Hr as (c & -> & Hc). apply sforall_Forall in Hs.
  rewrite Forall_forall in Hs. specialize (Hs c Hc). unfold visible in Hs. cbn [fst].
  unfold is_space. lia.
Qed.

Lemma visible_digits s : sforall is_digit s = true -> sforall visible s = true.
Proof. apply sforall_impl. unfold is_digit, visible. lia. Qed.

Lemma TrimSpace_digits s : sforall is_digit s = true -> TrimSpace s = s.
Proof. intros Hs. by apply TrimSpace_visible, visible_digits. Qed.

(** ** Paths *)

(** A path component that [filepath.Clean] keeps as it is. *)
Record proper (p : string) : Prop := {
  proper_nonempty : p <> "";
  proper_dot : p <> ".";
  proper_dotdot : p <> "..";
  proper_segment : sforall (fun c => negb (Ascii.eqb c "/")) p = true;
}.

(** The components of a cleaned path. *)
Definition components (path : string) : list string :=
  clean_loop (HasPrefix path "/") (Split path "/") [].

(** [filepath.Join] of non-empty elements. *)
Definition filepath_Join (elems : list string) : string :=
  match List.filter (fun e => negb (String.eqb e "")) elems with
  | [] => ""
  | es => filepath_Clean (join_slash es)
  end.

Definition filepath_IsAbs (path : string) : bool := HasPrefix path "/".

Lemma Split_nonempty s c : Split s c <> [].
Proof. destruct s as [|a s]; [done|]. cbn. destruct (Ascii.eqb a c); [done|]. by destruct (Split s c). Qed.

Lemma Split_app s c t : Split (s +:+ String c t) c = Split s c ++ Split t c.
Proof.
  induction s as [|a s IH].
  - change ("" +:+ String c t) with (String c t). cbn. by rewrite Ascii.eqb_refl.
  - rewrite sapp_cons. cbn. destruct (Ascii.eqb a c); [by rewrite IH|]. rewrite IH.
    pose proof (Split_nonempty s c). by destruct (Split s c).
Qed.

Lemma Split_segment p c :
  sforall (fun a => negb (Ascii.eqb a c)) p = true -> Split p c = [p].
Proof.
  induction p as [|a p IH]; cbn; [done|]. intros [Ha Hp]%andb_true_iff.
  destruct (Ascii.eqb a c); [done|]. by rewrite IH.
Qed.

Lemma clean_loop_proper rooted parts p out :
  proper p -> clean_loop rooted (parts ++ [p]) out = clean_loop rooted parts out ++ [p].
Proof.
  intros [H0 H1 H2 _]. revert out. induction parts as [|q parts IH]; intros out; cbn [clean_loop app].
  - apply String.eqb_neq in H0, H1, H2. rewrite H0, H1, H2. done.
  - repeat destruct_match; apply IH.
Qed.

Lemma HasPrefix_app s t p : HasPrefix s p = true -> HasPrefix (s +:+ t) p = true.
Proof. rewrite !HasPrefix_spec. intros [u ->]. exists (u +:+ t). by rewrite sapp_assoc. Qed.

(** An ordinary component is added at the end. *)
Lemma components_snoc path p :
  path <> "" -> proper p -> components (path +:+ String "/" p) = components path ++ [p].
Proof.
  intros Hpath Hp. unfold components. rewrite Split_app, (Split_segment p) by apply Hp.
  rewrite clean_loop_proper by done. do 2 f_equal.
  destruct path as [|c path]; [done|]. rewrite sapp_cons. unfold HasPrefix. cbn [String.prefix].
  by destruct (Ascii.ascii_dec "/" c), path.
Qed.

(** The text of a path from its components. *)
Definition render (rooted : bool) (cs : list string) : string :=
  if rooted then "/" +:+ join_slash cs
  else if String.eqb (join_slash cs) "" then "." else join_slash cs.

Lemma Clean_render path : filepath_Clean path = render (HasPrefix path "/") (components path).
Proof. done. Qed.

Lemma join_slash_snoc cs p :
  cs <> [] -> join_slash (cs ++ [p]) = join_slash cs +:+ "/" +:+ p.
Proof.
  induction cs as [|c cs IH]; [done|]. intros _. destruct cs as [|c' cs]; [done|].
  change (c +:+ "/" +:+ join_slash ((c' :: cs) ++ [p]) = (c +:+ "/" +:+ join_slash (c' :: cs)) +:+ "/" +:+ p).
  rewrite IH by done. by rewrite !sapp_assoc.
Qed.
