(* ===== verification/GoFlag.v ===== *)
(** * [time.ParseDuration], [strconv] with base 0, and package [flag]

    What the two commands use to read their settings.  The fractions of a
    duration are computed in [float64], here Stdlib's [SpecFloat]. *)

From S2P Require Import Prelude GoTime GoStrings GoConv.
From stdpp Require Import base list strings gmap.
From Stdlib Require Import ZArith Ascii String Lia SpecFloat.
Open Scope string_scope.
Open Scope list_scope.
Open Scope Z_scope.

(** ** [float64] *)

Abbreviation float64 := spec_float.

Definition float_of (z : Z) : float64 := binary_normalize 53 1024 z 0 false.
Definition float_mul : float64 -> float64 -> float64 := SFmul 53 1024.
Definition float_div : float64 -> float64 -> float64 := SFdiv 53 1024.

(** [uint64(x)], of a non-negative [x]. *)
Definition float_trunc (x : float64) : Z :=
  match x with
  | S754_finite _ m e => if 0 <=? e then Zpos m * 2 ^ e else Zpos m / 2 ^ (- e)
  | _ => 0
  end.

(** ** [time.ParseDuration] *)

Definition Microsecond : Duration := 1000.
Definition Millisecond : Duration := 1000 * Microsecond.

Definition two63 : Z := 9223372036854775808.

(** [leadingInt]: the digits at the start, [None] when they overflow. *)
Fixpoint leadingInt (x : Z) (s : string) : option (Z * string) :=
  match s with
  | String c s' =>
      if is_digit c then
        if two63 / 10 <? x then None else
        let x' := x * 10 + (byte_of c - 48) in
        if two63 <? x' then None else leadingInt x' s'
      else Some (x, s)
  | "" => Some (x, "")
  end.

(** [leadingFraction]: digits that would overflow are dropped. *)
Fixpoint leadingFraction (x : Z) (scale : float64) (overflow : bool) (s : string)
  : Z * float64 * string :=
  match s with
  | String c s' =>
      if is_digit c then
        if overflow || ((two63 - 1) / 10 <? x) then leadingFraction x scale true s' else
        let y := x * 10 + (byte_of c - 48) in
        if two63 <? y then leadingFraction x scale true s'
        else leadingFraction y (float_mul scale (float_of 10)) false s'
      else (x, scale, s)
  | "" => (x, scale, "")
  end.

Definition unit_of (u : string) : option Z :=
  if String.eqb u "ns" then Some 1
  else if String.eqb u "us" || String.eqb u "µs" || String.eqb u "μs" then Some Microsecond
  else if String.eqb u "ms" then Some Millisecond
  else if String.eqb u "s" then Some Second
  else if String.eqb u "m" then Some Minute
  else if String.eqb u "h" then Some Hour
  else None.

(** The unit ends at a digit or a point. *)
Fixpoint span_unit (s : string) : string * string :=
  match s with
  | String c s' =>
      if Ascii.eqb c "." || is_digit c then ("", s)
      else let '(u, r) := span_unit s' in (String c u, r)
  | "" => ("", "")
  end.

(** The part after a point, its scale, the rest, and whether it has digits. *)
Definition fraction (s : string) : Z * float64 * string * bool :=
  match s with
  | String "." s' =>
      let '(f, scale, rest) := leadingFraction 0 (float_of 1) false s' in
      (f, scale, rest, negb (String.eqb s' rest))
  | _ => (0, float_of 1, s, false)
  end.

(** One number with its unit: its nanoseconds and the rest. *)
Definition duration_term (s : string) : option (Z * string) :=
  '(v, s1) ← leadingInt 0 s;
  let pre := negb (String.eqb s s1) in
  let '(f, scale, s2, post) := fraction s1 in
  if negb pre && negb post then None else
  let '(u, rest) := span_unit s2 in
  unit ← unit_of u;
  if two63 / unit <? v then None else
  let v := v * unit in
  if 0 <? f then
    let v := v + float_trunc (float_mul (float_of f) (float_div (float_of unit) scale)) in
    if two63 <? v then None else Some (v, rest)
  else Some (v, rest).

(** The fuel is at least the number of terms: each takes a byte. *)
Fixpoint duration_terms (fuel : nat) (d : Z) (s : string) : option Z :=
  match fuel, s with
  | _, "" => Some d
  | O, _ => None
  | S n, _ =>
      '(v, rest) ← duration_term s;
      let d := d + v in
      if two63 <? d then None else duration_terms n d rest
  end.

Definition ParseDuration (s : string) : option Duration :=
  let '(neg, body) :=
    match s with
    | String c s' => if Ascii.eqb c "-" then (true, s') else if Ascii.eqb c "+" then (false, s') else (false, s)
    | "" => (false, s)
    end in
  if String.eqb body "0" then Some 0
  else if String.eqb body "" then None
  else
    d ← duration_terms (String.length body) 0 body;
    if neg then Some (- d) else if two63 - 1 <? d then None else Some d.

Example ParseDuration_examples :
  map ParseDuration ["45s"; "1h30m"; "-1.5h"; "100ms"; "2us"; ".5m"; "1.0000000001h"; "0"; "";
                     "5"; "3x"; "."; "9223372036854775807ns"; "9223372036854775808ns";
                     "-9223372036854775808ns"; "0.3333333333333333333h"]
  = [Some (45 * Second); Some (90 * Minute); Some (- (90 * Minute)); Some (100 * Millisecond);
     Some 2000; Some (30 * Second); Some (Hour + 360); Some 0; None; None; None; None;
     Some int64_max; None; Some int64_min; Some (20 * Minute)].
Proof. vm_compute. reflexivity. Qed.

(** ** [strconv.ParseBool], [strconv.ParseInt(s, 0, 64)] *)

Definition ParseBool (s : string) : option bool :=
  if bool_decide (s ∈ ["1"; "t"; "T"; "TRUE"; "true"; "True"]) then Some true
  else if bool_decide (s ∈ ["0"; "f"; "F"; "FALSE"; "false"; "False"]) then Some false
  else None.

Definition lower_byte (c : ascii) : Z := Z.lor (byte_of c) 32.

(** The value of a digit in bases up to 36. *)
Definition digit_of (c : ascii) : option Z :=
  let l := lower_byte c in
  if is_digit c then Some (byte_of c - 48)
  else if (97 <=? l) && (l <=? 122) then Some (l - 87)
  else None.

(** Digits in [base], underscores skipped. *)
Fixpoint digits_in (base n : Z) (s : string) : option Z :=
  match s with
  | "" => Some n
  | String c s' =>
      if Ascii.eqb c "_" then digits_in base n s'
      else d ← digit_of c; if base <=? d then None else digits_in base (n * base + d) s'
  end.

(** The base that a prefix announces, and what follows it. *)
Definition base_of (s : string) : Z * string :=
  match s with
  | String "0" (String c (String _ _ as s')) =>
      if lower_byte c =? 98 then (2, sdrop 2 s)
      else if lower_byte c =? 111 then (8, sdrop 2 s)
      else if lower_byte c =? 120 then (16, sdrop 2 s)
      else (8, sdrop 1 s)
  | String "0" s' => (8, s')
  | _ => (10, s)
  end.

(** Underscores separate digits, or follow the base prefix.  [prev]: the last
    character was a digit, an underscore, or something else. *)
Inductive Seen : Set := SDigit | SUnderscore | SOther.

Fixpoint underscores (hex : bool) (prev : Seen) (s : string) : bool :=
  match s with
  | "" => match prev with SUnderscore => false | _ => true end
  | String c s' =>
      if is_digit c || hex && (97 <=? lower_byte c) && (lower_byte c <=? 102)
      then underscores hex SDigit s'
      else if Ascii.eqb c "_" then
        match prev with SDigit => underscores hex SUnderscore s' | _ => false end
      else match prev with SUnderscore => false | _ => underscores hex SOther s' end
  end.

Definition underscoreOK (s : string) : bool :=
  match s with
  | String "0" (String c s') =>
      if (lower_byte c =? 98) || (lower_byte c =? 111) || (lower_byte c =? 120)
      then underscores (lower_byte c =? 120) SDigit s'
      else underscores false SOther s
  | _ => underscores false SOther s
  end.

Definition ParseInt0 (s : string) : option Z :=
  let '(neg, body) :=
    match s with
    | String c s' => if Ascii.eqb c "-" then (true, s') else if Ascii.eqb c "+" then (false, s') else (false, s)
    | "" => (false, s)
    end in
  if String.eqb body "" then None else
  let '(base, digits) := base_of body in
  n ← digits_in base 0 digits;
  if negb (underscoreOK body) then None else
  let v := if neg then - n else n in
  if (int64_min <=? v) && (v <=? int64_max) then Some v else None.

Example ParseInt0_examples :
  map ParseInt0 ["42"; "0x1F"; "0b101"; "-017"; "1_000"; "1__0"; "_1"; "0x_1"; "0"; ""; "-"; "08";
                 "9223372036854775808"; "-9223372036854775808"; "4a"; "0x"]
  = [Some 42; Some 31; Some 5; Some (-15); Some 1000; None; None; Some 1; Some 0; None; None; None;
     None; Some int64_min; None; None].
Proof. vm_compute. reflexivity. Qed.

(** ** Package [flag] *)

Inductive FlagKind : Set := FString | FBool | FInt | FDuration.

Inductive FlagValue : Set :=
| VString (s : string)
| VBool (b : bool)
| VInt (n : Z)
| VDuration (d : Duration).

(** [Value.Set]. *)
Definition flag_Set (k : FlagKind) (text : string) : option FlagValue :=
  match k with
  | FString => Some (VString text)
  | FBool => VBool <$> ParseBool text
  | FInt => VInt <$> ParseInt0 text
  | FDuration => VDuration <$> ParseDuration text
  end.

(** [name=value], split at the first [=]; a name is not empty. *)
Fixpoint split_eq (s : string) : string * option string :=
  match s with
  | "" => ("", None)
  | String c s' =>
      if Ascii.eqb c "=" then ("", Some s')
      else let '(n, v) := split_eq s' in (String c n, v)
  end.

(** The flag a command-line argument starts with; [None] ends the flags. *)
Definition flag_of (arg : string) : option string :=
  match arg with
  | String "-" (String "-" name) => if String.eqb name "" then None else Some name
  | String "-" (String c name) => Some (String c name)
  | _ => None
  end.

(** [flag.Parse] with [ExitOnError]: [None] is the exit of the process, for an
    undefined flag, a bad value or a request for help. *)
Fixpoint flag_Parse (flags : list (string * FlagKind)) (args : list string)
  (vals : gmap string FlagValue) : option (gmap string FlagValue) :=
  match args with
  | [] => Some vals
  | arg :: args' =>
      match flag_of arg with
      | None => Some vals
      | Some spelled =>
          if HasPrefix spelled "-" || HasPrefix spelled "=" then None else
          let '(name, value) := split_eq spelled in
          match List.find (fun f => String.eqb f.1 name) flags, value, args' with
          | None, _, _ => None
          | Some (_, FBool), None, _ => flag_Parse flags args' (<[name := VBool true]> vals)
          | Some (_, k), Some text, _ =>
              v ← flag_Set k text; flag_Parse flags args' (<[name := v]> vals)
          | Some (_, k), None, text :: args'' =>
              v ← flag_Set k text; flag_Parse flags args'' (<[name := v]> vals)
          | Some _, None, [] => None
          end
      end
  end.

(** The variables the flags are bound to. *)
Definition string_flag (vals : gmap string FlagValue) (name default : string) : string :=
  match vals !! name with Some (VString s) => s | _ => default end.
Definition bool_flag (vals : gmap string FlagValue) (name : string) (default : bool) : bool :=
  match vals !! name with Some (VBool b) => b | _ => default end.
Definition int_flag (vals : gmap string FlagValue) (name : string) (default : Z) : Z :=
  match vals !! name with Some (VInt n) => n | _ => default end.
Definition duration_flag (vals : gmap string FlagValue) (name : string) (default : Duration)
  : Duration :=
  match vals !! name with Some (VDuration d) => d | _ => default end.

Example flag_Parse_example :
  flag_Parse [("listen", FString); ("insecure-http", FBool); ("runner-cpu", FInt)]
    ["--listen"; ":80"; "-insecure-http"; "-runner-cpu=0x10"; "rest"; "-listen=x"] ∅
  = Some (<["runner-cpu" := VInt 16]> (<["insecure-http" := VBool true]>
      (<["listen" := VString ":80"]> ∅))).
Proof. vm_compute. reflexivity. Qed.

(** ** Values in range *)

Definition value_ok (v : FlagValue) : Prop :=
  match v with VInt n => in_int64 n | VDuration d => in_int64 d | _ => True end.

Lemma ParseInt0_range s n : ParseInt0 s = Some n -> in_int64 n.
Proof.
  unfold ParseInt0. destruct (match s with "" => _ | _ => _ end) as [neg body].
  destruct (String.eqb body ""); [done|]. destruct (base_of body) as [base digits].
  destruct (digits_in base 0 digits) as [m|]; [|done]. cbn [mbind option_bind].
  destruct (negb _); [done|]. destruct (_ && _) eqn:E; [|done]. intros [= <-].
  unfold in_int64. lia.
Qed.

Lemma leadingInt_range x s v r : 0 <= x <= two63 -> leadingInt x s = Some (v, r) -> 0 <= v <= two63.
Proof.
  revert x. induction s as [|c s IH]; intros x Hx; cbn [leadingInt]; [by intros [= <- _]|].
  destruct (is_digit c) eqn:Ec; [|by intros [= <- _]]. unfold is_digit in Ec.
  destruct (_ <? x); [done|]. destruct (Z.ltb_spec two63 (x * 10 + (byte_of c - 48))); [done|].
  apply IH. lia.
Qed.

Lemma float_trunc_nonneg x : 0 <= float_trunc x.
Proof.
  destruct x as [| | |s m e]; cbn; try lia.
  destruct (Z.leb_spec 0 e); [apply Z.mul_nonneg_nonneg; lia|apply Z.div_pos; lia].
Qed.

Lemma unit_of_pos u n : unit_of u = Some n -> 0 < n.
Proof. unfold unit_of. repeat destruct (String.eqb _ _); intros [= <-]; by vm_compute. Qed.

(** The value of a term, and the bounds [ParseDuration] checks. *)
Lemma duration_term_range s v r : duration_term s = Some (v, r) -> 0 <= v <= two63.
Proof.
  unfold duration_term. destruct (leadingInt 0 s) as [[n s1]|] eqn:El; [|done].
  apply leadingInt_range in El; [|done]. cbn [mbind option_bind].
  destruct (fraction s1) as [[[f scale] s2] post].
  destruct (_ && _); [done|]. destruct (span_unit s2) as [u rest].
  destruct (unit_of u) as [unit|] eqn:Eu; [|done]. apply unit_of_pos in Eu. cbn [mbind option_bind].
  destruct (Z.ltb_spec (two63 / unit) n) as [|Hle]; [done|].
  assert (n * unit <= two63).
  { etrans; [apply Z.mul_le_mono_nonneg_r; [lia|exact Hle]|]. rewrite Z.mul_comm. by apply Z.mul_div_le. }
  assert (0 <= n * unit) by (apply Z.mul_nonneg_nonneg; lia).
  destruct (0 <? f).
  - set (t := float_trunc _). assert (0 <= t) by apply float_trunc_nonneg. clearbody t.
    destruct (Z.ltb_spec two63 (n * unit + t)); [done|]. intros [= <- _]. lia.
  - intros [= <- _]. lia.
Qed.

Lemma duration_terms_range n d s v : 0 <= d <= two63 -> duration_terms n d s = Some v -> 0 <= v <= two63.
Proof.
  revert d s. induction n as [|n IH]; intros d s Hd; destruct s as [|c s]; cbn [duration_terms];
    try (intros [= <-]; lia); try done.
  destruct (duration_term (String c s)) as [[t rest]|] eqn:Et; [|done]. cbn [mbind option_bind].
  apply duration_term_range in Et. destruct (Z.ltb_spec two63 (d + t)); [done|]. apply IH. lia.
Qed.

Lemma ParseDuration_range s d : ParseDuration s = Some d -> in_int64 d.
Proof.
  unfold ParseDuration. destruct (match s with "" => _ | _ => _ end) as [neg body].
  destruct (String.eqb body "0"); [by intros [= <-]|]. destruct (String.eqb body ""); [done|].
  destruct (duration_terms _ 0 body) as [v|] eqn:Ev; [|done]. cbn [mbind option_bind].
  apply duration_terms_range in Ev; [|done]. unfold in_int64, int64_min, int64_max, two63 in *.
  destruct neg; [intros [= <-]; lia|]. destruct (Z.ltb_spec (9223372036854775808 - 1) v); [done|].
  intros [= <-]. lia.
Qed.

Lemma flag_Set_ok k text v : flag_Set k text = Some v -> value_ok v.
Proof.
  destruct k; cbn.
  - by intros [= <-].
  - destruct (ParseBool text); [|done]. by intros [= <-].
  - destruct (ParseInt0 text) eqn:E; [|done]. intros [= <-]. by apply ParseInt0_range in E.
  - destruct (ParseDuration text) eqn:E; [|done]. intros [= <-]. by apply ParseDuration_range in E.
Qed.

(** Every value a flag is set to fits its type. *)
Lemma flag_Parse_ok flags args vals vals' :
  map_Forall (fun _ => value_ok) vals -> flag_Parse flags args vals = Some vals' ->
  map_Forall (fun _ => value_ok) vals'.
Proof.
  revert vals. induction args as [args IH] using (induction_ltof1 _ List.length).
  intros vals Hv. destruct args as [|arg args']; cbn [flag_Parse]; [by intros [= <-]|].
  destruct (flag_of arg) as [spelled|]; [|by intros [= <-]].
  destruct (_ || _); [done|]. destruct (split_eq spelled) as [name value].
  destruct (List.find _ flags) as [[fname k]|]; [|done].
  assert (Hset : forall text rest, (List.length rest < List.length (arg :: args'))%nat ->
    (v ← flag_Set k text; flag_Parse flags rest (<[name := v]> vals)) = Some vals' ->
    map_Forall (fun _ => value_ok) vals').
  { intros text rest Hl. destruct (flag_Set k text) as [v|] eqn:Es; [|done]. cbn [mbind option_bind].
    apply IH; [done|]. apply map_Forall_insert_2; [|done]. by eapply flag_Set_ok. }
  destruct value as [text|].
  - destruct k; apply (Hset text args'); cbn; lia.
  - destruct k; (destruct args' as [|text args'']; [try done|]);
      try (apply (Hset text args''); cbn; lia); (apply IH; [unfold ltof; cbn; lia|]);
      by apply map_Forall_insert_2.
Qed.

Lemma int_flag_ok vals name default :
  map_Forall (fun _ => value_ok) vals -> in_int64 default -> in_int64 (int_flag vals name default).
Proof.
  intros Hv Hd. unfold int_flag. destruct (vals !! name) as [v|] eqn:E; [|done].
  apply Hv in E. by destruct v.
Qed.

(** Decimal digits, then something else. *)
Lemma parse_digits_ge x s v : 0 <= x -> parse_digits x s = Some v -> x <= v.
Proof.
  revert x. induction s as [|c s IH]; intros x Hx; cbn [parse_digits]; [by intros [= <-]|].
  destruct (is_digit c) eqn:Ec; [|done]. unfold is_digit in Ec. intros Hp%IH; lia.
Qed.

Lemma leadingInt_digits s u x v :
  0 <= x -> parse_digits x s = Some v -> v <= two63 ->
  (match u with String c _ => is_digit c = false | "" => True end) ->
  leadingInt x (s +:+ u) = Some (v, u).
Proof.
  revert x. induction s as [|c s IH]; intros x Hx; cbn [parse_digits].
  - intros [= <-] _ Hu. change ("" +:+ u) with u. destruct u as [|c u]; [done|]. cbn [leadingInt].
    by rewrite Hu.
  - destruct (is_digit c) eqn:Ec; [|done]. intros Hp Hv Hu. rewrite sapp_cons. cbn [leadingInt].
    rewrite Ec. unfold is_digit in Ec. apply parse_digits_ge in Hp as Hge; [|lia].
    destruct (Z.ltb_spec (two63 / 10) x) as [Hlt|]; [unfold two63 in *; Z.to_euclidean_division_equations; lia|].
    destruct (Z.ltb_spec two63 (x * 10 + (byte_of c - 48))); [lia|]. apply IH; [lia|done..].
Qed.

(** The units of package [time]. *)
Definition units : list string := ["ns"; "us"; "µs"; "μs"; "ms"; "s"; "m"; "h"].

(** A whole number of a unit is read as what it says. *)
Lemma ParseDuration_whole n u unit :
  u ∈ units -> unit_of u = Some unit -> 0 <= n -> n * unit <= int64_max ->
  ParseDuration (FormatInt n +:+ u) = Some (n * unit).
Proof.
  intros Hu Hunit Hn Hmax. pose proof (unit_of_pos _ _ Hunit) as Hpos.
  assert (Hshape : exists c u', u = String c u' /\ is_digit c = false /\ c <> "."%char
                    /\ span_unit u = (u, "")).
  { unfold units in Hu. rewrite !elem_of_cons in Hu.
    destruct_or? Hu; subst; try (eexists _, _; split_and!; try done; by vm_compute).
    by apply elem_of_nil in Hu. }
  destruct Hshape as (c & u' & -> & Hc & Hdot & Hspan).
  pose proof (parse_FormatInt n Hn) as Hp. pose proof (FormatInt_digits n Hn) as Hd.
  unfold parse_unsigned in Hp. destruct (FormatInt n) as [|d s] eqn:Ef; [done|].
  cbn [String.eqb] in Hp. assert (Hds : is_digit d = true) by (cbn [sforall] in Hd; by apply andb_true_iff in Hd as [? _]).
  assert (Hv : n <= two63).
  { unfold int64_max, two63 in *. nia. }
  assert (Hterm : duration_term (String d s +:+ String c u') = Some (n * unit, "")).
  { unfold duration_term. rewrite (leadingInt_digits _ _ 0 n) by done. cbn [mbind option_bind].
    replace (negb (String.eqb (String d s +:+ String c u') (String c u'))) with true.
    2: { symmetry. apply negb_true_iff, String.eqb_neq. intros E. apply (f_equal String.length) in E.
         rewrite slength_app in E. cbn in E. lia. }
    assert (fraction (String c u') = (0, float_of 1, String c u', false)) as ->
      by (destruct c as [[] [] [] [] [] [] [] []]; done).
    cbn [andb negb]. rewrite Hspan, Hunit. cbn [mbind option_bind].
    destruct (Z.ltb_spec (two63 / unit) n) as [Hlt|]; [|done].
    assert (n <= two63 / unit); [|lia]. apply Z.div_le_lower_bound; [lia|].
    unfold int64_max, two63 in *. lia. }
  unfold ParseDuration. rewrite sapp_cons in *.
  replace (Ascii.eqb d "-") with false by (symmetry; apply Ascii.eqb_neq; intros ->; done).
  replace (Ascii.eqb d "+") with false by (symmetry; apply Ascii.eqb_neq; intros ->; done).
  destruct (String.eqb_spec (String d (s +:+ String c u')) "0") as [E|_].
  { exfalso. injection E as _ E. by destruct s. }
  cbn [String.eqb String.length duration_terms]. rewrite Hterm. cbn [mbind option_bind].
  rewrite Z.add_0_l. unfold int64_max, two63 in *.
  destruct (Z.ltb_spec 9223372036854775808 (n * unit)); [lia|].
  assert (Hend : forall k, duration_terms k (n * unit) "" = Some (n * unit)) by by intros [].
  rewrite Hend. cbn [mbind option_bind].
  destruct (Z.ltb_spec (9223372036854775808 - 1) (n * unit)); [lia|done].
Qed.
