(* ===== verification/GoDate.v ===== *)
(** * Dates: the RFC 3339 text of a [time.Time]

    What [encoding/json] writes for a [time.Time] and reads back: the proleptic
    Gregorian calendar, [Time.MarshalJSON]'s format in UTC with the shortest
    fraction, and the parser behind [Time.UnmarshalJSON] with the forms it
    tolerates (a one-digit hour, a comma before the fraction, zone offsets). *)

From S2P Require Import Prelude GoTime GoStrings GoConv.
From stdpp Require Import base list sets strings.
From Stdlib Require Import ZArith Ascii String Lia.
Open Scope string_scope.
Open Scope list_scope.
Open Scope Z_scope.

Ltac divlia := Z.to_euclidean_division_equations; lia.

(** ** The calendar *)

Definition is_leap (y : Z) : bool :=
  (y mod 4 =? 0) && (negb (y mod 100 =? 0) || (y mod 400 =? 0)).

(** Days from January 1, year 1 to January 1, year [y]. *)
Definition days_before_year (y : Z) : Z :=
  let p := y - 1 in 365 * p + p / 4 - p / 100 + p / 400.

Definition month_lengths (leap : bool) : list Z :=
  [31; if leap then 29 else 28; 31; 30; 31; 30; 31; 31; 30; 31; 30; 31].

(** [daysIn]; zero outside January to December. *)
Definition days_in (y m : Z) : Z :=
  if (1 <=? m) && (m <=? 12) then nth (Z.to_nat (m - 1)) (month_lengths (is_leap y)) 0 else 0.

Definition days_before_month (leap : bool) (m : Z) : Z :=
  foldr Z.add 0 (take (Z.to_nat (m - 1)) (month_lengths leap)).

Definition days_of_date (y m d : Z) : Z :=
  days_before_year y + days_before_month (is_leap y) m + (d - 1).

(** The month and day of the [doy]-th day of a year. *)
Fixpoint month_of (lengths : list Z) (m doy : Z) : Z * Z :=
  match lengths with
  | [] => (m, doy + 1)
  | l :: lengths' => if doy <? l then (m, doy + 1) else month_of lengths' (m + 1) (doy - l)
  end.

(** The date of day [r] of the 400-year cycle that starts with year 1. *)
Definition date_in_cycle (r : Z) : Z * (Z * Z) :=
  let n100 := Z.min (r / 36524) 3 in
  let r := r - n100 * 36524 in
  let n4 := r / 1461 in
  let r := r - n4 * 1461 in
  let n1 := Z.min (r / 365) 3 in
  let y := 100 * n100 + 4 * n4 + n1 + 1 in
  (y, month_of (month_lengths (is_leap y)) 1 (r - n1 * 365)).

Definition cycle_days : Z := 146097.

Definition date_of_days (n : Z) : Z * Z * Z :=
  let '(y, (m, d)) := date_in_cycle (n mod cycle_days) in
  (400 * (n / cycle_days) + y, m, d).

(** ** The calendar is right *)

(** [check] holds of the [k] integers from [z] on. *)
Fixpoint check_from (check : Z -> bool) (k : nat) (z : Z) : bool :=
  match k with
  | O => true
  | S k' => check z && check_from check k' (z + 1)
  end.

Lemma check_from_spec check k z i :
  check_from check k z = true -> z <= i < z + Z.of_nat k -> check i = true.
Proof.
  revert z. induction k as [|k IH]; intros z; cbn [check_from]; [lia|].
  intros [Hz Hk]%andb_true_iff Hi. destruct (decide (i = z)) as [->|]; [done|].
  apply (IH (z + 1)); [done|lia].
Qed.

(** Within a year: the month and day of [doy] lie in the month and count back
    to [doy]. *)
Definition doy_ok (leap : bool) (doy : Z) : bool :=
  let '(m, d) := month_of (month_lengths leap) 1 doy in
  (days_before_month leap m + (d - 1) =? doy) && (1 <=? m) && (m <=? 12) && (1 <=? d)
  && (d <=? nth (Z.to_nat (m - 1)) (month_lengths leap) 0).

Definition year_length (leap : bool) : Z := if leap then 366 else 365.

Lemma month_of_spec leap doy m d :
  0 <= doy < year_length leap -> month_of (month_lengths leap) 1 doy = (m, d) ->
  days_before_month leap m + (d - 1) = doy /\ 1 <= m <= 12
  /\ 1 <= d <= nth (Z.to_nat (m - 1)) (month_lengths leap) 0.
Proof.
  intros Hdoy E. assert (Hok : doy_ok leap doy = true).
  { destruct leap.
    - apply (check_from_spec (doy_ok true) 366 0); [by vm_compute|exact Hdoy].
    - apply (check_from_spec (doy_ok false) 365 0); [by vm_compute|exact Hdoy]. }
  unfold doy_ok in Hok. rewrite E, !andb_true_iff in Hok. lia.
Qed.

(** A year of the cycle by its place among the 100-, 4- and 1-year blocks. *)
Lemma cycle_year a b c :
  0 <= a <= 3 -> 0 <= b <= 24 -> 0 <= c <= 3 ->
  days_before_year (100 * a + 4 * b + c + 1) = 36524 * a + 1461 * b + 365 * c
  /\ is_leap (100 * a + 4 * b + c + 1) = (c =? 3) && (negb (b =? 24) || (a =? 3)).
Proof.
  intros Ha Hb Hc. unfold days_before_year, is_leap. cbv zeta. split.
  { divlia. }
  set (y := 100 * a + 4 * b + c + 1).
  assert (y mod 4 = 0 <-> c = 3) by divlia.
  assert (y mod 100 = 0 <-> b = 24 /\ c = 3) by divlia.
  assert (y mod 400 = 0 <-> a = 3 /\ b = 24 /\ c = 3) by divlia. lia.
Qed.

Lemma date_in_cycle_spec r y m d :
  0 <= r < cycle_days -> date_in_cycle r = (y, (m, d)) ->
  days_of_date y m d = r /\ 1 <= m <= 12 /\ 1 <= d <= days_in y m.
Proof.
  unfold cycle_days, date_in_cycle. intros Hr. cbv zeta.
  remember (Z.min (r / 36524) 3) as a eqn:Ea. remember (r - a * 36524) as r1 eqn:Er1.
  remember (r1 / 1461) as b eqn:Eb. remember (r1 - b * 1461) as r2 eqn:Er2.
  remember (Z.min (r2 / 365) 3) as c eqn:Ec.
  assert (Ha : 0 <= a <= 3) by divlia.
  assert (Hr1 : 0 <= r1 <= 36524 /\ (a < 3 -> r1 < 36524)) by divlia. clear Ea.
  assert (Hb : 0 <= b <= 24) by divlia. assert (Hr2 : 0 <= r2 < 1461) by divlia. clear Eb.
  assert (Hc : 0 <= c <= 3) by divlia.
  destruct (cycle_year a b c Ha Hb Hc) as [Hdays Hleap].
  assert (Hdoy : 0 <= r2 - c * 365 < year_length (is_leap (100 * a + 4 * b + c + 1))).
  { rewrite Hleap. unfold year_length.
    destruct (Z.eqb_spec c 3), (Z.eqb_spec b 24), (Z.eqb_spec a 3); cbn [andb orb negb]; divlia. }
  clear Ec. intros E. injection E as <- E. destruct (month_of_spec _ _ _ _ Hdoy E) as (H1 & H2 & H3).
  unfold days_of_date, days_in. rewrite Hdays.
  replace ((1 <=? m) && (m <=? 12)) with true by lia. lia.
Qed.

Lemma is_leap_cycle c y : is_leap (400 * c + y) = is_leap y.
Proof.
  unfold is_leap.
  replace (400 * c + y) with (y + (100 * c) * 4) at 1 by lia. rewrite Z.mod_add by lia.
  replace (400 * c + y) with (y + (4 * c) * 100) at 1 by lia. rewrite Z.mod_add by lia.
  replace (400 * c + y) with (y + c * 400) by lia. by rewrite Z.mod_add by lia.
Qed.

Lemma days_of_date_cycle c y m d :
  days_of_date (400 * c + y) m d = cycle_days * c + days_of_date y m d.
Proof.
  unfold days_of_date, days_before_year, cycle_days. rewrite is_leap_cycle. cbv zeta.
  replace (400 * c + y - 1) with (y - 1 + (100 * c) * 4) at 2 by lia. rewrite Z.div_add by lia.
  replace (400 * c + y - 1) with (y - 1 + (4 * c) * 100) at 2 by lia. rewrite Z.div_add by lia.
  replace (400 * c + y - 1) with (y - 1 + c * 400) at 2 by lia. rewrite Z.div_add by lia. lia.
Qed.

(** Every day has one date, within its month. *)
Lemma date_of_days_spec n y m d :
  date_of_days n = (y, m, d) ->
  days_of_date y m d = n /\ 1 <= m <= 12 /\ 1 <= d <= days_in y m.
Proof.
  unfold date_of_days. pose proof (Z.mod_pos_bound n cycle_days ltac:(done)) as Hr.
  destruct (date_in_cycle (n mod cycle_days)) as [y0 [m0 d0]] eqn:E. intros [= <- <- <-].
  apply date_in_cycle_spec in E as (Hd & Hm & Hl); [|done].
  rewrite days_of_date_cycle. unfold days_in in *. rewrite is_leap_cycle.
  pose proof (Z.div_mod n cycle_days ltac:(done)). lia.
Qed.

Lemma days_in_bound y m : days_in y m <= 31.
Proof.
  unfold days_in. destruct ((1 <=? m) && (m <=? 12)); [|lia].
  destruct (nth_in_or_default (Z.to_nat (m - 1)) (month_lengths (is_leap y)) 0) as [Hin| ->]; [|lia].
  revert Hin. generalize (nth (Z.to_nat (m - 1)) (month_lengths (is_leap y)) 0). intros l Hin.
  unfold month_lengths in Hin. cbn in Hin. destruct (is_leap y); intuition lia.
Qed.

(** ** Writing *)

Definition digit (d : Z) : ascii := of_byte (48 + d).

(** The last [k] decimal digits of [n]. *)
Fixpoint pad (k : nat) (n : Z) : string :=
  match k with
  | O => ""
  | S k' => pad k' (n / 10) +:+ String (digit (n mod 10)) ""
  end.

Definition day_length : Z := 86400 * Second.

Definition frac (ns : Z) : string :=
  if ns =? 0 then "" else "." +:+ TrimRight (pad 9 ns) "0".

(** [Time.appendStrictRFC3339] in UTC: [None] outside the years 0 to 9999. *)
Definition format_time (t : Time) : option string :=
  let '(y, m, d) := date_of_days (t / day_length) in
  let clock := t mod day_length in
  let s := clock / Second in
  if (0 <=? y) && (y <=? 9999) then
    Some (pad 4 y +:+ "-" +:+ pad 2 m +:+ "-" +:+ pad 2 d +:+ "T" +:+ pad 2 (s / 3600) +:+ ":"
          +:+ pad 2 ((s / 60) mod 60) +:+ ":" +:+ pad 2 (s mod 60) +:+ frac (clock mod Second)
          +:+ "Z")
  else None.

(** ** Reading *)

(** Exactly [k] digits. *)
Fixpoint take_digits (k : nat) (acc : Z) (s : string) : option (Z * string) :=
  match k with
  | O => Some (acc, s)
  | S k' =>
      match s with
      | String c s' =>
          if is_digit c then take_digits k' (acc * 10 + (byte_of c - 48)) s' else None
      | "" => None
      end
  end.

Definition expect (c : ascii) (s : string) : option string :=
  match s with
  | String c' s' => if Ascii.eqb c' c then Some s' else None
  | "" => None
  end.

(** [getnum(value, false)]: one or two digits. *)
Definition getnum (s : string) : option (Z * string) :=
  match take_digits 2 0 s with
  | Some r => Some r
  | None => take_digits 1 0 s
  end.

Fixpoint span_digits (s : string) : string * string :=
  match s with
  | String c s' =>
      if is_digit c then let '(a, b) := span_digits s' in (String c a, b) else ("", s)
  | "" => ("", "")
  end.

Fixpoint first_digits (k : nat) (acc : Z) (s : string) : Z :=
  match k with
  | O => acc
  | S k' =>
      match s with
      | String c s' => first_digits k' (acc * 10 + (byte_of c - 48)) s'
      | "" => first_digits k' (acc * 10) ""
      end
  end.

(** An optional fraction: nanoseconds, further digits are dropped. *)
Definition parse_frac (s : string) : Z * string :=
  match s with
  | String c s' =>
      if Ascii.eqb c "." || Ascii.eqb c "," then
        match span_digits s' with
        | ("", _) => (0, s)
        | (ds, rest) => (first_digits 9 0 ds, rest)
        end
      else (0, s)
  | "" => (0, "")
  end.

(** The zone: seconds east of UTC. *)
Definition parse_zone (s : string) : option (Z * string) :=
  match s with
  | String c s' =>
      if Ascii.eqb c "Z" then Some (0, s')
      else if Ascii.eqb c "+" || Ascii.eqb c "-" then
        '(h, s) ← take_digits 2 0 s'; s ← expect ":" s; '(m, s) ← take_digits 2 0 s;
        if (h <=? 24) && (m <=? 60)
        then Some ((if Ascii.eqb c "-" then -1 else 1) * (h * 3600 + m * 60), s)
        else None
      else None
  | "" => None
  end.

Definition parse_time (s : string) : option Time :=
  '(y, s) ← take_digits 4 0 s; s ← expect "-" s; '(m, s) ← take_digits 2 0 s; s ← expect "-" s;
  '(d, s) ← take_digits 2 0 s; s ← expect "T" s; '(hh, s) ← getnum s; s ← expect ":" s;
  '(mi, s) ← take_digits 2 0 s; s ← expect ":" s; '(ss, s) ← take_digits 2 0 s;
  let '(ns, s) := parse_frac s in
  '(off, s) ← parse_zone s;
  if String.eqb s "" && (1 <=? d) && (d <=? days_in y m) && (hh <? 24) && (mi <? 60) && (ss <? 60)
  then Some ((days_of_date y m d * 86400 + hh * 3600 + mi * 60 + ss - off) * Second + ns)
  else None.

(** ** What is written is read back *)

Lemma digit_spec d : 0 <= d <= 9 -> is_digit (digit d) = true /\ byte_of (digit d) - 48 = d.
Proof.
  intros Hd. assert (Hin : In d [0; 1; 2; 3; 4; 5; 6; 7; 8; 9]) by (cbn; lia).
  cbn in Hin. destruct_or?; subst; done.
Qed.

Lemma take_digits_snoc k acc s v c s' :
  take_digits k acc s = Some (v, String c s') -> is_digit c = true ->
  take_digits (S k) acc s = Some (v * 10 + (byte_of c - 48), s').
Proof.
  revert acc s. induction k as [|k IH]; intros acc s.
  - intros [= -> ->] Hc. cbn. by rewrite Hc.
  - intros H Hc. cbn [take_digits] in H. destruct s as [|c0 s0]; [done|].
    change (take_digits (S (S k)) acc (String c0 s0))
      with (if is_digit c0 then take_digits (S k) (acc * 10 + (byte_of c0 - 48)) s0 else None).
    destruct (is_digit c0); [|done]. by apply IH.
Qed.

Lemma take_digits_pad k n acc s :
  0 <= n < 10 ^ Z.of_nat k ->
  take_digits k acc (pad k n +:+ s) = Some (acc * 10 ^ Z.of_nat k + n, s).
Proof.
  revert n s. induction k as [|k IH]; intros n s Hn.
  - cbn in *. do 2 f_equal. lia.
  - rewrite Nat2Z.inj_succ, Z.pow_succ_r in * by lia.
    destruct (digit_spec (n mod 10)) as [Hd Hv]; [divlia|].
    cbn [pad]. rewrite sapp_assoc, sapp_cons. change ("" +:+ s) with s.
    rewrite (take_digits_snoc _ _ _ _ _ _ (IH (n / 10) (String _ s) ltac:(divlia)) Hd), Hv.
    do 2 f_equal. divlia.
Qed.

Lemma pad_digits k n : 0 <= n -> sforall is_digit (pad k n) = true.
Proof.
  revert n. induction k as [|k IH]; intros n Hn; [done|]. cbn [pad].
  rewrite sforall_app, IH by divlia. cbn.
  by destruct (digit_spec (n mod 10)) as [-> _]; [divlia|].
Qed.

Lemma length_pad k n : String.length (pad k n) = k.
Proof.
  revert n. induction k as [|k IH]; intros n; [done|]. cbn [pad]. rewrite slength_app, IH. cbn. lia.
Qed.

(** Digits followed by something else are what [span_digits] finds. *)
Lemma span_digits_app ds c s :
  sforall is_digit ds = true -> is_digit c = false ->
  span_digits (ds +:+ String c s) = (ds, String c s).
Proof.
  intros Hds Hc. induction ds as [|d ds IH].
  - change ("" +:+ String c s) with (String c s). cbn. by rewrite Hc.
  - cbn in Hds. apply andb_true_iff in Hds as [Hd Hds]. rewrite sapp_cons. cbn [span_digits].
    by rewrite Hd, IH.
Qed.

(** Reading past the end of the digits is reading zeros. *)
Definition zeros (z : string) : Prop := Forall (fun c => c = "0"%char) (list_ascii_of_string z).

Lemma first_digits_only_zeros k z acc : zeros z -> first_digits k acc z = first_digits k acc "".
Proof.
  unfold zeros. revert z acc. induction k as [|k IH]; intros z acc Hz; [done|].
  destruct z as [|c z]; [done|]. apply Forall_cons in Hz as [-> Hz]. cbn [first_digits].
  rewrite IH by done. f_equal. replace (byte_of "0") with 48 by reflexivity. lia.
Qed.

Lemma first_digits_zeros k ds z acc :
  zeros z -> first_digits k acc (ds +:+ z) = first_digits k acc ds.
Proof.
  intros Hz. revert ds acc. induction k as [|k IH]; intros ds acc; [done|].
  destruct ds as [|d ds]; [by apply first_digits_only_zeros|].
  rewrite sapp_cons. cbn [first_digits]. apply IH.
Qed.

Lemma take_first_digits k s acc v :
  take_digits k acc s = Some (v, "") -> first_digits k acc s = v.
Proof.
  revert s acc. induction k as [|k IH]; intros s acc; cbn.
  - by intros [= ->].
  - destruct s as [|c s]; [done|]. destruct (is_digit c); [|done]. apply IH.
Qed.

Lemma TrimRight_zeros s : exists z, s = TrimRight s "0" +:+ z /\ zeros z.
Proof.
  destruct (rdrop_while_prefix (in_cutset "0") (list_ascii_of_string s)) as (b & Hb & Hf).
  exists (string_of_list_ascii b). split.
  - apply list_ascii_inj. unfold TrimRight.
    by rewrite list_ascii_app, !list_ascii_of_string_of_list_ascii.
  - unfold zeros. rewrite list_ascii_of_string_of_list_ascii.
    eapply Forall_impl; [exact Hf|]. cbn. intros c Hc. unfold in_cutset in Hc.
    apply bool_decide_eq_true in Hc. cbn in Hc. set_solver.
Qed.

Lemma parse_frac_frac ns s :
  0 <= ns < Second -> parse_frac (frac ns +:+ String "Z" s) = (ns, String "Z" s).
Proof.
  intros Hns. unfold frac. destruct (Z.eqb_spec ns 0) as [->|Hne]; [done|].
  rewrite sapp_assoc. change ("." +:+ ?t) with (String "." t). cbn [parse_frac].
  destruct (TrimRight_zeros (pad 9 ns)) as (z & Hz & Hzeros).
  assert (Hval : first_digits 9 0 (TrimRight (pad 9 ns) "0") = ns).
  { rewrite <- (first_digits_zeros 9 _ z 0 Hzeros), <- Hz. apply take_first_digits.
    rewrite <- (sapp_nil_r (pad 9 ns)), take_digits_pad by (unfold Second in Hns; cbn; lia).
    do 2 f_equal. }
  assert (Hds : sforall is_digit (TrimRight (pad 9 ns) "0") = true).
  { pose proof (pad_digits 9 ns ltac:(lia)) as Hp. rewrite Hz, sforall_app in Hp.
    by apply andb_true_iff in Hp as [Hp _]. }
  rewrite span_digits_app by done. cbn [Ascii.eqb Bool.eqb orb].
  destruct (TrimRight (pad 9 ns) "0") as [|c ds] eqn:E; [cbn in Hval; lia|].
  by rewrite Hval.
Qed.

Lemma getnum_pad n s : 0 <= n < 100 -> getnum (pad 2 n +:+ s) = Some (n, s).
Proof. intros Hn. unfold getnum. rewrite take_digits_pad by (cbn; lia). do 2 f_equal. Qed.

Lemma expect_lit c s : expect c (String c "" +:+ s) = Some s.
Proof. rewrite sapp_cons. cbn [expect]. by rewrite Ascii.eqb_refl. Qed.

(** A time that was written is read back exactly. *)
Lemma parse_format_time t text : format_time t = Some text -> parse_time text = Some t.
Proof.
  unfold format_time. destruct (date_of_days (t / day_length)) as [[y m] d] eqn:Edate.
  apply date_of_days_spec in Edate as (Hdays & Hm & Hd). pose proof (days_in_bound y m).
  assert (Hclock : 0 <= t mod day_length < day_length) by (apply Z.mod_pos_bound; done).
  remember (t mod day_length) as clock eqn:Eclock. remember (clock / Second) as s eqn:Es.
  assert (Hs : 0 <= s < 86400) by (unfold day_length, Second in *; divlia).
  destruct ((0 <=? y) && (y <=? 9999)) eqn:Hy; [|done].
  intros Etext%(inj Some). rewrite <- Etext. clear text Etext. unfold parse_time.
  assert (Hh : 0 <= s / 3600 < 24) by divlia. assert (Hsec : 0 <= s mod 60 < 60) by divlia.
  assert (Hmin : 0 <= (s / 60) mod 60 < 60) by (apply Z.mod_pos_bound; lia).
  assert (Hsum : s / 3600 * 3600 + (s / 60) mod 60 * 60 + s mod 60 = s) by divlia.
  repeat first
    [ rewrite take_digits_pad by (cbn; lia)
    | rewrite getnum_pad by lia
    | rewrite expect_lit
    | progress cbn [mbind option_bind] ].
  rewrite parse_frac_frac by (apply Z.mod_pos_bound; done).
  cbn [parse_zone Ascii.eqb Bool.eqb mbind option_bind String.eqb].
  rewrite !Z.mul_0_l, !Z.add_0_l.
  replace (_ && _) with true by lia. f_equal. rewrite Hdays.
  pose proof (Z.div_mod t day_length ltac:(done)). pose proof (Z.div_mod clock Second ltac:(done)).
  unfold day_length in *. lia.
Qed.
