(* ===== verification/GoUtf8.v ===== *)
(** * Well-formed UTF-8

    [encoding/json] replaces what is not UTF-8 by U+FFFD, both when it writes
    and when it reads a string.  [to_valid] is that replacement, [utf8] the
    strings it leaves alone. *)

From S2P Require Import Prelude GoStrings.
From stdpp Require Import base list strings.
From Stdlib Require Import ZArith Ascii String Lia.
Open Scope string_scope.
Open Scope list_scope.
Open Scope Z_scope.

(** A byte that starts no UTF-8 sequence: [DecodeRune] gives [RuneError] and
    size 1. *)
Definition bad_chunk (c : Z * string) : bool :=
  (c.1 =? RuneError) && (String.length c.2 =? 1)%nat.

Definition utf8 (s : string) : bool := forallb (fun c => negb (bad_chunk c)) (chunks s).
Definition utf8s (l : list string) : Prop := Forall (fun s => utf8 s = true) l.

Definition fix_chunk (c : Z * string) : string :=
  if bad_chunk c then encode_rune RuneError else c.2.

Definition to_valid (s : string) : string := sconcat (map fix_chunk (chunks s)).

(** ** Lemmas *)

Lemma sconcat_app l l' : sconcat (l ++ l') = sconcat l +:+ sconcat l'.
Proof. induction l as [|s l IH]; cbn; [done|]. by rewrite IH, sapp_assoc. Qed.

(** A chunk that is not bad decodes by itself, whatever follows it. *)
Lemma chunks_cons_good r b t :
  chunks b = [(r, b)] -> bad_chunk (r, b) = false -> chunks (b +:+ t) = (r, b) :: chunks t.
Proof.
  intros Hb Hgood. destruct b as [|c0 b1]; [done|]. rewrite sapp_cons. cbn [chunks] in *.
  destruct (byte_of c0 <? 128).
  { injection Hb as <- Hc Hb. by rewrite <- Hc. }
  destruct b1 as [|c1 b2]; [injection Hb as <-; done|]. rewrite sapp_cons.
  destruct (valid2 (byte_of c0) (byte_of c1)).
  { injection Hb as <- Hc Hb. by rewrite <- Hc. }
  destruct b2 as [|c2 b3]; [injection Hb as <- Hc Hb; done|]. rewrite sapp_cons.
  destruct (valid3 (byte_of c0) (byte_of c1) (byte_of c2)).
  { injection Hb as <- Hc Hb. by rewrite <- Hc. }
  destruct b3 as [|c3 b4]; [injection Hb as <- Hc Hb; done|]. rewrite sapp_cons.
  destruct (valid4 (byte_of c0) (byte_of c1) (byte_of c2) (byte_of c3)).
  { injection Hb as <- Hc Hb. by rewrite <- Hc. }
  by injection Hb as <- Hc Hb.
Qed.

(** Every chunk of a string that is not bad is such a sequence. *)
Definition alone (c : Z * string) : Prop := bad_chunk c = false -> chunks c.2 = [c].

Lemma bad_alone c0 : bad_chunk (RuneError, String c0 "") = true.
Proof. done. Qed.

Lemma chunks_alone s : Forall alone (chunks s).
Proof.
  enough (forall n s, (String.length s <= n)%nat -> Forall alone (chunks s)) by eauto.
  clear s. induction n as [|n IH]; intros [|c0 s1]; cbn [String.length]; intros Hn; try (by constructor).
  { lia. }
  assert (IH1 : Forall alone (chunks s1)) by (apply IH; lia). cbn [chunks].
  assert (Hbad : forall cs, Forall alone cs -> Forall alone ((RuneError, String c0 "") :: cs)).
  { intros cs Hcs. constructor; [|done]. intros Hb. by rewrite bad_alone in Hb. }
  destruct (byte_of c0 <? 128) eqn:E0.
  { constructor; [|done]. intros _. cbn. by rewrite E0. }
  destruct s1 as [|c1 s2]; [by apply Hbad|]. cbn in Hn.
  destruct (valid2 (byte_of c0) (byte_of c1)) eqn:E2.
  { constructor; [|apply IH; lia]. intros _. cbn. by rewrite E0, E2. }
  destruct s2 as [|c2 s3]; [by apply Hbad|]. cbn in Hn.
  destruct (valid3 (byte_of c0) (byte_of c1) (byte_of c2)) eqn:E3.
  { constructor; [|apply IH; lia]. intros _. cbn. by rewrite E0, E2, E3. }
  destruct s3 as [|c3 s4]; [by apply Hbad|]. cbn in Hn.
  destruct (valid4 (byte_of c0) (byte_of c1) (byte_of c2) (byte_of c3)) eqn:E4; [|by apply Hbad].
  constructor; [|apply IH; lia]. intros _. cbn. by rewrite E0, E2, E3, E4.
Qed.

Lemma chunks_fixed cs :
  Forall alone cs -> forallb (fun c => negb (bad_chunk c)) (chunks (sconcat (map fix_chunk cs))) = true.
Proof.
  induction 1 as [|[r b] cs Hc _ IH]; [done|]. cbn [map sconcat]. unfold fix_chunk at 1.
  destruct (bad_chunk (r, b)) eqn:Hb.
  - rewrite (chunks_cons_good RuneError); [cbn [forallb]; by rewrite IH|by vm_compute|by vm_compute].
  - cbn [snd]. rewrite (chunks_cons_good r); [|by apply Hc|done]. cbn [forallb]. by rewrite Hb, IH.
Qed.

Lemma utf8_to_valid s : utf8 (to_valid s) = true.
Proof. apply chunks_fixed, chunks_alone. Qed.

Lemma to_valid_id s : utf8 s = true -> to_valid s = s.
Proof.
  intros Hs. unfold to_valid. rewrite <- (sconcat_chunks s) at 2. f_equal.
  apply map_ext_in. intros c Hc. unfold utf8 in Hs. rewrite forallb_forall in Hs.
  specialize (Hs c Hc). unfold fix_chunk. by destruct (bad_chunk c).
Qed.

Lemma utf8_cons_ascii c s : (byte_of c <? 128) = true -> utf8 (String c s) = utf8 s.
Proof.
  intros Hc. unfold utf8. cbn [chunks]. rewrite Hc. cbn [forallb].
  replace (negb (bad_chunk _)) with true; [done|]. unfold bad_chunk, RuneError. cbn [fst]. lia.
Qed.

Lemma utf8_ascii_app s t : sforall is_ascii_byte s = true -> utf8 (s +:+ t) = utf8 t.
Proof.
  induction s as [|c s IH]; cbn [sforall]; [done|]. intros [Hc Hs]%andb_true_iff.
  rewrite sapp_cons, utf8_cons_ascii by done. by apply IH.
Qed.

Lemma utf8_ascii s : sforall is_ascii_byte s = true -> utf8 s = true.
Proof. intros Hs. rewrite <- (sapp_nil_r s). by rewrite utf8_ascii_app. Qed.

(** An ASCII rune is its byte; the bytes of any other are not ASCII, and are its
    encoding unless the chunk is bad. *)
Definition chunk_shape (c : Z * string) : Prop :=
  0 <= c.1 < 128 /\ c.2 = String (of_byte c.1) ""
  \/ 128 <= c.1 /\ sforall (fun a => 128 <=? byte_of a) c.2 = true
     /\ (bad_chunk c = true \/ c.2 = encode_rune c.1).

Lemma cons_byte c z s t : byte_of c = z -> s = t -> String c s = String (of_byte z) t.
Proof. intros <- ->. by rewrite of_byte_of. Qed.

Lemma encode_decode2 c0 c1 :
  valid2 (byte_of c0) (byte_of c1) = true ->
  String c0 (String c1 "") = encode_rune ((byte_of c0 - 192) * 64 + (byte_of c1 - 128)).
Proof.
  unfold valid2, is_cont. intros Hv. pose proof (of_byte_of c0). pose proof (of_byte_of c1).
  unfold encode_rune. replace ((_ <? 0) || _ || _) with false by lia. cbv iota zeta.
  replace (_ <? 128) with false by lia. replace (_ <? 2048) with true by lia.
  repeat (apply cons_byte; [Z.to_euclidean_division_equations; lia|]). done.
Qed.

Lemma encode_decode3 c0 c1 c2 :
  valid3 (byte_of c0) (byte_of c1) (byte_of c2) = true ->
  String c0 (String c1 (String c2 ""))
  = encode_rune (((byte_of c0 - 224) * 64 + (byte_of c1 - 128)) * 64 + (byte_of c2 - 128)).
Proof.
  unfold valid3, is_cont, implb. intros Hv.
  unfold encode_rune. remember (byte_of c0) as b0. remember (byte_of c1) as b1. remember (byte_of c2) as b2.
  assert (Hr : 2048 <= ((b0 - 224) * 64 + (b1 - 128)) * 64 + (b2 - 128) < 65536).
  { destruct (Z.eqb_spec b0 224); lia. }
  replace ((_ <? 0) || _ || _) with false by (destruct (Z.eqb_spec b0 224), (Z.eqb_spec b0 237); lia).
  cbv iota zeta. replace (_ <? 128) with false by lia. replace (_ <? 2048) with false by lia.
  replace (_ <? 65536) with true by lia. subst.
  repeat (apply cons_byte; [Z.to_euclidean_division_equations; lia|]). done.
Qed.

Lemma encode_decode4 c0 c1 c2 c3 :
  valid4 (byte_of c0) (byte_of c1) (byte_of c2) (byte_of c3) = true ->
  String c0 (String c1 (String c2 (String c3 "")))
  = encode_rune ((((byte_of c0 - 240) * 64 + (byte_of c1 - 128)) * 64 + (byte_of c2 - 128)) * 64
                 + (byte_of c3 - 128)).
Proof.
  unfold valid4, is_cont, implb. intros Hv. unfold encode_rune.
  remember (byte_of c0) as b0. remember (byte_of c1) as b1.
  remember (byte_of c2) as b2. remember (byte_of c3) as b3.
  assert (Hr : 65536 <= (((b0 - 240) * 64 + (b1 - 128)) * 64 + (b2 - 128)) * 64 + (b3 - 128) <= 1114111).
  { destruct (Z.eqb_spec b0 240), (Z.eqb_spec b0 244); lia. }
  replace ((_ <? 0) || _ || _) with false by lia.
  cbv iota zeta. replace (_ <? 128) with false by lia. replace (_ <? 2048) with false by lia.
  replace (_ <? 65536) with false by lia. subst.
  repeat (apply cons_byte; [Z.to_euclidean_division_equations; lia|]). done.
Qed.

Lemma chunks_shape s : Forall chunk_shape (chunks s).
Proof.
  enough (forall n s, (String.length s <= n)%nat -> Forall chunk_shape (chunks s)) by eauto.
  clear s. induction n as [|n IH]; intros [|c0 s1]; cbn [String.length]; intros Hn; try (by constructor).
  { lia. }
  assert (IH1 : Forall chunk_shape (chunks s1)) by (apply IH; lia). cbn [chunks].
  destruct (byte_of c0 <? 128) eqn:E0.
  { constructor; [|done]. left. cbn [fst snd]. rewrite of_byte_of. split; [|done].
    pose proof (byte_of_bounds c0). lia. }
  assert (Hbad : forall cs, Forall chunk_shape cs ->
    Forall chunk_shape ((RuneError, String c0 "") :: cs)).
  { intros cs Hcs. constructor; [|done]. right. cbn. unfold RuneError. split_and!; [lia| |by left].
    rewrite andb_true_r. lia. }
  destruct s1 as [|c1 s2]; [by apply Hbad|]. cbn in Hn.
  destruct (valid2 (byte_of c0) (byte_of c1)) eqn:E2.
  { constructor; [|apply IH; lia]. right. cbn [fst snd]. rewrite <- (encode_decode2 _ _ E2).
    cbn [sforall]. unfold valid2, is_cont in E2. split_and!; [lia|lia|by right]. }
  destruct s2 as [|c2 s3]; [by apply Hbad|]. cbn in Hn.
  destruct (valid3 (byte_of c0) (byte_of c1) (byte_of c2)) eqn:E3.
  { constructor; [|apply IH; lia]. right. cbn [fst snd]. rewrite <- (encode_decode3 _ _ _ E3).
    cbn [sforall]. unfold valid3, is_cont, implb in E3.
    split_and!; [destruct (Z.eqb_spec (byte_of c0) 224); lia|lia|by right]. }
  destruct s3 as [|c3 s4]; [by apply Hbad|]. cbn in Hn.
  destruct (valid4 (byte_of c0) (byte_of c1) (byte_of c2) (byte_of c3)) eqn:E4; [|by apply Hbad].
  constructor; [|apply IH; lia]. right. cbn [fst snd]. rewrite <- (encode_decode4 _ _ _ _ E4).
  cbn [sforall]. unfold valid4, is_cont, implb in E4.
  split_and!; [destruct (Z.eqb_spec (byte_of c0) 240); lia|lia|by right].
Qed.

(** ** Parts of UTF-8 strings are UTF-8 *)

Lemma cont_ascii b0 b : b < 128 -> valid2 b0 b = false.
Proof. unfold valid2, is_cont. lia. Qed.

(** An ASCII byte starts a chunk wherever it stands. *)
Lemma chunks_app_ascii s c t :
  is_ascii_byte c = true -> chunks (s +:+ String c t) = chunks s ++ chunks (String c t).
Proof.
  unfold is_ascii_byte. intros Hc. apply Z.ltb_lt in Hc.
  enough (forall n s, (String.length s <= n)%nat ->
    chunks (s +:+ String c t) = chunks s ++ chunks (String c t)) by eauto.
  clear s. remember (chunks (String c t)) as k eqn:Hk.
  assert (V3 : forall b0 b1, valid3 b0 b1 (byte_of c) = false)
    by (intros; unfold valid3, is_cont; lia).
  assert (V3' : forall b0 b2, valid3 b0 (byte_of c) b2 = false)
    by (intros; unfold valid3, is_cont; lia).
  assert (V4 : forall b0 b1 b2, valid4 b0 b1 b2 (byte_of c) = false)
    by (intros; unfold valid4, is_cont; lia).
  assert (V4' : forall b0 b1 b3, valid4 b0 b1 (byte_of c) b3 = false)
    by (intros; unfold valid4, is_cont; lia).
  assert (V4'' : forall b0 b2 b3, valid4 b0 (byte_of c) b2 b3 = false)
    by (intros; unfold valid4, is_cont; lia).
  induction n as [|n IH]; intros [|c0 s1]; cbn [String.length]; intros Hn; try done; [lia|].
  assert (IH1 : chunks (s1 +:+ String c t) = chunks s1 ++ k) by (apply IH; lia).
  rewrite sapp_cons. cbn [chunks]. destruct (byte_of c0 <? 128).
  { by rewrite IH1. }
  destruct s1 as [|c1 s2].
  { change ("" +:+ ?u) with u in *; cbn match. cbn [chunks app] in *. rewrite cont_ascii by done.
    rewrite IH1. destruct t as [|c2 t]; [done|]. rewrite V3'. destruct t; [done|]. by rewrite V4''. }
  rewrite sapp_cons in *. destruct (valid2 (byte_of c0) (byte_of c1)).
  { rewrite IH; [done|cbn in Hn; lia]. }
  destruct s2 as [|c2 s3].
  { change ("" +:+ ?u) with u in *; cbn match. rewrite V3, IH1. destruct t; [done|]. by rewrite V4'. }
  rewrite sapp_cons in *. destruct (valid3 (byte_of c0) (byte_of c1) (byte_of c2)).
  { rewrite IH; [done|cbn in Hn; lia]. }
  destruct s3 as [|c3 s4].
  { change ("" +:+ ?u) with u in *; cbn match. by rewrite V4, IH1. }
  rewrite sapp_cons in *. destruct (valid4 _ _ _ _).
  { rewrite IH; [done|cbn in Hn; lia]. }
  by rewrite IH1.
Qed.

Lemma utf8_app_ascii s c t :
  is_ascii_byte c = true -> utf8 (s +:+ String c t) = utf8 s && utf8 t.
Proof.
  intros Hc. rewrite <- (utf8_cons_ascii c t Hc). unfold utf8.
  by rewrite chunks_app_ascii, forallb_app.
Qed.

(** Good chunks put together. *)
Lemma utf8_chunks cs :
  Forall alone cs -> forallb (fun c => negb (bad_chunk c)) cs = true -> utf8 (sconcat cs.*2) = true.
Proof.
  intros Ha Hg. rewrite <- (chunks_fixed cs Ha). unfold utf8. f_equal. f_equal. f_equal.
  rewrite forallb_forall in Hg. apply map_ext_in. intros c Hc. specialize (Hg c Hc).
  unfold fix_chunk. by destruct (bad_chunk c).
Qed.

Lemma utf8_sublist s cs :
  cs `sublist_of` chunks s -> utf8 s = true -> utf8 (sconcat cs.*2) = true.
Proof.
  unfold utf8 at 1. intros Hsub. rewrite forallb_forall. intros Hs. apply utf8_chunks.
  - pose proof (chunks_alone s) as Ha. rewrite Forall_forall in Ha |- *. intros c Hc.
    apply Ha. by eapply elem_of_sublist.
  - rewrite forallb_forall. intros c Hc%list_elem_of_In. apply Hs, list_elem_of_In.
    by eapply elem_of_sublist.
Qed.

Lemma drop_while_sublist {A} (f : A -> bool) l : drop_while f l `sublist_of` l.
Proof. induction l as [|x l IH]; cbn; [done|]. destruct (f x); [by apply sublist_cons|done]. Qed.

Lemma rdrop_while_sublist {A} (f : A -> bool) l : rdrop_while f l `sublist_of` l.
Proof.
  induction l as [|x l IH]; cbn; [done|]. destruct (rdrop_while f l) eqn:E.
  - destruct (f x); [apply sublist_nil_l|]. apply sublist_skip, sublist_nil_l.
  - by apply sublist_skip.
Qed.

Lemma utf8_TrimSpace s : utf8 s = true -> utf8 (TrimSpace s) = true.
Proof.
  apply utf8_sublist. etrans; [apply rdrop_while_sublist|apply drop_while_sublist].
Qed.

Lemma SplitN2_pair s sep p q : SplitN2 s sep = [p; q] -> s = p +:+ String sep q.
Proof.
  revert p. induction s as [|c s IH]; intros p; cbn [SplitN2]; [done|].
  destruct (Ascii.eqb_spec c sep) as [->|].
  - intros [= <- <-]. done.
  - destruct (SplitN2 s sep) as [|p' ps]; [done|]. intros [= <- ->].
    rewrite sapp_cons. f_equal. by apply IH.
Qed.
