(* ===== verification/GoJson.v ===== *)
(** * JSON texts: the parts of [encoding/json] the program uses

    A [json] value keeps the literal text of strings (between the quotes) and
    numbers, as the decoder does; [quote] and [unquote] translate strings.
    [print] is [json.Marshal]'s compact form and [json.MarshalIndent]'s form,
    by its [Style]; [parse] accepts what [json.Unmarshal]'s scanner accepts,
    and [parse_first] what a [json.Decoder] reads first.  The parser recurses
    on a fuel that is never exhausted ([value_fuel]), and reads back every
    value that was printed ([parse_print]). *)

From S2P Require Import Prelude GoStrings GoConv GoUtf8 Sha256.
From stdpp Require Import base list sets strings pretty.
From Stdlib Require Import ZArith Ascii String Lia.
Open Scope string_scope.
Open Scope list_scope.
Open Scope Z_scope.

Unset Elimination Schemes.
Inductive json : Set :=
| JNull
| JBool (b : bool)
| JNum (literal : string)
| JStr (literal : string)
| JArr (elems : list json)
| JObj (members : list (string * json)).
Set Elimination Schemes.

(** Induction with the hypothesis for every element and member. *)
Section json_ind.
Context (P : json -> Prop).
Context (Hnull : P JNull) (Hbool : forall b, P (JBool b)) (Hnum : forall l, P (JNum l))
  (Hstr : forall l, P (JStr l)) (Harr : forall l, Forall P l -> P (JArr l))
  (Hobj : forall l, Forall (fun kv => P kv.2) l -> P (JObj l)).

Fixpoint json_ind (j : json) : P j :=
  match j with
  | JNull => Hnull
  | JBool b => Hbool b
  | JNum l => Hnum l
  | JStr l => Hstr l
  | JArr l =>
      Harr l ((fix all (l : list json) : Forall P l :=
                 match l with
                 | [] => Forall_nil_2 P
                 | x :: l' => Forall_cons_2 P x l' (json_ind x) (all l')
                 end) l)
  | JObj l =>
      Hobj l ((fix all (l : list (string * json)) : Forall (fun kv => P kv.2) l :=
                 match l with
                 | [] => Forall_nil_2 (fun kv => P kv.2)
                 | x :: l' => Forall_cons_2 (fun kv => P kv.2) x l' (json_ind x.2) (all l')
                 end) l)
  end.
End json_ind.

(** ** Characters *)

Definition dquote : ascii := of_byte 34.
Definition backslash : ascii := of_byte 92.

Definition is_ws (c : ascii) : bool :=
  (byte_of c =? 32) || (byte_of c =? 9) || (byte_of c =? 10) || (byte_of c =? 13).

Fixpoint skip_ws (s : string) : string :=
  match s with
  | String c s' => if is_ws c then skip_ws s' else s
  | "" => ""
  end.

(** Four hexadecimal digits ([getu4]). *)
Definition hex4 (a b c d : ascii) : option Z :=
  match from_hex a, from_hex b, from_hex c, from_hex d with
  | Some a, Some b, Some c, Some d => Some (((a * 16 + b) * 16 + c) * 16 + d)
  | _, _, _, _ => None
  end.

(** What the one-letter escapes stand for; the scanner accepts no other. *)
Definition escape_value (c : ascii) : option Z :=
  let b := byte_of c in
  if (b =? 34) || (b =? 92) || (b =? 47) then Some b
  else if b =? 98 then Some 8
  else if b =? 102 then Some 12
  else if b =? 110 then Some 10
  else if b =? 114 then Some 13
  else if b =? 116 then Some 9
  else None.

(** ** Strings *)

(** The literal up to the closing quote, as the scanner checks it. *)
Fixpoint scan_string (s : string) : option (string * string) :=
  match s with
  | "" => None
  | String c s1 =>
      if Ascii.eqb c dquote then Some ("", s1)
      else if byte_of c <? 32 then None
      else if Ascii.eqb c backslash then
        match s1 with
        | String e s2 =>
            match escape_value e with
            | Some _ =>
                match scan_string s2 with
                | Some (l, r) => Some (String c (String e l), r)
                | None => None
                end
            | None =>
                if byte_of e =? 117 then
                  match s2 with
                  | String a (String b (String x (String y s3))) =>
                      match hex4 a b x y, scan_string s3 with
                      | Some _, Some (l, r) =>
                          Some (String c (String e (String a (String b (String x (String y l))))), r)
                      | _, _ => None
                      end
                  | _ => None
                  end
                else None
            end
        | "" => None
        end
      else match scan_string s1 with
           | Some (l, r) => Some (String c l, r)
           | None => None
           end
  end.

Definition is_surrogate (r : Z) : bool := (55296 <=? r) && (r <=? 57343).

(** [utf16.DecodeRune]. *)
Definition decode_pair (r1 r2 : Z) : option Z :=
  if (55296 <=? r1) && (r1 <? 56320) && (56320 <=? r2) && (r2 <? 57344)
  then Some ((r1 - 55296) * 1024 + (r2 - 56320) + 65536)
  else None.

(** The escapes of a scanned literal replaced; a lone surrogate becomes
    U+FFFD, which is what [encode_rune] makes of it. *)
Fixpoint unescape (s : string) : string :=
  match s with
  | String c s1 =>
      if Ascii.eqb c backslash then
        match s1 with
        | String e s2 =>
            match escape_value e with
            | Some v => String (of_byte v) (unescape s2)
            | None =>
                match s2 with
                | String a (String b (String x (String y s3))) =>
                    let r := default 0 (hex4 a b x y) in
                    let single := encode_rune r +:+ unescape s3 in
                    match s3 with
                    | String c' (String e' (String a' (String b' (String x' (String y' s4))))) =>
                        if Ascii.eqb c' backslash && (byte_of e' =? 117) then
                          match decode_pair r (default 0 (hex4 a' b' x' y')) with
                          | Some rune => encode_rune rune +:+ unescape s4
                          | None => single
                          end
                        else single
                    | _ => single
                    end
                | _ => ""
                end
            end
        | "" => ""
        end
      else String c (unescape s1)
  | "" => ""
  end.

(** [unquote] on a literal. *)
Definition unquote (literal : string) : string := to_valid (unescape literal).

(** [\u00xx] *)
Definition escape_byte (b : Z) : string :=
  String backslash (String "u" (String "0" (String "0"
    (String (hex_digit (b / 16)) (String (hex_digit (b mod 16)) ""))))).

(** One rune of [appendString] with HTML escaping, as [Marshal] uses it. *)
Definition quote_chunk (c : Z * string) : string :=
  let '(r, bytes) := c in
  if r <? 128 then
    if (r =? 34) || (r =? 92) then String backslash bytes
    else if r =? 8 then String backslash "b"
    else if r =? 12 then String backslash "f"
    else if r =? 10 then String backslash "n"
    else if r =? 13 then String backslash "r"
    else if r =? 9 then String backslash "t"
    else if (r <? 32) || (r =? 60) || (r =? 62) || (r =? 38) then escape_byte r
    else bytes
  else if bad_chunk c then String backslash "ufffd"
  else if r =? 8232 then String backslash "u2028"
  else if r =? 8233 then String backslash "u2029"
  else bytes.

Definition quote (s : string) : string := sconcat (map quote_chunk (chunks s)).

(** ** Numbers *)

Definition number_char (c : ascii) : bool :=
  is_digit c || (byte_of c =? 45) || (byte_of c =? 43) || (byte_of c =? 46)
  || (byte_of c =? 101) || (byte_of c =? 69).

Fixpoint span_number (s : string) : string * string :=
  match s with
  | String c s' =>
      if number_char c then let '(a, b) := span_number s' in (String c a, b) else ("", s)
  | "" => ("", "")
  end.

Fixpoint skip_digits (s : string) : string :=
  match s with
  | String c s' => if is_digit c then skip_digits s' else s
  | "" => ""
  end.

(** At least one digit; the rest. *)
Definition digits1 (s : string) : option string :=
  match s with
  | String c s' => if is_digit c then Some (skip_digits s') else None
  | "" => None
  end.

Definition num_exp (s : string) : bool :=
  match s with
  | "" => true
  | String c s1 =>
      if (byte_of c =? 101) || (byte_of c =? 69) then
        let s2 :=
          match s1 with
          | String d s' => if (byte_of d =? 43) || (byte_of d =? 45) then s' else s1
          | "" => ""
          end in
        match digits1 s2 with Some r => String.eqb r "" | None => false end
      else false
  end.

Definition num_frac (s : string) : bool :=
  match s with
  | String c s' =>
      if byte_of c =? 46 then match digits1 s' with Some r => num_exp r | None => false end
      else num_exp s
  | "" => true
  end.

(** The grammar of JSON numbers: no leading zeros. *)
Definition is_number (s : string) : bool :=
  let s := match s with
           | String c s' => if byte_of c =? 45 then s' else s
           | "" => ""
           end in
  match s with
  | String c s' =>
      if byte_of c =? 48 then num_frac s'
      else if is_digit c then num_frac (skip_digits s') else false
  | "" => false
  end.

(** ** Values *)

(** [s] without the prefix [p]. *)
Definition strip (p s : string) : option string :=
  if HasPrefix s p then Some (sdrop (String.length p) s) else None.

(** A literal that is no string and no container. *)
Definition atom (s : string) : option (json * string) :=
  match strip "null" s, strip "true" s, strip "false" s with
  | Some r, _, _ => Some (JNull, r)
  | _, Some r, _ => Some (JBool true, r)
  | _, _, Some r => Some (JBool false, r)
  | _, _, _ => let '(l, r) := span_number s in if is_number l then Some (JNum l, r) else None
  end.

(** [depth] is how many more containers may be opened. *)
Fixpoint value (fuel : nat) (depth : Z) (s : string) : option (json * string) :=
  match fuel with
  | O => None
  | S fuel =>
      match skip_ws s with
      | "" => None
      | String c s1 =>
          if Ascii.eqb c "{" then
            if depth <=? 0 then None
            else match skip_ws s1 with
                 | String c2 s2 =>
                     if Ascii.eqb c2 "}" then Some (JObj [], s2)
                     else match members fuel (depth - 1) (String c2 s2) with
                          | Some (l, r) => Some (JObj l, r)
                          | None => None
                          end
                 | "" => None
                 end
          else if Ascii.eqb c "[" then
            if depth <=? 0 then None
            else match skip_ws s1 with
                 | String c2 s2 =>
                     if Ascii.eqb c2 "]" then Some (JArr [], s2)
                     else match elements fuel (depth - 1) (String c2 s2) with
                          | Some (l, r) => Some (JArr l, r)
                          | None => None
                          end
                 | "" => None
                 end
          else if Ascii.eqb c dquote then
            match scan_string s1 with Some (l, r) => Some (JStr l, r) | None => None end
          else atom (String c s1)
      end
  end
with elements (fuel : nat) (depth : Z) (s : string) : option (list json * string) :=
  match fuel with
  | O => None
  | S fuel =>
      match value fuel depth s with
      | None => None
      | Some (x, r) =>
          match skip_ws r with
          | String c r1 =>
              if Ascii.eqb c "]" then Some ([x], r1)
              else if Ascii.eqb c "," then
                match elements fuel depth r1 with
                | Some (l, r2) => Some (x :: l, r2)
                | None => None
                end
              else None
          | "" => None
          end
      end
  end
with members (fuel : nat) (depth : Z) (s : string) : option (list (string * json) * string) :=
  match fuel with
  | O => None
  | S fuel =>
      match skip_ws s with
      | String q s1 =>
          if Ascii.eqb q dquote then
            match scan_string s1 with
            | None => None
            | Some (k, s2) =>
                match skip_ws s2 with
                | String c s3 =>
                    if Ascii.eqb c ":" then
                      match value fuel depth s3 with
                      | None => None
                      | Some (x, r) =>
                          match skip_ws r with
                          | String c r1 =>
                              if Ascii.eqb c "}" then Some ([(k, x)], r1)
                              else if Ascii.eqb c "," then
                                match members fuel depth r1 with
                                | Some (l, r2) => Some ((k, x) :: l, r2)
                                | None => None
                                end
                              else None
                          | "" => None
                          end
                      end
                    else None
                | "" => None
                end
            end
          else None
      | "" => None
      end
  end.

(** [maxNestingDepth] of the scanner. *)
Definition max_depth : Z := 10000.

(** A call to [value] and one to its loop for each byte. *)
Definition enough (s : string) : nat := S (2 * String.length s).

(** [json.NewDecoder(r).Decode]: the first value; what follows is not read. *)
Definition parse_first (s : string) : option json :=
  match value (enough s) max_depth s with Some (j, _) => Some j | None => None end.

(** [json.Unmarshal]: one value and nothing after it. *)
Definition parse (s : string) : option json :=
  match value (enough s) max_depth s with
  | Some (j, r) => if String.eqb (skip_ws r) "" then Some j else None
  | None => None
  end.

(** ** Printing *)

(** [nl d] starts a line at nesting depth [d]; [colon] separates key and value. *)
Record Style : Set := mkStyle { nl : nat -> string; colon : string }.

Fixpoint spaces (d : nat) : string :=
  match d with O => "" | S d' => "  " +:+ spaces d' end.

(** [json.Marshal], and [json.MarshalIndent(v, "", "  ")]. *)
Definition compact : Style := mkStyle (fun _ => "") ":".
Definition indented : Style := mkStyle (fun d => String (of_byte 10) (spaces d)) ": ".

Definition quoted (literal : string) : string :=
  String dquote (literal +:+ String dquote "").

Section print.
Context (st : Style).

Fixpoint print (d : nat) (j : json) : string :=
  match j with
  | JNull => "null"
  | JBool true => "true"
  | JBool false => "false"
  | JNum l => l
  | JStr l => quoted l
  | JArr [] => "[]"
  | JArr (x :: l) =>
      "[" +:+ nl st (S d) +:+ print (S d) x
      +:+ sconcat (map (fun y => "," +:+ nl st (S d) +:+ print (S d) y) l) +:+ nl st d +:+ "]"
  | JObj [] => "{}"
  | JObj (kv :: l) =>
      "{" +:+ nl st (S d) +:+ quoted kv.1 +:+ colon st +:+ print (S d) kv.2
      +:+ sconcat (map (fun kv => "," +:+ nl st (S d) +:+ quoted kv.1 +:+ colon st
                                  +:+ print (S d) kv.2) l)
      +:+ nl st d +:+ "}"
  end.
End print.

Example print_examples :
  let j := JObj [("a", JArr [JNum "1"; JNull]); ("b", JObj []); ("c", JStr (quote "<x>"))] in
  parse (print compact 0 j) = Some j /\ parse (print indented 0 j) = Some j.
Proof. split; vm_compute; reflexivity. Qed.

(** ** Strings round-trip *)

(** Escapes that are no surrogates stand for themselves. *)
Lemma unescape_u a b x y r t :
  hex4 a b x y = Some r -> is_surrogate r = false ->
  unescape (String backslash (String "u" (String a (String b (String x (String y t))))))
  = encode_rune r +:+ unescape t.
Proof.
  intros Hr Hs. cbn [unescape]. rewrite Ascii.eqb_refl.
  change (escape_value "u") with (@None Z). cbv iota. rewrite Hr. cbn [default].
  assert (Hp : forall r2, decode_pair r r2 = None).
  { intros r2. unfold decode_pair, is_surrogate in *. by replace (_ && _) with false by lia. }
  repeat (destruct t as [|? t]; [done|]). rewrite Hp. by destruct (_ && _).
Qed.

Lemma unescape_other c t :
  c <> backslash -> unescape (String c t) = String c (unescape t).
Proof. intros Hc. cbn [unescape]. by rewrite (proj2 (Ascii.eqb_neq _ _) Hc). Qed.

Lemma scan_other c t :
  c <> dquote -> c <> backslash -> (byte_of c <? 32) = false ->
  scan_string (String c t)
  = match scan_string t with Some (l, r) => Some (String c l, r) | None => None end.
Proof.
  intros Hq Hb Hc. cbn [scan_string].
  by rewrite (proj2 (Ascii.eqb_neq _ _) Hq), (proj2 (Ascii.eqb_neq _ _) Hb), Hc.
Qed.

(** What a quoted chunk is for the scanner and for [unescape]. *)
Record chunk_quoted (c : Z * string) : Prop := {
  cq_scan t : scan_string (quote_chunk c +:+ t)
    = match scan_string t with Some (l, r) => Some (quote_chunk c +:+ l, r) | None => None end;
  cq_unescape t : unescape (quote_chunk c +:+ t) = fix_chunk c +:+ unescape t;
}.

Lemma high_bytes s :
  sforall (fun a => 128 <=? byte_of a) s = true ->
  (forall t, scan_string (s +:+ t)
     = match scan_string t with Some (l, r) => Some (s +:+ l, r) | None => None end)
  /\ forall t, unescape (s +:+ t) = s +:+ unescape t.
Proof.
  induction s as [|c s IH]; cbn [sforall].
  { intros _. split; [|done]. intros t. change ("" +:+ t) with t. by destruct (scan_string t) as [[]|]. }
  intros [Hc Hs]%andb_true_iff. destruct (IH Hs) as [IH1 IH2].
  assert (c <> backslash /\ c <> dquote) as [Hb Hq] by (split; intros ->; done).
  split; intros t; rewrite sapp_cons.
  - rewrite scan_other, IH1 by (done || lia). by destruct (scan_string t) as [[]|].
  - by rewrite unescape_other, IH2.
Qed.

Lemma unescape_escape_byte r t :
  0 <= r < 128 -> unescape (escape_byte r +:+ t) = String (of_byte r) "" +:+ unescape t.
Proof.
  intros Hr. unfold escape_byte. rewrite !sapp_cons. change ("" +:+ t) with t.
  rewrite (unescape_u _ _ _ _ r).
  - unfold encode_rune. replace ((r <? 0) || _ || _) with false by lia.
    by replace (r <? 128) with true by lia.
  - unfold hex4. rewrite !from_hex_digit by (Z.to_euclidean_division_equations; lia).
    change (from_hex "0") with (Some 0). cbv iota beta. f_equal.
    Z.to_euclidean_division_equations; lia.
  - unfold is_surrogate. lia.
Qed.

Lemma chunk_quoted_ascii r : 0 <= r < 128 -> chunk_quoted (r, String (of_byte r) "").
Proof.
  intros Hr. assert (Hin : In (Z.to_nat r) (seq 0 128)) by (apply in_seq; lia).
  rewrite <- (Z2Nat.id r) by lia. revert Hin. generalize (Z.to_nat r). clear r Hr. intros n Hin.
  cbn in Hin. split; intros t.
  - destruct_or? Hin; subst n; first [done|by destruct (scan_string t) as [[]|]].
  - destruct_or? Hin; subst n; first [reflexivity|refine (unescape_escape_byte _ t _); lia].
Qed.

(** A [\u] escape with fixed digits. *)
Lemma chunk_quoted_u c a b x y r :
  quote_chunk c = String backslash (String "u" (String a (String b (String x (String y ""))))) ->
  hex4 a b x y = Some r -> is_surrogate r = false -> fix_chunk c = encode_rune r ->
  chunk_quoted c.
Proof.
  intros Hq Hr Hs Hf. split; intros t; rewrite Hq, !sapp_cons; change ("" +:+ ?u) with u.
  - cbn [scan_string]. change (Ascii.eqb backslash dquote) with false.
    change (byte_of backslash <? 32) with false. rewrite Ascii.eqb_refl.
    change (escape_value "u") with (@None Z). change (byte_of "u" =? 117) with true. cbv iota.
    rewrite Hr. by destruct (scan_string t) as [[]|].
  - rewrite Hf. by apply unescape_u.
Qed.

Lemma chunk_quoted_shape c : chunk_shape c -> chunk_quoted c.
Proof.
  destruct c as [r b]. intros [[Hr Hb]|(Hr & Hb & Henc)]; cbn [fst snd] in *.
  { subst b. by apply chunk_quoted_ascii. }
  destruct (high_bytes b Hb) as [Hscan Hun].
  assert (Hq : quote_chunk (r, b) =
    if bad_chunk (r, b) then String backslash "ufffd"
    else if r =? 8232 then String backslash "u2028"
    else if r =? 8233 then String backslash "u2029" else b).
  { unfold quote_chunk. by replace (r <? 128) with false by lia. }
  destruct (bad_chunk (r, b)) eqn:Ebad.
  { apply (chunk_quoted_u _ "f" "f" "f" "d" RuneError); try done; unfold fix_chunk; by rewrite Ebad. }
  destruct Henc as [|Henc]; [done|].
  destruct (Z.eqb_spec r 8232) as [->|_].
  { apply (chunk_quoted_u _ "2" "0" "2" "8" 8232); try done; unfold fix_chunk; by rewrite Ebad. }
  destruct (Z.eqb_spec r 8233) as [->|_].
  { apply (chunk_quoted_u _ "2" "0" "2" "9" 8233); try done; unfold fix_chunk; by rewrite Ebad. }
  split; intros t; rewrite Hq; [apply Hscan|]. unfold fix_chunk. rewrite Ebad. apply Hun.
Qed.

(** A quoted string is scanned as a whole ... *)
Lemma scan_quote s rest : scan_string (quote s +:+ String dquote rest) = Some (quote s, rest).
Proof.
  unfold quote. induction (chunks_shape s) as [|c cs Hc _ IH].
  { cbn [map sconcat]. change ("" +:+ ?u) with u. cbn [scan_string]. by rewrite Ascii.eqb_refl. }
  cbn [map sconcat]. rewrite sapp_assoc, (cq_scan _ (chunk_quoted_shape _ Hc)). by rewrite IH.
Qed.

(** ... and read back, up to the replacement of bytes that are not UTF-8. *)
Lemma unquote_quote s : unquote (quote s) = to_valid s.
Proof.
  assert (Hun : unescape (quote s) = to_valid s).
  { unfold quote, to_valid. induction (chunks_shape s) as [|c cs Hc _ IH]; [done|].
    cbn [map sconcat]. by rewrite (cq_unescape _ (chunk_quoted_shape _ Hc)), IH. }
  unfold unquote. rewrite Hun. apply to_valid_id, utf8_to_valid.
Qed.

Lemma unquote_quote_utf8 s : utf8 s = true -> unquote (quote s) = s.
Proof. intros Hs. by rewrite unquote_quote, to_valid_id. Qed.

Lemma utf8_unquote l : utf8 (unquote l) = true.
Proof. apply utf8_to_valid. Qed.

(** ** The parser always has enough fuel *)

Abbreviation slength := String.length.

Lemma skip_ws_length s : (slength (skip_ws s) <= slength s)%nat.
Proof. induction s as [|c s IH]; cbn; [done|]. destruct (is_ws c); cbn; lia. Qed.

Lemma scan_string_length s l r : scan_string s = Some (l, r) -> (slength r < slength s)%nat.
Proof.
  enough (forall n s l r, (slength s <= n)%nat -> scan_string s = Some (l, r) ->
            (slength r < slength s)%nat) by eauto.
  clear s l r. induction n as [|n IH]; intros [|c s1] l r; cbn [slength scan_string]; try done; [lia|].
  intros Hn. destruct (Ascii.eqb c dquote); [intros [= <- <-]; lia|].
  destruct (byte_of c <? 32); [done|]. destruct (Ascii.eqb c backslash).
  2: { destruct (scan_string s1) as [[l1 r1]|] eqn:E; [|done]. intros [= <- <-].
       apply IH in E; lia. }
  destruct s1 as [|e s2]; [done|]. cbn [slength] in *. destruct (escape_value e).
  { destruct (scan_string s2) as [[l1 r1]|] eqn:E; [|done]. intros [= <- <-]. apply IH in E; lia. }
  destruct (byte_of e =? 117); [|done]. destruct s2 as [|a [|b [|x [|y s3]]]]; try done.
  cbn [slength] in *. destruct (hex4 a b x y); [|done].
  destruct (scan_string s3) as [[l1 r1]|] eqn:E; [|done]. intros [= <- <-]. apply IH in E; lia.
Qed.

Lemma span_number_length s : (slength (span_number s).1 + slength (span_number s).2 = slength s)%nat.
Proof.
  induction s as [|c s IH]; cbn; [done|]. destruct (number_char c); [|done].
  destruct (span_number s) as [a b]. cbn in *. lia.
Qed.

Lemma sdrop_length n s : slength (sdrop n s) = (slength s - n)%nat.
Proof. revert s. induction n as [|n IH]; intros [|c s]; cbn; try done; by rewrite IH. Qed.

Lemma strip_length p s r : p <> "" -> strip p s = Some r -> (slength r < slength s)%nat.
Proof.
  intros Hp. unfold strip. destruct (HasPrefix s p) eqn:E; [|done]. intros [= <-].
  apply HasPrefix_spec in E as [t ->]. rewrite sdrop_length.
  destruct p as [|c p]; [done|]. rewrite sapp_cons. cbn. lia.
Qed.

Lemma atom_length s j r : atom s = Some (j, r) -> (slength r < slength s)%nat.
Proof.
  unfold atom. destruct (strip "null" s) eqn:E1; [intros [= <- <-]; by apply (strip_length "null")|].
  destruct (strip "true" s) eqn:E2; [intros [= <- <-]; by apply (strip_length "true")|].
  destruct (strip "false" s) eqn:E3; [intros [= <- <-]; by apply (strip_length "false")|].
  pose proof (span_number_length s) as Hl. destruct (span_number s) as [l r']. cbn in Hl.
  destruct (is_number l) eqn:En; [|done]. intros [= <- <-]. destruct l; [done|]. cbn in *. lia.
Qed.

(** The loops and the value parser consume at least a byte. *)
Lemma value_consumes n :
  (forall d s j r, value n d s = Some (j, r) -> (slength r < slength s)%nat)
  /\ (forall d s l r, elements n d s = Some (l, r) -> (slength r < slength s)%nat)
  /\ (forall d s l r, members n d s = Some (l, r) -> (slength r < slength s)%nat).
Proof.
  induction n as [|n (IHv & IHe & IHm)]; [done|]. split_and!; intros d s j r; cbn [value elements members].
  - pose proof (skip_ws_length s). destruct (skip_ws s) as [|c s1]; [done|]. cbn [slength] in *.
    pose proof (skip_ws_length s1). destruct (Ascii.eqb c "{"); [|destruct (Ascii.eqb c "[")].
    + destruct (d <=? 0); [done|]. destruct (skip_ws s1) as [|c2 s2]; [done|]. cbn [slength] in *.
      destruct (Ascii.eqb c2 "}"); [intros [= <- <-]; lia|].
      destruct (members n _ _) as [[l r1]|] eqn:E; [|done]. intros [= <- <-].
      apply IHm in E. cbn in E. lia.
    + destruct (d <=? 0); [done|]. destruct (skip_ws s1) as [|c2 s2]; [done|]. cbn [slength] in *.
      destruct (Ascii.eqb c2 "]"); [intros [= <- <-]; lia|].
      destruct (elements n _ _) as [[l r1]|] eqn:E; [|done]. intros [= <- <-].
      apply IHe in E. cbn in E. lia.
    + destruct (Ascii.eqb c dquote).
      * destruct (scan_string s1) as [[l r1]|] eqn:E; [|done]. intros [= <- <-].
        apply scan_string_length in E. lia.
      * intros E%atom_length. cbn in E. lia.
  - destruct (value n d s) as [[x r1]|] eqn:E; [|done]. apply IHv in E.
    pose proof (skip_ws_length r1). destruct (skip_ws r1) as [|c r2]; [done|]. cbn [slength] in *.
    destruct (Ascii.eqb c "]"); [intros [= <- <-]; lia|]. destruct (Ascii.eqb c ","); [|done].
    destruct (elements n d r2) as [[l r3]|] eqn:E2; [|done]. intros [= <- <-]. apply IHe in E2. lia.
  - pose proof (skip_ws_length s). destruct (skip_ws s) as [|q s1]; [done|]. cbn [slength] in *.
    destruct (Ascii.eqb q dquote); [|done].
    destruct (scan_string s1) as [[k s2]|] eqn:Es; [|done]. apply scan_string_length in Es.
    pose proof (skip_ws_length s2). destruct (skip_ws s2) as [|c s3]; [done|]. cbn [slength] in *.
    destruct (Ascii.eqb c ":"); [|done].
    destruct (value n d s3) as [[x r1]|] eqn:E; [|done]. apply IHv in E.
    pose proof (skip_ws_length r1). destruct (skip_ws r1) as [|c' r2]; [done|]. cbn [slength] in *.
    destruct (Ascii.eqb c' "}"); [intros [= <- <-]; lia|]. destruct (Ascii.eqb c' ","); [|done].
    destruct (members n d r2) as [[l r3]|] eqn:E2; [|done]. intros [= <- <-]. apply IHm in E2. lia.
Qed.

(** More fuel than the length asks for changes nothing. *)
Lemma fuel_stable n :
  (forall d s m, (2 * slength s < n)%nat -> (n <= m)%nat -> value n d s = value m d s)
  /\ (forall d s m, (2 * slength s + 1 < n)%nat -> (n <= m)%nat -> elements n d s = elements m d s)
  /\ (forall d s m, (2 * slength s + 1 < n)%nat -> (n <= m)%nat -> members n d s = members m d s).
Proof.
  induction n as [|n (IHv & IHe & IHm)]; [split_and!; lia|].
  split_and!; intros d s [|m] Hn Hm; try lia; cbn [value elements members].
  - pose proof (skip_ws_length s). destruct (skip_ws s) as [|c s1]; [done|]. cbn [slength] in *.
    pose proof (skip_ws_length s1).
    destruct (Ascii.eqb c "{"); [|destruct (Ascii.eqb c "["); [|done]];
      (destruct (d <=? 0); [done|]); (destruct (skip_ws s1) as [|c2 s2]; [done|]); cbn [slength] in *.
    + rewrite (IHm _ (String c2 s2) m) by (cbn; lia). done.
    + rewrite (IHe _ (String c2 s2) m) by (cbn; lia). done.
  - rewrite (IHv _ s m) by lia. destruct (value m d s) as [[x r1]|] eqn:E; [|done].
    apply value_consumes in E. pose proof (skip_ws_length r1).
    destruct (skip_ws r1) as [|c r2]; [done|]. cbn [slength] in *.
    rewrite (IHe _ r2 m) by lia. done.
  - pose proof (skip_ws_length s). destruct (skip_ws s) as [|q s1]; [done|]. cbn [slength] in *.
    destruct (Ascii.eqb q dquote); [|done].
    destruct (scan_string s1) as [[k s2]|] eqn:Es; [|done]. apply scan_string_length in Es.
    pose proof (skip_ws_length s2). destruct (skip_ws s2) as [|c s3]; [done|]. cbn [slength] in *.
    destruct (Ascii.eqb c ":"); [|done]. rewrite (IHv _ s3 m) by lia.
    destruct (value m d s3) as [[x r1]|] eqn:E; [|done]. apply value_consumes in E.
    pose proof (skip_ws_length r1). destruct (skip_ws r1) as [|c' r2]; [done|]. cbn [slength] in *.
    rewrite (IHm _ r2 m) by lia. done.
Qed.

Lemma value_fuel n d s : (enough s <= n)%nat -> value n d s = value (enough s) d s.
Proof. unfold enough. intros Hn. symmetry. apply fuel_stable; lia. Qed.

(** ** What is printed is parsed *)

(** A literal the scanner takes as a whole. *)
Definition literal (l : string) : Prop :=
  forall rest, scan_string (l +:+ String dquote rest) = Some (l, rest).

Lemma literal_quote s : literal (quote s).
Proof. intros rest. apply scan_quote. Qed.

Section every.
Context (P : json -> Prop).
Definition every (l : list json) : Prop := foldr (fun x acc => P x /\ acc) True l.
Definition every_member (l : list (string * json)) : Prop :=
  foldr (fun kv acc => literal kv.1 /\ P kv.2 /\ acc) True l.
End every.

(** Values whose literals are literals. *)
Fixpoint wf (j : json) : Prop :=
  match j with
  | JNull | JBool _ => True
  | JNum l => is_number l = true
  | JStr l => literal l
  | JArr l => every wf l
  | JObj l => every_member wf l
  end.

Fixpoint height (j : json) : Z :=
  match j with
  | JArr l => 1 + foldr Z.max 0 (map height l)
  | JObj l => 1 + foldr Z.max 0 (map (fun kv => height kv.2) l)
  | _ => 0
  end.

Class StyleOk (st : Style) : Prop := {
  nl_ws d : sforall is_ws (nl st d) = true;
  colon_ws : exists w, colon st = String ":" w /\ sforall is_ws w = true;
}.

#[export] Instance compact_ok : StyleOk compact.
Proof. split; [done|]. by exists "". Qed.

#[export] Instance indented_ok : StyleOk indented.
Proof.
  split; [|by exists " "]. intros d. cbn. induction d as [|d IH]; [done|]. cbn [spaces].
  by rewrite sforall_app.
Qed.

Lemma skip_ws_app w s : sforall is_ws w = true -> skip_ws (w +:+ s) = skip_ws s.
Proof.
  induction w as [|c w IH]; [done|]. cbn [sforall]. intros [Hc Hw]%andb_true_iff.
  rewrite sapp_cons. cbn [skip_ws]. rewrite Hc. by apply IH.
Qed.

(** The continuations of a number. *)
Definition delim (s : string) : Prop :=
  match s with String c _ => number_char c = false | "" => True end.

Lemma delim_ws w s : sforall is_ws w = true -> delim s -> delim (w +:+ s).
Proof.
  destruct w as [|c w]; [done|]. cbn [sforall]. intros [Hc _]%andb_true_iff _.
  rewrite sapp_cons. cbn. unfold is_ws in Hc. unfold number_char, is_digit. lia.
Qed.

Lemma span_number_app l s :
  sforall number_char l = true -> delim s -> span_number (l +:+ s) = (l, s).
Proof.
  intros Hl Hs. induction l as [|c l IH].
  - change ("" +:+ s) with s. destruct s as [|c s]; [done|]. cbn in *. by rewrite Hs.
  - cbn [sforall] in Hl. apply andb_true_iff in Hl as [Hc Hl]. rewrite sapp_cons. cbn [span_number].
    by rewrite Hc, IH.
Qed.

Lemma skip_digits_number s :
  sforall number_char (skip_digits s) = true -> sforall number_char s = true.
Proof.
  induction s as [|c s IH]; cbn; [done|]. destruct (is_digit c) eqn:E; [|done].
  intros H. unfold number_char. rewrite E. cbn. by apply IH.
Qed.

Lemma digits1_chars s r :
  digits1 s = Some r -> sforall number_char r = true -> sforall number_char s = true.
Proof.
  destruct s as [|c s]; cbn; [done|]. destruct (is_digit c) eqn:E; [|done]. intros [= <-] Hr.
  unfold number_char at 1. rewrite E. cbn. by apply skip_digits_number.
Qed.

Lemma num_exp_chars s : num_exp s = true -> sforall number_char s = true.
Proof.
  destruct s as [|c s]; [done|]. cbn [num_exp]. destruct (_ || _) eqn:Ec; [|done].
  intros H. cbn [sforall]. apply andb_true_iff. split; [unfold number_char; lia|].
  destruct s as [|e s]; [done|]. destruct ((byte_of e =? 43) || (byte_of e =? 45)) eqn:Ee.
  - destruct (digits1 s) as [r|] eqn:Er; [|done]. apply String.eqb_eq in H as ->.
    cbn [sforall]. apply andb_true_iff. split; [unfold number_char; lia|]. by eapply digits1_chars.
  - destruct (digits1 (String e s)) as [r|] eqn:Er; [|done]. apply String.eqb_eq in H as ->.
    by eapply digits1_chars.
Qed.

Lemma num_frac_chars s : num_frac s = true -> sforall number_char s = true.
Proof.
  destruct s as [|c s]; [done|]. cbn [num_frac].
  destruct (byte_of c =? 46) eqn:Ec; [|apply num_exp_chars].
  intros H. cbn [sforall]. apply andb_true_iff. split; [unfold number_char; lia|].
  destruct (digits1 s) as [r|] eqn:Er; [|done]. eapply digits1_chars; [done|]. by apply num_exp_chars.
Qed.

Lemma is_number_chars l : is_number l = true -> sforall number_char l = true.
Proof.
  assert (Hi : forall c s, (if byte_of c =? 48 then num_frac s
                            else if is_digit c then num_frac (skip_digits s) else false) = true ->
                 sforall number_char (String c s) = true).
  { intros c s H. cbn [sforall]. apply andb_true_iff. destruct (byte_of c =? 48) eqn:E0.
    - split; [unfold number_char, is_digit; lia|by apply num_frac_chars].
    - destruct (is_digit c) eqn:Ec; [|done]. split; [unfold number_char; by rewrite Ec|].
      by apply skip_digits_number, num_frac_chars. }
  unfold is_number. destruct l as [|c l]; [done|]. destruct (byte_of c =? 45) eqn:Ec; [|apply Hi].
  destruct l as [|c' l]; [done|]. intros H%Hi. cbn [sforall] in *.
  apply andb_true_iff. split; [unfold number_char; lia|done].
Qed.

(** *** The first character of a printed value *)

Definition starts_value (c : ascii) : Prop :=
  is_ws c = false /\ c <> "]"%char /\ c <> "}"%char.

Lemma number_starts l :
  is_number l = true ->
  exists c s, l = String c s /\ number_char c = true
    /\ (is_digit c = true \/ byte_of c = 45).
Proof.
  intros Hl. pose proof (is_number_chars l Hl) as Hc. destruct l as [|c s]; [done|].
  exists c, s. split; [done|]. cbn in Hc. apply andb_true_iff in Hc as [Hc _]. split; [done|].
  unfold is_number in Hl. destruct (Z.eqb_spec (byte_of c) 45); [by right|left].
  destruct (byte_of c =? 48) eqn:E; [unfold is_digit; lia|]. by destruct (is_digit c).
Qed.

Section roundtrip.
Context (st : Style) `{!StyleOk st}.

Lemma print_starts d j :
  wf j -> exists c s, print st d j = String c s /\ starts_value c.
Proof.
  unfold starts_value. destruct j as [|[]|l|l|[|x l]|[|kv l]]; cbn [wf print];
    try (intros _; eexists _, _; split; [reflexivity|done]).
  intros (c & s & -> & _ & Hc)%number_starts. exists c, s. split; [done|].
  unfold is_ws, is_digit in *.
  split_and!; [lia| |]; intros ->; destruct Hc as [Hc|Hc]; vm_compute in Hc; done.
Qed.

(** *** Reading a printed value back *)

(** [value] reads [print d j] back, at any depth and before any delimiter. *)
Definition reads (j : json) : Prop :=
  forall n D d w rest, height j <= D -> delim rest -> sforall is_ws w = true ->
    (2 * slength (w +:+ print st d j +:+ rest) < n)%nat ->
    value n D (w +:+ print st d j +:+ rest) = Some (j, rest).

Definition elements_tail (d : nat) (l : list json) (rest : string) : string :=
  sconcat (map (fun y => "," +:+ nl st (S d) +:+ print st (S d) y) l) +:+ nl st d +:+ "]" +:+ rest.

Definition members_tail (d : nat) (l : list (string * json)) (rest : string) : string :=
  sconcat (map (fun kv => "," +:+ nl st (S d) +:+ quoted kv.1 +:+ colon st
                          +:+ print st (S d) kv.2) l) +:+ nl st d +:+ "}" +:+ rest.

Lemma elements_tail_cons d y l rest :
  elements_tail d (y :: l) rest
  = "," +:+ nl st (S d) +:+ print st (S d) y +:+ elements_tail d l rest.
Proof. unfold elements_tail. cbn [map sconcat]. by rewrite !sapp_assoc. Qed.

Lemma members_tail_cons d kv l rest :
  members_tail d (kv :: l) rest
  = "," +:+ nl st (S d) +:+ quoted kv.1 +:+ colon st +:+ print st (S d) kv.2
    +:+ members_tail d l rest.
Proof. unfold members_tail. cbn [map sconcat]. by rewrite !sapp_assoc. Qed.

Lemma elements_tail_delim d l rest : delim (elements_tail d l rest).
Proof.
  destruct l; [|by rewrite elements_tail_cons].
  unfold elements_tail. cbn [map sconcat]. change ("" +:+ ?u) with u.
  apply delim_ws; [apply nl_ws|done].
Qed.

Lemma members_tail_delim d l rest : delim (members_tail d l rest).
Proof.
  destruct l; [|by rewrite members_tail_cons].
  unfold members_tail. cbn [map sconcat]. change ("" +:+ ?u) with u.
  apply delim_ws; [apply nl_ws|done].
Qed.

Lemma elements_print d l : forall x n D w rest,
  Forall reads (x :: l) -> Forall (fun y => height y <= D) (x :: l) -> sforall is_ws w = true ->
  (2 * slength (w +:+ print st (S d) x +:+ elements_tail d l rest) + 1 < n)%nat ->
  elements n D (w +:+ print st (S d) x +:+ elements_tail d l rest) = Some (x :: l, rest).
Proof.
  induction l as [|y l IH]; intros x n D w rest Hr Hh Hw Hn; (destruct n as [|n]; [lia|]);
    apply Forall_cons in Hr as [Hx Hr]; apply Forall_cons in Hh as [Hxh Hh]; cbn [elements];
    rewrite Hx by (first [done|apply elements_tail_delim|lia]).
  - unfold elements_tail. cbn [map sconcat]. change ("" +:+ ?u) with u.
    rewrite skip_ws_app by apply nl_ws. done.
  - rewrite elements_tail_cons in Hn |- *. rewrite !slength_app in Hn.
    change ("," +:+ ?u) with (String "," u). cbn [skip_ws is_ws]. 
    change (is_ws ",") with false. cbv iota. cbn [Ascii.eqb Bool.eqb].
    rewrite IH; [done|done|done|apply nl_ws|]. rewrite !slength_app. cbn in Hn. lia.
Qed.

Lemma members_print d l : forall kv n D w rest,
  Forall (fun kv => reads kv.2) (kv :: l) -> Forall (fun kv => height kv.2 <= D) (kv :: l) ->
  Forall (fun kv => literal kv.1) (kv :: l) -> sforall is_ws w = true ->
  (2 * slength (w +:+ quoted kv.1 +:+ colon st +:+ print st (S d) kv.2 +:+ members_tail d l rest) + 1
   < n)%nat ->
  members n D (w +:+ quoted kv.1 +:+ colon st +:+ print st (S d) kv.2 +:+ members_tail d l rest)
  = Some (kv :: l, rest).
Proof.
  destruct colon_ws as (wc & Hcolon & Hwc).
  induction l as [|kv' l IH]; intros [k x] n D w rest Hr Hh Hk Hw Hn; (destruct n as [|n]; [lia|]);
    apply Forall_cons in Hr as [Hx Hr]; apply Forall_cons in Hh as [Hxh Hh];
    apply Forall_cons in Hk as [Hkl Hk]; cbn [members fst snd] in *;
    rewrite skip_ws_app by done; unfold quoted at 1; rewrite sapp_cons; cbn [skip_ws];
    change (is_ws dquote) with false; cbv iota; rewrite Ascii.eqb_refl, sapp_assoc, sapp_cons, Hkl;
    rewrite Hcolon in *; rewrite sapp_cons; change ("" +:+ ?u) with u; cbn [skip_ws];
    change (is_ws ":") with false; cbv iota; rewrite Ascii.eqb_refl;
    rewrite !slength_app in Hn; cbn [slength] in Hn;
    (rewrite Hx; [|done|apply members_tail_delim|done|rewrite !slength_app; lia]).
  - unfold members_tail. cbn [map sconcat]. change ("" +:+ ?u) with u.
    rewrite skip_ws_app by apply nl_ws. done.
  - rewrite members_tail_cons in Hn |- *. rewrite !slength_app in Hn.
    change ("," +:+ ?u) with (String "," u). cbn [skip_ws].
    change (is_ws ",") with false. cbv iota. cbn [Ascii.eqb Bool.eqb].
    rewrite Hcolon in *. rewrite IH; [done|done|done|done|apply nl_ws|].
    rewrite !slength_app. cbn [slength] in *. lia.
Qed.

Lemma every_Forall P l : every P l <-> Forall P l.
Proof. induction l as [|x l IH]; cbn; [by split|]. by rewrite IH, Forall_cons. Qed.

Lemma every_member_Forall P l :
  every_member P l <-> Forall (fun kv => literal kv.1) l /\ Forall (fun kv => P kv.2) l.
Proof. induction l as [|x l IH]; cbn; [by split|]. rewrite IH, !Forall_cons. tauto. Qed.

Lemma height_bound {A} (h : A -> Z) l D :
  1 + foldr Z.max 0 (map h l) <= D -> Forall (fun x => h x <= D - 1) l.
Proof.
  induction l as [|x l IH]; cbn; intros H; constructor; [lia|]. apply IH. lia.
Qed.

Lemma height_pos {A} (h : A -> Z) l : 0 <= foldr Z.max 0 (map h l).
Proof. induction l; cbn; lia. Qed.

Lemma strip_fails p s c s' : s = String c s' -> head (list_ascii_of_string p) <> Some c -> p <> "" ->
  strip p s = None.
Proof.
  intros -> Hc Hp. unfold strip. destruct (HasPrefix _ p) eqn:E; [|done].
  apply HasPrefix_spec in E as [t E]. destruct p as [|d p]; [done|]. rewrite sapp_cons in E.
  injection E as -> ->. by destruct Hc.
Qed.

Lemma sdrop_app p r : sdrop (slength p) (p +:+ r) = r.
Proof. by induction p. Qed.

Lemma strip_app p r : strip p (p +:+ r) = Some r.
Proof. unfold strip. rewrite (proj2 (HasPrefix_spec _ _)) by eauto. by rewrite sdrop_app. Qed.

(** The three keywords. *)
Lemma value_keyword n D k j rest :
  (k, j) ∈ [("null", JNull); ("true", JBool true); ("false", JBool false)] ->
  value (S n) D (k +:+ rest) = Some (j, rest).
Proof.
  intros Hk. apply list_elem_of_In in Hk. cbn in Hk.
  assert (Ha : atom (k +:+ rest) = Some (j, rest)).
  { unfold atom. destruct_or? Hk; try done; injection Hk as <- <-;
      rewrite ?strip_app; try done;
      rewrite (strip_fails "null" _ "t" ("rue" +:+ rest))
        || rewrite (strip_fails "null" _ "f" ("alse" +:+ rest)); try done;
      rewrite (strip_fails "true" _ "f" ("alse" +:+ rest)); done. }
  rewrite <- Ha. by destruct_or? Hk; try done; injection Hk as <- <-.
Qed.

Lemma atom_number l rest :
  is_number l = true -> delim rest -> atom (l +:+ rest) = Some (JNum l, rest).
Proof.
  intros Hl Hrest. destruct (number_starts l Hl) as (c & s & El & _ & Hc).
  assert (Hfail : forall p, p = "null" \/ p = "true" \/ p = "false" -> strip p (l +:+ rest) = None).
  { intros p Hp. apply (strip_fails p _ c (s +:+ rest)); [by rewrite El| |by destruct_or? Hp; subst].
    unfold is_digit in Hc. destruct_or? Hp; subst; cbn; intros [= <-];
      destruct Hc as [Hc|Hc]; vm_compute in Hc; done. }
  unfold atom. rewrite !Hfail by tauto. rewrite span_number_app by (done || by apply is_number_chars).
  by rewrite Hl.
Qed.

Lemma value_skip n D w s : sforall is_ws w = true -> value n D (w +:+ s) = value n D s.
Proof. intros Hw. destruct n as [|n]; [done|]. cbn [value]. by rewrite skip_ws_app. Qed.

Lemma value_number n D l rest :
  is_number l = true -> delim rest -> value (S n) D (l +:+ rest) = Some (JNum l, rest).
Proof.
  intros Hl Hrest. rewrite <- (atom_number l rest Hl Hrest).
  destruct (number_starts l Hl) as (c & s & -> & Hn & Hc). rewrite sapp_cons. cbn [value skip_ws].
  assert (Hne : forall b, number_char b = false -> (c =? b)%char = false).
  { intros b Hb. apply Ascii.eqb_neq. intros ->. congruence. }
  replace (is_ws c) with false by (unfold is_ws, is_digit in *; lia).
  by rewrite !Hne by done.
Qed.

Lemma reads_array l : Forall reads l -> every wf l -> reads (JArr l).
Proof.
  intros Hr Hwf n D d w rest HD Hrest Hw Hn. rewrite value_skip by done.
  cbn [height] in HD. pose proof (height_pos height l). rewrite slength_app in Hn.
  destruct n as [|n]; [lia|]. destruct l as [|x l].
  { cbn [value print]. rewrite !sapp_cons. cbn. by replace (D <=? 0) with false by lia. }
  cbn [print] in *. rewrite !sapp_assoc in *. fold (elements_tail d l rest) in *.
  change ("[" +:+ ?u) with (String "[" u) in *. cbn [value skip_ws slength] in *.
  change (is_ws "[") with false. change (Ascii.eqb "[" "{") with false.
  change (Ascii.eqb "[" "[") with true. cbv iota. replace (D <=? 0) with false by lia.
  rewrite skip_ws_app by apply nl_ws. apply every_Forall in Hwf.
  assert (Hx : wf x) by by apply Forall_cons in Hwf as [? _].
  destruct (print_starts (S d) x Hx) as (c & s & E & Hc & Hc1 & Hc2).
  assert (Hel : elements n (D - 1) ("" +:+ print st (S d) x +:+ elements_tail d l rest)
                = Some (x :: l, rest)).
  { apply elements_print; [done|by apply height_bound|done|].
    rewrite !slength_app in *. cbn [slength] in *. lia. }
  change ("" +:+ ?u) with u in Hel. rewrite E, sapp_cons in *. cbn [skip_ws]. rewrite Hc.
  by rewrite (proj2 (Ascii.eqb_neq _ _) Hc1), Hel.
Qed.

Lemma reads_object l : Forall (fun kv => reads kv.2) l -> every_member wf l -> reads (JObj l).
Proof.
  intros Hr Hwf n D d w rest HD Hrest Hw Hn. rewrite value_skip by done.
  cbn [height] in HD. pose proof (height_pos (fun kv : string * json => height kv.2) l).
  rewrite slength_app in Hn. destruct n as [|n]; [lia|]. destruct l as [|kv l].
  { cbn [value print]. rewrite !sapp_cons. cbn. by replace (D <=? 0) with false by lia. }
  cbn [print] in *. rewrite !sapp_assoc in *. fold (members_tail d l rest) in *.
  change ("{" +:+ ?u) with (String "{" u) in *. cbn [value skip_ws slength] in *.
  change (is_ws "{") with false. change (Ascii.eqb "{" "{") with true. cbv iota.
  replace (D <=? 0) with false by lia. rewrite skip_ws_app by apply nl_ws.
  apply every_member_Forall in Hwf as [Hk _].
  assert (Hel : members n (D - 1)
      ("" +:+ quoted kv.1 +:+ colon st +:+ print st (S d) kv.2 +:+ members_tail d l rest)
      = Some (kv :: l, rest)).
  { apply members_print; [done|by apply (height_bound (fun kv : string * json => height kv.2))|done|done|].
    rewrite !slength_app in *. cbn [slength] in *. lia. }
  change ("" +:+ ?u) with u in Hel. unfold quoted in *. rewrite !sapp_cons in *. cbn [skip_ws].
  change (is_ws dquote) with false. cbv iota. change (Ascii.eqb dquote "}") with false. cbv iota.
  by rewrite Hel.
Qed.

(** Every well-formed value is read back, from both printed forms. *)
Lemma value_print j : wf j -> reads j.
Proof.
  induction j as [| b|l|l|l IH|l IH] using json_ind; intros Hwf.
  - intros [|n] D d w rest _ _ Hw Hn; [lia|]. rewrite value_skip by done.
    apply (value_keyword n D "null"). set_solver.
  - intros [|n] D d w rest _ _ Hw Hn; [lia|]. rewrite value_skip by done.
    destruct b; [apply (value_keyword n D "true")|apply (value_keyword n D "false")]; set_solver.
  - intros [|n] D d w rest _ Hrest Hw Hn; [lia|]. rewrite value_skip by done. by apply value_number.
  - intros [|n] D d w rest _ _ Hw Hn; [lia|]. rewrite value_skip by done. cbn [print].
    unfold quoted. rewrite sapp_cons, sapp_assoc, sapp_cons. cbn [value skip_ws].
    change (is_ws dquote) with false. cbv iota. change (Ascii.eqb dquote "{") with false.
    change (Ascii.eqb dquote "[") with false. rewrite Ascii.eqb_refl. cbv iota. by rewrite Hwf.
  - apply reads_array; [|done]. cbn in Hwf. apply every_Forall in Hwf.
    apply Forall_forall. intros x Hx. rewrite Forall_forall in IH, Hwf. by apply IH, Hwf.
  - apply reads_object; [|done]. cbn in Hwf. apply every_member_Forall in Hwf as [_ Hwf].
    apply Forall_forall. intros x Hx. rewrite Forall_forall in IH, Hwf. by apply IH, Hwf.
Qed.

Lemma parse_print j d : wf j -> height j <= max_depth -> parse (print st d j) = Some j.
Proof.
  intros Hwf Hh. unfold parse.
  pose proof (value_print j Hwf (enough (print st d j)) max_depth d "" "" Hh I eq_refl) as Hr.
  change ("" +:+ ?u) with u in Hr. rewrite sapp_nil_r in Hr. rewrite Hr by (unfold enough; lia). done.
Qed.

(** The decoder stops after the value. *)
Lemma parse_first_print_app j d rest :
  wf j -> height j <= max_depth -> delim rest -> parse_first (print st d j +:+ rest) = Some j.
Proof.
  intros Hwf Hh Hd. unfold parse_first.
  pose proof (value_print j Hwf (enough (print st d j +:+ rest)) max_depth d "" rest Hh Hd eq_refl) as Hr.
  change ("" +:+ ?u) with u in Hr. by rewrite Hr by (unfold enough; lia).
Qed.

Lemma parse_first_print j d : wf j -> height j <= max_depth -> parse_first (print st d j) = Some j.
Proof.
  intros Hwf Hh. rewrite <- (sapp_nil_r (print st d j)). by apply parse_first_print_app.
Qed.
End roundtrip.
