(* ===== verification/Scheduler.v ===== *)
(** * The placement scheduler: [internal/scheduler/scheduler.go]

    [Place] filters the nodes by [eligible] and [selectBackend], sorts the
    candidates (least running jobs, then most free CPU, then most free
    memory) with a stable sort, and returns the first.  The theorems
    characterise the result completely: it is the leftmost of the best
    eligible nodes, and there is none exactly when no node qualifies. *)

From S2P Require Import Prelude GoTime Model.
From stdpp Require Import base list sorting strings gmap.
From Stdlib Require Import ZArith Lia.
Open Scope string_scope.
Open Scope list_scope.
Open Scope Z_scope.

(** ** Definitions *)

Definition contains (values : list string) (wanted : string) : bool :=
  existsb (fun v => String.eqb v wanted) values.

Definition eligible (req : JobRequirements) (n : Node) : bool :=
  if negb (node_Online n) || negb (String.eqb (req_OS req) (node_OS n))
     || negb (String.eqb (req_Arch req) (node_Arch n)) then false
  else if (0 <? req_CPU req) && (FreeCPU (node_Capacity n) <? req_CPU req) then false
  else if (0 <? req_MemoryM req) && (FreeMemoryM (node_Capacity n) <? req_MemoryM req) then false
  else forallb (contains (node_Capabilities n)) (req_Capabilities req).

(** The [preferred] map literal: an unknown isolation gives the nil slice. *)
Definition preferred (isolation : Isolation) : list BackendKind :=
  if String.eqb isolation IsolationContainer then [BackendDocker]
  else if String.eqb isolation IsolationVM then [BackendKVM; BackendHyperV]
  else if String.eqb isolation IsolationNative then [BackendNative]
  else [].

(** The two nested loops: the first preferred backend the node has. *)
Fixpoint first_preferred (prefs backends : list BackendKind) : option BackendKind :=
  match prefs with
  | [] => None
  | p :: prefs' =>
      match List.find (String.eqb p) backends with
      | Some b => Some b
      | None => first_preferred prefs' backends
      end
  end.

Definition selectBackend (isolation : Isolation) (backends : list BackendKind)
  : option BackendKind :=
  first_preferred (preferred isolation) backends.

Record candidate : Set := mkCandidate {
  placement : Placement;
  freeCPU : Z;
  freeMemory : Z;
  running : Z;
}.

(** The body of the collecting loop. *)
Definition candidate_of (req : JobRequirements) (n : Node) : option candidate :=
  if eligible req n then
    match selectBackend (req_Isolation req) (node_Backends n) with
    | Some backend =>
        Some (mkCandidate (mkPlacement (node_ID n) backend) (FreeCPU (node_Capacity n))
                (FreeMemoryM (node_Capacity n)) (RunningJobs (node_Capacity n)))
    | None => None
    end
  else None.

Definition candidates (req : JobRequirements) (nodes : list Node) : list candidate :=
  omap (candidate_of req) nodes.

(** The [less] function given to [sort.SliceStable]. *)
Definition less (a b : candidate) : bool :=
  if negb (running a =? running b) then running a <? running b
  else if negb (freeCPU a =? freeCPU b) then freeCPU b <? freeCPU a
  else freeMemory b <? freeMemory a.

Definition Place (req : JobRequirements) (nodes : list Node) : result Placement :=
  match sort_stable less (candidates req nodes) with
  | [] => Err ErrNoPlacement
  | c :: _ => Ok (placement c)
  end.

(** ** The specification

    What the scheduler promises, independently of how it searches. *)

(** A node can run the job. *)
Record suitable (req : JobRequirements) (n : Node) : Prop := {
  suit_online : node_Online n = true;
  suit_os : node_OS n = req_OS req;
  suit_arch : node_Arch n = req_Arch req;
  suit_cpu : 0 < req_CPU req -> req_CPU req <= FreeCPU (node_Capacity n);
  suit_memory : 0 < req_MemoryM req -> req_MemoryM req <= FreeMemoryM (node_Capacity n);
  suit_capabilities : forall c, c ∈ req_Capabilities req -> c ∈ node_Capabilities n;
}.

(** The backend kinds an isolation level admits, best first. *)
Inductive runs_on : Isolation -> list BackendKind -> BackendKind -> Prop :=
| runs_docker bs : BackendDocker ∈ bs -> runs_on IsolationContainer bs BackendDocker
| runs_kvm bs : BackendKVM ∈ bs -> runs_on IsolationVM bs BackendKVM
| runs_hyperv bs :
    BackendHyperV ∈ bs -> BackendKVM ∉ bs -> runs_on IsolationVM bs BackendHyperV
| runs_native bs : BackendNative ∈ bs -> runs_on IsolationNative bs BackendNative.

(** [a] is strictly less loaded than [b]: the lexicographic order. *)
Definition better (a b : Node) : Prop :=
  let ca := node_Capacity a in
  let cb := node_Capacity b in
  RunningJobs ca < RunningJobs cb
  \/ RunningJobs ca = RunningJobs cb /\ FreeCPU cb < FreeCPU ca
  \/ RunningJobs ca = RunningJobs cb /\ FreeCPU ca = FreeCPU cb
     /\ FreeMemoryM cb < FreeMemoryM ca.

Definition qualifies (req : JobRequirements) (n : Node) : Prop :=
  suitable req n /\ exists b, runs_on (req_Isolation req) (node_Backends n) b.

(** The contract: the leftmost best qualifying node, with its backend. *)
Definition placed_at (req : JobRequirements) (nodes : list Node) (n : Node) (p : Placement)
  : Prop :=
  exists before after, nodes = before ++ n :: after
    /\ suitable req n /\ NodeID p = node_ID n
    /\ runs_on (req_Isolation req) (node_Backends n) (Backend p)
    /\ (forall m, m ∈ before -> qualifies req m -> better n m)
    /\ (forall m, m ∈ after -> qualifies req m -> ~ better m n).

(** ** Lemmas *)

Lemma contains_spec values wanted : contains values wanted = true <-> wanted ∈ values.
Proof.
  unfold contains. rewrite existsb_exists. setoid_rewrite String.eqb_eq.
  setoid_rewrite <- list_elem_of_In. naive_solver.
Qed.

Lemma eligible_suitable req n : eligible req n = true <-> suitable req n.
Proof.
  unfold eligible. split.
  - intros H. repeat (destruct_match_in H; [discriminate|]).
    rewrite !orb_false_iff, !negb_false_iff, !String.eqb_eq in *. destruct_and?.
    rewrite forallb_forall in H. rewrite ?andb_false_iff, ?Z.ltb_ge in *.
    split; try done; try lia.
    intros c Hc. apply contains_spec, H, list_elem_of_In, Hc.
  - intros []. rewrite suit_online0, suit_os0, suit_arch0, !String.eqb_refl. cbn.
    replace ((0 <? req_CPU req) && (FreeCPU (node_Capacity n) <? req_CPU req)) with false by lia.
    replace ((0 <? req_MemoryM req) && (FreeMemoryM (node_Capacity n) <? req_MemoryM req))
      with false by lia.
    apply forallb_forall. intros c Hc. apply contains_spec, suit_capabilities0.
    by apply list_elem_of_In.
Qed.

Lemma find_string_eqb p bs :
  List.find (String.eqb p) bs = if decide (p ∈ bs) then Some p else None.
Proof.
  induction bs as [|b bs IH]; cbn; [by rewrite decide_False by set_solver|].
  destruct (String.eqb_spec p b) as [->|Hne].
  - by rewrite decide_True by set_solver.
  - rewrite IH. destruct (decide (p ∈ bs)).
    + by rewrite decide_True by set_solver.
    + by rewrite decide_False by set_solver.
Qed.

Lemma selectBackend_spec iso bs b : selectBackend iso bs = Some b <-> runs_on iso bs b.
Proof.
  unfold selectBackend, preferred. split.
  - intros H.
    destruct (String.eqb_spec iso IsolationContainer) as [->|]; [|
      destruct (String.eqb_spec iso IsolationVM) as [->|]; [|
        destruct (String.eqb_spec iso IsolationNative) as [->|]; [|done]]];
      cbn [first_preferred] in H; rewrite ?find_string_eqb in H;
      repeat case_decide; simplify_eq; by constructor.
  - destruct 1;
      [ change (first_preferred [BackendDocker] bs = Some BackendDocker)
      | change (first_preferred [BackendKVM; BackendHyperV] bs = Some BackendKVM)
      | change (first_preferred [BackendKVM; BackendHyperV] bs = Some BackendHyperV)
      | change (first_preferred [BackendNative] bs = Some BackendNative) ];
      cbn [first_preferred]; rewrite ?find_string_eqb; repeat case_decide; done.
Qed.

#[export] Instance less_strict_weak : StrictWeak less.
Proof. split; [intros x y|intros x y z]; unfold less; repeat destruct_match; lia. Qed.

Lemma candidate_of_Some req n c :
  candidate_of req n = Some c <->
  suitable req n /\ NodeID (placement c) = node_ID n
  /\ runs_on (req_Isolation req) (node_Backends n) (Backend (placement c))
  /\ freeCPU c = FreeCPU (node_Capacity n) /\ freeMemory c = FreeMemoryM (node_Capacity n)
  /\ running c = RunningJobs (node_Capacity n).
Proof.
  unfold candidate_of. rewrite <- eligible_suitable, <- selectBackend_spec.
  destruct (eligible req n); [|naive_solver].
  destruct (selectBackend _ _) as [b|]; [|naive_solver].
  split; [by intros [= <-]|].
  destruct c as [[]]; cbn. naive_solver.
Qed.

Lemma candidate_of_None req n : candidate_of req n = None <-> ~ qualifies req n.
Proof.
  unfold qualifies. split.
  - intros H (Hs & b & Hb).
    assert (is_Some (candidate_of req n)) as [? ?]; [|congruence].
    eexists (mkCandidate (mkPlacement _ b) _ _ _). apply candidate_of_Some. cbn. done.
  - intros H. destruct (candidate_of req n) as [c|] eqn:E; [|done].
    apply candidate_of_Some in E. naive_solver.
Qed.

Lemma less_better req n m c d :
  candidate_of req n = Some c -> candidate_of req m = Some d ->
  less c d = true <-> better n m.
Proof.
  intros (_ & _ & _ & C1 & C2 & C3)%candidate_of_Some
    (_ & _ & _ & D1 & D2 & D3)%candidate_of_Some.
  unfold less, better. rewrite C1, C2, C3, D1, D2, D3. repeat destruct_match; lia.
Qed.

(** A statement about all candidates of some nodes, read on the nodes. *)
Lemma Forall_candidates req nodes (P : candidate -> Prop) (Q : Node -> Prop) :
  (forall m d, candidate_of req m = Some d -> P d <-> Q m) ->
  Forall P (candidates req nodes) <-> (forall m, m ∈ nodes -> qualifies req m -> Q m).
Proof.
  intros HPQ. unfold candidates. rewrite Forall_forall.
  setoid_rewrite list_elem_of_omap. split.
  - intros H m Hm Hq. destruct (candidate_of req m) as [d|] eqn:E.
    + apply (HPQ m d E), H. eauto.
    + by apply candidate_of_None in E.
  - intros H d (m & Hm & Hd). apply (HPQ m d Hd), H; [done|].
    apply candidate_of_Some in Hd. unfold qualifies. naive_solver.
Qed.

Lemma Place_first_min req nodes :
  Place req nodes =
  match first_min less (candidates req nodes) with
  | Some c => Ok (placement c)
  | None => Err ErrNoPlacement
  end.
Proof.
  unfold Place. rewrite <- sort_stable_head. by destruct (sort_stable _ _).
Qed.

Lemma Place_placed req nodes p :
  Place req nodes = Ok p -> exists n, placed_at req nodes n p.
Proof.
  rewrite Place_first_min.
  destruct (first_min less _) as [c|] eqn:E; [|done]. intros [= <-].
  apply (first_min_spec less) in E as (k1 & k2 & Hc & H1 & H2).
  apply omap_split in Hc as (before & n & after & -> & <- & Hn & <-).
  exists n, before, after. pose proof Hn as (?&?&?&_)%candidate_of_Some.
  apply Forall_cons in H2 as [_ H2]. split_and!; try done.
  - revert H1. apply Forall_candidates. intros m d Hd. by eapply less_better.
  - revert H2. apply Forall_candidates. intros m d Hd.
    rewrite <- (less_better req m n) by done. by rewrite not_true_iff_false.
Qed.

Lemma placed_Place req nodes n p : placed_at req nodes n p -> Place req nodes = Ok p.
Proof.
  intros (before & after & -> & Hs & Hid & Hb & H1 & H2). rewrite Place_first_min.
  pose (c := mkCandidate p (FreeCPU (node_Capacity n)) (FreeMemoryM (node_Capacity n))
               (RunningJobs (node_Capacity n))).
  assert (Hc : candidate_of req n = Some c) by by apply candidate_of_Some.
  assert (first_min less (candidates req (before ++ n :: after)) = Some c) as ->; [|done].
  apply (first_min_spec less).
  exists (candidates req before), (candidates req after). split_and!.
  - unfold candidates. rewrite omap_app. cbn. by rewrite Hc.
  - revert H1. apply Forall_candidates. intros m d Hd. by eapply less_better.
  - constructor; [unfold less; cbn; repeat destruct_match; lia|].
    revert H2. apply Forall_candidates. intros m d Hd.
    rewrite <- (less_better req m n) by done. by rewrite not_true_iff_false.
Qed.

(** A placement is on a suitable node of the list. *)
Lemma Place_suitable req nodes p :
  Place req nodes = Ok p ->
  exists n, n ∈ nodes /\ suitable req n /\ NodeID p = node_ID n
    /\ runs_on (req_Isolation req) (node_Backends n) (Backend p).
Proof.
  intros (n & before & after & -> & Hs & Hid & Hb & _)%Place_placed.
  exists n. split_and!; try done. set_solver.
Qed.

Lemma Place_None req nodes :
  first_min less (candidates req nodes) = None <-> forall n, n ∈ nodes -> ~ qualifies req n.
Proof.
  rewrite first_min_None. unfold candidates. split.
  - intros E n Hn. apply candidate_of_None.
    destruct (candidate_of req n) as [c|] eqn:Hc; [|done].
    assert (c ∈ omap (candidate_of req) nodes) as Hin by (apply list_elem_of_omap; eauto).
    rewrite E in Hin. by apply not_elem_of_nil in Hin.
  - intros Hn. destruct (omap _ _) as [|c l] eqn:E; [done|].
    assert (c ∈ omap (candidate_of req) nodes) as (n & Hin & Hc)%list_elem_of_omap
      by (rewrite E; left).
    apply Hn, candidate_of_None in Hin. congruence.
Qed.

(** ** Theorems *)

(** C21. [Place] implements its contract exactly: it returns a placement if and
    only if some node of the list is suitable for the requirements (online,
    same OS and architecture, enough free CPU and memory when they are asked
    for, every capability) and has a backend of the wanted isolation; the
    placement names the leftmost node among the least loaded qualifying ones,
    with the preferred backend of that node. *)
Theorem Place_correct req nodes p :
  Place req nodes = Ok p <-> exists n, placed_at req nodes n p.
Proof.
  split; [apply Place_placed|]. intros (n & Hn). by eapply placed_Place.
Qed.

(** [Place] fails only with [ErrNoPlacement], and exactly when no node of
    the list qualifies: a job is never left waiting while an eligible node
    with a matching backend is known. *)
Theorem Place_error req nodes e :
  Place req nodes = Err e <->
  e = ErrNoPlacement /\ forall n, n ∈ nodes -> ~ qualifies req n.
Proof.
  rewrite Place_first_min, <- Place_None. destruct (first_min _ _) as [c|]; naive_solver.
Qed.

(** The order in which the capabilities are listed does not matter. *)
Lemma Place_capabilities_perm req caps nodes :
  caps ≡ₚ req_Capabilities req ->
  Place (set_req_Capabilities caps req) nodes = Place req nodes.
Proof.
  intros Hp. unfold Place.
  enough (candidates (set_req_Capabilities caps req) nodes = candidates req nodes) as -> by done.
  apply list_omap_ext, Forall_Forall2_diag, Forall_forall. intros n _.
  unfold candidate_of.
  enough (eligible (set_req_Capabilities caps req) n = eligible req n) as -> by done.
  apply Bool.eq_true_iff_eq. rewrite !eligible_suitable.
  assert (Hc : forall c, c ∈ caps <-> c ∈ req_Capabilities req) by (intros c; by rewrite Hp).
  split; intros []; split; try done; cbn in *; naive_solver.
Qed.
