(* ===== verification/Http.v ===== *)
(** * HTTP requests and responses, as the handlers see them

    The handlers of the controller, the agent and the webhook listener read
    the request's body, its TLS state and some headers, and write one
    status code and one JSON value.  The JSON values are the constructors of
    [Body]; [Api.v] gives their bytes.  On the client's side bodies are
    bytes. *)

From S2P Require Import Prelude GoTime Model.
From stdpp Require Import base list strings.
From Stdlib Require Import ZArith String Lia.
Open Scope string_scope.
Open Scope list_scope.
Open Scope Z_scope.

Inductive Body : Type :=
| BFlag (key : string)             (** [map[string]any{key: true}] *)
| BError (msg : string)            (** [map[string]any{"error": msg}] *)
| BErr (e : error)                 (** [map[string]any{"error": err.Error()}] *)
| BNode (n : Node)
| BNodes (l : list Node)
| BPlacement (p : Placement)
| BCapacity (c : Capacity)
| BInstance (i : Instance_)
| BHealth (node_id goos goarch : string) (time : Time)   (** an agent's [/healthz] *)
| BEmpty.                          (** no body, [w.WriteHeader] only *)

Record Response : Type := mkResponse { status : Z; body : Body }.

(** The [writeJSON] of both servers. *)
Definition writeJSON (code : Z) (b : Body) : Response := mkResponse code b.

Definition StatusOK : Z := 200.
Definition StatusCreated : Z := 201.
Definition StatusAccepted : Z := 202.
Definition StatusNoContent : Z := 204.
Definition StatusBadRequest : Z := 400.
Definition StatusUnauthorized : Z := 401.
Definition StatusForbidden : Z := 403.
Definition StatusNotFound : Z := 404.
Definition StatusRequestEntityTooLarge : Z := 413.
Definition StatusBadGateway : Z := 502.
Definition StatusServiceUnavailable : Z := 503.

(** [r.TLS]: absent on plain HTTP; otherwise the common names of the peer's
    verified certificates, leaf first. *)
Definition TLS : Set := option (list string).

(** A [GET] pattern of [http.ServeMux] also matches [HEAD]. *)
Definition is_get (method : string) : bool := String.eqb method "GET" || String.eqb method "HEAD".

(** ** Bodies as bytes *)

Definition slen (s : string) : Z := Z.of_nat (String.length s).

(** The first [n] bytes. *)
Fixpoint stake (n : Z) (s : string) : string :=
  match s with
  | "" => ""
  | String c s' => if n <=? 0 then "" else String c (stake (n - 1) s')
  end.

(** [io.ReadAll(io.LimitReader(body, limit))]: the reader stops at the limit
    before it sees that the stream breaks. *)
Definition read_limited (limit : Z) (stream : string) (broken : bool) : option string :=
  if broken && (slen stream <? limit) then None else Some (stake limit stream).

(** ** The client side *)

Record HttpRequest : Type := mkHttpRequest {
  hr_Method : string;
  hr_URL : string;
  hr_Body : string;
}.

(** The status, and the bytes of the body that arrive. *)
Record HttpAnswer : Type := mkHttpAnswer { ans_Status : Z; ans_Text : string }.

(** [*http.Client] with [http.NewRequest], acting on the world [W]. *)
Record HttpClient (W : Type) : Type := mkHttpClient {
  hc_NewRequest : string -> string -> option error;   (** method and URL are refused *)
  hc_Do : HttpRequest -> W -> result HttpAnswer * W;
}.
Arguments hc_NewRequest {W}.
Arguments hc_Do {W}.

(** ** Lemmas *)

Lemma slen_cons c s : slen (String c s) = 1 + slen s.
Proof. unfold slen. cbn [String.length]. lia. Qed.

Lemma slen_nonneg s : 0 <= slen s.
Proof. unfold slen. lia. Qed.

Lemma stake_all n s : slen s <= n -> stake n s = s.
Proof.
  revert n. induction s as [|c s IH]; intros n; [done|]. rewrite slen_cons. cbn [stake].
  pose proof (slen_nonneg s). intros Hn. destruct (Z.leb_spec n 0); [lia|]. by rewrite IH by lia.
Qed.

Lemma slen_stake n s : 0 <= n -> slen (stake n s) = Z.min n (slen s).
Proof.
  revert n. induction s as [|c s IH]; intros n Hn; [unfold slen; cbn; lia|]. cbn [stake].
  pose proof (slen_nonneg s). destruct (Z.leb_spec n 0).
  - change (slen "") with 0. rewrite slen_cons. lia.
  - rewrite !slen_cons, IH by lia. lia.
Qed.

Lemma read_limited_spec n stream broken :
  0 <= n ->
  match read_limited (n + 1) stream broken with
  | None => broken = true
  | Some body => if n <? slen body then n < slen stream else
                 body = stream /\ broken = false /\ slen stream <= n
  end.
Proof.
  intros Hn. unfold read_limited. destruct broken; cbn [andb].
  - destruct (Z.ltb_spec (slen stream) (n + 1)) as [|Hlen]; [done|].
    rewrite slen_stake by lia. replace (n <? Z.min (n + 1) (slen stream)) with true by lia. lia.
  - rewrite slen_stake by lia. destruct (Z.ltb_spec n (Z.min (n + 1) (slen stream))); [lia|].
    split_and!; [apply stake_all; lia|done|lia].
Qed.
