(* ===== verification/Policy.v ===== *)
(** * Trust policy, label translation and names: [internal/controller/github_policy.go]

    Also the data of a GitHub event ([github_jobs.go]) and of a workflow run
    ([internal/githubapp/client.go]).  The theorems give the exact set of
    workflow runs the policy admits, the requirements a label set translates
    to (whatever the map iteration order), and the facts about generated
    names that make cleanup by name possible: names are injective, and built
    from a restricted alphabet. *)

From S2P Require Import Prelude GoTime GoStrings GoUtf8 Model Scheduler.
From stdpp Require Import base list strings gmap.
From Stdlib Require Import ZArith Ascii String Lia.
Open Scope string_scope.
Open Scope list_scope.
Open Scope Z_scope.

(** ** Data *)

Record RepositoryRef : Set := mkRepositoryRef {
  ref_FullName : string;
  ref_Private : bool;
}.

Record WorkflowRun : Set := mkWorkflowRun {
  run_ID : Z;
  run_Event : string;
  run_Repository : RepositoryRef;
  run_HeadRepository : option RepositoryRef;
}.

Record JITConfig : Set := mkJITConfig {
  jit_RunnerID : Z;
  jit_EncodedConfig : string;
}.

Record RepositoryInfo : Set := mkRepositoryInfo {
  repo_FullName : string;
  repo_Owner : string;
  repo_Name : string;
  repo_Private : bool;
}.

Record WorkflowJobInfo : Set := mkWorkflowJobInfo {
  job_ID : Z;
  job_RunID : Z;
  job_Name : string;
  job_Labels : list string;
  job_RunnerName : string;
}.

Record WorkflowJobEvent : Set := mkWorkflowJobEvent {
  ev_DeliveryID : string;
  ev_Action : string;
  ev_InstallationID : Z;
  ev_Repository : RepositoryInfo;
  ev_Job : WorkflowJobInfo;
}.

(** ** Operations *)

Section policy.
Context `{Unicode}.

Definition trustedWorkflowRun (run : WorkflowRun) (expectedRepository : string)
  : bool * string :=
  if negb (String.eqb (ref_FullName (run_Repository run)) "")
     && negb (EqualFold (ref_FullName (run_Repository run)) expectedRepository)
  then (false, "workflow run repository does not match webhook repository")
  else if ref_Private (run_Repository run) then (true, "private repository")
  else if String.eqb (run_Event run) "pull_request_target"
  then (false, "pull_request_target is denied on public repositories")
  else if String.eqb (run_Event run) "pull_request"
  then match run_HeadRepository run with
       | Some head =>
           if negb (EqualFold (ref_FullName head) expectedRepository)
           then (false, "fork pull request is denied on public repositories")
           else (true, "trusted event")
       | None => (false, "fork pull request is denied on public repositories")
       end
  else (true, "trusted event").

(** The keys of the [lower] map; all its values are [true]. *)
Definition lower_labels (labels : list string) : gset string :=
  list_to_set (map (fun label => ToLower (TrimSpace label)) labels).

(** [(OS, Arch, Isolation)] of the platform [switch]. *)
Definition platform_of (lower : gset string) : option (OS * Arch * Isolation) :=
  let has l := bool_decide (l ∈ lower) in
  if has "linux-x64" || (has "linux" && has "x64")
  then Some (OSLinux, ArchAMD64, IsolationContainer)
  else if has "linux-arm64" || (has "linux" && has "arm64")
  then Some (OSLinux, ArchARM64, IsolationContainer)
  else if has "windows-x64" || (has "windows" && has "x64")
  then Some (OSWindows, ArchAMD64, IsolationVM)
  else if has "macos-arm64" || (has "macos" && has "arm64")
  then Some (OSMacOS, ArchARM64, IsolationVM)
  else None.

(** The body of the loop over [lower]. *)
Definition capability_of (label : string) : option string :=
  if HasPrefix label "cifleet-cap-" then
    let capability := TrimPrefix label "cifleet-cap-" in
    if String.eqb capability "" then None else Some capability
  else None.

(** [picks] is the iteration order of the [lower] map. *)
Definition requirementsFromLabels (picks : list nat) (repository : string)
  (labels : list string) (cpu memory : Z) : result JobRequirements :=
  let lower := lower_labels labels in
  match platform_of lower with
  | None =>
      Err (ErrMsg "CIFleet job needs a supported platform label such as linux-x64")
  | Some (os, arch, isolation) =>
      let isolation :=
        if bool_decide ("cifleet-vm" ∈ lower) then IsolationVM else isolation in
      Ok (mkJobRequirements repository os arch isolation
            (omap capability_of (shuffle picks (elements lower))) cpu memory)
  end.

Definition repoParts (repo : RepositoryInfo) : result (string * string) :=
  let owner := TrimSpace (repo_Owner repo) in
  let name := TrimSpace (repo_Name repo) in
  if negb (String.eqb owner "") && negb (String.eqb name "") then Ok (owner, name)
  else match SplitN2 (repo_FullName repo) "/"%char with
       | [p0; p1] =>
           if String.eqb p0 "" || String.eqb p1 ""
           then Err (ErrFmt "invalid repository name %q" [repo_FullName repo])
           else Ok (p0, p1)
       | _ => Err (ErrFmt "invalid repository name %q" [repo_FullName repo])
       end.

Definition hasLabel (labels : list string) (wanted : string) : bool :=
  existsb (fun label => EqualFold (TrimSpace label) (TrimSpace wanted)) labels.

(** The [switch] of [safeName] and [sanitizeName]. *)
Definition safe_rune (r : Z) : bool :=
  (97 <=? r) && (r <=? 122) || (48 <=? r) && (r <=? 57)
  || (r =? 45) || (r =? 95) || (r =? 46).

Definition safeName (value : string) : string :=
  Trim (sconcat (map (fun r => if safe_rune r then encode_rune r else "-")
                   (runes (ToLower value)))) "-._".

Definition runnerName (nodeID : string) (jobID attempt : Z) : string :=
  "cifleet-" +:+ safeName nodeID +:+ "-" +:+ FormatInt jobID +:+ "-a" +:+ FormatInt attempt.
End policy.

Definition containerJobID (jobID : Z) : string := "gh-" +:+ FormatInt jobID.
Definition containerName (jobID : Z) : string := "cifleet-" +:+ containerJobID jobID.

Definition minInt (a b : Z) : Z := if a <? b then a else b.
Definition maxInt (a b : Z) : Z := if b <? a then a else b.

Lemma minInt_min a b : minInt a b = Z.min a b.
Proof. unfold minInt. destruct (Z.ltb_spec a b); lia. Qed.
Lemma maxInt_max a b : maxInt a b = Z.max a b.
Proof. unfold maxInt. destruct (Z.ltb_spec b a); lia. Qed.

(** ** Lemmas on safe names *)

Definition safe_char (c : ascii) : bool := safe_rune (byte_of c).

Section safe.
Context `{Unicode}.

Lemma safe_rune_ascii r : safe_rune r = true -> 0 <= r < 128.
Proof. unfold safe_rune. lia. Qed.

Lemma safe_rune_lower r : safe_rune r = true -> ascii_lower r = r.
Proof. unfold safe_rune, ascii_lower. intros Hr. destruct_match; lia. Qed.

Lemma encode_rune_ascii r : 0 <= r < 128 -> encode_rune r = String (of_byte r) "".
Proof.
  intros Hr. unfold encode_rune.
  replace ((r <? 0) || (1114111 <? r) || ((55296 <=? r) && (r <=? 57343))) with false by lia.
  by replace (r <? 128) with true by lia.
Qed.

Definition safe_runes (l : list Z) : string :=
  sconcat (map (fun r => if safe_rune r then encode_rune r else "-") l).

Lemma safe_runes_safe l : sforall safe_char (safe_runes l) = true.
Proof.
  unfold safe_runes. induction l as [|r l IH]; cbn [map sconcat]; [done|].
  rewrite sforall_app, IH, andb_true_r. destruct (safe_rune r) eqn:E; [|done].
  pose proof (safe_rune_ascii r E). rewrite encode_rune_ascii by done.
  cbn. unfold safe_char. by rewrite byte_of_of, E by lia.
Qed.

Lemma safeName_safe value : sforall safe_char (safeName value) = true.
Proof.
  apply sforall_Forall. unfold safeName. rewrite list_Trim.
  apply Forall_trim_list, sforall_Forall, safe_runes_safe.
Qed.

(** On a string of safe characters everything but the trimming is the
    identity. *)
Lemma safe_lower s : sforall safe_char s = true -> ToLower s = s.
Proof.
  intros Hs. unfold ToLower.
  assert (sforall is_ascii_byte s = true) as ->.
  { revert Hs. apply sforall_impl. unfold safe_char, is_ascii_byte.
    intros c Hc%safe_rune_ascii. lia. }
  revert Hs. induction s as [|c s IH]; cbn; [done|].
  intros [Hc Hs]%andb_true_iff. rewrite safe_rune_lower, of_byte_of by done. by rewrite IH.
Qed.

Lemma safe_runes_id s :
  sforall safe_char s = true -> safe_runes (runes s) = s.
Proof.
  intros Hs. rewrite runes_ascii.
  2: { revert Hs. apply sforall_impl. unfold safe_char, is_ascii_byte.
       intros c Hc%safe_rune_ascii. lia. }
  revert Hs. induction s as [|c s IH]; [done|]. cbn [sforall].
  intros [Hc Hs]%andb_true_iff. unfold safe_runes in *.
  cbn [list_ascii_of_string map sconcat]. rewrite IH by done.
  unfold safe_char in Hc. rewrite Hc, encode_rune_ascii by by apply safe_rune_ascii.
  by rewrite of_byte_of.
Qed.

Lemma safeName_fixed s :
  sforall safe_char s = true ->
  (forall c, head (list_ascii_of_string s) = Some c \/ last (list_ascii_of_string s) = Some c ->
     in_cutset "-._" c = false) ->
  safeName s = s.
Proof.
  intros Hs Hc. unfold safeName. rewrite safe_lower by done.
  fold (safe_runes (runes s)). rewrite safe_runes_id by done.
  apply list_ascii_inj. rewrite list_Trim. by apply trim_list_id.
Qed.

Lemma safeName_idemp value : safeName (safeName value) = safeName value.
Proof.
  apply safeName_fixed; [apply safeName_safe|]. intros c. unfold safeName.
  rewrite list_Trim. apply trim_list_ends.
Qed.
End safe.

(** ** Names and repository parts are UTF-8 *)

Section utf8.
Context `{Unicode}.

Lemma FormatInt_ascii n : sforall is_ascii_byte (FormatInt n) = true.
Proof.
  assert (Hp : forall m, 0 <= m -> sforall is_ascii_byte (FormatInt m) = true).
  { intros m Hm. generalize (FormatInt_digits m Hm). apply sforall_impl.
    intros c. unfold is_digit, is_ascii_byte. lia. }
  destruct n as [|p|p]; [by apply Hp..|].
  change (FormatInt (Zneg p)) with (String "-" (FormatInt (Zpos p))). cbn [sforall].
  by rewrite Hp.
Qed.

Lemma utf8_runnerName node id n : utf8 (runnerName node id n) = true.
Proof.
  apply utf8_ascii. unfold runnerName. rewrite !sforall_app, !FormatInt_ascii.
  replace (sforall is_ascii_byte (safeName node)) with true; [done|]. symmetry.
  generalize (safeName_safe node). apply sforall_impl. unfold safe_char, is_ascii_byte.
  intros c Hc%safe_rune_ascii. lia.
Qed.

Lemma repoParts_utf8 repo owner name :
  utf8s [repo_FullName repo; repo_Owner repo; repo_Name repo] ->
  repoParts repo = Ok (owner, name) -> utf8 owner = true /\ utf8 name = true.
Proof.
  unfold utf8s. rewrite !Forall_cons. intros (Hf & Ho & Hn & _). unfold repoParts.
  destruct (_ && _); [intros [= <- <-]; split; by apply utf8_TrimSpace|].
  destruct (SplitN2 _ _) as [|p0 [|p1 [|? ?]]] eqn:E; try done.
  destruct (_ || _); [done|]. intros [= <- <-]. apply SplitN2_pair in E. rewrite E in Hf.
  rewrite utf8_app_ascii in Hf by done. by apply andb_true_iff in Hf.
Qed.
End utf8.

(** ** Lemmas on generated names *)

(** The last occurrence of a separator splits a list in one way. *)
Lemma split_last_unique {A} (x : A) (l1 l2 d1 d2 : list A) :
  x ∉ d1 -> x ∉ d2 -> l1 ++ x :: d1 = l2 ++ x :: d2 -> l1 = l2 /\ d1 = d2.
Proof.
  intros H1 H2. revert l2. induction l1 as [|a l1 IH]; intros [|b l2]; cbn; intros E.
  - by simplify_eq.
  - injection E as -> ->. destruct H1. set_solver.
  - injection E as -> <-. destruct H2. set_solver.
  - injection E as -> E. destruct (IH l2 E). by subst.
Qed.

Lemma digits_no_dash n : 0 <= n -> "-"%char ∉ list_ascii_of_string (FormatInt n).
Proof.
  intros Hn Hin. pose proof (FormatInt_digits n Hn) as Hd.
  rewrite sforall_Forall, Forall_forall in Hd. by specialize (Hd _ Hin).
Qed.

(** [prefix ++ "-" ++ decimal] determines both parts. *)
Lemma dash_number_inj s t (j k : Z) :
  0 <= j -> 0 <= k ->
  s +:+ "-" +:+ FormatInt j = t +:+ "-" +:+ FormatInt k -> s = t /\ j = k.
Proof.
  intros Hj Hk E. apply (f_equal list_ascii_of_string) in E. rewrite !list_ascii_app in E.
  apply split_last_unique in E as [E1 E2]; [|by apply digits_no_dash..].
  split; [by apply list_ascii_inj|]. by apply (inj FormatInt), list_ascii_inj.
Qed.

Lemma dash_a_number_inj s t (j k : Z) :
  0 <= j -> 0 <= k ->
  s +:+ "-a" +:+ FormatInt j = t +:+ "-a" +:+ FormatInt k -> s = t /\ j = k.
Proof.
  intros Hj Hk E. apply (f_equal list_ascii_of_string) in E. rewrite !list_ascii_app in E.
  apply split_last_unique in E as [E1 E2];
    [|intros [?|Hin]%elem_of_cons; [done|by eapply digits_no_dash, Hin]..].
  split; [by apply list_ascii_inj|]. injection E2 as E2.
  by apply (inj FormatInt), list_ascii_inj.
Qed.

Lemma sapp_inj_l (s t u : string) : s +:+ t = s +:+ u -> t = u.
Proof.
  intros E. apply (f_equal list_ascii_of_string) in E. rewrite !list_ascii_app in E.
  by apply (inj (app _)), list_ascii_inj in E.
Qed.

#[export] Instance containerName_inj : Inj (=) (=) containerName.
Proof.
  intros j k E. unfold containerName, containerJobID in E.
  by apply sapp_inj_l, sapp_inj_l, (inj FormatInt) in E.
Qed.

Lemma digit_safe c : is_digit c = true -> safe_char c = true /\ in_cutset "-._" c = false.
Proof.
  unfold is_digit, safe_char, safe_rune. intros Hc. split; [lia|].
  unfold in_cutset. apply bool_decide_eq_false. cbn. intros Hin.
  rewrite !elem_of_cons, elem_of_nil in Hin.
  destruct Hin as [->|[->|[->|[]]]]; done.
Qed.

Section names.
Context `{Unicode}.

(** The name given to the backend is left unchanged by name sanitising. *)
Lemma safeName_containerJobID jobID :
  0 <= jobID -> safeName (containerJobID jobID) = containerJobID jobID.
Proof.
  intros Hj. pose proof (FormatInt_digits jobID Hj) as Hd. unfold containerJobID.
  apply safeName_fixed.
  - rewrite sforall_app. cbn. revert Hd. apply sforall_impl. intros c Hc. by apply digit_safe.
  - rewrite list_ascii_app. cbn. intros c [[= <-]|Hl]; [done|].
    apply sforall_Forall in Hd.
    destruct (list_ascii_of_string (FormatInt jobID)) as [|d l] eqn:El.
    { destruct (FormatInt_nonempty jobID). by apply list_ascii_inj. }
    rewrite !last_cons_cons in Hl. rewrite Forall_forall in Hd.
    apply digit_safe, Hd. by apply last_Some_elem_of.
Qed.

(** ** Theorems *)

(** C35. What the trust gate accepts, exactly: a run whose repository name is
    empty or is, case-insensitively, the expected one, and which is either
    marked private, or is of an event other than [pull_request_target] and, if
    the event is [pull_request], comes from a known head repository of that
    same name.  The head repository is looked at for no other event, so a run
    of any other event is accepted from a fork too ([fork_review_accepted]),
    and so is a run that names no repository ([nameless_run_accepted]). *)
Theorem trustedWorkflowRun_iff run expected :
  (trustedWorkflowRun run expected).1 = true <->
  (ref_FullName (run_Repository run) = ""
   \/ EqualFold (ref_FullName (run_Repository run)) expected = true)
  /\ (ref_Private (run_Repository run) = true
      \/ run_Event run <> "pull_request_target"
         /\ (run_Event run = "pull_request" ->
             exists head, run_HeadRepository run = Some head
               /\ EqualFold (ref_FullName head) expected = true)).
Proof.
  unfold trustedWorkflowRun.
  destruct (String.eqb_spec (ref_FullName (run_Repository run)) ""),
    (EqualFold (ref_FullName (run_Repository run)) expected),
    (ref_Private (run_Repository run)),
    (String.eqb_spec (run_Event run) "pull_request_target") as [Et|],
    (String.eqb_spec (run_Event run) "pull_request") as [Ep|];
    cbn; try rewrite Et in Ep; try done;
    try (destruct (run_HeadRepository run) as [h|];
      [destruct (EqualFold (ref_FullName h) expected) eqn:?|]); cbn; naive_solver.
Qed.

(** Runner names never collide: two runner names generated for
    non-negative job and attempt numbers are equal only for the same job, the
    same attempt and the same sanitised node name. *)
Theorem runnerName_unique n m j k a b :
  0 <= j -> 0 <= k -> 0 <= a -> 0 <= b ->
  runnerName n j a = runnerName m k b ->
  safeName n = safeName m /\ j = k /\ a = b.
Proof.
  assert (Hr : forall n j a, runnerName n j a =
    ("cifleet-" +:+ safeName n +:+ "-" +:+ FormatInt j) +:+ "-a" +:+ FormatInt a)
    by (intros; unfold runnerName; by rewrite !sapp_assoc).
  intros Hj Hk Ha Hb E. rewrite !Hr in E.
  apply dash_a_number_inj in E as [E ->]; [|done..].
  apply sapp_inj_l, dash_number_inj in E as [-> ->]; done.
Qed.

(** [safeName] produces a name over [a-z0-9-_.] that neither starts nor
    ends with a punctuation character, and is idempotent, for every byte
    string, valid UTF-8 or not. *)
Theorem safeName_correct value :
  sforall safe_char (safeName value) = true
  /\ (forall c, head (list_ascii_of_string (safeName value)) = Some c
        \/ last (list_ascii_of_string (safeName value)) = Some c ->
        c <> "-"%char /\ c <> "."%char /\ c <> "_"%char)
  /\ safeName (safeName value) = safeName value.
Proof.
  split_and!; [apply safeName_safe| |apply safeName_idemp].
  intros c Hc. unfold safeName in Hc. rewrite list_Trim in Hc.
  apply trim_list_ends in Hc. unfold in_cutset in Hc. apply bool_decide_eq_false in Hc.
  cbn in Hc. set_solver.
Qed.

(** *** Labels *)

Lemma capability_of_Some label c :
  capability_of label = Some c <-> label = "cifleet-cap-" +:+ c /\ c <> "".
Proof.
  unfold capability_of, TrimPrefix. split.
  - destruct (HasPrefix label "cifleet-cap-") eqn:E; [|done].
    apply HasPrefix_spec in E as [t ->].
    change (sdrop _ ("cifleet-cap-" +:+ t)) with t.
    destruct (String.eqb_spec t ""); [done|]. by intros [= ->].
  - intros [-> Hc].
    assert (HasPrefix ("cifleet-cap-" +:+ c) "cifleet-cap-" = true) as ->
      by (apply HasPrefix_spec; eauto).
    change (sdrop _ ("cifleet-cap-" +:+ c)) with c. by destruct (String.eqb_spec c "").
Qed.

Lemma elem_of_lower labels l :
  l ∈ lower_labels labels <-> exists label, label ∈ labels /\ ToLower (TrimSpace label) = l.
Proof.
  unfold lower_labels. rewrite elem_of_list_to_set, list_elem_of_fmap. naive_solver.
Qed.

(** All iteration orders give the same requirements up to the order of the
    capability list, which [Place] ignores. *)
Lemma requirementsFromLabels_picks picks picks' repository labels cpu memory :
  match requirementsFromLabels picks repository labels cpu memory,
        requirementsFromLabels picks' repository labels cpu memory with
  | Ok r, Ok r' => exists caps, caps ≡ₚ req_Capabilities r' /\ r = set_req_Capabilities caps r'
  | Err e, Err e' => e = e'
  | _, _ => False
  end.
Proof.
  unfold requirementsFromLabels.
  destruct (platform_of _) as [[[os arch] iso]|]; [|done].
  exists (omap capability_of (shuffle picks (elements (lower_labels labels)))). cbn.
  split; [|done]. by rewrite !shuffle_perm.
Qed.

Lemma requirementsFromLabels_Ok picks repository labels cpu memory r :
  requirementsFromLabels picks repository labels cpu memory = Ok r ->
  req_Repository r = repository /\ req_CPU r = cpu /\ req_MemoryM r = memory.
Proof.
  unfold requirementsFromLabels.
  destruct (platform_of _) as [[[os arch] iso]|]; [|done]. by intros [= <-].
Qed.

(** C36. Labels are translated independently of Go's random map iteration
    order: a job asks for exactly the capabilities [NAME] of its
    [cifleet-cap-NAME] labels (trimmed, lower-cased), [cifleet-vm] forces VM
    isolation, and for two iteration orders the scheduler makes the same
    placement on every node list. *)
Theorem requirementsFromLabels_correct picks picks' repository labels cpu memory r nodes :
  requirementsFromLabels picks repository labels cpu memory = Ok r ->
  (exists r', requirementsFromLabels picks' repository labels cpu memory = Ok r'
              /\ Place r' nodes = Place r nodes)
  /\ (forall c, c ∈ req_Capabilities r <->
        c <> "" /\ exists label, label ∈ labels
                     /\ ToLower (TrimSpace label) = "cifleet-cap-" +:+ c)
  /\ ((exists label, label ∈ labels /\ ToLower (TrimSpace label) = "cifleet-vm") ->
      req_Isolation r = IsolationVM).
Proof.
  intros Hr. split_and!.
  - pose proof (requirementsFromLabels_picks picks' picks repository labels cpu memory) as Hp.
    rewrite Hr in Hp. destruct (requirementsFromLabels picks' _ _ _ _) as [r'|]; [|done].
    destruct Hp as (caps & Hcaps & ->). eexists. split; [done|].
    by apply Place_capabilities_perm.
  - intros c. unfold requirementsFromLabels in Hr.
    destruct (platform_of _) as [[[os arch] iso]|]; [|done]. injection Hr as <-. cbn.
    rewrite list_elem_of_omap. setoid_rewrite elem_of_shuffle.
    setoid_rewrite elem_of_elements. setoid_rewrite capability_of_Some.
    setoid_rewrite elem_of_lower. naive_solver.
  - intros Hvm%elem_of_lower. unfold requirementsFromLabels in Hr.
    destruct (platform_of _) as [[[os arch] iso]|]; [|done]. injection Hr as <-. cbn.
    by rewrite bool_decide_eq_true_2.
Qed.
End names.

(** ** Witnesses

    A small instance of the Unicode tables: Latin-1 lower-casing, and the three
    non-ASCII runes whose folding orbit contains an ASCII letter. *)

#[export] Instance latin1 : Unicode := {|
  uni_ToLower r :=
    if (192 <=? r) && (r <=? 222) && negb (r =? 215) then r + 32
    else if r =? 8490 then 107 else if r =? 304 then 105 else r;
  uni_fold r :=
    if (192 <=? r) && (r <=? 222) && negb (r =? 215) then r + 32
    else if r =? 8490 then 107 else if r =? 383 then 115 else r;
|}.

Lemma runnerName_unique_witness :
  safeName "E5.lan" = safeName "e5.LAN" /\ 12 = 12 /\ 1 = 1.
Proof. apply (runnerName_unique "E5.lan" "e5.LAN" 12 12 1 1); vm_compute; congruence. Defined.

Definition smoke_labels : list string :=
  ["self-hosted"; " CIFleet "; "linux-x64"; "cifleet-cap-docker"; "cifleet-cap-gpu"].

Definition smoke_requirements : JobRequirements :=
  mkJobRequirements "owner/repo" OSLinux ArchAMD64 IsolationContainer ["gpu"; "docker"] 2 4096.

Lemma requirementsFromLabels_correct_witness :
  exists r', requirementsFromLabels [4%nat] "owner/repo" smoke_labels 2 4096 = Ok r'
             /\ Place r' [] = Place smoke_requirements [].
Proof.
  apply (requirementsFromLabels_correct [] [4%nat] "owner/repo" smoke_labels 2 4096
           smoke_requirements []).
  vm_compute. reflexivity.
Defined.

(** The two ends of the platform switch on the labels of the smoke workflow. *)
Example smoke_platform : platform_of (lower_labels smoke_labels)
  = Some (OSLinux, ArchAMD64, IsolationContainer).
Proof. vm_compute. reflexivity. Qed.

Example unknown_platform : platform_of (lower_labels ["self-hosted"; "cifleet"]) = None.
Proof. vm_compute. reflexivity. Qed.

(** Two ends of the trust gate: the run of a review of a pull request that comes
    from a fork of a public repository, and a run that names no repository. *)
Example fork_review_accepted :
  (trustedWorkflowRun (mkWorkflowRun 7 "pull_request_review" (mkRepositoryRef "owner/repo" false)
     (Some (mkRepositoryRef "stranger/repo" false))) "owner/repo").1 = true.
Proof. reflexivity. Qed.

Example nameless_run_accepted :
  (trustedWorkflowRun (mkWorkflowRun 7 "push" (mkRepositoryRef "" false) None) "owner/repo").1 = true.
Proof. reflexivity. Qed.
