(* ===== verification/Jobs.v ===== *)
(** * Job records and configuration: the data of [internal/controller/github_jobs.go]

    A [JobRecord] is the durable state of one GitHub job.  Its status is a Go
    string; the six constants are the statuses the code writes. *)

From S2P Require Import Prelude GoTime GoStrings GoUtf8 Model Policy.
From stdpp Require Import base list strings gmap.
From Stdlib Require Import ZArith.
Open Scope string_scope.
Open Scope list_scope.
Open Scope Z_scope.

Definition jobPending : string := "pending".
Definition jobProvisioning : string := "provisioning".
Definition jobRunning : string := "running".
Definition jobCleanupPending : string := "cleanup_pending".
Definition jobCompleted : string := "completed".
Definition jobRejected : string := "rejected".

Record RunnerManagerConfig : Set := mkConfig {
  MarkerLabel : string;
  RunnerGroupID : Z;
  RunnerImage : string;
  RunnerCPU : Z;
  RunnerMemoryM : Z;
  RunnerTimeout : Duration;
  StateFile : string;
  RetryInterval : Duration;
  TombstoneTTL : Duration;
  QueueSize : Z;
}.

Record JobRecord : Set := mkJobRecord {
  rec_JobID : Z;
  rec_RunID : Z;
  rec_InstallationID : Z;
  rec_Repository : string;
  rec_Owner : string;
  rec_Repo : string;
  rec_Labels : list string;
  rec_Status : string;
  rec_NodeID : string;
  rec_InstanceID : string;
  rec_RunnerName : string;
  rec_RunnerID : Z;
  rec_CPU : Z;
  rec_MemoryM : Z;
  rec_Attempt : Z;
  rec_Deadline : Time;
  rec_UpdatedAt : Time;
}.

Definition zeroJobRecord : JobRecord :=
  mkJobRecord 0 0 0 "" "" "" [] "" "" "" "" 0 0 0 0 zeroTime zeroTime.

(** Field assignments, [r.F = v]. *)
Section setters.
Context (r : JobRecord).
Let mk st node inst name rid att dl up :=
  mkJobRecord (rec_JobID r) (rec_RunID r) (rec_InstallationID r) (rec_Repository r)
    (rec_Owner r) (rec_Repo r) (rec_Labels r) st node inst name rid (rec_CPU r)
    (rec_MemoryM r) att dl up.

(** [r.Status = st; r.UpdatedAt = t] *)
Definition set_status (st : string) (t : Time) : JobRecord :=
  mk st (rec_NodeID r) (rec_InstanceID r) (rec_RunnerName r) (rec_RunnerID r)
    (rec_Attempt r) (rec_Deadline r) t.
(** [r.Status = jobCompleted; r.InstanceID = ""; r.UpdatedAt = t] *)
Definition set_completed (t : Time) : JobRecord :=
  mk jobCompleted (rec_NodeID r) "" (rec_RunnerName r) (rec_RunnerID r)
    (rec_Attempt r) (rec_Deadline r) t.
(** The reset to [jobPending] of a failed or interrupted provisioning. *)
Definition set_pending (t : Time) : JobRecord :=
  mk jobPending "" "" "" 0 (rec_Attempt r) zeroTime t.
(** The assignments before the instance is created. *)
Definition set_provisioning (node name : string) (rid att : Z) (dl t : Time) : JobRecord :=
  mk jobProvisioning node (rec_InstanceID r) name rid att dl t.
(** The assignments after the instance is created. *)
Definition set_running (inst : string) (dl t : Time) : JobRecord :=
  mk jobRunning (rec_NodeID r) inst (rec_RunnerName r) (rec_RunnerID r) (rec_Attempt r)
    (if negb (time_IsZero dl) then dl else rec_Deadline r) t.
End setters.

(** The defaults of [NewRunnerManager]. *)
Definition with_defaults (cfg : RunnerManagerConfig) : RunnerManagerConfig :=
  mkConfig
    (if String.eqb (TrimSpace (MarkerLabel cfg)) "" then "cifleet" else MarkerLabel cfg)
    (if RunnerGroupID cfg <=? 0 then 1 else RunnerGroupID cfg)
    (if String.eqb (RunnerImage cfg) "" then "ghcr.io/actions/actions-runner:latest"
     else RunnerImage cfg)
    (if RunnerCPU cfg <=? 0 then 2 else RunnerCPU cfg)
    (if RunnerMemoryM cfg <=? 0 then 4096 else RunnerMemoryM cfg)
    (if RunnerTimeout cfg <=? 0 then 2 * Hour else RunnerTimeout cfg)
    (StateFile cfg)
    (if RetryInterval cfg <=? 0 then 15 * Second else RetryInterval cfg)
    (if TombstoneTTL cfg <=? 0 then 24 * Hour else TombstoneTTL cfg)
    (if QueueSize cfg <=? 0 then 256 else QueueSize cfg).

#[export] Instance JobRecord_eq_dec : EqDecision JobRecord.
Proof. solve_decision. Defined.

(** Two different statuses of one record are a contradiction. *)
Ltac status_clash :=
  exfalso;
  unfold jobPending, jobProvisioning, jobRunning, jobCleanupPending, jobCompleted, jobRejected in *;
  congruence.

(** ** What the state file can hold exactly

    JSON keeps integers of 64 bits and strings that are UTF-8. *)

Record storable (r : JobRecord) : Prop := {
  sto_ints : Forall in_int64 [rec_JobID r; rec_RunID r; rec_InstallationID r; rec_RunnerID r;
                              rec_CPU r; rec_MemoryM r; rec_Attempt r];
  sto_strings : utf8s [rec_Repository r; rec_Owner r; rec_Repo r; rec_Status r; rec_NodeID r;
                       rec_InstanceID r; rec_RunnerName r];
  sto_labels : utf8s (rec_Labels r);
}.

Definition all_storable (jobs : gmap Z JobRecord) : Prop :=
  forall id r, jobs !! id = Some r -> in_int64 id /\ storable r.

(** An event as a decoder produces it. *)
Record storable_event (ev : WorkflowJobEvent) : Prop := {
  se_ints : Forall in_int64 [job_ID (ev_Job ev); job_RunID (ev_Job ev); ev_InstallationID ev];
  se_strings : utf8s [repo_FullName (ev_Repository ev); repo_Owner (ev_Repository ev);
                      repo_Name (ev_Repository ev)];
  se_labels : utf8s (job_Labels (ev_Job ev));
}.

Ltac storables :=
  forall_list;
  try assumption;
  lazymatch goal with
  | |- utf8 (runnerName _ _ _) = true => apply utf8_runnerName
  | |- in_int64 (wrap64 _) => apply wrap64_range
  | |- utf8 _ = true => reflexivity
  | |- in_int64 _ => done
  end.

Lemma storable_set_status r st t : utf8 st = true -> storable r -> storable (set_status r st t).
Proof.
  intros Hst [Hi Hs Hl]. unfold utf8s in Hs. rewrite !Forall_cons in Hs. destruct_and? Hs.
  split; [exact Hi| |exact Hl]. unfold utf8s. cbn. storables.
Qed.

Lemma storable_set_completed r t : storable r -> storable (set_completed r t).
Proof.
  intros [Hi Hs Hl]. unfold utf8s in Hs. rewrite !Forall_cons in Hs. destruct_and? Hs.
  split; [exact Hi| |exact Hl]. unfold utf8s. cbn. storables.
Qed.

Lemma storable_set_pending r t : storable r -> storable (set_pending r t).
Proof.
  intros [Hi Hs Hl]. unfold utf8s in Hs. rewrite !Forall_cons in Hs; rewrite !Forall_cons in Hi.
  destruct_and? Hs. destruct_and? Hi.
  split; [|unfold utf8s|exact Hl]; cbn; storables.
Qed.

Lemma storable_set_running r inst dl t :
  utf8 inst = true -> storable r -> storable (set_running r inst dl t).
Proof.
  intros Hin [Hi Hs Hl]. unfold utf8s in Hs. rewrite !Forall_cons in Hs. destruct_and? Hs.
  split; [exact Hi| |exact Hl]. unfold utf8s. cbn. storables.
Qed.

Section names.
Context `{Unicode}.

Lemma storable_set_provisioning r node id n rid dl t :
  utf8 node = true -> in_int64 rid -> storable r ->
  storable (set_provisioning r node (runnerName node id n) rid (rec_Attempt r +w 1) dl t).
Proof.
  intros Hn Hrid [Hi Hs Hl]. unfold utf8s in Hs. rewrite !Forall_cons in Hs; rewrite !Forall_cons in Hi.
  destruct_and? Hs. destruct_and? Hi.
  split; [|unfold utf8s|exact Hl]; cbn [rec_JobID rec_RunID rec_InstallationID rec_RunnerID rec_CPU
    rec_MemoryM rec_Attempt rec_Repository rec_Owner rec_Repo rec_Status rec_NodeID rec_InstanceID
    rec_RunnerName set_provisioning]; storables.
Qed.
End names.
