(* ===== verification/Wire.v ===== *)
(** * The program's JSON: field tables, encoders and decoders

    What [encoding/json] makes of the program's structs, by their [json] tags:
    the state file ([github_state.go], [github_jobs.go]), job specifications
    and instances ([backend.go]), nodes and requirements ([model.go]), webhook
    payloads ([webhook.go]) and GitHub's answers ([client.go]).

    A decoder reads into a current value, as [json.Unmarshal] does: [null]
    leaves it, a member sets a field, a repeated member sets it again.  Member
    names are matched exactly, else up to case.  [None] is any error: the
    handlers only look whether there was one.  An empty slice is written as
    [null]: the program's empty slices are nil ([append] to nil, or decoded
    from [null]). *)

From S2P Require Import Prelude GoTime GoStrings GoConv GoDate GoUtf8 GoJson Model Http Policy Jobs.
From stdpp Require Import base list sets strings gmap pretty.
From Stdlib Require Import ZArith Ascii String Lia.
Open Scope string_scope.
Open Scope list_scope.
Open Scope Z_scope.

(** ** Scalars and lists *)

Definition dec_int (cur : Z) (j : json) : option Z :=
  match j with JNull => Some cur | JNum l => ParseInt l | _ => None end.
Definition dec_string (cur : string) (j : json) : option string :=
  match j with JNull => Some cur | JStr l => Some (unquote l) | _ => None end.
Definition dec_bool (cur : bool) (j : json) : option bool :=
  match j with JNull => Some cur | JBool b => Some b | _ => None end.
Definition dec_time (cur : Time) (j : json) : option Time :=
  match j with JNull => Some cur | JStr l => parse_time l | _ => None end.

(** Elements are decoded into the elements of the current slice. *)
Section dec_list.
Context {A : Type} (dec : A -> json -> option A) (zero : A).

Fixpoint dec_elems (cur : list A) (l : list json) : option (list A) :=
  match l with
  | [] => Some []
  | j :: l' =>
      match dec (default zero (head cur)) j, dec_elems (tail cur) l' with
      | Some x, Some xs => Some (x :: xs)
      | _, _ => None
      end
  end.

Definition dec_list (cur : list A) (j : json) : option (list A) :=
  match j with JNull => Some [] | JArr l => dec_elems cur l | _ => None end.
End dec_list.

Definition dec_strings : list string -> json -> option (list string) := dec_list dec_string "".

Definition enc_int (n : Z) : json := JNum (FormatInt n).
Definition enc_string (s : string) : json := JStr (quote s).
Definition enc_bool (b : bool) : json := JBool b.
Definition enc_time (t : Time) : option json := JStr <$> format_time t.
Definition enc_list {A} (enc : A -> json) (l : list A) : json :=
  match l with [] => JNull | _ => JArr (map enc l) end.
Definition enc_strings : list string -> json := enc_list enc_string.

(** ** Structs *)

Section struct.
Context `{Unicode} {R : Type}.

(** A field: its name in JSON and its decoder. *)
Definition Field : Type := string * (R -> json -> option R).

Definition find_field (fields : list Field) (name : string) : option (R -> json -> option R) :=
  match List.find (fun f => String.eqb f.1 name) fields with
  | Some f => Some f.2
  | None => option_map snd (List.find (fun f => EqualFold f.1 name) fields)
  end.

(** [strict] is [DisallowUnknownFields]. *)
Fixpoint dec_members (fields : list Field) (strict : bool) (ms : list (string * json)) (r : R)
  : option R :=
  match ms with
  | [] => Some r
  | (k, v) :: ms' =>
      match find_field fields (unquote k) with
      | Some set => match set r v with Some r' => dec_members fields strict ms' r' | None => None end
      | None => if strict then None else dec_members fields strict ms' r
      end
  end.

Definition dec_struct (fields : list Field) (strict : bool) (r : R) (j : json) : option R :=
  match j with JNull => Some r | JObj ms => dec_members fields strict ms r | _ => None end.
End struct.

(** A field decoder from the decoder of its type, its value and its setter. *)
Definition at_ {R A} (dec : A -> json -> option A) (get : R -> A) (set : A -> R -> R)
  : R -> json -> option R := fun r j => (fun v => set v r) <$> dec (get r) j.

(** A member, and one that [omitempty] drops. *)
Definition mem (k : string) (v : json) : list (string * json) := [(quote k, v)].
Definition mem_unless (empty : bool) (k : string) (v : json) : list (string * json) :=
  if empty then [] else mem k v.

Definition is_nil {A} (l : list A) : bool := match l with [] => true | _ => false end.

(** ** The state file *)

Section codecs.
Context `{Unicode}.

Definition JobRecord_fields : list Field :=
  [("job_id", at_ dec_int rec_JobID (fun v r =>
      mkJobRecord v (rec_RunID r) (rec_InstallationID r) (rec_Repository r) (rec_Owner r)
        (rec_Repo r) (rec_Labels r) (rec_Status r) (rec_NodeID r) (rec_InstanceID r)
        (rec_RunnerName r) (rec_RunnerID r) (rec_CPU r) (rec_MemoryM r) (rec_Attempt r)
        (rec_Deadline r) (rec_UpdatedAt r)));
   ("run_id", at_ dec_int rec_RunID (fun v r =>
      mkJobRecord (rec_JobID r) v (rec_InstallationID r) (rec_Repository r) (rec_Owner r)
        (rec_Repo r) (rec_Labels r) (rec_Status r) (rec_NodeID r) (rec_InstanceID r)
        (rec_RunnerName r) (rec_RunnerID r) (rec_CPU r) (rec_MemoryM r) (rec_Attempt r)
        (rec_Deadline r) (rec_UpdatedAt r)));
   ("installation_id", at_ dec_int rec_InstallationID (fun v r =>
      mkJobRecord (rec_JobID r) (rec_RunID r) v (rec_Repository r) (rec_Owner r) (rec_Repo
        r) (rec_Labels r) (rec_Status r) (rec_NodeID r) (rec_InstanceID r) (rec_RunnerName
        r) (rec_RunnerID r) (rec_CPU r) (rec_MemoryM r) (rec_Attempt r) (rec_Deadline r)
        (rec_UpdatedAt r)));
   ("repository", at_ dec_string rec_Repository (fun v r =>
      mkJobRecord (rec_JobID r) (rec_RunID r) (rec_InstallationID r) v (rec_Owner r)
        (rec_Repo r) (rec_Labels r) (rec_Status r) (rec_NodeID r) (rec_InstanceID r)
        (rec_RunnerName r) (rec_RunnerID r) (rec_CPU r) (rec_MemoryM r) (rec_Attempt r)
        (rec_Deadline r) (rec_UpdatedAt r)));
   ("owner", at_ dec_string rec_Owner (fun v r =>
      mkJobRecord (rec_JobID r) (rec_RunID r) (rec_InstallationID r) (rec_Repository r) v
        (rec_Repo r) (rec_Labels r) (rec_Status r) (rec_NodeID r) (rec_InstanceID r)
        (rec_RunnerName r) (rec_RunnerID r) (rec_CPU r) (rec_MemoryM r) (rec_Attempt r)
        (rec_Deadline r) (rec_UpdatedAt r)));
   ("repo", at_ dec_string rec_Repo (fun v r =>
      mkJobRecord (rec_JobID r) (rec_RunID r) (rec_InstallationID r) (rec_Repository r)
        (rec_Owner r) v (rec_Labels r) (rec_Status r) (rec_NodeID r) (rec_InstanceID r)
        (rec_RunnerName r) (rec_RunnerID r) (rec_CPU r) (rec_MemoryM r) (rec_Attempt r)
        (rec_Deadline r) (rec_UpdatedAt r)));
   ("labels", at_ dec_strings rec_Labels (fun v r =>
      mkJobRecord (rec_JobID r) (rec_RunID r) (rec_InstallationID r) (rec_Repository r)
        (rec_Owner r) (rec_Repo r) v (rec_Status r) (rec_NodeID r) (rec_InstanceID r)
        (rec_RunnerName r) (rec_RunnerID r) (rec_CPU r) (rec_MemoryM r) (rec_Attempt r)
        (rec_Deadline r) (rec_UpdatedAt r)));
   ("status", at_ dec_string rec_Status (fun v r =>
      mkJobRecord (rec_JobID r) (rec_RunID r) (rec_InstallationID r) (rec_Repository r)
        (rec_Owner r) (rec_Repo r) (rec_Labels r) v (rec_NodeID r) (rec_InstanceID r)
        (rec_RunnerName r) (rec_RunnerID r) (rec_CPU r) (rec_MemoryM r) (rec_Attempt r)
        (rec_Deadline r) (rec_UpdatedAt r)));
   ("node_id", at_ dec_string rec_NodeID (fun v r =>
      mkJobRecord (rec_JobID r) (rec_RunID r) (rec_InstallationID r) (rec_Repository r)
        (rec_Owner r) (rec_Repo r) (rec_Labels r) (rec_Status r) v (rec_InstanceID r)
        (rec_RunnerName r) (rec_RunnerID r) (rec_CPU r) (rec_MemoryM r) (rec_Attempt r)
        (rec_Deadline r) (rec_UpdatedAt r)));
   ("instance_id", at_ dec_string rec_InstanceID (fun v r =>
      mkJobRecord (rec_JobID r) (rec_RunID r) (rec_InstallationID r) (rec_Repository r)
        (rec_Owner r) (rec_Repo r) (rec_Labels r) (rec_Status r) (rec_NodeID r) v
        (rec_RunnerName r) (rec_RunnerID r) (rec_CPU r) (rec_MemoryM r) (rec_Attempt r)
        (rec_Deadline r) (rec_UpdatedAt r)));
   ("runner_name", at_ dec_string rec_RunnerName (fun v r =>
      mkJobRecord (rec_JobID r) (rec_RunID r) (rec_InstallationID r) (rec_Repository r)
        (rec_Owner r) (rec_Repo r) (rec_Labels r) (rec_Status r) (rec_NodeID r)
        (rec_InstanceID r) v (rec_RunnerID r) (rec_CPU r) (rec_MemoryM r) (rec_Attempt r)
        (rec_Deadline r) (rec_UpdatedAt r)));
   ("runner_id", at_ dec_int rec_RunnerID (fun v r =>
      mkJobRecord (rec_JobID r) (rec_RunID r) (rec_InstallationID r) (rec_Repository r)
        (rec_Owner r) (rec_Repo r) (rec_Labels r) (rec_Status r) (rec_NodeID r)
        (rec_InstanceID r) (rec_RunnerName r) v (rec_CPU r) (rec_MemoryM r) (rec_Attempt r)
        (rec_Deadline r) (rec_UpdatedAt r)));
   ("cpu", at_ dec_int rec_CPU (fun v r =>
      mkJobRecord (rec_JobID r) (rec_RunID r) (rec_InstallationID r) (rec_Repository r)
        (rec_Owner r) (rec_Repo r) (rec_Labels r) (rec_Status r) (rec_NodeID r)
        (rec_InstanceID r) (rec_RunnerName r) (rec_RunnerID r) v (rec_MemoryM r)
        (rec_Attempt r) (rec_Deadline r) (rec_UpdatedAt r)));
   ("memory_mb", at_ dec_int rec_MemoryM (fun v r =>
      mkJobRecord (rec_JobID r) (rec_RunID r) (rec_InstallationID r) (rec_Repository r)
        (rec_Owner r) (rec_Repo r) (rec_Labels r) (rec_Status r) (rec_NodeID r)
        (rec_InstanceID r) (rec_RunnerName r) (rec_RunnerID r) (rec_CPU r) v (rec_Attempt r)
        (rec_Deadline r) (rec_UpdatedAt r)));
   ("attempt", at_ dec_int rec_Attempt (fun v r =>
      mkJobRecord (rec_JobID r) (rec_RunID r) (rec_InstallationID r) (rec_Repository r)
        (rec_Owner r) (rec_Repo r) (rec_Labels r) (rec_Status r) (rec_NodeID r)
        (rec_InstanceID r) (rec_RunnerName r) (rec_RunnerID r) (rec_CPU r) (rec_MemoryM r) v
        (rec_Deadline r) (rec_UpdatedAt r)));
   ("deadline", at_ dec_time rec_Deadline (fun v r =>
      mkJobRecord (rec_JobID r) (rec_RunID r) (rec_InstallationID r) (rec_Repository r)
        (rec_Owner r) (rec_Repo r) (rec_Labels r) (rec_Status r) (rec_NodeID r)
        (rec_InstanceID r) (rec_RunnerName r) (rec_RunnerID r) (rec_CPU r) (rec_MemoryM r)
        (rec_Attempt r) v (rec_UpdatedAt r)));
   ("updated_at", at_ dec_time rec_UpdatedAt (fun v r =>
      mkJobRecord (rec_JobID r) (rec_RunID r) (rec_InstallationID r) (rec_Repository r)
        (rec_Owner r) (rec_Repo r) (rec_Labels r) (rec_Status r) (rec_NodeID r)
        (rec_InstanceID r) (rec_RunnerName r) (rec_RunnerID r) (rec_CPU r) (rec_MemoryM r)
        (rec_Attempt r) (rec_Deadline r) v))].

Definition dec_record : JobRecord -> json -> option JobRecord := dec_struct JobRecord_fields false.

(** [None] when a time is outside the years 0 to 9999. *)
Definition enc_record (r : JobRecord) : option json :=
  deadline ← enc_time (rec_Deadline r);
  updated ← enc_time (rec_UpdatedAt r);
  Some (JObj
    (mem "job_id" (enc_int (rec_JobID r)) ++ mem "run_id" (enc_int (rec_RunID r))
     ++ mem "installation_id" (enc_int (rec_InstallationID r))
     ++ mem "repository" (enc_string (rec_Repository r)) ++ mem "owner" (enc_string (rec_Owner r))
     ++ mem "repo" (enc_string (rec_Repo r)) ++ mem "labels" (enc_strings (rec_Labels r))
     ++ mem "status" (enc_string (rec_Status r))
     ++ mem_unless (String.eqb (rec_NodeID r) "") "node_id" (enc_string (rec_NodeID r))
     ++ mem_unless (String.eqb (rec_InstanceID r) "") "instance_id" (enc_string (rec_InstanceID r))
     ++ mem_unless (String.eqb (rec_RunnerName r) "") "runner_name" (enc_string (rec_RunnerName r))
     ++ mem_unless (rec_RunnerID r =? 0) "runner_id" (enc_int (rec_RunnerID r))
     ++ mem_unless (rec_CPU r =? 0) "cpu" (enc_int (rec_CPU r))
     ++ mem_unless (rec_MemoryM r =? 0) "memory_mb" (enc_int (rec_MemoryM r))
     ++ mem_unless (rec_Attempt r =? 0) "attempt" (enc_int (rec_Attempt r))
     ++ mem "deadline" deadline ++ mem "updated_at" updated)).

(** [map[int64]JobRecord]: keys are decimal texts, in the order of strings. *)
Definition key_less (a b : Z * json) : bool := String.ltb (FormatInt a.1) (FormatInt b.1).

Fixpoint enc_entries (l : list (Z * JobRecord)) : option (list (Z * json)) :=
  match l with
  | [] => Some []
  | (id, r) :: l' => j ← enc_record r; rest ← enc_entries l'; Some ((id, j) :: rest)
  end.

Definition enc_jobs (jobs : gmap Z JobRecord) : option json :=
  entries ← enc_entries (map_to_list jobs);
  Some (JObj (map (fun e => (quote (FormatInt e.1), e.2)) (sort_stable key_less entries))).

Fixpoint dec_entries (ms : list (string * json)) (jobs : gmap Z JobRecord)
  : option (gmap Z JobRecord) :=
  match ms with
  | [] => Some jobs
  | (k, v) :: ms' =>
      match dec_record zeroJobRecord v, ParseInt (unquote k) with
      | Some r, Some id => dec_entries ms' (<[id := r]> jobs)
      | _, _ => None
      end
  end.

(** The [Jobs] field of [persistedJobState]: a nil map, or a map. *)
Definition dec_jobs (cur : option (gmap Z JobRecord)) (j : json)
  : option (option (gmap Z JobRecord)) :=
  match j with
  | JNull => Some None
  | JObj ms => Some <$> dec_entries ms (default ∅ cur)
  | _ => None
  end.

Definition State_fields : list (Field (R := option (gmap Z JobRecord))) := [("jobs", dec_jobs)].

Definition dec_state (j : json) : option (option (gmap Z JobRecord)) :=
  dec_struct State_fields false None j.
Definition enc_state (jobs : gmap Z JobRecord) : option json :=
  j ← enc_jobs jobs; Some (JObj (mem "jobs" j)).

(** [json.MarshalIndent(state, "", "  ")] and [json.Unmarshal]. *)
Definition marshal_state (jobs : gmap Z JobRecord) : option string :=
  print indented 0 <$> enc_state jobs.
Definition unmarshal_state (text : string) : option (option (gmap Z JobRecord)) :=
  parse text ≫= dec_state.

Definition marshalState (jobs : gmap Z JobRecord) : result string :=
  match marshal_state jobs with
  | Some text => Ok text
  | None => Err (ErrMsg "json: error calling MarshalJSON for type time.Time")
  end.
Definition unmarshalState (text : string) : result (option (gmap Z JobRecord)) :=
  match unmarshal_state text with
  | Some jobs => Ok jobs
  | None => Err (ErrMsg "json: invalid state")
  end.

(** ** Nodes, requirements *)

Definition Capacity_fields : list Field :=
  [("total_cpu", at_ dec_int TotalCPU (fun v r =>
      mkCapacity v (FreeCPU r) (TotalMemoryM r) (FreeMemoryM r) (RunningJobs r)));
   ("free_cpu", at_ dec_int FreeCPU (fun v r =>
      mkCapacity (TotalCPU r) v (TotalMemoryM r) (FreeMemoryM r) (RunningJobs r)));
   ("total_memory_mb", at_ dec_int TotalMemoryM (fun v r =>
      mkCapacity (TotalCPU r) (FreeCPU r) v (FreeMemoryM r) (RunningJobs r)));
   ("free_memory_mb", at_ dec_int FreeMemoryM (fun v r =>
      mkCapacity (TotalCPU r) (FreeCPU r) (TotalMemoryM r) v (RunningJobs r)));
   ("running_jobs", at_ dec_int RunningJobs (fun v r =>
      mkCapacity (TotalCPU r) (FreeCPU r) (TotalMemoryM r) (FreeMemoryM r) v))].

Definition enc_capacity (c : Capacity) : json :=
  JObj (mem "total_cpu" (enc_int (TotalCPU c)) ++ mem "free_cpu" (enc_int (FreeCPU c))
        ++ mem "total_memory_mb" (enc_int (TotalMemoryM c))
        ++ mem "free_memory_mb" (enc_int (FreeMemoryM c))
        ++ mem "running_jobs" (enc_int (RunningJobs c))).

Definition Node_fields (strict : bool) : list Field :=
  [("id", at_ dec_string node_ID (fun v r =>
      mkNode v (node_Endpoint r) (node_OS r) (node_Arch r) (node_Backends r)
        (node_Capabilities r) (node_Labels r) (node_Capacity r) (node_Online r)
        (node_LastSeen r)));
   ("endpoint", at_ dec_string node_Endpoint (fun v r =>
      mkNode (node_ID r) v (node_OS r) (node_Arch r) (node_Backends r) (node_Capabilities r)
        (node_Labels r) (node_Capacity r) (node_Online r) (node_LastSeen r)));
   ("os", at_ dec_string node_OS (fun v r =>
      mkNode (node_ID r) (node_Endpoint r) v (node_Arch r) (node_Backends r)
        (node_Capabilities r) (node_Labels r) (node_Capacity r) (node_Online r)
        (node_LastSeen r)));
   ("arch", at_ dec_string node_Arch (fun v r =>
      mkNode (node_ID r) (node_Endpoint r) (node_OS r) v (node_Backends r)
        (node_Capabilities r) (node_Labels r) (node_Capacity r) (node_Online r)
        (node_LastSeen r)));
   ("backends", at_ dec_strings node_Backends (fun v r =>
      mkNode (node_ID r) (node_Endpoint r) (node_OS r) (node_Arch r) v (node_Capabilities r)
        (node_Labels r) (node_Capacity r) (node_Online r) (node_LastSeen r)));
   ("capabilities", at_ dec_strings node_Capabilities (fun v r =>
      mkNode (node_ID r) (node_Endpoint r) (node_OS r) (node_Arch r) (node_Backends r) v
        (node_Labels r) (node_Capacity r) (node_Online r) (node_LastSeen r)));
   ("labels", at_ dec_strings node_Labels (fun v r =>
      mkNode (node_ID r) (node_Endpoint r) (node_OS r) (node_Arch r) (node_Backends r)
        (node_Capabilities r) v (node_Capacity r) (node_Online r) (node_LastSeen r)));
   ("capacity", at_ (dec_struct Capacity_fields strict) node_Capacity (fun v r =>
      mkNode (node_ID r) (node_Endpoint r) (node_OS r) (node_Arch r) (node_Backends r)
        (node_Capabilities r) (node_Labels r) v (node_Online r) (node_LastSeen r)));
   ("online", at_ dec_bool node_Online (fun v r =>
      mkNode (node_ID r) (node_Endpoint r) (node_OS r) (node_Arch r) (node_Backends r)
        (node_Capabilities r) (node_Labels r) (node_Capacity r) v (node_LastSeen r)));
   ("last_seen", at_ dec_time node_LastSeen (fun v r =>
      mkNode (node_ID r) (node_Endpoint r) (node_OS r) (node_Arch r) (node_Backends r)
        (node_Capabilities r) (node_Labels r) (node_Capacity r) (node_Online r) v))].

Definition enc_node (n : Node) : option json :=
  seen ← enc_time (node_LastSeen n);
  Some (JObj
    (mem "id" (enc_string (node_ID n))
     ++ mem_unless (String.eqb (node_Endpoint n) "") "endpoint" (enc_string (node_Endpoint n))
     ++ mem "os" (enc_string (node_OS n)) ++ mem "arch" (enc_string (node_Arch n))
     ++ mem "backends" (enc_strings (node_Backends n))
     ++ mem "capabilities" (enc_strings (node_Capabilities n))
     ++ mem_unless (is_nil (node_Labels n)) "labels" (enc_strings (node_Labels n))
     ++ mem "capacity" (enc_capacity (node_Capacity n)) ++ mem "online" (enc_bool (node_Online n))
     ++ mem "last_seen" seen)).

(** The heartbeat body: [json.Marshal], and the handler's strict decoder. *)
Definition marshal_node (n : Node) : option string := print compact 0 <$> enc_node n.
Definition decode_node (text : string) : option Node :=
  parse_first text ≫= dec_struct (Node_fields true) true zeroNode.

Definition JobRequirements_fields : list Field :=
  [("repository", at_ dec_string req_Repository (fun v r =>
      mkJobRequirements v (req_OS r) (req_Arch r) (req_Isolation r) (req_Capabilities r)
        (req_CPU r) (req_MemoryM r)));
   ("os", at_ dec_string req_OS (fun v r =>
      mkJobRequirements (req_Repository r) v (req_Arch r) (req_Isolation r)
        (req_Capabilities r) (req_CPU r) (req_MemoryM r)));
   ("arch", at_ dec_string req_Arch (fun v r =>
      mkJobRequirements (req_Repository r) (req_OS r) v (req_Isolation r) (req_Capabilities
        r) (req_CPU r) (req_MemoryM r)));
   ("isolation", at_ dec_string req_Isolation (fun v r =>
      mkJobRequirements (req_Repository r) (req_OS r) (req_Arch r) v (req_Capabilities r)
        (req_CPU r) (req_MemoryM r)));
   ("capabilities", at_ dec_strings req_Capabilities (fun v r =>
      mkJobRequirements (req_Repository r) (req_OS r) (req_Arch r) (req_Isolation r) v
        (req_CPU r) (req_MemoryM r)));
   ("cpu", at_ dec_int req_CPU (fun v r =>
      mkJobRequirements (req_Repository r) (req_OS r) (req_Arch r) (req_Isolation r)
        (req_Capabilities r) v (req_MemoryM r)));
   ("memory_mb", at_ dec_int req_MemoryM (fun v r =>
      mkJobRequirements (req_Repository r) (req_OS r) (req_Arch r) (req_Isolation r)
        (req_Capabilities r) (req_CPU r) v))].

Definition zeroRequirements : JobRequirements := mkJobRequirements "" "" "" "" [] 0 0.

(** The body of [/v1/schedule]. *)
Definition decode_requirements (text : string) : option JobRequirements :=
  parse_first text ≫= dec_struct JobRequirements_fields true zeroRequirements.

(** ** Job specifications and instances *)

Definition zeroMount : CacheMount := mkCacheMount "" "" false.

Definition CacheMount_fields : list Field :=
  [("name", at_ dec_string mount_Name (fun v r =>
      mkCacheMount v (mount_Target r) (mount_ReadOnly r)));
   ("target", at_ dec_string mount_Target (fun v r =>
      mkCacheMount (mount_Name r) v (mount_ReadOnly r)));
   ("read_only", at_ dec_bool mount_ReadOnly (fun v r =>
      mkCacheMount (mount_Name r) (mount_Target r) v))].

Definition enc_mount (m : CacheMount) : json :=
  JObj (mem "name" (enc_string (mount_Name m)) ++ mem "target" (enc_string (mount_Target m))
        ++ mem_unless (negb (mount_ReadOnly m)) "read_only" (enc_bool (mount_ReadOnly m))).

Fixpoint dec_pairs (ms : list (string * json)) (cur : gmap string string)
  : option (gmap string string) :=
  match ms with
  | [] => Some cur
  | (k, v) :: ms' =>
      match dec_string "" v with Some s => dec_pairs ms' (<[unquote k := s]> cur) | None => None end
  end.

Definition dec_string_map (cur : gmap string string) (j : json) : option (gmap string string) :=
  match j with JNull => Some ∅ | JObj ms => dec_pairs ms cur | _ => None end.

Definition pair_less (a b : string * string) : bool := String.ltb a.1 b.1.

Definition enc_string_map (m : gmap string string) : json :=
  JObj (map (fun kv => (quote kv.1, enc_string kv.2)) (sort_stable pair_less (map_to_list m))).

Definition JobSpec_fields (strict : bool) : list Field :=
  [("id", at_ dec_string spec_ID (fun v r =>
      mkJobSpec v (spec_Repository r) (spec_RunnerConfig r) (spec_Image r) (spec_Command r)
        (spec_CPU r) (spec_MemoryM r) (spec_Environment r) (spec_CacheMounts r)
        (spec_Timeout r) (spec_TimeoutSeconds r)));
   ("repository", at_ dec_string spec_Repository (fun v r =>
      mkJobSpec (spec_ID r) v (spec_RunnerConfig r) (spec_Image r) (spec_Command r)
        (spec_CPU r) (spec_MemoryM r) (spec_Environment r) (spec_CacheMounts r)
        (spec_Timeout r) (spec_TimeoutSeconds r)));
   ("runner_config", at_ dec_string spec_RunnerConfig (fun v r =>
      mkJobSpec (spec_ID r) (spec_Repository r) v (spec_Image r) (spec_Command r) (spec_CPU
        r) (spec_MemoryM r) (spec_Environment r) (spec_CacheMounts r) (spec_Timeout r)
        (spec_TimeoutSeconds r)));
   ("image", at_ dec_string spec_Image (fun v r =>
      mkJobSpec (spec_ID r) (spec_Repository r) (spec_RunnerConfig r) v (spec_Command r)
        (spec_CPU r) (spec_MemoryM r) (spec_Environment r) (spec_CacheMounts r)
        (spec_Timeout r) (spec_TimeoutSeconds r)));
   ("command", at_ dec_strings spec_Command (fun v r =>
      mkJobSpec (spec_ID r) (spec_Repository r) (spec_RunnerConfig r) (spec_Image r) v
        (spec_CPU r) (spec_MemoryM r) (spec_Environment r) (spec_CacheMounts r)
        (spec_Timeout r) (spec_TimeoutSeconds r)));
   ("cpu", at_ dec_int spec_CPU (fun v r =>
      mkJobSpec (spec_ID r) (spec_Repository r) (spec_RunnerConfig r) (spec_Image r)
        (spec_Command r) v (spec_MemoryM r) (spec_Environment r) (spec_CacheMounts r)
        (spec_Timeout r) (spec_TimeoutSeconds r)));
   ("memory_mb", at_ dec_int spec_MemoryM (fun v r =>
      mkJobSpec (spec_ID r) (spec_Repository r) (spec_RunnerConfig r) (spec_Image r)
        (spec_Command r) (spec_CPU r) v (spec_Environment r) (spec_CacheMounts r)
        (spec_Timeout r) (spec_TimeoutSeconds r)));
   ("environment", at_ dec_string_map spec_Environment (fun v r =>
      mkJobSpec (spec_ID r) (spec_Repository r) (spec_RunnerConfig r) (spec_Image r)
        (spec_Command r) (spec_CPU r) (spec_MemoryM r) v (spec_CacheMounts r) (spec_Timeout
        r) (spec_TimeoutSeconds r)));
   ("cache_mounts", at_ (dec_list (dec_struct CacheMount_fields strict) zeroMount) spec_CacheMounts (fun v r =>
      mkJobSpec (spec_ID r) (spec_Repository r) (spec_RunnerConfig r) (spec_Image r)
        (spec_Command r) (spec_CPU r) (spec_MemoryM r) (spec_Environment r) v (spec_Timeout
        r) (spec_TimeoutSeconds r)));
   ("timeout_seconds", at_ dec_int spec_TimeoutSeconds (fun v r =>
      mkJobSpec (spec_ID r) (spec_Repository r) (spec_RunnerConfig r) (spec_Image r)
        (spec_Command r) (spec_CPU r) (spec_MemoryM r) (spec_Environment r)
        (spec_CacheMounts r) (spec_Timeout r) v))].

Definition zeroSpec : JobSpec := mkJobSpec "" "" "" "" [] 0 0 ∅ [] 0 0.

(** [Timeout] is tagged ["-"]: it is not written. *)
Definition enc_spec (s : JobSpec) : json :=
  JObj
    (mem "id" (enc_string (spec_ID s)) ++ mem "repository" (enc_string (spec_Repository s))
     ++ mem_unless (String.eqb (spec_RunnerConfig s) "") "runner_config" (enc_string (spec_RunnerConfig s))
     ++ mem "image" (enc_string (spec_Image s))
     ++ mem_unless (is_nil (spec_Command s)) "command" (enc_strings (spec_Command s))
     ++ mem_unless (spec_CPU s =? 0) "cpu" (enc_int (spec_CPU s))
     ++ mem_unless (spec_MemoryM s =? 0) "memory_mb" (enc_int (spec_MemoryM s))
     ++ mem_unless (bool_decide (spec_Environment s = ∅)) "environment"
          (enc_string_map (spec_Environment s))
     ++ mem_unless (is_nil (spec_CacheMounts s)) "cache_mounts" (enc_list enc_mount (spec_CacheMounts s))
     ++ mem_unless (spec_TimeoutSeconds s =? 0) "timeout_seconds" (enc_int (spec_TimeoutSeconds s))).

(** The body of [POST /v1/instances], and the agent's strict decoder. *)
Definition marshal_spec (s : JobSpec) : string := print compact 0 (enc_spec s).
Definition decode_spec (text : string) : option JobSpec :=
  parse_first text ≫= dec_struct (JobSpec_fields true) true zeroSpec.

Definition Instance_fields : list Field :=
  [("id", at_ dec_string inst_ID (fun v r =>
      mkInstance v (inst_Backend r) (inst_NodeID r) (inst_Deadline r)));
   ("backend", at_ dec_string inst_Backend (fun v r =>
      mkInstance (inst_ID r) v (inst_NodeID r) (inst_Deadline r)));
   ("node_id", at_ dec_string inst_NodeID (fun v r =>
      mkInstance (inst_ID r) (inst_Backend r) v (inst_Deadline r)));
   ("deadline", at_ dec_time inst_Deadline (fun v r =>
      mkInstance (inst_ID r) (inst_Backend r) (inst_NodeID r) v))].

Definition zeroInstance : Instance_ := mkInstance "" "" "" zeroTime.

Definition enc_instance (i : Instance_) : option json :=
  deadline ← enc_time (inst_Deadline i);
  Some (JObj (mem "id" (enc_string (inst_ID i)) ++ mem "backend" (enc_string (inst_Backend i))
              ++ mem "node_id" (enc_string (inst_NodeID i)) ++ mem "deadline" deadline)).

(** The answer to a create request, and the controller's decoder. *)
Definition marshal_instance (i : Instance_) : option string := print compact 0 <$> enc_instance i.
Definition decode_instance (text : string) : option Instance_ :=
  parse_first text ≫= dec_struct Instance_fields false zeroInstance.
End codecs.

(** ** Answers of the HTTP servers *)

Definition enc_placement (p : Placement) : json :=
  JObj (mem "node_id" (enc_string (NodeID p)) ++ mem "backend" (enc_string (Backend p))).

Fixpoint enc_nodes (l : list Node) : option (list json) :=
  match l with
  | [] => Some []
  | n :: l' => j ← enc_node n; rest ← enc_nodes l'; Some (j :: rest)
  end.

(** The text of an error ([err.Error()]). *)
Class ErrorText : Set := Error : error -> string.

(** The value given to [writeJSON]; the keys of a map are written in order. *)
Definition enc_body `{ErrorText} (b : Body) : option json :=
  match b with
  | BFlag key => Some (JObj (mem key (JBool true)))
  | BError msg => Some (JObj (mem "error" (enc_string msg)))
  | BErr e => Some (JObj (mem "error" (enc_string (Error e))))
  | BNode n => enc_node n
  | BNodes l => JArr <$> enc_nodes l
  | BPlacement p => Some (enc_placement p)
  | BCapacity c => Some (enc_capacity c)
  | BInstance i => enc_instance i
  | BHealth id goos goarch t =>
      now ← enc_time t;
      Some (JObj (mem "goarch" (enc_string goarch) ++ mem "goos" (enc_string goos)
                  ++ mem "node_id" (enc_string id) ++ mem "ok" (JBool true) ++ mem "time" now))
  | BEmpty => None
  end.

(** The status is sent before the body is encoded: a value that cannot be
    encoded leaves an empty body. *)
Definition respond `{ErrorText} (r : Response) : HttpAnswer :=
  mkHttpAnswer (status r)
    (match enc_body (body r) with
     | Some j => print compact 0 j +:+ String "010" ""
     | None => ""
     end).
