(* ===== verification/WireOk.v ===== *)
(** * The program's JSON round-trips

    Every text the program writes is read back by the decoder at the other
    end: the state file by the next process, a heartbeat by the controller, a
    job specification by the agent, an instance by the controller.  What it
    takes is that strings are UTF-8, integers fit their type and times lie in
    the years JSON can write; for strings that is free, as every string a
    decoder produces is UTF-8 ([utf8_unquote]). *)

From S2P Require Import Prelude GoTime GoStrings GoConv GoDate GoUtf8 GoJson Model Policy Jobs Wire.
From stdpp Require Import base list sets strings gmap pretty.
From Stdlib Require Import ZArith Ascii String Lia.
Open Scope string_scope.
Open Scope list_scope.
Open Scope Z_scope.

(** ** Integers *)

(** A decimal text does not start with zero unless it is zero. *)
Lemma pretty_N_go_head n s :
  (0 < n)%N -> exists c t, pretty_N_go n s = String c (t +:+ s) /\ is_digit c = true
    /\ byte_of c <> 48 /\ sforall is_digit t = true.
Proof.
  revert s. induction (N.lt_wf_0 n) as [n _ IH]. intros s Hn. rewrite pretty_N_go_step by lia.
  destruct (decide (n < 10)%N) as [Hlt|Hge].
  - rewrite (N.div_small n 10), pretty_N_go_0, N.mod_small by lia.
    destruct (digit_value n Hlt) as [Hd Hv]. exists (pretty_N_char n), "".
    split_and!; [done|done|lia|done].
  - destruct (IH (n / 10)%N ltac:(apply N.div_lt; lia) (String (pretty_N_char (n mod 10)) s))
      as (c & t & -> & Hc & H0 & Ht).
    { apply N.div_str_pos. lia. }
    exists c, (t +:+ String (pretty_N_char (n mod 10)) ""). rewrite sapp_assoc. split_and!; try done.
    rewrite sforall_app, Ht. cbn. by rewrite pretty_N_char_digit.
Qed.

Lemma skip_digits_all s : sforall is_digit s = true -> skip_digits s = "".
Proof. induction s as [|c s IH]; cbn; [done|]. by intros [-> ?%IH]%andb_true_iff. Qed.

Lemma FormatInt_pos p : exists c t, FormatInt (Zpos p) = String c t /\ is_digit c = true
  /\ byte_of c <> 48 /\ sforall is_digit t = true.
Proof.
  unfold FormatInt, pretty, pretty_Z, pretty, pretty_positive, pretty, pretty_N.
  rewrite decide_False by done. destruct (pretty_N_go_head (Npos p) "") as (c & t & -> & H); [done|].
  exists c, (t +:+ ""). by rewrite sapp_nil_r.
Qed.

Lemma FormatInt_neg p : FormatInt (Zneg p) = String "-" (FormatInt (Zpos p)).
Proof. done. Qed.

Lemma is_number_FormatInt n : is_number (FormatInt n) = true.
Proof.
  destruct n as [|p|p]; [done| |rewrite FormatInt_neg];
    destruct (FormatInt_pos p) as (c & t & -> & Hc & H0 & Ht); unfold is_number.
  - replace (byte_of c =? 45) with false by (unfold is_digit in Hc; lia).
    replace (byte_of c =? 48) with false by lia. by rewrite Hc, skip_digits_all.
  - change (byte_of "-" =? 45) with true. cbv iota.
    replace (byte_of c =? 48) with false by lia. by rewrite Hc, skip_digits_all.
Qed.

Lemma ParseInt_FormatInt_int64 n : in_int64 n -> ParseInt (FormatInt n) = Some n.
Proof.
  unfold in_int64. intros Hn. destruct (Z.leb_spec 0 n); [apply ParseInt_FormatInt; lia|].
  destruct n as [|p|p]; [lia|lia|]. rewrite FormatInt_neg. unfold ParseInt.
  rewrite Ascii.eqb_refl, parse_FormatInt by done. cbn [option_map].
  change (- Zpos p) with (Zneg p).
  destruct Hn as [H1 H2]. by rewrite (proj2 (Z.leb_le _ _) H1), (proj2 (Z.leb_le _ _) H2).
Qed.

(** ** Well-formed values of bounded height *)

Definition fits_in (D : Z) (j : json) : Prop := wf j /\ height j <= D.
Definition member_in (D : Z) (kv : string * json) : Prop := literal kv.1 /\ fits_in D kv.2.

Lemma fits_obj D ms : 0 <= D -> Forall (member_in D) ms -> fits_in (1 + D) (JObj ms).
Proof.
  intros HD Hms. split; cbn [wf height].
  - induction Hms as [|kv ms [Hk [Hw _]] _ IH]; cbn; [done|]. by split_and!.
  - enough (foldr Z.max 0 (map (fun kv => height kv.2) ms) <= D) by lia.
    induction Hms as [|kv ms [_ [_ Hh]] _ IH]; cbn; lia.
Qed.

Lemma fits_arr D l : 0 <= D -> Forall (fits_in D) l -> fits_in (1 + D) (JArr l).
Proof.
  intros HD Hl. split; cbn [wf height].
  - induction Hl as [|x l [Hw _] _ IH]; cbn; [done|]. by split.
  - enough (foldr Z.max 0 (map height l) <= D) by lia.
    induction Hl as [|x l [_ Hh] _ IH]; cbn; lia.
Qed.

Lemma fits_int D n : 0 <= D -> fits_in D (enc_int n).
Proof. intros HD. split; [apply is_number_FormatInt|done]. Qed.
Lemma fits_string D s : 0 <= D -> fits_in D (enc_string s).
Proof. intros HD. split; [apply literal_quote|done]. Qed.
Lemma fits_bool D b : 0 <= D -> fits_in D (enc_bool b).
Proof. intros HD. by split. Qed.
Lemma fits_list {A} D (enc : A -> json) l :
  0 < D -> (forall x, fits_in (D - 1) (enc x)) -> fits_in D (enc_list enc l).
Proof.
  intros HD Henc. destruct l as [|x l]; cbn [enc_list]; [split; [done|cbn; lia]|].
  replace D with (1 + (D - 1)) by lia. apply fits_arr; [lia|].
  apply Forall_forall. intros j (y & -> & _)%list_elem_of_fmap. apply Henc.
Qed.

(** The texts of times need no escapes. *)
Definition plain (c : ascii) : bool :=
  (32 <=? byte_of c) && negb (byte_of c =? 34) && negb (byte_of c =? 92) && (byte_of c <? 128).

Lemma literal_plain s : sforall plain s = true -> literal s.
Proof.
  intros Hs rest. induction s as [|c s IH].
  - change ("" +:+ ?u) with u. cbn [scan_string]. by rewrite Ascii.eqb_refl.
  - cbn [sforall] in Hs. apply andb_true_iff in Hs as [Hc Hs]. rewrite sapp_cons, scan_other, IH; try done.
    + intros ->. vm_compute in Hc. done.
    + intros ->. vm_compute in Hc. done.
    + unfold plain in Hc. lia.
Qed.

Lemma plain_digits s : sforall is_digit s = true -> sforall plain s = true.
Proof. apply sforall_impl. unfold is_digit, plain. lia. Qed.

Lemma sforall_TrimRight f s cut : sforall f s = true -> sforall f (TrimRight s cut) = true.
Proof.
  rewrite !sforall_Forall. unfold TrimRight. rewrite list_ascii_of_string_of_list_ascii.
  destruct (rdrop_while_prefix (in_cutset cut) (list_ascii_of_string s)) as (b & Hb & _).
  intros H. rewrite Hb in H. by apply Forall_app in H as [H _].
Qed.

Lemma format_time_plain t text : format_time t = Some text -> sforall plain text = true.
Proof.
  unfold format_time. destruct (date_of_days (t / day_length)) as [[y m] d] eqn:Ed.
  apply date_of_days_spec in Ed as (_ & Hm & Hd).
  destruct ((0 <=? y) && (y <=? 9999)) eqn:Hy; [|done]. intros E%(inj Some). rewrite <- E. clear E text.
  assert (Hp : forall k n, 0 <= n -> sforall plain (pad k n) = true)
    by (intros; by apply plain_digits, pad_digits).
  pose proof (Z.mod_pos_bound t day_length ltac:(done)).
  assert (0 <= t mod day_length / Second) by (apply Z.div_pos; [lia|done]).
  rewrite !sforall_app, !Hp; try done; try lia; try (apply Z.mod_pos_bound; lia); try (apply Z.div_pos; lia).
  unfold frac. destruct (_ =? 0); [done|]. rewrite !sforall_app, sforall_TrimRight; [done|].
  apply Hp. by apply Z.mod_pos_bound.
Qed.

Lemma fits_time D t j : 0 <= D -> enc_time t = Some j -> fits_in D j.
Proof.
  unfold enc_time. intros HD. destruct (format_time t) as [text|] eqn:E; [|done]. intros [= <-].
  split; [|done]. by apply literal_plain, (format_time_plain t).
Qed.

Lemma member_mem D k v : fits_in D v -> Forall (member_in D) (mem k v).
Proof. intros Hv. repeat constructor; [apply literal_quote|apply Hv..]. Qed.
Lemma member_unless D b k v : fits_in D v -> Forall (member_in D) (mem_unless b k v).
Proof. intros Hv. destruct b; [constructor|by apply member_mem]. Qed.

Create HintDb wire.
#[export] Hint Resolve fits_int fits_string fits_bool member_mem member_unless Forall_app_2 : wire.
#[export] Hint Extern 1 (_ <= _) => lia : wire.
#[export] Hint Extern 1 (_ < _) => lia : wire.

(** ** Scalars and lists are read back *)

Lemma dec_enc_int cur n : in_int64 n -> dec_int cur (enc_int n) = Some n.
Proof. apply ParseInt_FormatInt_int64. Qed.

Lemma dec_enc_string cur s : utf8 s = true -> dec_string cur (enc_string s) = Some s.
Proof. intros Hs. cbn. by rewrite unquote_quote_utf8. Qed.

Lemma dec_enc_bool cur b : dec_bool cur (enc_bool b) = Some b.
Proof. done. Qed.

Lemma dec_enc_time cur t j : enc_time t = Some j -> dec_time cur j = Some t.
Proof.
  unfold enc_time. destruct (format_time t) as [text|] eqn:E; [|done]. intros [= <-].
  by apply parse_format_time.
Qed.

Lemma dec_enc_list {A} (dec : A -> json -> option A) zero (enc : A -> json) l :
  Forall (fun x => dec zero (enc x) = Some x) l -> dec_list dec zero [] (enc_list enc l) = Some l.
Proof.
  intros Hl. assert (He : dec_elems dec zero [] (map enc l) = Some l).
  { induction Hl as [|x l Hx _ IH]; cbn [map dec_elems]; [done|]. cbn [head tail default].
    by rewrite Hx, IH. }
  by destruct l.
Qed.

Lemma dec_enc_strings l : utf8s l -> dec_strings [] (enc_strings l) = Some l.
Proof.
  intros Hl. apply dec_enc_list. eapply Forall_impl; [exact Hl|]. intros s. apply dec_enc_string.
Qed.

(** ** Maps *)

Section insert_all.
Context `{Countable K} {V : Type}.

(** Members are inserted in the order of the text. *)
Definition insert_all (l : list (K * V)) (m : gmap K V) : gmap K V :=
  foldl (fun m e => <[e.1 := e.2]> m) m l.

Lemma lookup_insert_all l m i :
  NoDup l.*1 ->
  insert_all l m !! i
  = match (list_to_map l : gmap K V) !! i with Some r => Some r | None => m !! i end.
Proof.
  revert m. induction l as [|[id r] l IH]; intros m Hnd; cbn; [done|].
  cbn in Hnd. apply NoDup_cons in Hnd as [Hid Hnd]. unfold insert_all in IH. rewrite IH by done.
  destruct (decide (i = id)) as [->|Hne].
  - rewrite !lookup_insert_eq. by rewrite (proj1 (not_elem_of_list_to_map l id)).
  - by rewrite !lookup_insert_ne.
Qed.

(** Inserting the entries of a map, in any order, gives the map. *)
Lemma insert_all_entries l m : l ≡ₚ map_to_list m -> insert_all l ∅ = m.
Proof.
  intros Hl. apply map_eq. intros i.
  assert (Hnd : NoDup l.*1) by (rewrite Hl; apply NoDup_fst_map_to_list).
  rewrite lookup_insert_all by done. rewrite <- (list_to_map_to_list m).
  rewrite (list_to_map_proper l (map_to_list m)) by done. by destruct (list_to_map _ !! i).
Qed.
End insert_all.

(** ** Struct members *)

Section members.
Context `{Unicode} {R : Type}.

(** One member, written unless it is empty: [r'] is the value with the field
    set, which is [r] itself when the member was dropped. *)
Lemma dec_field (fields : list (Field (R := R))) strict b k v ms r set r' :
  utf8 k = true -> find_field fields k = Some set ->
  (b = false -> set r v = Some r') -> (b = true -> r = r') ->
  dec_members fields strict (mem_unless b k v ++ ms) r = dec_members fields strict ms r'.
Proof.
  intros Hk Hf Hset Hskip. destruct b; cbn [mem_unless].
  - by rewrite <- Hskip.
  - cbn. rewrite unquote_quote_utf8, Hf, Hset by done. done.
Qed.

Lemma dec_mem (fields : list (Field (R := R))) strict k v ms r set r' :
  utf8 k = true -> find_field fields k = Some set -> set r v = Some r' ->
  dec_members fields strict (mem k v ++ ms) r = dec_members fields strict ms r'.
Proof. intros Hk Hf Hset. by apply (dec_field _ _ false _ _ _ _ set). Qed.
End members.

(** Solves a chain of members: each field by its own lemma. *)
Ltac dec_scalar :=
  cbn [snd]; unfold at_; cbv beta;
  first
    [ rewrite dec_enc_int by done | rewrite dec_enc_string by done
    | (erewrite dec_enc_time by done) | rewrite dec_enc_bool
    | (match goal with |- context [dec_strings ?c _] => change c with (@nil string) end;
       rewrite dec_enc_strings by done) ];
  cbn; reflexivity.

Ltac dropped :=
  first
    [ discriminate
    | intros ->%String.eqb_eq; reflexivity
    | intros ->%Z.eqb_eq; reflexivity
    | match goal with |- is_nil ?l = true -> _ => destruct l; [reflexivity|discriminate] end
    | match goal with |- negb ?b = true -> _ => destruct b; [discriminate|reflexivity] end ].

Ltac dec_step tac :=
  first
    [ erewrite dec_mem; [|reflexivity|reflexivity|tac]
    | erewrite dec_field; [|reflexivity|reflexivity|intros _; tac|dropped] ].

Ltac fits_struct :=
  apply fits_obj; [lia|];
  repeat first [ apply Forall_app_2 | apply member_mem | apply member_unless ];
  first [ apply fits_int; lia | apply fits_string; lia | apply fits_bool; lia
        | apply fits_list; [lia|intros; apply fits_string; lia]
        | (eapply fits_time; [lia|eassumption]) | idtac ].

(** ** The state file *)

Section state.
Context `{Unicode}.

Lemma fits_record r j : enc_record r = Some j -> fits_in 2 j.
Proof.
  unfold enc_record. destruct (enc_time (rec_Deadline r)) as [dl|] eqn:Ed; [|done].
  destruct (enc_time (rec_UpdatedAt r)) as [up|] eqn:Eu; [|done]. cbn [mbind option_bind].
  intros <-%(inj Some). change 2 with (1 + 1). fits_struct.
Qed.

Lemma dec_enc_record r j : storable r -> enc_record r = Some j -> dec_record zeroJobRecord j = Some r.
Proof.
  destruct r as [id run inst repo owner name labels status node iid rname rid cpu memory att dl up].
  intros [Hi Hs Hl]. unfold utf8s in Hs. cbn in Hi, Hs, Hl.
  rewrite !Forall_cons in Hi. rewrite !Forall_cons in Hs. destruct_and? Hi. destruct_and? Hs.
  unfold enc_record. cbn [rec_Deadline rec_UpdatedAt].
  destruct (enc_time dl) as [jdl|] eqn:Edl; [|done].
  destruct (enc_time up) as [jup|] eqn:Eup; [|done]. cbn [mbind option_bind].
  intros <-%(inj Some). unfold dec_record. cbn [dec_struct].
  rewrite <- (app_nil_r (mem "updated_at" jup)). unfold zeroJobRecord.
  cbn [rec_JobID rec_RunID rec_InstallationID rec_Repository rec_Owner rec_Repo
    rec_Labels rec_Status rec_NodeID rec_InstanceID rec_RunnerName rec_RunnerID rec_CPU rec_MemoryM
    rec_Attempt].
  do 17 (dec_step dec_scalar). done.
Qed.

(** An entry and its encoding. *)
Definition encodes (e : Z * JobRecord) (kj : Z * json) : Prop :=
  e.1 = kj.1 /\ enc_record e.2 = Some kj.2.

Lemma enc_entries_spec l es : enc_entries l = Some es -> Forall2 encodes l es.
Proof.
  revert es. induction l as [|[id r] l IH]; intros es; cbn; [by intros [= <-]; constructor|].
  destruct (enc_record r) as [j|] eqn:Ej; [|done].
  destruct (enc_entries l) as [es'|]; [|done]. intros [= <-]. constructor; [done|]. by apply IH.
Qed.

Lemma dec_enc_entries l es m :
  Forall2 encodes l es -> Forall (fun e => in_int64 e.1 /\ storable e.2) l ->
  dec_entries (map (fun e => (quote (FormatInt e.1), e.2)) es) m = Some (insert_all l m).
Proof.
  intros Hl. revert m. induction Hl as [|[id r] [id' j] l es [Hid Hj] _ IH]; intros m Hs; [done|].
  apply Forall_cons in Hs as [[Hi Hr] Hs]. cbn [fst snd] in *. subst id'. cbn [map dec_entries fst snd].
  rewrite (dec_enc_record r j) by done. rewrite unquote_quote_utf8.
  - rewrite ParseInt_FormatInt_int64 by done. by apply IH.
  - apply utf8_ascii. generalize (is_number_chars _ (is_number_FormatInt id)).
    apply sforall_impl. intros c. unfold number_char, is_digit, is_ascii_byte. lia.
Qed.

Lemma dec_enc_jobs jobs j cur :
  all_storable jobs -> enc_jobs jobs = Some j -> default ∅ cur = (∅ : gmap Z JobRecord) ->
  dec_jobs cur j = Some (Some jobs).
Proof.
  unfold enc_jobs. intros Hs. destruct (enc_entries (map_to_list jobs)) as [es|] eqn:Ees; [|done].
  cbn [mbind option_bind]. intros <-%(inj Some) Hcur. cbn [dec_jobs]. rewrite Hcur.
  apply enc_entries_spec in Ees.
  apply Forall2_flip in Ees.
  destruct (Permutation_Forall2 (symmetry (sort_stable_perm key_less es)) Ees) as (l & Hl & Hes).
  apply Forall2_flip in Hes. rewrite (dec_enc_entries l); [|done|].
  2: { rewrite <- Hl. apply Forall_forall. intros [id r] Hin%elem_of_map_to_list. by apply Hs. }
  cbn. do 2 f_equal. by apply insert_all_entries.
Qed.

Lemma fits_jobs jobs j : enc_jobs jobs = Some j -> fits_in 3 j.
Proof.
  unfold enc_jobs. destruct (enc_entries (map_to_list jobs)) as [es|] eqn:Ees; [|done].
  cbn [mbind option_bind]. intros <-%(inj Some). change 3 with (1 + 2). apply fits_obj; [lia|].
  apply Forall_fmap. rewrite (sort_stable_perm key_less es).
  apply enc_entries_spec in Ees. induction Ees as [|e [id j] l es [_ Hj] _ IH]; constructor; [|done].
  split; [apply literal_quote|]. by eapply fits_record.
Qed.

(** What [MarshalIndent] wrote of storable records, [Unmarshal] reads back. *)
Lemma unmarshal_marshal_state jobs text :
  all_storable jobs -> marshal_state jobs = Some text -> unmarshal_state text = Some (Some jobs).
Proof.
  unfold marshal_state, unmarshal_state, enc_state. intros Hs.
  destruct (enc_jobs jobs) as [j|] eqn:Ej; [|done]. cbn [mbind option_bind fmap option_fmap option_map].
  intros <-%(inj Some). destruct (fits_obj 3 (mem "jobs" j)) as [Hw Hh];
    [lia|by apply member_mem, fits_jobs with jobs|].
  rewrite (parse_print indented) by (done || unfold max_depth; lia). cbn [mbind option_bind].
  unfold dec_state. cbn [dec_struct]. rewrite <- (app_nil_r (mem "jobs" j)).
  erewrite dec_mem; [done|reflexivity|reflexivity|]. cbn [snd]. by apply dec_enc_jobs.
Qed.

(** The encoder refuses nothing but times outside the years 0 to 9999. *)
Definition writable (t : Time) : Prop := is_Some (format_time t).
Definition dated (r : JobRecord) : Prop := writable (rec_Deadline r) /\ writable (rec_UpdatedAt r).
Definition all_dated (jobs : gmap Z JobRecord) : Prop := map_Forall (fun _ => dated) jobs.

Lemma enc_record_total r : dated r -> is_Some (enc_record r).
Proof.
  intros [[dl Hd] [up Hu]]. unfold enc_record, enc_time. rewrite Hd, Hu.
  cbn [fmap option_fmap option_map mbind option_bind]. by eexists.
Qed.

Lemma enc_entries_total l : Forall (fun e => dated e.2) l -> is_Some (enc_entries l).
Proof.
  induction 1 as [|[id r] l [j Hj]%enc_record_total _ [es IH]]; cbn [enc_entries]; [done|].
  cbn [snd] in Hj. rewrite Hj, IH. cbn [mbind option_bind]. by eexists.
Qed.

Lemma marshalState_total jobs : all_dated jobs -> exists data, marshalState jobs = Ok data.
Proof.
  intros Hd. unfold marshalState, marshal_state, enc_state, enc_jobs.
  destruct (enc_entries_total (map_to_list jobs)) as [es ->].
  { apply Forall_forall. intros [id r] Hr%elem_of_map_to_list. by eapply Hd. }
  by eexists.
Qed.

Lemma all_dated_insert jobs id r : all_dated jobs -> dated r -> all_dated (<[id := r]> jobs).
Proof. intros ? ?. by apply map_Forall_insert_2. Qed.

Lemma unmarshal_marshal jobs data :
  all_storable jobs -> marshalState jobs = Ok data -> unmarshalState data = Ok (Some jobs).
Proof.
  unfold marshalState, unmarshalState. intros Hs. destruct (marshal_state jobs) as [t|] eqn:E; [|done].
  intros [= <-]. by rewrite (unmarshal_marshal_state jobs t).
Qed.
End state.

(** ** Nodes *)

(** What a heartbeat can carry exactly. *)
Record sendable_node (n : Node) : Prop := {
  sn_ints : Forall in_int64 [TotalCPU (node_Capacity n); FreeCPU (node_Capacity n);
    TotalMemoryM (node_Capacity n); FreeMemoryM (node_Capacity n); RunningJobs (node_Capacity n)];
  sn_strings : utf8s [node_ID n; node_Endpoint n; node_OS n; node_Arch n];
  sn_backends : utf8s (node_Backends n);
  sn_capabilities : utf8s (node_Capabilities n);
  sn_labels : utf8s (node_Labels n);
}.

(** What a job specification on the wire can carry exactly. *)
Record sendable_spec (s : JobSpec) : Prop := {
  ss_ints : Forall in_int64 [spec_CPU s; spec_MemoryM s; spec_TimeoutSeconds s];
  ss_strings : utf8s [spec_ID s; spec_Repository s; spec_RunnerConfig s; spec_Image s];
  ss_command : utf8s (spec_Command s);
  ss_environment : map_Forall (fun k v => utf8 k = true /\ utf8 v = true) (spec_Environment s);
  ss_mounts : Forall (fun m => utf8s [mount_Name m; mount_Target m]) (spec_CacheMounts s);
}.

Section messages.
Context `{Unicode}.

Lemma dec_enc_capacity strict cur c :
  Forall in_int64 [TotalCPU c; FreeCPU c; TotalMemoryM c; FreeMemoryM c; RunningJobs c] ->
  dec_struct Capacity_fields strict cur (enc_capacity c) = Some c.
Proof.
  destruct c as [a b c d e], cur as [a' b' c' d' e']. cbn [TotalCPU FreeCPU TotalMemoryM FreeMemoryM RunningJobs].
  rewrite !Forall_cons. intros Hi. destruct_and? Hi. unfold enc_capacity.
  cbn [dec_struct TotalCPU FreeCPU TotalMemoryM FreeMemoryM RunningJobs].
  rewrite <- (app_nil_r (mem "running_jobs" _)). do 5 (dec_step dec_scalar). done.
Qed.

Lemma fits_capacity D c : 0 < D -> fits_in D (enc_capacity c).
Proof. intros HD. replace D with (1 + (D - 1)) by lia. fits_struct. Qed.

Lemma fits_node n j : enc_node n = Some j -> fits_in 2 j.
Proof.
  unfold enc_node. destruct (enc_time (node_LastSeen n)) as [seen|] eqn:Es; [|done].
  cbn [mbind option_bind]. intros <-%(inj Some). change 2 with (1 + 1). fits_struct.
  by apply fits_capacity.
Qed.

(** A heartbeat arrives as it was sent. *)
Lemma decode_marshal_node n text :
  sendable_node n -> marshal_node n = Some text -> decode_node text = Some n.
Proof.
  destruct n as [id ep os arch backs caps labels c online seen].
  intros [Hi Hs Hb Hc Hl]. unfold utf8s in Hs. cbn in Hs, Hb, Hc, Hl, Hi.
  unfold marshal_node, decode_node. destruct (enc_node _) as [j|] eqn:Ej; [|done].
  cbn [fmap option_fmap option_map]. intros <-%(inj Some). destruct (fits_node _ _ Ej) as [Hw Hh].
  rewrite (parse_first_print compact) by (done || unfold max_depth; lia). cbn [mbind option_bind].
  revert Ej. unfold enc_node. cbn [node_LastSeen].
  destruct (enc_time seen) as [jseen|] eqn:Eseen; [|done].
  cbn [mbind option_bind]. intros <-%(inj Some). cbn [dec_struct].
  rewrite !Forall_cons in Hs. destruct_and? Hs.
  rewrite <- (app_nil_r (mem "last_seen" jseen)). unfold zeroNode.
  cbn [node_ID node_Endpoint node_OS node_Arch node_Backends node_Capabilities node_Labels
    node_Capacity node_Online].
  do 7 (dec_step dec_scalar).
  dec_step ltac:(cbn [snd]; unfold at_; cbv beta; (rewrite dec_enc_capacity by done); cbn; reflexivity).
  do 2 (dec_step dec_scalar). done.
Qed.

Lemma dec_enc_mount strict m :
  utf8s [mount_Name m; mount_Target m] ->
  dec_struct CacheMount_fields strict zeroMount (enc_mount m) = Some m.
Proof.
  destruct m as [name target ro]. unfold utf8s. cbn [mount_Name mount_Target].
  rewrite !Forall_cons. intros Hs. destruct_and? Hs. unfold enc_mount, zeroMount.
  cbn [dec_struct mount_Name mount_Target mount_ReadOnly].
  rewrite <- (app_nil_r (mem_unless (negb ro) _ _)). do 3 (dec_step dec_scalar). done.
Qed.

Lemma fits_mount D m : 0 < D -> fits_in D (enc_mount m).
Proof. intros HD. replace D with (1 + (D - 1)) by lia. unfold enc_mount. fits_struct. Qed.

Lemma dec_enc_pairs l m :
  Forall (fun kv => utf8 kv.1 = true /\ utf8 kv.2 = true) l ->
  dec_pairs (map (fun kv => (quote kv.1, enc_string kv.2)) l) m = Some (insert_all l m).
Proof.
  intros Hl. revert m. induction Hl as [|[k v] l [Hk Hv] _ IH]; intros m; [done|].
  cbn [map dec_pairs fst snd] in *. rewrite dec_enc_string, unquote_quote_utf8 by done. apply IH.
Qed.

Lemma dec_enc_string_map m :
  map_Forall (fun k v => utf8 k = true /\ utf8 v = true) m ->
  dec_string_map ∅ (enc_string_map m) = Some m.
Proof.
  intros Hm. unfold enc_string_map. cbn [dec_string_map].
  pose proof (sort_stable_perm pair_less (map_to_list m)) as Hp. rewrite dec_enc_pairs.
  - f_equal. by apply insert_all_entries.
  - rewrite Hp. apply Forall_forall. intros [k v] Hin%elem_of_map_to_list. by apply (Hm k v).
Qed.

Lemma fits_string_map D m : 0 < D -> fits_in D (enc_string_map m).
Proof.
  intros HD. replace D with (1 + (D - 1)) by lia. apply fits_obj; [lia|].
  apply Forall_fmap, Forall_forall. intros [k v] _. split; [apply literal_quote|].
  apply fits_string. lia.
Qed.

Lemma fits_spec s : fits_in 3 (enc_spec s).
Proof.
  change 3 with (1 + 2). unfold enc_spec. fits_struct.
  - by apply fits_string_map.
  - apply fits_list; [done|]. intros m. by apply fits_mount.
Qed.

(** A job specification arrives without its [Timeout], which JSON leaves out. *)
Lemma decode_marshal_spec s :
  sendable_spec s ->
  decode_spec (marshal_spec s)
  = Some (mkJobSpec (spec_ID s) (spec_Repository s) (spec_RunnerConfig s) (spec_Image s)
            (spec_Command s) (spec_CPU s) (spec_MemoryM s) (spec_Environment s)
            (spec_CacheMounts s) 0 (spec_TimeoutSeconds s)).
Proof.
  destruct s as [id repo conf img cmd cpu memory envs mounts tmo secs].
  intros [Hi Hs Hc He Hm]. unfold utf8s in Hs. cbn in Hi, Hs, Hc, He, Hm.
  unfold decode_spec, marshal_spec. destruct (fits_spec (mkJobSpec id repo conf img cmd cpu memory
    envs mounts tmo secs)) as [Hw Hh].
  rewrite (parse_first_print compact) by (done || unfold max_depth; lia). cbn [mbind option_bind].
  rewrite !Forall_cons in Hi. rewrite !Forall_cons in Hs. destruct_and? Hi. destruct_and? Hs.
  unfold enc_spec. cbn [dec_struct spec_ID spec_Repository spec_RunnerConfig spec_Image spec_Command
    spec_CPU spec_MemoryM spec_Environment spec_CacheMounts spec_TimeoutSeconds].
  rewrite <- (app_nil_r (mem_unless (secs =? 0) _ _)). unfold zeroSpec.
  do 7 (dec_step dec_scalar).
  erewrite dec_field; [|reflexivity|reflexivity| |].
  2: { intros _. cbn [snd]. unfold at_. cbv beta. change (spec_Environment _) with (∅ : gmap string string) at 1.
       rewrite dec_enc_string_map by done. cbn. reflexivity. }
  2: { intros ->%bool_decide_eq_true. reflexivity. }
  erewrite dec_field; [|reflexivity|reflexivity| |].
  2: { intros _. cbn [snd]. unfold at_. cbv beta. change (spec_CacheMounts _) with (@nil CacheMount) at 1.
       rewrite dec_enc_list; [cbn; reflexivity|]. eapply Forall_impl; [exact Hm|].
       intros m. apply dec_enc_mount. }
  2: { destruct mounts; [reflexivity|discriminate]. }
  dec_step dec_scalar. done.
Qed.

(** An instance with an UTF-8 identity arrives as it was sent, with or without
    the encoder's newline. *)
Lemma decode_encoded_instance i j rest :
  utf8s [inst_ID i; inst_Backend i; inst_NodeID i] -> delim rest ->
  enc_instance i = Some j -> decode_instance (print compact 0 j +:+ rest) = Some i.
Proof.
  destruct i as [id backend node dl]. unfold utf8s. cbn [inst_ID inst_Backend inst_NodeID].
  rewrite !Forall_cons. intros Hs Hd. destruct_and? Hs. unfold decode_instance, enc_instance.
  cbn [inst_Deadline]. destruct (enc_time dl) as [jdl|] eqn:Edl; [|done]. cbn [mbind option_bind].
  intros <-%(inj Some). cbn [inst_ID inst_Backend inst_NodeID].
  match goal with |- context [print compact 0 ?j] => assert (Hf : fits_in (1 + 0) j) by fits_struct end.
  destruct Hf as [Hw Hh].
  rewrite (parse_first_print_app compact) by (done || unfold max_depth; lia). cbn [mbind option_bind].
  cbn [dec_struct]. rewrite <- (app_nil_r (mem "deadline" jdl)). unfold zeroInstance.
  do 4 (dec_step dec_scalar). done.
Qed.

Lemma decode_marshal_instance i text :
  utf8s [inst_ID i; inst_Backend i; inst_NodeID i] ->
  marshal_instance i = Some text -> decode_instance text = Some i.
Proof.
  unfold marshal_instance. intros Hs. destruct (enc_instance i) as [j|] eqn:Ej; [|done].
  cbn [fmap option_fmap option_map]. intros <-%(inj Some).
  rewrite <- (sapp_nil_r (print compact 0 j)). by apply decode_encoded_instance.
Qed.
End messages.

(** ** What the decoders give is UTF-8 *)

Section keeps.
Context `{Unicode}.

(** A setter that keeps [P] whatever it reads. *)
Definition keeps {R} (P : R -> Prop) (set : R -> json -> option R) : Prop :=
  forall r v r', P r -> set r v = Some r' -> P r'.

(** A field that keeps what it says of itself, and one [P] does not look at. *)
Lemma keeps_at {R A} (P : R -> Prop) (Q : A -> Prop) dec (get : R -> A) set :
  (forall r, P r -> Q (get r)) -> (forall cur v x, Q cur -> dec cur v = Some x -> Q x) ->
  (forall r x, P r -> Q x -> P (set x r)) -> keeps P (at_ dec get set).
Proof.
  intros Hget Hdec Hset r v r' Hr. unfold at_. destruct (dec (get r) v) as [x|] eqn:E; [|done].
  intros [= <-]. eauto.
Qed.

Lemma keeps_other {R A} (P : R -> Prop) (dec : A -> json -> option A) get set :
  (forall r x, P r -> P (set x r)) -> keeps P (at_ dec get set).
Proof. intros Hset. apply keeps_at with (fun _ => True); auto. Qed.

Lemma find_field_in {R} (fields : list (Field (R := R))) k set :
  find_field fields k = Some set -> exists f, f ∈ fields /\ f.2 = set.
Proof.
  unfold find_field. set (o1 := List.find (fun f => String.eqb f.1 k) fields).
  set (o2 := List.find (fun f => EqualFold f.1 k) fields).
  destruct o1 as [f|] eqn:E1; [|destruct o2 as [f|] eqn:E2; [|done]]; intros [= <-]; exists f;
    (split; [|done]); apply list_elem_of_In; by eapply List.find_some.
Qed.

Lemma dec_members_keeps {R} (P : R -> Prop) (fields : list (Field (R := R))) strict :
  Forall (fun f => keeps P f.2) fields -> keeps P (dec_struct fields strict).
Proof.
  intros Hf r [| | | | |ms] r' Hr; cbn [dec_struct]; try done; [by intros [= <-]|].
  revert r Hr. induction ms as [|[k v] ms IH]; intros r Hr; cbn [dec_members]; [by intros [= <-]|].
  destruct (find_field fields (unquote k)) as [set|] eqn:Es; [|destruct strict; [done|by apply IH]].
  destruct (set r v) as [r1|] eqn:E1; [|done]. apply IH.
  rewrite Forall_forall in Hf.
  assert (Hk : keeps P set).
  { by destruct (find_field_in _ _ _ Es) as (f & Hin & <-); apply Hf. }
  by eapply Hk.
Qed.

Lemma dec_string_utf8 cur j s : utf8 cur = true -> dec_string cur j = Some s -> utf8 s = true.
Proof.
  intros Hc. destruct j; cbn; try done; [by intros [= <-]|]. intros [= <-]. apply utf8_unquote.
Qed.

Lemma dec_int_range cur j n : in_int64 cur -> dec_int cur j = Some n -> in_int64 n.
Proof.
  intros Hc. destruct j; cbn; try done; [by intros [= <-]|]. apply ParseInt_range.
Qed.

Lemma dec_strings_utf8 cur j l : utf8s cur -> dec_strings cur j = Some l -> utf8s l.
Proof.
  intros Hc. unfold dec_strings, dec_list. destruct j as [| | | |js|]; try done.
  { intros [= <-]. constructor. }
  revert cur l Hc. induction js as [|j js IH]; intros cur l Hc; cbn [dec_elems].
  { intros [= <-]. constructor. }
  destruct (dec_string _ j) as [x|] eqn:Ex; [|done].
  destruct (dec_elems _ _ _ js) as [xs|] eqn:Exs; [|done]. intros [= <-]. constructor.
  - eapply dec_string_utf8; [|exact Ex]. destruct Hc; [done|by cbn].
  - eapply IH; [|exact Exs]. destruct Hc; [constructor|by cbn].
Qed.
Lemma decode_node_utf8 text n : decode_node text = Some n -> utf8 (node_ID n) = true.
Proof.
  unfold decode_node. destruct (parse_first text) as [j|]; [|done]. cbn [mbind option_bind].
  apply (dec_members_keeps (fun n => utf8 (node_ID n) = true)); [|done].
  unfold Node_fields. forall_list; cbn [snd]; try by apply keeps_other.
  apply keeps_at with (fun s => utf8 s = true); try done. intros cur v s. apply dec_string_utf8.
Qed.
End keeps.
