(* ===== verification/Server.v ===== *)
(** * The controller's node registry: [internal/controller/server.go]

    State: the map of the last heartbeat of each node.  Operations: the
    handlers [heartbeat], [listNodes], [schedule], [health] and
    [snapshotNodes].  The registry invariant ([registry_ok]) is preserved by
    every handler; a client certificate can only update the entry of its own
    common name; the snapshot does not depend on the map iteration order; and
    a placement is only ever made on a node whose heartbeat is fresh. *)

From S2P Require Import Prelude GoTime Model Scheduler Http.
From stdpp Require Import base list sorting strings gmap.
From Stdlib Require Import ZArith Lia.
Open Scope string_scope.
Open Scope list_scope.
Open Scope Z_scope.

(** ** State and operations *)

Record Server : Type := mkServer {
  nodeTTL : Duration;
  nodes : gmap string Node;
}.

(** [New(log, nodeTTL...)]. *)
Definition New (ttls : list Duration) : Server :=
  mkServer
    (match ttls with
     | ttl :: _ => if 0 <? ttl then ttl else 45 * Second
     | [] => 45 * Second
     end) ∅.

Definition health : Response := writeJSON StatusOK (BFlag "ok").

(** [decoded] is the outcome of [dec.Decode(&n)], [now] of [time.Now()]. *)
Definition heartbeat (s : Server) (decoded : option Node) (tls : TLS) (now : Time)
  : Server * Response :=
  match decoded with
  | None => (s, writeJSON StatusBadRequest (BError "invalid node heartbeat"))
  | Some n =>
      if String.eqb (node_ID n) ""
      then (s, writeJSON StatusBadRequest (BError "invalid node heartbeat"))
      else
        let accept :=
          let n' := set_Online true (set_LastSeen now n) in
          (mkServer (nodeTTL s) (<[node_ID n' := n']> (nodes s)),
           writeJSON StatusAccepted (BNode n')) in
        match tls with
        | Some (peerCN :: _) =>
            if String.eqb peerCN "" || negb (String.eqb peerCN (node_ID n))
            then (s, writeJSON StatusForbidden
                       (BError "client certificate identity does not match node id"))
            else accept
        | _ => accept
        end
  end.

Definition online_at (s : Server) (now : Time) (n : Node) : bool :=
  negb (time_IsZero (node_LastSeen n)) && (time_Sub now (node_LastSeen n) <=? nodeTTL s).

Definition id_less (a b : Node) : bool := String.ltb (node_ID a) (node_ID b).

(** [picks] is the iteration order of the map. *)
Definition snapshotNodes (picks : list nat) (s : Server) (now : Time) : list Node :=
  sort_stable id_less
    (map (fun stored => set_Online (online_at s now stored) stored)
       (shuffle picks (map_to_list (nodes s)).*2)).

Definition listNodes (picks : list nat) (s : Server) (now : Time) : Response :=
  writeJSON StatusOK (BNodes (snapshotNodes picks s now)).

Definition schedule (picks : list nat) (s : Server) (decoded : option JobRequirements)
  (now : Time) : Response :=
  match decoded with
  | None => writeJSON StatusBadRequest (BError "invalid requirements")
  | Some req =>
      match Place req (snapshotNodes picks s now) with
      | Err err => writeJSON StatusServiceUnavailable (BErr err)
      | Ok placement => writeJSON StatusOK (BPlacement placement)
      end
  end.

(** The registry as a state machine: only heartbeats change it. *)
Inductive server_step : Server -> Server -> Prop :=
| step_heartbeat s decoded tls now :
    server_step s (heartbeat s decoded tls now).1.

Definition server_reachable (s : Server) : Prop :=
  exists ttls, rtc server_step (New ttls) s.

(** ** The registry invariant *)

Record registry_ok (s : Server) : Prop := {
  reg_keyed : forall id n, nodes s !! id = Some n -> node_ID n = id;
  reg_named : forall id n, nodes s !! id = Some n -> id <> "";
  reg_ttl : 0 < nodeTTL s;
}.

Lemma registry_ok_New ttls : registry_ok (New ttls).
Proof.
  split; cbn; intros; simplify_map_eq.
  destruct ttls as [|t ?]; [done|]. destruct (Z.ltb_spec 0 t); done.
Qed.

(** What [heartbeat] does, branch by branch: it is refused and changes
    nothing, or it stores the node under its own identifier. *)
Lemma heartbeat_cases s decoded tls now :
  (heartbeat s decoded tls now).1 = s /\
    status (heartbeat s decoded tls now).2 ∈ [StatusBadRequest; StatusForbidden]
  \/ exists n, decoded = Some n /\ node_ID n <> ""
     /\ (forall cn cns, tls = Some (cn :: cns) -> cn = node_ID n)
     /\ heartbeat s decoded tls now =
        (mkServer (nodeTTL s)
           (<[node_ID n := set_Online true (set_LastSeen now n)]> (nodes s)),
         writeJSON StatusAccepted (BNode (set_Online true (set_LastSeen now n)))).
Proof.
  unfold heartbeat. destruct decoded as [n|]; [|left; cbn; set_solver].
  destruct (String.eqb_spec (node_ID n) "") as [|Hid]; [left; cbn; set_solver|].
  destruct tls as [[|cn cns]|]; [right; naive_solver| |right; naive_solver].
  destruct (String.eqb_spec cn ""), (String.eqb_spec cn (node_ID n)); cbn;
    [left; set_solver| left; set_solver| | left; set_solver].
  right. naive_solver.
Qed.

Lemma registry_ok_step s s' : server_step s s' -> registry_ok s -> registry_ok s'.
Proof.
  intros [s0 decoded tls now] [Hk Hn Ht].
  destruct (heartbeat_cases s0 decoded tls now) as [[-> _]|(n & -> & Hid & _ & ->)]; [done|].
  split; cbn; [..|done]; intros id m Hm;
    apply lookup_insert_Some in Hm as [[<- <-]|[? Hm]]; naive_solver.
Qed.

(** ** The snapshot *)

Lemma ltb_leb s t : String.ltb s t = negb (String.leb t s).
Proof. unfold String.ltb, String.leb. rewrite Stdlib.Strings.String.compare_antisym. by destruct (t ?= s)%string. Qed.

#[export] Instance id_less_strict_weak : StrictWeak id_less.
Proof.
  assert (forall a b, id_less a b = false <-> String.le (node_ID b) (node_ID a)) as Hle.
  { intros a b. unfold id_less, String.le. rewrite ltb_leb. by destruct (String.leb _ _). }
  split.
  - intros x y Hxy. apply Hle. destruct (total String.le (node_ID x) (node_ID y)) as [?|H]; [done|].
    apply Hle in H. congruence.
  - intros x y z H1%Hle H2%Hle. apply Hle. by transitivity (node_ID y).
Qed.

(** With distinct identifiers, sorting has one result whatever the algorithm
    and the input order. *)
Lemma sort_by_id_unique l1 l2 :
  l1 ≡ₚ l2 ->
  (forall a b, a ∈ l1 -> b ∈ l1 -> node_ID a = node_ID b -> a = b) ->
  Sorted (fun a b => id_less b a = false) l1 ->
  Sorted (fun a b => id_less b a = false) l2 -> l1 = l2.
Proof.
  intros Hp Hinj H1 H2.
  apply (Sorted_unique_strong (fun a b => id_less b a = false)); try done.
  intros a b Ha Hb Hab Hba. apply Hinj; [done|by rewrite Hp|].
  unfold id_less in *. rewrite ltb_leb, negb_false_iff in Hab, Hba.
  by apply String.leb_antisym.
Qed.

Lemma elem_of_stored (s : Server) n :
  n ∈ (map_to_list (nodes s)).*2 <-> exists id, nodes s !! id = Some n.
Proof.
  rewrite list_elem_of_fmap. setoid_rewrite surjective_pairing at 2.
  split.
  - intros ([id m] & -> & Hm%elem_of_map_to_list). eauto.
  - intros (id & Hid). exists (id, n). by rewrite elem_of_map_to_list.
Qed.

Lemma elem_of_snapshot picks s now n :
  n ∈ snapshotNodes picks s now <->
  exists id m, nodes s !! id = Some m /\ n = set_Online (online_at s now m) m.
Proof.
  unfold snapshotNodes. rewrite sort_stable_perm, list_elem_of_fmap.
  setoid_rewrite elem_of_shuffle. setoid_rewrite elem_of_stored. naive_solver.
Qed.

Lemma snapshot_ids_distinct picks s now a b :
  registry_ok s ->
  a ∈ snapshotNodes picks s now -> b ∈ snapshotNodes picks s now ->
  node_ID a = node_ID b -> a = b.
Proof.
  intros [Hk _ _] (i & m & Hm & ->)%elem_of_snapshot (j & m' & Hm' & ->)%elem_of_snapshot.
  cbn. rewrite (Hk _ _ Hm), (Hk _ _ Hm'). intros ->. congruence.
Qed.

Lemma snapshot_perm picks picks' s now :
  snapshotNodes picks s now ≡ₚ snapshotNodes picks' s now.
Proof. unfold snapshotNodes. by rewrite !sort_stable_perm, !shuffle_perm. Qed.

Lemma snapshot_NoDup_ids picks s now :
  registry_ok s -> NoDup (map node_ID (snapshotNodes picks s now)).
Proof.
  intros Hok. unfold snapshotNodes. rewrite sort_stable_perm, shuffle_perm.
  replace (map node_ID _) with (map_to_list (nodes s)).*1; [apply NoDup_fst_map_to_list|].
  rewrite List.map_map. cbn. rewrite <- list_fmap_compose.
  apply list_fmap_ext. intros i [id n] Hi. cbn. symmetry. apply (reg_keyed _ Hok).
  apply elem_of_map_to_list, list_elem_of_lookup. eauto.
Qed.

Lemma strictly_sorted l :
  StronglySorted (fun a b => id_less b a = false) l -> NoDup (map node_ID l) ->
  StronglySorted (fun a b => String.ltb (node_ID a) (node_ID b) = true) l.
Proof.
  induction 1 as [|a l Hl IH Ha]; cbn; [constructor|].
  intros [Hn Hd]%NoDup_cons. constructor; [by apply IH|].
  rewrite Forall_forall in *. intros b Hb. specialize (Ha b Hb).
  destruct (String.ltb (node_ID a) (node_ID b)) eqn:E; [done|]. destruct Hn.
  unfold id_less in Ha. rewrite ltb_leb, negb_false_iff in Ha, E.
  rewrite (String.leb_antisym (node_ID a) (node_ID b)) by done.
  apply list_elem_of_fmap. eauto.
Qed.

(** ** Theorems *)

(** In every state the registry can reach by heartbeats, a node is stored
    under its own non-empty identifier and the liveness TTL is positive. *)
Theorem registry_invariant s : server_reachable s -> registry_ok s.
Proof.
  intros (ttls & Hs). revert s Hs.
  apply rtc_ind_r; eauto using registry_ok_New, registry_ok_step.
Qed.

(** Certificate identity binding: over mTLS, a heartbeat presented with the
    leaf certificate of common name [cn] never changes the entry of any other
    node, whatever node its body claims to be. *)
Theorem heartbeat_identity s decoded cn cns now id :
  id <> cn ->
  nodes (heartbeat s decoded (Some (cn :: cns)) now).1 !! id = nodes s !! id.
Proof.
  intros Hid.
  destruct (heartbeat_cases s decoded (Some (cn :: cns)) now)
    as [[-> _]|(n & -> & _ & Hcn & ->)]; [done|].
  rewrite <- (Hcn cn cns) by done. cbn. by rewrite lookup_insert_ne.
Qed.

(** C39. [snapshotNodes] returns, for every map iteration order, the same list:
    each registered node once, in strictly increasing identifier order, marked
    online exactly when its last heartbeat is set and not older than the TTL. *)
Theorem snapshotNodes_correct picks picks' s now :
  registry_ok s ->
  snapshotNodes picks s now = snapshotNodes picks' s now
  /\ StronglySorted (fun a b => String.ltb (node_ID a) (node_ID b) = true)
       (snapshotNodes picks s now)
  /\ forall n, n ∈ snapshotNodes picks s now <->
     exists m, nodes s !! node_ID n = Some m
       /\ n = set_Online (negb (time_IsZero (node_LastSeen m))
                          && (time_Sub now (node_LastSeen m) <=? nodeTTL s)) m.
Proof.
  intros Hok. split_and!.
  - apply sort_by_id_unique; [apply snapshot_perm| |apply sort_stable_sorted..].
    all: try apply _. intros a b. by apply snapshot_ids_distinct.
  - apply strictly_sorted; [|by apply snapshot_NoDup_ids].
    apply Sorted_StronglySorted, sort_stable_sorted; apply _.
  - intros n. rewrite elem_of_snapshot. split.
    + intros (id & m & Hm & ->). exists m. cbn. by rewrite (reg_keyed _ Hok _ _ Hm).
    + intros (m & Hm & ->). eauto.
Qed.

(** The scheduling endpoint only offers live nodes: a successful answer
    names a registered node whose last heartbeat is within the TTL, which has
    the requested OS and architecture and the free CPU and memory asked for. *)
Theorem schedule_live picks s req now p :
  registry_ok s ->
  schedule picks s (Some req) now = writeJSON StatusOK (BPlacement p) ->
  exists n, nodes s !! NodeID p = Some n
    /\ node_LastSeen n <> zeroTime /\ time_Sub now (node_LastSeen n) <= nodeTTL s
    /\ node_OS n = req_OS req /\ node_Arch n = req_Arch req
    /\ (0 < req_CPU req -> req_CPU req <= FreeCPU (node_Capacity n))
    /\ (0 < req_MemoryM req -> req_MemoryM req <= FreeMemoryM (node_Capacity n)).
Proof.
  intros Hok H. unfold schedule in H.
  destruct (Place req _) as [q|e] eqn:E; [|done]. injection H as ->.
  apply Place_suitable in E as (m & (id & n & Hn & ->)%elem_of_snapshot & Hs & Hid & _).
  exists n. cbn in Hid. rewrite Hid, (reg_keyed _ Hok _ _ Hn).
  destruct Hs; cbn in *. unfold online_at, time_IsZero in suit_online.
  split_and!; try done; lia.
Qed.

(** ** Witnesses *)

Definition e5 : Node :=
  mkNode "e5" "https://e5:8090" OSLinux ArchAMD64 [BackendDocker] ["container"; "docker"] []
    (mkCapacity 12 12 32768 30000 0) false zeroTime.

Definition pi : Node :=
  mkNode "pi" "https://pi:8090" OSLinux ArchARM64 [BackendDocker] ["container"] []
    (mkCapacity 4 4 8192 6000 0) false zeroTime.

Definition fleet_at (t : Time) : Server :=
  (heartbeat (heartbeat (New []) (Some e5) (Some ["e5"]) t).1 (Some pi) (Some ["pi"]) t).1.

Definition linux_job : JobRequirements :=
  mkJobRequirements "owner/repo" OSLinux ArchAMD64 IsolationContainer ["docker"] 2 4096.

Lemma fleet_reachable t : server_reachable (fleet_at t).
Proof.
  exists []. eapply rtc_l; [constructor|]. eapply rtc_l; [|apply rtc_refl]. constructor.
Qed.

Lemma fleet_ok t : registry_ok (fleet_at t).
Proof. do 2 (eapply registry_ok_step; [constructor|]). apply registry_ok_New. Qed.

Lemma registry_invariant_witness : registry_ok (fleet_at Hour).
Proof. exact (registry_invariant (fleet_at Hour) (fleet_reachable Hour)). Defined.

Lemma heartbeat_identity_witness :
  nodes (heartbeat (fleet_at Hour) (Some e5) (Some ["pi"]) (2 * Hour)).1 !! "e5"
  = nodes (fleet_at Hour) !! "e5".
Proof. apply (heartbeat_identity (fleet_at Hour) (Some e5) "pi" [] (2 * Hour) "e5"). done. Defined.

Lemma snapshotNodes_correct_witness :
  snapshotNodes [1%nat] (fleet_at Hour) Hour = snapshotNodes [] (fleet_at Hour) Hour.
Proof.
  apply (snapshotNodes_correct [1%nat] [] (fleet_at Hour) Hour).
  apply fleet_ok.
Defined.

Lemma schedule_live_witness :
  exists n, nodes (fleet_at Hour) !! "e5" = Some n /\ node_OS n = OSLinux.
Proof.
  destruct (schedule_live [] (fleet_at Hour) linux_job (Hour + 45 * Second)
              (mkPlacement "e5" BackendDocker)) as (n & Hn & _ & _ & Hos & _).
  - apply fleet_ok.
  - vm_compute. reflexivity.
  - exact (ex_intro _ n (conj Hn Hos)).
Defined.
