(* ===== verification/Env.v ===== *)
(** * The runner manager's environment, and the monad its code is written in

    The manager calls GitHub ([GitHubAPI]), the agents ([AgentClient]), the
    clock, the node registry, the file system, and iterates over maps.  Each
    of these calls is an [Event] of a history, newest first; what it answers
    is given by an environment [Env], a record of functions of the history.
    Quantifying over [Env] is quantifying over all behaviours of the outside
    world, failures and concurrent heartbeats included, and fixing an [Env]
    makes every operation executable.

    The file system is a function of the history ([fs_after]), so what a
    crash leaves on disk after any prefix of the calls is defined.

    [M] is the state monad over the in-memory job map and the history.  Only
    the goroutine of [Run] touches the job map, so the operations run one
    after the other; the mutex sections are plain state accesses here. *)

From S2P Require Import Prelude GoTime GoStrings Model Server Policy Jobs.
From stdpp Require Import base list strings gmap.
From Stdlib Require Import ZArith.
Open Scope string_scope.
Open Scope list_scope.
Open Scope Z_scope.

(** ** Events *)

Inductive Event : Type :=
| ENow (t : Time)
| EReadNodes (s : Server)                      (** the registry seen under its read lock *)
| ERange (picks : list nat)                    (** the iteration order of a [range] *)
| EGetWorkflowRun (installationID : Z) (owner repo : string) (runID : Z)
    (res : result WorkflowRun)
| EGenerateJITConfig (installationID : Z) (owner repo runnerName : string)
    (runnerGroupID : Z) (labels : list string) (res : result JITConfig)
| EDeleteRunner (installationID : Z) (owner repo : string) (runnerID : Z) (res : option error)
| ECreateInstance (node : Node) (spec : JobSpec) (res : result Instance_)
| EDestroyInstance (node : Node) (instanceID : string) (res : option error)
| EReadFile (path : string) (res : option error)   (** an I/O error other than not-exist *)
| EMkdirAll (path : string) (res : option error)
| EWriteFile (path data : string) (res : option (error * option string))
    (** a failed write may leave other content *)
| ERename (oldpath newpath : string) (res : option error).

Abbreviation History := (list Event).

(** The files, by path, after a history. *)
Fixpoint fs_after (fs0 : gmap string string) (h : History) : gmap string string :=
  match h with
  | [] => fs0
  | e :: h' =>
      let fs := fs_after fs0 h' in
      match e with
      | EWriteFile path data None => <[path := data]> fs
      | EWriteFile path _ (Some (_, Some partial)) => <[path := partial]> fs
      | ERename oldpath newpath None =>
          match fs !! oldpath with
          | Some data => <[newpath := data]> (delete oldpath fs)
          | None => fs
          end
      | _ => fs
      end
  end.

(** ** The environment *)

Record Env : Type := mkEnv {
  env_files : gmap string string;              (** the disk before the first event *)
  env_now : History -> Time;
  env_server : History -> Server;
  env_picks : History -> list nat;
  env_GetWorkflowRun : History -> Z -> string -> string -> Z -> result WorkflowRun;
  env_GenerateJITConfig :
    History -> Z -> string -> string -> string -> Z -> list string -> result JITConfig;
  env_DeleteRunner : History -> Z -> string -> string -> Z -> option error;
  env_CreateInstance : History -> Node -> JobSpec -> result Instance_;
  env_DestroyInstance : History -> Node -> string -> option error;
  env_ReadFile : History -> string -> option error;
  env_MkdirAll : History -> string -> option error;
  env_WriteFile : History -> string -> string -> option (error * option string);
  env_Rename : History -> string -> string -> option error;
}.

(** ** The monad *)

Record St : Type := mkSt {
  jobs : gmap Z JobRecord;
  hist : History;
}.

Definition M (A : Type) : Type := St -> A * St.

#[export] Instance M_ret : MRet M := fun A a st => (a, st).
#[export] Instance M_bind : MBind M := fun A B k m st => let '(a, st') := m st in k a st'.

Definition get_jobs : M (gmap Z JobRecord) := fun st => (jobs st, st).
Definition get_hist : M History := fun st => (hist st, st).
Definition put_jobs (js : gmap Z JobRecord) : M unit := fun st => (tt, mkSt js (hist st)).

(** A call: the environment answers from the history, which records it. *)
Definition call {A} (answer : History -> A) (ev : A -> Event) : M A :=
  fun st => let a := answer (hist st) in (a, mkSt (jobs st) (ev a :: hist st)).

Section calls.
Context (env : Env).

Definition time_Now : M Time := call (env_now env) ENow.
Definition read_nodes : M Server := call (env_server env) EReadNodes.
Definition range_order : M (list nat) := call (env_picks env) ERange.
Definition GetWorkflowRun (i : Z) (o r : string) (run : Z) : M (result WorkflowRun) :=
  call (fun h => env_GetWorkflowRun env h i o r run) (EGetWorkflowRun i o r run).
Definition GenerateJITConfig (i : Z) (o r n : string) (g : Z) (ls : list string)
  : M (result JITConfig) :=
  call (fun h => env_GenerateJITConfig env h i o r n g ls) (EGenerateJITConfig i o r n g ls).
Definition DeleteRunner (i : Z) (o r : string) (rid : Z) : M (option error) :=
  call (fun h => env_DeleteRunner env h i o r rid) (EDeleteRunner i o r rid).
Definition CreateInstance (n : Node) (s : JobSpec) : M (result Instance_) :=
  call (fun h => env_CreateInstance env h n s) (ECreateInstance n s).
Definition DestroyInstance (n : Node) (id : string) : M (option error) :=
  call (fun h => env_DestroyInstance env h n id) (EDestroyInstance n id).
Definition os_MkdirAll (p : string) : M (option error) :=
  call (fun h => env_MkdirAll env h p) (EMkdirAll p).
Definition os_WriteFile (p d : string) : M (option (error * option string)) :=
  call (fun h => env_WriteFile env h p d) (EWriteFile p d).
Definition os_Rename (p q : string) : M (option error) :=
  call (fun h => env_Rename env h p q) (ERename p q).

(** [os.ReadFile]: an I/O error, or the content if the file exists. *)
Definition os_ReadFile (p : string) : M (result (option string)) :=
  e ← call (fun h => env_ReadFile env h p) (EReadFile p);
  h ← get_hist;
  mret (match e with
        | Some e => Err e
        | None => Ok (fs_after (env_files env) h !! p)
        end).
End calls.

(** ** Weakest preconditions *)

Definition wp {A} (m : M A) (Q : A -> St -> Prop) (st : St) : Prop := Q (m st).1 (m st).2.

Lemma wp_bind {A B} (m : M A) (k : A -> M B) Q st :
  wp m (fun a => wp (k a) Q) st -> wp (m ≫= k) Q st.
Proof. unfold wp, mbind, M_bind. by destruct (m st). Qed.

Lemma wp_ret {A} (a : A) Q st : Q a st -> wp (mret a) Q st.
Proof. done. Qed.

Lemma wp_get_jobs Q st : Q (jobs st) st -> wp get_jobs Q st.
Proof. done. Qed.

Lemma wp_get_hist Q st : Q (hist st) st -> wp get_hist Q st.
Proof. done. Qed.

Lemma wp_put_jobs js Q st : Q tt (mkSt js (hist st)) -> wp (put_jobs js) Q st.
Proof. done. Qed.

Lemma wp_call {A} (answer : History -> A) ev Q st :
  (forall a, a = answer (hist st) -> Q a (mkSt (jobs st) (ev a :: hist st))) ->
  wp (call answer ev) Q st.
Proof. intros H. by apply H. Qed.

Lemma wp_mono {A} (m : M A) (P Q : A -> St -> Prop) st :
  wp m P st -> (forall a st', P a st' -> Q a st') -> wp m Q st.
Proof. unfold wp. eauto. Qed.

Lemma wp_elim {A} (m : M A) Q st : wp m Q st -> Q (m st).1 (m st).2.
Proof. done. Qed.

Lemma wp_let {A} (m : M A) Q st : wp m Q st -> let '(a, st') := m st in Q a st'.
Proof. unfold wp. by destruct (m st). Qed.
