(* ===== verification/Manager.v ===== *)
(** * The runner manager: [github_state.go], [github_provision.go],
      [github_lifecycle.go] and [github_jobs.go] of [internal/controller]

    The operations, each translated with all its branches, in the monad of
    [Env.v].  [m.log] calls have no effect on the state and are left out. *)

From S2P Require Import Prelude GoTime GoStrings Model Scheduler Server Policy Jobs Wire Env.
From stdpp Require Import base list strings gmap.
From Stdlib Require Import ZArith.
Open Scope string_scope.
Open Scope list_scope.
Open Scope Z_scope.

Section manager.
Context `{Unicode} (cfg : RunnerManagerConfig) (env : Env).

(** ** [github_state.go] *)

Definition tmp_file : string := StateFile cfg +:+ ".tmp".

Definition saveLocked : M (option error) :=
  if String.eqb (StateFile cfg) "" then mret None else
  err ← os_MkdirAll env (filepath_Dir (StateFile cfg));
  match err with
  | Some e => mret (Some (ErrWrap "create controller state directory" e))
  | None =>
      js ← get_jobs;
      match marshalState js with
      | Err e => mret (Some e)
      | Ok data =>
          err ← os_WriteFile env tmp_file data;
          match err with
          | Some (e, _) => mret (Some (ErrWrap "write controller state" e))
          | None =>
              err ← os_Rename env tmp_file (StateFile cfg);
              match err with
              | Some e => mret (Some (ErrWrap "replace controller state" e))
              | None => mret None
              end
          end
      end
  end.

Definition loadState : M (option error) :=
  if String.eqb (StateFile cfg) "" then mret None else
  res ← os_ReadFile env (StateFile cfg);
  match res with
  | Err e => mret (Some (ErrWrap "read controller state" e))
  | Ok None => mret None
  | Ok (Some data) =>
      match unmarshalState data with
      | Err e => mret (Some (ErrWrap "decode controller state" e))
      | Ok None => mret None
      | Ok (Some js) => put_jobs js;; mret None
      end
  end.

(** ** Access to the job map *)

Definition get_job (id : Z) : M (option JobRecord) :=
  js ← get_jobs; mret (js !! id).

(** [current := m.jobs[id]; current.F = ...; m.jobs[id] = current;
    err := m.saveLocked()], with Go's zero value for a missing key. *)
Definition update_job (id : Z) (f : JobRecord -> JobRecord) : M (option error) :=
  js ← get_jobs;
  put_jobs (<[id := f (default zeroJobRecord (js !! id))]> js);;
  saveLocked.

(** The same with [UpdatedAt = time.Now().UTC()] read in between. *)
Definition update_job_now (id : Z) (f : Time -> JobRecord -> JobRecord) : M (option error) :=
  now ← time_Now env;
  update_job id (f now).

(** ** Placement ([github_lifecycle.go]) *)

Definition reserves (r : JobRecord) : bool :=
  negb (String.eqb (rec_NodeID r) ""
        || (negb (String.eqb (rec_Status r) jobProvisioning)
            && negb (String.eqb (rec_Status r) jobRunning)
            && negb (String.eqb (rec_Status r) jobCleanupPending))).

(** The body of the loop of [reservations]. *)
Definition add_reservation (out : gmap string Capacity) (r : JobRecord)
  : gmap string Capacity :=
  if reserves r then
    let c := default zeroCapacity (out !! rec_NodeID r) in
    <[rec_NodeID r :=
        mkCapacity (TotalCPU c +w rec_CPU r) (FreeCPU c) (TotalMemoryM c +w rec_MemoryM r)
          (FreeMemoryM c) (RunningJobs c +w 1)]> out
  else out.

Definition reservations : M (gmap string Capacity) :=
  picks ← range_order env;
  js ← get_jobs;
  mret (fold_left add_reservation (shuffle picks (map_to_list js).*2) ∅).

(** The body of the loop of [place]. *)
Definition reserve_capacity (rs : gmap string Capacity) (n : Node) : Node :=
  let r := default zeroCapacity (rs !! node_ID n) in
  let c := node_Capacity n in
  set_Capacity
    (mkCapacity (TotalCPU c)
       (if 0 <? TotalCPU c
        then minInt (FreeCPU c) (maxInt 0 (TotalCPU c -w TotalCPU r)) else FreeCPU c)
       (TotalMemoryM c)
       (if 0 <? TotalMemoryM c
        then minInt (FreeMemoryM c) (maxInt 0 (TotalMemoryM c -w TotalMemoryM r))
        else FreeMemoryM c)
       (maxInt (RunningJobs c) (RunningJobs r))) n.

Definition place (req : JobRequirements) : M (result (Placement * Node)) :=
  now ← time_Now env;
  srv ← read_nodes env;
  picks ← range_order env;
  rs ← reservations;
  let nodes := map (reserve_capacity rs) (snapshotNodes picks srv now) in
  match Place req nodes with
  | Err e => mret (Err e)
  | Ok p =>
      match List.find (fun n => String.eqb (node_ID n) (NodeID p)) nodes with
      | Some n => mret (Ok (p, n))
      | None => mret (Err ErrNoPlacement)
      end
  end.

Definition rawNode (id : string) : M (option Node) :=
  srv ← read_nodes env;
  mret (nodes srv !! id).

Definition nodeFromRunnerName (name : string) (jobID : Z) : M (option Node) :=
  if String.eqb name "" then mret None else
  srv ← read_nodes env;
  picks ← range_order env;
  let suffix := "-" +:+ FormatInt jobID in
  mret (List.find
          (fun n => HasPrefix name ("cifleet-" +:+ safeName (node_ID n) +:+ "-")
                    && Contains name suffix)
          (shuffle picks (map_to_list (nodes srv)).*2)).

(** ** [github_provision.go] *)

Definition job_spec (jobID : Z) (r : JobRecord) (jit : JITConfig) : JobSpec :=
  mkJobSpec (containerJobID jobID) (rec_Repository r) "" (RunnerImage cfg)
    ["/home/runner/run.sh"] (rec_CPU r) (rec_MemoryM r)
    (<["ACTIONS_RUNNER_INPUT_JITCONFIG" := jit_EncodedConfig jit]>
       (<["ACTIONS_RUNNER_PRINT_LOG_TO_STDOUT" := "1"]> ∅))
    [] 0 (duration_seconds (RunnerTimeout cfg)).

(** From the instance request on. *)
Definition launch (jobID : Z) (node : Node) (r : JobRecord) (jit : JITConfig)
  : M (option error) :=
  res ← CreateInstance env node (job_spec jobID r jit);
  match res with
  | Err e =>
      _ ← DestroyInstance env node (containerName jobID);
      _ ← DeleteRunner env (rec_InstallationID r) (rec_Owner r) (rec_Repo r) (jit_RunnerID jit);
      saveErr ← update_job_now jobID (fun now c => set_pending c now);
      match saveErr with
      | Some se => mret (Some se)
      | None => mret (Some (ErrWrap "create runner instance" e))
      end
  | Ok inst =>
      update_job_now jobID (fun now c => set_running c (inst_ID inst) (inst_Deadline inst) now)
  end.

(** From the JIT configuration on: [r] is the record read before, [node] the
    placement. *)
Definition start_runner (jobID : Z) (node : Node) : M (option error) :=
  js ← get_jobs;
  let r := default zeroJobRecord (js !! jobID) in
  let attempt := rec_Attempt r +w 1 in
  let name := runnerName (node_ID node) jobID attempt in
  res ← GenerateJITConfig env (rec_InstallationID r) (rec_Owner r) (rec_Repo r) name
          (RunnerGroupID cfg) (rec_Labels r);
  match res with
  | Err e => mret (Some (ErrWrap "generate JIT runner config" e))
  | Ok jit =>
      now ← time_Now env;
      let provision c :=
        set_provisioning c (node_ID node) name (jit_RunnerID jit) attempt
          (time_Add now (RunnerTimeout cfg)) now in
      js ← get_jobs;
      let r := provision (default zeroJobRecord (js !! jobID)) in
      saveErr ← update_job jobID provision;
      match saveErr with
      | Some se =>
          _ ← DeleteRunner env (rec_InstallationID r) (rec_Owner r) (rec_Repo r)
                (jit_RunnerID jit);
          mret (Some se)
      | None => launch jobID node r jit
      end
  end.

Definition tryProvision (jobID : Z) : M (option error) :=
  found ← get_job jobID;
  match found with
  | None => mret None
  | Some record =>
      if negb (String.eqb (rec_Status record) jobPending) then mret None else
      res ← GetWorkflowRun env (rec_InstallationID record) (rec_Owner record)
              (rec_Repo record) (rec_RunID record);
      match res with
      | Err e => mret (Some (ErrWrap "get workflow run trust context" e))
      | Ok run =>
          if negb (trustedWorkflowRun run (rec_Repository record)).1
          then update_job_now jobID (fun now c => set_status c jobRejected now)
          else
            picks ← range_order env;
            match requirementsFromLabels picks (rec_Repository record) (rec_Labels record)
                    (rec_CPU record) (rec_MemoryM record) with
            | Err e =>
                saveErr ← update_job_now jobID (fun now c => set_status c jobRejected now);
                match saveErr with
                | Some se => mret (Some se)
                | None => mret (Some e)
                end
            | Ok req =>
                placed ← place req;
                match placed with
                | Err e => if is_ErrNoPlacement e then mret None else mret (Some e)
                | Ok (p, node) =>
                    if negb (String.eqb (Backend p) BackendDocker)
                    then mret (Some (ErrFmt
                           "runner launcher for backend %q is not implemented in M2" [Backend p]))
                    else start_runner jobID node
                end
            end
      end
  end.

(** ** [github_lifecycle.go] *)

(** The teardown of [handleCompleted] and [cleanupRecord]: destroy the
    instance on a known node, by its identifier or by name. *)
Definition destroy_recorded (r : JobRecord) (jobID : Z) : M (option error) :=
  if String.eqb (rec_NodeID r) "" then mret None else
  node ← rawNode (rec_NodeID r);
  match node with
  | None => mret None
  | Some n =>
      DestroyInstance env n
        (if String.eqb (rec_InstanceID r) "" then containerName jobID else rec_InstanceID r)
  end.

Definition delete_recorded (r : JobRecord) : M unit :=
  if 0 <? rec_RunnerID r then
    _ ← DeleteRunner env (rec_InstallationID r) (rec_Owner r) (rec_Repo r) (rec_RunnerID r);
    mret tt
  else mret tt.

Definition handleCompleted (event : WorkflowJobEvent) : M (option error) :=
  let jobID := job_ID (ev_Job event) in
  if jobID <=? 0 then mret None else
  found ← get_job jobID;
  match found with
  | None =>
      node ← nodeFromRunnerName (job_RunnerName (ev_Job event)) jobID;
      _ ← match node with
          | Some n => DestroyInstance env n (containerName jobID)
          | None => mret None
          end;
      now ← time_Now env;
      update_job jobID (fun _ =>
        mkJobRecord jobID (job_RunID (ev_Job event)) (ev_InstallationID event)
          (repo_FullName (ev_Repository event)) "" "" [] jobCompleted "" "" "" 0 0 0 0
          zeroTime now)
  | Some record =>
      if String.eqb (rec_Status record) jobCompleted then mret None else
      err ← destroy_recorded record jobID;
      match err with
      | Some e =>
          saveErr ← update_job_now jobID (fun now c => set_status c jobCleanupPending now);
          match saveErr with
          | Some se => mret (Some se)
          | None => mret (Some e)
          end
      | None =>
          delete_recorded record;;
          update_job_now jobID (fun now c => set_completed c now)
      end
  end.

Definition cleanupRecord (record : JobRecord) : M (option error) :=
  err ← destroy_recorded record (rec_JobID record);
  match err with
  | Some e => mret (Some e)
  | None =>
      delete_recorded record;;
      update_job_now (rec_JobID record) (fun now c => set_completed c now)
  end.

Definition recoverProvisioning (record : JobRecord) : M (option error) :=
  let jobID := rec_JobID record in
  _ ← (if String.eqb (rec_NodeID record) "" then mret None else
       node ← rawNode (rec_NodeID record);
       match node with
       | None => mret None
       | Some n => DestroyInstance env n (containerName jobID)
       end);
  delete_recorded record;;
  current ← get_job jobID;
  match current with
  | None => mret None
  | Some c =>
      if negb (String.eqb (rec_Status c) jobProvisioning) then mret None else
      err ← update_job_now jobID (fun now c => set_pending c now);
      match err with
      | Some e => mret (Some e)
      | None => tryProvision jobID
      end
  end.

(** [reconcile] runs in two phases: expired tombstones are pruned, then the
    remaining jobs are visited in the order of the first iteration. *)
Definition expired (now : Time) (r : JobRecord) : bool :=
  (String.eqb (rec_Status r) jobCompleted || String.eqb (rec_Status r) jobRejected)
  && (TombstoneTTL cfg <? time_Sub now (rec_UpdatedAt r)).

Definition prune (now : Time) : M (list Z) :=
  picks ← range_order env;
  js ← get_jobs;
  let entries := shuffle picks (map_to_list js) in
  let old := filter (fun e => expired now e.2) entries in
  put_jobs (fold_left (fun js e => delete e.1 js) old js);;
  _ ← (match old with [] => mret None | _ => saveLocked end);
  mret (filter (fun e => expired now e.2 = false) entries).*1.

Definition reconcile_job (now : Time) (id : Z) : M (option error) :=
  found ← get_job id;
  match found with
  | None => mret None
  | Some record =>
      if String.eqb (rec_Status record) jobPending then tryProvision id
      else if String.eqb (rec_Status record) jobProvisioning then recoverProvisioning record
      else if String.eqb (rec_Status record) jobCleanupPending then cleanupRecord record
      else if String.eqb (rec_Status record) jobRunning then
        if negb (time_IsZero (rec_Deadline record))
           && time_After now (time_Add (rec_Deadline record) (2 * Minute))
        then cleanupRecord record else mret None
      else mret None
  end.

Fixpoint reconcile_jobs (now : Time) (ids : list Z) : M unit :=
  match ids with
  | [] => mret tt
  | id :: ids' => _ ← reconcile_job now id; reconcile_jobs now ids'
  end.

Definition reconcile (now : Time) : M unit :=
  ids ← prune now;
  reconcile_jobs now ids.

(** ** [github_jobs.go] *)

Definition new_record (event : WorkflowJobEvent) (owner repo : string) (now : Time)
  : JobRecord :=
  mkJobRecord (job_ID (ev_Job event)) (job_RunID (ev_Job event)) (ev_InstallationID event)
    (repo_FullName (ev_Repository event)) owner repo (job_Labels (ev_Job event)) jobPending
    "" "" "" 0 (RunnerCPU cfg) (RunnerMemoryM cfg) 0 zeroTime now.

Definition handleQueued (event : WorkflowJobEvent) : M (option error) :=
  let jobID := job_ID (ev_Job event) in
  if (jobID <=? 0) || (job_RunID (ev_Job event) <=? 0) || (ev_InstallationID event <=? 0)
  then mret (Some (ErrMsg "workflow job event is missing job, run or installation id"))
  else if negb (hasLabel (job_Labels (ev_Job event)) (MarkerLabel cfg)) then mret None
  else match repoParts (ev_Repository event) with
  | Err e => mret (Some e)
  | Ok (owner, repo) =>
      found ← get_job jobID;
      match found with
      | Some _ => mret None
      | None =>
          now ← time_Now env;
          err ← update_job jobID (fun _ => new_record event owner repo now);
          match err with
          | Some e =>
              js ← get_jobs;
              put_jobs (delete jobID js);;
              mret (Some e)
          | None => tryProvision jobID
          end
      end
  end.

Definition Process (event : WorkflowJobEvent) : M (option error) :=
  if String.eqb (ev_Action event) "queued" then handleQueued event
  else if String.eqb (ev_Action event) "completed" then handleCompleted event
  else mret None.
End manager.
