(* ===== verification/Machine.v ===== *)
(** * The abstract job machine: what the runner manager promises

    The job map evolves by the transitions of [mstep]: each changes one
    record, and says when it may.  The machine knows nothing of GitHub, the
    agents or the disk.  By rule induction, every reachable map satisfies the
    record invariant ([record_ok]) and never reserves more CPU or memory on a
    node than the node has ([reserved_bounded]).  [Refinement.v] proves that
    the manager's code only ever takes these transitions. *)

From S2P Require Import Prelude GoTime GoStrings GoUtf8 Model Jobs Manager.
From stdpp Require Import base list strings gmap.
From Stdlib Require Import ZArith Lia.
Open Scope string_scope.
Open Scope list_scope.
Open Scope Z_scope.

(** ** Reservations *)

Definition weight (f : JobRecord -> Z) (node : string) (r : JobRecord) : Z :=
  if reserves r && String.eqb (rec_NodeID r) node then f r else 0.

(** The total of [f] over the records that reserve capacity on [node]. *)
Definition reserved (f : JobRecord -> Z) (js : gmap Z JobRecord) (node : string) : Z :=
  map_fold (fun _ r acc => weight f node r + acc) 0 js.

Lemma reserved_insert_new f js node id r :
  js !! id = None -> reserved f (<[id := r]> js) node = weight f node r + reserved f js node.
Proof.
  intros Hid. unfold reserved.
  rewrite (map_fold_insert_L (fun _ r acc => weight f node r + acc)); [done|intros; lia|done].
Qed.

Lemma reserved_split f js node id r :
  js !! id = Some r -> reserved f js node = weight f node r + reserved f (delete id js) node.
Proof.
  intros Hid. rewrite <- (insert_delete_id js id r) at 1 by done.
  apply reserved_insert_new, lookup_delete_eq.
Qed.

Lemma reserved_insert f js node id r r' :
  js !! id = Some r ->
  reserved f (<[id := r']> js) node = reserved f js node - weight f node r + weight f node r'.
Proof.
  intros Hid. rewrite (reserved_split f js node id r) by done.
  rewrite <- insert_delete_eq, reserved_insert_new by apply lookup_delete_eq. lia.
Qed.

Lemma reserved_delete f js node id r :
  js !! id = Some r -> reserved f (delete id js) node = reserved f js node - weight f node r.
Proof. intros Hid. rewrite (reserved_split f js node id r) by done. lia. Qed.

(** The code's loop over the records, in any order, computes [reserved] with
    wrap-around. *)
Definition total_of (f : JobRecord -> Z) (node : string) (l : list JobRecord) : Z :=
  foldr (fun r acc => weight f node r + acc) 0 l.

Lemma total_of_perm f node l l' : l ≡ₚ l' -> total_of f node l = total_of f node l'.
Proof.
  induction 1 as [|? ? ? _ IH|?? ?|??? _ IH1 _ IH2]; cbn; [done| |lia|by rewrite IH1].
  unfold total_of in *. lia.
Qed.

Lemma total_of_map f node js : total_of f node (map_to_list js).*2 = reserved f js node.
Proof.
  unfold reserved. rewrite map_fold_foldr. unfold total_of.
  induction (map_to_list js) as [|[i r] l IH]; cbn; [done|by rewrite IH].
Qed.

Section fold.
Context (proj : Capacity -> Z) (f : JobRecord -> Z).
Context (proj_zero : proj zeroCapacity = 0).
Context (proj_add : forall c r,
  proj (mkCapacity (TotalCPU c +w rec_CPU r) (FreeCPU c) (TotalMemoryM c +w rec_MemoryM r)
          (FreeMemoryM c) (RunningJobs c +w 1)) = wrap64 (proj c + f r)).

Lemma fold_reservations_acc node l out :
  in_int64 (proj (default zeroCapacity (out !! node))) ->
  proj (default zeroCapacity (fold_left add_reservation l out !! node))
  = wrap64 (proj (default zeroCapacity (out !! node)) + total_of f node l).
Proof.
  revert out. induction l as [|r l IH]; cbn [fold_left total_of foldr]; intros out Hout.
  { by rewrite Z.add_0_r, wrap64_id. }
  fold (total_of f node l). unfold add_reservation at 2, weight.
  destruct (reserves r); cbn [andb]; [|by rewrite IH].
  destruct (String.eqb_spec (rec_NodeID r) node) as [->|Hne].
  - rewrite IH; rewrite lookup_insert_eq; cbn [from_option id]; rewrite proj_add.
    + rewrite wrap64_add_l. f_equal. lia.
    + apply wrap64_range.
  - rewrite IH; rewrite lookup_insert_ne by done; done.
Qed.

Lemma fold_reservations picks (js : gmap Z JobRecord) node :
  proj (default zeroCapacity
          (fold_left add_reservation (shuffle picks (map_to_list js).*2) ∅ !! node))
  = wrap64 (reserved f js node).
Proof.
  rewrite fold_reservations_acc; rewrite lookup_empty; cbn; rewrite proj_zero.
  - f_equal. rewrite <- total_of_map. by apply total_of_perm, shuffle_perm.
  - unfold in_int64, int64_min, int64_max. lia.
Qed.
End fold.

(** ** The machine *)

(** The two resources a job reserves. *)
Inductive resource : Set := CPU | Memory.

Definition amount (res : resource) (r : JobRecord) : Z :=
  match res with CPU => rec_CPU r | Memory => rec_MemoryM r end.
Definition capacity_of (res : resource) (c : Capacity) : Z :=
  match res with CPU => TotalCPU c | Memory => TotalMemoryM c end.
Definition free_of (res : resource) (c : Capacity) : Z :=
  match res with CPU => FreeCPU c | Memory => FreeMemoryM c end.
Definition runner_size (cfg : RunnerManagerConfig) (res : resource) : Z :=
  match res with CPU => RunnerCPU cfg | Memory => RunnerMemoryM cfg end.

Section machine.
Context (cfg : RunnerManagerConfig).
(** The nodes that ever appear in the registry. *)
Context (seen : Node -> Prop).

Record new_job (id : Z) (r : JobRecord) : Prop := {
  new_id : rec_JobID r = id;
  new_pos : 0 < id;
  new_status : rec_Status r = jobPending;
  new_node : rec_NodeID r = "";
  new_instance : rec_InstanceID r = "";
  new_runner : rec_RunnerID r = 0;
  new_attempt : rec_Attempt r = 0;
  new_cpu : rec_CPU r = RunnerCPU cfg;
  new_memory : rec_MemoryM r = RunnerMemoryM cfg;
  new_storable : storable r;
}.

Record tombstone (id : Z) (r : JobRecord) : Prop := {
  tomb_id : rec_JobID r = id;
  tomb_pos : 0 < id;
  tomb_status : rec_Status r = jobCompleted;
  tomb_node : rec_NodeID r = "";
  tomb_instance : rec_InstanceID r = "";
  tomb_runner : rec_RunnerID r = 0;
  tomb_attempt : rec_Attempt r = 0;
  tomb_cpu : rec_CPU r = 0;
  tomb_memory : rec_MemoryM r = 0;
  tomb_storable : storable r;
}.

(** The job fits on the node: in what it reports as free, and, when it reports
    a total, beside what is already reserved there. *)
Definition fits (js : gmap Z JobRecord) (n : Node) (r : JobRecord) : Prop :=
  forall res, 0 < amount res r ->
    amount res r <= free_of res (node_Capacity n)
    /\ (0 < capacity_of res (node_Capacity n) ->
        amount res r
        <= capacity_of res (node_Capacity n) -w wrap64 (reserved (amount res) js (node_ID n))).

Inductive mstep (js : gmap Z JobRecord) : gmap Z JobRecord -> Prop :=
| m_enqueue id r :
    js !! id = None -> new_job id r -> mstep js (<[id := r]> js)
| m_unqueue id r :
    js !! id = Some r -> new_job id r -> mstep js (delete id js)
| m_tombstone id r :
    js !! id = None -> tombstone id r -> mstep js (<[id := r]> js)
| m_reject id r t :
    js !! id = Some r -> rec_Status r = jobPending ->
    mstep js (<[id := set_status r jobRejected t]> js)
| m_provision id r n name rid att dl t :
    js !! id = Some r -> rec_Status r = jobPending ->
    seen n -> node_ID n <> "" -> fits js n r -> att = rec_Attempt r +w 1 ->
    storable (set_provisioning r (node_ID n) name rid att dl t) ->
    mstep js (<[id := set_provisioning r (node_ID n) name rid att dl t]> js)
| m_run id r inst dl t :
    js !! id = Some r -> rec_Status r = jobProvisioning -> inst <> "" -> utf8 inst = true ->
    mstep js (<[id := set_running r inst dl t]> js)
| m_retry id r t :
    js !! id = Some r -> rec_Status r = jobProvisioning ->
    mstep js (<[id := set_pending r t]> js)
| m_complete id r t :
    js !! id = Some r -> rec_Status r <> jobCompleted ->
    mstep js (<[id := set_completed r t]> js)
| m_cleanup id r t :
    js !! id = Some r -> rec_Status r <> jobCompleted -> rec_NodeID r <> "" ->
    mstep js (<[id := set_status r jobCleanupPending t]> js)
| m_prune id r :
    js !! id = Some r -> rec_Status r = jobCompleted \/ rec_Status r = jobRejected ->
    mstep js (delete id js).

Definition reach (js : gmap Z JobRecord) : Prop := rtc mstep ∅ js.

(** A completed record is final: a transition leaves it as it is, or prunes it. *)
Lemma completed_final js js' id r :
  mstep js js' -> js !! id = Some r -> rec_Status r = jobCompleted ->
  js' !! id = Some r \/ js' = delete id js.
Proof.
  intros Hm Hid Hr.
  assert (Hother : forall i r', js !! i = None \/ (exists q, js !! i = Some q /\ rec_Status q <> jobCompleted)
            -> <[i := r']> js !! id = Some r).
  { intros i r' Hi. rewrite lookup_insert_ne; [done|]. intros ->. naive_solver. }
  destruct Hm as [i q Hi Hn|i q Hi Hn|i q Hi Hn|i q t Hi Hs|i q n name rid att dl t Hi Hs
                 |i q inst dl t Hi Hs|i q t Hi Hs|i q t Hi Hs|i q t Hi Hs|i q Hi Hs];
    try (left; apply Hother; first [by left|right; exists q; split; [done|by rewrite ?Hs]]).
  - left. rewrite lookup_delete_ne; [done|]. intros ->.
    destruct Hn as [_ _ Hs]. simplify_eq. by rewrite Hr in Hs.
  - destruct (decide (i = id)) as [->|Hne]; [by right|left]. by rewrite lookup_delete_ne.
Qed.

(** ** The record invariant *)

Inductive status_ok (r : JobRecord) : Prop :=
| ok_pending :
    rec_Status r = jobPending -> rec_NodeID r = "" -> rec_InstanceID r = "" ->
    rec_RunnerID r = 0 -> status_ok r
| ok_provisioning :
    rec_Status r = jobProvisioning -> rec_NodeID r <> "" -> rec_InstanceID r = "" -> status_ok r
| ok_running :
    rec_Status r = jobRunning -> rec_NodeID r <> "" -> rec_InstanceID r <> "" -> status_ok r
| ok_cleanup :
    rec_Status r = jobCleanupPending -> rec_NodeID r <> "" -> status_ok r
| ok_completed :
    rec_Status r = jobCompleted -> rec_InstanceID r = "" -> status_ok r
| ok_rejected :
    rec_Status r = jobRejected -> rec_NodeID r = "" -> rec_InstanceID r = "" ->
    rec_RunnerID r = 0 -> status_ok r.

Record record_ok (id : Z) (r : JobRecord) : Prop := {
  ro_id : rec_JobID r = id;
  ro_pos : 0 < id;
  ro_status : status_ok r;
  ro_size : rec_CPU r = RunnerCPU cfg /\ rec_MemoryM r = RunnerMemoryM cfg
            \/ rec_CPU r = 0 /\ rec_MemoryM r = 0 /\ rec_Status r = jobCompleted;
  ro_storable : storable r;
}.

Definition jobs_ok (js : gmap Z JobRecord) : Prop :=
  forall id r, js !! id = Some r -> record_ok id r.

Lemma jobs_ok_insert js id r : jobs_ok js -> record_ok id r -> jobs_ok (<[id := r]> js).
Proof.
  intros Hjs Hr i q Hq. apply lookup_insert_Some in Hq as [[<- <-]|[? Hq]]; eauto.
Qed.

Lemma jobs_ok_delete js id : jobs_ok js -> jobs_ok (delete id js).
Proof. intros Hjs i q Hq. apply lookup_delete_Some in Hq as [? Hq]. eauto. Qed.

(** A pending record has no node, no instance and no runner. *)
Lemma status_ok_pending r :
  status_ok r -> rec_Status r = jobPending ->
  rec_NodeID r = "" /\ rec_InstanceID r = "" /\ rec_RunnerID r = 0.
Proof. destruct 1; intros E; try done; status_clash. Qed.

Lemma mstep_jobs_ok js js' : mstep js js' -> jobs_ok js -> jobs_ok js'.
Proof.
  intros Hm Hjs. destruct Hm; try (apply jobs_ok_insert; [done|]); try by apply jobs_ok_delete.
  - destruct H0. split; [done..| | |done]; [by apply ok_pending|by left].
  - destruct H0. split; [done..| | |done]; [by apply ok_completed|by right].
  - destruct (Hjs id r H) as [? ? Hst Hsz Hsto].
    destruct (status_ok_pending r Hst H0) as (? & ? & ?).
    split; [done..| | |by apply storable_set_status]; [by apply ok_rejected|].
    destruct Hsz as [|(_&_&?)]; [by left|status_clash].
  - destruct (Hjs id r H) as [? ? Hst Hsz Hsto].
    destruct (status_ok_pending r Hst H0) as (? & ? & ?).
    split; [done..| | |done]; [by apply ok_provisioning|].
    destruct Hsz as [|(_&_&?)]; [by left|status_clash].
  - destruct (Hjs id r H) as [? ? Hst Hsz Hsto].
    split; [done..| | |by apply storable_set_running].
    + apply ok_running; [done| |done]. destruct Hst; try done; status_clash.
    + destruct Hsz as [|(_&_&?)]; [by left|status_clash].
  - destruct (Hjs id r H) as [? ? Hst Hsz Hsto].
    split; [done..| | |by apply storable_set_pending]; [by apply ok_pending|].
    destruct Hsz as [|(_&_&?)]; [by left|status_clash].
  - destruct (Hjs id r H) as [? ? Hst Hsz Hsto].
    split; [done..| | |by apply storable_set_completed]; [by apply ok_completed|].
    destruct Hsz as [|(?&?&?)]; [by left|by right].
  - destruct (Hjs id r H) as [? ? Hst Hsz Hsto].
    split; [done..| | |by apply storable_set_status]; [by apply ok_cleanup|].
    destruct Hsz as [|(_&_&?)]; [by left|status_clash].
Qed.

Lemma reach_jobs_ok js : reach js -> jobs_ok js.
Proof.
  unfold reach. revert js. apply rtc_ind_r; [by intros ? ? ?%lookup_empty_Some|].
  eauto using mstep_jobs_ok.
Qed.

(** What the machine reaches, the state file can hold. *)
Lemma reach_storable js : reach js -> all_storable js.
Proof.
  intros Hr%reach_jobs_ok id r Hid. destruct (Hr id r Hid) as [<- _ _ _ Hs]. split; [|done].
  by pose proof (sto_ints r Hs) as [? _]%Forall_cons.
Qed.

Lemma reach_trans js js' : reach js -> rtc mstep js js' -> reach js'.
Proof. unfold reach. by etrans. Qed.

(** ** Reservations never exceed a node's capacity

    [total] bounds what the nodes report.  A report without a total (of a
    failed probe, say) puts no limit on the reservations, so it must not offer
    room for a runner either. *)

Section capacity.
Context (res : resource) (total : string -> Z).
Context (total_range : forall node, 0 <= total node <= int64_max).
Context (total_seen : forall n, seen n ->
  capacity_of res (node_Capacity n) <= total (node_ID n)
  /\ (0 < capacity_of res (node_Capacity n) \/ free_of res (node_Capacity n) < runner_size cfg res)).
Context (size_pos : 0 < runner_size cfg res).

Definition bounded (js : gmap Z JobRecord) : Prop :=
  forall node, reserved (amount res) js node <= total node.

Lemma amount_nonneg id r : record_ok id r -> 0 <= amount res r.
Proof. intros [_ _ _ [[]|(?&?&_)]]; destruct res; cbn in *; lia. Qed.

Lemma weight_nonneg node id r : record_ok id r -> 0 <= weight (amount res) node r.
Proof.
  intros Hr%amount_nonneg. unfold weight. by destruct (_ && _).
Qed.

(** Records without a node, or finished, reserve nothing. *)
Lemma weight_no_node node r : rec_NodeID r = "" -> weight (amount res) node r = 0.
Proof. intros E. unfold weight, reserves. by rewrite E. Qed.

Lemma weight_inactive node r :
  rec_Status r = jobPending \/ rec_Status r = jobCompleted \/ rec_Status r = jobRejected ->
  weight (amount res) node r = 0.
Proof.
  unfold weight, reserves. intros [->|[->| ->]]; cbn; by rewrite orb_true_r.
Qed.

Lemma weight_active node r :
  rec_Status r = jobProvisioning \/ rec_Status r = jobRunning
  \/ rec_Status r = jobCleanupPending ->
  rec_NodeID r <> "" ->
  weight (amount res) node r = if String.eqb (rec_NodeID r) node then amount res r else 0.
Proof.
  unfold weight, reserves. intros Hs Hn. destruct (String.eqb_spec (rec_NodeID r) ""); [done|].
  by destruct Hs as [->|[->| ->]].
Qed.

Lemma reserved_nonneg js node : jobs_ok js -> 0 <= reserved (amount res) js node.
Proof.
  intros Hjs. rewrite <- total_of_map.
  assert (Forall (fun r => 0 <= weight (amount res) node r) (map_to_list js).*2) as HF.
  { apply Forall_fmap, Forall_forall. intros [id r] Hr%elem_of_map_to_list. cbn.
    by eapply weight_nonneg, Hjs. }
  induction HF as [|r l Hr _ IH]; cbn; [done|]. unfold total_of in IH. lia.
Qed.

(** Replacing a record by one that reserves no more keeps the bound. *)
Lemma bounded_replace js id r r' :
  bounded js -> js !! id = Some r ->
  (forall node, weight (amount res) node r' <= weight (amount res) node r) ->
  bounded (<[id := r']> js).
Proof.
  intros Hb Hid Hw node. specialize (Hb node). specialize (Hw node).
  rewrite (reserved_insert _ _ _ _ r) by done. lia.
Qed.

Lemma bounded_add js id r :
  bounded js -> js !! id = None -> (forall node, weight (amount res) node r = 0) ->
  bounded (<[id := r]> js).
Proof.
  intros Hb Hid Hw node. specialize (Hb node).
  rewrite reserved_insert_new by done. rewrite Hw. lia.
Qed.

Lemma bounded_delete js id r :
  jobs_ok js -> bounded js -> js !! id = Some r -> bounded (delete id js).
Proof.
  intros Hjs Hb Hid node. specialize (Hb node).
  rewrite (reserved_delete _ _ _ _ r) by done.
  pose proof (weight_nonneg node id r (Hjs _ _ Hid)). lia.
Qed.

Lemma bounded_provision js id r n name rid att dl t :
  jobs_ok js -> bounded js -> js !! id = Some r -> rec_Status r = jobPending ->
  seen n -> node_ID n <> "" -> fits js n r ->
  bounded (<[id := set_provisioning r (node_ID n) name rid att dl t]> js).
Proof.
  intros Hjs Hb Hid Hst Hseen Hn Hfits node.
  rewrite (reserved_insert _ _ _ _ r) by done.
  rewrite (weight_inactive _ r), weight_active by (auto; done).
  pose proof (Hb node) as Hbn. cbn [rec_NodeID set_provisioning].
  destruct (String.eqb_spec (node_ID n) node) as [<-|]; [|lia].
  assert (amount res (set_provisioning r (node_ID n) name rid att dl t) = amount res r) as ->
    by by destruct res.
  destruct (total_seen n Hseen) as [Hcap Hroom]. pose proof (Hjs _ _ Hid) as Hrok.
  assert (Hsize : amount res r = runner_size cfg res).
  { destruct (ro_size _ _ Hrok) as [[]|(_ & _ & ?)]; [by destruct res|status_clash]. }
  destruct (Hfits res) as [Hfree Hbound]; [lia|].
  destruct Hroom as [Hpos|]; [|lia]. specialize (Hbound Hpos).
  pose proof (reserved_nonneg js (node_ID n) Hjs). pose proof (total_range (node_ID n)).
  rewrite (wrap64_id (reserved _ _ _)) in Hbound
    by (unfold in_int64, int64_min, int64_max in *; lia).
  rewrite wrap64_id in Hbound by (unfold in_int64, int64_min, int64_max in *; lia). lia.
Qed.

Lemma mstep_bounded js js' : mstep js js' -> jobs_ok js -> bounded js -> bounded js'.
Proof.
  intros Hm Hjs Hb.
  assert (Hold : forall id r node, js !! id = Some r -> 0 <= weight (amount res) node r)
    by (intros; by eapply weight_nonneg, Hjs).
  destruct Hm as [id r Hid Hr|id r Hid _|id r Hid Hr|id r t Hid Hs
    |id r n name rid att dl t Hid Hs Hseen Hn Hfits _|id r inst dl t Hid Hs Hi
    |id r t Hid Hs|id r t Hid Hs|id r t Hid Hs Hn|id r Hid Hs].
  - destruct Hr. apply bounded_add; [done..|]. intros. apply weight_inactive. auto.
  - by eapply bounded_delete.
  - destruct Hr. apply bounded_add; [done..|]. intros. apply weight_inactive. auto.
  - eapply bounded_replace; [done..|]. intros node.
    rewrite (weight_inactive node (set_status r _ _)) by auto. eauto.
  - by apply bounded_provision.
  - eapply bounded_replace; [done..|]. intros node.
    destruct (ro_status _ _ (Hjs _ _ Hid)); try status_clash.
    rewrite !weight_active by auto. by destruct res.
  - eapply bounded_replace; [done..|]. intros node.
    rewrite (weight_inactive node (set_pending r t)) by auto. eauto.
  - eapply bounded_replace; [done..|]. intros node.
    rewrite (weight_inactive node (set_completed r t)) by auto. eauto.
  - eapply bounded_replace; [done..|]. intros node.
    destruct (ro_status _ _ (Hjs _ _ Hid)); try done;
      rewrite !weight_active by auto; by destruct res.
  - by eapply bounded_delete.
Qed.

Lemma reach_bounded js : reach js -> bounded js.
Proof.
  intros Hr. enough (jobs_ok js /\ bounded js) by naive_solver. revert js Hr.
  apply rtc_ind_r.
  - split; [by intros ? ? ?%lookup_empty_Some|]. intros node. apply total_range.
  - intros js js' _ Hm [? ?]. split; [by eapply mstep_jobs_ok|by eapply mstep_bounded].
Qed.
End capacity.
End machine.
