(* ===== verification/Refinement.v ===== *)
(** * The manager refines the abstract job machine

    One invariant, [Inv], is carried through every operation of [Manager.v]:
    the in-memory job map is reachable in the machine of [Machine.v]; so is
    whatever the state file holds after every prefix of the history (every
    point at which the process can die); and every instance request of the
    history was justified when it was made ([create_ok]).  The operations are
    verified with the weakest-precondition rules of [Env.v]; the environment
    is arbitrary up to [EnvOk]. *)

From S2P Require Import Prelude GoTime GoStrings GoUtf8 Model Scheduler Server Policy Jobs Wire WireOk Env Manager Machine.
From stdpp Require Import base list strings gmap.
From Stdlib Require Import ZArith String Lia.
Open Scope string_scope.
Open Scope list_scope.
Open Scope Z_scope.

(** The last trust lookup and the last JIT configuration of a history. *)
Fixpoint last_run (h : History) : option (result WorkflowRun) :=
  match h with
  | [] => None
  | EGetWorkflowRun _ _ _ _ res :: _ => Some res
  | _ :: h' => last_run h'
  end.

Fixpoint last_jit (h : History) : option (result JITConfig) :=
  match h with
  | [] => None
  | EGenerateJITConfig _ _ _ _ _ _ res :: _ => Some res
  | _ :: h' => last_jit h'
  end.

(** Events that touch no file and launch nothing. *)
Definition harmless (e : Event) : bool :=
  match e with
  | ECreateInstance _ _ _ | EWriteFile _ _ _ | ERename _ _ _ => false
  | _ => true
  end.

(** Events that are no GitHub lookup either. *)
Definition quiet (e : Event) : bool :=
  match e with
  | EGetWorkflowRun _ _ _ _ _ | EGenerateJITConfig _ _ _ _ _ _ _ => false
  | _ => harmless e
  end.

Section refinement.
Context `{Unicode}.
Context (cfg : RunnerManagerConfig) (env : Env) (seen : Node -> Prop).

Notation mstep := (mstep cfg seen).
Notation reach := (reach cfg seen).

(** ** What is on disk, and what a request must rest on *)

Definition disk (h : History) : option string :=
  fs_after (env_files env) h !! StateFile cfg.

(** The state file, when it decodes, decodes to a reachable job map. *)
Definition disk_ok (h : History) : Prop :=
  forall data js, disk h = Some data -> unmarshalState data = Ok (Some js) -> reach js.

(** The state file holds exactly the in-memory job map. *)
Definition saved (st : St) : Prop :=
  StateFile cfg <> "" ->
  exists data, disk (hist st) = Some data /\ unmarshalState data = Ok (Some (jobs st)).

(** The last workflow run fetched is trusted for this repository. *)
Definition trusted_repo (h : History) (repository : string) : Prop :=
  exists run, last_run h = Some (Ok run) /\ (trustedWorkflowRun run repository).1 = true.

(** An instance request is justified: the trust gate was passed for its
    repository, and it is the one for a well-formed job that is on disk as
    being provisioned on that node, with the JIT runner it carries. *)
Definition create_ok (node : Node) (spec : JobSpec) (h : History) : Prop :=
  trusted_repo h (spec_Repository spec)
  /\ exists id r jit,
       last_jit h = Some (Ok jit) /\ utf8 (jit_EncodedConfig jit) = true
       /\ spec = job_spec cfg id r jit /\ record_ok cfg id r
       /\ rec_Status r = jobProvisioning /\ rec_NodeID r = node_ID node
       /\ rec_RunnerID r = jit_RunnerID jit
       /\ (StateFile cfg <> "" ->
           exists data js, disk h = Some data /\ unmarshalState data = Ok (Some js)
                           /\ js !! id = Some r).

Definition event_ok (e : Event) (h : History) : Prop :=
  match e with
  | ECreateInstance node spec res =>
      create_ok node spec h /\ res = env_CreateInstance env h node spec
  | _ => True
  end.

(** All of it, at every point of the history. *)
Inductive good : History -> Prop :=
| good_nil : good []
| good_cons e h : good h -> disk_ok (e :: h) -> event_ok e h -> good (e :: h).

(** ** Assumptions on the environment *)

(** Strings come from JSON, which makes them UTF-8, and integers from fields
    of type [int64] or [int]. *)
Class EnvOk : Prop := {
  env_registry h : registry_ok (env_server env h);
  env_seen h id n : nodes (env_server env h) !! id = Some n -> seen n;
  env_node_id n : seen n -> utf8 (node_ID n) = true;
  env_instance h n spec inst :
    env_CreateInstance env h n spec = Ok inst -> inst_ID inst <> "" /\ utf8 (inst_ID inst) = true;
  env_jit h i o r n g ls jit :
    env_GenerateJITConfig env h i o r n g ls = Ok jit ->
    in_int64 (jit_RunnerID jit) /\ utf8 (jit_EncodedConfig jit) = true;
  env_config : in_int64 (RunnerCPU cfg) /\ in_int64 (RunnerMemoryM cfg);
  env_initial_disk : disk_ok [];
}.
Context `{Hok : !EnvOk}.

Record Inv (st : St) : Prop := {
  inv_reach : reach (jobs st);
  inv_good : good (hist st);
}.

Lemma good_disk_ok h : good h -> disk_ok h.
Proof. destruct 1; [apply env_initial_disk|done]. Qed.

Lemma good_suffix h h' : h' `suffix_of` h -> good h -> good h'.
Proof.
  intros [k ->]. induction k as [|e k IH]; cbn; [done|]. intros Hg. apply IH.
  by inversion Hg.
Qed.

Lemma good_push e h : good h -> harmless e = true -> good (e :: h).
Proof.
  intros Hg He. constructor; [done| |by destruct e].
  intros data js. unfold disk. cbn. destruct e; try done; by apply good_disk_ok.
Qed.

(** ** Rules for calls *)

Lemma wp_call_inv {A} (answer : History -> A) ev Q st :
  Inv st -> (forall a, harmless (ev a) = true) ->
  (forall a st', a = answer (hist st) -> Inv st' -> jobs st' = jobs st ->
     hist st' = ev a :: hist st -> Q a st') ->
  wp (call answer ev) Q st.
Proof.
  intros [Hr Hg] He HQ. apply wp_call. intros a Ha.
  apply HQ; try done. split; [done|]. by apply good_push.
Qed.

(** A quiet call keeps the file and the two lookups. *)
Definition same_view (st st' : St) : Prop :=
  jobs st' = jobs st /\ disk (hist st') = disk (hist st)
  /\ last_run (hist st') = last_run (hist st) /\ last_jit (hist st') = last_jit (hist st).

#[export] Instance same_view_trans : Transitive same_view.
Proof. intros ??? (?&?&?&?) (?&?&?&?). split_and!; congruence. Qed.
#[export] Instance same_view_refl : Reflexive same_view.
Proof. intros ?. by split_and!. Qed.

Lemma quiet_view e st :
  quiet e = true -> same_view st (mkSt (jobs st) (e :: hist st)).
Proof. intros He. unfold same_view, disk. by destruct e. Qed.

Lemma wp_quiet {A} (answer : History -> A) ev Q st :
  Inv st -> (forall a, quiet (ev a) = true) ->
  (forall a st', a = answer (hist st) -> Inv st' -> same_view st st' -> Q a st') ->
  wp (call answer ev) Q st.
Proof.
  intros Hi He HQ. apply wp_call_inv; [done| |].
  { intros a. specialize (He a). by destruct (ev a). }
  intros a [js h] Ha Hi' Hj Hh. cbn in *. subst js h.
  apply HQ; try done. by apply quiet_view.
Qed.

(** ** Saving *)

Lemma tmp_file_ne : tmp_file cfg <> StateFile cfg.
Proof.
  unfold tmp_file. intros E. apply (f_equal (fun s => List.length (list_ascii_of_string s))) in E.
  rewrite list_ascii_app, length_app in E. cbn in E. lia.
Qed.

Lemma good_write h data res : good h -> good (EWriteFile (tmp_file cfg) data res :: h).
Proof.
  intros Hg. constructor; [done| |done]. intros d js. unfold disk. cbn.
  destruct res as [[e [p|]]|]; rewrite ?lookup_insert_ne by apply tmp_file_ne;
    by apply good_disk_ok.
Qed.

Lemma wp_saveLocked Q st :
  Inv st ->
  (forall err st', Inv st' -> jobs st' = jobs st ->
     last_run (hist st') = last_run (hist st) -> last_jit (hist st') = last_jit (hist st) ->
     (err = None -> saved st') -> Q err st') ->
  wp (saveLocked cfg env) Q st.
Proof.
  intros Hi HQ. unfold saveLocked.
  destruct (String.eqb_spec (StateFile cfg) "") as [Hsf|Hsf].
  { apply wp_ret, HQ; try done. by intros _ ?. }
  apply wp_bind, wp_quiet; [done..|]. intros err st1 _ Hi1 (Hj1 & Hd1 & Hr1 & Ht1).
  destruct err as [e|]; [apply wp_ret, HQ; done|].
  apply wp_bind, wp_get_jobs. destruct (marshalState (jobs st1)) as [data|e] eqn:Em;
    [|apply wp_ret, HQ; done].
  apply wp_bind, wp_call. intros err _.
  destruct Hi1 as [Hreach Hg1]. pose proof (good_write _ data err Hg1) as Hg2.
  destruct err as [[e p]|]; [apply wp_ret, HQ; done|].
  apply wp_bind, wp_call. intros err _. cbn [jobs hist].
  set (h2 := EWriteFile (tmp_file cfg) data None :: hist st1) in *.
  assert (Hd3 : disk (ERename (tmp_file cfg) (StateFile cfg) None :: h2) = Some data).
  { unfold disk, h2. cbn. by rewrite lookup_insert_eq, lookup_insert_eq. }
  pose proof (unmarshal_marshal _ _ (reach_storable _ _ _ Hreach) Em) as Hum.
  assert (Hg3 : good (ERename (tmp_file cfg) (StateFile cfg) err :: h2)).
  { constructor; [done| |done]. destruct err as [e|].
    - by apply good_disk_ok in Hg2.
    - intros d js Hd Hu. rewrite Hd3 in Hd. injection Hd as <-.
      rewrite Hum in Hu. by injection Hu as <-. }
  destruct err as [e|]; apply wp_ret, HQ; try done.
  intros _ _. exists data. split; [exact Hd3|exact Hum].
Qed.

(** ** Updates of one record *)

Lemma wp_update_job id f Q st :
  Inv st ->
  mstep (jobs st) (<[id := f (default zeroJobRecord (jobs st !! id))]> (jobs st)) ->
  (forall err st', Inv st' ->
     jobs st' = <[id := f (default zeroJobRecord (jobs st !! id))]> (jobs st) ->
     last_run (hist st') = last_run (hist st) -> last_jit (hist st') = last_jit (hist st) ->
     (err = None -> saved st') -> Q err st') ->
  wp (update_job cfg env id f) Q st.
Proof.
  intros [Hr Hg] Hstep HQ. unfold update_job.
  apply wp_bind, wp_get_jobs, wp_bind, wp_put_jobs. apply wp_saveLocked.
  - split; cbn; [|done]. eapply reach_trans; [done|]. by apply rtc_once.
  - intros err st' Hi Hj Hl1 Hl2 Hs. by apply HQ.
Qed.

Lemma wp_update_job_now id f Q st :
  Inv st ->
  (forall t, mstep (jobs st) (<[id := f t (default zeroJobRecord (jobs st !! id))]> (jobs st))) ->
  (forall err t st', Inv st' ->
     jobs st' = <[id := f t (default zeroJobRecord (jobs st !! id))]> (jobs st) -> Q err st') ->
  wp (update_job_now cfg env id f) Q st.
Proof.
  intros Hi Hstep HQ. unfold update_job_now.
  apply wp_bind, wp_quiet; [done..|]. intros now st1 _ Hi1 (Hj1 & _).
  apply wp_update_job; [done|rewrite Hj1; done|].
  intros err st2 Hi2 Hj2 _ _ _. rewrite Hj1 in Hj2. by eapply HQ.
Qed.

(** The common postcondition: the invariant, and only machine transitions. *)
Definition post {A} (st : St) (_ : A) (st' : St) : Prop :=
  Inv st' /\ rtc mstep (jobs st) (jobs st').

Lemma post_step {A} st (a : A) st' js :
  Inv st' -> mstep (jobs st) js -> jobs st' = js -> post st a st'.
Proof. intros Hi Hs <-. split; [done|]. by apply rtc_once. Qed.

Lemma post_same {A} st (a : A) st' : Inv st' -> jobs st' = jobs st -> post st a st'.
Proof. intros Hi E. split; [done|]. by rewrite E. Qed.

Lemma post_trans {A B} st st1 (b : B) (a : A) st' : post st b st1 -> post st1 a st' -> post st a st'.
Proof. intros [_ H1] [Hi H2]. split; [done|]. by etrans. Qed.

Lemma wp_post_trans {A B} (m : M A) st st1 (b : B) :
  post st b st1 -> wp m (post st1) st1 -> wp m (post st) st1.
Proof. intros Hp Hw. eapply wp_mono; [done|]. intros a st'. by apply post_trans with b. Qed.

(** A record transition, then nothing else that changes the map. *)
Lemma wp_update_post id f st r :
  Inv st -> jobs st !! id = Some r ->
  (forall t, mstep (jobs st) (<[id := f t r]> (jobs st))) ->
  wp (update_job_now cfg env id f) (post st) st.
Proof.
  intros Hi Hr Hstep. apply wp_update_job_now; [done|intros t; by rewrite Hr|].
  intros err t st' Hi' Hj. rewrite Hr in Hj. by eapply post_step.
Qed.

(** ** Placement *)

(** A node with reservations subtracted that still suits the request has room
    for the job. *)
Lemma reserve_capacity_fits picks js req n :
  suitable req (reserve_capacity
                  (fold_left add_reservation (shuffle picks (map_to_list js).*2) ∅) n) ->
  forall r, rec_CPU r = req_CPU req -> rec_MemoryM r = req_MemoryM req -> fits js n r.
Proof.
  intros [_ _ _ Hcpu Hmem _] r Ecpu Emem. cbn in Hcpu, Hmem.
  rewrite !minInt_min, !maxInt_max in *.
  rewrite (fold_reservations TotalCPU rec_CPU) in Hcpu by done.
  rewrite (fold_reservations TotalMemoryM rec_MemoryM) in Hmem by done.
  intros [|]; cbn [amount capacity_of free_of]; intros Hr; (split; [|intros Hn]).
  1,2: change (amount CPU) with rec_CPU; revert Hcpu;
    destruct (Z.ltb_spec 0 (TotalCPU (node_Capacity n))); lia.
  all: change (amount Memory) with rec_MemoryM; revert Hmem;
    destruct (Z.ltb_spec 0 (TotalMemoryM (node_Capacity n))); lia.
Qed.

Lemma wp_place req Q st :
  Inv st ->
  (forall st', Inv st' -> same_view st st' -> Q (Err ErrNoPlacement) st') ->
  (forall st' p node n, Inv st' -> same_view st st' ->
     seen n -> node_ID node = node_ID n -> node_ID n <> "" -> NodeID p = node_ID n ->
     suitable req node ->
     (forall r, rec_CPU r = req_CPU req -> rec_MemoryM r = req_MemoryM req ->
        fits (jobs st) n r) ->
     Q (Ok (p, node)) st') ->
  wp (place env req) Q st.
Proof.
  intros Hi Hnone Hsome. unfold place, reservations.
  apply wp_bind, wp_quiet; [done..|]. intros now st1 _ Hi1 V1.
  apply wp_bind, wp_quiet; [done..|]. intros srv st2 Hsrv Hi2 V2.
  apply wp_bind, wp_quiet; [done..|]. intros picks st3 _ Hi3 V3.
  apply wp_bind, wp_bind, wp_quiet; [done..|]. intros picks' st4 _ Hi4 V4.
  apply wp_bind, wp_get_jobs, wp_ret.
  assert (V : same_view st st4) by (do 3 (etrans; [done|]); done).
  destruct V as (Hj & V'). rewrite Hj. assert (V : same_view st st4) by by split.
  set (rs := fold_left _ _ _). set (l := snapshotNodes picks srv now).
  assert (Hreg : registry_ok srv) by (subst srv; apply env_registry).
  destruct (Place req (map (reserve_capacity rs) l)) as [p|e] eqn:Ep.
  - apply Place_suitable in Ep as (m & (x & -> & Hx)%list_elem_of_fmap & Hs & Hid & _).
    destruct (List.find _ _) as [found|] eqn:Ef; [|by apply wp_ret, Hnone].
    apply List.find_some in Ef as [(y & <- & Hy)%in_map_iff Hyid].
    apply list_elem_of_In in Hy. apply String.eqb_eq in Hyid.
    assert (y = x) as ->.
    { eapply snapshot_ids_distinct; try done. cbn in *. congruence. }
    apply elem_of_snapshot in Hx as (id & n & Hn & ->).
    apply wp_ret, (Hsome st4 p _ n); try done.
    + subst srv. by eapply env_seen.
    + rewrite (reg_keyed _ Hreg _ _ Hn). by eapply reg_named.
    + intros r Ec Em. change (fits (jobs st) (set_Online (online_at srv now n) n) r).
      by eapply reserve_capacity_fits.
  - rewrite Place_first_min in Ep. destruct (first_min _ _); [done|]. injection Ep as <-.
    by apply wp_ret, Hnone.
Qed.

(** ** Provisioning *)

(** In [launch], the job is on disk as being provisioned. *)
Lemma wp_launch id node r jit st :
  Inv st -> jobs st !! id = Some r -> rec_Status r = jobProvisioning ->
  rec_NodeID r = node_ID node -> rec_RunnerID r = jit_RunnerID jit ->
  trusted_repo (hist st) (rec_Repository r) -> last_jit (hist st) = Some (Ok jit) ->
  utf8 (jit_EncodedConfig jit) = true -> saved st ->
  wp (launch cfg env id node r jit) (post st) st.
Proof.
  intros [Hr Hg] Hid Hst Hn Hrid Htr Hjit Hutf Hsave. unfold launch.
  apply wp_bind, wp_call. intros res Hres.
  set (st1 := mkSt _ _).
  assert (Hi1 : Inv st1).
  { split; [done|]. constructor; [done| |].
    - intros data js. unfold disk. cbn. by apply good_disk_ok.
    - split; [|done]. split; [done|]. exists id, r, jit. cbn. split_and!; try done.
      { by apply (reach_jobs_ok _ _ _ Hr). }
      intros Hsf. destruct (Hsave Hsf) as (data & Hd & Hu). eauto. }
  destruct res as [inst|e].
  - eapply wp_update_post with (st := st1); [done..|]. intros t.
    symmetry in Hres. apply env_instance in Hres as [? ?]. by apply m_run.
  - apply wp_bind, wp_quiet; [done..|]. intros _ st2 _ Hi2 (Hj2 & _).
    apply wp_bind, wp_quiet; [done..|]. intros _ st3 _ Hi3 (Hj3 & _).
    assert (Hj : jobs st3 = jobs st) by by rewrite Hj3, Hj2.
    apply wp_bind. eapply wp_mono.
    { eapply wp_update_post; [done| |]; rewrite Hj; [done|]. intros t. by apply m_retry. }
    intros err st4 [Hi4 Hs4]. rewrite Hj in Hs4. destruct err; by apply wp_ret.
Qed.

Lemma wp_start_runner id node n r st :
  Inv st -> jobs st !! id = Some r -> rec_Status r = jobPending ->
  seen n -> node_ID node = node_ID n -> node_ID n <> "" -> fits (jobs st) n r ->
  trusted_repo (hist st) (rec_Repository r) ->
  wp (start_runner cfg env id node) (post st) st.
Proof.
  intros Hi Hid Hst Hseen Hnn Hne Hfits Htr. unfold start_runner.
  pose proof (ro_storable _ _ _ (reach_jobs_ok _ _ _ (inv_reach _ Hi) _ _ Hid)) as Hsto.
  apply wp_bind, wp_get_jobs. rewrite Hid. cbn [from_option default].
  apply wp_bind, wp_call_inv; [done..|]. intros res st1 Hres Hi1 Hj1 Hh1.
  destruct res as [jit|e]; [|apply wp_ret, post_same; done].
  symmetry in Hres. apply env_jit in Hres as [Hjit Hutf].
  apply wp_bind, wp_quiet; [done..|]. intros now st2 _ Hi2 (Hj2 & _ & Hr2 & Ht2).
  assert (Hj : jobs st2 = jobs st) by congruence.
  apply wp_bind, wp_get_jobs. rewrite Hj, Hid. cbn [from_option default].
  apply wp_bind, wp_update_job; [done| |].
  { rewrite Hj, Hid. cbn [from_option default]. rewrite Hnn. apply m_provision; try done.
    apply storable_set_provisioning; [by apply env_node_id|done..]. }
  rewrite Hj, Hid. cbn [from_option default].
  intros err st3 Hi3 Hj3 Hr3 Ht3 Hs3.
  assert (Hp3 : post (A := unit) st tt st3).
  { eapply post_step; [done| |exact Hj3]. rewrite Hnn. apply m_provision; try done.
    apply storable_set_provisioning; [by apply env_node_id|done..]. }
  destruct err as [e|].
  - apply wp_bind, wp_quiet; [done..|]. intros _ st4 _ Hi4 (Hj4 & _).
    apply wp_ret. eapply post_trans; [exact Hp3|]. by apply post_same.
  - eapply wp_post_trans; [exact Hp3|]. apply wp_launch; try done.
    + rewrite Hj3. by rewrite lookup_insert_eq.
    + destruct Htr as (run & Hrun & Htr). exists run.
      rewrite Hr3, Hr2, Hh1. by split.
    + by rewrite Ht3, Ht2, Hh1.
    + by apply Hs3.
Qed.

Lemma wp_tryProvision id st : Inv st -> wp (tryProvision cfg env id) (post st) st.
Proof.
  intros Hi. unfold tryProvision, get_job.
  apply wp_bind, wp_bind, wp_get_jobs, wp_ret.
  destruct (jobs st !! id) as [r|] eqn:Hid; [|by apply wp_ret, post_same].
  destruct (String.eqb_spec (rec_Status r) jobPending) as [Hst|]; cbn [negb];
    [|by apply wp_ret, post_same].
  apply wp_bind, wp_call_inv; [done..|]. intros res st1 _ Hi1 Hj1 Hh1.
  destruct res as [run|e]; [|by apply wp_ret, post_same].
  assert (Hp1 : post (A := unit) st tt st1) by by apply post_same.
  destruct (trustedWorkflowRun run (rec_Repository r)).1 eqn:Htr; cbn [negb].
  2: { eapply wp_post_trans; [done|]. eapply wp_update_post; [done|by rewrite Hj1|].
       rewrite Hj1. intros t. by apply m_reject. }
  apply wp_bind, wp_quiet; [done..|]. intros picks st2 _ Hi2 V2.
  assert (Hp2 : post (A := unit) st tt st2).
  { apply post_same; [done|]. destruct V2. congruence. }
  assert (Hj2 : jobs st2 = jobs st) by (destruct V2; congruence).
  destruct (requirementsFromLabels picks _ _ _ _) as [req|e] eqn:Hreq.
  2: { apply wp_bind. eapply wp_mono.
       { eapply wp_update_post; [done|by rewrite Hj2|].
         rewrite Hj2. intros t. by apply m_reject. }
       intros err st3 Hp3. eapply post_trans in Hp3; [|exact Hp2].
       destruct err; by apply wp_ret. }
  apply requirementsFromLabels_Ok in Hreq as (_ & Hc & Hm).
  apply wp_bind, wp_place; [done| |].
  { intros st3 Hi3 (Hj3 & _). apply wp_ret, post_same; [done|]. congruence. }
  intros st3 p node n Hi3 V3 Hseen Hnn Hne Hnp _ Hfits.
  assert (Hj3 : jobs st3 = jobs st) by (destruct V3; congruence).
  destruct (String.eqb (Backend p) BackendDocker); cbn [negb];
    [|by apply wp_ret, post_same].
  eapply wp_post_trans with (b := tt); [by apply post_same|].
  apply wp_start_runner with n r; try done.
  - by rewrite Hj3.
  - rewrite Hj3, <- Hj2. by apply Hfits.
  - exists run. split; [|done]. destruct V3 as (_ & _ & -> & _), V2 as (_ & _ & -> & _).
    by rewrite Hh1.
Qed.

(** ** Records made from events *)

Lemma storable_tombstone ev now :
  storable_event ev ->
  storable (mkJobRecord (job_ID (ev_Job ev)) (job_RunID (ev_Job ev)) (ev_InstallationID ev)
              (repo_FullName (ev_Repository ev)) "" "" [] jobCompleted "" "" "" 0 0 0 0
              zeroTime now).
Proof.
  intros [Hi Hs _]. unfold utf8s in Hs. rewrite !Forall_cons in Hs; rewrite !Forall_cons in Hi.
  destruct_and? Hs. destruct_and? Hi. split; unfold utf8s; cbn; storables.
Qed.

Lemma storable_new_record ev owner repo now :
  storable_event ev -> repoParts (ev_Repository ev) = Ok (owner, repo) ->
  storable (new_record cfg ev owner repo now).
Proof.
  intros [Hi Hs Hl] [? ?]%repoParts_utf8; [|done]. destruct env_config.
  unfold utf8s in Hs. rewrite !Forall_cons in Hs; rewrite !Forall_cons in Hi.
  destruct_and? Hs. destruct_and? Hi. split; unfold utf8s; cbn; storables.
Qed.

(** ** Teardown *)

Lemma wp_rawNode nid Q st :
  Inv st -> (forall o st', Inv st' -> same_view st st' -> Q o st') -> wp (rawNode env nid) Q st.
Proof.
  intros Hi HQ. unfold rawNode. apply wp_bind, wp_quiet; [done..|].
  intros srv st1 _ Hi1 V1. apply wp_ret. eauto.
Qed.

(** Destroying fails only for a record that has a node. *)
Lemma wp_destroy_recorded r id Q st :
  Inv st ->
  (forall err st', Inv st' -> jobs st' = jobs st -> (err <> None -> rec_NodeID r <> "") ->
     Q err st') ->
  wp (destroy_recorded env r id) Q st.
Proof.
  intros Hi HQ. unfold destroy_recorded.
  destruct (String.eqb_spec (rec_NodeID r) ""); [by apply wp_ret, HQ|].
  apply wp_bind, wp_rawNode; [done|]. intros [n'|] st1 Hi1 (Hj1 & _); [|by apply wp_ret, HQ].
  apply wp_quiet; [done..|]. intros err st2 _ Hi2 (Hj2 & _). apply HQ; [done| |done]. congruence.
Qed.

Lemma wp_delete_recorded r Q st :
  Inv st -> (forall st', Inv st' -> jobs st' = jobs st -> Q tt st') ->
  wp (delete_recorded env r) Q st.
Proof.
  intros Hi HQ. unfold delete_recorded. destruct (0 <? rec_RunnerID r); [|by apply wp_ret, HQ].
  apply wp_bind, wp_quiet; [done..|]. intros _ st1 _ Hi1 (Hj1 & _). by apply wp_ret, HQ.
Qed.

Lemma Inv_record st id r : Inv st -> jobs st !! id = Some r -> record_ok cfg id r.
Proof. intros [Hr _]. by apply (reach_jobs_ok _ _ _ Hr). Qed.

(** The completion of a job whose record is not completed yet. *)
Lemma wp_complete id r st :
  Inv st -> jobs st !! id = Some r -> rec_Status r <> jobCompleted ->
  wp (delete_recorded env r;; update_job_now cfg env id (fun now c => set_completed c now))
     (post st) st.
Proof.
  intros Hi Hid Hst. apply wp_bind, wp_delete_recorded; [done|]. intros st1 Hi1 Hj1.
  eapply wp_post_trans with (b := tt); [by apply post_same|].
  eapply wp_update_post; [done|by rewrite Hj1|]. rewrite Hj1. intros t. by apply m_complete.
Qed.

Lemma wp_cleanupRecord id r st :
  Inv st -> jobs st !! id = Some r -> rec_Status r <> jobCompleted ->
  wp (cleanupRecord cfg env r) (post st) st.
Proof.
  intros Hi Hid Hst. unfold cleanupRecord. rewrite (ro_id _ _ _ (Inv_record _ _ _ Hi Hid)).
  apply wp_bind, wp_destroy_recorded; [done|]. intros err st1 Hi1 Hj1 _.
  destruct err as [e|]; [by apply wp_ret, post_same|].
  eapply wp_post_trans with (b := tt); [by apply post_same|].
  apply wp_complete; [done|by rewrite Hj1|done].
Qed.

Lemma wp_recoverProvisioning id r st :
  Inv st -> jobs st !! id = Some r -> rec_Status r = jobProvisioning ->
  wp (recoverProvisioning cfg env r) (post st) st.
Proof.
  intros Hi Hid Hst. unfold recoverProvisioning, get_job.
  rewrite (ro_id _ _ _ (Inv_record _ _ _ Hi Hid)).
  apply wp_bind, (wp_mono _ (fun _ st' => Inv st' /\ jobs st' = jobs st)).
  { destruct (String.eqb (rec_NodeID r) ""); [by apply wp_ret|].
    apply wp_bind, wp_rawNode; [done|]. intros [n|] st1 Hi1 (Hj1 & _); [|by apply wp_ret].
    apply wp_quiet; [done..|]. intros err st2 _ Hi2 (Hj2 & _). split; congruence. }
  intros _ st1 [Hi1 Hj1]. apply wp_bind, wp_delete_recorded; [done|]. intros st2 Hi2 Hj2.
  assert (Hj : jobs st2 = jobs st) by congruence.
  apply wp_bind, wp_bind, wp_get_jobs, wp_ret. rewrite Hj, Hid.
  rewrite Hst. cbn [negb String.eqb].
  eapply wp_post_trans with (b := tt); [by apply post_same|].
  apply wp_bind. eapply wp_mono.
  { eapply wp_update_post; [done|by rewrite Hj|]. rewrite Hj. intros t. by apply m_retry. }
  intros err st3 Hp3. destruct err as [e|]; [by apply wp_ret|].
  eapply wp_post_trans; [exact Hp3|]. apply wp_tryProvision. apply Hp3.
Qed.

Lemma wp_handleCompleted ev st :
  storable_event ev -> Inv st -> wp (handleCompleted cfg env ev) (post st) st.
Proof.
  intros Hev Hi. unfold handleCompleted, get_job.
  destruct (Z.leb_spec (job_ID (ev_Job ev)) 0) as [|Hpos]; [by apply wp_ret, post_same|].
  apply wp_bind, wp_bind, wp_get_jobs, wp_ret.
  destruct (jobs st !! job_ID (ev_Job ev)) as [r|] eqn:Hid.
  - destruct (String.eqb_spec (rec_Status r) jobCompleted) as [|Hst];
      [by apply wp_ret, post_same|].
    apply wp_bind, wp_destroy_recorded; [done|]. intros err st1 Hi1 Hj1 Hnode.
    eapply wp_post_trans with (b := tt); [by apply post_same|].
    destruct err as [e|]; [|apply wp_complete; [done|by rewrite Hj1|done]].
    apply wp_bind. eapply wp_mono.
    { eapply wp_update_post; [done|by rewrite Hj1|]. rewrite Hj1. intros t.
      apply m_cleanup; [done..|by apply Hnode]. }
    intros se st2 Hp2. destruct se; by apply wp_ret.
  - apply wp_bind, (wp_mono _ (fun _ st' => Inv st' /\ jobs st' = jobs st)).
    { unfold nodeFromRunnerName. destruct (String.eqb _ ""); [by apply wp_ret|].
      apply wp_bind, wp_quiet; [done..|]. intros srv st1 _ Hi1 (Hj1 & _).
      apply wp_bind, wp_quiet; [done..|]. intros picks st2 _ Hi2 (Hj2 & _).
      apply wp_ret. split; congruence. }
    intros o st1 [Hi1 Hj1].
    apply wp_bind, (wp_mono _ (fun _ st' => Inv st' /\ jobs st' = jobs st)).
    { destruct o as [n|]; [|by apply wp_ret].
      apply wp_quiet; [done..|]. intros err st2 _ Hi2 (Hj2 & _). split; congruence. }
    intros _ st2 [Hi2 Hj2]. apply wp_bind, wp_quiet; [done..|]. intros now st3 _ Hi3 (Hj3 & _).
    assert (Hj : jobs st3 = jobs st) by congruence.
    eapply wp_post_trans with (b := tt); [by apply post_same|].
    match goal with |- wp (update_job _ _ ?i ?f) _ _ =>
      assert (Hstep : mstep (jobs st) (<[i := f (default zeroJobRecord (jobs st3 !! i))]> (jobs st3)))
    end.
    { rewrite Hj. apply m_tombstone; [done|]. split; try done. by apply storable_tombstone. }
    apply wp_update_job; [done|by rewrite <- Hj in Hstep at 1|].
    intros err st4 Hi4 Hj4 _ _ _. by eapply post_step; [| |exact Hj4]; rewrite ?Hj; rewrite ?Hj in Hstep.
Qed.

(** ** Admission *)

Lemma wp_handleQueued ev st :
  storable_event ev -> Inv st -> wp (handleQueued cfg env ev) (post st) st.
Proof.
  intros Hev Hi. unfold handleQueued, get_job.
  destruct (_ || _) eqn:Hpos; [by apply wp_ret, post_same|].
  destruct (negb _); [by apply wp_ret, post_same|].
  destruct (repoParts _) as [[owner repo]|e] eqn:Hparts; [|by apply wp_ret, post_same].
  apply wp_bind, wp_bind, wp_get_jobs, wp_ret.
  destruct (jobs st !! _) as [r|] eqn:Hid; [by apply wp_ret, post_same|].
  apply wp_bind, wp_quiet; [done..|]. intros now st1 _ Hi1 (Hj1 & _).
  set (r := new_record cfg ev owner repo now).
  assert (Hnew : new_job cfg (job_ID (ev_Job ev)) r) by (split; try done; [lia|by apply storable_new_record]).
  assert (Hstep : mstep (jobs st) (<[job_ID (ev_Job ev) := r]> (jobs st)))
    by by apply m_enqueue.
  apply wp_bind, wp_update_job; [done|by rewrite Hj1|].
  rewrite Hj1. intros err st2 Hi2 Hj2 _ _ _.
  assert (Hp2 : post (A := unit) st tt st2) by by eapply post_step.
  eapply wp_post_trans; [exact Hp2|].
  destruct err as [e|]; [|by apply wp_tryProvision].
  apply wp_bind, wp_get_jobs, wp_bind, wp_put_jobs, wp_ret.
  assert (Hun : mstep (jobs st2) (delete (job_ID (ev_Job ev)) (jobs st2))).
  { apply m_unqueue with r; [|done]. rewrite Hj2. by rewrite lookup_insert_eq. }
  eapply post_step; [|exact Hun|done].
  destruct Hi2 as [Hr2 Hg2]. split; cbn; [|done].
  eapply reach_trans; [done|by apply rtc_once].
Qed.

Lemma wp_Process ev st : storable_event ev -> Inv st -> wp (Process cfg env ev) (post st) st.
Proof.
  intros Hev Hi. unfold Process.
  destruct (String.eqb _ "queued"); [by apply wp_handleQueued|].
  destruct (String.eqb _ "completed"); [by apply wp_handleCompleted|].
  by apply wp_ret, post_same.
Qed.

(** ** Reconciliation *)

Lemma lookup_delete_all (l : list (Z * JobRecord)) (js : gmap Z JobRecord) id :
  fold_left (fun js e => delete e.1 js) l js !! id
  = if decide (id ∈ l.*1) then None else js !! id.
Proof.
  revert js. induction l as [|[i r] l IH]; intros js; cbn; [done|].
  rewrite IH. destruct (decide (id = i)) as [->|Hne].
  - rewrite lookup_delete_eq. rewrite (decide_True _ _ (P := i ∈ i :: l.*1)) by by left.
    by destruct (decide _).
  - rewrite lookup_delete_ne by done.
    destruct (decide (id ∈ l.*1)), (decide (id ∈ i :: l.*1)); set_solver.
Qed.

Lemma prune_steps now (l : list (Z * JobRecord)) (js : gmap Z JobRecord) :
  NoDup l.*1 -> (forall e, e ∈ l -> js !! e.1 = Some e.2 /\ expired cfg now e.2 = true) ->
  rtc mstep js (fold_left (fun js e => delete e.1 js) l js).
Proof.
  revert js. induction l as [|[i r] l IH]; intros js Hnd Hl; cbn; [done|].
  cbn in Hnd. apply NoDup_cons in Hnd as [Hi Hnd].
  destruct (Hl (i, r)) as [Hjs He]; [by left|]. cbn in *.
  eapply rtc_l.
  - apply (m_prune _ _ _ i r); [done|]. unfold expired in He.
    apply andb_true_iff in He as [He _]. apply orb_true_iff in He.
    by rewrite !String.eqb_eq in He.
  - apply IH; [done|]. intros [j q] Hq. cbn. destruct (Hl (j, q)); [by right|]. cbn in *.
    rewrite lookup_delete_ne; [done|]. intros ->. apply Hi, list_elem_of_fmap. by exists (j, q).
Qed.

Lemma wp_prune now Q st :
  Inv st ->
  (forall ids st', Inv st' -> rtc mstep (jobs st) (jobs st') ->
     (forall id, jobs st' !! id =
        match jobs st !! id with
        | Some r => if expired cfg now r then None else Some r
        | None => None
        end) ->
     NoDup ids -> (forall id, id ∈ ids <-> is_Some (jobs st' !! id)) -> Q ids st') ->
  wp (prune cfg env now) Q st.
Proof.
  intros Hi HQ. unfold prune.
  apply wp_bind, wp_quiet; [done..|]. intros picks st1 _ Hi1 (Hj1 & _).
  apply wp_bind, wp_get_jobs. rewrite Hj1.
  set (entries := shuffle picks (map_to_list (jobs st))).
  assert (Hperm : entries ≡ₚ map_to_list (jobs st)) by apply shuffle_perm.
  assert (Hent : forall e, e ∈ entries <-> jobs st !! e.1 = Some e.2).
  { intros [i r]. rewrite Hperm. apply elem_of_map_to_list. }
  assert (Hnd : NoDup entries.*1) by (rewrite Hperm; apply NoDup_fst_map_to_list).
  set (rest := filter (fun e => expired cfg now e.2 = false) entries).
  set (old := filter _ entries).
  assert (Hold : forall e, e ∈ old <-> jobs st !! e.1 = Some e.2 /\ expired cfg now e.2 = true).
  { intros e. unfold old. rewrite list_elem_of_filter, Hent. cbv beta. rewrite Is_true_true. tauto. }
  set (js' := fold_left _ old (jobs st)).
  assert (Hjs' : forall id, js' !! id =
            match jobs st !! id with
            | Some r => if expired cfg now r then None else Some r
            | None => None
            end).
  { intros id. unfold js'. rewrite lookup_delete_all. case_decide as Hin.
    - apply list_elem_of_fmap in Hin as ([i r] & -> & [Hr He]%Hold). cbn in *. by rewrite Hr, He.
    - destruct (jobs st !! id) as [r|] eqn:Hr; [|done].
      destruct (expired cfg now r) eqn:He; [|done]. destruct Hin.
      apply list_elem_of_fmap. exists (id, r). split; [done|]. by apply Hold. }
  assert (Hsteps : rtc mstep (jobs st) js').
  { apply prune_steps with now; [|intros e; apply Hold].
    unfold old. eapply sublist_NoDup; [exact Hnd|]. apply fmap_sublist, sublist_filter. }
  apply wp_bind, wp_put_jobs, wp_bind.
  apply (wp_mono _ (fun _ st' => Inv st' /\ jobs st' = js')).
  { assert (Hi2 : Inv (mkSt js' (hist st1))).
    { destruct Hi1 as [Hr1 Hg1]. split; [|done]. cbn. rewrite Hj1 in Hr1.
      by eapply reach_trans. }
    destruct old; [by apply wp_ret|]. apply wp_saveLocked; [done|]. by intros. }
  intros _ st3 [Hi3 Hj3]. apply wp_ret, HQ; rewrite ?Hj3; try done.
  - unfold rest. eapply sublist_NoDup; [exact Hnd|]. apply fmap_sublist, sublist_filter.
  - intros id. rewrite Hjs', list_elem_of_fmap. unfold rest.
    setoid_rewrite list_elem_of_filter. setoid_rewrite Hent. split.
    + intros ([i r] & -> & He & Hr). cbn in *. by rewrite Hr, He.
    + destruct (jobs st !! id) as [r|] eqn:Hr; [|by intros [? ?]].
      destruct (expired cfg now r) eqn:He; [by intros [? ?]|].
      intros _. by exists (id, r).
Qed.

Lemma wp_reconcile_job now id st : Inv st -> wp (reconcile_job cfg env now id) (post st) st.
Proof.
  intros Hi. unfold reconcile_job, get_job.
  apply wp_bind, wp_bind, wp_get_jobs, wp_ret.
  destruct (jobs st !! id) as [r|] eqn:Hid; [|by apply wp_ret, post_same].
  destruct (String.eqb_spec (rec_Status r) jobPending); [by apply wp_tryProvision|].
  destruct (String.eqb_spec (rec_Status r) jobProvisioning);
    [by eapply wp_recoverProvisioning|].
  destruct (String.eqb_spec (rec_Status r) jobCleanupPending).
  { eapply wp_cleanupRecord; [done..|]. intros ?. status_clash. }
  destruct (String.eqb_spec (rec_Status r) jobRunning); [|by apply wp_ret, post_same].
  destruct (_ && _); [|by apply wp_ret, post_same].
  eapply wp_cleanupRecord; [done..|]. intros ?. status_clash.
Qed.

Lemma wp_reconcile_jobs now ids st : Inv st -> wp (reconcile_jobs cfg env now ids) (post st) st.
Proof.
  revert st. induction ids as [|id ids IH]; intros st Hi; cbn [reconcile_jobs].
  { by apply wp_ret, post_same. }
  apply wp_bind. eapply wp_mono; [by apply wp_reconcile_job|]. intros err st1 Hp1.
  eapply wp_post_trans; [exact Hp1|]. apply IH, Hp1.
Qed.

Lemma wp_reconcile now st : Inv st -> wp (reconcile cfg env now) (post st) st.
Proof.
  intros Hi. unfold reconcile. apply wp_bind, wp_prune; [done|].
  intros ids st1 Hi1 Hs1 _ _ _. eapply wp_post_trans with (b := tt); [by split|].
  by apply wp_reconcile_jobs.
Qed.

(** ** Restart: a new process loads whatever the crash left on disk *)

Lemma wp_loadState st :
  good (hist st) -> jobs st = ∅ -> wp (loadState cfg env) (fun _ st' => Inv st') st.
Proof.
  intros Hg Hj. assert (Hi : Inv st) by (split; [rewrite Hj; apply rtc_refl|done]).
  unfold loadState, os_ReadFile. destruct (String.eqb _ ""); [by apply wp_ret|].
  apply wp_bind, wp_bind, wp_quiet; [done..|]. intros e st1 _ Hi1 (Hj1 & Hd1 & _).
  apply wp_bind, wp_get_hist, wp_ret. destruct e as [e|]; [by apply wp_ret|].
  fold (disk (hist st1)). destruct (disk (hist st1)) as [data|] eqn:Hd; [|by apply wp_ret].
  destruct (unmarshalState data) as [[js|]|e] eqn:Hu; [|by apply wp_ret..].
  apply wp_bind, wp_put_jobs, wp_ret. destruct Hi1 as [_ Hg1].
  split; [|done]. cbn. by eapply (good_disk_ok _ Hg1).
Qed.
End refinement.
