(* ===== verification/Scenario.v ===== *)
(** * A concrete fleet, for the witnesses

    The environment of the repository's own controller tests: one Docker
    worker [e5] (and an arm64 node), a trusted push, a GitHub API and an agent
    that answer.  The tests of [github_jobs_test.go] run on it as examples. *)

From S2P Require Import Prelude GoTime GoStrings GoDate GoUtf8 Model Scheduler Server Policy Jobs Wire WireOk Env Manager Machine Refinement.
From stdpp Require Import base list strings gmap.
From Stdlib Require Import ZArith String Lia.
Open Scope string_scope.
Open Scope list_scope.
Open Scope Z_scope.

Definition T0 : Time := 63900000000 * Second.

Definition demo_cfg : RunnerManagerConfig :=
  with_defaults (mkConfig "" 0 "" 2 1024 Hour "/var/lib/cifleet/state.json" 0 0 0).

Definition trusted_run : WorkflowRun :=
  mkWorkflowRun 10 "push" (mkRepositoryRef "fangbm/CIFleet" false)
    (Some (mkRepositoryRef "fangbm/CIFleet" false)).

Definition fork_run : WorkflowRun :=
  mkWorkflowRun 10 "pull_request" (mkRepositoryRef "fangbm/CIFleet" false)
    (Some (mkRepositoryRef "someone/CIFleet" false)).

(** A world where every call succeeds; [run] is what GitHub says of the
    workflow run, [srv] what the node registry holds. *)
Definition demo_env (run : WorkflowRun) (srv : Server) : Env := {|
  env_files := ∅;
  env_now _ := T0;
  env_server _ := srv;
  env_picks _ := [];
  env_GetWorkflowRun _ _ _ _ _ := Ok run;
  env_GenerateJITConfig _ _ _ _ _ _ _ := Ok (mkJITConfig 77 "jit-secret");
  env_DeleteRunner _ _ _ _ _ := None;
  env_CreateInstance _ n _ := Ok (mkInstance "container123" BackendDocker (node_ID n) (T0 + Hour));
  env_DestroyInstance _ _ _ := None;
  env_ReadFile _ _ := None;
  env_MkdirAll _ _ := None;
  env_WriteFile _ _ _ := None;
  env_Rename _ _ _ := None;
|}.

Definition happy_env : Env := demo_env trusted_run (fleet_at T0).

Definition demo_event (action : string) : WorkflowJobEvent :=
  mkWorkflowJobEvent "delivery-1" action 42
    (mkRepositoryInfo "fangbm/CIFleet" "fangbm" "CIFleet" false)
    (mkWorkflowJobInfo 12 10 "smoke" ["self-hosted"; "cifleet"; "linux-x64"] "").

Lemma demo_storable action : storable_event (demo_event action).
Proof. split; [..|apply Forall_cons_2; [done|]]; unfold utf8s; cbn; storables. Qed.

Definition empty_st : St := mkSt ∅ [].

Definition after_queued : St := (Process demo_cfg happy_env (demo_event "queued") empty_st).2.
Definition after_completed : St :=
  (Process demo_cfg happy_env (demo_event "completed") after_queued).2.

Definition status_of (st : St) (id : Z) : option string := rec_Status <$> jobs st !! id.

Definition count_creates (h : History) : nat :=
  List.length (List.filter (fun e => match e with ECreateInstance _ _ _ => true | _ => false end) h).

(** [TestRunnerManagerProvisionsAndCleansJITRunner]. *)
Example provisions_and_cleans :
  (status_of after_queued 12, count_creates (hist after_queued),
   status_of after_completed 12, count_creates (hist after_completed))
  = (Some jobRunning, 1%nat, Some jobCompleted, 1%nat).
Proof. vm_compute. reflexivity. Qed.

(** [TestRunnerManagerRejectsPublicForkPR]. *)
Example rejects_public_fork_pr :
  let st := (Process demo_cfg (demo_env fork_run (fleet_at T0)) (demo_event "queued") empty_st).2 in
  (status_of st 12, count_creates (hist st)) = (Some jobRejected, 0%nat).
Proof. vm_compute. reflexivity. Qed.

(** [TestRunnerManagerKeepsJobPendingUntilCapacityAppears]. *)
Example pending_until_capacity :
  let stale := demo_env trusted_run (fleet_at (T0 - 2 * Minute)) in
  let st := (Process demo_cfg stale (demo_event "queued") empty_st).2 in
  let st' := (tryProvision demo_cfg happy_env 12 st).2 in
  (status_of st 12, count_creates (hist st), status_of st' 12, count_creates (hist st'))
  = (Some jobPending, 0%nat, Some jobRunning, 1%nat).
Proof. vm_compute. reflexivity. Qed.

Definition interrupted : JobRecord :=
  mkJobRecord 12 10 42 "fangbm/CIFleet" "fangbm" "CIFleet" ["self-hosted"; "cifleet"; "linux-x64"]
    jobProvisioning "e5" "" "cifleet-e5-12-a1" 77 2 1024 1 zeroTime (T0 - Minute).

(** [TestReconcileRecoversInterruptedProvisioning]. *)
Example recovers_interrupted :
  let st := (reconcile demo_cfg happy_env T0 (mkSt {[12 := interrupted]} [])).2 in
  (status_of st 12, rec_Attempt <$> jobs st !! 12, count_creates (hist st))
  = (Some jobRunning, Some 2, 1%nat).
Proof. vm_compute. reflexivity. Qed.

(** ** The environment meets the assumptions of the theorems *)

Definition demo_seen (n : Node) : Prop :=
  (exists id, nodes (fleet_at T0) !! id = Some n).

Lemma demo_env_ok run : EnvOk demo_cfg (demo_env run (fleet_at T0)) demo_seen.
Proof.
  split; cbn.
  - intros _. apply fleet_ok.
  - intros _ id n Hn. by exists id.
  - intros n (id & Hn). unfold fleet_at in Hn. cbn in Hn.
    apply lookup_insert_Some in Hn as [[_ <-]|[_ Hn]]; [done|].
    apply lookup_insert_Some in Hn as [[_ <-]|[_ Hn]]; [done|].
    by apply lookup_empty_Some in Hn.
  - intros _ n spec inst [= <-]. done.
  - intros _ _ _ _ _ _ _ jit [= <-]. done.
  - done.
  - intros data js. unfold disk. cbn. by rewrite lookup_empty.
Qed.

#[export] Instance happy_env_ok : EnvOk demo_cfg happy_env demo_seen := demo_env_ok trusted_run.

Lemma empty_Inv : Inv demo_cfg happy_env demo_seen empty_st.
Proof. split; cbn; [apply rtc_refl|constructor]. Qed.

(** The same world with an agent that refuses every request. *)
Definition refusing_env : Env := {|
  env_files := ∅;
  env_now _ := T0;
  env_server _ := fleet_at T0;
  env_picks _ := [];
  env_GetWorkflowRun _ _ _ _ _ := Ok trusted_run;
  env_GenerateJITConfig _ _ _ _ _ _ _ := Ok (mkJITConfig 77 "jit-secret");
  env_DeleteRunner _ _ _ _ _ := None;
  env_CreateInstance _ _ _ := Err (ErrMsg "agent is down");
  env_DestroyInstance _ _ _ := Some (ErrMsg "agent is down");
  env_ReadFile _ _ := None;
  env_MkdirAll _ _ := None;
  env_WriteFile _ _ _ := None;
  env_Rename _ _ _ := None;
|}.

(** A restarted controller: no node has sent a heartbeat yet. *)
Definition restarted_env : Env := demo_env trusted_run (New []).

Definition pending_job : JobRecord :=
  mkJobRecord 12 10 42 "fangbm/CIFleet" "fangbm" "CIFleet" ["self-hosted"; "cifleet"; "linux-x64"]
    jobPending "" "" "" 0 2 1024 0 zeroTime (T0 - Minute).
Definition running_job : JobRecord :=
  mkJobRecord 12 10 42 "fangbm/CIFleet" "fangbm" "CIFleet" ["self-hosted"; "cifleet"; "linux-x64"]
    jobRunning "e5" "container123" "cifleet-e5-12-a1" 77 2 1024 1 (T0 - Hour) (T0 - Hour).
Definition cleanup_job : JobRecord := set_status running_job jobCleanupPending (T0 - Hour).

(** One job in memory, nothing called yet. *)
Definition with_record (r : JobRecord) : St := mkSt {[12 := r]} [].
