(* ===== verification/System.v ===== *)
(** * The running controller: construction, event queue, [Run] loop, crashes

    [NewRunnerManager], [Submit] and [Run] of
    [internal/controller/github_jobs.go].  [Run] is a step relation: the
    webhook goroutine submits, the manager's goroutine takes an event or a
    tick.  [sys_crash] is the death of the process at any point between two
    calls to the outside world, and its restart from the state file.  The
    theorems hold in every reachable state, and on disk at every point of
    every history. *)

From S2P Require Import Prelude GoTime GoStrings GoDate GoUtf8 Model Scheduler Server Policy Jobs Wire WireOk Env Manager Machine Refinement Scenario.
From stdpp Require Import base list strings gmap.
From Stdlib Require Import ZArith String Lia.
Open Scope string_scope.
Open Scope list_scope.
Open Scope Z_scope.

(** ** Construction and the queue *)

Section construction.
Context `{Unicode} (env : Env).

(** [deps]: none of the three dependencies is nil. *)
Definition NewRunnerManager (deps : bool) (cfg : RunnerManagerConfig)
  : M (result RunnerManagerConfig) :=
  if negb deps
  then mret (Err (ErrMsg "controller, GitHub client and agent client are required"))
  else
    let cfg := with_defaults cfg in
    put_jobs ∅;;
    err ← loadState cfg env;
    match err with
    | Some e => mret (Err e)
    | None => mret (Ok cfg)
    end.
End construction.

(** [m.queue] is a channel of capacity [QueueSize]. *)
Definition Submit (cfg : RunnerManagerConfig) (queue : list WorkflowJobEvent)
  (event : WorkflowJobEvent) : list WorkflowJobEvent * option error :=
  if Z.of_nat (List.length queue) <? QueueSize cfg
  then (queue ++ [event], None)
  else (queue, Some ErrEventQueueFull).

Record Sys : Type := mkSys {
  sys_st : St;
  sys_queue : list WorkflowJobEvent;
}.

Section system.
Context `{Unicode}.
Context (cfg : RunnerManagerConfig) (env : Env).

(** A process starts: it loads the state file, [Run] reconciles once. *)
Inductive boots (h : History) (s : Sys) : Prop :=
| boots_ok now st0 :
    loadState cfg env (mkSt ∅ h) = (None, st0) ->
    s = mkSys (reconcile cfg env now st0).2 [] -> boots h s.

Inductive sys_step (s : Sys) : Sys -> Prop :=
| sys_submit ev :
    storable_event ev ->
    sys_step s (mkSys (sys_st s) (Submit cfg (sys_queue s) ev).1)
| sys_event ev q :
    sys_queue s = ev :: q ->
    sys_step s (mkSys (Process cfg env ev (sys_st s)).2 q)
| sys_tick now :
    sys_step s (mkSys (reconcile cfg env now (sys_st s)).2 (sys_queue s))
| sys_crash h s' :
    h `suffix_of` hist (sys_st s) -> boots h s' -> sys_step s s'.

Definition sys_reachable (s : Sys) : Prop := exists s0, boots [] s0 /\ rtc sys_step s0 s.

(** ** The invariant holds in every reachable state *)

Context (seen : Node -> Prop) `{Hok : !EnvOk cfg env seen}.

Lemma boots_Inv h s : good cfg env seen h -> boots h s -> Inv cfg env seen (sys_st s).
Proof.
  intros Hg [now st0 Hl ->]. cbn.
  assert (Hi : Inv cfg env seen st0).
  { assert (Hi : Inv cfg env seen (loadState cfg env (mkSt ∅ h)).2)
      by apply (wp_elim _ _ _ (wp_loadState cfg env seen (mkSt ∅ h) Hg eq_refl)).
    by rewrite Hl in Hi. }
  by apply (wp_elim _ _ _ (wp_reconcile cfg env seen now st0 Hi)).
Qed.

(** The invariant of the controller: of its manager, and of its queue. *)
Definition sys_inv (s : Sys) : Prop :=
  Inv cfg env seen (sys_st s) /\ Forall storable_event (sys_queue s).

Lemma boots_inv h s : good cfg env seen h -> boots h s -> sys_inv s.
Proof.
  intros Hg Hb. split; [by eapply boots_Inv|]. destruct Hb as [? ? _ ->]. constructor.
Qed.

Lemma sys_step_inv s s' : sys_step s s' -> sys_inv s -> sys_inv s'.
Proof.
  intros Hs [Hi Hq]. destruct Hs as [ev Hev|ev q Hev|now|h s' Hh Hb].
  - split; [done|]. cbn. unfold Submit. destruct (_ <? _); [|done].
    apply Forall_app. by split; [|constructor].
  - rewrite Hev in Hq. apply Forall_cons in Hq as [He Hq]. split; [|done].
    by apply (wp_elim _ _ _ (wp_Process cfg env seen ev _ He Hi)).
  - split; [|done]. by apply (wp_elim _ _ _ (wp_reconcile cfg env seen now _ Hi)).
  - destruct Hi as [_ Hg]. eapply boots_inv; [|done]. by eapply good_suffix.
Qed.

Lemma sys_reachable_Inv s : sys_reachable s -> Inv cfg env seen (sys_st s).
Proof.
  intros (s0 & Hb & Hs). enough (sys_inv s) as [? _] by done. revert s Hs. apply rtc_ind_r.
  - apply boots_inv with []; [constructor|done].
  - eauto using sys_step_inv.
Qed.

(** Every split of a good history at a request gives its justification, and
    says whose answer it got. *)
Lemma good_create h1 node spec res h2 :
  good cfg env seen (h1 ++ ECreateInstance node spec res :: h2) ->
  create_ok cfg env node spec h2 /\ res = env_CreateInstance env h2 node spec.
Proof.
  intros Hg. assert (Hg' : good cfg env seen (ECreateInstance node spec res :: h2)).
  { eapply good_suffix; [|exact Hg]. by exists h1. }
  by inversion Hg'.
Qed.

(** ** Theorems *)

(** C1. Refinement: in every reachable state of the controller, handling any
    GitHub event and running the periodic reconciliation change the job map
    only through transitions of the abstract job machine, whatever GitHub,
    the agents, the file system and concurrent heartbeats do. *)
Theorem manager_refines_machine s ev now :
  sys_reachable s -> storable_event ev ->
  rtc (mstep cfg seen) (jobs (sys_st s)) (jobs (Process cfg env ev (sys_st s)).2)
  /\ rtc (mstep cfg seen) (jobs (sys_st s)) (jobs (reconcile cfg env now (sys_st s)).2).
Proof.
  intros Hi%sys_reachable_Inv Hev. split.
  - by apply (wp_elim _ _ _ (wp_Process cfg env seen ev _ Hev Hi)).
  - by apply (wp_elim _ _ _ (wp_reconcile cfg env seen now _ Hi)).
Qed.

(** C8. Job records are well formed at all times, in memory and on disk: in
    every reachable state, and for the state file as it is after every prefix
    of the history (so whenever the process dies), each record is stored
    under its own positive job id, has one of the six statuses, and has a
    node exactly as its status requires: none while pending or rejected, one
    while provisioning, running or waiting for cleanup; a running job has an
    instance, a pending or completed one has none. *)
Theorem job_records_ok s :
  sys_reachable s ->
  jobs_ok cfg (jobs (sys_st s))
  /\ forall h data js, h `suffix_of` hist (sys_st s) ->
     disk cfg env h = Some data -> unmarshalState data = Ok (Some js) -> jobs_ok cfg js.
Proof.
  intros [Hr Hg]%sys_reachable_Inv. split; [by eapply reach_jobs_ok|].
  intros h data js Hh Hd Hu. eapply good_suffix in Hg; [|done].
  apply good_disk_ok in Hg; [|done]. eapply reach_jobs_ok. by eapply Hg.
Qed.

(** C3. No overcommit, while reports are honest: let [total] bound what the
    nodes ever report as their total of a resource, and let every report
    either carry a positive total or offer less than one runner as free (as
    the report of a failed probe, which is all zero, does).  Then in every
    reachable state the jobs being provisioned, running or awaiting cleanup on
    a node reserve no more of it than that bound, however many events arrive
    between two heartbeats.  (A report with room but no total is believed:
    [place] caps only what has a positive total.) *)
Theorem no_overcommit s res total node :
  sys_reachable s ->
  (forall x, 0 <= total x <= int64_max) ->
  (forall n, seen n ->
     capacity_of res (node_Capacity n) <= total (node_ID n)
     /\ (0 < capacity_of res (node_Capacity n)
         \/ free_of res (node_Capacity n) < runner_size cfg res)) ->
  0 < runner_size cfg res ->
  0 <= reserved (amount res) (jobs (sys_st s)) node <= total node.
Proof.
  intros [Hr _]%sys_reachable_Inv Ht Hseen Hsize. split.
  - eapply reserved_nonneg; eauto using reach_jobs_ok.
  - by eapply reach_bounded.
Qed.

(** C4. The trust gate cannot be bypassed: in the history of every reachable
    state, each request to create a runner instance was preceded by a
    successful workflow-run lookup, the last lookup before the request, that
    the policy trusts for the repository the instance is created for. *)
Theorem only_trusted_runs_launch s h1 node spec res h2 :
  sys_reachable s ->
  hist (sys_st s) = h1 ++ ECreateInstance node spec res :: h2 ->
  exists run, last_run h2 = Some (Ok run)
    /\ (trustedWorkflowRun run (spec_Repository spec)).1 = true.
Proof.
  intros [_ Hg]%sys_reachable_Inv E. rewrite E in Hg.
  by apply good_create in Hg as [[Htr _] _].
Qed.

(** C5. Write-ahead: whenever an agent is asked to create an instance, the
    state file already holds the job as being provisioned on that node with
    the identifier of the JIT runner that was just generated, and the request
    carries that runner's configuration under the job's deterministic
    container name; a crash at that moment loses neither the container nor
    the runner. *)
Theorem provisioning_is_recorded_first s h1 node spec res h2 :
  sys_reachable s -> StateFile cfg <> "" ->
  hist (sys_st s) = h1 ++ ECreateInstance node spec res :: h2 ->
  exists id r jit data js,
    last_jit h2 = Some (Ok jit)
    /\ disk cfg env h2 = Some data /\ unmarshalState data = Ok (Some js) /\ js !! id = Some r
    /\ rec_Status r = jobProvisioning /\ rec_NodeID r = node_ID node
    /\ rec_RunnerID r = jit_RunnerID jit
    /\ spec_ID spec = containerJobID id /\ spec_Repository spec = rec_Repository r
    /\ spec_Environment spec !! "ACTIONS_RUNNER_INPUT_JITCONFIG" = Some (jit_EncodedConfig jit).
Proof.
  intros [_ Hg]%sys_reachable_Inv Hsf E. rewrite E in Hg.
  apply good_create in Hg as [[_ (id & r & jit & ? & _ & -> & _ & ? & ? & ? & Hd)] _].
  destruct (Hd Hsf) as (data & js & ? & ? & ?). exists id, r, jit, data, js.
  by split_and!.
Qed.
End system.

(** The queue is bounded and first-in first-out: [Submit] either appends
    the event and keeps the queue within its capacity, or reports
    [ErrEventQueueFull] and leaves the queue as it was, exactly when it is
    full; the capacity set up by [NewRunnerManager] is positive. *)
Theorem Submit_bounded cfg q ev :
  Z.of_nat (List.length q) <= QueueSize (with_defaults cfg) ->
  let '(q', err) := Submit (with_defaults cfg) q ev in
  Z.of_nat (List.length q') <= QueueSize (with_defaults cfg)
  /\ 0 < QueueSize (with_defaults cfg)
  /\ (err = None <-> q' = q ++ [ev])
  /\ (err <> None -> err = Some ErrEventQueueFull /\ q' = q
       /\ Z.of_nat (List.length q) = QueueSize (with_defaults cfg)).
Proof.
  intros Hq. assert (0 < QueueSize (with_defaults cfg)).
  { unfold with_defaults. cbn. destruct (Z.leb_spec (QueueSize cfg) 0); lia. }
  unfold Submit. destruct (Z.ltb_spec (Z.of_nat (List.length q)) (QueueSize (with_defaults cfg))).
  - rewrite length_app. cbn [List.length]. split_and!; [lia|lia|done|by intros []].
  - split_and!; try done; [|intros _; split_and!; try done; lia].
    split; [done|]. intros E. apply (f_equal List.length) in E.
    rewrite length_app in E. cbn in E. lia.
Qed.

(** ** Witnesses: the demo controller boots, receives and processes a job *)

Definition demo_boot : Sys :=
  mkSys (reconcile demo_cfg happy_env T0 (loadState demo_cfg happy_env empty_st).2).2 [].
Definition demo_submitted : Sys :=
  mkSys (sys_st demo_boot) (Submit demo_cfg (sys_queue demo_boot) (demo_event "queued")).1.
Definition demo_running : Sys :=
  mkSys (Process demo_cfg happy_env (demo_event "queued") (sys_st demo_submitted)).2 [].

Lemma demo_load :
  loadState demo_cfg happy_env empty_st = (None, (loadState demo_cfg happy_env empty_st).2).
Proof. vm_compute. reflexivity. Qed.

Lemma demo_queue : sys_queue demo_submitted = [demo_event "queued"].
Proof. vm_compute. reflexivity. Qed.

Lemma demo_reachable : sys_reachable demo_cfg happy_env demo_running.
Proof.
  exists demo_boot. split.
  - exact (boots_ok demo_cfg happy_env [] demo_boot T0 _ demo_load eq_refl).
  - exact (rtc_l _ _ _ _ (sys_submit demo_cfg happy_env demo_boot (demo_event "queued")
                              (demo_storable "queued"))
             (rtc_once _ _ (sys_event demo_cfg happy_env demo_submitted
                              (demo_event "queued") [] demo_queue))).
Qed.

Example demo_running_status : status_of (sys_st demo_running) 12 = Some jobRunning.
Proof. vm_compute. reflexivity. Qed.

Lemma manager_refines_machine_witness :
  rtc (mstep demo_cfg demo_seen) (jobs (sys_st demo_running))
    (jobs (Process demo_cfg happy_env (demo_event "completed") (sys_st demo_running)).2).
Proof.
  exact (proj1 (manager_refines_machine demo_cfg happy_env demo_seen demo_running
                  (demo_event "completed") T0 demo_reachable (demo_storable "completed"))).
Defined.

Lemma job_records_ok_witness : jobs_ok demo_cfg (jobs (sys_st demo_running)).
Proof.
  exact (proj1 (job_records_ok demo_cfg happy_env demo_seen demo_running demo_reachable)).
Defined.

Definition demo_total (node : string) : Z :=
  if String.eqb node "e5" then 12 else if String.eqb node "pi" then 4 else 0.

Lemma demo_seen_total n :
  demo_seen n -> capacity_of CPU (node_Capacity n) <= demo_total (node_ID n)
    /\ (0 < capacity_of CPU (node_Capacity n)
        \/ free_of CPU (node_Capacity n) < runner_size demo_cfg CPU).
Proof.
  intros (id & Hn). unfold fleet_at in Hn. cbn in Hn.
  apply lookup_insert_Some in Hn as [[_ <-]|[_ Hn]]; [split; [done|by left]|].
  apply lookup_insert_Some in Hn as [[_ <-]|[_ Hn]]; [split; [done|by left]|].
  by apply lookup_empty_Some in Hn.
Qed.

(** The report of a failed probe meets the condition of [no_overcommit]. *)
Example failed_probe_honest res total :
  0 <= total -> 0 < runner_size demo_cfg res ->
  capacity_of res zeroCapacity <= total
  /\ (0 < capacity_of res zeroCapacity \/ free_of res zeroCapacity < runner_size demo_cfg res).
Proof. intros Ht Hs. destruct res; cbn; (split; [done|by right]). Qed.

Lemma demo_total_range x : 0 <= demo_total x <= int64_max.
Proof. unfold demo_total, int64_max. repeat destruct_match; lia. Qed.

Lemma no_overcommit_witness :
  0 <= reserved (amount CPU) (jobs (sys_st demo_running)) "e5" <= 12.
Proof.
  exact (no_overcommit demo_cfg happy_env demo_seen demo_running CPU demo_total "e5"
           demo_reachable demo_total_range demo_seen_total eq_refl).
Defined.

(** The instance request in the history of [demo_running]. *)
Definition demo_history : History := hist (sys_st demo_running).
Definition demo_create : Node * JobSpec * result Instance_ :=
  match demo_history !! 4%nat with
  | Some (ECreateInstance n spec res) => (n, spec, res)
  | _ => (zeroNode, job_spec demo_cfg 0 zeroJobRecord (mkJITConfig 0 ""), Err ErrNoPlacement)
  end.

Lemma demo_split :
  demo_history = take 4 demo_history
    ++ ECreateInstance demo_create.1.1 demo_create.1.2 demo_create.2 :: drop 5 demo_history.
Proof. vm_compute. reflexivity. Qed.

Lemma only_trusted_runs_launch_witness :
  exists run, last_run (drop 5 demo_history) = Some (Ok run)
    /\ (trustedWorkflowRun run (spec_Repository demo_create.1.2)).1 = true.
Proof.
  exact (only_trusted_runs_launch demo_cfg happy_env demo_seen demo_running
           (take 4 demo_history) demo_create.1.1 demo_create.1.2 demo_create.2
           (drop 5 demo_history) demo_reachable demo_split).
Defined.

Lemma provisioning_is_recorded_first_witness :
  exists id r jit data js,
    last_jit (drop 5 demo_history) = Some (Ok jit)
    /\ disk demo_cfg happy_env (drop 5 demo_history) = Some data
    /\ unmarshalState data = Ok (Some js) /\ js !! id = Some r
    /\ rec_Status r = jobProvisioning /\ rec_NodeID r = node_ID demo_create.1.1
    /\ rec_RunnerID r = jit_RunnerID jit
    /\ spec_ID demo_create.1.2 = containerJobID id
    /\ spec_Repository demo_create.1.2 = rec_Repository r
    /\ spec_Environment demo_create.1.2 !! "ACTIONS_RUNNER_INPUT_JITCONFIG"
       = Some (jit_EncodedConfig jit).
Proof.
  exact (provisioning_is_recorded_first demo_cfg happy_env demo_seen demo_running
           (take 4 demo_history) demo_create.1.1 demo_create.1.2 demo_create.2
           (drop 5 demo_history) demo_reachable ltac:(discriminate) demo_split).
Defined.

Lemma Submit_bounded_witness :
  let '(q', err) := Submit demo_cfg [] (demo_event "queued") in
  Z.of_nat (List.length q') <= 256 /\ 0 < 256
  /\ (err = None <-> q' = [] ++ [demo_event "queued"])
  /\ (err <> None -> err = Some ErrEventQueueFull /\ q' = [] /\ Z.of_nat (@List.length Z []) = 256).
Proof.
  exact (Submit_bounded (mkConfig "" 0 "" 2 1024 Hour "/var/lib/cifleet/state.json" 0 0 0) []
           (demo_event "queued") ltac:(vm_compute; discriminate)).
Defined.
