(* ===== verification/Lifecycle.v ===== *)
(** * What each operation of the runner manager does

    [Refinement.v] bounds what the operations may do in every environment;
    this file says what they do: the state file is replaced atomically and
    read back, deliveries are idempotent, a completion tears the instance
    down, and a teardown that failed is retried.  Launching and recovering are
    in [Progress.v]. *)

From S2P Require Import Prelude GoTime GoStrings GoDate GoUtf8 Model Scheduler Server Policy Jobs Wire WireOk Env Manager Machine Refinement Scenario System.
From stdpp Require Import base list strings gmap.
From Stdlib Require Import ZArith String Lia.
Open Scope string_scope.
Open Scope list_scope.
Open Scope Z_scope.

(** The requests to GitHub and the agents in a history. *)
Definition is_remote (e : Event) : bool :=
  match e with
  | EGetWorkflowRun _ _ _ _ _ | EGenerateJITConfig _ _ _ _ _ _ _ | EDeleteRunner _ _ _ _ _
  | ECreateInstance _ _ _ | EDestroyInstance _ _ _ => true
  | _ => false
  end.

Definition remote (h : History) : History := List.filter is_remote h.

Lemma remote_app h1 h2 : remote (h1 ++ h2) = remote h1 ++ remote h2.
Proof. apply List.filter_app. Qed.

Section lifecycle.
Context `{Unicode}.
Context (cfg : RunnerManagerConfig) (env : Env).

Notation disk := (disk cfg env).

(** [st'] extends the history of [st] by [new]. *)
Definition extends (st st' : St) (new : History) : Prop := hist st' = new ++ hist st.

(** [st'] differs from [st] by local calls only: clock, registry, disk. *)
Definition locally (st st' : St) : Prop :=
  jobs st' = jobs st /\ exists new, extends st st' new /\ remote new = [].

#[export] Instance locally_refl : Reflexive locally.
Proof. intros st. split; [done|]. by exists []. Qed.

#[export] Instance locally_trans : Transitive locally.
Proof.
  intros st1 st2 st3 (Hj & n & Hh & Hr) (Hj' & n' & Hh' & Hr'). split; [congruence|].
  exists (n' ++ n). unfold extends in *. rewrite Hh', Hh, app_assoc, remote_app, Hr, Hr'. done.
Qed.

Lemma locally_call st e :
  is_remote e = false -> locally st (mkSt (jobs st) (e :: hist st)).
Proof. intros He. split; [done|]. exists [e]. unfold remote. cbn. by rewrite He. Qed.

Lemma locally_calls st new :
  remote new = [] -> locally st (mkSt (jobs st) (new ++ hist st)).
Proof. intros Hr. split; [done|]. by exists new. Qed.

Lemma locally_remote st st' : locally st st' -> remote (hist st') = remote (hist st).
Proof. intros (_ & n & -> & Hr). by rewrite remote_app, Hr. Qed.

(** ** The state file *)

Lemma wp_save Q st :
  (forall err st', locally st st' -> Q err st') -> wp (saveLocked cfg env) Q st.
Proof.
  intros HQ. unfold saveLocked. destruct (String.eqb _ ""); [by apply wp_ret, HQ|].
  apply wp_bind, wp_call. intros [e|] _; [apply wp_ret, HQ; by apply locally_call|].
  set (st1 := mkSt _ _). assert (V1 : locally st st1) by by apply locally_call.
  clearbody st1. apply wp_bind, wp_get_jobs.
  destruct (marshalState _) as [data|e]; [|by apply wp_ret, HQ].
  apply wp_bind, wp_call. intros err _. set (st2 := mkSt _ _).
  assert (V2 : locally st st2) by (etrans; [done|by apply locally_call]). clearbody st2.
  destruct err as [[e p]|]; [by apply wp_ret, HQ|].
  apply wp_bind, wp_call. intros err _.
  destruct err; apply wp_ret, HQ; (etrans; [done|by apply locally_call]).
Qed.

(** Between [h0] and [h] the state file is as it was or holds [js]. *)
Definition old_or_new (js : gmap Z JobRecord) (h0 h : History) : Prop :=
  disk h = disk h0 \/ exists data, marshalState js = Ok data /\ disk h = Some data.

Definition safe_since (js : gmap Z JobRecord) (h0 h : History) : Prop :=
  h0 `suffix_of` h
  /\ forall h', h0 `suffix_of` h' -> h' `suffix_of` h -> old_or_new js h0 h'.

Lemma safe_since_refl js h : safe_since js h h.
Proof.
  split; [done|]. intros h' H1 H2. left. f_equal. by apply (anti_symm suffix).
Qed.

Lemma safe_since_cons js h0 e h :
  safe_since js h0 h -> old_or_new js h0 (e :: h) -> safe_since js h0 (e :: h).
Proof.
  intros [Hs Hh] He. split; [by apply suffix_cons_r|]. intros h' H1 H2.
  destruct H2 as [[|x k] E]; cbn in E; [by subst h'|].
  injection E as _ ->. apply Hh; [done|by exists k].
Qed.

Lemma wp_saveLocked_disk st :
  StateFile cfg <> "" ->
  wp (saveLocked cfg env) (fun err st' =>
    jobs st' = jobs st /\ safe_since (jobs st) (hist st) (hist st')
    /\ match err with
       | None => exists data, marshalState (jobs st) = Ok data /\ disk (hist st') = Some data
       | Some _ => disk (hist st') = disk (hist st)
       end) st.
Proof.
  intros Hsf. unfold saveLocked. destruct (String.eqb_spec (StateFile cfg) "") as [|_]; [done|].
  pose proof (safe_since_refl (jobs st) (hist st)) as S0.
  apply wp_bind, wp_call. intros err _.
  eapply (safe_since_cons _ _ (EMkdirAll _ err)) in S0; [|by left].
  destruct err as [e|]; [by apply wp_ret|].
  apply wp_bind, wp_get_jobs. cbn [jobs].
  destruct (marshalState (jobs st)) as [data|e] eqn:Em; [|by apply wp_ret].
  apply wp_bind, wp_call. intros err _. cbn [hist jobs].
  assert (Hd : disk (EWriteFile (tmp_file cfg) data err
                       :: EMkdirAll (filepath_Dir (StateFile cfg)) None :: hist st)
               = disk (hist st)).
  { unfold Refinement.disk. cbn. destruct err as [[e [p|]]|];
      rewrite ?lookup_insert_ne by apply tmp_file_ne; done. }
  eapply (safe_since_cons _ _ (EWriteFile _ data err)) in S0; [|by left].
  destruct err as [[e p]|]; [by apply wp_ret|].
  apply wp_bind, wp_call. intros err _. cbn [hist jobs].
  destruct err as [e|]; apply wp_ret; split_and!; try done.
  - apply safe_since_cons; [done|]. by left.
  - apply safe_since_cons; [done|]. right. exists data. split; [done|].
    unfold Refinement.disk. cbn. by rewrite !lookup_insert_eq.
  - exists data. split; [done|]. unfold Refinement.disk. cbn. by rewrite !lookup_insert_eq.
Qed.

(** C9. The state file is replaced atomically: at every point of
    [saveLocked], so whenever the process dies, the file has its old content
    or the complete encoding of the job map; it has the new content if
    [saveLocked] returns nil and the old one if it returns an error; the job
    map itself does not change. *)
Theorem saveLocked_atomic st :
  StateFile cfg <> "" ->
  let '(err, st') := saveLocked cfg env st in
  jobs st' = jobs st
  /\ hist st `suffix_of` hist st'
  /\ (forall h, hist st `suffix_of` h -> h `suffix_of` hist st' ->
        old_or_new (jobs st) (hist st) h)
  /\ match err with
     | None => exists data, marshalState (jobs st) = Ok data /\ disk (hist st') = Some data
     | Some _ => disk (hist st') = disk (hist st)
     end.
Proof.
  intros Hsf. apply wp_let. eapply wp_mono; [by apply wp_saveLocked_disk|].
  intros err st' (Hj & [Hs Hh] & He). by split_and!.
Qed.
(** C33. Save and restart: once [saveLocked] has returned nil, a new process
    that can read the file starts, whatever the old process called
    meanwhile without touching the file, with exactly the job map that was
    saved. *)
Theorem save_restart_roundtrip st st' h :
  StateFile cfg <> "" -> all_storable (jobs st) ->
  saveLocked cfg env st = (None, st') ->
  disk h = disk (hist st') -> env_ReadFile env h (StateFile cfg) = None ->
  exists st0, NewRunnerManager env true cfg (mkSt (jobs st') h) = (Ok (with_defaults cfg), st0)
    /\ jobs st0 = jobs st.
Proof.
  intros Hsf Hsto Hs Hd Hread. pose proof (wp_elim _ _ _ (wp_saveLocked_disk st Hsf)) as Hw.
  rewrite Hs in Hw. destruct Hw as (_ & _ & data & Hm & Hdata). cbn in Hdata.
  apply unmarshal_marshal in Hm; [|done]. rewrite <- Hd in Hdata. unfold Refinement.disk in Hdata.
  unfold NewRunnerManager, loadState, os_ReadFile, put_jobs, get_hist, call, mbind, M_bind, mret,
    M_ret. cbn. destruct (String.eqb_spec (StateFile cfg) ""); [done|]. cbn.
  rewrite Hread. cbn. rewrite Hdata, Hm. cbn. by eexists.
Qed.

(** A process never starts from a state file it cannot read or decode:
    [NewRunnerManager] reports the error, and it succeeds with an empty job
    map when there is no file yet. *)
Theorem NewRunnerManager_load h js :
  StateFile cfg <> "" ->
  let '(res, st') := NewRunnerManager env true cfg (mkSt js h) in
  (forall e, env_ReadFile env h (StateFile cfg) = Some e ->
     res = Err (ErrWrap "read controller state" e))
  /\ (env_ReadFile env h (StateFile cfg) = None ->
      match disk h with
      | None => res = Ok (with_defaults cfg) /\ jobs st' = ∅
      | Some data =>
          match unmarshalState data with
          | Err e => res = Err (ErrWrap "decode controller state" e)
          | Ok loaded => res = Ok (with_defaults cfg) /\ jobs st' = default ∅ loaded
          end
      end).
Proof.
  intros Hsf.
  unfold NewRunnerManager, loadState, os_ReadFile, put_jobs, get_hist, call, mbind, M_bind, mret,
    M_ret, Refinement.disk. cbn. destruct (String.eqb_spec (StateFile cfg) ""); [done|]. cbn.
  destruct (env_ReadFile env h (StateFile cfg)) as [e|]; cbn; [split; [|done]; by intros e' [= <-]|].
  destruct (fs_after (env_files env) h !! StateFile cfg) as [data|]; cbn; [|done].
  by destruct (unmarshalState data) as [[loaded|]|e].
Qed.

(** ** Deliveries *)

Lemma Process_absorbed ev st r :
  jobs st !! job_ID (ev_Job ev) = Some r ->
  ev_Action ev = "queued" \/ rec_Status r = jobCompleted ->
  (Process cfg env ev st).2 = st.
Proof.
  intros Hid Hor. unfold Process.
  destruct (String.eqb_spec (ev_Action ev) "queued") as [Hq|Hq].
  - unfold handleQueued. do 2 (destruct_match; [done|]). destruct_match; [|done].
    destruct_match. unfold get_job, get_jobs, mbind, M_bind, mret, M_ret. cbn. by rewrite Hid.
  - destruct (String.eqb _ "completed"); [|done]. destruct Hor as [?|Hc]; [done|].
    unfold handleCompleted. destruct_match; [done|].
    unfold get_job, get_jobs, mbind, M_bind, mret, M_ret. cbn. rewrite Hid, Hc. done.
Qed.

Fixpoint process_all (evs : list WorkflowJobEvent) (st : St) : St :=
  match evs with
  | [] => st
  | ev :: evs' => process_all evs' (Process cfg env ev st).2
  end.

(** Webhook deliveries are idempotent: any sequence of [queued] events of
    known jobs and of events of completed jobs changes nothing and calls
    nothing: no lookup, no runner, no write. *)
Theorem redeliveries_ignored evs st :
  (forall ev, ev ∈ evs -> exists r, jobs st !! job_ID (ev_Job ev) = Some r
     /\ (ev_Action ev = "queued" \/ rec_Status r = jobCompleted)) ->
  process_all evs st = st.
Proof.
  induction evs as [|ev evs IH]; cbn; intros Hevs; [done|].
  destruct (Hevs ev) as (r & Hid & Hr); [by left|].
  rewrite (Process_absorbed ev st r) by done. apply IH. intros ev' Hev'. apply Hevs. by right.
Qed.

(** ** Updates of one record *)

(** The state in which record [id] has been replaced by [r]. *)
Definition with_job (id : Z) (r : JobRecord) (st : St) : St :=
  mkSt (<[id := r]> (jobs st)) (hist st).

Lemma wp_update id f Q st :
  (forall err st', locally (with_job id (f (default zeroJobRecord (jobs st !! id))) st) st' ->
     Q err st') ->
  wp (update_job cfg env id f) Q st.
Proof.
  intros HQ. unfold update_job. apply wp_bind, wp_get_jobs, wp_bind, wp_put_jobs.
  by apply wp_save.
Qed.

Lemma with_job_locally id r st st1 st' :
  locally st st1 -> locally (with_job id r st1) st' ->
  jobs st' = <[id := r]> (jobs st) /\ remote (hist st') = remote (hist st).
Proof.
  intros V1 V2. split.
  - destruct V1 as [Hj1 _], V2 as [Hj2 _]. cbn in Hj2. by rewrite Hj2, Hj1.
  - rewrite (locally_remote _ _ V2). cbn [with_job hist]. by apply locally_remote.
Qed.

(** The clock is read once. *)
Lemma wp_update_at id f r Q st :
  jobs st !! id = Some r ->
  (forall err st', jobs st' = <[id := f (env_now env (hist st)) r]> (jobs st) ->
     remote (hist st') = remote (hist st) -> Q err st') ->
  wp (update_job_now cfg env id f) Q st.
Proof.
  intros Hid HQ. unfold update_job_now. apply wp_bind, wp_call. intros t ->.
  apply wp_update. cbn [jobs]. rewrite Hid. intros err st' V.
  eapply (with_job_locally _ _ st) in V as [Hj Hr]; [|by apply locally_call]. by eapply HQ.
Qed.

Lemma wp_update_now id f r Q st :
  jobs st !! id = Some r ->
  (forall err t st', jobs st' = <[id := f t r]> (jobs st) ->
     remote (hist st') = remote (hist st) -> Q err st') ->
  wp (update_job_now cfg env id f) Q st.
Proof. intros Hid HQ. apply (wp_update_at _ _ r); [done|]. intros err st'. by apply HQ. Qed.

(** ** Teardown *)

(** Where a record's instance is destroyed, and by which name. *)
Definition teardown_node (r : JobRecord) (st : St) : option Node :=
  if String.eqb (rec_NodeID r) "" then None
  else nodes (env_server env (hist st)) !! rec_NodeID r.
Definition teardown_name (r : JobRecord) (id : Z) : string :=
  if String.eqb (rec_InstanceID r) "" then containerName id else rec_InstanceID r.

(** The requests a teardown makes, newest first. *)
Definition delete_events (r : JobRecord) (res : option error) : History :=
  if 0 <? rec_RunnerID r
  then [EDeleteRunner (rec_InstallationID r) (rec_Owner r) (rec_Repo r) (rec_RunnerID r) res]
  else [].

Lemma wp_destroy r id Q st :
  (teardown_node r st = None -> forall st', locally st st' -> Q None st') ->
  (forall n err st', teardown_node r st = Some n -> jobs st' = jobs st ->
     remote (hist st') = EDestroyInstance n (teardown_name r id) err :: remote (hist st) ->
     Q err st') ->
  wp (destroy_recorded env r id) Q st.
Proof.
  intros Hnone Hsome. unfold destroy_recorded, teardown_node in *.
  destruct (String.eqb _ ""); [by apply wp_ret, Hnone|].
  unfold rawNode. apply wp_bind, wp_bind, wp_call. intros srv ->. apply wp_ret.
  destruct (nodes _ !! _) as [n|]; [|by apply wp_ret, Hnone; try apply locally_call].
  apply wp_call. intros err _. by eapply Hsome.
Qed.

Lemma wp_delete r Q st :
  (forall res st', jobs st' = jobs st ->
     remote (hist st') = delete_events r res ++ remote (hist st) -> Q tt st') ->
  wp (delete_recorded env r) Q st.
Proof.
  intros HQ. unfold delete_recorded, delete_events in *.
  destruct (0 <? rec_RunnerID r); [|by apply wp_ret, (HQ None)].
  apply wp_bind, wp_call. intros res _. apply wp_ret. by eapply HQ.
Qed.

Lemma wp_delete_complete r id r' Q st :
  jobs st !! id = Some r' ->
  (forall err res t st', jobs st' = <[id := set_completed r' t]> (jobs st) ->
     remote (hist st') = delete_events r res ++ remote (hist st) -> Q err st') ->
  wp (delete_recorded env r;; update_job_now cfg env id (fun now c => set_completed c now)) Q st.
Proof.
  intros Hid HQ. apply wp_bind, wp_delete. intros res st1 Hj1 Hr1.
  apply wp_update_now with r'; [by rewrite Hj1|]. intros err t st2 Hj2 Hr2.
  rewrite Hj1 in Hj2. rewrite Hr1 in Hr2. by eapply HQ.
Qed.

(** A teardown went through: the instance was destroyed if its node is
    known, then the runner was deleted, then the record completed. *)
Definition torn_down (id : Z) (r : JobRecord) (st st' : St) : Prop :=
  exists res t,
    jobs st' = <[id := set_completed r t]> (jobs st)
    /\ remote (hist st') =
         delete_events r res
         ++ match teardown_node r st with
            | Some n => [EDestroyInstance n (teardown_name r id) None]
            | None => []
            end ++ remote (hist st).

(** The agent refused: one request was made, the runner is not deleted. *)
Definition refused (id : Z) (r : JobRecord) (e : error) (st st' : St) : Prop :=
  exists n, teardown_node r st = Some n
    /\ remote (hist st') = EDestroyInstance n (teardown_name r id) (Some e) :: remote (hist st).

Lemma wp_teardown id r Q st (fail : error -> M (option error)) :
  jobs st !! id = Some r ->
  (forall err st', torn_down id r st st' -> Q err st') ->
  (forall e st1, jobs st1 = jobs st -> refused id r e st st1 -> wp (fail e) Q st1) ->
  wp (err ← destroy_recorded env r id;
      match err with
      | Some e => fail e
      | None =>
          delete_recorded env r;;
          update_job_now cfg env id (fun now c => set_completed c now)
      end) Q st.
Proof.
  intros Hid Hok Hfail. apply wp_bind, wp_destroy.
  - intros Hn st1 V1. pose proof (locally_remote _ _ V1) as Hr1. destruct V1 as [Hj1 _].
    apply wp_delete_complete with r; [by rewrite Hj1|].
    intros err res t st2 Hj2 Hr2. apply Hok. exists res, t. rewrite Hn, <- Hj1. cbn.
    by rewrite <- Hr1.
  - intros n [e|] st1 Hn Hj1 Hr1; [apply Hfail; [done|by exists n]|].
    apply wp_delete_complete with r; [by rewrite Hj1|].
    intros err res t st2 Hj2 Hr2. apply Hok. exists res, t. rewrite Hn, <- Hj1. cbn.
    by rewrite <- Hr1.
Qed.

(** C29. A completion tears the job down: for a job that is not completed,
    [handleCompleted] asks the recorded node, if it is registered, to destroy
    the instance (by its identifier, else by the deterministic name), then
    deletes the JIT runner and completes the record; if the agent fails,
    the error is returned, the runner is kept and the record, with its node
    and instance, waits for cleanup.  No other request is made. *)
Theorem handleCompleted_correct ev st r :
  let id := job_ID (ev_Job ev) in
  0 < id -> jobs st !! id = Some r -> rec_Status r <> jobCompleted ->
  let '(err, st') := handleCompleted cfg env ev st in
  torn_down id r st st'
  \/ exists e t, err <> None /\ refused id r e st st'
       /\ jobs st' = <[id := set_status r jobCleanupPending t]> (jobs st).
Proof.
  intros id Hpos Hid Hst.
  apply wp_let. unfold handleCompleted, get_job. destruct (Z.leb_spec (job_ID (ev_Job ev)) 0); [lia|].
  apply wp_bind, wp_bind, wp_get_jobs, wp_ret. unfold id in *. rewrite Hid.
  destruct (String.eqb_spec (rec_Status r) jobCompleted) as [|_]; [done|].
  apply wp_teardown; [done|by left|]. intros e st1 Hj1 (n & Hn & Hr1).
  apply wp_bind, (wp_update_now _ _ r); [by rewrite Hj1|]. intros se t st2 Hj2 Hr2.
  destruct se; apply wp_ret; right; exists e, t; rewrite <- Hj1;
    (split_and!; [done|exists n; by rewrite Hr2|done]).
Qed.

(** C30. Cleanup is retried until it succeeds: reconciliation of a job that
    waits for cleanup, or that still runs more than two minutes past its
    deadline, tears it down as a completion would; if the agent fails the
    record stays as it is, so the next reconciliation tries again. *)
Theorem cleanup_retried now id st r :
  jobs st !! id = Some r -> rec_JobID r = id ->
  rec_Status r = jobCleanupPending
  \/ rec_Status r = jobRunning /\ rec_Deadline r <> zeroTime
      /\ time_Add (rec_Deadline r) (2 * Minute) < now ->
  let '(err, st') := reconcile_job cfg env now id st in
  torn_down id r st st'
  \/ exists e, err = Some e /\ refused id r e st st' /\ jobs st' = jobs st.
Proof.
  intros Hid Hrid Hst.
  assert (Hw : wp (cleanupRecord cfg env r) (fun err st' =>
    torn_down id r st st' \/ exists e, err = Some e /\ refused id r e st st'
                                      /\ jobs st' = jobs st) st).
  { unfold cleanupRecord. rewrite Hrid. apply wp_teardown; [done|by left|].
    intros e st1 Hj1 Hr1. apply wp_ret. right. eauto. }
  assert (Hrec : reconcile_job cfg env now id st = cleanupRecord cfg env r st).
  { unfold reconcile_job, get_job, get_jobs, mbind, M_bind, mret, M_ret. cbn. rewrite Hid.
    destruct Hst as [->|(-> & Hdl & Hnow)]; [done|]. cbn.
    unfold time_IsZero, time_After. by replace (rec_Deadline r =? zeroTime) with false by lia;
      replace (time_Add (rec_Deadline r) (2 * Minute) <? now) with true by lia. }
  rewrite Hrec. by apply wp_let.
Qed.

(** Reconciliation and deliveries leave a completed record alone. *)
Lemma reconcile_completed now id st r :
  jobs st !! id = Some r -> rec_Status r = jobCompleted ->
  (reconcile_job cfg env now id st).2 = st.
Proof.
  intros Hid Hr. unfold reconcile_job, get_job, get_jobs, mbind, M_bind, mret, M_ret. cbn.
  by rewrite Hid, Hr.
Qed.

Lemma delete_events_no_destroy r res n i e : EDestroyInstance n i e ∉ delete_events r res.
Proof.
  unfold delete_events. destruct (0 <? rec_RunnerID r);
    [by intros [?|?%not_elem_of_nil]%elem_of_cons|by intros ?%not_elem_of_nil].
Qed.

(** C40. The registry decides whether a teardown happens: when the recorded
    node is not in the registry (it is empty after a restart, until the
    nodes' next heartbeats), reconciliation completes a job that waits for
    cleanup without asking any node to destroy its instance: the only request
    it may make is the one that deletes the JIT runner.  As long as the
    completed record exists nothing makes up for it: in every state that has it,
    whatever the time, the history (so the registry) and the other jobs, a reconciliation of that job and a
    delivery that names it change nothing and call nothing.  The record stays
    as it is until it is pruned: the only transition of the job machine that
    touches it deletes it. *)
Theorem cleanup_forgotten_node now id st r :
  jobs st !! id = Some r -> rec_JobID r = id -> rec_Status r = jobCleanupPending ->
  nodes (env_server env (hist st)) !! rec_NodeID r = None ->
  let st' := (reconcile_job cfg env now id st).2 in
  exists t res, let r' := set_completed r t in
    jobs st' = <[id := r']> (jobs st)
    /\ remote (hist st') = delete_events r res ++ remote (hist st)
    /\ (forall n i e, EDestroyInstance n i e ∉ delete_events r res)
    /\ forall st2, jobs st2 !! id = Some r' ->
         (forall now2, (reconcile_job cfg env now2 id st2).2 = st2)
         /\ (forall ev, job_ID (ev_Job ev) = id -> (Process cfg env ev st2).2 = st2)
         /\ (forall seen js, mstep cfg seen (jobs st2) js ->
               js !! id = Some r' \/ js = delete id (jobs st2)).
Proof.
  intros Hid Hrid Hst Hnode.
  assert (Hn : teardown_node r st = None) by (unfold teardown_node; by destruct_match).
  assert (Hw : wp (reconcile_job cfg env now id) (fun _ st' => torn_down id r st st') st).
  { unfold reconcile_job, get_job. apply wp_bind, wp_bind, wp_get_jobs, wp_ret.
    rewrite Hid, Hst. cbn [String.eqb]. change (wp (cleanupRecord cfg env r) (fun _ st' => torn_down id r st st') st).
    unfold cleanupRecord. rewrite Hrid. apply wp_teardown; [done|done|].
    intros e st1 _ (n & Hn' & _). congruence. }
  apply wp_elim in Hw. intros st'. destruct Hw as (res & t & Hj & Hr). fold st' in Hj, Hr.
  rewrite Hn in Hr. exists t, res. intros r'.
  split_and!; [done|done|apply delete_events_no_destroy|]. intros st2 Hid2. split_and!.
  - intros now2. by apply reconcile_completed with r'.
  - intros ev Hev. apply Process_absorbed with r'; [by rewrite Hev|by right].
  - intros seen js Hm. by eapply completed_final.
Qed.

(** ** Completions that arrive first *)

Lemma wp_handleCompleted_unknown ev st :
  let id := job_ID (ev_Job ev) in
  storable_event ev -> 0 < id -> jobs st !! id = None ->
  wp (handleCompleted cfg env ev) (fun _ st' =>
    exists r, jobs st' = <[id := r]> (jobs st) /\ tombstone id r
      /\ (remote (hist st') = remote (hist st)
          \/ exists n res, remote (hist st')
               = EDestroyInstance n (containerName id) res :: remote (hist st))) st.
Proof.
  intros id Hev Hpos Hid. unfold handleCompleted, get_job, id in *.
  destruct (Z.leb_spec (job_ID (ev_Job ev)) 0); [lia|].
  apply wp_bind, wp_bind, wp_get_jobs, wp_ret. rewrite Hid.
  apply wp_bind, (wp_mono _ (fun _ st' => locally st st')).
  { unfold nodeFromRunnerName. destruct (String.eqb _ ""); [by apply wp_ret|].
    apply wp_bind, wp_call. intros srv _. apply wp_bind, wp_call. intros picks _.
    apply wp_ret. by do 2 (etrans; [|by apply locally_call]). }
  intros o st1 V1. pose proof (locally_remote _ _ V1) as Hr1. destruct V1 as [Hj1 _].
  apply wp_bind, (wp_mono _ (fun _ st' => jobs st' = jobs st /\
    (remote (hist st') = remote (hist st) \/ exists n res, remote (hist st')
       = EDestroyInstance n (containerName (job_ID (ev_Job ev))) res :: remote (hist st)))).
  { destruct o as [n|]; [|apply wp_ret; auto].
    apply wp_call. intros res _. split; [done|]. right. exists n, res. cbn. by rewrite <- Hr1. }
  intros _ st2 [Hj2 Hr2]. apply wp_bind, wp_call. intros t _. apply wp_update.
  intros err st3 V3. eapply (with_job_locally _ _ st2) in V3 as [Hj3 Hr3];
    [|by apply locally_call].
  eexists. rewrite Hj3, Hj2, Hr3. split_and!; [done| |done]. split; try done.
  by apply storable_tombstone.
Qed.

(** C32. Out-of-order deliveries: when the completion of an unknown job comes
    first, it leaves a tombstone (asking at most one node to destroy the
    job's container), and the [queued] event that comes later is ignored: no
    runner is started for a job that is over. *)
Theorem completed_before_queued done_ev queued_ev st :
  let id := job_ID (ev_Job done_ev) in
  storable_event done_ev -> 0 < id -> jobs st !! id = None ->
  ev_Action done_ev = "completed" -> ev_Action queued_ev = "queued" ->
  job_ID (ev_Job queued_ev) = id ->
  let st1 := (Process cfg env done_ev st).2 in
  (exists r, jobs st1 = <[id := r]> (jobs st) /\ tombstone id r
     /\ (remote (hist st1) = remote (hist st)
         \/ exists n res, remote (hist st1)
              = EDestroyInstance n (containerName id) res :: remote (hist st)))
  /\ (Process cfg env queued_ev st1).2 = st1.
Proof.
  intros id Hev Hpos Hid Hdone Hqueued Hsame st1.
  assert (Hp : Process cfg env done_ev st = handleCompleted cfg env done_ev st)
    by (unfold Process; by rewrite Hdone).
  pose proof (wp_elim _ _ _ (wp_handleCompleted_unknown done_ev st Hev Hpos Hid)) as Hw.
  cbn beta in Hw. rewrite <- Hp in Hw. split; [exact Hw|].
  destruct Hw as (r & Hj & _). apply Process_absorbed with r; [|by left].
  unfold st1. rewrite Hsame, Hj. apply lookup_insert_eq.
Qed.
End lifecycle.

(** ** Witnesses *)

Lemma saveLocked_atomic_witness :
  let '(err, st') := saveLocked demo_cfg happy_env (with_record running_job) in
  jobs st' = {[12 := running_job]}
  /\ [] `suffix_of` hist st'
  /\ (forall h, [] `suffix_of` h -> h `suffix_of` hist st' ->
        old_or_new demo_cfg happy_env {[12 := running_job]} [] h)
  /\ match err with
     | None => exists data, marshalState {[12 := running_job]} = Ok data
                            /\ disk demo_cfg happy_env (hist st') = Some data
     | Some _ => disk demo_cfg happy_env (hist st') = disk demo_cfg happy_env []
     end.
Proof.
  exact (saveLocked_atomic demo_cfg happy_env (with_record running_job) ltac:(discriminate)).
Defined.

Definition saved_st : St := (saveLocked demo_cfg happy_env (with_record running_job)).2.

Lemma saved_st_eq : saveLocked demo_cfg happy_env (with_record running_job) = (None, saved_st).
Proof. vm_compute. reflexivity. Qed.

Lemma running_job_storable : all_storable (jobs (with_record running_job)).
Proof.
  intros id r Hr. apply (lookup_singleton_Some 12 id running_job r) in Hr as [<- <-]. split; [done|].
  split; unfold utf8s; cbn; storables.
Qed.

Lemma save_restart_roundtrip_witness :
  exists st0, NewRunnerManager happy_env true demo_cfg (mkSt (jobs saved_st) (hist saved_st))
              = (Ok (with_defaults demo_cfg), st0)
    /\ jobs st0 = {[12 := running_job]}.
Proof.
  exact (save_restart_roundtrip demo_cfg happy_env (with_record running_job) saved_st
           (hist saved_st) ltac:(discriminate) running_job_storable saved_st_eq eq_refl eq_refl).
Defined.

Lemma NewRunnerManager_load_witness :
  let '(res, st') := NewRunnerManager happy_env true demo_cfg (mkSt ∅ []) in
  (forall e, None = Some e -> res = Err (ErrWrap "read controller state" e))
  /\ (@None error = None -> res = Ok (with_defaults demo_cfg) /\ jobs st' = ∅).
Proof. exact (NewRunnerManager_load demo_cfg happy_env [] ∅ ltac:(discriminate)). Defined.

Lemma demo_redelivered ev :
  ev ∈ [demo_event "queued"; demo_event "queued"] ->
  exists r, jobs (with_record running_job) !! job_ID (ev_Job ev) = Some r
    /\ (ev_Action ev = "queued" \/ rec_Status r = jobCompleted).
Proof. intros Hev. assert (ev = demo_event "queued") as -> by set_solver. eexists. by split; [|left]. Qed.

Lemma redeliveries_ignored_witness :
  process_all demo_cfg happy_env [demo_event "queued"; demo_event "queued"]
    (with_record running_job) = with_record running_job.
Proof. exact (redeliveries_ignored demo_cfg happy_env _ (with_record running_job) demo_redelivered). Defined.

Lemma handleCompleted_correct_witness :
  let '(err, st') :=
    handleCompleted demo_cfg refusing_env (demo_event "completed") (with_record running_job) in
  torn_down refusing_env 12 running_job (with_record running_job) st'
  \/ exists e t, err <> None /\ refused refusing_env 12 running_job e (with_record running_job) st'
       /\ jobs st' = <[12 := set_status running_job jobCleanupPending t]> {[12 := running_job]}.
Proof.
  exact (handleCompleted_correct demo_cfg refusing_env (demo_event "completed")
           (with_record running_job) running_job eq_refl eq_refl ltac:(discriminate)).
Defined.

Lemma running_job_overdue :
  rec_Status running_job = jobCleanupPending
  \/ rec_Status running_job = jobRunning /\ rec_Deadline running_job <> zeroTime
     /\ time_Add (rec_Deadline running_job) (2 * Minute) < T0.
Proof. right. by split_and!; vm_compute. Qed.

Lemma cleanup_retried_witness :
  let '(err, st') := reconcile_job demo_cfg happy_env T0 12 (with_record running_job) in
  torn_down happy_env 12 running_job (with_record running_job) st'
  \/ exists e, err = Some e /\ refused happy_env 12 running_job e (with_record running_job) st'
       /\ jobs st' = jobs (with_record running_job).
Proof.
  pose proof (cleanup_retried demo_cfg happy_env T0 12 (with_record running_job) running_job
                eq_refl eq_refl running_job_overdue) as Hw. exact Hw.
Defined.

Lemma cleanup_forgotten_node_witness :
  let st' := (reconcile_job demo_cfg restarted_env T0 12 (with_record cleanup_job)).2 in
  exists t res, let r' := set_completed cleanup_job t in
    jobs st' = <[12 := r']> (jobs (with_record cleanup_job))
    /\ remote (hist st') = delete_events cleanup_job res ++ []
    /\ (forall n i e, EDestroyInstance n i e ∉ delete_events cleanup_job res)
    /\ forall st2, jobs st2 !! 12 = Some r' ->
         (forall now2, (reconcile_job demo_cfg restarted_env now2 12 st2).2 = st2)
         /\ (forall ev, job_ID (ev_Job ev) = 12 -> (Process demo_cfg restarted_env ev st2).2 = st2)
         /\ (forall seen js, mstep demo_cfg seen (jobs st2) js ->
               js !! 12 = Some r' \/ js = delete 12 (jobs st2)).
Proof.
  exact (cleanup_forgotten_node demo_cfg restarted_env T0 12 (with_record cleanup_job) cleanup_job
           eq_refl eq_refl eq_refl eq_refl).
Defined.

Lemma completed_before_queued_witness :
  let st1 := (Process demo_cfg happy_env (demo_event "completed") empty_st).2 in
  (exists r, jobs st1 = <[12 := r]> ∅ /\ tombstone 12 r
     /\ (remote (hist st1) = [] \/ exists n res, remote (hist st1)
            = [EDestroyInstance n (containerName 12) res]))
  /\ (Process demo_cfg happy_env (demo_event "queued") st1).2 = st1.
Proof.
  exact (completed_before_queued demo_cfg happy_env (demo_event "completed") (demo_event "queued")
           empty_st (demo_storable "completed") eq_refl eq_refl eq_refl eq_refl eq_refl).
Defined.
