(* ===== verification/Progress.v ===== *)
(** * Progress: launching, retrying, recovering

    When GitHub, the agents and the disk answer, a pending job that some node
    can host runs after one [tryProvision]; when the agent fails, the launch is
    undone; when the process died in between, reconciliation removes what the
    old attempt may have left before it starts a new one. *)

From S2P Require Import Prelude GoTime GoStrings GoDate GoUtf8 Model Scheduler Server Policy Jobs Wire WireOk Env Manager Machine Refinement Scenario System Lifecycle.
From stdpp Require Import base list strings gmap.
From Stdlib Require Import ZArith String Lia.
Open Scope string_scope.
Open Scope list_scope.
Open Scope Z_scope.

Section progress.
Context `{Unicode}.
Context (cfg : RunnerManagerConfig) (env : Env).

(** The disk takes every write. *)
Record disk_works : Prop := {
  dw_mkdir h p : env_MkdirAll env h p = None;
  dw_write h p d : env_WriteFile env h p d = None;
  dw_rename h p q : env_Rename env h p q = None;
  (** The clock, and the deadlines set from it, are in the years JSON writes. *)
  dw_now h : writable (env_now env h);
  dw_deadline h : writable (time_Add (env_now env h) (RunnerTimeout cfg));
}.

Lemma saveLocked_works st :
  disk_works -> all_dated (jobs st) -> (saveLocked cfg env st).1 = None.
Proof.
  intros [Hm Hw Hr _ _] Hd. unfold saveLocked. destruct (String.eqb _ ""); [done|].
  unfold os_MkdirAll, os_WriteFile, os_Rename, call, get_jobs, mbind, M_bind, mret, M_ret.
  cbn. rewrite Hm. cbn. destruct (marshalState_total (jobs st) Hd) as [data ->]. rewrite Hw. cbn. by rewrite Hr.
Qed.

Lemma wp_update_works id f Q st :
  disk_works -> all_dated (jobs st) -> dated (f (default zeroJobRecord (jobs st !! id))) ->
  (forall st', locally (with_job id (f (default zeroJobRecord (jobs st !! id))) st) st' ->
     Q None st') ->
  wp (update_job cfg env id f) Q st.
Proof.
  intros Hd Hall Hr HQ. unfold update_job. apply wp_bind, wp_get_jobs, wp_bind, wp_put_jobs.
  pose proof (saveLocked_works (with_job id (f (default zeroJobRecord (jobs st !! id))) st) Hd
    (all_dated_insert _ _ _ Hall Hr)) as Hnone.
  apply (wp_mono _ (fun err st' => err = None /\
    locally (with_job id (f (default zeroJobRecord (jobs st !! id))) st) st')).
  - split; [exact Hnone|]. by apply (wp_elim _ _ _ (wp_save cfg env _ _ (fun _ _ V => V))).
  - intros err st' [-> V]. by apply HQ.
Qed.

Lemma update_job_now_works id f st :
  disk_works -> all_dated (jobs st) ->
  (forall t, writable t -> dated (f t (default zeroJobRecord (jobs st !! id)))) ->
  (update_job_now cfg env id f st).1 = None.
Proof.
  intros Hd Hall Hf. apply (wp_elim (update_job_now cfg env id f) (fun err _ => err = None) st).
  unfold update_job_now. apply wp_bind, wp_call. intros t ->.
  apply wp_update_works; try done. apply Hf, (dw_now Hd).
Qed.

(** ** Hosting *)

(** Node [n] has room for job [r] beside the jobs in [js], and what its
    labels ask for. *)
Record can_host (r : JobRecord) (os : OS) (arch : Arch) (js : gmap Z JobRecord) (n : Node)
  : Prop := {
  host_os : node_OS n = os;
  host_arch : node_Arch n = arch;
  host_docker : BackendDocker ∈ node_Backends n;
  host_capabilities l c :
    l ∈ lower_labels (rec_Labels r) -> capability_of l = Some c -> c ∈ node_Capabilities n;
  host_cpu : 0 < rec_CPU r ->
    rec_CPU r <= FreeCPU (node_Capacity n)
    /\ (0 < TotalCPU (node_Capacity n) ->
        rec_CPU r <= TotalCPU (node_Capacity n) -w wrap64 (reserved rec_CPU js (node_ID n)));
  host_memory : 0 < rec_MemoryM r ->
    rec_MemoryM r <= FreeMemoryM (node_Capacity n)
    /\ (0 < TotalMemoryM (node_Capacity n) ->
        rec_MemoryM r
        <= TotalMemoryM (node_Capacity n) -w wrap64 (reserved rec_MemoryM js (node_ID n)));
}.

(** The job's labels ask for a container on [os]/[arch]. *)
Definition asks_container (r : JobRecord) (os : OS) (arch : Arch) : Prop :=
  platform_of (lower_labels (rec_Labels r)) = Some (os, arch, IsolationContainer)
  /\ "cifleet-vm" ∉ lower_labels (rec_Labels r).

Lemma asks_container_req picks r os arch :
  asks_container r os arch ->
  requirementsFromLabels picks (rec_Repository r) (rec_Labels r) (rec_CPU r) (rec_MemoryM r)
  = Ok (mkJobRequirements (rec_Repository r) os arch IsolationContainer
          (omap capability_of (shuffle picks (elements (lower_labels (rec_Labels r)))))
          (rec_CPU r) (rec_MemoryM r)).
Proof.
  intros [Hp Hvm]. unfold requirementsFromLabels. rewrite Hp. by rewrite bool_decide_eq_false_2.
Qed.

Lemma can_host_suitable picks picks' r os arch js n :
  can_host r os arch js n ->
  suitable (mkJobRequirements (rec_Repository r) os arch IsolationContainer
              (omap capability_of (shuffle picks (elements (lower_labels (rec_Labels r)))))
              (rec_CPU r) (rec_MemoryM r))
    (reserve_capacity (fold_left add_reservation (shuffle picks' (map_to_list js).*2) ∅)
       (set_Online true n)).
Proof.
  intros [Hos Harch Hdocker Hcaps Hcpu Hmem]. split; cbn; try done.
  - rewrite !minInt_min, !maxInt_max, (fold_reservations TotalCPU rec_CPU) by done.
    intros Hpos. specialize (Hcpu Hpos). destruct (Z.ltb_spec 0 (TotalCPU (node_Capacity n))); lia.
  - rewrite !minInt_min, !maxInt_max, (fold_reservations TotalMemoryM rec_MemoryM) by done.
    intros Hpos. specialize (Hmem Hpos).
    destruct (Z.ltb_spec 0 (TotalMemoryM (node_Capacity n))); lia.
  - intros c. rewrite list_elem_of_omap. setoid_rewrite elem_of_shuffle.
    setoid_rewrite elem_of_elements. naive_solver.
Qed.

(** [place] finds a node when the registry has one that qualifies. *)
Lemma wp_place_found req Q st :
  (forall now srv picks picks', (exists h, now = env_now env h) -> (exists h, srv = env_server env h) ->
     exists m, m ∈ map (reserve_capacity (fold_left add_reservation
                          (shuffle picks' (map_to_list (jobs st)).*2) ∅)) (snapshotNodes picks srv now)
               /\ qualifies req m) ->
  (forall p node st', locally st st' -> NodeID p = node_ID node ->
     (exists bs, runs_on (req_Isolation req) bs (Backend p)) -> Q (Ok (p, node)) st') ->
  wp (place env req) Q st.
Proof.
  intros Hq HQ. unfold place, reservations.
  apply wp_bind, wp_call. intros now Hnow. apply wp_bind, wp_call. intros srv Hsrv.
  apply wp_bind, wp_call. intros picks _. apply wp_bind, wp_bind, wp_call. intros picks' _.
  apply wp_bind, wp_get_jobs, wp_ret. cbn [jobs hist].
  destruct (Hq now srv picks picks') as (m & Hm & Hqm); [by eexists..|].
  set (l := map _ _) in *. destruct (Place req l) as [p|e] eqn:Ep.
  - apply Place_suitable in Ep as (x & Hx & _ & Hid & Hb).
    destruct (List.find _ l) as [node|] eqn:Ef.
    + apply List.find_some in Ef as [_ Hn%String.eqb_eq].
      apply wp_ret, HQ; [|done|by eexists]. by apply (locally_calls st [_; _; _; _]).
    + apply (List.find_none _ _) with (x := x) in Ef; [|by apply list_elem_of_In].
      rewrite Hid, String.eqb_refl in Ef. done.
  - rewrite Place_first_min in Ep. destruct (first_min less _) eqn:Em; [done|].
    by destruct (proj1 (Place_None req l) Em m Hm).
Qed.

(** ** Launching *)

(** C31. A failed launch is undone: when the agent cannot create the
    instance, it is asked to remove whatever carries the job's container
    name, then the JIT runner is deleted at GitHub, and the record is
    pending again, bound to no node, instance or runner and keeping its
    attempt count; the error is reported. *)
Theorem launch_undone id node r jit st e :
  jobs st !! id = Some r ->
  env_CreateInstance env (hist st) node (job_spec cfg id r jit) = Err e ->
  let '(err, st') := launch cfg env id node r jit st in
  err <> None
  /\ (exists t, jobs st' = <[id := set_pending r t]> (jobs st))
  /\ exists d1 d2, remote (hist st') =
       EDeleteRunner (rec_InstallationID r) (rec_Owner r) (rec_Repo r) (jit_RunnerID jit) d2
       :: EDestroyInstance node (containerName id) d1
       :: ECreateInstance node (job_spec cfg id r jit) (Err e) :: remote (hist st).
Proof.
  intros Hid Hfail.
  apply wp_let. unfold launch. apply wp_bind, wp_call. intros res Hres. rewrite Hfail in Hres. subst res.
  apply wp_bind, wp_call. intros d1 _. apply wp_bind, wp_call. intros d2 _.
  apply wp_bind, (wp_update_now _ _ _ _ r); [done|]. intros se t st' Hj Hr.
  destruct se; apply wp_ret; (split_and!; [done|by exists t|by exists d1, d2]).
Qed.

(** Everybody answers. *)
Record cooperative (r : JobRecord) : Prop := {
  co_disk : disk_works;
  co_run h : exists run,
    env_GetWorkflowRun env h (rec_InstallationID r) (rec_Owner r) (rec_Repo r) (rec_RunID r)
    = Ok run /\ (trustedWorkflowRun run (rec_Repository r)).1 = true;
  co_jit h name : exists jit,
    env_GenerateJITConfig env h (rec_InstallationID r) (rec_Owner r) (rec_Repo r) name
      (RunnerGroupID cfg) (rec_Labels r) = Ok jit;
  co_create h n spec : exists inst,
    env_CreateInstance env h n spec = Ok inst /\ writable (inst_Deadline inst);
}.

(** The outcome of a launch on [node]. *)
Definition launched (id : Z) (r : JobRecord) (node : Node) (st st' : St) : Prop :=
  exists jit inst dl t t',
    let name := runnerName (node_ID node) id (rec_Attempt r +w 1) in
    let r1 := set_provisioning r (node_ID node) name (jit_RunnerID jit) (rec_Attempt r +w 1) dl t
    in
    jobs st' = <[id := set_running r1 (inst_ID inst) (inst_Deadline inst) t']> (jobs st)
    /\ remote (hist st') =
         ECreateInstance node (job_spec cfg id r1 jit) (Ok inst)
         :: EGenerateJITConfig (rec_InstallationID r) (rec_Owner r) (rec_Repo r) name
              (RunnerGroupID cfg) (rec_Labels r) (Ok jit) :: remote (hist st).

Lemma wp_start_runner_works id r node Q st :
  cooperative r -> all_dated (jobs st) -> jobs st !! id = Some r ->
  (forall st', launched id r node st st' -> Q None st') ->
  wp (start_runner cfg env id node) Q st.
Proof.
  intros [Hd _ Hjit Hcreate] Hall Hid HQ. unfold start_runner.
  assert (Hdated : dated r) by by eapply Hall.
  apply wp_bind, wp_get_jobs. rewrite Hid. cbn [from_option Datatypes.id].
  cbn zeta. set (name := runnerName _ _ _).
  apply wp_bind, wp_call. intros res Hres. destruct (Hjit (hist st) name) as [jit Hj].
  rewrite Hj in Hres. subst res. apply wp_bind, wp_call. intros t Ht.
  apply wp_bind, wp_get_jobs. cbn [jobs]. rewrite Hid. cbn [from_option Datatypes.id].
  set (r1 := set_provisioning _ _ _ _ _ _ _).
  assert (Hr1d : dated r1) by (subst t; split; [apply (dw_deadline Hd)|apply (dw_now Hd)]).
  apply wp_bind, wp_update_works; [done|done|cbn [jobs]; rewrite Hid; exact Hr1d|].
  cbn [jobs]. rewrite Hid. cbn [from_option Datatypes.id]. fold r1. intros st1 V1.
  eapply (with_job_locally _ _ (mkSt (jobs st) (_ :: hist st))) in V1
    as [Hj1 Hr1]; [|by apply (locally_calls (mkSt (jobs st) (_ :: hist st)) [ENow t])].
  unfold launch. apply wp_bind, wp_call. intros res Hres.
  destruct (Hcreate (hist st1) node (job_spec cfg id r1 jit)) as (inst & Hi & Hidl).
  rewrite Hi in Hres. subst res. apply wp_bind, wp_call. intros t' Ht'.
  assert (Hid1 : jobs st1 !! id = Some r1) by (rewrite Hj1; apply lookup_insert_eq).
  apply wp_update_works; [done|by rewrite Hj1; apply all_dated_insert| |]; cbn [jobs hist];
    rewrite Hid1.
  { subst t'. split; [|apply (dw_now Hd)]. cbn [rec_Deadline set_running from_option Datatypes.id].
    destruct (negb _); [done|apply Hr1d]. }
  intros st2 V2. eapply (with_job_locally _ _ (mkSt (jobs st1) (_ :: hist st1))) in V2
    as [Hj2 Hr2]; [|by apply (locally_calls (mkSt (jobs st1) (_ :: hist st1)) [ENow t'])].
  apply HQ. exists jit, inst, (time_Add t (RunnerTimeout cfg)), t, t'. cbn zeta. fold name r1.
  split.
  - rewrite Hj2. cbn [jobs]. rewrite Hj1. cbn [jobs]. apply insert_insert_eq.
  - rewrite Hr2. cbn. f_equal. exact Hr1.
Qed.

(** At every moment the registry has an online node that can host the job. *)
Definition hostable (r : JobRecord) (os : OS) (arch : Arch) (js : gmap Z JobRecord) : Prop :=
  forall h h', exists id n, nodes (env_server env h) !! id = Some n
    /\ online_at (env_server env h) (env_now env h') n = true
    /\ can_host r os arch js n.

Lemma hostable_qualifies r os arch js now srv picks picks0 picks' :
  hostable r os arch js ->
  (exists h, now = env_now env h) -> (exists h, srv = env_server env h) ->
  exists m, m ∈ map (reserve_capacity (fold_left add_reservation
                       (shuffle picks' (map_to_list js).*2) ∅)) (snapshotNodes picks srv now)
    /\ qualifies (mkJobRequirements (rec_Repository r) os arch IsolationContainer
         (omap capability_of (shuffle picks0 (elements (lower_labels (rec_Labels r)))))
         (rec_CPU r) (rec_MemoryM r)) m.
Proof.
  intros Hh [h ->] [h' ->]. destruct (Hh h' h) as (id & n & Hn & Hon & Hhost).
  eexists. split.
  - apply list_elem_of_fmap. eexists. split; [done|]. apply elem_of_snapshot. eauto.
  - rewrite Hon. split; [by apply can_host_suitable|]. exists BackendDocker.
    apply runs_docker, Hhost.
Qed.

Lemma wp_tryProvision_works id r os arch Q st :
  cooperative r -> all_dated (jobs st) -> jobs st !! id = Some r -> rec_Status r = jobPending ->
  asks_container r os arch -> hostable r os arch (jobs st) ->
  (forall node run st' st1, launched id r node st1 st' -> jobs st1 = jobs st ->
     remote (hist st1) = EGetWorkflowRun (rec_InstallationID r) (rec_Owner r) (rec_Repo r)
                           (rec_RunID r) (Ok run) :: remote (hist st) ->
     Q None st') ->
  wp (tryProvision cfg env id) Q st.
Proof.
  intros Hco Hall Hid Hst Hask Hhost HQ. unfold tryProvision, get_job.
  apply wp_bind, wp_bind, wp_get_jobs, wp_ret. rewrite Hid, Hst, String.eqb_refl. cbn [negb].
  apply wp_bind, wp_call. intros res Hres. destruct (co_run r Hco (hist st)) as (run & Hrun & Htr).
  rewrite Hrun in Hres. subst res. rewrite Htr. cbn [negb].
  apply wp_bind, wp_call. intros picks _. cbn [jobs hist]. rewrite (asks_container_req picks r os arch) by done.
  apply wp_bind, wp_place_found.
  { intros. by apply hostable_qualifies. }
  intros p node st1 V1 Hnode (bs & Hb). pose proof (locally_remote _ _ V1) as Hr1.
  destruct V1 as [Hj1 _]. cbn [jobs hist] in Hj1. assert (Backend p = BackendDocker) as ->
    by (cbn in Hb; by inversion Hb).
  rewrite String.eqb_refl. cbn [negb].
  apply wp_start_runner_works with r; [done|by rewrite Hj1..|].
  intros st' Hl. eapply HQ; [exact Hl|exact Hj1|exact Hr1].
Qed.

(** C10. Liveness: if GitHub and the agents answer, the disk takes writes, the
    workflow run is trusted, the labels ask for a container and the registry
    always has an online Docker node with room for it beside the jobs already
    reserved there, one [tryProvision] of a pending job returns nil with the
    job running: one trust lookup, one JIT runner and one instance request,
    in this order, and nothing else. *)
Theorem tryProvision_live id r os arch st :
  cooperative r -> all_dated (jobs st) -> jobs st !! id = Some r -> rec_Status r = jobPending ->
  asks_container r os arch -> hostable r os arch (jobs st) ->
  let '(err, st') := tryProvision cfg env id st in
  err = None
  /\ exists node run jit inst name spec r',
       jobs st' = <[id := r']> (jobs st)
       /\ rec_Status r' = jobRunning /\ rec_NodeID r' = node_ID node
       /\ rec_InstanceID r' = inst_ID inst /\ rec_RunnerID r' = jit_RunnerID jit
       /\ rec_RunnerName r' = name /\ name = runnerName (node_ID node) id (rec_Attempt r +w 1)
       /\ remote (hist st') =
            [ECreateInstance node spec (Ok inst);
             EGenerateJITConfig (rec_InstallationID r) (rec_Owner r) (rec_Repo r) name
               (RunnerGroupID cfg) (rec_Labels r) (Ok jit);
             EGetWorkflowRun (rec_InstallationID r) (rec_Owner r) (rec_Repo r) (rec_RunID r)
               (Ok run)] ++ remote (hist st).
Proof.
  intros Hco Hall Hid Hst Hask Hhost.
  apply wp_let, (wp_tryProvision_works id r os arch); [done..|].
  intros node run st' st1 (jit & inst & dl & t & t' & Hj & Hr) Hj1 Hr1. split; [done|].
  rewrite Hj1 in Hj. rewrite Hr1 in Hr.
  eexists node, run, jit, inst, _, _, _. by split_and!.
Qed.

(** ** Recovery *)

(** The requests that remove what an interrupted attempt may have left. *)
Definition removal (id : Z) (r : JobRecord) (node : option Node) (d1 d2 : option error)
  : History :=
  delete_events r d2
  ++ match node with Some n => [EDestroyInstance n (containerName id) d1] | None => [] end.

Lemma wp_recover id r Q st :
  jobs st !! id = Some r -> rec_JobID r = id -> rec_Status r = jobProvisioning ->
  (forall err st1 t d1 d2, (exists h, t = env_now env h) ->
     jobs st1 = <[id := set_pending r t]> (jobs st) ->
     remote (hist st1) = removal id r (teardown_node env r st) d1 d2 ++ remote (hist st) ->
     (disk_works -> all_dated (jobs st) -> err = None) ->
     wp (match err with Some e => mret (Some e) | None => tryProvision cfg env id end) Q st1) ->
  wp (recoverProvisioning cfg env r) Q st.
Proof.
  intros Hid Hrid Hst HQ. unfold recoverProvisioning, get_job. rewrite Hrid.
  apply wp_bind, (wp_mono _ (fun d1 st1 => jobs st1 = jobs st /\ remote (hist st1) =
    match teardown_node env r st with
    | Some n => [EDestroyInstance n (containerName id) d1]
    | None => []
    end ++ remote (hist st))).
  { unfold teardown_node. destruct (String.eqb _ ""); [by apply wp_ret|]. unfold rawNode.
    apply wp_bind, wp_bind, wp_call. intros srv ->. apply wp_ret.
    destruct (nodes _ !! _) as [n|]; [|by apply wp_ret]. by apply wp_call. }
  intros d1 st1 [Hj1 Hr1]. apply wp_bind, wp_delete. intros d2 st2 Hj2 Hr2.
  apply wp_bind, wp_bind, wp_get_jobs, wp_ret.
  rewrite Hj2, Hj1, Hid, Hst, String.eqb_refl. cbn [negb].
  assert (Hid2 : jobs st2 !! id = Some r) by by rewrite Hj2, Hj1.
  apply wp_bind, (wp_mono _ (fun err st3 => (disk_works -> all_dated (jobs st) -> err = None) /\ exists t,
    (exists h, t = env_now env h) /\ jobs st3 = <[id := set_pending r t]> (jobs st2) /\ remote (hist st3) = remote (hist st2))).
  { split.
    { intros Hd Hall. apply update_job_now_works; [done|by rewrite Hj2, Hj1|].
      intros t Ht. split; [by eexists|done]. }
    apply (wp_elim (update_job_now cfg env id (fun now c => set_pending c now))
      (fun _ st3 => exists t, (exists h, t = env_now env h) /\
          jobs st3 = <[id := set_pending r t]> (jobs st2)
                              /\ remote (hist st3) = remote (hist st2)) st2).
    apply (wp_update_at cfg env id _ r); [done|]. eauto 6. }
  intros err st3 (Herr & t & Ht & Hj3 & Hr3).
  apply (HQ err st3 t d1 d2); [done|by rewrite Hj3, Hj2, Hj1| |done].
  unfold removal. by rewrite Hr3, Hr2, Hr1, app_assoc.
Qed.

(** Recovery removes before it retries: for a job found in the middle of
    provisioning, the node it was bound to (if registered) is asked to
    destroy the job's container and the old JIT runner is deleted, then the
    record is reset to pending and saved, and only then, if the save
    succeeded, is a new attempt started, from that state. *)
Theorem recovery_removes_first id r st :
  jobs st !! id = Some r -> rec_JobID r = id -> rec_Status r = jobProvisioning ->
  let '(err, st') := recoverProvisioning cfg env r st in
  exists st1 t d1 d2,
    jobs st1 = <[id := set_pending r t]> (jobs st)
    /\ remote (hist st1) = removal id r (teardown_node env r st) d1 d2 ++ remote (hist st)
    /\ (tryProvision cfg env id st1 = (err, st') \/ err <> None /\ st' = st1).
Proof.
  intros Hid Hrid Hst. apply wp_let, (wp_recover id); [done..|].
  intros err st1 t d1 d2 _ Hj Hr _. unfold wp. exists st1, t, d1, d2. split_and!; [done..|].
  destruct err as [e|]; [by right|left]. apply surjective_pairing.
Qed.


(** ** Placement beside the reservations *)

(** Reservations count what the job map says: whatever the iteration
    order, [reservations] gives for each node the CPU, the memory and the
    number of the jobs that are being provisioned, running or awaiting
    cleanup there (in 64-bit arithmetic), and changes nothing. *)
Theorem reservations_correct st node :
  let '(rs, st') := reservations env st in
  let c := default zeroCapacity (rs !! node) in
  TotalCPU c = wrap64 (reserved rec_CPU (jobs st) node)
  /\ TotalMemoryM c = wrap64 (reserved rec_MemoryM (jobs st) node)
  /\ RunningJobs c = wrap64 (reserved (fun _ => 1) (jobs st) node)
  /\ locally st st'.
Proof.
  apply wp_let. unfold reservations. apply wp_bind, wp_call. intros picks _.
  apply wp_bind, wp_get_jobs, wp_ret. cbn [jobs].
  rewrite (fold_reservations TotalCPU rec_CPU), (fold_reservations TotalMemoryM rec_MemoryM),
    (fold_reservations RunningJobs (fun _ => 1)) by done.
  split_and!; [done..|by apply locally_call].
Qed.

(** What is left of node [n] once the reservations of [js] are taken off. *)
Definition effective (js : gmap Z JobRecord) (n : Node) : Node :=
  let c := node_Capacity n in
  let left total free f :=
    if 0 <? total then Z.min free (Z.max 0 (total -w wrap64 (reserved f js (node_ID n))))
    else free in
  set_Capacity
    (mkCapacity (TotalCPU c) (left (TotalCPU c) (FreeCPU c) rec_CPU)
       (TotalMemoryM c) (left (TotalMemoryM c) (FreeMemoryM c) rec_MemoryM)
       (Z.max (RunningJobs c) (wrap64 (reserved (fun _ => 1) js (node_ID n))))) n.

Lemma reserve_capacity_effective picks js n :
  reserve_capacity (fold_left add_reservation (shuffle picks (map_to_list js).*2) ∅) n
  = effective js n.
Proof.
  unfold reserve_capacity, effective. rewrite !minInt_min, !maxInt_max.
  rewrite (fold_reservations TotalCPU rec_CPU), (fold_reservations TotalMemoryM rec_MemoryM),
    (fold_reservations RunningJobs (fun _ => 1)) by done. done.
Qed.

(** C34. The manager places on what is really left: [place] reads the clock
    and then the registry, both at the moment of the call (the clock after
    exactly the history of [st], the registry after that and the reading of the
    clock), and returns the best qualifying node (the scheduler's contract) of
    the nodes that are live in that registry at that time, each with the
    reservations of the current job map taken off its last reported capacity,
    or [ErrNoPlacement] exactly when none of them qualifies; it changes no job.
    Only the iteration order [picks] of the registry's map is left open, and a
    snapshot is sorted whatever that order is. *)
Theorem place_correct req st :
  let now := env_now env (hist st) in
  let srv := env_server env (ENow now :: hist st) in
  registry_ok srv ->
  let '(res, st') := place env req st in
  locally st st'
  /\ exists picks,
       let l := map (effective (jobs st)) (snapshotNodes picks srv now) in
       match res with
       | Ok (p, node) => placed_at req l node p
       | Err e => e = ErrNoPlacement /\ forall m, m ∈ l -> ~ qualifies req m
       end.
Proof.
  intros now0 srv0 Hreg. apply wp_let. unfold place, reservations.
  apply wp_bind, wp_call. intros now Hnow. apply wp_bind, wp_call. intros srv Hsrv.
  apply wp_bind, wp_call. intros picks _. apply wp_bind, wp_bind, wp_call. intros picks' _.
  apply wp_bind, wp_get_jobs, wp_ret. cbn [jobs hist] in *.
  change (now = now0) in Hnow. subst now. change (srv = srv0) in Hsrv. subst srv.
  rewrite (List.map_ext _ _ (reserve_capacity_effective picks' (jobs st))).
  set (l := map _ _).
  assert (Hl : forall e1 e2 e3 e4, is_remote e1 || is_remote e2 || is_remote e3 || is_remote e4
    = false -> locally st (mkSt (jobs st) (e1 :: e2 :: e3 :: e4 :: hist st))).
  { intros e1 e2 e3 e4 He. apply (locally_calls st [e1; e2; e3; e4]).
    unfold remote. cbn. by destruct (is_remote e1), (is_remote e2), (is_remote e3), (is_remote e4). }
  assert (Hinj : forall a b, a ∈ l -> b ∈ l -> node_ID a = node_ID b -> a = b).
  { intros a b (x & -> & Hx)%list_elem_of_fmap (y & -> & Hy)%list_elem_of_fmap E.
    f_equal. by apply (snapshot_ids_distinct picks srv0 now0). }
  destruct (Place req l) as [p|e] eqn:Ep.
  - apply Place_placed in Ep as (n & Hn). pose proof Hn as (bef & aft & El & _ & Hid & _).
    assert (Hnl : n ∈ l) by (rewrite El; set_solver).
    destruct (List.find _ l) as [node|] eqn:Ef.
    + apply List.find_some in Ef as [Hin%list_elem_of_In Hn'%String.eqb_eq].
      assert (node = n) as -> by (apply Hinj; congruence).
      apply wp_ret. split; [by apply Hl|]. by exists picks.
    + apply (List.find_none _ _) with (x := n) in Ef; [|by apply list_elem_of_In].
      by rewrite Hid, String.eqb_refl in Ef.
  - rewrite Place_first_min in Ep. destruct (first_min less _) eqn:Em; [done|]. injection Ep as <-.
    apply wp_ret. split; [by apply Hl|]. exists picks.
    split; [done|]. by apply Place_None.
Qed.

(** ** Attributing a runner name to its node *)

Definition runner_prefix (n : Node) : string := "cifleet-" +:+ safeName (node_ID n) +:+ "-".

Lemma runnerName_prefix n id att :
  HasPrefix (runnerName (node_ID n) id att) (runner_prefix n) = true
  /\ Contains (runnerName (node_ID n) id att) ("-" +:+ FormatInt id) = true.
Proof.
  unfold runnerName, runner_prefix. split.
  - apply HasPrefix_spec. eexists. by rewrite !sapp_assoc.
  - replace ("cifleet-" +:+ safeName (node_ID n) +:+ "-" +:+ FormatInt id +:+ "-a" +:+ FormatInt att)
      with (("cifleet-" +:+ safeName (node_ID n)) +:+ ("-" +:+ FormatInt id) +:+ "-a" +:+ FormatInt att)
      by by rewrite !sapp_assoc.
    apply Contains_app.
Qed.

(** A completion that names a CIFleet runner finds its node: for the name
    the manager gave to a runner on a registered node, [nodeFromRunnerName]
    returns that node in every iteration order, provided no other node's
    prefix starts the name too. *)
Theorem nodeFromRunnerName_finds st key n id att :
  let srv := env_server env (hist st) in
  nodes srv !! key = Some n ->
  (forall k m, nodes srv !! k = Some m ->
     HasPrefix (runnerName (node_ID n) id att) (runner_prefix m) = true -> m = n) ->
  (nodeFromRunnerName env (runnerName (node_ID n) id att) id st).1 = Some n.
Proof.
  intros srv Hn Huniq.
  apply (wp_elim (nodeFromRunnerName env (runnerName (node_ID n) id att) id)
           (fun o _ => o = Some n) st).
  unfold nodeFromRunnerName. destruct (String.eqb_spec (runnerName (node_ID n) id att) "") as [E|_].
  { by apply (f_equal String.length) in E. }
  apply wp_bind, wp_call. intros srv' ->. apply wp_bind, wp_call. intros picks _. apply wp_ret.
  fold srv. destruct (runnerName_prefix n id att) as [Hp Hc].
  destruct (List.find _ _) as [m|] eqn:Ef.
  - apply List.find_some in Ef as [Hin%list_elem_of_In [Hpm _]%andb_true_iff].
    apply elem_of_shuffle, elem_of_stored in Hin as [k Hk]. f_equal. by eapply Huniq.
  - apply (List.find_none _ _) with (x := n) in Ef.
    + unfold runner_prefix in Hp. by rewrite Hp, Hc in Ef.
    + apply list_elem_of_In, elem_of_shuffle, elem_of_stored. by exists key.
Qed.
End progress.

(** ** Pruning, in every reachable state *)

(** Tombstones are kept for the configured time and no longer: in every
    reachable state, the first phase of [reconcile] removes exactly the
    completed and rejected records that are older than [TombstoneTTL], leaves
    every other record as it is, and gives the second phase each remaining job
    once. *)
Theorem prune_exact `{Unicode} cfg env seen
  `{!EnvOk cfg env seen} now s :
  sys_reachable cfg env s ->
  let '(ids, st') := prune cfg env now (sys_st s) in
  (forall id, jobs st' !! id =
     match jobs (sys_st s) !! id with
     | Some r => if expired cfg now r then None else Some r
     | None => None
     end)
  /\ NoDup ids /\ (forall id, id ∈ ids <-> is_Some (jobs st' !! id)).
Proof.
  intros Hi%(sys_reachable_Inv cfg env seen). apply wp_let, (wp_prune cfg env seen); [done|]. auto.
Qed.

(** ** Witnesses *)

Definition demo_jit : JITConfig := mkJITConfig 77 "jit-secret".

Lemma launch_undone_witness :
  let '(err, st') := launch demo_cfg refusing_env 12 e5 interrupted demo_jit (with_record interrupted) in
  err <> None
  /\ (exists t, jobs st' = <[12 := set_pending interrupted t]> (jobs (with_record interrupted)))
  /\ exists d1 d2, remote (hist st') =
       EDeleteRunner 42 "fangbm" "CIFleet" 77 d2 :: EDestroyInstance e5 (containerName 12) d1
       :: ECreateInstance e5 (job_spec demo_cfg 12 interrupted demo_jit)
            (Err (ErrMsg "agent is down")) :: remote (hist (with_record interrupted)).
Proof.
  pose proof (launch_undone demo_cfg refusing_env 12 e5 interrupted demo_jit
                (with_record interrupted) (ErrMsg "agent is down") eq_refl eq_refl) as Hw.
  exact Hw.
Defined.

Lemma demo_disk_works run srv : disk_works demo_cfg (demo_env run srv).
Proof. split; try done; intros h; vm_compute; by eexists. Qed.

Lemma demo_dated r : dated r -> all_dated (jobs (with_record r)).
Proof. intros Hr. by apply map_Forall_singleton. Qed.

Lemma demo_dates : dated pending_job /\ dated interrupted.
Proof. split; split; vm_compute; by eexists. Qed.

Lemma demo_cooperative r :
  rec_Repository r = "fangbm/CIFleet" -> cooperative demo_cfg happy_env r.
Proof.
  intros Hr. split; [apply demo_disk_works| |intros; by eexists|].
  2: { intros h n spec. eexists. split; [done|]. vm_compute. by eexists. }
  intros h. exists trusted_run. split; [done|]. by rewrite Hr.
Qed.

Lemma demo_asks r :
  rec_Labels r = ["self-hosted"; "cifleet"; "linux-x64"] -> asks_container r OSLinux ArchAMD64.
Proof. intros Hl. unfold asks_container. rewrite Hl. split; [done|].
  apply (bool_decide_eq_false_1 ("cifleet-vm" ∈ _)). vm_compute. reflexivity.
Qed.

Lemma demo_hostable r js :
  rec_Labels r = ["self-hosted"; "cifleet"; "linux-x64"] -> rec_CPU r = 2 -> rec_MemoryM r = 1024 ->
  reserved rec_CPU js "e5" = 0 -> reserved rec_MemoryM js "e5" = 0 ->
  hostable happy_env r OSLinux ArchAMD64 js.
Proof.
  intros Hl Hc Hm Rc Rm h h'. exists "e5", (set_Online true (set_LastSeen T0 e5)).
  split_and!; [done|done|]. split; cbn; try done.
  - left.
  - rewrite Hl. intros l c Hin Hcap. exfalso. revert Hcap.
    assert (l ∈ ["self-hosted"; "cifleet"; "linux-x64"]) as Hl'.
    { revert Hin. unfold lower_labels. rewrite elem_of_list_to_set. vm_compute. done. }
    revert Hl'. rewrite !elem_of_cons. by intros [->|[->|[->|[]%not_elem_of_nil]]].
  - rewrite Hc, Rc. intros _. split; [done|]. intros _. by vm_compute.
  - rewrite Hm, Rm. intros _. split; [done|]. intros _. by vm_compute.
Qed.

Lemma tryProvision_live_witness :
  let '(err, st') := tryProvision demo_cfg happy_env 12 (with_record pending_job) in
  err = None
  /\ exists node run jit inst name spec r',
       jobs st' = <[12 := r']> (jobs (with_record pending_job))
       /\ rec_Status r' = jobRunning /\ rec_NodeID r' = node_ID node
       /\ rec_InstanceID r' = inst_ID inst /\ rec_RunnerID r' = jit_RunnerID jit
       /\ rec_RunnerName r' = name /\ name = runnerName (node_ID node) 12 (0 +w 1)
       /\ remote (hist st') =
            [ECreateInstance node spec (Ok inst);
             EGenerateJITConfig 42 "fangbm" "CIFleet" name (RunnerGroupID demo_cfg)
               ["self-hosted"; "cifleet"; "linux-x64"] (Ok jit);
             EGetWorkflowRun 42 "fangbm" "CIFleet" 10 (Ok run)]
            ++ remote (hist (with_record pending_job)).
Proof.
  pose proof (tryProvision_live demo_cfg happy_env 12 pending_job OSLinux ArchAMD64
                (with_record pending_job) (demo_cooperative pending_job eq_refl)
                (demo_dated _ (proj1 demo_dates)) eq_refl eq_refl
                (demo_asks pending_job eq_refl)
                (demo_hostable pending_job (jobs (with_record pending_job))
                   eq_refl eq_refl eq_refl eq_refl eq_refl)) as Hw.
  exact Hw.
Defined.

Lemma recovery_removes_first_witness :
  let '(err, st') := recoverProvisioning demo_cfg refusing_env interrupted (with_record interrupted) in
  exists st1 t d1 d2,
    jobs st1 = <[12 := set_pending interrupted t]> (jobs (with_record interrupted))
    /\ remote (hist st1)
       = removal 12 interrupted (teardown_node refusing_env interrupted (with_record interrupted))
           d1 d2 ++ remote (hist (with_record interrupted))
    /\ (tryProvision demo_cfg refusing_env 12 st1 = (err, st') \/ err <> None /\ st' = st1).
Proof.
  pose proof (recovery_removes_first demo_cfg refusing_env 12 interrupted (with_record interrupted)
                eq_refl eq_refl eq_refl) as Hw.
  exact Hw.
Defined.



Lemma place_correct_witness :
  let '(res, st') := place happy_env linux_job (with_record running_job) in
  locally (with_record running_job) st'
  /\ exists picks,
       let l := map (effective (jobs (with_record running_job)))
                  (snapshotNodes picks (fleet_at T0) T0) in
       match res with
       | Ok (p, node) => placed_at linux_job l node p
       | Err e => e = ErrNoPlacement /\ forall m, m ∈ l -> ~ qualifies linux_job m
       end.
Proof.
  pose proof (place_correct happy_env linux_job (with_record running_job) (fleet_ok T0)) as Hw.
  exact Hw.
Defined.

Lemma fleet_prefixes k m :
  nodes (fleet_at T0) !! k = Some m ->
  HasPrefix (runnerName "e5" 12 1) (runner_prefix m) = true -> m = set_Online true (set_LastSeen T0 e5).
Proof.
  unfold fleet_at. cbn. intros Hm.
  apply lookup_insert_Some in Hm as [[_ <-]|[_ Hm]]; [by vm_compute|].
  by apply lookup_insert_Some in Hm as [[_ <-]|[_ Hm%lookup_empty_Some]].
Qed.

Lemma nodeFromRunnerName_finds_witness :
  (nodeFromRunnerName happy_env (runnerName "e5" 12 1) 12 empty_st).1
  = Some (set_Online true (set_LastSeen T0 e5)).
Proof.
  pose proof (nodeFromRunnerName_finds happy_env empty_st "e5" (set_Online true (set_LastSeen T0 e5))
                12 1 eq_refl fleet_prefixes) as Hw.
  exact Hw.
Defined.

Lemma prune_exact_witness :
  let '(ids, st') := prune demo_cfg happy_env (T0 + 48 * Hour) (sys_st demo_running) in
  (forall id, jobs st' !! id =
     match jobs (sys_st demo_running) !! id with
     | Some r => if expired demo_cfg (T0 + 48 * Hour) r then None else Some r
     | None => None
     end)
  /\ NoDup ids /\ (forall id, id ∈ ids <-> is_Some (jobs st' !! id)).
Proof.
  pose proof (prune_exact demo_cfg happy_env demo_seen (T0 + 48 * Hour) demo_running demo_reachable)
    as Hw.
  exact Hw.
Defined.

(** ** Names that start alike *)

Definition e5_1 : Node :=
  mkNode "e5-1" "https://e5-1:8090" OSLinux ArchAMD64 [BackendDocker] ["container"; "docker"] []
    (mkCapacity 12 12 32768 30000 0) false zeroTime.

Definition twin_fleet : Server :=
  (heartbeat (heartbeat (New []) (Some e5) None T0).1 (Some e5_1) None T0).1.

(** The same registry, iterated in the order [picks]. *)
Definition twin_env (picks : list nat) : Env := {|
  env_files := ∅;
  env_now _ := T0;
  env_server _ := twin_fleet;
  env_picks _ := picks;
  env_GetWorkflowRun _ _ _ _ _ := Ok trusted_run;
  env_GenerateJITConfig _ _ _ _ _ _ _ := Ok demo_jit;
  env_DeleteRunner _ _ _ _ _ := None;
  env_CreateInstance _ n _ := Ok (mkInstance "container123" BackendDocker (node_ID n) (T0 + Hour));
  env_DestroyInstance _ _ _ := None;
  env_ReadFile _ _ := None;
  env_MkdirAll _ _ := None;
  env_WriteFile _ _ _ := None;
  env_Rename _ _ _ := None;
|}.

(** A runner name can be attributed to the wrong node: with nodes [e5] and
    [e5-1] registered, the name of a runner on [e5-1] is attributed to [e5] or
    to [e5-1] depending on Go's map iteration order, so the completion of an
    unknown job may ask the wrong node to destroy its container. *)
Theorem nodeFromRunnerName_ambiguous :
  exists picks picks',
    let name := runnerName "e5-1" 12 1 in
    node_ID <$> (nodeFromRunnerName (twin_env picks) name 12 empty_st).1 = Some "e5-1"
    /\ node_ID <$> (nodeFromRunnerName (twin_env picks') name 12 empty_st).1 = Some "e5".
Proof. exists [0%nat], [1%nat]. vm_compute. done. Qed.
