(* ===== verification/Webhook.v ===== *)
(** * Webhook ingress: [internal/controller/webhook.go]

    The public endpoint: reads a bounded body, checks GitHub's HMAC signature
    over it, decodes the delivery and submits the events CIFleet cares about.
    The submitter is an interface ([EventSubmitter]), met by the manager's
    queue. *)

From S2P Require Import Prelude GoStrings GoUtf8 GoJson Model Sha256 Http Policy Jobs Wire WireOk Scenario System.
From stdpp Require Import base list strings gmap.
From Stdlib Require Import ZArith String Lia.
Open Scope string_scope.
Open Scope list_scope.
Open Scope Z_scope.

Class EventSubmitter (Q : Type) : Type := submit : Q -> WorkflowJobEvent -> Q * option error.

(** [*RunnerManager] submits to its queue. *)
#[export] Instance manager_submitter (cfg : RunnerManagerConfig)
  : EventSubmitter (list WorkflowJobEvent) := Submit cfg.

Record WebhookServer : Set := mkWebhookServer {
  wh_secret : string;
  wh_marker : string;
}.

(** [has_submit]: the submitter is not nil. *)
Definition NewWebhookServer (secret marker : string) (has_submit : bool) : result WebhookServer :=
  if String.eqb secret "" then Err (ErrMsg "GitHub webhook secret is required")
  else if negb has_submit then Err (ErrMsg "GitHub event submitter is required")
  else Ok (mkWebhookServer secret
             (if String.eqb (TrimSpace marker) "" then "cifleet" else marker)).

(** What the handler reads of a request: the bytes of the body and whether the
    stream breaks after them, and three headers. *)
Record WebhookRequest : Set := mkWebhookRequest {
  wr_stream : string;
  wr_broken : bool;
  wr_Signature : string;
  wr_Event : string;
  wr_Delivery : string;
}.

(** The fields the handler decodes from the JSON payload. *)
Record Payload : Set := mkPayload {
  pl_Action : string;
  pl_InstallationID : Z;
  pl_RepositoryFullName : string;
  pl_RepositoryName : string;
  pl_RepositoryPrivate : bool;
  pl_OwnerLogin : string;
  pl_JobID : Z;
  pl_JobRunID : Z;
  pl_JobName : string;
  pl_JobLabels : list string;
  pl_JobRunnerName : string;
}.

Section payload.
Context `{Unicode}.

(** The nested structs of the payload; each sets fields of the same record. *)
Definition Installation_fields : list Field :=
  [("id", at_ dec_int pl_InstallationID (fun v p =>
       mkPayload (pl_Action p) v (pl_RepositoryFullName p) (pl_RepositoryName p)
       (pl_RepositoryPrivate p) (pl_OwnerLogin p) (pl_JobID p) (pl_JobRunID p) (pl_JobName p)
       (pl_JobLabels p) (pl_JobRunnerName p)))].

Definition Owner_fields : list Field :=
  [("login", at_ dec_string pl_OwnerLogin (fun v p =>
       mkPayload (pl_Action p) (pl_InstallationID p) (pl_RepositoryFullName p)
       (pl_RepositoryName p) (pl_RepositoryPrivate p) v (pl_JobID p) (pl_JobRunID p) (pl_JobName
       p) (pl_JobLabels p) (pl_JobRunnerName p)))].

Definition Repository_fields : list Field :=
  [("full_name", at_ dec_string pl_RepositoryFullName (fun v p =>
       mkPayload (pl_Action p) (pl_InstallationID p) v (pl_RepositoryName p)
       (pl_RepositoryPrivate p) (pl_OwnerLogin p) (pl_JobID p) (pl_JobRunID p) (pl_JobName p)
       (pl_JobLabels p) (pl_JobRunnerName p)));
   ("name", at_ dec_string pl_RepositoryName (fun v p =>
       mkPayload (pl_Action p) (pl_InstallationID p) (pl_RepositoryFullName p) v
       (pl_RepositoryPrivate p) (pl_OwnerLogin p) (pl_JobID p) (pl_JobRunID p) (pl_JobName p)
       (pl_JobLabels p) (pl_JobRunnerName p)));
   ("private", at_ dec_bool pl_RepositoryPrivate (fun v p =>
       mkPayload (pl_Action p) (pl_InstallationID p) (pl_RepositoryFullName p)
       (pl_RepositoryName p) v (pl_OwnerLogin p) (pl_JobID p) (pl_JobRunID p) (pl_JobName p)
       (pl_JobLabels p) (pl_JobRunnerName p)));
   ("owner", dec_struct Owner_fields false)].

Definition WorkflowJob_fields : list Field :=
  [("id", at_ dec_int pl_JobID (fun v p =>
       mkPayload (pl_Action p) (pl_InstallationID p) (pl_RepositoryFullName p)
       (pl_RepositoryName p) (pl_RepositoryPrivate p) (pl_OwnerLogin p) v (pl_JobRunID p)
       (pl_JobName p) (pl_JobLabels p) (pl_JobRunnerName p)));
   ("run_id", at_ dec_int pl_JobRunID (fun v p =>
       mkPayload (pl_Action p) (pl_InstallationID p) (pl_RepositoryFullName p)
       (pl_RepositoryName p) (pl_RepositoryPrivate p) (pl_OwnerLogin p) (pl_JobID p) v
       (pl_JobName p) (pl_JobLabels p) (pl_JobRunnerName p)));
   ("name", at_ dec_string pl_JobName (fun v p =>
       mkPayload (pl_Action p) (pl_InstallationID p) (pl_RepositoryFullName p)
       (pl_RepositoryName p) (pl_RepositoryPrivate p) (pl_OwnerLogin p) (pl_JobID p)
       (pl_JobRunID p) v (pl_JobLabels p) (pl_JobRunnerName p)));
   ("labels", at_ dec_strings pl_JobLabels (fun v p =>
       mkPayload (pl_Action p) (pl_InstallationID p) (pl_RepositoryFullName p)
       (pl_RepositoryName p) (pl_RepositoryPrivate p) (pl_OwnerLogin p) (pl_JobID p)
       (pl_JobRunID p) (pl_JobName p) v (pl_JobRunnerName p)));
   ("runner_name", at_ dec_string pl_JobRunnerName (fun v p =>
       mkPayload (pl_Action p) (pl_InstallationID p) (pl_RepositoryFullName p)
       (pl_RepositoryName p) (pl_RepositoryPrivate p) (pl_OwnerLogin p) (pl_JobID p)
       (pl_JobRunID p) (pl_JobName p) (pl_JobLabels p) v))].

Definition Payload_fields : list Field :=
  [("action", at_ dec_string pl_Action (fun v p =>
       mkPayload v (pl_InstallationID p) (pl_RepositoryFullName p) (pl_RepositoryName p)
       (pl_RepositoryPrivate p) (pl_OwnerLogin p) (pl_JobID p) (pl_JobRunID p) (pl_JobName p)
       (pl_JobLabels p) (pl_JobRunnerName p)));
   ("installation", dec_struct Installation_fields false);
   ("repository", dec_struct Repository_fields false);
   ("workflow_job", dec_struct WorkflowJob_fields false)].

Definition zeroPayload : Payload := mkPayload "" 0 "" "" false "" 0 0 "" [] "".

(** [json.Unmarshal(body, &payload)] *)
Definition decode_payload (body : string) : option Payload :=
  parse body ≫= dec_struct Payload_fields false zeroPayload.

(** A decoded payload is one the state file can hold: integers are in range
    and strings are UTF-8. *)
Record payload_ok (p : Payload) : Prop := {
  po_ints : Forall in_int64 [pl_JobID p; pl_JobRunID p; pl_InstallationID p];
  po_strings : utf8s [pl_RepositoryFullName p; pl_OwnerLogin p; pl_RepositoryName p];
  po_labels : utf8s (pl_JobLabels p);
}.

Ltac payload_field :=
  cbn [snd];
  first
    [ apply keeps_at with in_int64;
        [by intros ? [Hi _ _]; rewrite !Forall_cons in Hi; destruct_and? Hi|apply dec_int_range|]
    | apply keeps_at with (fun s => utf8 s = true);
        [by intros ? [_ Hs _]; unfold utf8s in Hs; rewrite !Forall_cons in Hs; destruct_and? Hs
        |apply dec_string_utf8|]
    | apply keeps_at with utf8s; [by intros ? [_ _ Hl]|apply dec_strings_utf8|]
    | apply keeps_other ];
  intros ? ?; intros [Hi Hs Hl]; unfold utf8s in Hs; rewrite !Forall_cons in Hi;
  rewrite !Forall_cons in Hs; destruct_and? Hi; destruct_and? Hs; try intros Hx;
  (split; unfold utf8s; cbn; [forall_list..|]; done).

Lemma decode_payload_ok body p : decode_payload body = Some p -> payload_ok p.
Proof.
  unfold decode_payload. destruct (parse body) as [j|]; [|done]. cbn [mbind option_bind].
  apply (dec_members_keeps payload_ok); [|by split; unfold utf8s; forall_list].
  unfold Payload_fields. forall_list; cbn [snd]; [payload_field|apply dec_members_keeps..].
  - unfold Installation_fields. forall_list. payload_field.
  - unfold Repository_fields. forall_list; [payload_field..|]. cbn [snd].
    apply dec_members_keeps. unfold Owner_fields. forall_list. payload_field.
  - unfold WorkflowJob_fields. forall_list; payload_field.
Qed.
End payload.

Definition maxWebhookBody : Z := Z.shiftl 2 20.

Definition validWebhookSignature (secret body header : string) : bool :=
  if String.eqb secret "" || negb (HasPrefix header "sha256=") then false
  else match hex_DecodeString (TrimPrefix header "sha256=") with
       | None => false
       | Some provided => String.eqb (hmac_sha256 secret body) provided
       end.

Definition event_of (delivery : string) (p : Payload) : WorkflowJobEvent :=
  mkWorkflowJobEvent delivery (pl_Action p) (pl_InstallationID p)
    (mkRepositoryInfo (pl_RepositoryFullName p) (pl_OwnerLogin p) (pl_RepositoryName p)
       (pl_RepositoryPrivate p))
    (mkWorkflowJobInfo (pl_JobID p) (pl_JobRunID p) (pl_JobName p) (pl_JobLabels p)
       (pl_JobRunnerName p)).

Section webhook.
Context `{Unicode} {Q : Type} `{!EventSubmitter Q}.
Definition webhook (s : WebhookServer) (r : WebhookRequest) (q : Q) : Response * Q :=
  match read_limited (maxWebhookBody + 1) (wr_stream r) (wr_broken r) with
  | None => (writeJSON StatusBadRequest (BError "read webhook body"), q)
  | Some body =>
      if maxWebhookBody <? slen body
      then (writeJSON StatusRequestEntityTooLarge (BError "webhook body too large"), q)
      else if negb (validWebhookSignature (wh_secret s) body (wr_Signature r))
      then (writeJSON StatusUnauthorized (BError "invalid webhook signature"), q)
      else if String.eqb (wr_Event r) "ping" then (writeJSON StatusOK (BFlag "ok"), q)
      else if negb (String.eqb (wr_Event r) "workflow_job")
      then (writeJSON StatusAccepted (BFlag "ignored"), q)
      else
        match decode_payload body with
        | None => (writeJSON StatusBadRequest (BError "invalid workflow_job payload"), q)
        | Some payload =>
            let event := event_of (wr_Delivery r) payload in
            let job := ev_Job event in
            if String.eqb (ev_Action event) "queued" && negb (hasLabel (job_Labels job) (wh_marker s))
            then (writeJSON StatusAccepted (BFlag "ignored"), q)
            else if String.eqb (ev_Action event) "completed"
                    && negb (hasLabel (job_Labels job) (wh_marker s))
                    && negb (HasPrefix (ToLower (job_RunnerName job)) "cifleet-")
            then (writeJSON StatusAccepted (BFlag "ignored"), q)
            else if negb (String.eqb (ev_Action event) "queued")
                    && negb (String.eqb (ev_Action event) "completed")
            then (writeJSON StatusAccepted (BFlag "ignored"), q)
            else
              match submit q event with
              | (q', Some err) => (writeJSON StatusServiceUnavailable (BErr err), q')
              | (q', None) => (writeJSON StatusAccepted (BFlag "accepted"), q')
              end
        end
  end.

(** ** The specification *)

(** The header carries the HMAC of the body under the secret, in hexadecimal of
    either case. *)
Definition signed (secret body header : string) : Prop :=
  exists digits, header = "sha256=" +:+ digits
    /\ smap ascii_lower digits = hex_EncodeToString (hmac_sha256 secret body).

(** A queued job with the marker label, or a completed job with the label or
    that ran on a CIFleet runner. *)
Definition concerns (s : WebhookServer) (ev : WorkflowJobEvent) : Prop :=
  ev_Action ev = "queued" /\ hasLabel (job_Labels (ev_Job ev)) (wh_marker s) = true
  \/ ev_Action ev = "completed"
     /\ (hasLabel (job_Labels (ev_Job ev)) (wh_marker s) = true
         \/ HasPrefix (ToLower (job_RunnerName (ev_Job ev))) "cifleet-" = true).

(** The body arrives, within the limit. *)
Definition complete (r : WebhookRequest) : Prop :=
  wr_broken r = false /\ slen (wr_stream r) <= maxWebhookBody.

(** The request is a complete, authentic delivery of [ev], an event that
    concerns CIFleet. *)
Record delivers (s : WebhookServer) (r : WebhookRequest) (ev : WorkflowJobEvent) : Prop := {
  dl_complete : complete r;
  dl_signed : signed (wh_secret s) (wr_stream r) (wr_Signature r);
  dl_type : wr_Event r = "workflow_job";
  dl_event : exists p, decode_payload (wr_stream r) = Some p /\ ev = event_of (wr_Delivery r) p;
  dl_concerns : concerns s ev;
}.

(** The requests that are turned down, each with its answer. *)
Inductive turned_down (s : WebhookServer) (r : WebhookRequest) : Response -> Prop :=
| td_unreadable :
    wr_broken r = true -> slen (wr_stream r) <= maxWebhookBody ->
    turned_down s r (writeJSON StatusBadRequest (BError "read webhook body"))
| td_too_large :
    maxWebhookBody < slen (wr_stream r) ->
    turned_down s r (writeJSON StatusRequestEntityTooLarge (BError "webhook body too large"))
| td_unsigned :
    complete r -> ~ signed (wh_secret s) (wr_stream r) (wr_Signature r) ->
    turned_down s r (writeJSON StatusUnauthorized (BError "invalid webhook signature"))
| td_ping :
    complete r -> signed (wh_secret s) (wr_stream r) (wr_Signature r) -> wr_Event r = "ping" ->
    turned_down s r (writeJSON StatusOK (BFlag "ok"))
| td_type :
    complete r -> signed (wh_secret s) (wr_stream r) (wr_Signature r) ->
    wr_Event r <> "ping" -> wr_Event r <> "workflow_job" ->
    turned_down s r (writeJSON StatusAccepted (BFlag "ignored"))
| td_payload :
    complete r -> signed (wh_secret s) (wr_stream r) (wr_Signature r) -> wr_Event r = "workflow_job" ->
    decode_payload (wr_stream r) = None ->
    turned_down s r (writeJSON StatusBadRequest (BError "invalid workflow_job payload"))
| td_foreign p :
    complete r -> signed (wh_secret s) (wr_stream r) (wr_Signature r) -> wr_Event r = "workflow_job" ->
    decode_payload (wr_stream r) = Some p -> ~ concerns s (event_of (wr_Delivery r) p) ->
    turned_down s r (writeJSON StatusAccepted (BFlag "ignored")).

(** ** Lemmas *)

Lemma smap_length f s : String.length (smap f s) = String.length s.
Proof. induction s as [|c s IH]; cbn; [done|by rewrite IH]. Qed.

(** Two spellings of a string of hexadecimal digits decode alike. *)
Lemma from_hex_ascii_lower c : from_hex (of_byte (ascii_lower (byte_of c))) = from_hex c.
Proof.
  pose proof (byte_of_bounds c). unfold ascii_lower.
  destruct ((65 <=? byte_of c) && (byte_of c <=? 90)) eqn:E; [|by rewrite of_byte_of].
  unfold from_hex. rewrite byte_of_of by lia. repeat destruct_match; try lia; f_equal; lia.
Qed.

Lemma hex_decode_lower s : hex_DecodeString (smap ascii_lower s) = hex_DecodeString s.
Proof.
  induction s as [s IH] using (induction_ltof1 _ String.length).
  destruct s as [|c1 [|c2 s]]; [done|done|]. cbn [smap hex_DecodeString].
  rewrite !from_hex_ascii_lower, IH; [done|]. unfold ltof. cbn. lia.
Qed.

Lemma validWebhookSignature_signed secret body header :
  secret <> "" -> validWebhookSignature secret body header = true <-> signed secret body header.
Proof.
  intros Hs. unfold validWebhookSignature, TrimPrefix.
  destruct (String.eqb_spec secret ""); [done|]. cbn [orb].
  destruct (HasPrefix header "sha256=") eqn:Ep; cbn [negb].
  - apply HasPrefix_spec in Ep as [digits ->].
    change (sdrop (String.length "sha256=") ("sha256=" +:+ digits)) with digits. split.
    + destruct (hex_DecodeString digits) as [t|] eqn:Ed; [|done]. intros <-%String.eqb_eq.
      exists digits. split; [done|]. by apply hex_decode_encode.
    + intros (d & E & Hd). apply sapp_inj_l in E as <-.
      rewrite <- hex_decode_lower, Hd, hex_roundtrip. apply String.eqb_refl.
  - split; [done|]. intros (d & -> & _). by rewrite (proj2 (HasPrefix_spec _ _)) in Ep by eauto.
Qed.

(** Whether a header is signed can be decided, whatever the secret. *)
Lemma signed_dec secret body header : signed secret body header \/ ~ signed secret body header.
Proof.
  destruct (HasPrefix header "sha256=") eqn:Ep.
  - apply HasPrefix_spec in Ep as [digits ->].
    destruct (decide (smap ascii_lower digits = hex_EncodeToString (hmac_sha256 secret body))) as [E|Hne].
    + left. by exists digits.
    + right. intros (d & E & Hd). by apply sapp_inj_l in E as <-.
  - right. intros (d & -> & _). by rewrite (proj2 (HasPrefix_spec _ _)) in Ep by eauto.
Qed.

(** C23. The signature check is exactly GitHub's scheme: a header is accepted
    if and only if the secret is not empty and the header is [sha256=] followed
    by the HMAC-SHA-256 of the body under the secret, in hexadecimal digits of
    either case; in particular nothing is accepted under an empty secret, and
    under any other the header GitHub computes is. *)
Theorem validWebhookSignature_iff secret body header :
  (validWebhookSignature secret body header = true
   <-> secret <> ""
       /\ exists digits, header = "sha256=" +:+ digits
            /\ smap ascii_lower digits = hex_EncodeToString (hmac_sha256 secret body))
  /\ (secret <> "" ->
      validWebhookSignature secret body
        ("sha256=" +:+ hex_EncodeToString (hmac_sha256 secret body)) = true).
Proof.
  split.
  - destruct (decide (secret = "")) as [->|Hs]; [by split; [|intros []]|].
    rewrite validWebhookSignature_signed by done. by split; [|intros []].
  - intros Hs. unfold validWebhookSignature, TrimPrefix. destruct (String.eqb_spec secret ""); [done|].
    rewrite (proj2 (HasPrefix_spec _ _)) by eauto. cbn [orb negb].
    change (sdrop _ ("sha256=" +:+ ?x)) with x. rewrite hex_roundtrip. apply String.eqb_refl.
Qed.

(** The three filters of the handler let exactly these events through. *)
Lemma filters_concern {A} s ev (ignored through : A) :
  let job := ev_Job ev in
  let answer :=
    if String.eqb (ev_Action ev) "queued" && negb (hasLabel (job_Labels job) (wh_marker s))
    then ignored
    else if String.eqb (ev_Action ev) "completed"
            && negb (hasLabel (job_Labels job) (wh_marker s))
            && negb (HasPrefix (ToLower (job_RunnerName job)) "cifleet-")
    then ignored
    else if negb (String.eqb (ev_Action ev) "queued") && negb (String.eqb (ev_Action ev) "completed")
    then ignored else through in
  concerns s ev /\ answer = through \/ ~ concerns s ev /\ answer = ignored.
Proof.
  cbn zeta. unfold concerns.
  destruct (hasLabel (job_Labels (ev_Job ev)) (wh_marker s));
    destruct (HasPrefix (ToLower (job_RunnerName (ev_Job ev))) "cifleet-");
    destruct (String.eqb_spec (ev_Action ev) "queued") as [Eq|];
    destruct (String.eqb_spec (ev_Action ev) "completed") as [Ec|]; cbn; try congruence;
    try (left; split; [|done]; tauto); right; (split; [|done]);
    intros [[? ?]|[? [?|?]]]; congruence.
Qed.

(** What is submitted meets the manager's assumption on events. *)
Lemma delivers_storable s r ev : delivers s r ev -> storable_event ev.
Proof.
  intros [_ _ _ (p & Hp & ->) _]. apply decode_payload_ok in Hp as [Hi Hs Hl].
  by split.
Qed.

(** The submitter is reached only by a complete, authentic request. *)
Lemma webhook_acts s r q :
  wh_secret s <> "" -> (webhook s r q).2 <> q ->
  slen (wr_stream r) <= maxWebhookBody /\ signed (wh_secret s) (wr_stream r) (wr_Signature r).
Proof.
  intros Hsec. unfold webhook.
  pose proof (read_limited_spec maxWebhookBody (wr_stream r) (wr_broken r) ltac:(by vm_compute)) as Hr.
  destruct (read_limited _ _ _) as [body|]; [|done].
  destruct (maxWebhookBody <? slen body); [done|]. destruct Hr as (-> & _ & Hl).
  destruct (validWebhookSignature _ _ _) eqn:Hs; cbn [negb]; [|done].
  by apply validWebhookSignature_signed in Hs.
Qed.

Lemma NewWebhookServer_secret secret marker s :
  NewWebhookServer secret marker true = Ok s -> wh_secret s <> "".
Proof. unfold NewWebhookServer. destruct (String.eqb_spec secret ""); [done|]. by intros [= <-]. Qed.

(** The end of the handler. *)
Definition submitted (q : Q) (ev : WorkflowJobEvent) : Response * Q :=
  match submit q ev with
  | (q', Some err) => (writeJSON StatusServiceUnavailable (BErr err), q')
  | (q', None) => (writeJSON StatusAccepted (BFlag "accepted"), q')
  end.

(** What the handler does with a complete body. *)
Lemma webhook_complete s r q :
  complete r ->
  webhook s r q =
  if negb (validWebhookSignature (wh_secret s) (wr_stream r) (wr_Signature r))
  then (writeJSON StatusUnauthorized (BError "invalid webhook signature"), q)
  else if String.eqb (wr_Event r) "ping" then (writeJSON StatusOK (BFlag "ok"), q)
  else if negb (String.eqb (wr_Event r) "workflow_job")
  then (writeJSON StatusAccepted (BFlag "ignored"), q)
  else match decode_payload (wr_stream r) with
       | None => (writeJSON StatusBadRequest (BError "invalid workflow_job payload"), q)
       | Some p =>
           let ev := event_of (wr_Delivery r) p in
           let ignored := (writeJSON StatusAccepted (BFlag "ignored"), q) in
           if String.eqb (ev_Action ev) "queued" && negb (hasLabel (job_Labels (ev_Job ev)) (wh_marker s))
           then ignored
           else if String.eqb (ev_Action ev) "completed"
                   && negb (hasLabel (job_Labels (ev_Job ev)) (wh_marker s))
                   && negb (HasPrefix (ToLower (job_RunnerName (ev_Job ev))) "cifleet-")
           then ignored
           else if negb (String.eqb (ev_Action ev) "queued") && negb (String.eqb (ev_Action ev) "completed")
           then ignored else submitted q ev
       end.
Proof.
  intros [Hb Hl]. unfold webhook.
  pose proof (read_limited_spec maxWebhookBody (wr_stream r) (wr_broken r) ltac:(by vm_compute)) as Hr.
  destruct (read_limited _ _ _) as [body|]; [|congruence].
  destruct (Z.ltb_spec maxWebhookBody (slen body)); [lia|]. by destruct Hr as (-> & _ & _).
Qed.

Lemma webhook_turned_down s r q resp :
  wh_secret s <> "" -> turned_down s r resp -> webhook s r q = (resp, q).
Proof.
  intros Hsec Hdown.
  assert (Hvalid : signed (wh_secret s) (wr_stream r) (wr_Signature r) ->
            validWebhookSignature (wh_secret s) (wr_stream r) (wr_Signature r) = true)
    by by apply validWebhookSignature_signed.
  destruct Hdown as [Hb Hl|Hl|Hc Hs|Hc Hs Ht|Hc Hs Hp Ht|Hc Hs Ht Hd|p Hc Hs Ht Hd Hno];
    try (rewrite webhook_complete, Hvalid by done; cbn [negb]).
  - unfold webhook, read_limited. rewrite Hb. by replace (slen (wr_stream r) <? maxWebhookBody + 1) with true by lia.
  - unfold webhook, read_limited.
    replace (slen (wr_stream r) <? maxWebhookBody + 1) with false by lia. rewrite andb_false_r.
    rewrite slen_stake by (by vm_compute).
    by replace (maxWebhookBody <? Z.min (maxWebhookBody + 1) (slen (wr_stream r))) with true by lia.
  - rewrite webhook_complete by done. destruct (validWebhookSignature _ _ _) eqn:Hv; [|done].
    by apply validWebhookSignature_signed in Hv.
  - by rewrite Ht.
  - by destruct (String.eqb_spec (wr_Event r) "ping"), (String.eqb_spec (wr_Event r) "workflow_job").
  - by rewrite Ht, Hd.
  - rewrite Ht, Hd. cbn [String.eqb Ascii.eqb Bool.eqb andb negb]. cbv zeta.
    destruct (filters_concern s (event_of (wr_Delivery r) p)
      (writeJSON StatusAccepted (BFlag "ignored"), q) (submitted q (event_of (wr_Delivery r) p)))
      as [[Hyes _]|[_ E]]; [by destruct Hno|exact E].
Qed.

(** What does not concern CIFleet is turned down. *)
Lemma turned_down_total s r : (forall ev, ~ delivers s r ev) -> exists resp, turned_down s r resp.
Proof.
  intros Hno. destruct (Z.le_gt_cases (slen (wr_stream r)) maxWebhookBody) as [Hl|Hl];
    [|by eexists; apply td_too_large].
  destruct (wr_broken r) eqn:Hb; [by eexists; apply td_unreadable|].
  assert (Hc : complete r) by by split.
  destruct (signed_dec (wh_secret s) (wr_stream r) (wr_Signature r)) as [Hs|Hs];
    [|by eexists; apply td_unsigned].
  destruct (decide (wr_Event r = "ping")) as [Ht|Ht]; [by eexists; apply td_ping|].
  destruct (decide (wr_Event r = "workflow_job")) as [Hj|Hj]; [|by eexists; apply td_type].
  destruct (decode_payload (wr_stream r)) as [p|] eqn:Hp; [|by eexists; apply td_payload].
  eexists. apply (td_foreign s r p); try done. intros Hcon.
  apply (Hno (event_of (wr_Delivery r) p)). split; eauto.
Qed.

(** C22. The webhook submits exactly the authentic deliveries that concern
    CIFleet: a server built by [NewWebhookServer] answers a complete request
    whose signature is the HMAC of its body, of type [workflow_job] and about a
    queued job with the marker label or a completed job with the label or a
    CIFleet runner, by submitting the decoded event once (202, or 503 when the
    submitter refuses it), with integers in range and UTF-8 texts; every other
    request falls under one of the cases of [turned_down], gets exactly the
    answer of its case (400, 413, 401, 200 or 202) and leaves the submitter
    untouched. *)
Theorem webhook_correct secret marker s r q :
  NewWebhookServer secret marker true = Ok s ->
  (forall ev, delivers s r ev ->
     storable_event ev /\
     webhook s r q =
     match submit q ev with
     | (q', Some err) => (writeJSON StatusServiceUnavailable (BErr err), q')
     | (q', None) => (writeJSON StatusAccepted (BFlag "accepted"), q')
     end)
  /\ (forall resp, turned_down s r resp -> webhook s r q = (resp, q))
  /\ ((forall ev, ~ delivers s r ev) -> exists resp, turned_down s r resp).
Proof.
  intros Hsec%NewWebhookServer_secret. split_and!.
  - intros ev [Hcomplete Hs Ht (p & Hp & ->) Hc].
    split; [by eapply delivers_storable; split; eauto|].
    rewrite (webhook_complete s r q Hcomplete), (proj2 (validWebhookSignature_signed _ _ _ Hsec) Hs), Ht, Hp.
    cbn [negb]. destruct (filters_concern s (event_of (wr_Delivery r) p)
      (writeJSON StatusAccepted (BFlag "ignored"), q) (submitted q (event_of (wr_Delivery r) p)))
      as [[_ E]|[[] _]]; [exact E|exact Hc].
  - intros resp Hdown. by apply webhook_turned_down.
  - apply turned_down_total.
Qed.
End webhook.

(** ** Witnesses *)

(** [TestWebhookSignatureGitHubVector]. *)
Example github_vector :
  validWebhookSignature "It's a Secret to Everybody" "Hello, World!"
    "sha256=757107ea0eb2509fc211221cce984b8a37570b6d7586c22c46f4379c8b043e17" = true.
Proof. vm_compute. reflexivity. Qed.

Lemma validWebhookSignature_iff_witness :
  validWebhookSignature "secret" "{}"
    ("sha256=" +:+ hex_EncodeToString (hmac_sha256 "secret" "{}")) = true.
Proof.
  exact (proj2 (validWebhookSignature_iff "secret" "{}" "") ltac:(discriminate)).
Defined.

Definition demo_body : string :=
  print compact 0 (JObj
    (mem "action" (enc_string "queued")
     ++ mem "installation" (JObj (mem "id" (enc_int 42)))
     ++ mem "repository" (JObj
          (mem "full_name" (enc_string "fangbm/CIFleet") ++ mem "name" (enc_string "CIFleet")
           ++ mem "private" (enc_bool false)
           ++ mem "owner" (JObj (mem "login" (enc_string "fangbm")))))
     ++ mem "workflow_job" (JObj
          (mem "id" (enc_int 12) ++ mem "run_id" (enc_int 10) ++ mem "name" (enc_string "smoke")
           ++ mem "labels" (enc_strings ["self-hosted"; "cifleet"; "linux-x64"]))))).

Definition demo_webhook : WebhookServer := mkWebhookServer "secret" "cifleet".
Definition demo_delivery : WebhookRequest :=
  mkWebhookRequest demo_body false
    ("sha256=" +:+ hex_EncodeToString (hmac_sha256 "secret" demo_body))
    "workflow_job" "delivery-1".

#[local] Instance demo_submitter : EventSubmitter (list WorkflowJobEvent) :=
  manager_submitter demo_cfg.

(** [TestWebhookAcceptsCIFleetQueuedJob] and [TestWebhookRejectsInvalidSignature]. *)
Example accepts_queued_job :
  webhook demo_webhook demo_delivery []
  = (writeJSON StatusAccepted (BFlag "accepted"), [demo_event "queued"]).
Proof. vm_compute. reflexivity. Qed.
Example rejects_bad_signature :
  webhook demo_webhook
    (mkWebhookRequest "{}" false "sha256=00" "workflow_job" "delivery-1") []
  = (writeJSON StatusUnauthorized (BError "invalid webhook signature"), []).
Proof. vm_compute. reflexivity. Qed.

Lemma demo_delivers : delivers demo_webhook demo_delivery (demo_event "queued").
Proof.
  split.
  - split; [done|]. vm_compute. discriminate.
  - eexists. split; [reflexivity|]. vm_compute. reflexivity.
  - done.
  - eexists. split; vm_compute; reflexivity.
  - left. split; vm_compute; reflexivity.
Qed.

Lemma webhook_correct_witness :
  storable_event (demo_event "queued") /\
  webhook demo_webhook demo_delivery [] =
  match submit [] (demo_event "queued") with
  | (q', Some err) => (writeJSON StatusServiceUnavailable (BErr err), q')
  | (q', None) => (writeJSON StatusAccepted (BFlag "accepted"), q')
  end.
Proof.
  exact (proj1 (webhook_correct "secret" "cifleet" demo_webhook demo_delivery [] eq_refl)
           (demo_event "queued") demo_delivers).
Defined.
