(* ===== verification/Agent.v ===== *)
(** * The node agent's server: [internal/agent/server.go]

    The agent drives one backend through the interface [Backend] (a record of
    operations over the world they act on).  Its HTTP server is reserved to the
    controller's certificate. *)

From S2P Require Import Prelude GoTime GoStrings Model Http Scheduler Server GoUrl.
From stdpp Require Import base list strings gmap.
From Stdlib Require Import ZArith Ascii String Lia.
Open Scope string_scope.
Open Scope list_scope.
Open Scope Z_scope.

(** ** The backend interface ([backend.Backend] with [backend.Janitor]) *)

Record Backend_ (W : Type) : Type := mkBackend {
  Kind : BackendKind;
  Capacity_ : W -> result Capacity * W;
  Create : JobSpec -> W -> result Instance_ * W;
  Destroy : string -> W -> option error * W;
  CleanupExpired : Time -> W -> (Z * option error) * W;
}.
Arguments Kind {W}.
Arguments Capacity_ {W}.
Arguments Create {W}.
Arguments Destroy {W}.
Arguments CleanupExpired {W}.

(** ** The HTTP server *)

Record AgentServer (W : Type) : Type := mkAgentServer {
  as_NodeID : string;
  as_ControllerIdentity : string;
  as_Backend : option (Backend_ W);
}.
Arguments as_NodeID {W}.
Arguments as_ControllerIdentity {W}.
Arguments as_Backend {W}.

(** The name the controller's certificate must carry. *)
Definition wanted_identity {W} (s : AgentServer W) : string :=
  if String.eqb (as_ControllerIdentity s) "" then "controller" else as_ControllerIdentity s.

(** [None]: authorised; otherwise the answer that was written. *)
Definition authorizeController {W} (s : AgentServer W) (tls : TLS) : option Response :=
  match tls with
  | None => None
  | Some [] =>
      Some (writeJSON StatusForbidden (BError "controller client certificate is required"))
  | Some (got :: _) =>
      if String.eqb got "" || negb (String.eqb got (wanted_identity s))
      then Some (writeJSON StatusForbidden
                   (BError "client certificate is not the CIFleet controller"))
      else None
  end.

Section server.
Context {W : Type}.

(** The two guards every worker handler starts with. *)
Definition guarded (s : AgentServer W) (tls : TLS) (w : W) (handle : Backend_ W -> Response * W)
  : Response * W :=
  match authorizeController s tls with
  | Some refusal => (refusal, w)
  | None =>
      match as_Backend s with
      | None => (writeJSON StatusServiceUnavailable (BError "backend unavailable"), w)
      | Some b => handle b
      end
  end.

Definition capacity (s : AgentServer W) (tls : TLS) (w : W) : Response * W :=
  guarded s tls w (fun b =>
    match Capacity_ b w with
    | (Err err, w') => (writeJSON StatusServiceUnavailable (BErr err), w')
    | (Ok c, w') => (writeJSON StatusOK (BCapacity c), w')
    end).

(** [decoded] is the outcome of [dec.Decode(&spec)]. *)
Definition createInstance (s : AgentServer W) (tls : TLS) (decoded : result JobSpec) (w : W)
  : Response * W :=
  guarded s tls w (fun b =>
    match decoded with
    | Err err => (writeJSON StatusBadRequest (BErr (ErrWrap "invalid job spec" err)), w)
    | Ok spec =>
        match Create b spec w with
        | (Err err, w') => (writeJSON StatusBadRequest (BErr err), w')
        | (Ok instance, w') => (writeJSON StatusCreated (BInstance instance), w')
        end
    end).

Definition destroyInstance (s : AgentServer W) (tls : TLS) (path_id : string) (w : W)
  : Response * W :=
  guarded s tls w (fun b =>
    let id := TrimSpace path_id in
    if String.eqb id ""
    then (writeJSON StatusBadRequest (BError "instance id is required"), w)
    else match Destroy b id w with
         | (Some err, w') => (writeJSON StatusBadGateway (BErr err), w')
         | (None, w') => (mkResponse StatusNoContent BEmpty, w')
         end).

(** Over TLS a worker handler acts for the controller, or refuses. *)
Definition authorised (s : AgentServer W) (tls : TLS) : Prop :=
  exists cns, tls = Some (wanted_identity s :: cns).

Lemma guarded_refuses s tls w handle :
  tls <> None -> ~ authorised s tls ->
  (guarded s tls w handle).2 = w /\ status (guarded s tls w handle).1 = StatusForbidden.
Proof.
  intros Htls Hno. assert (Hw : wanted_identity s <> "").
  { unfold wanted_identity. by destruct (String.eqb_spec (as_ControllerIdentity s) ""). }
  assert (Hr : exists r, authorizeController s tls = Some r /\ status r = StatusForbidden).
  { unfold authorizeController.
    destruct tls as [[|cn cns]|]; [eexists; split; reflexivity| |done].
    destruct (String.eqb_spec cn ""), (String.eqb_spec cn (wanted_identity s)) as [E|]; cbn;
      try (eexists; split; reflexivity). destruct Hno. exists cns. by rewrite <- E. }
  destruct Hr as (r & Hr & Hs). unfold guarded. by rewrite Hr.
Qed.

(** Only the controller drives a worker: over TLS, the worker handlers act
    on the backend only for a peer whose leaf certificate carries the
    controller's non-empty name; every other peer is answered 403 and the
    backend is not called. *)
Theorem only_controller s tls w :
  tls <> None -> ~ authorised s tls ->
  (capacity s tls w).2 = w /\ status (capacity s tls w).1 = StatusForbidden
  /\ (forall decoded, (createInstance s tls decoded w).2 = w
                      /\ status (createInstance s tls decoded w).1 = StatusForbidden)
  /\ (forall id, (destroyInstance s tls id w).2 = w
                 /\ status (destroyInstance s tls id w).1 = StatusForbidden).
Proof.
  intros Htls Hno. split; [by apply guarded_refuses|]. split; [by apply guarded_refuses|].
  split; intros ?; by apply guarded_refuses.
Qed.

(** ** Routes *)

Inductive Route : Type := RHealth | RCapacity | RCreate | RDestroy (id : string).

(** The route table of [Handler], on a clean path. *)
Definition route (method path : string) : option Route :=
  if is_get method && String.eqb path "/healthz" then Some RHealth
  else if is_get method && String.eqb path "/v1/capacity" then Some RCapacity
  else if String.eqb method "POST" && String.eqb path "/v1/instances" then Some RCreate
  else if String.eqb method "DELETE" && HasPrefix path "/v1/instances/" then
    let segment := TrimPrefix path "/v1/instances/" in
    if String.eqb segment "" || negb (sforall (fun c => negb (Ascii.eqb c "/"%char)) segment)
       || String.eqb segment "." || String.eqb segment ".."
    then None
    else match PathUnescape segment with Some id => Some (RDestroy id) | None => None end
  else None.
End server.

Definition agent_health {W} (s : AgentServer W) (goos goarch : string) (now : Time) : Response :=
  writeJSON StatusOK (BHealth (as_NodeID s) goos goarch now).

(** The handler of a route; [decoded] is the outcome of decoding the body. *)
Definition serve {W} (s : AgentServer W) (r : Route) (goos goarch : string) (now : Time)
  (decoded : result JobSpec) (tls : TLS) (w : W) : Response * W :=
  match r with
  | RHealth => (agent_health s goos goarch now, w)
  | RCapacity => capacity s tls w
  | RCreate => createInstance s tls decoded w
  | RDestroy id => destroyInstance s tls id w
  end.

Lemma authorised_dec {W} (s : AgentServer W) tls : authorised s tls \/ ~ authorised s tls.
Proof.
  destruct tls as [[|cn cns]|]; [right; by intros [? ?]| |right; by intros [? ?]].
  destruct (decide (cn = wanted_identity s)) as [->|Hne]; [left; by eexists|right].
  intros [? [= ? ?]]. congruence.
Qed.

(** A request that changes the worker's world was authorised. *)
Lemma serve_acts {W} (s : AgentServer W) r goos goarch now decoded tls w :
  tls <> None -> (serve s r goos goarch now decoded tls w).2 <> w -> authorised s tls.
Proof.
  intros Htls Hw. destruct (authorised_dec s tls) as [|Hno]; [done|]. destruct Hw.
  destruct r; cbn [serve]; [done|by apply guarded_refuses..].
Qed.

(** ** Witnesses *)

(** The fake backend of [server_test.go]: it remembers the calls. *)
Definition fake_backend : Backend_ (list string) := {|
  Kind := BackendDocker;
  Capacity_ w := (Ok (mkCapacity 4 4 0 0 0), "capacity" :: w);
  Create spec w := (Ok (mkInstance "x" BackendDocker "e5" zeroTime), spec_ID spec :: w);
  Destroy id w := (None, id :: w);
  CleanupExpired _ w := ((0, None), "cleanup" :: w);
|}.

Definition fake_server : AgentServer (list string) :=
  mkAgentServer _ "e5" "controller" (Some fake_backend).

(** [TestWorkerAPIAcceptsControllerCertificate]. *)
Example accepts_controller :
  capacity fake_server (Some ["controller"]) []
  = (writeJSON StatusOK (BCapacity (mkCapacity 4 4 0 0 0)), ["capacity"]).
Proof. vm_compute. reflexivity. Qed.

(** [TestWorkerAPIRejectsNonControllerCertificate]. *)
Lemma only_controller_witness : (capacity fake_server (Some ["e5"]) []).2 = [].
Proof.
  exact (proj1 (only_controller fake_server (Some ["e5"]) [] ltac:(discriminate)
                  ltac:(intros [cns [=]]))).
Defined.
