(* ===== verification/Api.v ===== *)
(** * The HTTP APIs, from bytes to bytes

    [Handler] of [internal/controller/server.go], of
    [internal/agent/server.go] and of [internal/controller/webhook.go]: the
    route tables, the strict decoders with their one-megabyte limit, and the
    encoded answers, around the handlers of [Server.v], [Agent.v] and
    [Webhook.v].  [None] is a request that matches no pattern; the library
    answers it. *)

From S2P Require Import Prelude GoTime GoStrings GoDate GoUtf8 GoJson Model GoUrl Http Scheduler Policy Jobs Wire WireOk Server Webhook Agent.
From stdpp Require Import base list strings gmap.
From Stdlib Require Import ZArith Ascii String Lia.
Open Scope string_scope.
Open Scope list_scope.
Open Scope Z_scope.

(** [http.MaxBytesReader(w, r.Body, 1<<20)] *)
Definition maxBody : Z := Z.shiftl 1 20.

Section api.
Context `{Unicode} `{ErrorText}.

(** ** The controller *)

Inductive ControllerRoute : Set := CHealth | CNodes | CHeartbeat | CSchedule.

Definition controller_route (method path : string) : option ControllerRoute :=
  if is_get method && String.eqb path "/healthz" then Some CHealth
  else if is_get method && String.eqb path "/v1/nodes" then Some CNodes
  else if String.eqb method "POST" && String.eqb path "/v1/nodes/heartbeat" then Some CHeartbeat
  else if String.eqb method "POST" && String.eqb path "/v1/schedule" then Some CSchedule
  else None.

Definition controller_serve (s : Server) (r : ControllerRoute) (text : string) (tls : TLS)
  (picks : list nat) (now : Time) : Server * Response :=
  match r with
  | CHealth => (s, health)
  | CNodes => (s, listNodes picks s now)
  | CHeartbeat => heartbeat s (decode_node (stake maxBody text)) tls now
  | CSchedule => (s, schedule picks s (decode_requirements (stake maxBody text)) now)
  end.

Definition controller_handler (s : Server) (method path text : string) (tls : TLS)
  (picks : list nat) (now : Time) : option (Server * HttpAnswer) :=
  r ← controller_route method path;
  let '(s', resp) := controller_serve s r text tls picks now in
  Some (s', respond resp).

(** ** The agent *)

Definition decode_job (text : string) : result JobSpec :=
  match decode_spec (stake maxBody text) with
  | Some spec => Ok spec
  | None => Err (ErrMsg "json: invalid job spec")
  end.

Definition agent_handler {W} (s : AgentServer W) (method path text : string) (tls : TLS)
  (goos goarch : string) (now : Time) (w : W) : option (HttpAnswer * W) :=
  r ← route method path;
  let '(resp, w') := serve s r goos goarch now (decode_job text) tls w in
  Some (respond resp, w').

(** ** The webhook ingress *)

Definition webhook_handler {Q} `{!EventSubmitter Q} (s : WebhookServer) (method path : string)
  (r : WebhookRequest) (q : Q) : option (HttpAnswer * Q) :=
  if is_get method && String.eqb path "/healthz" then Some (respond (writeJSON StatusOK (BFlag "ok")), q)
  else if String.eqb method "POST" && String.eqb path "/github/webhook"
  then let '(resp, q') := webhook s r q in Some (respond resp, q')
  else None.
End api.
