(* ===== verification/Typing.v ===== *)
(** * The type of what the decoders give

    Whatever the bytes, a value that a handler or the state file's loader gets
    from its decoder is one Go's types and [encoding/json] allow: integers of
    64 bits, valid UTF-8, no field that the tags hide.  Such a value is also
    one the encoders write exactly, so what was read once can be written and
    read back. *)

From S2P Require Import Prelude GoTime GoStrings GoConv GoDate GoUtf8 GoJson Model Http Policy Jobs Wire WireOk Agent Api.
From stdpp Require Import base list strings gmap.
From Stdlib Require Import ZArith String Lia.
Open Scope string_scope.
Open Scope list_scope.
Open Scope Z_scope.

(** A value of [model.JobRequirements]. *)
Record typed_requirements (r : JobRequirements) : Prop := {
  tr_ints : Forall in_int64 [req_CPU r; req_MemoryM r];
  tr_strings : utf8s [req_Repository r; req_OS r; req_Arch r; req_Isolation r];
  tr_capabilities : utf8s (req_Capabilities r);
}.

(** A value of [model.Capacity], of [backend.CacheMount], and a job
    specification whose hidden field is zero. *)
Definition typed_capacity (c : Capacity) : Prop :=
  Forall in_int64 [TotalCPU c; FreeCPU c; TotalMemoryM c; FreeMemoryM c; RunningJobs c].
Definition typed_mount (m : CacheMount) : Prop := utf8s [mount_Name m; mount_Target m].
Definition typed_spec (s : JobSpec) : Prop := sendable_spec s /\ spec_Timeout s = 0.
Definition utf8_map (m : gmap string string) : Prop :=
  map_Forall (fun k v => utf8 k = true /\ utf8 v = true) m.

Section typing.
Context `{Unicode}.

(** Splits a type into its fields. *)
Ltac typed_split H :=
  unfold typed_spec, typed_capacity, typed_mount in H; destruct_and? H;
  repeat match goal with
  | T : sendable_spec _ |- _ => destruct T
  | T : sendable_node _ |- _ => destruct T
  | T : typed_requirements _ |- _ => destruct T
  | T : storable _ |- _ => destruct T
  end;
  unfold utf8s in *;
  repeat match goal with T : Forall _ (_ :: _) |- _ => apply Forall_cons in T as [??] end.

(** The record after one field was set. *)
Ltac typed_set :=
  let Hr := fresh in intros ? ? Hr; typed_split Hr;
  try (let Hx := fresh in intros Hx);
  unfold typed_spec, typed_capacity, typed_mount;
  repeat match goal with
  | |- _ /\ _ => split
  | |- sendable_spec _ => split
  | |- sendable_node _ => split
  | |- typed_requirements _ => split
  | |- storable _ => split
  end;
  unfold utf8s; cbn; first [assumption | reflexivity | forall_list; assumption].

(** One field: its decoder keeps the type [Q] of the field. *)
Ltac typed_at Q keeps_Q :=
  apply keeps_at with Q;
    [ let Hr := fresh in intros ? Hr; typed_split Hr; first [assumption | forall_list; assumption]
    | exact keeps_Q | typed_set ].

Ltac typed_field :=
  cbn [snd];
  first
    [ typed_at in_int64 dec_int_range
    | typed_at (fun s => utf8 s = true) dec_string_utf8
    | typed_at utf8s dec_strings_utf8
    | apply keeps_other; typed_set ].

Lemma dec_requirements_typed strict :
  keeps typed_requirements (dec_struct JobRequirements_fields strict).
Proof. apply dec_members_keeps. unfold JobRequirements_fields. forall_list; typed_field. Qed.

Lemma dec_capacity_typed strict : keeps typed_capacity (dec_struct Capacity_fields strict).
Proof. apply dec_members_keeps. unfold Capacity_fields. forall_list; typed_field. Qed.

Lemma dec_mount_typed strict : keeps typed_mount (dec_struct CacheMount_fields strict).
Proof. apply dec_members_keeps. unfold CacheMount_fields. forall_list; typed_field. Qed.

Lemma dec_record_typed : keeps storable dec_record.
Proof. apply dec_members_keeps. unfold JobRecord_fields. forall_list; typed_field. Qed.

(** *** Slices of structs, and maps of strings *)

Lemma dec_list_keeps {A} (P : A -> Prop) (dec : A -> json -> option A) zero cur j l :
  (forall x v y, P x -> dec x v = Some y -> P y) -> P zero -> Forall P cur ->
  dec_list dec zero cur j = Some l -> Forall P l.
Proof.
  intros Hdec Hz Hc. unfold dec_list. destruct j as [| | | |js|]; try done.
  { intros [= <-]. constructor. }
  revert cur l Hc. induction js as [|j js IH]; intros cur l Hc; cbn [dec_elems].
  { intros [= <-]. constructor. }
  destruct (dec _ j) as [x|] eqn:Ex; [|done].
  destruct (dec_elems dec zero _ js) as [xs|] eqn:Exs; [|done]. intros [= <-]. constructor.
  - eapply Hdec; [|exact Ex]. by destruct Hc.
  - eapply IH; [|exact Exs]. by destruct Hc.
Qed.

Lemma dec_string_map_utf8 cur j m :
  utf8_map cur -> dec_string_map cur j = Some m -> utf8_map m.
Proof.
  intros Hc. unfold dec_string_map. destruct j as [| | | | |ms]; try done.
  { intros [= <-]. apply map_Forall_empty. }
  revert cur Hc. induction ms as [|[k v] ms IH]; intros cur Hc; cbn [dec_pairs]; [by intros [= <-]|].
  destruct (dec_string "" v) as [s|] eqn:Es; [|done]. apply IH. apply map_Forall_insert_2; [|done].
  split; [apply utf8_unquote|]. by eapply dec_string_utf8; [|exact Es].
Qed.

Lemma dec_spec_typed strict : keeps typed_spec (dec_struct (JobSpec_fields strict) strict).
Proof.
  apply dec_members_keeps. unfold JobSpec_fields. forall_list; try typed_field.
  - typed_at utf8_map dec_string_map_utf8.
  - apply keeps_at with (Forall typed_mount).
    + by intros r [[] _].
    + intros cur v x Hc. apply dec_list_keeps; [apply dec_mount_typed|by unfold typed_mount, utf8s; forall_list|done].
    + typed_set.
Qed.

Lemma dec_node_typed strict : keeps sendable_node (dec_struct (Node_fields strict) strict).
Proof.
  apply dec_members_keeps. unfold Node_fields. forall_list; try typed_field.
  apply keeps_at with typed_capacity; [by intros r []|apply dec_capacity_typed|].
  intros r c [] Hc. by split.
Qed.

(** *** The state file *)

Lemma dec_entries_storable ms jobs jobs' :
  all_storable jobs -> dec_entries ms jobs = Some jobs' -> all_storable jobs'.
Proof.
  revert jobs. induction ms as [|[k v] ms IH]; intros jobs Hj; cbn [dec_entries]; [by intros [= <-]|].
  destruct (dec_record zeroJobRecord v) as [r|] eqn:Er; [|done].
  destruct (ParseInt (unquote k)) as [id|] eqn:Ei; [|done]. apply IH.
  intros id' r' [[<- <-]|[_ Hr']]%lookup_insert_Some; [|by apply Hj].
  split; [by eapply ParseInt_range|].
  eapply dec_record_typed; [|exact Er]. split; unfold utf8s; forall_list; done.
Qed.

Lemma unmarshalState_storable data js : unmarshalState data = Ok (Some js) -> all_storable js.
Proof.
  unfold unmarshalState, unmarshal_state. destruct (parse data) as [j|]; [|done].
  cbn [mbind option_bind]. destruct (dec_state j) as [cur|] eqn:Ej; [|done]. intros [= ->].
  assert (Hk : keeps (fun s => forall js, s = Some js -> all_storable js)
                 (dec_struct State_fields false)).
  { apply dec_members_keeps. unfold State_fields. forall_list. intros s v s' Hs. cbn [snd].
    unfold dec_jobs. destruct v as [| | | | |ms]; try done; [by intros [= <-]|].
    destruct (dec_entries ms _) as [jobs|] eqn:Em; [|done]. intros [= <-] ? [= <-].
    eapply dec_entries_storable; [|exact Em]. destruct s as [js0|]; [by apply Hs|].
    intros ? ? Hn. cbn in Hn. by rewrite lookup_empty in Hn. }
  by eapply Hk; [|exact Ej|].
Qed.

(** *** The bodies of requests *)

Lemma decode_job_typed text spec : decode_job text = Ok spec -> typed_spec spec.
Proof.
  unfold decode_job, decode_spec. destruct (parse_first _) as [j|]; [|done]. cbn [mbind option_bind].
  destruct (dec_struct _ _ _ j) as [s|] eqn:E; [|done]. intros [= <-].
  eapply dec_spec_typed; [|exact E].
  split; [|done]. split; unfold utf8s; cbn; try apply map_Forall_empty; by forall_list.
Qed.

(** C17. Whatever bytes arrive, a decoder gives a value of its Go type or
    nothing: a job specification the agent accepts has 64-bit sizes and
    timeout, valid UTF-8 everywhere (environment and cache mounts included)
    and the zero [Timeout] that the tag hides; so do, for their fields, the
    node of a heartbeat, the requirements of a schedule request, and every
    record and key of a state file that [loadState] takes. *)
Theorem decoders_typed text :
  (forall spec, decode_job text = Ok spec -> typed_spec spec)
  /\ (forall n, decode_node (stake maxBody text) = Some n -> sendable_node n)
  /\ (forall r, decode_requirements (stake maxBody text) = Some r -> typed_requirements r)
  /\ (forall js, unmarshalState text = Ok (Some js) -> all_storable js).
Proof.
  split; [intros spec; apply decode_job_typed|]. split; [|split; [|apply unmarshalState_storable]].
  - intros n. unfold decode_node. destruct (parse_first _) as [j|]; [|done]. cbn [mbind option_bind].
    apply dec_node_typed. by split; unfold utf8s; forall_list.
  - intros r. unfold decode_requirements. destruct (parse_first _) as [j|]; [|done].
    cbn [mbind option_bind]. apply dec_requirements_typed. by split; unfold utf8s; forall_list.
Qed.

(** What was read can be written and read back: a job specification an
    agent decoded is decoded again, unchanged, from its own encoding (as long
    as that fits the body limit), and a state file that a controller loaded
    and saved again holds the very same job map, whatever bytes it was loaded
    from (other key order, repeated members, escapes, or unknown fields). *)
Theorem decoded_is_stable text :
  (forall spec, decode_job text = Ok spec -> slen (marshal_spec spec) <= maxBody ->
     decode_job (marshal_spec spec) = Ok spec)
  /\ (forall js data, unmarshalState text = Ok (Some js) -> marshalState js = Ok data ->
        unmarshalState data = Ok (Some js)).
Proof.
  split.
  - intros spec [Hs Ht]%decode_job_typed Hlen. unfold decode_job.
    rewrite stake_all by done. rewrite decode_marshal_spec by done. by destruct spec; cbn in *; subst.
  - intros js data Hjs%unmarshalState_storable. by apply unmarshal_marshal.
Qed.
End typing.

(** ** Witnesses *)

Definition small_spec : string :=
  print compact 0 (JObj (mem "CPU" (enc_int 2) ++ mem "id" (enc_string "gh-12") ++ mem "cpu" (enc_int 3))).
Definition decoded_spec : JobSpec := mkJobSpec "gh-12" "" "" "" [] 3 0 ∅ [] 0 0.

Lemma small_spec_decoded : decode_job small_spec = Ok decoded_spec.
Proof. vm_compute. reflexivity. Qed.

Lemma small_spec_short : slen (marshal_spec decoded_spec) <= maxBody.
Proof. vm_compute. discriminate. Qed.

Lemma decoders_typed_witness : typed_spec decoded_spec.
Proof. exact (proj1 (decoders_typed small_spec) decoded_spec small_spec_decoded). Defined.

Lemma decoded_is_stable_witness : decode_job (marshal_spec decoded_spec) = Ok decoded_spec.
Proof.
  exact (proj1 (decoded_is_stable small_spec) decoded_spec small_spec_decoded small_spec_short).
Defined.
