(* ===== verification/Registry.v ===== *)
(** * The registry as a function of the requests it received

    The handlers of [internal/controller/server.go] run concurrently; a mutex
    makes each change of the map atomic, so a history of the registry is a
    sequence of requests.  The reference is a definition without a map: what
    is known of a node is the last heartbeat that was good for it.  The
    theorem says that the map is that reference, and hence that
    the interleaving of different nodes' heartbeats does not matter. *)

From S2P Require Import Prelude GoTime GoStrings GoDate GoUtf8 GoJson Model Http Scheduler Policy Jobs Wire WireOk Server Agent Api Typing.
From stdpp Require Import base list strings gmap.
From Stdlib Require Import ZArith String Lia.
Open Scope string_scope.
Open Scope list_scope.
Open Scope Z_scope.

(** A request as a handler of the controller's API sees it, with the clock and
    the map iteration order of its handling. *)
Record ApiRequest : Type := mkApiRequest {
  aq_Method : string;
  aq_Path : string;
  aq_Body : string;
  aq_TLS : TLS;
  aq_picks : list nat;
  aq_now : Time;
}.

Section registry.
Context `{Unicode} `{ErrorText}.

(** The registry after a request, and after a sequence of them. *)
Definition handle (s : Server) (q : ApiRequest) : Server :=
  match controller_handler s (aq_Method q) (aq_Path q) (aq_Body q) (aq_TLS q) (aq_picks q) (aq_now q) with
  | Some (s', _) => s'
  | None => s
  end.

Definition handle_all (s : Server) (qs : list ApiRequest) : Server := fold_left handle qs s.

(** ** The reference *)

(** The peer may speak for the node: plain HTTP, no certificate, or a leaf
    certificate in the node's name. *)
Definition speaks_for (tls : TLS) (id : string) : bool :=
  match tls with Some (cn :: _) => String.eqb cn id | _ => true end.

(** What a request tells of a node. *)
Definition tells (q : ApiRequest) : option Node :=
  if String.eqb (aq_Method q) "POST" && String.eqb (aq_Path q) "/v1/nodes/heartbeat" then
    match decode_node (stake maxBody (aq_Body q)) with
    | Some n =>
        if negb (String.eqb (node_ID n) "") && speaks_for (aq_TLS q) (node_ID n)
        then Some (set_Online true (set_LastSeen (aq_now q) n)) else None
    | None => None
    end
  else None.

Definition heard_of (qs : list ApiRequest) (id : string) : list Node :=
  filter (fun n => node_ID n = id) (omap tells qs).

(** ** The handlers implement it *)

Lemma handle_tells s q :
  nodes (handle s q) = match tells q with Some n => <[node_ID n := n]> (nodes s) | None => nodes s end.
Proof.
  unfold handle, controller_handler, tells, controller_route.
  assert (Hget : is_get (aq_Method q) = true -> String.eqb (aq_Method q) "POST" = false).
  { unfold is_get. by destruct (String.eqb_spec (aq_Method q) "POST") as [->|]. }
  destruct (is_get (aq_Method q)); cbn [andb].
  - rewrite (Hget eq_refl). cbn [andb].
    destruct (String.eqb _ "/healthz"); [done|]. by destruct (String.eqb _ "/v1/nodes").
  - destruct (String.eqb (aq_Method q) "POST"); [|done]. cbn [andb].
    destruct (String.eqb _ "/v1/nodes/heartbeat"); [|by destruct (String.eqb _ "/v1/schedule")].
    cbn [mbind option_bind controller_serve]. unfold heartbeat, speaks_for.
    destruct (decode_node _) as [n|]; [|done]. destruct (String.eqb_spec (node_ID n) ""); [done|].
    destruct (aq_TLS q) as [[|cn cns]|]; [done| |done]. cbn [negb andb].
    destruct (String.eqb_spec cn (node_ID n)) as [->|]; [|by rewrite orb_true_r].
    by destruct (String.eqb_spec (node_ID n) "").
Qed.

Lemma last_heard_app qs q id :
  last (heard_of (qs ++ [q]) id)
  = match tells q with
    | Some n => if decide (node_ID n = id) then Some n else last (heard_of qs id)
    | None => last (heard_of qs id)
    end.
Proof.
  unfold heard_of. rewrite omap_app, filter_app. cbn [omap list_omap].
  destruct (tells q) as [n|]; [|cbn; by rewrite app_nil_r].
  destruct (decide (node_ID n = id)).
  - rewrite filter_cons_True, filter_nil by done. by rewrite last_snoc.
  - rewrite filter_cons_False, filter_nil by done. by rewrite app_nil_r.
Qed.

Lemma handle_all_heard ttls qs id :
  nodes (handle_all (New ttls) qs) !! id = last (heard_of qs id).
Proof.
  induction qs as [|q qs IH] using rev_ind; [by cbn; rewrite lookup_empty|].
  unfold handle_all in *. rewrite fold_left_app. cbn [fold_left].
  rewrite handle_tells, last_heard_app. destruct (tells q) as [n|]; [|exact IH].
  destruct (decide (node_ID n = id)) as [<-|]; [by rewrite lookup_insert_eq|by rewrite lookup_insert_ne].
Qed.

Lemma nodeTTL_handle_all s qs : nodeTTL (handle_all s qs) = nodeTTL s.
Proof.
  revert s. induction qs as [|q qs IH]; intros s; [done|]. cbn [handle_all fold_left].
  fold (handle_all (handle s q) qs). rewrite IH. unfold handle, controller_handler.
  destruct (controller_route _ _) as [r|]; [|done]. cbn [mbind option_bind].
  destruct r; cbn [controller_serve]; try done.
  destruct (heartbeat_cases s (decode_node (stake maxBody (aq_Body q))) (aq_TLS q) (aq_now q))
    as [[E _]|(n & _ & _ & _ & ->)]; [|done].
  destruct (heartbeat s _ _ _) as [s1 resp]. cbn in *. by subst.
Qed.

(** C18. The registry is the last heartbeat of every node: after any sequence
    of requests to a new controller, whatever their bytes, what it holds for
    a node is the last heartbeat that decoded, named the node, and came from a
    peer that may speak for it, as it was received and marked online at that
    time; so two histories in which every node's good heartbeats come in the
    same order leave equal registries, however the nodes' requests, and any
    others, interleave. *)
Theorem registry_is_last_heartbeat ttls qs qs' :
  (forall id, nodes (handle_all (New ttls) qs) !! id = last (heard_of qs id))
  /\ ((forall id, heard_of qs id = heard_of qs' id) ->
      handle_all (New ttls) qs = handle_all (New ttls) qs').
Proof.
  split; [apply handle_all_heard|]. intros Heq.
  assert (Hn : nodes (handle_all (New ttls) qs) = nodes (handle_all (New ttls) qs')).
  { apply map_eq. intros id. by rewrite !handle_all_heard, Heq. }
  pose proof (nodeTTL_handle_all (New ttls) qs) as Ht.
  pose proof (nodeTTL_handle_all (New ttls) qs') as Ht'.
  destruct (handle_all (New ttls) qs), (handle_all (New ttls) qs'). cbn in *. congruence.
Qed.
End registry.

(** ** Witness *)

#[local] Instance plain_errors : ErrorText := fun _ => "error".

Definition beat (n : Node) (now : Time) : ApiRequest :=
  mkApiRequest "POST" "/v1/nodes/heartbeat" (default "" (marshal_node n)) (Some [node_ID n]) [] now.

Lemma beats_heard id :
  heard_of [beat e5 Second; beat pi Second; beat e5 Minute] id
  = heard_of [beat pi Second; beat e5 Second; beat e5 Minute] id.
Proof.
  unfold heard_of.
  assert (He : forall t, tells (beat e5 t) = Some (set_Online true (set_LastSeen t e5))).
  { intros t. vm_compute. reflexivity. }
  assert (Hp : tells (beat pi Second) = Some (set_Online true (set_LastSeen Second pi))).
  { vm_compute. reflexivity. }
  cbn [omap list_omap]. rewrite !He, Hp, !filter_cons.
  cbn [node_ID set_Online set_LastSeen e5 pi].
  destruct (decide ("e5" = id)) as [E|], (decide ("pi" = id)) as [E'|]; try done. congruence.
Qed.

Lemma registry_is_last_heartbeat_witness :
  handle_all (New []) [beat e5 Second; beat pi Second; beat e5 Minute]
  = handle_all (New []) [beat pi Second; beat e5 Second; beat e5 Minute].
Proof.
  exact (proj2 (registry_is_last_heartbeat [] [beat e5 Second; beat pi Second; beat e5 Minute]
                  [beat pi Second; beat e5 Second; beat e5 Minute]) beats_heard).
Defined.
