(* ===== verification/AgentService.v ===== *)
(** * The node agent's service: [internal/agent/service.go]

    The service posts heartbeats to the controller and has expired instances
    removed.  The last part runs it against the controller's API of [Api.v]:
    the bytes of a heartbeat, through the strict decoder, become the agent's
    own entry of the registry. *)

From S2P Require Import Prelude GoTime GoStrings GoDate GoUtf8 GoJson Model GoUrl Http Scheduler Policy Jobs Wire WireOk Server Agent Api.
From stdpp Require Import base list strings gmap.
From Stdlib Require Import ZArith Ascii String Lia.
Open Scope string_scope.
Open Scope list_scope.
Open Scope Z_scope.

Record ServiceConfig : Set := mkServiceConfig {
  svc_NodeID : string;
  svc_Endpoint : string;
  svc_ControllerURL : string;
  svc_HeartbeatInterval : Duration;
  svc_CleanupInterval : Duration;
  svc_Capabilities : list string;
  svc_Labels : list string;
}.

Definition NewService (cfg : ServiceConfig) : ServiceConfig :=
  mkServiceConfig (svc_NodeID cfg) (svc_Endpoint cfg) (svc_ControllerURL cfg)
    (if svc_HeartbeatInterval cfg <=? 0 then 15 * Second else svc_HeartbeatInterval cfg)
    (if svc_CleanupInterval cfg <=? 0 then Minute else svc_CleanupInterval cfg)
    (svc_Capabilities cfg) (svc_Labels cfg).

Definition runtimePlatform (goos goarch : string) : result (OS * Arch) :=
  let os :=
    if String.eqb goos "linux" then Some OSLinux
    else if String.eqb goos "windows" then Some OSWindows
    else if String.eqb goos "darwin" then Some OSMacOS
    else None in
  let arch :=
    if String.eqb goarch "amd64" then Some ArchAMD64
    else if String.eqb goarch "arm64" then Some ArchARM64
    else None in
  match os, arch with
  | Some o, Some a => Ok (o, a)
  | _, _ => Err (ErrMsg "unsupported platform")
  end.

(** The node of a heartbeat, and the world after the capacity probe. *)
Definition heartbeat_node {W} (cfg : ServiceConfig) (b : Backend_ W) (os : OS) (arch : Arch) (w : W)
  : Node * W :=
  let node backends c :=
    mkNode (svc_NodeID cfg) (svc_Endpoint cfg) os arch backends (svc_Capabilities cfg)
      (svc_Labels cfg) c true zeroTime in
  match Capacity_ b w with
  | (Err _, w') => (node [] zeroCapacity, w')
  | (Ok c, w') => (node [Kind b] c, w')
  end.

(** How [sendHeartbeat] ends: the line it logs. *)
Inductive HeartbeatEnd : Type :=
| HUnsupported (e : error)
| HNotEncoded
| HNotBuilt (e : error)
| HFailed (e : error)
| HRejected (code : Z)
| HAccepted.

Definition sendHeartbeat {W} (cfg : ServiceConfig) (b : Backend_ W) (client : HttpClient W)
  (goos goarch : string) (w : W) : HeartbeatEnd * W :=
  match runtimePlatform goos goarch with
  | Err e => (HUnsupported e, w)
  | Ok (os, arch) =>
      let '(node, w1) := heartbeat_node cfg b os arch w in
      match marshal_node node with
      | None => (HNotEncoded, w1)
      | Some payload =>
          let url := svc_ControllerURL cfg +:+ "/v1/nodes/heartbeat" in
          match hc_NewRequest client "POST" url with
          | Some e => (HNotBuilt e, w1)
          | None =>
              match hc_Do client (mkHttpRequest "POST" url payload) w1 with
              | (Err e, w2) => (HFailed e, w2)
              | (Ok resp, w2) =>
                  if (ans_Status resp <? 200) || (300 <=? ans_Status resp)
                  then (HRejected (ans_Status resp), w2)
                  else (HAccepted, w2)
              end
          end
      end
  end.

(** [cleanupAt]: the count and the error are only logged. *)
Definition cleanupAt {W} (b : Backend_ W) (now : Time) (w : W) : W := (CleanupExpired b now w).2.

(** What the [select] of [Run] wakes up for, until the context is done. *)
Inductive Tick : Type := THeartbeat | TCleanup (now : Time).

Definition service_tick {W} (cfg : ServiceConfig) (b : Backend_ W) (client : HttpClient W)
  (goos goarch : string) (w : W) (t : Tick) : W :=
  match t with
  | THeartbeat => (sendHeartbeat cfg b client goos goarch w).2
  | TCleanup now => cleanupAt b now w
  end.

(** [start] is the time of the first cleanup, [ts] the ticks until the context
    is done. *)
Definition Run {W} (cfg : ServiceConfig) (backend : option (Backend_ W))
  (client : option (HttpClient W)) (goos goarch : string) (start : Time) (ts : list Tick) (w : W)
  : option error * W :=
  if String.eqb (svc_NodeID cfg) "" then (Some (ErrMsg "node id is required"), w)
  else match backend with
  | None => (Some (ErrMsg "backend is required"), w)
  | Some b =>
      match client with
      | None => (Some (ErrMsg "http client is required"), w)
      | Some hc =>
          (None, foldl (service_tick cfg b hc goos goarch) w (THeartbeat :: TCleanup start :: ts))
      end
  end.

(** ** Heartbeats at the controller *)

Section registry.
Context `{Unicode} `{ErrorText} {W : Type}.

(** The backend next to a registry it does not touch. *)
Definition beside (b : Backend_ W) : Backend_ (W * Server) := {|
  Kind := Kind b;
  Capacity_ w := let '(r, v) := Capacity_ b w.1 in (r, (v, w.2));
  Create spec w := let '(r, v) := Create b spec w.1 in (r, (v, w.2));
  Destroy id w := let '(r, v) := Destroy b id w.1 in (r, (v, w.2));
  CleanupExpired t w := let '(r, v) := CleanupExpired b t w.1 in (r, (v, w.2));
|}.

(** A network that delivers requests under [base] to the controller, at time
    [now], from a peer with certificate name [cn]. *)
Definition registry_client (base cn : string) (now : Time) : HttpClient (W * Server) := {|
  hc_NewRequest _ _ := None;
  hc_Do rq w :=
    match controller_handler w.2 (hr_Method rq) (TrimPrefix (hr_URL rq) base) (hr_Body rq)
            (Some [cn]) [] now with
    | Some (srv, ans) => (Ok ans, (w.1, srv))
    | None => (Ok (mkHttpAnswer StatusNotFound ""), w)
    end;
|}.

(** A registered node without backends is never the answer of [schedule]. *)
Lemma schedule_needs_backend picks srv req t p id n :
  registry_ok srv -> nodes srv !! id = Some n -> node_Backends n = [] ->
  body (schedule picks srv (Some req) t) = BPlacement p -> NodeID p <> id.
Proof.
  intros Hok Hn Hb. cbn. destruct (Place req _) as [q|] eqn:E; [|done]. intros [= ->] Hid.
  apply Place_suitable in E as (m & Hm & _ & Hp & Hruns).
  apply elem_of_snapshot in Hm as (id' & stored & Hst & ->). cbn in *.
  pose proof (reg_keyed _ Hok _ _ Hst) as <-. rewrite <- Hp, Hid, Hn in Hst.
  injection Hst as <-. rewrite Hb in Hruns.
  inversion Hruns; set_solver.
Qed.

(** What the agent announces fits a heartbeat: texts are UTF-8, the measured
    capacity fits 64 bits, and the message the limit of the controller. *)
Record announceable (cfg : ServiceConfig) (b : Backend_ W) (v : W) : Prop := {
  an_strings : utf8s [svc_NodeID cfg; svc_Endpoint cfg; Kind b];
  an_capabilities : utf8s (svc_Capabilities cfg);
  an_labels : utf8s (svc_Labels cfg);
  an_capacity c : (Capacity_ b v).1 = Ok c ->
    Forall in_int64 [TotalCPU c; FreeCPU c; TotalMemoryM c; FreeMemoryM c; RunningJobs c];
  an_size goos goarch os arch text :
    runtimePlatform goos goarch = Ok (os, arch) ->
    marshal_node (heartbeat_node cfg b os arch v).1 = Some text -> slen text <= maxBody;
}.

Lemma heartbeat_sendable cfg (b : Backend_ W) v goos goarch os arch :
  announceable cfg b v -> runtimePlatform goos goarch = Ok (os, arch) ->
  sendable_node (heartbeat_node cfg b os arch v).1.
Proof.
  intros [Hs Hc Hl Hcap _] Hp. unfold utf8s in Hs. rewrite !Forall_cons in Hs. destruct_and? Hs.
  assert (utf8 os = true /\ utf8 arch = true) as [Hos Harch].
  { revert Hp. unfold runtimePlatform.
    repeat destruct (String.eqb _ _); intros [= <- <-]; split; reflexivity. }
  unfold heartbeat_node. destruct (Capacity_ b v) as [[c|e] v1]; cbn [fst] in *;
    (split; [|unfold utf8s..|done|done]); cbn; [by apply Hcap|..]; by repeat constructor.
Qed.

Lemma marshal_zero_seen n : node_LastSeen n = zeroTime -> is_Some (marshal_node n).
Proof.
  intros E. unfold marshal_node, enc_node, enc_time. rewrite E.
  destruct (format_time zeroTime) as [t|] eqn:Et; [|by vm_compute in Et]. by eexists.
Qed.

(** A delivered heartbeat is the handler's, on the node that was encoded. *)
Lemma deliver_heartbeat base cn now n text v srv :
  sendable_node n -> marshal_node n = Some text -> slen text <= maxBody ->
  hc_Do (registry_client base cn now)
    (mkHttpRequest "POST" (base +:+ "/v1/nodes/heartbeat") text) (v, srv)
  = let '(srv', resp) := heartbeat srv (Some n) (Some [cn]) now in (Ok (respond resp), (v, srv')).
Proof.
  intros Hn Ht Hlen. cbn [hc_Do registry_client hr_Method hr_URL hr_Body fst snd].
  rewrite TrimPrefix_app. unfold controller_handler.
  change (controller_route "POST" "/v1/nodes/heartbeat") with (Some CHeartbeat).
  cbn [mbind option_bind controller_serve].
  rewrite stake_all, (decode_marshal_node n text) by done. by destruct (heartbeat _ _ _ _).
Qed.

(** C37. A worker registers as what it is, byte for byte: a heartbeat of an
    agent with an identifier, encoded, delivered under that identifier's
    certificate and strictly decoded, is accepted on every
    supported platform and changes exactly the agent's own entry, which is
    online and fresh and carries the agent's endpoint, platform, capabilities
    and labels.  When the capacity probe succeeded the entry has the
    backend and the measured capacity; when it failed the node is registered
    without backends and [schedule] never places a job on it.  On any other
    platform nothing is sent. *)
Theorem heartbeat_registers cfg (b : Backend_ W) goos goarch v srv now :
  svc_NodeID cfg <> "" -> registry_ok srv -> announceable cfg b v ->
  let '(res, (v', srv')) :=
    sendHeartbeat cfg (beside b) (registry_client (svc_ControllerURL cfg) (svc_NodeID cfg) now)
      goos goarch (v, srv) in
  match runtimePlatform goos goarch with
  | Err e => res = HUnsupported e /\ v' = v /\ srv' = srv
  | Ok (os, arch) =>
      res = HAccepted /\ v' = (Capacity_ b v).2
      /\ exists backends c,
           nodes srv' = <[svc_NodeID cfg :=
             mkNode (svc_NodeID cfg) (svc_Endpoint cfg) os arch backends (svc_Capabilities cfg)
               (svc_Labels cfg) c true now]> (nodes srv)
           /\ match (Capacity_ b v).1 with
              | Ok measured => backends = [Kind b] /\ c = measured
              | Err _ => backends = []
                  /\ forall picks req t p,
                       body (schedule picks srv' (Some req) t) = BPlacement p ->
                       NodeID p <> svc_NodeID cfg
              end
  end.
Proof.
  intros Hid Hok Han. unfold sendHeartbeat.
  destruct (runtimePlatform goos goarch) as [[os arch]|] eqn:Ep; [|done].
  pose proof (heartbeat_sendable cfg b v goos goarch os arch Han Ep) as Hsend.
  pose proof (fun text => an_size _ _ _ Han goos goarch os arch text Ep) as Hsize.
  assert (Hn : heartbeat_node cfg (beside b) os arch (v, srv)
               = let '(n, v1) := heartbeat_node cfg b os arch v in (n, (v1, srv))).
  { unfold heartbeat_node. cbn [Capacity_ beside fst snd Kind].
    by destruct (Capacity_ b v) as [[c|e] v1]. }
  assert (Hnode : exists backends c,
    (heartbeat_node cfg b os arch v).1
    = mkNode (svc_NodeID cfg) (svc_Endpoint cfg) os arch backends (svc_Capabilities cfg)
        (svc_Labels cfg) c true zeroTime
    /\ (heartbeat_node cfg b os arch v).2 = (Capacity_ b v).2
    /\ match (Capacity_ b v).1 with
       | Ok measured => backends = [Kind b] /\ c = measured
       | Err _ => backends = []
       end).
  { unfold heartbeat_node. destruct (Capacity_ b v) as [[c|e] v1]; by do 2 eexists. }
  rewrite Hn. destruct (heartbeat_node cfg b os arch v) as [n v1]. cbn [fst snd] in *.
  destruct Hnode as (backends & c & -> & -> & Hcap). cbn iota beta.
  destruct (marshal_zero_seen (mkNode (svc_NodeID cfg) (svc_Endpoint cfg) os arch backends
    (svc_Capabilities cfg) (svc_Labels cfg) c true zeroTime) eq_refl) as [text Ht].
  rewrite Ht. cbn [hc_NewRequest registry_client].
  erewrite deliver_heartbeat by eauto.
  pose proof (registry_ok_step _ _ (step_heartbeat srv (Some (mkNode (svc_NodeID cfg)
    (svc_Endpoint cfg) os arch backends (svc_Capabilities cfg) (svc_Labels cfg) c true zeroTime))
    (Some [svc_NodeID cfg]) now) Hok) as Hok'.
  unfold heartbeat in *. cbn [node_ID] in *.
  destruct (String.eqb_spec (svc_NodeID cfg) "") as [|_]; [done|].
  rewrite String.eqb_refl in *. cbn in *. split_and!; [done..|].
  exists backends, c. split; [done|]. destruct (Capacity_ b v) as [[m|e] v2]; cbn in *; [done|].
  split; [done|]. intros picks req t p Hp. subst backends.
  eapply schedule_needs_backend in Hp; [exact Hp|done|apply lookup_insert_eq|done].
Qed.
End registry.

(** ** Witnesses *)

Definition fake_service : ServiceConfig :=
  NewService (mkServiceConfig "e5" "https://e5:8090" "https://pi:8080" 0 0 ["docker"] []).

#[local] Instance plain_errors : ErrorText := fun _ => "error".

Lemma fake_announceable : announceable fake_service fake_backend [].
Proof.
  split; [by repeat constructor..| |].
  - intros c [= <-]. repeat constructor; by vm_compute.
  - intros goos goarch os arch text. unfold runtimePlatform.
    repeat destruct (String.eqb _ _); try done; intros [= <- <-];
      match goal with |- marshal_node ?n = _ -> _ =>
        let t := eval vm_compute in (marshal_node n) in
        replace (marshal_node n) with t by (vm_compute; reflexivity) end;
      intros [= <-]; vm_compute; discriminate.
Qed.

Lemma heartbeat_registers_witness :
  let '(res, (v', srv')) :=
    sendHeartbeat fake_service (beside fake_backend) (registry_client "https://pi:8080" "e5" Hour)
      "linux" "amd64" ([], New []) in
  res = HAccepted /\ v' = ["capacity"]
  /\ exists backends c,
       nodes srv' = <["e5" := mkNode "e5" "https://e5:8090" OSLinux ArchAMD64 backends ["docker"] []
                                c true Hour]> ∅
       /\ backends = [BackendDocker] /\ c = mkCapacity 4 4 0 0 0.
Proof.
  exact (heartbeat_registers fake_service fake_backend "linux" "amd64" [] (New []) Hour
           ltac:(discriminate) (registry_ok_New []) fake_announceable).
Defined.
