(* ===== verification/Tls.v ===== *)
(** * TLS configuration: [internal/tlsutil/tls.go]

    The two loaders, over the file system and the parsers of [crypto/tls] and
    [crypto/x509], which are parameters, as is the verification of a
    certificate chain.  [admitted] is what a server with such a configuration
    makes of a connection, as [crypto/tls] documents [MinVersion] and
    [ClientAuth]. *)

From S2P Require Import Prelude GoStrings Model Http.
From stdpp Require Import base list strings.
From Stdlib Require Import ZArith Lia.
Open Scope string_scope.
Open Scope list_scope.
Open Scope Z_scope.

Definition VersionTLS13 : Z := 772.

Inductive ClientAuthType : Set := NoClientCert | RequireAndVerifyClientCert.

Record TLSConfig (CertPool Certificate : Type) : Type := mkTLSConfig {
  MinVersion : Z;
  Certificates : list Certificate;
  RootCAs : option CertPool;
  ClientCAs : option CertPool;
  ClientAuth : ClientAuthType;
  ServerName : string;
}.
Arguments mkTLSConfig {CertPool Certificate}.
Arguments MinVersion {CertPool Certificate}.
Arguments Certificates {CertPool Certificate}.
Arguments RootCAs {CertPool Certificate}.
Arguments ClientCAs {CertPool Certificate}.
Arguments ClientAuth {CertPool Certificate}.
Arguments ServerName {CertPool Certificate}.

(** The libraries. *)
Class TlsLibrary (CertPool Certificate Peer : Type) : Type := {
  AppendCertsFromPEM : string -> option CertPool;       (** [None]: no certificate in it *)
  LoadX509KeyPair : string -> string -> result Certificate;
  peer_version : Peer -> Z;                             (** the highest version it speaks *)
  peer_chain : Peer -> list string;                     (** common names, leaf first *)
  chain_verifies : option CertPool -> Peer -> bool;     (** up to a root of the pool *)
}.

Section tlsutil.
Context {CertPool Certificate Peer : Type} `{TlsLibrary CertPool Certificate Peer}.
(** [os.ReadFile] when the process starts. *)
Context (ReadFile : string -> result string).

Definition loadCAPool (path : string) : result CertPool :=
  match ReadFile path with
  | Err err => Err (ErrWrap "read CA certificate" err)
  | Ok pem =>
      match AppendCertsFromPEM pem with
      | None => Err (ErrFmt "parse CA certificate %q" [path])
      | Some pool => Ok pool
      end
  end.

Definition LoadServerConfig (caFile certFile keyFile : string) : result (TLSConfig CertPool Certificate) :=
  match loadCAPool caFile with
  | Err err => Err err
  | Ok pool =>
      match LoadX509KeyPair certFile keyFile with
      | Err err => Err (ErrWrap "load server certificate" err)
      | Ok cert =>
          Ok (mkTLSConfig VersionTLS13 [cert] None (Some pool) RequireAndVerifyClientCert "")
      end
  end.

Definition LoadClientConfig (caFile certFile keyFile serverName : string)
  : result (TLSConfig CertPool Certificate) :=
  match loadCAPool caFile with
  | Err err => Err err
  | Ok pool =>
      match LoadX509KeyPair certFile keyFile with
      | Err err => Err (ErrWrap "load client certificate" err)
      | Ok cert => Ok (mkTLSConfig VersionTLS13 [cert] (Some pool) None NoClientCert serverName)
      end
  end.

(** ** What a server makes of a connection *)

(** [None]: the handshake fails, no request is served.  Otherwise [r.TLS] of
    the requests on the connection; without a configuration the server speaks
    plain HTTP. *)
Definition admitted (conf : option (TLSConfig CertPool Certificate)) (peer : Peer) : option TLS :=
  match conf with
  | None => Some None
  | Some c =>
      if peer_version peer <? MinVersion c then None
      else match ClientAuth c with
           | NoClientCert => Some (Some [])
           | RequireAndVerifyClientCert =>
               match peer_chain peer with
               | [] => None
               | chain => if chain_verifies (ClientCAs c) peer then Some (Some chain) else None
               end
           end
  end.

(** A peer that a certificate authority of the file vouches for as [name]. *)
Definition vouched (caFile : string) (peer : Peer) (name : string) : Prop :=
  exists pem pool chain,
    ReadFile caFile = Ok pem /\ AppendCertsFromPEM pem = Some pool
    /\ chain_verifies (Some pool) peer = true
    /\ peer_chain peer = name :: chain /\ VersionTLS13 <= peer_version peer.

(** Whoever is admitted under a loaded configuration has proved a name. *)
Lemma LoadServerConfig_admits caFile certFile keyFile conf peer tls :
  LoadServerConfig caFile certFile keyFile = Ok conf ->
  admitted (Some conf) peer = Some tls ->
  exists name chain, tls = Some (name :: chain) /\ vouched caFile peer name.
Proof.
  unfold LoadServerConfig, loadCAPool.
  destruct (ReadFile caFile) as [pem|] eqn:Ef; [|done].
  destruct (AppendCertsFromPEM pem) as [pool|] eqn:Ep; [|done].
  destruct (LoadX509KeyPair certFile keyFile); [|done]. intros [= <-].
  cbn [admitted MinVersion ClientAuth ClientCAs].
  destruct (Z.ltb_spec (peer_version peer) VersionTLS13); [done|].
  destruct (peer_chain peer) as [|name chain] eqn:Ec; [done|].
  destruct (chain_verifies (Some pool) peer) eqn:Ev; [|done]. intros [= <-].
  exists name, chain. split; [done|]. exists pem, pool, chain. by split_and!.
Qed.
End tlsutil.
