(* ===== verification/StubBackends.v ===== *)
(** * The backends that are announced and not written:
      [internal/backend/kvm/kvm.go] and [internal/backend/hyperv/hyperv.go]

    Both meet the interface [backend.Backend] and refuse every operation.
    Neither is a [backend.Janitor], so an agent cannot be built on them. *)

From S2P Require Import Prelude Model.
From stdpp Require Import base list strings gmap.
From Stdlib Require Import ZArith.
Open Scope string_scope.

(** [backend.Backend], over the world [W] its operations act on. *)
Record BackendOps (W : Type) : Type := mkBackendOps {
  ops_Kind : BackendKind;
  ops_Capacity : W -> result Capacity * W;
  ops_Create : JobSpec -> W -> result Instance_ * W;
  ops_Destroy : string -> W -> option error * W;
}.
Arguments mkBackendOps {W}.
Arguments ops_Kind {W}.
Arguments ops_Capacity {W}.
Arguments ops_Create {W}.
Arguments ops_Destroy {W}.

Definition kvm_Backend {W} : BackendOps W :=
  mkBackendOps BackendKVM
    (fun w => (Err (ErrMsg "KVM backend capacity probe not implemented"), w))
    (fun _ w => (Err (ErrMsg "KVM backend create not implemented"), w))
    (fun _ w => (Some (ErrMsg "KVM backend destroy not implemented"), w)).

Definition hyperv_Backend {W} : BackendOps W :=
  mkBackendOps BackendHyperV
    (fun w => (Err (ErrMsg "HyperV backend capacity probe not implemented"), w))
    (fun _ w => (Err (ErrMsg "HyperV backend create not implemented"), w))
    (fun _ w => (Some (ErrMsg "HyperV backend destroy not implemented"), w)).
