(* ===== verification/AgentClient.v ===== *)
(** * The controller's HTTP client for agents: [internal/controller/agent_client.go]

    The HTTP library is the record [HttpClient] of [Http.v]: what it does with a request
    may change the world [W] and may fail.  The last part connects the client
    to the agent's API of [Api.v] and shows that a call through both, JSON
    included, is the backend's own operation; it also gives the manager the
    facts it relies on, that a created instance has an identifier, which is
    UTF-8. *)

From S2P Require Import Prelude GoTime GoStrings GoDate GoUtf8 GoJson Model GoUrl Http Server Policy Jobs Wire WireOk Env Manager Machine Refinement Agent Api.
From stdpp Require Import base list strings gmap.
From Stdlib Require Import ZArith String Lia.
Open Scope string_scope.
Open Scope list_scope.
Open Scope Z_scope.

Record HTTPAgentClient (W : Type) : Type := mkHTTPAgentClient {
  ac_client : option (HttpClient W);
  ac_allowHTTP : bool;
}.
Arguments ac_client {W}.
Arguments ac_allowHTTP {W}.

(** JSON does not carry [Timeout] ([json:"-"]). *)
Definition transmitted (spec : JobSpec) : JobSpec :=
  mkJobSpec (spec_ID spec) (spec_Repository spec) (spec_RunnerConfig spec) (spec_Image spec)
    (spec_Command spec) (spec_CPU spec) (spec_MemoryM spec) (spec_Environment spec)
    (spec_CacheMounts spec) 0 (spec_TimeoutSeconds spec).

Section client.
Context `{UrlParser} `{Unicode} {W : Type}.

Definition endpoint (c : HTTPAgentClient W) (node : Node) : result string :=
  match ac_client c with
  | None => Err (ErrMsg "agent HTTP client is required")
  | Some _ =>
      let raw := TrimRight (TrimSpace (node_Endpoint node)) "/" in
      if String.eqb raw "" then Err (ErrFmt "node %s has no endpoint" [node_ID node])
      else match url_Parse raw with
           | None => Err (ErrFmt "node %s has invalid endpoint %q" [node_ID node; node_Endpoint node])
           | Some parsed =>
               if String.eqb (url_Host parsed) ""
               then Err (ErrFmt "node %s has invalid endpoint %q" [node_ID node; node_Endpoint node])
               else if negb (String.eqb (url_Scheme parsed) "https")
                       && negb (ac_allowHTTP c && String.eqb (url_Scheme parsed) "http")
               then Err (ErrFmt "node %s endpoint must use https" [node_ID node])
               else Ok raw
           end
  end.

Definition CreateInstance (c : HTTPAgentClient W) (node : Node) (spec : JobSpec) (w : W)
  : result Instance_ * W :=
  match endpoint c node, ac_client c with
  | Err err, _ => (Err err, w)
  | Ok base, Some hc =>
      let url := base +:+ "/v1/instances" in
      match hc_NewRequest hc "POST" url with
      | Some err => (Err err, w)
      | None =>
          match hc_Do hc (mkHttpRequest "POST" url (marshal_spec spec)) w with
          | (Err err, w') => (Err (ErrWrap ("agent " +:+ node_ID node +:+ " create instance") err), w')
          | (Ok resp, w') =>
              if negb (ans_Status resp =? StatusCreated)
              then (Err (ErrFmt "agent %s create instance returned %d: %s"
                           [node_ID node; FormatInt (ans_Status resp);
                            TrimSpace (stake 4096 (ans_Text resp))]), w')
              else match decode_instance (ans_Text resp) with
                   | None => (Err (ErrWrap "decode agent instance" (ErrMsg "json: invalid instance")), w')
                   | Some instance =>
                       if String.eqb (inst_ID instance) ""
                       then (Err (ErrFmt "agent %s returned empty instance id" [node_ID node]), w')
                       else (Ok instance, w')
                   end
          end
      end
  | Ok _, None => (Err (ErrMsg "agent HTTP client is required"), w)
  end.

Definition DestroyInstance (c : HTTPAgentClient W) (node : Node) (instanceID : string) (w : W)
  : option error * W :=
  match endpoint c node, ac_client c with
  | Err err, _ => (Some err, w)
  | Ok base, Some hc =>
      if String.eqb (TrimSpace instanceID) "" then (Some (ErrMsg "instance id is required"), w)
      else
        let url := base +:+ "/v1/instances/" +:+ PathEscape instanceID in
        match hc_NewRequest hc "DELETE" url with
        | Some err => (Some err, w)
        | None =>
            match hc_Do hc (mkHttpRequest "DELETE" url "") w with
            | (Err err, w') =>
                (Some (ErrWrap ("agent " +:+ node_ID node +:+ " destroy instance") err), w')
            | (Ok resp, w') =>
                if (ans_Status resp =? StatusNoContent) || (ans_Status resp =? StatusNotFound) then (None, w')
                else if (ans_Status resp <? 200) || (300 <=? ans_Status resp)
                then (Some (ErrFmt "agent %s destroy instance returned %d: %s"
                              [node_ID node; FormatInt (ans_Status resp);
                               TrimSpace (stake 4096 (ans_Text resp))]), w')
                else (None, w')
            end
        end
  | Ok _, None => (Some (ErrMsg "agent HTTP client is required"), w)
  end.

(** ** Lemmas *)

(** An accepted endpoint is the node's, trimmed, and is an HTTPS URL unless
    plain HTTP was allowed. *)
Lemma endpoint_Ok c node base :
  endpoint c node = Ok base ->
  base = TrimRight (TrimSpace (node_Endpoint node)) "/" /\ base <> ""
  /\ exists u, url_Parse base = Some u /\ url_Host u <> ""
       /\ (url_Scheme u = "https" \/ ac_allowHTTP c = true /\ url_Scheme u = "http").
Proof.
  unfold endpoint. destruct (ac_client c); [|done].
  destruct (String.eqb_spec (TrimRight (TrimSpace (node_Endpoint node)) "/") ""); [done|].
  destruct (url_Parse _) as [u|] eqn:Eu; [|done].
  destruct (String.eqb_spec (url_Host u) ""); [done|].
  destruct (String.eqb_spec (url_Scheme u) "https"), (ac_allowHTTP c),
    (String.eqb_spec (url_Scheme u) "http"); cbn; intros [= <-]; eauto 10.
Qed.

Lemma decode_instance_utf8 text i : decode_instance text = Some i -> utf8 (inst_ID i) = true.
Proof.
  unfold decode_instance. destruct (parse_first text) as [j|]; [|done]. cbn [mbind option_bind].
  apply (dec_members_keeps (fun i => utf8 (inst_ID i) = true)); [|done].
  unfold Instance_fields. forall_list; cbn [snd]; try by apply keeps_other.
  apply keeps_at with (fun s => utf8 s = true); try done. intros cur v s. apply dec_string_utf8.
Qed.

Lemma CreateInstance_named c node spec w inst w' :
  CreateInstance c node spec w = (Ok inst, w') -> inst_ID inst <> "" /\ utf8 (inst_ID inst) = true.
Proof.
  unfold CreateInstance. intros E. repeat destruct_match_in E; try done; subst.
  injection E as <- <-. split; [by apply String.eqb_neq|]. by eapply decode_instance_utf8.
Qed.
End client.

(** ** The client and the server together *)

Section end_to_end.
Context `{UrlParser} `{Unicode} `{ErrorText} {W : Type}.
Context (s : AgentServer W) (base : string) (tls : TLS) (goos goarch : string) (now : Time).

(** A network that delivers requests under [base] to the server. *)
Definition deliver (r : HttpRequest) (w : W) : result HttpAnswer * W :=
  match agent_handler s (hr_Method r) (TrimPrefix (hr_URL r) base) (hr_Body r) tls goos goarch now w with
  | None => (Ok (mkHttpAnswer StatusNotFound ""), w)
  | Some (ans, w') => (Ok ans, w')
  end.

Definition network : HttpClient W := mkHttpClient W (fun _ _ => None) deliver.

Context (cns : list string) (b : Backend_ W) (c : HTTPAgentClient W) (node : Node).
Context (authorised : tls = Some (wanted_identity s :: cns)) (has_backend : as_Backend s = Some b).
Context (client_ok : ac_client c = Some network) (endpoint_ok : endpoint c node = Ok base).

Lemma guarded_authorised w (handle : Backend_ W -> Response * W) :
  guarded s tls w handle = handle b.
Proof.
  unfold guarded, authorizeController. rewrite authorised, has_backend, String.eqb_refl.
  unfold wanted_identity. by destruct (String.eqb_spec (as_ControllerIdentity s) "");
    [|destruct (String.eqb_spec (as_ControllerIdentity s) "")].
Qed.

Lemma route_destroy id :
  id <> "" -> id <> "." -> id <> ".." ->
  route "DELETE" ("/v1/instances/" +:+ PathEscape id) = Some (RDestroy id).
Proof.
  intros Hn0 Hn1 Hn2. unfold route. rewrite (proj2 (HasPrefix_spec _ _)) by eauto.
  cbn [String.eqb andb Ascii.eqb Bool.eqb]. rewrite TrimPrefix_app, PathEscape_one_segment.
  assert (Hne : forall t, id <> t -> PathEscape t = t -> String.eqb (PathEscape id) t = false).
  { intros t Ht Et. apply String.eqb_neq. intros E. apply Ht. apply (inj PathEscape). congruence. }
  rewrite !Hne by done. cbn. by rewrite PathUnescape_PathEscape.
Qed.

(** An instance the server can encode and the client reads back. *)
Definition announced (i : Instance_) : Prop :=
  utf8s [inst_ID i; inst_Backend i; inst_NodeID i] /\ writable (inst_Deadline i).

Lemma announced_decodes i :
  announced i -> decode_instance (ans_Text (respond (writeJSON StatusCreated (BInstance i)))) = Some i.
Proof.
  intros [Hs [t Ht]]. unfold respond. cbn [ans_Text body writeJSON enc_body].
  destruct (enc_instance i) as [j|] eqn:Ej.
  2: { unfold enc_instance, enc_time in Ej. by rewrite Ht in Ej. }
  by apply decode_encoded_instance.
Qed.

Lemma CreateInstance_end_to_end spec w :
  sendable_spec spec -> slen (marshal_spec spec) <= maxBody ->
  let '(res, w') := CreateInstance c node spec w in
  let '(made, w1) := Create b (transmitted spec) w in
  w' = w1
  /\ match made with
     | Ok inst =>
         announced inst ->
         if String.eqb (inst_ID inst) "" then exists e, res = Err e else res = Ok inst
     | Err _ => exists e, res = Err e
     end.
Proof.
  intros Hspec Hlen. unfold CreateInstance. rewrite endpoint_ok, client_ok.
  cbn [hc_NewRequest network hc_Do]. unfold deliver. cbn [hr_URL hr_Method hr_Body].
  rewrite TrimPrefix_app. unfold agent_handler.
  change (route "POST" "/v1/instances") with (Some RCreate). cbn [mbind option_bind serve].
  unfold decode_job. rewrite stake_all, decode_marshal_spec by done.
  fold (transmitted spec). unfold createInstance. rewrite guarded_authorised.
  destruct (Create b (transmitted spec) w) as [[inst|e] w1]; [|cbn; by eauto].
  cbn iota beta. change (ans_Status (respond (writeJSON StatusCreated (BInstance inst)))) with StatusCreated.
  change (negb (StatusCreated =? StatusCreated)) with false. cbv iota.
  destruct (decode_instance _) as [i|] eqn:Ei.
  - destruct (String.eqb (inst_ID i) "") eqn:Eid; (split; [done|]); intros Ha%announced_decodes;
      rewrite Ha in Ei; injection Ei as <-; rewrite Eid; [by eexists|done].
  - split; [done|]. intros Ha%announced_decodes. congruence.
Qed.

Lemma DestroyInstance_end_to_end id w :
  TrimSpace id <> "" -> id <> "." -> id <> ".." ->
  let '(err, w') := DestroyInstance c node id w in
  let '(e, w1) := Destroy b (TrimSpace id) w in
  w' = w1 /\ (err = None <-> e = None).
Proof.
  intros Hn0 Hn1 Hn2. unfold DestroyInstance. rewrite endpoint_ok, client_ok.
  destruct (String.eqb_spec (TrimSpace id) "") as [|_]; [done|].
  cbn [hc_NewRequest network hc_Do]. unfold deliver, agent_handler. cbn [hr_URL hr_Method].
  rewrite TrimPrefix_app, route_destroy by (done || by intros ->). cbn [mbind option_bind serve].
  unfold destroyInstance. rewrite guarded_authorised.
  destruct (String.eqb_spec (TrimSpace id) "") as [|_]; [done|].
  by destruct (Destroy b (TrimSpace id) w) as [[e|] w1].
Qed.

(** C24. A call through client and server is the backend's operation, JSON
    included: when the node's endpoint is accepted and the server sees the
    controller's certificate, [CreateInstance] of a specification JSON can
    carry, within the server's limit, creates exactly what the backend creates
    from it ([Timeout] is not transmitted; an instance without identifier is an
    error), and [DestroyInstance] succeeds exactly when the backend's
    [Destroy] of that (trimmed) identifier does; the world changes as the
    backend changes it. *)
Theorem agent_call_is_backend_call spec id w :
  sendable_spec spec -> slen (marshal_spec spec) <= maxBody ->
  TrimSpace id <> "" -> id <> "." -> id <> ".." ->
  (let '(res, w') := CreateInstance c node spec w in
   let '(made, w1) := Create b (transmitted spec) w in
   w' = w1
   /\ match made with
      | Ok inst =>
          announced inst ->
          if String.eqb (inst_ID inst) "" then exists e, res = Err e else res = Ok inst
      | Err _ => exists e, res = Err e
      end)
  /\ (let '(err, w') := DestroyInstance c node id w in
      let '(e, w1) := Destroy b (TrimSpace id) w in
      w' = w1 /\ (err = None <-> e = None)).
Proof.
  intros Hs Hl Hn0 Hn1 Hn2. split; [by apply CreateInstance_end_to_end|by apply DestroyInstance_end_to_end].
Qed.
End end_to_end.

(** ** What the manager relies on *)

(** The HTTP client keeps its promise to the manager: an instance it
    returns was announced with status 201 and has an identifier, and the
    request went to the endpoint the node announced, over HTTPS unless plain
    HTTP was allowed. *)
Theorem CreateInstance_promise `{UrlParser} `{Unicode} {W} (c : HTTPAgentClient W) hc node spec w inst w' :
  ac_client c = Some hc ->
  CreateInstance c node spec w = (Ok inst, w') ->
  inst_ID inst <> ""
  /\ exists base resp u,
       base = TrimRight (TrimSpace (node_Endpoint node)) "/"
       /\ hc_Do hc (mkHttpRequest "POST" (base +:+ "/v1/instances") (marshal_spec spec)) w
          = (Ok resp, w')
       /\ ans_Status resp = StatusCreated /\ decode_instance (ans_Text resp) = Some inst
       /\ url_Parse base = Some u /\ url_Host u <> ""
       /\ (url_Scheme u = "https" \/ ac_allowHTTP c = true /\ url_Scheme u = "http").
Proof.
  intros Hc E. split; [by eapply CreateInstance_named|]. unfold CreateInstance in E.
  destruct (endpoint c node) as [base|e] eqn:Ee; [|done]. rewrite Hc in E.
  apply endpoint_Ok in Ee as (Hb & _ & u & Hu & Hh & Hsch).
  destruct (hc_NewRequest hc "POST" _); [done|].
  destruct (hc_Do hc _ w) as [[resp|?] w1] eqn:Ed; [|done].
  destruct (Z.eqb_spec (ans_Status resp) StatusCreated); [|done]. cbn [negb] in E.
  destruct (decode_instance (ans_Text resp)) as [i|] eqn:Edec; [|done].
  destruct (String.eqb (inst_ID i) ""); [done|]. injection E as <- <-.
  exists base, resp, u. by split_and!.
Qed.

(** An environment whose agents are reached through the client meets the
    manager's assumption on instances. *)
Lemma http_env_ok `{UrlParser} `{Unicode} {W} cfg env seen
  (c : HTTPAgentClient W) (world : History -> W) :
  (forall h n spec, env_CreateInstance env h n spec = (CreateInstance c n spec (world h)).1) ->
  (forall h, registry_ok (env_server env h)) ->
  (forall h id n, nodes (env_server env h) !! id = Some n -> seen n) ->
  (forall n, seen n -> utf8 (node_ID n) = true) ->
  (forall h i o r n g ls jit,
     env_GenerateJITConfig env h i o r n g ls = Ok jit ->
     in_int64 (jit_RunnerID jit) /\ utf8 (jit_EncodedConfig jit) = true) ->
  in_int64 (RunnerCPU cfg) /\ in_int64 (RunnerMemoryM cfg) ->
  disk_ok cfg env seen [] ->
  EnvOk cfg env seen.
Proof.
  intros Hcreate Hreg Hseen Hids Hjit Hcfg Hdisk. split; try done. intros h n spec inst.
  rewrite Hcreate. destruct (CreateInstance c n spec (world h)) as [res w] eqn:E. cbn. intros ->.
  by eapply CreateInstance_named.
Qed.

(** ** Witnesses *)

#[local] Instance demo_parser : UrlParser := fun raw =>
  if HasPrefix raw "https://" then Some (mkURL "https" (TrimPrefix raw "https://")) else None.

#[local] Instance plain_errors : ErrorText := fun _ => "error".

Definition demo_client : HTTPAgentClient (list string) :=
  mkHTTPAgentClient _
    (Some (network fake_server "https://e5:8090" (Some ["controller"]) "linux" "amd64" Hour)) false.

Definition demo_spec : JobSpec :=
  mkJobSpec "gh-12" "fangbm/CIFleet" "" "image" [] 2 1024 ∅ [] 0 3600.

Lemma demo_spec_sendable : sendable_spec demo_spec.
Proof.
  split; [by repeat constructor..| |constructor]. apply map_Forall_empty.
Qed.

Lemma agent_call_is_backend_call_witness :
  (let '(res, w') := CreateInstance demo_client e5 demo_spec [] in
   let '(made, w1) := Create fake_backend (transmitted demo_spec) [] in
   w' = w1
   /\ match made with
      | Ok inst =>
          announced inst ->
          if String.eqb (inst_ID inst) "" then exists e, res = Err e else res = Ok inst
      | Err _ => exists e, res = Err e
      end)
  /\ (let '(err, w') := DestroyInstance demo_client e5 "cifleet-gh-12" [] in
      let '(e, w1) := Destroy fake_backend (TrimSpace "cifleet-gh-12") [] in
      w' = w1 /\ (err = None <-> e = None)).
Proof.
  exact (agent_call_is_backend_call fake_server "https://e5:8090" (Some ["controller"])
           "linux" "amd64" Hour [] fake_backend demo_client e5 eq_refl eq_refl
           eq_refl eq_refl demo_spec "cifleet-gh-12" [] demo_spec_sendable
           ltac:(vm_compute; discriminate) ltac:(discriminate) ltac:(discriminate)
           ltac:(discriminate)).
Defined.

Lemma demo_created :
  CreateInstance demo_client e5 demo_spec []
  = (Ok (mkInstance "x" BackendDocker "e5" zeroTime), ["gh-12"]).
Proof. vm_compute. reflexivity. Qed.

Lemma CreateInstance_promise_witness :
  inst_ID (mkInstance "x" BackendDocker "e5" zeroTime) <> "".
Proof.
  exact (proj1 (CreateInstance_promise demo_client _ e5 demo_spec []
                  (mkInstance "x" BackendDocker "e5" zeroTime) ["gh-12"] eq_refl demo_created)).
Defined.
