(* ===== verification/Docker.v ===== *)
(** * The Docker backend: [internal/backend/docker/docker.go]

    Every interaction with the host (a docker command, the clock, a directory,
    [/proc/meminfo], a map iteration) is a [DCall] of a history, newest first,
    answered by a [DockerHost], a record of functions of the history: the
    theorems hold whatever the host answers.  [docker_backend] packs the
    operations as the agent's [Backend_]. *)

From S2P Require Import Prelude GoTime GoStrings Model Sha256 GoConv Policy Jobs Manager Agent.
From stdpp Require Import base list strings gmap.
From Stdlib Require Import ZArith Ascii String Lia.
Open Scope string_scope.
Open Scope list_scope.
Open Scope Z_scope.

Definition managedLabel : string := "io.cifleet.managed".

Record Config : Set := mkDockerConfig {
  dc_Binary : string;
  dc_NodeID : string;
  dc_CacheRoot : string;
  dc_DefaultTimeout : Duration;
}.

(** The defaults of [New]. *)
Definition New (cfg : Config) : Config :=
  mkDockerConfig (if String.eqb (dc_Binary cfg) "" then "docker" else dc_Binary cfg)
    (dc_NodeID cfg)
    (if String.eqb (dc_CacheRoot cfg) "" then "/var/lib/cifleet/cache" else dc_CacheRoot cfg)
    (if dc_DefaultTimeout cfg <=? 0 then 2 * Hour else dc_DefaultTimeout cfg).

(** ** The host *)

Inductive DCall : Type :=
| CRun (args : list string) (out : string) (err : option string)
    (** [b.run.Run(ctx, b.cfg.Binary, args...)]: the output and the text of the error *)
| CNow (t : Time)
| CMkdirAll (path : string) (err : option error)
| CMeminfo (res : result string)
| CRangeEnv (picks : list nat).

Abbreviation DHistory := (list DCall).

Record DockerHost : Type := mkDockerHost {
  dh_Run : DHistory -> list string -> string * option string;
  dh_now : DHistory -> Time;
  dh_MkdirAll : DHistory -> string -> option error;
  dh_meminfo : DHistory -> result string;
  dh_picks : DHistory -> list nat;
  dh_GOOS : string;
  dh_NumCPU : Z;
}.

Definition D (A : Type) : Type := DHistory -> A * DHistory.

#[export] Instance D_ret : MRet D := fun A a h => (a, h).
#[export] Instance D_bind : MBind D := fun A B k m h => let '(a, h') := m h in k a h'.

(** [execRunner.Run]: [exec] is the combined output of a process and the text
    of its error. *)
Fixpoint join_spaces (parts : list string) : string :=
  match parts with
  | [] => ""
  | [p] => p
  | p :: parts' => p +:+ " " +:+ join_spaces parts'
  end.

Definition execRunner_Run (exec : string -> list string -> string * option string)
  (name : string) (args : list string) : string * option string :=
  let '(out, err) := exec name args in
  (TrimSpace out,
   match err with
   | Some e =>
       Some (name +:+ " " +:+ join_spaces args +:+ ": " +:+ e +:+ ": " +:+ TrimSpace out)
   | None => None
   end).

Definition dcall {A} (answer : DHistory -> A) (ev : A -> DCall) : D A :=
  fun h => let a := answer h in (a, ev a :: h).

(** ** Pure helpers *)

Section pure.
Context `{Unicode}.

(** [sanitizeName] is the same code as the controller's [safeName]. *)
Definition sanitizeName (value : string) : string :=
  Trim (sconcat (map (fun r => if safe_rune r then encode_rune r else "-")
                   (runes (ToLower value)))) "-._".

Definition parseNonNegativeInt (value : string) : Z :=
  match Atoi (TrimSpace value) with
  | Some n => if n <? 0 then 0 else n
  | None => 0
  end.

Definition validateCacheTarget (target : string) : option error :=
  if negb (filepath_IsAbs target) || String.eqb (filepath_Clean target) "/"
  then Some (ErrFmt "cache target %q must be an absolute non-root path" [target])
  else None.

(** [fmt.Sprintf("%x", sum[:8])]. *)
Definition repo_key (repository : string) : string :=
  hex_EncodeToString (string_of_list_ascii (take 8 (list_ascii_of_string (Sum256 repository)))).

Definition cachePath (cfg : Config) (repository name : string) : result string :=
  let name := sanitizeName name in
  if String.eqb name "" then Err (ErrMsg "cache mount name is required")
  else Ok (filepath_Join [dc_CacheRoot cfg; repo_key repository; name]).

(** The loop of [memoryMB] over the lines of [/proc/meminfo]. *)
Fixpoint meminfo_loop (lines : list string) (total available : Z) : Z * Z :=
  match lines with
  | [] => (total, available)
  | line :: lines' =>
      match Fields line with
      | key :: value :: _ =>
          match Atoi value with
          | None => meminfo_loop lines' total available
          | Some valueKB =>
              if String.eqb key "MemTotal:" then meminfo_loop lines' (Z.quot valueKB 1024) available
              else if String.eqb key "MemAvailable:"
              then meminfo_loop lines' total (Z.quot valueKB 1024)
              else meminfo_loop lines' total available
          end
      | _ => meminfo_loop lines' total available
      end
  end.

Definition newline : ascii := of_byte 10.

(** The command lines. *)
Definition ps_args (all : bool) : list string :=
  ["ps"] ++ (if all then ["-a"] else [])
  ++ ["--filter"; "label=" +:+ managedLabel +:+ "=true"; "--format"; "{{.ID}}"].

(** A template that prints one label of a container. *)
Definition quote : string := String (of_byte 34) "".
Definition label_template (label : string) : string :=
  "{{index .Config.Labels " +:+ quote +:+ label +:+ quote +:+ "}}".

Definition inspect_deadline (id : string) : list string :=
  ["inspect"; "--format"; label_template "io.cifleet.deadline"; id].
Definition inspect_size (id : string) : list string :=
  ["inspect"; "--format";
   label_template "io.cifleet.cpu" +:+ "|" +:+ label_template "io.cifleet.memory_mb"; id].
Definition rm_args (id : string) : list string := ["rm"; "-f"; id].

(** The arguments of [docker run] before the environment. *)
Definition run_args (cfg : Config) (spec : JobSpec) (name : string) (deadline : Time)
  : list string :=
  ["run"; "-d"; "--name"; name; "--label"; managedLabel +:+ "=true";
   "--label"; "io.cifleet.node=" +:+ dc_NodeID cfg; "--label"; "io.cifleet.job_id=" +:+ spec_ID spec;
   "--label"; "io.cifleet.repository=" +:+ spec_Repository spec;
   "--label"; "io.cifleet.deadline=" +:+ FormatInt (time_Unix deadline);
   "--label"; "io.cifleet.cpu=" +:+ FormatInt (spec_CPU spec);
   "--label"; "io.cifleet.memory_mb=" +:+ FormatInt (spec_MemoryM spec)]
  ++ (if 0 <? spec_CPU spec then ["--cpus"; FormatInt (spec_CPU spec)] else [])
  ++ (if 0 <? spec_MemoryM spec then ["--memory"; FormatInt (spec_MemoryM spec) +:+ "m"] else []).

(** The loop over [spec.Environment], in the order [l]. *)
Fixpoint env_args (l : list (string * string)) : result (list string) :=
  match l with
  | [] => Ok []
  | (key, value) :: l' =>
      if Contains key "=" || String.eqb key ""
      then Err (ErrFmt "invalid environment variable name %q" [key])
      else match env_args l' with
           | Ok args => Ok (["--env"; key +:+ "=" +:+ value] ++ args)
           | Err e => Err e
           end
  end.
End pure.

(** ** The operations *)

Section docker.
Context `{Unicode} (cfg : Config) (host : DockerHost).

Definition docker (args : list string) : D (string * option string) :=
  dcall (fun h => dh_Run host h args) (fun r => CRun args r.1 r.2).

Definition memoryMB : D (result (Z * Z)) :=
  if negb (String.eqb (dh_GOOS host) "linux")
  then mret (Err (ErrMsg "docker capacity memory probe currently requires linux"))
  else
    data ← dcall (dh_meminfo host) CMeminfo;
    match data with
    | Err e => mret (Err (ErrWrap "read /proc/meminfo" e))
    | Ok text =>
        let '(total, available) := meminfo_loop (Split text newline) 0 0 in
        if total =? 0 then mret (Err (ErrMsg "MemTotal missing from /proc/meminfo"))
        else mret (Ok (total, available))
    end.

Definition managedContainerIDs (all : bool) : D (result (list string)) :=
  r ← docker (ps_args all);
  match r with
  | (_, Some e) => mret (Err (ErrMsg e))
  | (out, None) => if String.eqb (TrimSpace out) "" then mret (Ok []) else mret (Ok (Fields out))
  end.

(** The loop of [Capacity] over the managed containers. *)
Fixpoint reserved_loop (ids : list string) (cpu memory : Z) : D (result (Z * Z)) :=
  match ids with
  | [] => mret (Ok (cpu, memory))
  | id :: ids' =>
      r ← docker (inspect_size id);
      match r with
      | (_, Some e) => mret (Err (ErrWrap ("inspect managed container " +:+ id) (ErrMsg e)))
      | (out, None) =>
          match SplitN2 out "|"%char with
          | [p0; p1] =>
              reserved_loop ids' (cpu +w parseNonNegativeInt p0) (memory +w parseNonNegativeInt p1)
          | _ => reserved_loop ids' cpu memory
          end
      end
  end.

Definition docker_Capacity : D (result Capacity) :=
  info ← docker ["info"; "--format"; "{{.ServerVersion}}"];
  match info with
  | (_, Some e) => mret (Err (ErrWrap "docker unavailable" (ErrMsg e)))
  | (_, None) =>
      mem ← memoryMB;
      match mem with
      | Err e => mret (Err e)
      | Ok (totalMemory, availableMemory) =>
          ids ← managedContainerIDs false;
          match ids with
          | Err e => mret (Err e)
          | Ok ids =>
              reserved ← reserved_loop ids 0 0;
              match reserved with
              | Err e => mret (Err e)
              | Ok (reservedCPU, reservedMemory) =>
                  let totalCPU := dh_NumCPU host in
                  mret (Ok (mkCapacity totalCPU (Z.max 0 (totalCPU -w reservedCPU)) totalMemory
                              (Z.min availableMemory (Z.max 0 (totalMemory -w reservedMemory)))
                              (Z.of_nat (List.length ids))))
              end
          end
      end
  end.

(** The loop of [Create] over the cache mounts. *)
Fixpoint mount_args (repository : string) (mounts : list CacheMount) : D (result (list string)) :=
  match mounts with
  | [] => mret (Ok [])
  | m :: mounts' =>
      match cachePath cfg repository (mount_Name m) with
      | Err e => mret (Err e)
      | Ok hostPath =>
          match validateCacheTarget (mount_Target m) with
          | Some e => mret (Err e)
          | None =>
              made ← dcall (fun h => dh_MkdirAll host h hostPath) (CMkdirAll hostPath);
              match made with
              | Some e => mret (Err (ErrWrap "create cache directory" e))
              | None =>
                  rest ← mount_args repository mounts';
                  match rest with
                  | Err e => mret (Err e)
                  | Ok args =>
                      mret (Ok (["--mount";
                        "type=bind,src=" +:+ hostPath +:+ ",dst=" +:+ mount_Target m
                        +:+ (if mount_ReadOnly m then ",readonly" else "")] ++ args))
                  end
              end
          end
      end
  end.

Definition docker_Create (spec : JobSpec) : D (result Instance_) :=
  if String.eqb (spec_ID spec) "" || String.eqb (spec_Repository spec) ""
     || String.eqb (spec_Image spec) ""
  then mret (Err (ErrMsg "job id, repository and image are required"))
  else if (spec_CPU spec <? 0) || (spec_MemoryM spec <? 0)
  then mret (Err (ErrMsg "cpu and memory must be non-negative"))
  else
    let name := "cifleet-" +:+ sanitizeName (spec_ID spec) in
    if String.eqb name "cifleet-" then mret (Err (ErrMsg "job id has no usable characters"))
    else
      now ← dcall (dh_now host) CNow;
      let deadline := time_Add now (EffectiveTimeout spec (dc_DefaultTimeout cfg)) in
      picks ← dcall (dh_picks host) CRangeEnv;
      match env_args (shuffle picks (map_to_list (spec_Environment spec))) with
      | Err e => mret (Err e)
      | Ok envs =>
          mounts ← mount_args (spec_Repository spec) (spec_CacheMounts spec);
          match mounts with
          | Err e => mret (Err e)
          | Ok mounts =>
              let config :=
                if String.eqb (spec_RunnerConfig spec) "" then []
                else ["--env"; "CIFLEET_RUNNER_CONFIG=" +:+ spec_RunnerConfig spec] in
              r ← docker (run_args cfg spec name deadline ++ envs ++ config ++ mounts
                          ++ [spec_Image spec] ++ spec_Command spec);
              match r with
              | (_, Some e) => mret (Err (ErrMsg e))
              | (id, None) =>
                  mret (Ok (mkInstance (TrimSpace id) BackendDocker (dc_NodeID cfg) deadline))
              end
          end
      end.

Definition docker_Destroy (instanceID : string) : D (option error) :=
  if String.eqb (TrimSpace instanceID) "" then mret (Some (ErrMsg "instance id is required"))
  else
    r ← docker (rm_args instanceID);
    match r.2 with
    | Some e => if Contains (ToLower e) "no such container" then mret None else mret (Some (ErrMsg e))
    | None => mret None
    end.

(** A deadline label that has passed. *)
Definition due (now : Time) (out : string) (err : option string) : bool :=
  match err with
  | Some _ => false
  | None =>
      match ParseInt (TrimSpace out) with
      | None => false
      | Some deadlineUnix => negb ((deadlineUnix <=? 0) || (time_Unix now <? deadlineUnix))
      end
  end.

Fixpoint cleanup_loop (now : Time) (ids : list string) (removed : Z) : D Z :=
  match ids with
  | [] => mret removed
  | id :: ids' =>
      r ← docker (inspect_deadline id);
      if negb (due now r.1 r.2) then cleanup_loop now ids' removed
      else
        rm ← docker (rm_args id);
        cleanup_loop now ids' (match rm.2 with None => removed +w 1 | Some _ => removed end)
  end.

Definition docker_CleanupExpired (now : Time) : D (Z * option error) :=
  ids ← managedContainerIDs true;
  match ids with
  | Err e => mret (0, Some e)
  | Ok ids => removed ← cleanup_loop now ids 0; mret (removed, None)
  end.

Definition docker_backend : Backend_ DHistory := {|
  Kind := BackendDocker;
  Capacity_ := docker_Capacity;
  Create := docker_Create;
  Destroy := docker_Destroy;
  CleanupExpired := docker_CleanupExpired;
|}.
End docker.

(** ** Cache directories *)

Section cache.
Context `{Unicode}.

Lemma sanitizeName_safeName value : sanitizeName value = safeName value.
Proof. done. Qed.

Lemma sanitizeName_proper value : sanitizeName value <> "" -> proper (sanitizeName value).
Proof.
  intros Hne. rewrite sanitizeName_safeName in *.
  assert (Hhead : forall c t, safeName value = String c t -> in_cutset "-._" c = false).
  { intros c t E. apply (trim_list_ends (in_cutset "-._")
      (list_ascii_of_string (sconcat (map (fun r => if safe_rune r then encode_rune r else "-")
         (runes (ToLower value)))))). left. rewrite <- list_Trim. fold (safeName value).
    by rewrite E. }
  split; [done|intros E; by specialize (Hhead _ _ E)..|].
  pose proof (safeName_safe value) as Hs. revert Hs. apply sforall_impl.
  intros c Hc. by destruct (Ascii.eqb_spec c "/") as [->|].
Qed.

Lemma repo_key_proper repository : proper (repo_key repository).
Proof.
  pose proof (length_Sum256 repository) as Hl.
  pose proof (hex_encode_hex
    (string_of_list_ascii (take 8 (list_ascii_of_string (Sum256 repository))))) as Hx.
  fold (repo_key repository) in Hx. split.
  - unfold repo_key.
    destruct (list_ascii_of_string (Sum256 repository)) as [|c l]; [done|]. by cbn.
  - intros E. by rewrite E in Hx.
  - intros E. by rewrite E in Hx.
  - revert Hx. apply sforall_impl. intros c Hc. by destruct (Ascii.eqb_spec c "/") as [->|].
Qed.

(** Two proper components behind a non-empty root. *)
Lemma Join_components root key name :
  root <> "" -> proper key -> proper name ->
  filepath_Join [root; key; name]
  = render (HasPrefix root "/") (components root ++ [key; name]).
Proof.
  intros Hr Hk Hn. unfold filepath_Join. cbn.
  destruct (String.eqb_spec root ""); [done|]. destruct (String.eqb_spec key "") as [E|_];
    [by apply proper_nonempty in Hk|].
  destruct (String.eqb_spec name "") as [E|_]; [by apply proper_nonempty in Hn|]. cbn [negb join_slash].
  assert (E : root +:+ "/" +:+ key +:+ "/" +:+ name
              = (root +:+ String "/" key) +:+ String "/" name) by by rewrite !sapp_assoc.
  rewrite E, Clean_render, components_snoc, components_snoc, <- app_assoc; try done.
  - f_equal. destruct root as [|c root]; [done|]. rewrite !sapp_cons. unfold HasPrefix.
    cbn [String.prefix]. by destruct (Ascii.ascii_dec "/" c), root.
  - by destruct root.
Qed.

(** The text before the two last components depends only on the root. *)
Lemma render_snoc2 rooted cs :
  exists pre, forall key name, proper key ->
    render rooted (cs ++ [key; name]) = pre +:+ key +:+ "/" +:+ name.
Proof.
  destruct cs as [|c cs].
  - exists (if rooted then "/" else ""). intros key name Hk. unfold render. cbn [app join_slash].
    destruct rooted; [done|]. destruct (String.eqb_spec (key +:+ "/" +:+ name) "") as [E|_]; [|done].
    by destruct key.
  - exists ((if rooted then "/" else "") +:+ join_slash (c :: cs) +:+ "/"). intros key name Hk.
    unfold render. change (cs ++ [key; name]) with (cs ++ [key] ++ [name]).
    replace ((c :: cs) ++ [key; name]) with (((c :: cs) ++ [key]) ++ [name])
      by by rewrite <- app_assoc.
    rewrite join_slash_snoc by by destruct cs. rewrite join_slash_snoc by done.
    destruct rooted; [by rewrite !sapp_assoc|].
    destruct (String.eqb_spec ((join_slash (c :: cs) +:+ "/" +:+ key) +:+ "/" +:+ name) "") as [E|_].
    + exfalso. apply (f_equal (fun s => List.length (list_ascii_of_string s))) in E.
      rewrite !list_ascii_app, !length_app in E. cbn in E. lia.
    + by rewrite !sapp_assoc.
Qed.

Lemma segment_no_slash p : proper p -> "/"%char ∉ list_ascii_of_string p.
Proof.
  intros [_ _ _ Hp] Hin. apply sforall_Forall in Hp. rewrite Forall_forall in Hp.
  by apply Hp in Hin.
Qed.

(** The last two components of a rendered path are determined by its text. *)
Lemma render_snoc2_inj rooted cs key name key' name' :
  proper key -> proper name -> proper key' -> proper name' ->
  render rooted (cs ++ [key; name]) = render rooted (cs ++ [key'; name']) ->
  key = key' /\ name = name'.
Proof.
  intros Hk Hn Hk' Hn' E. destruct (render_snoc2 rooted cs) as [pre Hpre].
  rewrite !Hpre in E by done. apply sapp_inj_l, (f_equal list_ascii_of_string) in E.
  rewrite !list_ascii_app in E. cbn in E.
  apply split_last_unique in E as [E1 E2]; [|by apply segment_no_slash..].
  split; by apply list_ascii_inj.
Qed.

(** C27. Cache mounts stay inside their repository's directory: whatever the
    mount name, [cachePath] is the cleaned cache root followed by exactly two
    ordinary components (never empty, [.], [..] or with a slash), the first 16
    hexadecimal digits of the SHA-256 of the repository and the sanitised
    name; two mounts have the same path only if both components agree. *)
Theorem cachePath_confined cfg repository name p :
  cachePath (New cfg) repository name = Ok p ->
  let root := dc_CacheRoot (New cfg) in
  p = render (HasPrefix root "/") (components root ++ [repo_key repository; sanitizeName name])
  /\ proper (repo_key repository) /\ proper (sanitizeName name)
  /\ forall repository' name', cachePath (New cfg) repository' name' = Ok p ->
       repo_key repository' = repo_key repository /\ sanitizeName name' = sanitizeName name.
Proof.
  assert (Hroot : dc_CacheRoot (New cfg) <> "").
  { unfold New. cbn. by destruct (String.eqb_spec (dc_CacheRoot cfg) ""). }
  assert (Hpath : forall r n q, cachePath (New cfg) r n = Ok q -> proper (sanitizeName n)
    /\ q = render (HasPrefix (dc_CacheRoot (New cfg)) "/")
             (components (dc_CacheRoot (New cfg)) ++ [repo_key r; sanitizeName n])).
  { intros r n q. unfold cachePath. destruct (String.eqb_spec (sanitizeName n) ""); [done|].
    intros [= <-]. pose proof (sanitizeName_proper n ltac:(done)). split; [done|].
    apply Join_components; [done|apply repo_key_proper|done]. }
  intros (Hn & ->)%Hpath. split_and!; [done|apply repo_key_proper|done|].
  intros r n (Hn' & E)%Hpath.
  apply render_snoc2_inj in E as [-> ->]; [done|apply repo_key_proper|done|apply repo_key_proper|done].
Qed.
End cache.

(** ** Removing expired containers *)

Section cleanup.
Context `{Unicode} (cfg : Config) (host : DockerHost).

(** A label written by [Create] is due exactly from the deadline on. *)
Lemma due_label now d :
  0 < d <= int64_max -> due now (FormatInt d) None = (d <=? time_Unix now).
Proof.
  intros Hd. unfold due. rewrite TrimSpace_digits by (apply FormatInt_digits; lia).
  rewrite ParseInt_FormatInt by lia. lia.
Qed.

Definition ok_removal (c : DCall) : bool :=
  match c with CRun ["rm"; "-f"; _] _ None => true | _ => false end.

(** What one sweep over [ids] did: its calls, oldest first. *)
Inductive sweep (now : Time) : list string -> DHistory -> Prop :=
| sweep_nil : sweep now [] []
| sweep_keep id ids out err tr :
    due now out err = false -> sweep now ids tr ->
    sweep now (id :: ids) (CRun (inspect_deadline id) out err :: tr)
| sweep_remove id ids out err o e tr :
    due now out err = true -> sweep now ids tr ->
    sweep now (id :: ids) (CRun (inspect_deadline id) out err :: CRun (rm_args id) o e :: tr).

Definition count_removals (tr : DHistory) : Z := Z.of_nat (List.length (List.filter ok_removal tr)).

Lemma wrap64_succ x y : wrap64 (x +w 1 + y) = wrap64 (x + (1 + y)).
Proof. rewrite wrap64_add_l. f_equal. lia. Qed.

Lemma cleanup_loop_sweep now ids removed h :
  in_int64 removed ->
  let '(n, h') := cleanup_loop host now ids removed h in
  exists tr, h' = rev tr ++ h /\ sweep now ids tr /\ n = wrap64 (removed + count_removals tr).
Proof.
  revert removed h. induction ids as [|id ids IH]; intros removed h Hrange; cbn [cleanup_loop].
  { exists []. split_and!; [done|constructor|]. by rewrite Z.add_0_r, wrap64_id. }
  unfold mbind, D_bind, docker, dcall. cbv beta iota zeta.
  destruct (dh_Run host h (inspect_deadline id)) as [out err] eqn:Ei. cbn [fst snd].
  destruct (due now out err) eqn:Edue; cbn [negb].
  - destruct (dh_Run host (CRun (inspect_deadline id) out err :: h) (rm_args id)) as [o e].
    cbn [fst snd].
    set (h1 := CRun (rm_args id) o e :: CRun (inspect_deadline id) out err :: h).
    set (removed' := match e with None => removed +w 1 | Some _ => removed end).
    assert (Hr' : in_int64 removed') by (destruct e; [done|apply wrap64_range]).
    specialize (IH removed' h1 Hr'). destruct (cleanup_loop host now ids removed' h1) as [n h'].
    destruct IH as (tr & -> & Hs & ->).
    exists (CRun (inspect_deadline id) out err :: CRun (rm_args id) o e :: tr). split_and!.
    + cbn [rev]. by rewrite <- !app_assoc.
    + by apply sweep_remove.
    + unfold removed'. destruct e; [done|]. rewrite wrap64_succ. f_equal.
      unfold count_removals. cbn. lia.
  - set (h1 := CRun (inspect_deadline id) out err :: h).
    specialize (IH removed h1 Hrange). destruct (cleanup_loop host now ids removed h1) as [n h'].
    destruct IH as (tr & -> & Hs & ->).
    exists (CRun (inspect_deadline id) out err :: tr). split_and!.
    + cbn [rev]. by rewrite <- app_assoc.
    + by apply sweep_keep.
    + done.
Qed.

(** Every removal of a sweep is justified, and every due container is removed. *)
Lemma sweep_justified now ids tr id o e :
  sweep now ids tr -> CRun (rm_args id) o e ∈ tr ->
  id ∈ ids /\ exists out, CRun (inspect_deadline id) out None ∈ tr /\ due now out None = true.
Proof.
  induction 1 as [|i ids out err tr Hd _ IH|i ids out err o' e' tr Hd _ IH]; intros Hin.
  - by apply not_elem_of_nil in Hin.
  - apply elem_of_cons in Hin as [?|Hin]; [done|]. destruct (IH Hin) as (? & u & ? & ?).
    split; [by right|]. exists u. split; [by right|done].
  - rewrite !elem_of_cons in Hin. destruct Hin as [?|[E|Hin]]; [done| |].
    + injection E as -> -> ->. destruct err; [done|]. split; [by left|]. exists out. split; [by left|done].
    + destruct (IH Hin) as (? & u & ? & ?). split; [by right|]. exists u. split; [|done].
      by do 2 right.
Qed.

(** The container a call inspects, and the one it removes. *)
Definition inspected (c : DCall) : option string :=
  match c with CRun ["inspect"; "--format"; _; id] _ _ => Some id | _ => None end.

Definition removed_id (c : DCall) : option string :=
  match c with CRun ["rm"; "-f"; id] _ _ => Some id | _ => None end.

(** A sweep inspects the listed containers, each once and in their order, and
    makes no call but inspections and removals. *)
Lemma sweep_inspects now ids tr : sweep now ids tr -> omap inspected tr = ids.
Proof. by induction 1 as [|id ids out err tr _ _ <-|id ids out err o e tr _ _ <-]. Qed.

(** The removals are those of the due containers, in the order of the list,
    none of them twice for one entry. *)
Lemma sweep_removes now ids tr : sweep now ids tr -> omap removed_id tr `sublist_of` ids.
Proof.
  induction 1 as [|id ids out err tr _ _ IH|id ids out err o e tr _ _ IH];
    [done|by apply sublist_cons|by apply sublist_skip].
Qed.

Lemma sweep_calls now ids tr c :
  sweep now ids tr -> c ∈ tr -> is_Some (inspected c) \/ is_Some (removed_id c).
Proof.
  induction 1 as [|id ids out err tr _ _ IH|id ids out err o e tr _ _ IH];
    rewrite ?elem_of_cons; intros Hin; [by apply not_elem_of_nil in Hin|..];
    naive_solver.
Qed.

Lemma sweep_complete now ids tr id :
  sweep now ids tr -> id ∈ ids ->
  exists out err, CRun (inspect_deadline id) out err ∈ tr
    /\ (due now out err = true -> exists o e, CRun (rm_args id) o e ∈ tr).
Proof.
  induction 1 as [|i ids out err tr Hd _ IH|i ids out err o' e' tr Hd _ IH]; intros Hin.
  - by apply not_elem_of_nil in Hin.
  - apply elem_of_cons in Hin as [->|Hin].
    + exists out, err. split; [by left|]. congruence.
    + destruct (IH Hin) as (u & v & ? & Hdue). exists u, v. split; [by right|].
      intros (o & e & ?)%Hdue. exists o, e. by right.
  - apply elem_of_cons in Hin as [->|Hin].
    + exists out, err. split; [by left|]. intros _. exists o', e'. right. by left.
    + destruct (IH Hin) as (u & v & ? & Hdue). exists u, v. split; [by do 2 right|].
      intros (o & e & ?)%Hdue. exists o, e. by do 2 right.
Qed.

(** The identifiers [docker ps] listed. *)
Definition listed (out : string) : list string :=
  if String.eqb (TrimSpace out) "" then [] else Fields out.

Lemma managedContainerIDs_eq all h :
  let '(out, err) := dh_Run host h (ps_args all) in
  managedContainerIDs host all h =
  (match err with Some e => Err (ErrMsg e) | None => Ok (listed out) end,
   CRun (ps_args all) out err :: h).
Proof.
  unfold managedContainerIDs, mbind, D_bind, docker, dcall, listed. cbv beta iota zeta.
  destruct (dh_Run host h (ps_args all)) as [out [e|]]; [done|]. cbn.
  by destruct (String.eqb (TrimSpace out) "").
Qed.

(** C26. Expiry removes exactly the containers whose deadline has passed: if
    [docker ps] fails its error is returned and nothing else is done;
    otherwise the calls are exactly one inspection of each listed container, in
    the order of the list, each followed at once by the removal of that
    container if it is due, and by nothing if it is not ([sweep]): no other
    container is inspected, no container is inspected or removed twice for one
    entry of the list, and no other command runs.  A container is removed only
    if its deadline label was just read as a positive number of seconds that is
    not in the future, every such one is removed, and the count is the number
    of removals that succeeded. *)
Theorem CleanupExpired_correct now h :
  let '((removed, err), h') := docker_CleanupExpired host now h in
  match dh_Run host h (ps_args true) with
  | (out, Some e) =>
      removed = 0 /\ err = Some (ErrMsg e) /\ h' = CRun (ps_args true) out (Some e) :: h
  | (out, None) =>
      err = None
      /\ exists tr, h' = rev tr ++ CRun (ps_args true) out None :: h
        /\ removed = wrap64 (count_removals tr)
        /\ sweep now (listed out) tr
        /\ omap inspected tr = listed out
        /\ omap removed_id tr `sublist_of` listed out
        /\ (forall c, c ∈ tr -> is_Some (inspected c) \/ is_Some (removed_id c))
        /\ (forall id o e, CRun (rm_args id) o e ∈ tr -> id ∈ listed out
             /\ exists text d, CRun (inspect_deadline id) text None ∈ tr
                  /\ ParseInt (TrimSpace text) = Some d /\ 0 < d <= time_Unix now)
        /\ (forall id, id ∈ listed out ->
             exists text e, CRun (inspect_deadline id) text e ∈ tr
               /\ (due now text e = true -> exists o e', CRun (rm_args id) o e' ∈ tr))
  end.
Proof.
  unfold docker_CleanupExpired, mbind, D_bind, mret, D_ret.
  pose proof (managedContainerIDs_eq true h) as Eps.
  destruct (dh_Run host h (ps_args true)) as [out [e|]]; rewrite Eps; [done|].
  set (h1 := CRun (ps_args true) out None :: h).
  pose proof (cleanup_loop_sweep now (listed out) 0 h1 ltac:(by vm_compute)) as Hloop.
  destruct (cleanup_loop host now (listed out) 0 h1) as [n h'].
  destruct Hloop as (tr & -> & Hs & ->). split; [done|]. exists tr.
  split_and!; [done|done|done|by eapply sweep_inspects|by eapply sweep_removes
              |intros c; by apply (sweep_calls now (listed out))| |].
  - intros id o e' Hin. destruct (sweep_justified _ _ _ _ _ _ Hs Hin) as (Hid & text & Ht & Hdue).
    split; [done|]. unfold due in Hdue.
    destruct (ParseInt (TrimSpace text)) as [d|] eqn:Ed; [|done].
    exists text, d. split_and!; [done..|lia|lia].
  - intros id Hid. by apply (sweep_complete _ (listed out)).
Qed.
End cleanup.

(** ** Creating containers *)

Section create.
Context `{Unicode} (cfg : Config) (host : DockerHost).

(** The flag [flag value] occurs in a command line. *)
Definition has_flag (flag value : string) (args : list string) : Prop :=
  exists a b, args = a ++ [flag; value] ++ b.

Lemma has_flag_app_l flag value l1 l2 : has_flag flag value l1 -> has_flag flag value (l1 ++ l2).
Proof. intros (a & b & ->). exists a, (b ++ l2). by rewrite <- !app_assoc. Qed.

Lemma has_flag_app_r flag value l1 l2 : has_flag flag value l2 -> has_flag flag value (l1 ++ l2).
Proof. intros (a & b & ->). exists (l1 ++ a), b. by rewrite <- !app_assoc. Qed.

Lemma env_args_flag l args key value :
  env_args l = Ok args -> (key, value) ∈ l -> has_flag "--env" (key +:+ "=" +:+ value) args.
Proof.
  revert args. induction l as [|[k v] l IH]; intros args; cbn [env_args].
  { by intros _ ?%not_elem_of_nil. }
  destruct (_ || _); [done|]. destruct (env_args l) as [rest|]; [|done]. intros [= <-].
  intros [[= -> ->]|Hin]%elem_of_cons; [by exists [], rest|].
  apply (has_flag_app_r _ _ ["--env"; k +:+ "=" +:+ v]). by apply IH.
Qed.

(** What a successful [Create] without cache mounts did. *)
Lemma docker_Create_Ok spec inst h h' :
  spec_CacheMounts spec = [] -> docker_Create cfg host spec h = (Ok inst, h') ->
  let name := "cifleet-" +:+ sanitizeName (spec_ID spec) in
  exists now picks envs out,
    let deadline := time_Add now (EffectiveTimeout spec (dc_DefaultTimeout cfg)) in
    let config := if String.eqb (spec_RunnerConfig spec) "" then []
                  else ["--env"; "CIFLEET_RUNNER_CONFIG=" +:+ spec_RunnerConfig spec] in
    env_args (shuffle picks (map_to_list (spec_Environment spec))) = Ok envs
    /\ h' = CRun (run_args cfg spec name deadline ++ envs ++ config ++ [spec_Image spec]
                  ++ spec_Command spec) out None :: CRangeEnv picks :: CNow now :: h
    /\ inst = mkInstance (TrimSpace out) BackendDocker (dc_NodeID cfg) deadline.
Proof.
  intros Hmounts. unfold docker_Create. repeat (destruct_match; [done|]).
  unfold mbind, D_bind, dcall, docker. cbv beta iota zeta.
  set (now := dh_now host h). set (picks := dh_picks host _).
  destruct (env_args _) as [envs|e] eqn:Eenv; [|done]. rewrite Hmounts. cbn [mount_args].
  unfold mret, D_ret, dcall. cbv beta iota zeta. cbn [app].
  destruct (dh_Run host _ _) as [out [e|]]; [done|]. cbn [fst snd]. intros [= <- <-].
  exists now, picks, envs, out. by split_and!.
Qed.

(** [Destroy] of a job's container is one command. *)
Lemma TrimSpace_containerName jobID : 0 <= jobID -> TrimSpace (containerName jobID) = containerName jobID.
Proof.
  intros Hj. apply TrimSpace_visible. unfold containerName, containerJobID.
  by rewrite !sforall_app, (visible_digits _ (FormatInt_digits jobID Hj)).
Qed.

Lemma Destroy_named jobID h :
  0 <= jobID -> exists out err,
    (docker_Destroy host (containerName jobID) h).2 = CRun (rm_args (containerName jobID)) out err :: h.
Proof.
  intros Hj. unfold docker_Destroy. rewrite TrimSpace_containerName by done.
  destruct (String.eqb_spec (containerName jobID) "") as [|_]; [done|].
  unfold mbind, D_bind, docker, dcall. cbv beta iota zeta.
  destruct (dh_Run host h (rm_args (containerName jobID))) as [out [e|]]; cbn [fst snd];
    [destruct (Contains _ _)|]; by eexists out, _.
Qed.

(** C25. The container of a job can be found again: when the agent creates the
    instance of job [jobID], the one docker command names the container
    [containerName jobID] (the name the controller uses to destroy it when it
    knows no identifier), labels it as managed and with the deadline that is
    returned, hands the runner its JIT configuration and runs the runner's
    entry point; [Destroy] of that name is [docker rm -f] of that container. *)
Theorem Create_job_container mcfg jobID r jit inst h h' :
  0 <= jobID ->
  docker_Create cfg host (job_spec mcfg jobID r jit) h = (Ok inst, h') ->
  (exists args out now picks,
     h' = CRun args out None :: CRangeEnv picks :: CNow now :: h
     /\ take 4 args = ["run"; "-d"; "--name"; containerName jobID]
     /\ has_flag "--label" "io.cifleet.managed=true" args
     /\ has_flag "--label" ("io.cifleet.deadline=" +:+ FormatInt (time_Unix (inst_Deadline inst))) args
     /\ has_flag "--env" ("ACTIONS_RUNNER_INPUT_JITCONFIG=" +:+ jit_EncodedConfig jit) args
     /\ has_flag (RunnerImage mcfg) "/home/runner/run.sh" args
     /\ inst_ID inst = TrimSpace out
     /\ inst_Deadline inst
        = time_Add now (EffectiveTimeout (job_spec mcfg jobID r jit) (dc_DefaultTimeout cfg)))
  /\ forall h2, exists out err,
       (docker_Destroy host (containerName jobID) h2).2
       = CRun ["rm"; "-f"; containerName jobID] out err :: h2.
Proof.
  intros Hj HC. split.
  - apply docker_Create_Ok in HC; [|done]. destruct HC as (now & picks & envs & out & Henv & -> & ->).
    assert (Hname : "cifleet-" +:+ sanitizeName (spec_ID (job_spec mcfg jobID r jit))
                    = containerName jobID).
    { rewrite sanitizeName_safeName. cbn [spec_ID job_spec]. by rewrite safeName_containerJobID. }
    rewrite Hname.
    eexists _, out, now, picks. split; [done|].
    split; [done|]. split_and!; try done.
    + apply has_flag_app_l. unfold run_args. apply has_flag_app_l.
      exists ["run"; "-d"; "--name"; containerName jobID]. by eexists.
    + apply has_flag_app_l. unfold run_args. apply has_flag_app_l.
      by eexists (_ :: _ :: _ :: _ :: _ :: _ :: _ :: _ :: _ :: _ :: _ :: _ :: []), _.
    + apply has_flag_app_r, has_flag_app_l.
      apply (env_args_flag _ _ "ACTIONS_RUNNER_INPUT_JITCONFIG" _ Henv).
      apply elem_of_shuffle, elem_of_map_to_list. cbn [spec_Environment job_spec].
      by rewrite lookup_insert_eq.
    + do 3 apply has_flag_app_r. by exists [], [].
  - intros h2. by apply Destroy_named.
Qed.
End create.

(** ** Reporting capacity *)

Section capacity.
Context `{Unicode} (host : DockerHost).

(** A size label written by [Create] is read back. *)
Lemma parseNonNegativeInt_label n : 0 <= n <= int64_max -> parseNonNegativeInt (FormatInt n) = n.
Proof.
  intros Hn. unfold parseNonNegativeInt, Atoi.
  rewrite TrimSpace_digits by (apply FormatInt_digits; lia). rewrite ParseInt_FormatInt by lia.
  by destruct (Z.ltb_spec n 0); [lia|].
Qed.

Lemma SplitN2_label s t :
  sforall is_digit s = true -> SplitN2 (s +:+ "|" +:+ t) "|"%char = [s; t].
Proof.
  induction s as [|c s IH]; [done|]. cbn [sforall]. intros [Hc Hs]%andb_true_iff.
  rewrite sapp_cons. cbn [SplitN2]. rewrite IH by done.
  by destruct (Ascii.eqb_spec c "|") as [->|].
Qed.

(** The sizes of the listed containers, as their labels say. *)
Context (size : string -> Z * Z).
Definition total_size (proj : Z * Z -> Z) (ids : list string) : Z :=
  foldr (fun id acc => proj (size id) + acc) 0 ids.

(** The host shows for each container the labels [Create] wrote. *)
Definition labelled (ids : list string) : Prop :=
  forall id h, id ∈ ids ->
    0 <= (size id).1 <= int64_max /\ 0 <= (size id).2 <= int64_max
    /\ dh_Run host h (inspect_size id)
       = (FormatInt (size id).1 +:+ "|" +:+ FormatInt (size id).2, None).

Lemma reserved_loop_labelled ids cpu memory h :
  labelled ids -> in_int64 cpu -> in_int64 memory ->
  (reserved_loop host ids cpu memory h).1
  = Ok (wrap64 (cpu + total_size fst ids), wrap64 (memory + total_size snd ids)).
Proof.
  revert cpu memory h. induction ids as [|id ids IH]; intros cpu memory h Hl Hc Hm; cbn [reserved_loop].
  { cbn. by rewrite !Z.add_0_r, !wrap64_id. }
  destruct (Hl id h) as (Hs1 & Hs2 & Hrun); [by left|].
  unfold mbind, D_bind, docker, dcall. cbv beta iota zeta. rewrite Hrun. cbn [fst snd].
  rewrite SplitN2_label by (apply FormatInt_digits; lia).
  rewrite !parseNonNegativeInt_label by lia.
  rewrite IH; [|intros i h' Hi; apply Hl; by right|apply wrap64_range..].
  rewrite !wrap64_add_l. cbn [total_size foldr]. do 3 f_equal; unfold total_size; lia.
Qed.

(** A worker reports what its containers leave free: if every running
    container shows the size labels [Create] gave it and the sizes sum up
    within 64 bits, a successful capacity probe reports the machine's CPUs and
    memory, as free what remains after subtracting the labelled sizes (never
    negative, and no more memory than the kernel says is available), and the
    number of containers. *)
Theorem Capacity_correct h c h' out :
  docker_Capacity host h = (Ok c, h') ->
  (forall h0, dh_Run host h0 (ps_args false) = (out, None)) -> labelled (listed out) ->
  0 <= dh_NumCPU host <= int64_max ->
  total_size fst (listed out) <= int64_max -> total_size snd (listed out) <= int64_max ->
  TotalCPU c = dh_NumCPU host
  /\ FreeCPU c = Z.max 0 (dh_NumCPU host - total_size fst (listed out))
  /\ FreeCPU c <= TotalCPU c
  /\ (exists h1 h2 available, memoryMB host h1 = (Ok (TotalMemoryM c, available), h2)
      /\ (0 <= TotalMemoryM c <= int64_max ->
          FreeMemoryM c = Z.min available (Z.max 0 (TotalMemoryM c - total_size snd (listed out)))
          /\ FreeMemoryM c <= TotalMemoryM c))
  /\ RunningJobs c = Z.of_nat (List.length (listed out)).
Proof.
  intros HC Hps Hl Hcpu Hs1 Hs2. unfold docker_Capacity, mbind, D_bind in HC.
  unfold docker at 1, dcall in HC. cbv beta iota zeta in HC.
  destruct (dh_Run host h _) as [o [e|]]; cbn [fst snd] in HC; [done|].
  destruct (memoryMB host _) as [[[total available]|e] h1] eqn:Emem; [|done].
  pose proof (managedContainerIDs_eq host false h1) as Eps. rewrite Hps in Eps. rewrite Eps in HC.
  assert (Hnn : forall proj, (forall id, id ∈ listed out -> 0 <= proj (size id)) ->
            0 <= total_size proj (listed out)).
  { intros proj Hp. clear -Hp. unfold total_size. induction (listed out) as [|id ids IH]; cbn; [done|].
    assert (0 <= proj (size id)) by (apply Hp; by left).
    assert (0 <= foldr (fun id acc => proj (size id) + acc) 0 ids) by (apply IH; intros; apply Hp; by right).
    lia. }
  assert (0 <= total_size fst (listed out)) by (apply Hnn; intros id Hid; by apply (Hl id h)).
  assert (0 <= total_size snd (listed out)) by (apply Hnn; intros id Hid; by apply (Hl id h)).
  pose proof (reserved_loop_labelled (listed out) 0 0 (CRun (ps_args false) out None :: h1) Hl
                ltac:(by vm_compute) ltac:(by vm_compute)) as Hloop.
  destruct (reserved_loop host _ 0 0 _) as [res h2]. cbn [fst] in Hloop. subst res.
  injection HC as <- <-. cbn [TotalCPU FreeCPU TotalMemoryM FreeMemoryM RunningJobs].
  rewrite !Z.add_0_l, !(wrap64_id (total_size _ _))
    by (unfold in_int64, int64_min, int64_max in *; lia).
  rewrite (wrap64_id (dh_NumCPU host - _)) by (unfold in_int64, int64_min, int64_max in *; lia).
  split_and!; [done|done|lia| |done].
  eexists _, h1, available. split; [exact Emem|]. intros Hm.
  rewrite wrap64_id by (unfold in_int64, int64_min, int64_max in *; lia). split; [done|lia].
Qed.
End capacity.

(** ** Witnesses: the hosts of [docker_test.go] *)

Definition two_lines : string := "old" +:+ String newline "new".

(** The processes docker would be. *)
Definition test_exec (name : string) (args : list string) : string * option string :=
  match args with
  | "run" :: _ => ("container123", None)
  | "ps" :: "-a" :: _ => (two_lines, None)
  | "ps" :: _ => ("old", None)
  | ["rm"; "-f"; id] =>
      if String.eqb id "missing" then ("Error: No such container: missing", Some "exit status 1")
      else (id, None)
  | ["inspect"; _; format; id] =>
      if String.eqb format (label_template "io.cifleet.deadline")
      then (if String.eqb id "old" then "1000" else "3000", None)
      else (FormatInt 2 +:+ "|" +:+ FormatInt 1024, None)
  | _ => ("", None)
  end.

Definition test_host : DockerHost := {|
  dh_Run _ := execRunner_Run test_exec "docker";
  dh_now _ := (unix_epoch + 2000) * Second;
  dh_MkdirAll _ _ := None;
  dh_meminfo _ := Ok ("MemTotal:       32768000 kB" +:+ String newline "MemAvailable:   30720000 kB");
  dh_picks _ := [];
  dh_GOOS := "linux";
  dh_NumCPU := 12;
|}.

Definition test_cfg : Config := New (mkDockerConfig "" "e5" "/cache/" Hour).

(** [TestCleanupExpiredUsesPersistentDeadlineLabel]. *)
Example cleanup_uses_label :
  (docker_CleanupExpired test_host ((unix_epoch + 2000) * Second) []).1 = (1, None).
Proof. vm_compute. reflexivity. Qed.

(** [TestDestroyTreatsMissingContainerAsSuccess]. *)
Example destroy_missing : (docker_Destroy test_host "missing" []).1 = None.
Proof. vm_compute. reflexivity. Qed.

(** [TestRejectsUnsafeCacheTarget]. *)
Example rejects_relative_target :
  match (docker_Create test_cfg test_host
    (mkJobSpec "job" "owner/repo" "" "ubuntu" [] 0 0 ∅ [mkCacheMount "x" "../escape" false] 0 0) []).1
  with Ok _ => false | Err _ => true end = true.
Proof. vm_compute. reflexivity. Qed.

(** [TestCreateAddsIsolationLabelsAndRepositoryScopedCache]: the path. *)
Definition go_build_path : string :=
  "/cache/" +:+ repo_key "fangbm/CIFleet" +:+ "/go-build".

Example cache_path : cachePath test_cfg "fangbm/CIFleet" "Go-Build/.." = Ok go_build_path.
Proof. vm_compute. reflexivity. Qed.

Lemma cachePath_confined_witness :
  go_build_path
  = render (HasPrefix "/cache/" "/")
      (components "/cache/" ++ [repo_key "fangbm/CIFleet"; sanitizeName "Go-Build/.."])
  /\ proper (repo_key "fangbm/CIFleet") /\ proper (sanitizeName "Go-Build/..")
  /\ forall repository' name', cachePath test_cfg repository' name' = Ok go_build_path ->
       repo_key repository' = repo_key "fangbm/CIFleet"
       /\ sanitizeName name' = sanitizeName "Go-Build/..".
Proof.
  exact (cachePath_confined (mkDockerConfig "" "e5" "/cache/" Hour) "fangbm/CIFleet" "Go-Build/.."
           go_build_path cache_path).
Defined.

(** A record with a repository, as [handleQueued] makes them. *)
Definition test_record : JobRecord :=
  mkJobRecord 12 10 42 "fangbm/CIFleet" "fangbm" "CIFleet" [] jobProvisioning "e5" "" "" 77 2 1024 1
    zeroTime zeroTime.
Definition test_mcfg : RunnerManagerConfig := with_defaults (mkConfig "" 0 "" 0 0 0 "" 0 0 0).
Definition test_instance : Instance_ :=
  mkInstance "container123" BackendDocker "e5"
    (time_Add ((unix_epoch + 2000) * Second) (7200 * Second)).
Definition test_created : DHistory :=
  (docker_Create test_cfg test_host (job_spec test_mcfg 12 test_record (mkJITConfig 77 "jit")) []).2.

Lemma test_create :
  docker_Create test_cfg test_host (job_spec test_mcfg 12 test_record (mkJITConfig 77 "jit")) []
  = (Ok test_instance, test_created).
Proof. vm_compute. reflexivity. Qed.

Lemma Create_job_container_witness :
  (exists args out now picks,
     test_created = [CRun args out None; CRangeEnv picks; CNow now]
     /\ take 4 args = ["run"; "-d"; "--name"; "cifleet-gh-12"])
  /\ exists out err,
       (docker_Destroy test_host "cifleet-gh-12" []).2
       = [CRun ["rm"; "-f"; "cifleet-gh-12"] out err].
Proof.
  destruct (Create_job_container test_cfg test_host test_mcfg 12 test_record
              (mkJITConfig 77 "jit") test_instance [] test_created ltac:(lia) test_create)
    as [(args & out & now & picks & Hh & Hname & _) Hd].
  exact (conj (ex_intro _ args (ex_intro _ out (ex_intro _ now (ex_intro _ picks (conj Hh Hname)))))
              (Hd [])).
Defined.

Definition test_size (_ : string) : Z * Z := (2, 1024).
Definition test_capacity : Capacity := mkCapacity 12 10 32000 30000 1.

Lemma test_labelled : labelled test_host test_size (listed "old").
Proof. intros id h _. split_and!; by vm_compute. Qed.

Lemma test_probe :
  docker_Capacity test_host [] = (Ok test_capacity, (docker_Capacity test_host []).2).
Proof. vm_compute. reflexivity. Qed.

Lemma Capacity_correct_witness :
  TotalCPU test_capacity = 12
  /\ FreeCPU test_capacity = Z.max 0 (12 - total_size test_size fst (listed "old"))
  /\ FreeCPU test_capacity <= TotalCPU test_capacity.
Proof.
  destruct (Capacity_correct test_host test_size [] test_capacity (docker_Capacity test_host []).2
              "old" test_probe (fun _ => eq_refl) test_labelled ltac:(vm_compute; split; discriminate)
              ltac:(vm_compute; discriminate) ltac:(vm_compute; discriminate)) as (H1 & H2 & H3 & _).
  exact (conj H1 (conj H2 H3)).
Defined.
