(* ===== verification/Containers.v ===== *)
(** * What a worker asks of docker, and on whose behalf

    An effect discipline for the Docker backend: [emits P m] says that every
    call the operation [m] makes satisfies [P], whatever the host answers.
    Only [Create] starts a container, and with the command of its
    specification ([job_command]); through the agent's API that takes a POST
    whose body decodes to that specification. *)

From S2P Require Import Prelude GoTime GoStrings GoConv GoDate GoUtf8 GoJson Model GoUrl Http Policy Jobs Wire WireOk Server Manager Agent Api AgentService AgentClient Docker.
From stdpp Require Import base list strings gmap.
From Stdlib Require Import ZArith Ascii String Lia.
Open Scope string_scope.
Open Scope list_scope.
Open Scope Z_scope.

(** ** Effects *)

(** [m] adds calls to the log, and only such as satisfy [P]. *)
Definition emits (P : DCall -> Prop) {A} (m : D A) : Prop :=
  forall h, exists k, (m h).2 = k ++ h /\ Forall P k.

Section rules.
Context (P : DCall -> Prop).

Lemma emits_ret {A} (a : A) : emits P (mret a).
Proof. intros h. by exists []. Qed.

Lemma emits_bind {A B} (m : D A) (k : A -> D B) :
  emits P m -> (forall a, emits P (k a)) -> emits P (m ≫= k).
Proof.
  intros Hm Hk h. unfold mbind, D_bind. destruct (Hm h) as (l & E & Hl).
  destruct (m h) as [a h1]. cbn in E. subst h1. destruct (Hk a (l ++ h)) as (l' & E' & Hl').
  exists (l' ++ l). rewrite E', <- app_assoc. split; [done|]. by apply Forall_app.
Qed.

Lemma emits_dcall {A} (answer : DHistory -> A) ev : (forall a, P (ev a)) -> emits P (dcall answer ev).
Proof. intros He h. exists [ev (answer h)]. cbn. split; [done|]. by constructor. Qed.

End rules.

Lemma emits_mono (P Q : DCall -> Prop) {A} (m : D A) :
  (forall c, P c -> Q c) -> emits P m -> emits Q m.
Proof.
  intros HPQ Hm h. destruct (Hm h) as (k & E & Hk). exists k. split; [done|].
  by eapply Forall_impl.
Qed.

(** A call that starts no container. *)
Definition calm (c : DCall) : Prop :=
  match c with CRun ("run" :: _) _ _ => False | _ => True end.

Create HintDb emits.
#[export] Hint Resolve emits_ret : emits.
#[export] Hint Extern 1 (emits calm (dcall _ _)) => apply emits_dcall; intros ?; exact I : emits.

(** One step of a program: a bind whose first call is known, a case, the end. *)
Ltac emits_step :=
  lazymatch goal with
  | |- emits _ (match ?x with _ => _ end) => destruct x
  | |- emits _ (_ ≫= _) => apply emits_bind; [solve [eauto with emits]|intros ?; cbv beta iota]
  | |- emits _ (let _ := _ in _) => cbv zeta
  | |- emits _ _ => solve [eauto with emits]
  end.
Ltac emits := repeat emits_step.

Section docker.
Context `{Unicode} (cfg : Config) (host : DockerHost).

(** The command line of [Create]. *)
Definition job_command (spec : JobSpec) (args : list string) : Prop :=
  exists deadline picks envs mounts,
    env_args (shuffle picks (map_to_list (spec_Environment spec))) = Ok envs
    /\ args = run_args cfg spec ("cifleet-" +:+ sanitizeName (spec_ID spec)) deadline ++ envs
              ++ (if String.eqb (spec_RunnerConfig spec) "" then []
                  else ["--env"; "CIFLEET_RUNNER_CONFIG=" +:+ spec_RunnerConfig spec])
              ++ mounts ++ [spec_Image spec] ++ spec_Command spec.

(** What it says of the container. *)
Lemma job_command_says spec args :
  job_command spec args ->
  take 4 args = ["run"; "-d"; "--name"; "cifleet-" +:+ sanitizeName (spec_ID spec)]
  /\ has_flag "--label" "io.cifleet.managed=true" args
  /\ has_flag "--label" ("io.cifleet.repository=" +:+ spec_Repository spec) args
  /\ (forall key value, spec_Environment spec !! key = Some value ->
        has_flag "--env" (key +:+ "=" +:+ value) args)
  /\ exists front, args = front ++ spec_Image spec :: spec_Command spec.
Proof.
  intros (deadline & picks & envs & mounts & Henv & ->). split_and!.
  - done.
  - apply has_flag_app_l. unfold run_args. apply has_flag_app_l.
    exists ["run"; "-d"; "--name"; "cifleet-" +:+ sanitizeName (spec_ID spec)]. by eexists.
  - apply has_flag_app_l. unfold run_args. apply has_flag_app_l.
    by eexists (_ :: _ :: _ :: _ :: _ :: _ :: _ :: _ :: _ :: _ :: []), _.
  - intros key value Hkv. apply has_flag_app_r, has_flag_app_l. eapply env_args_flag; [exact Henv|].
    by apply elem_of_shuffle, elem_of_map_to_list.
  - rewrite !app_assoc, <- (app_assoc _ [spec_Image spec]). by eexists.
Qed.

Lemma emits_docker args : calm (CRun args "" None) -> emits calm (docker host args).
Proof. intros Ha. apply emits_dcall. intros r. by destruct args. Qed.
#[local] Hint Extern 1 (emits calm (docker _ _)) => apply emits_docker; exact I : emits.

Lemma emits_memoryMB : emits calm (memoryMB host).
Proof. unfold memoryMB. emits. Qed.
Lemma emits_managed all : emits calm (managedContainerIDs host all).
Proof. unfold managedContainerIDs. emits. Qed.
#[local] Hint Resolve emits_memoryMB emits_managed : emits.

Lemma emits_reserved ids cpu memory : emits calm (reserved_loop host ids cpu memory).
Proof.
  revert cpu memory. induction ids as [|id ids IH]; intros cpu memory; cbn [reserved_loop]; emits.
Qed.
#[local] Hint Resolve emits_reserved : emits.

Lemma emits_cleanup now ids removed : emits calm (cleanup_loop host now ids removed).
Proof. revert removed. induction ids as [|id ids IH]; intros removed; cbn [cleanup_loop]; emits. Qed.
#[local] Hint Resolve emits_cleanup : emits.

Lemma emits_mount_args repository mounts : emits calm (mount_args cfg host repository mounts).
Proof. induction mounts as [|m mounts IH]; cbn [mount_args]; emits. Qed.

(** Probing, sweeping and destroying start nothing. *)
Lemma Capacity_calm : emits calm (docker_Capacity host).
Proof. unfold docker_Capacity. emits. Qed.
Lemma CleanupExpired_calm now : emits calm (docker_CleanupExpired host now).
Proof. unfold docker_CleanupExpired. emits. Qed.
Lemma Destroy_calm id : emits calm (docker_Destroy host id).
Proof. unfold docker_Destroy. emits. Qed.

(** A call of [Create spec]: calm, or the container of [spec]. *)
Definition creates (spec : JobSpec) (c : DCall) : Prop :=
  calm c \/ exists args out err, c = CRun args out err /\ job_command spec args.

Lemma calm_creates spec {A} (m : D A) : emits calm m -> emits (creates spec) m.
Proof. apply emits_mono. by left. Qed.

Lemma Create_creates spec : emits (creates spec) (docker_Create cfg host spec).
Proof.
  unfold docker_Create. repeat (destruct_match; [apply emits_ret|]).
  apply emits_bind; [apply calm_creates; emits|intros now; cbv zeta].
  apply emits_bind; [apply calm_creates; emits|intros picks].
  destruct (env_args _) as [envs|e] eqn:Eenv; [|apply emits_ret].
  apply emits_bind; [apply calm_creates, emits_mount_args|intros [mounts|e]; [|apply emits_ret]].
  apply emits_bind; [|intros [out [e|]]; apply emits_ret].
  apply emits_dcall. intros r. right. eexists _, _, _. split; [done|].
  by eexists _, picks, envs, mounts.
Qed.

(** A successful [Create] ends with a [docker run] that printed the
    container's identifier. *)
Lemma Create_runs spec inst h h' :
  docker_Create cfg host spec h = (Ok inst, h') ->
  exists args out h0, h' = CRun args out None :: h0 /\ job_command spec args
    /\ inst_ID inst = TrimSpace out.
Proof.
  unfold docker_Create. repeat (destruct_match; [done|]). unfold mbind, D_bind.
  destruct (dcall _ CNow h) as [now h1]. destruct (dcall _ CRangeEnv h1) as [picks h2].
  destruct (env_args _) as [envs|e] eqn:Eenv; [|done].
  destruct (mount_args _ _ _ _ _) as [[mounts|e] h3]; [|done].
  unfold docker, dcall. destruct (dh_Run host h3 _) as [out [e|]]; [done|]. cbn [fst snd].
  intros [= <- <-]. eexists _, out, h3. split_and!; [done| |done].
  by exists (time_Add now (EffectiveTimeout spec (dc_DefaultTimeout cfg))), picks, envs, mounts.
Qed.

(** ** Through the agent's API *)

Section api.
Context `{ErrorText} (s : AgentServer DHistory) (tls : TLS) (goos goarch : string) (now : Time).
Context (has_docker : as_Backend s = Some (docker_backend cfg host)).

(** What a request can make docker do: start the container of the
    specification a POST carries. *)
Definition asked (method text : string) (c : DCall) : Prop :=
  calm c \/ method = "POST" /\ exists spec, decode_job text = Ok spec /\ creates spec c.

Lemma capacity_calm h : exists k, (capacity s tls h).2 = k ++ h /\ Forall calm k.
Proof.
  unfold capacity, guarded. rewrite has_docker. destruct (authorizeController _ _); [by exists []|].
  cbn [Capacity_ docker_backend]. destruct (Capacity_calm h) as (k & E & Hk).
  destruct (docker_Capacity host h) as [[c|e] h']; exists k; by split.
Qed.

Lemma destroyInstance_calm id h :
  exists k, (destroyInstance s tls id h).2 = k ++ h /\ Forall calm k.
Proof.
  unfold destroyInstance, guarded. rewrite has_docker.
  destruct (authorizeController _ _); [by exists []|].
  destruct (String.eqb _ ""); [by exists []|]. cbn [Destroy docker_backend].
  destruct (Destroy_calm (TrimSpace id) h) as (k & E & Hk).
  destruct (docker_Destroy host _ h) as [[e|] h']; exists k; by split.
Qed.

Lemma createInstance_creates decoded h :
  exists k, (createInstance s tls decoded h).2 = k ++ h
    /\ Forall (fun c => calm c \/ exists spec, decoded = Ok spec /\ creates spec c) k.
Proof.
  unfold createInstance, guarded. rewrite has_docker.
  destruct (authorizeController _ _); [by exists []|].
  destruct decoded as [spec|e]; [|by exists []]. cbn [Create docker_backend].
  destruct (Create_creates spec h) as (k & E & Hk).
  assert (Forall (fun c => calm c \/ exists sp, Ok spec = Ok sp /\ creates sp c) k)
    by (eapply Forall_impl; [exact Hk|eauto]).
  destruct (docker_Create cfg host spec h) as [[inst|e] h']; exists k; by split.
Qed.

Lemma agent_handler_asked method path text h ans h' :
  agent_handler s method path text tls goos goarch now h = Some (ans, h') ->
  exists k, h' = k ++ h /\ Forall (asked method text) k.
Proof.
  assert (Hcalm : forall k, Forall calm k -> Forall (asked method text) k)
    by (intros k Hk; eapply Forall_impl; [exact Hk|by left]).
  unfold agent_handler. destruct (route method path) as [r|] eqn:Er; [|done].
  cbn [mbind option_bind]. destruct r as [| | |id]; cbn [serve].
  - intros [= _ <-]. by exists [].
  - destruct (capacity_calm h) as (k & E & Hk). destruct (capacity s tls h) as [resp h1].
    intros [= _ <-]. exists k. eauto.
  - assert (method = "POST") as ->.
    { unfold route in Er. repeat destruct_match_in Er; try done; subst.
      by match goal with E : (_ && _) = true |- _ => apply andb_true_iff in E as [?%String.eqb_eq _] end. }
    destruct (createInstance_creates (decode_job text) h) as (k & E & Hk).
    destruct (createInstance s tls _ h) as [resp h1]. intros [= _ <-]. exists k. split; [done|].
    eapply Forall_impl; [exact Hk|]. intros c [Hc|Hc]; [by left|right]. by split.
  - destruct (destroyInstance_calm id h) as (k & E & Hk).
    destruct (destroyInstance s tls id h) as [resp h1]. intros [= _ <-]. exists k. eauto.
Qed.

(** A DELETE of a job's container by the controller is [docker rm -f] of it. *)
Lemma agent_handler_destroys cns jobID h :
  0 <= jobID -> tls = Some (wanted_identity s :: cns) ->
  exists ans out err,
    agent_handler s "DELETE" ("/v1/instances/" +:+ PathEscape (containerName jobID)) "" tls goos goarch now h
    = Some (ans, CRun (rm_args (containerName jobID)) out err :: h).
Proof.
  intros Hj Htls. unfold agent_handler. rewrite route_destroy by done. cbn [mbind option_bind serve].
  unfold destroyInstance. erewrite guarded_authorised by done. rewrite TrimSpace_containerName by done.
  destruct (String.eqb_spec (containerName jobID) "") as [|_]; [done|]. cbn [Destroy docker_backend].
  destruct (Destroy_named host jobID h Hj) as (out & err & E).
  destruct (docker_Destroy host _ h) as [[e|] h']; cbn in E; subst h'; by eexists _, out, err.
Qed.

(** A POST answered 201 announces an instance that was created from its body. *)
Lemma agent_handler_created path text h ans h' :
  agent_handler s "POST" path text tls goos goarch now h = Some (ans, h') ->
  ans_Status ans = StatusCreated ->
  exists spec inst, decode_job text = Ok spec /\ docker_Create cfg host spec h = (Ok inst, h')
    /\ ans = respond (writeJSON StatusCreated (BInstance inst)).
Proof.
  unfold agent_handler. destruct (route "POST" path) as [r|] eqn:Er; [|done].
  assert (r = RCreate) as ->.
  { unfold route in Er. cbn in Er. by destruct (String.eqb path _); [injection Er as <-|]. }
  cbn [mbind option_bind serve]. unfold createInstance, guarded. rewrite has_docker.
  destruct (authorizeController s tls) as [refusal|] eqn:Ea.
  { intros [= <- _]. unfold authorizeController in Ea. repeat destruct_match_in Ea; try done;
      by injection Ea as <-. }
  destruct (decode_job text) as [spec|e]; [|by intros [= <- _]]. cbn [Create docker_backend].
  destruct (docker_Create cfg host spec h) as [[inst|e] h1] eqn:Ec; [|by intros [= <- _]].
  intros [= <- <-] _. by exists spec, inst.
Qed.
End api.

(** ** Through the agent's service *)

Lemma service_tick_calm scfg client goos goarch t :
  (forall rq h, (hc_Do client rq h).2 = h) ->
  emits calm (fun h => (tt, service_tick scfg (docker_backend cfg host) client goos goarch h t)).
Proof.
  intros Hc h. cbn [snd]. destruct t as [|now]; cbn [service_tick].
  - unfold sendHeartbeat, heartbeat_node. cbn [Capacity_ docker_backend].
    destruct (runtimePlatform goos goarch) as [[os arch]|e]; [|by exists []].
    destruct (Capacity_calm h) as (k & E & Hk).
    destruct (docker_Capacity host h) as [[c|e] h1]; cbn in E; subst h1;
      (destruct (marshal_node _) as [payload|]; [|by exists k]);
      (destruct (hc_NewRequest _ _ _); [by exists k|]);
      pose proof (Hc (mkHttpRequest "POST" (svc_ControllerURL scfg +:+ "/v1/nodes/heartbeat") payload)
                    (k ++ h)) as Hkeep;
      destruct (hc_Do client _ _) as [[resp|e2] h2]; cbn in Hkeep; subst h2;
      [destruct (_ || _)| |destruct (_ || _)|]; by exists k.
  - unfold cleanupAt. cbn [CleanupExpired docker_backend]. apply CleanupExpired_calm.
Qed.
End docker.
