(* ===== verification/GithubApp.v ===== *)
(** * The GitHub App client: [internal/githubapp/client.go]

    Authentication as an app (a signed JWT), a cache of installation tokens,
    and the three API calls of the runner manager.  The clock, the RSA
    signature and HTTP are a [GHost], a record of functions of the history of
    calls; requests and responses are bytes, written and read with the JSON of
    [Wire.v].  The PEM and X.509 parsers are parameters.  The token
    mutex is held over the whole of [installationAccessToken], so the calls
    are sequential. *)

From S2P Require Import Prelude GoTime GoStrings GoDate GoUtf8 GoJson Model Http Sha256 GoUrl Policy Jobs Wire WireOk.
From stdpp Require Import base list strings gmap.
From Stdlib Require Import ZArith Ascii String Lia.
Open Scope string_scope.
Open Scope list_scope.
Open Scope Z_scope.

(** ** base64 without padding, URL alphabet *)

Definition b64_char (v : Z) : ascii :=
  of_byte (if v <? 26 then 65 + v else if v <? 52 then 71 + v else if v <? 62 then v - 4
           else if v =? 62 then 45 else 95).

Fixpoint b64_encode (l : list Z) : string :=
  match l with
  | a :: b :: c :: l' =>
      String (b64_char (a / 4)) (String (b64_char ((a mod 4) * 16 + b / 16))
        (String (b64_char ((b mod 16) * 4 + c / 64)) (String (b64_char (c mod 64)) (b64_encode l'))))
  | [a; b] =>
      String (b64_char (a / 4)) (String (b64_char ((a mod 4) * 16 + b / 16))
        (String (b64_char ((b mod 16) * 4)) ""))
  | [a] => String (b64_char (a / 4)) (String (b64_char ((a mod 4) * 16)) "")
  | [] => ""
  end.

Definition EncodeToString (s : string) : string := b64_encode (bytes_of s).

(** ** The client's state and its host *)

Definition defaultAPIVersion : string := "2026-03-10".

Record installationToken : Set := mkToken { tok_Value : string; tok_ExpiresAt : Time }.

Record Client : Set := mkClient {
  gc_issuer : string;
  gc_baseURL : string;
  gc_apiVersion : string;
}.

(** [New]: [has_key] and [url_ok] are the checks on the key and the base URL. *)
Definition NewClient (issuer : string) (has_key : bool) (baseURL apiVersion : string)
  (url_error : string -> option error) : result Client :=
  if String.eqb (TrimSpace issuer) "" then Err (ErrMsg "GitHub App issuer is required")
  else if negb has_key then Err (ErrMsg "GitHub App private key is required")
  else
    let baseURL := if String.eqb baseURL "" then "https://api.github.com" else baseURL in
    match url_error baseURL with
    | Some e => Err (ErrWrap "invalid GitHub API base URL" e)
    | None =>
        Ok (mkClient issuer (TrimRight baseURL "/")
              (if String.eqb apiVersion "" then defaultAPIVersion else apiVersion))
    end.

(** ** The private key *)

Section keys.
(** [encoding/pem] and [crypto/x509]; PKCS#8 also holds keys that are not RSA
    keys. *)
Context {PrivateKey : Type} (pem_Decode : string -> option string).
Context (ParsePKCS1PrivateKey : string -> result PrivateKey).
Context (ParsePKCS8PrivateKey : string -> result (option PrivateKey)).

Definition ParsePrivateKey (data : string) : result PrivateKey :=
  match pem_Decode data with
  | None => Err (ErrMsg "GitHub App private key is not PEM")
  | Some block =>
      match ParsePKCS1PrivateKey block with
      | Ok key => Ok key
      | Err _ =>
          match ParsePKCS8PrivateKey block with
          | Err e => Err (ErrWrap "parse GitHub App private key" e)
          | Ok None => Err (ErrMsg "GitHub App private key is not RSA")
          | Ok (Some key) => Ok key
          end
      end
  end.

(** [file] is what [os.ReadFile(path)] gives. *)
Definition LoadPrivateKey (file : result string) : result PrivateKey :=
  match file with
  | Err e => Err (ErrWrap "read GitHub App private key" e)
  | Ok data => ParsePrivateKey data
  end.
End keys.

(** ** The JSON of the API *)

Section github_json.
Context `{Unicode}.

(** [struct{}{}], and the body of a JIT configuration request. *)
Definition empty_body : string := print compact 0 (JObj []).

Definition jit_body (name : string) (runnerGroupID : Z) (labels : list string)
  (work_folder : string) : string :=
  print compact 0 (JObj
    (mem "name" (enc_string name) ++ mem "runner_group_id" (enc_int runnerGroupID)
     ++ mem "labels" (enc_strings labels)
     ++ mem_unless (String.eqb work_folder "") "work_folder" (enc_string work_folder))).

Definition Token_fields : list Field :=
  [("token", at_ dec_string fst (fun v r => (v, r.2)));
   ("expires_at", at_ dec_time snd (fun v r => (r.1, v)))].

Definition RepositoryRef_fields : list Field :=
  [("full_name", at_ dec_string ref_FullName (fun v r => mkRepositoryRef v (ref_Private r)));
   ("private", at_ dec_bool ref_Private (fun v r => mkRepositoryRef (ref_FullName r) v))].

Definition zeroRef : RepositoryRef := mkRepositoryRef "" false.

(** A pointer: [null] makes it nil, an object is decoded into what it points
    to, or into a new value. *)
Definition dec_pointer {A} (dec : A -> json -> option A) (zero : A) (cur : option A) (j : json)
  : option (option A) :=
  match j with JNull => Some None | _ => Some <$> dec (default zero cur) j end.

Definition WorkflowRun_fields : list Field :=
  [("id", at_ dec_int run_ID (fun v r =>
      mkWorkflowRun v (run_Event r) (run_Repository r) (run_HeadRepository r)));
   ("event", at_ dec_string run_Event (fun v r =>
      mkWorkflowRun (run_ID r) v (run_Repository r) (run_HeadRepository r)));
   ("repository", at_ (dec_struct RepositoryRef_fields false) run_Repository (fun v r =>
      mkWorkflowRun (run_ID r) (run_Event r) v (run_HeadRepository r)));
   ("head_repository", at_ (dec_pointer (dec_struct RepositoryRef_fields false) zeroRef)
      run_HeadRepository (fun v r =>
      mkWorkflowRun (run_ID r) (run_Event r) (run_Repository r) v))].

Definition zeroRun : WorkflowRun := mkWorkflowRun 0 "" zeroRef None.

(** The runner's id and the encoded configuration. *)
Definition Runner_fields : list Field := [("id", at_ dec_int fst (fun v (r : Z * string) => (v, r.2)))].
Definition JIT_fields : list Field :=
  [("runner", dec_struct Runner_fields false);
   ("encoded_jit_config", at_ dec_string snd (fun v (r : Z * string) => (r.1, v)))].

Definition decode_token (text : string) : option (string * Time) :=
  parse_first text ≫= dec_struct Token_fields false ("", zeroTime).
Definition decode_run (text : string) : option WorkflowRun :=
  parse_first text ≫= dec_struct WorkflowRun_fields false zeroRun.
Definition decode_jit (text : string) : option (Z * string) :=
  parse_first text ≫= dec_struct JIT_fields false (0, "").
End github_json.

(** ** Calls *)

(** [gq_Body]: [None] without a body. *)
Record GRequest : Type := mkGRequest {
  gq_Method : string;
  gq_URL : string;
  gq_Version : string;
  gq_Bearer : string;
  gq_Body : option string;
}.

Inductive GCall : Type :=
| GNow (t : Time)
| GSign (digest : string) (res : result string)
| GDo (rq : GRequest) (res : result HttpAnswer).

Abbreviation GHistory := (list GCall).

Record GHost : Type := mkGHost {
  gh_now : GHistory -> Time;
  gh_Sign : GHistory -> string -> result string;       (** [rsa.SignPKCS1v15] *)
  gh_NewRequest : string -> string -> option error;
  gh_Do : GHistory -> GRequest -> result HttpAnswer;
}.

Record GState : Type := mkGState {
  tokens : gmap Z installationToken;
  ghist : GHistory;
}.

Definition G (A : Type) : Type := GState -> A * GState.

#[export] Instance G_ret : MRet G := fun A a st => (a, st).
#[export] Instance G_bind : MBind G := fun A B k m st => let '(a, st') := m st in k a st'.

Definition gcall {A} (answer : GHistory -> A) (ev : A -> GCall) : G A :=
  fun st => let a := answer (ghist st) in (a, mkGState (tokens st) (ev a :: ghist st)).

Definition get_tokens : G (gmap Z installationToken) := fun st => (tokens st, st).
Definition put_token (id : Z) (t : installationToken) : G unit :=
  fun st => (tt, mkGState (<[id := t]> (tokens st)) (ghist st)).

Section client.
Context `{Unicode} (c : Client) (host : GHost).

(** [encoding/json] writes the keys of a map in order. *)
Definition jwt_header : string :=
  print compact 0 (JObj (mem "alg" (enc_string "RS256") ++ mem "typ" (enc_string "JWT"))).

Definition jwt_payload (now : Time) : string :=
  print compact 0 (JObj
    (mem "exp" (enc_int (time_Unix (time_Add now (9 * Minute))))
     ++ mem "iat" (enc_int (time_Unix (time_Add now (- (60 * Second)))))
     ++ mem "iss" (enc_string (gc_issuer c)))).

Definition jwt_unsigned (now : Time) : string :=
  EncodeToString jwt_header +:+ "." +:+ EncodeToString (jwt_payload now).

Definition jwt (now : Time) : G (result string) :=
  let unsigned := jwt_unsigned now in
  sig ← gcall (fun h => gh_Sign host h (Sum256 unsigned)) (GSign (Sum256 unsigned));
  match sig with
  | Err e => mret (Err (ErrWrap "sign GitHub App JWT" e))
  | Ok signature => mret (Ok (unsigned +:+ "." +:+ EncodeToString signature))
  end.

(** [doJSON] with [out] of type [A]: [zero] is left in [out] on 204. *)
Definition doJSON {A} (zero : A) (decode : string -> option A) (method path bearer : string)
  (body : option string) : G (result A) :=
  let url := gc_baseURL c +:+ path in
  match gh_NewRequest host method url with
  | Some e => mret (Err e)
  | None =>
      let rq := mkGRequest method url (gc_apiVersion c) bearer body in
      res ← gcall (fun h => gh_Do host h rq) (GDo rq);
      match res with
      | Err e => mret (Err (ErrWrap ("GitHub API " +:+ method +:+ " " +:+ path) e))
      | Ok resp =>
          if (ans_Status resp <? 200) || (300 <=? ans_Status resp)
          then mret (Err (ErrFmt "GitHub API %s %s returned %d: %s"
                       [method; path; FormatInt (ans_Status resp); TrimSpace (stake 4096 (ans_Text resp))]))
          else if ans_Status resp =? 204 then mret (Ok zero)
          else match decode (ans_Text resp) with
               | None => mret (Err (ErrWrap "decode GitHub API response" (ErrMsg "json: invalid response")))
               | Some out => mret (Ok out)
               end
      end
  end.

Definition token_path (installationID : Z) : string :=
  "/app/installations/" +:+ FormatInt installationID +:+ "/access_tokens".

(** The refresh, after the cache was found wanting. *)
Definition fetch_token (installationID : Z) (now : Time) : G (result string) :=
  signed ← jwt now;
  match signed with
  | Err e => mret (Err e)
  | Ok bearer =>
      res ← doJSON ("", zeroTime) decode_token "POST" (token_path installationID) bearer
              (Some empty_body);
      match res with
      | Err e => mret (Err e)
      | Ok (token, expires) =>
          if String.eqb token "" || time_IsZero expires
          then mret (Err (ErrMsg "GitHub returned an incomplete installation token"))
          else put_token installationID (mkToken token expires);; mret (Ok token)
      end
  end.

Definition installationAccessToken (installationID : Z) : G (result string) :=
  if installationID <=? 0 then mret (Err (ErrMsg "GitHub App installation id is required"))
  else
    now ← gcall (gh_now host) GNow;
    toks ← get_tokens;
    match toks !! installationID with
    | Some cached =>
        if negb (String.eqb (tok_Value cached) "")
           && time_After (tok_ExpiresAt cached) (time_Add now (5 * Minute))
        then mret (Ok (tok_Value cached))
        else fetch_token installationID now
    | None => fetch_token installationID now
    end.

Definition repo_path (owner repo rest : string) : string :=
  "/repos/" +:+ PathEscape owner +:+ "/" +:+ PathEscape repo +:+ "/actions/" +:+ rest.

Definition GetWorkflowRun (installationID : Z) (owner repo : string) (runID : Z)
  : G (result WorkflowRun) :=
  token ← installationAccessToken installationID;
  match token with
  | Err e => mret (Err e)
  | Ok token =>
      doJSON zeroRun decode_run "GET" (repo_path owner repo ("runs/" +:+ FormatInt runID)) token None
  end.

Definition GenerateJITConfig (installationID : Z) (owner repo runnerName : string)
  (runnerGroupID : Z) (labels : list string) : G (result JITConfig) :=
  if runnerGroupID <=? 0 then mret (Err (ErrMsg "runner group id must be positive"))
  else if String.eqb (TrimSpace runnerName) "" then mret (Err (ErrMsg "runner name is required"))
  else match labels with
  | [] => mret (Err (ErrMsg "at least one runner label is required"))
  | _ =>
      token ← installationAccessToken installationID;
      match token with
      | Err e => mret (Err e)
      | Ok token =>
          res ← doJSON (0, "") decode_jit "POST" (repo_path owner repo "runners/generate-jitconfig")
                  token (Some (jit_body runnerName runnerGroupID labels "_work"));
          match res with
          | Err e => mret (Err e)
          | Ok (id, config) =>
              if (id =? 0) || String.eqb config ""
              then mret (Err (ErrMsg "GitHub returned an incomplete JIT runner configuration"))
              else mret (Ok (mkJITConfig id config))
          end
      end
  end.

Definition DeleteRunner (installationID : Z) (owner repo : string) (runnerID : Z)
  : G (option error) :=
  if runnerID <=? 0 then mret None
  else
    token ← installationAccessToken installationID;
    match token with
    | Err e => mret (Some e)
    | Ok token =>
        res ← doJSON tt (fun _ => Some tt) "DELETE"
                (repo_path owner repo ("runners/" +:+ FormatInt runnerID)) token None;
        mret (match res with Ok _ => None | Err e => Some e end)
    end.
End client.

(** The header of every JWT is the well-known constant. *)
Example jwt_header_encoded : EncodeToString jwt_header = "eyJhbGciOiJSUzI1NiIsInR5cCI6IkpXVCJ9".
Proof. vm_compute. reflexivity. Qed.

(** ** Correctness *)

Section correctness.
Context `{Unicode} (c : Client) (host : GHost).

(** [doJSON] keeps the cache, makes at most one request, and succeeds only on a
    2xx response. *)
Lemma doJSON_cases {A} (zero : A) decode method path bearer body st :
  let '(res, st') := doJSON c host zero decode method path bearer body st in
  tokens st' = tokens st
  /\ forall a, res = Ok a -> exists resp,
       ghist st' = GDo (mkGRequest method (gc_baseURL c +:+ path) (gc_apiVersion c) bearer body)
                     (Ok resp) :: ghist st
       /\ 200 <= ans_Status resp < 300
       /\ (ans_Status resp = 204 /\ a = zero \/ decode (ans_Text resp) = Some a).
Proof.
  unfold doJSON, mbind, G_bind, mret, G_ret, gcall. cbv beta iota zeta.
  destruct (gh_NewRequest host method _); [by split|].
  destruct (gh_Do host _ _) as [resp|e]; [|by split].
  destruct (_ || _) eqn:Est; [by split|].
  assert (200 <= ans_Status resp < 300) by lia.
  destruct (Z.eqb_spec (ans_Status resp) 204) as [E|].
  - split; [done|]. intros a [= <-]. exists resp. auto.
  - destruct (decode (ans_Text resp)) as [out|] eqn:Ed; (split; [done|]); [|done].
    intros a [= <-]. exists resp. auto.
Qed.

Lemma fetch_token_cases id now st :
  let '(res, st') := fetch_token c host id now st in
  match res with
  | Err _ => tokens st' = tokens st
  | Ok tok => exists expires sig resp,
      tokens st' = <[id := mkToken tok expires]> (tokens st) /\ tok <> "" /\ expires <> zeroTime
      /\ ghist st' =
           GDo (mkGRequest "POST" (gc_baseURL c +:+ token_path id) (gc_apiVersion c)
                  (jwt_unsigned c now +:+ "." +:+ EncodeToString sig) (Some empty_body)) (Ok resp)
           :: GSign (Sum256 (jwt_unsigned c now)) (Ok sig) :: ghist st
      /\ 200 <= ans_Status resp < 300 /\ decode_token (ans_Text resp) = Some (tok, expires)
  end.
Proof.
  unfold fetch_token, jwt, mbind, G_bind, mret, G_ret, gcall. cbv beta iota zeta.
  destruct (gh_Sign host _ _) as [sig|e]; [|done]. cbn [ghist tokens].
  set (st1 := mkGState _ _).
  pose proof (doJSON_cases ("", zeroTime) decode_token "POST" (token_path id)
                (jwt_unsigned c now +:+ "." +:+ EncodeToString sig) (Some empty_body) st1) as Hdo.
  destruct (doJSON c host _ _ _ _ _ _ st1) as [[[tok expires]|e] st2]; [|by destruct Hdo as [-> _]].
  destruct Hdo as [Ht Hok]. destruct (Hok _ eq_refl) as (resp & Hh & Hs & Hdec).
  destruct (String.eqb_spec tok "") as [->|Hne]; cbn [orb]; [done|].
  unfold time_IsZero. destruct (Z.eqb_spec expires zeroTime) as [->|Hexp]; [done|].
  cbn. exists expires, sig, resp. rewrite Ht, Hh. split_and!; try done; try lia.
  destruct Hdec as [[_ [= -> ->]]|?]; [done|done].
Qed.

(** C38. Installation tokens are fresh and never mixed up: a token returned for
    an installation is non-empty and is the one cached for it; it either was
    cached with more than five minutes to live (no request is made) or comes
    from one successful token request for that installation, authenticated by
    a JWT signed over claims valid from a minute ago for nine minutes ahead; a
    failure leaves the cache as it was, and no other installation's entry ever
    changes. *)
Theorem installationAccessToken_correct id st :
  let '(res, st') := installationAccessToken c host id st in
  (forall i, i <> id -> tokens st' !! i = tokens st !! i)
  /\ match res with
     | Err _ => tokens st' = tokens st
     | Ok tok => 0 < id /\ tok <> "" /\ exists now expires,
         tokens st' !! id = Some (mkToken tok expires)
         /\ (tokens st' = tokens st /\ ghist st' = GNow now :: ghist st
              /\ time_Add now (5 * Minute) < expires
             \/ exists sig resp,
               ghist st' =
                 GDo (mkGRequest "POST" (gc_baseURL c +:+ token_path id) (gc_apiVersion c)
                        (jwt_unsigned c now +:+ "." +:+ EncodeToString sig) (Some empty_body))
                   (Ok resp)
                 :: GSign (Sum256 (jwt_unsigned c now)) (Ok sig)
                 :: GNow now :: ghist st
               /\ 200 <= ans_Status resp < 300 /\ decode_token (ans_Text resp) = Some (tok, expires))
     end.
Proof.
  unfold installationAccessToken. destruct (Z.leb_spec id 0); [done|].
  unfold mbind, G_bind, gcall, get_tokens. cbv beta iota zeta. cbn [tokens ghist].
  set (now := gh_now host (ghist st)). set (st1 := mkGState (tokens st) (GNow now :: ghist st)).
  assert (Hfetch : let '(res, st') := fetch_token c host id now st1 in
    (forall i, i <> id -> tokens st' !! i = tokens st !! i)
    /\ match res with
       | Err _ => tokens st' = tokens st
       | Ok tok => 0 < id /\ tok <> "" /\ exists now' expires,
           tokens st' !! id = Some (mkToken tok expires)
           /\ (tokens st' = tokens st /\ ghist st' = GNow now' :: ghist st
                /\ time_Add now' (5 * Minute) < expires
               \/ exists sig resp,
                 ghist st' =
                   GDo (mkGRequest "POST" (gc_baseURL c +:+ token_path id) (gc_apiVersion c)
                          (jwt_unsigned c now' +:+ "." +:+ EncodeToString sig) (Some empty_body))
                     (Ok resp)
                   :: GSign (Sum256 (jwt_unsigned c now')) (Ok sig)
                   :: GNow now' :: ghist st
                 /\ 200 <= ans_Status resp < 300 /\ decode_token (ans_Text resp) = Some (tok, expires))
       end).
  { pose proof (fetch_token_cases id now st1) as Hf.
    destruct (fetch_token c host id now st1) as [[tok|e] st2]; [|by rewrite Hf].
    destruct Hf as (expires & sig & resp & Ht & Hne & _ & Hh & Hs & Hdec). rewrite Ht. split.
    - intros i Hi. by rewrite lookup_insert_ne.
    - split_and!; [done..|]. exists now, expires. rewrite lookup_insert_eq. split; [done|].
      right. exists sig, resp. split_and!; try done; lia. }
  destruct (tokens st !! id) as [cached|] eqn:Ec; [|exact Hfetch].
  destruct (String.eqb_spec (tok_Value cached) "") as [|Hne]; cbn [negb andb]; [exact Hfetch|].
  unfold time_After. destruct (Z.ltb_spec (time_Add now (5 * Minute)) (tok_ExpiresAt cached));
    [|exact Hfetch].
  cbn. split; [done|]. split_and!; [done..|]. exists now, (tok_ExpiresAt cached).
  split; [by destruct cached|]. by left.
Qed.

Lemma decode_jit_ok text r : decode_jit text = Some r -> in_int64 r.1 /\ utf8 r.2 = true.
Proof.
  unfold decode_jit. destruct (parse_first text) as [j|]; [|done]. cbn [mbind option_bind].
  apply (dec_members_keeps (fun r : Z * string => in_int64 r.1 /\ utf8 r.2 = true)); [|done].
  unfold JIT_fields. forall_list; cbn [snd].
  - apply dec_members_keeps. unfold Runner_fields. forall_list; cbn [snd].
    apply keeps_at with in_int64; [by intros ? []|intros ? ? ?; apply dec_int_range|by intros ? ? []].
  - apply keeps_at with (fun s => utf8 s = true);
      [by intros ? []|intros ? ? ?; apply dec_string_utf8|by intros ? ? []].
Qed.

(** The runner's identifier fits the manager's records, and its configuration
    can be sent on. *)
Lemma GenerateJITConfig_ok id owner repo name group labels st jit st' :
  GenerateJITConfig c host id owner repo name group labels st = (Ok jit, st') ->
  in_int64 (jit_RunnerID jit) /\ utf8 (jit_EncodedConfig jit) = true.
Proof.
  unfold GenerateJITConfig. destruct (group <=? 0); [done|].
  destruct (String.eqb (TrimSpace name) ""); [done|].
  destruct labels as [|l labels]; [done|]. unfold mbind, G_bind, mret, G_ret.
  destruct (installationAccessToken c host id st) as [[tok|e] st1]; [|done].
  pose proof (doJSON_cases (0, "") decode_jit "POST" (repo_path owner repo "runners/generate-jitconfig")
                tok (Some (jit_body name group (l :: labels) "_work")) st1) as Hdo.
  destruct (doJSON c host _ _ _ _ _ _ st1) as [[[rid config]|e] st2]; [|done].
  destruct Hdo as [_ Hok]. destruct (Hok _ eq_refl) as (resp & _ & _ & Hdec).
  destruct (_ || _) eqn:E; [done|]. intros [= <- _]. cbn.
  destruct Hdec as [[_ [= -> ->]]|Hdec]; [done|]. by apply decode_jit_ok in Hdec.
Qed.

(** A JIT configuration is complete and was asked for with the right
    token: [GenerateJITConfig] returns one only for a positive runner group, a
    name and at least one label, after exactly one request on top of the token
    lookup, to the repository's own endpoint with the token of that
    installation; the runner id is not zero and the configuration not empty. *)
Theorem GenerateJITConfig_correct id owner repo name group labels st :
  let '(res, st') := GenerateJITConfig c host id owner repo name group labels st in
  match res with
  | Err _ => True
  | Ok jit =>
      0 < group /\ TrimSpace name <> "" /\ labels <> []
      /\ jit_RunnerID jit <> 0 /\ jit_EncodedConfig jit <> ""
      /\ exists tok st1 resp,
           installationAccessToken c host id st = (Ok tok, st1)
           /\ tokens st' = tokens st1
           /\ ghist st' =
                GDo (mkGRequest "POST"
                       (gc_baseURL c +:+ repo_path owner repo "runners/generate-jitconfig")
                       (gc_apiVersion c) tok (Some (jit_body name group labels "_work"))) (Ok resp)
                :: ghist st1
           /\ 200 <= ans_Status resp < 300
           /\ decode_jit (ans_Text resp) = Some (jit_RunnerID jit, jit_EncodedConfig jit)
  end.
Proof.
  unfold GenerateJITConfig. destruct (Z.leb_spec group 0); [done|].
  destruct (String.eqb_spec (TrimSpace name) "") as [|Hname]; [done|].
  destruct labels as [|l labels]; [done|]. unfold mbind, G_bind, mret, G_ret.
  destruct (installationAccessToken c host id st) as [[tok|e] st1] eqn:Et; [|done].
  pose proof (doJSON_cases (0, "") decode_jit "POST" (repo_path owner repo "runners/generate-jitconfig")
                tok (Some (jit_body name group (l :: labels) "_work")) st1) as Hdo.
  destruct (doJSON c host _ _ _ _ _ _ st1) as [[[rid config]|e] st2]; [|done].
  destruct Hdo as [Htok Hok]. destruct (Hok _ eq_refl) as (resp & Hh & Hs & Hdec).
  destruct (Z.eqb_spec rid 0) as [|Hrid]; [done|].
  destruct (String.eqb_spec config "") as [|Hconfig]; [done|]. cbn [orb].
  split_and!; try done. exists tok, st1, resp. split_and!; try done; try lia.
  destruct Hdec as [[_ [= -> ->]]|?]; [done|done].
Qed.
End correctness.
