(* ===== verification/Bounds.v ===== *)
(** * Bounds on what the controller does: calls, and time

    A pass of the main loop ends: [Process] and [reconcile] make a bounded
    number of calls to the outside, in every environment, whatever fails; and
    the time a job gets is the configured one, with no overflow on the way
    from the configuration to the agent's deadline. *)

From S2P Require Import Prelude GoTime GoStrings GoConv GoDate GoUtf8 GoJson Model Http Scheduler Policy Jobs Wire WireOk Server Env Manager Machine Refinement Scenario Agent Api Typing AgentClient.
From stdpp Require Import base list strings gmap.
From Stdlib Require Import ZArith String Lia.
Open Scope string_scope.
Open Scope list_scope.

(** ** Counting calls *)

(** A request to another machine; the other events are local. *)
Definition remote (e : Event) : bool :=
  match e with
  | EGetWorkflowRun _ _ _ _ _ | EGenerateJITConfig _ _ _ _ _ _ _ | EDeleteRunner _ _ _ _ _
  | ECreateInstance _ _ _ | EDestroyInstance _ _ _ => true
  | _ => false
  end.

Fixpoint remotes (h : History) : nat :=
  match h with [] => 0 | e :: h' => (if remote e then 1 else 0) + remotes h' end.

(** [m] makes at most [n] calls, [r] of them remote. *)
Definition within {A} (n r : nat) (m : M A) : Prop :=
  forall st, (List.length (hist (m st).2) <= List.length (hist st) + n)%nat
             /\ (remotes (hist (m st).2) <= remotes (hist st) + r)%nat.

Lemma within_ret {A} n r (a : A) : within n r (mret a).
Proof. intros st. cbn. lia. Qed.

Lemma within_bind {A B} n1 r1 n r (m : M A) (k : A -> M B) :
  within n1 r1 m -> (n1 <= n)%nat -> (r1 <= r)%nat ->
  (forall a, within (n - n1) (r - r1) (k a)) -> within n r (m ≫= k).
Proof.
  intros Hm Hn Hr Hk st. specialize (Hm st). unfold mbind, M_bind.
  destruct (m st) as [a st1]. specialize (Hk a st1). cbn in *. lia.
Qed.

Lemma within_mono {A} n1 r1 n r (m : M A) :
  within n1 r1 m -> (n1 <= n)%nat -> (r1 <= r)%nat -> within n r m.
Proof. intros Hm Hn Hr st. specialize (Hm st). lia. Qed.

Lemma within_local {A} (answer : History -> A) ev :
  (forall a, remote (ev a) = false) -> within 1 0 (call answer ev).
Proof. intros He st. unfold call. cbn. rewrite He. lia. Qed.

Lemma within_call {A} (answer : History -> A) ev : within 1 1 (call answer ev).
Proof. intros st. unfold call. cbn. destruct (remote _); lia. Qed.

Lemma within_get_jobs : within 0 0 get_jobs.
Proof. intros st. cbn. lia. Qed.
Lemma within_put_jobs js : within 0 0 (put_jobs js).
Proof. intros st. cbn. lia. Qed.

Create HintDb within.
#[export] Hint Resolve within_get_jobs within_put_jobs within_call : within.
#[export] Hint Extern 1 (within _ _ (call _ _)) => apply within_local; reflexivity : within.

(** One step of a monadic program: a call with a known bound, a case, the end. *)
Ltac within_step :=
  lazymatch goal with
  | |- within _ _ (mret _) => apply within_ret
  | |- within _ _ (match ?x with _ => _ end) => destruct x
  | |- within _ _ (_ ≫= _) =>
      eapply within_bind; [solve [eauto with within nocore]|lia|lia|intros ?; cbn [Nat.sub]; cbv beta iota]
  | |- within _ _ (let _ := _ in _) => cbv zeta
  | |- within _ _ _ => eapply within_mono; [solve [eauto with within nocore]|lia|lia]
  end.
Ltac within := repeat within_step.

Section manager.
Context `{Unicode} (cfg : RunnerManagerConfig) (env : Env).

Lemma within_Now : within 1 0 (time_Now env).
Proof. by apply within_local. Qed.
Lemma within_nodes : within 1 0 (read_nodes env).
Proof. by apply within_local. Qed.
Lemma within_range : within 1 0 (range_order env).
Proof. by apply within_local. Qed.
Lemma within_MkdirAll p : within 1 0 (os_MkdirAll env p).
Proof. by apply within_local. Qed.
Lemma within_WriteFile p d : within 1 0 (os_WriteFile env p d).
Proof. by apply within_local. Qed.
Lemma within_Rename p q : within 1 0 (os_Rename env p q).
Proof. by apply within_local. Qed.
#[local] Hint Resolve within_Now within_nodes within_range within_MkdirAll within_WriteFile
  within_Rename : within.
#[local] Hint Unfold GetWorkflowRun GenerateJITConfig DeleteRunner Env.CreateInstance
  Env.DestroyInstance : within.

Lemma within_saveLocked : within 3 0 (saveLocked cfg env).
Proof. unfold saveLocked. within. Qed.
#[local] Hint Resolve within_saveLocked : within.

Lemma within_get_job id : within 0 0 (get_job id).
Proof. unfold get_job. within. Qed.
Lemma within_update_job id f : within 3 0 (update_job cfg env id f).
Proof. unfold update_job. within. Qed.
#[local] Hint Resolve within_get_job within_update_job : within.
Lemma within_update_job_now id f : within 4 0 (update_job_now cfg env id f).
Proof. unfold update_job_now. within. Qed.
#[local] Hint Resolve within_update_job_now : within.

Lemma within_reservations : within 1 0 (reservations env).
Proof. unfold reservations. within. Qed.
#[local] Hint Resolve within_reservations : within.
Lemma within_place req : within 4 0 (place env req).
Proof. unfold place. within. Qed.
Lemma within_rawNode id : within 1 0 (rawNode env id).
Proof. unfold rawNode. within. Qed.
Lemma within_nodeFromRunnerName name id : within 2 0 (nodeFromRunnerName env name id).
Proof. unfold nodeFromRunnerName. within. Qed.
#[local] Hint Resolve within_place within_rawNode within_nodeFromRunnerName : within.

Lemma within_launch id n r jit : within 7 3 (launch cfg env id n r jit).
Proof. unfold launch. within. Qed.
#[local] Hint Resolve within_launch : within.
Lemma within_start_runner id n : within 12 4 (start_runner cfg env id n).
Proof. unfold start_runner. within. Qed.
#[local] Hint Resolve within_start_runner : within.
Lemma within_tryProvision id : within 18 5 (tryProvision cfg env id).
Proof. unfold tryProvision. within. Qed.
#[local] Hint Resolve within_tryProvision : within.

Lemma within_destroy_recorded r id : within 2 1 (destroy_recorded env r id).
Proof. unfold destroy_recorded. within. Qed.
Lemma within_delete_recorded r : within 1 1 (delete_recorded env r).
Proof. unfold delete_recorded. within. Qed.
#[local] Hint Resolve within_destroy_recorded within_delete_recorded : within.
Lemma within_handleCompleted ev : within 7 2 (handleCompleted cfg env ev).
Proof.
  unfold handleCompleted. destruct (_ <=? 0)%Z; [within|].
  eapply within_bind; [apply within_get_job|lia|lia|]. intros [record|]; [within|].
  eapply within_bind; [apply within_nodeFromRunnerName|lia|lia|]. intros node.
  apply (within_bind 1 1); [destruct node; within|lia|lia|]. intros _. within.
Qed.
Lemma within_cleanupRecord r : within 7 2 (cleanupRecord cfg env r).
Proof. unfold cleanupRecord. within. Qed.
#[local] Hint Resolve within_handleCompleted within_cleanupRecord : within.
Lemma within_recoverProvisioning r : within 25 7 (recoverProvisioning cfg env r).
Proof.
  unfold recoverProvisioning. cbv zeta. apply (within_bind 2 1); [within|lia|lia|]. intros _. within.
Qed.
#[local] Hint Resolve within_recoverProvisioning : within.
Lemma within_reconcile_job now id : within 25 7 (reconcile_job cfg env now id).
Proof. unfold reconcile_job. within. Qed.
#[local] Hint Resolve within_reconcile_job : within.

Lemma within_reconcile_jobs now ids :
  within (25 * List.length ids) (7 * List.length ids) (reconcile_jobs cfg env now ids).
Proof.
  induction ids as [|id ids IH]; [apply within_ret|]. cbn [reconcile_jobs].
  eapply within_bind; [apply within_reconcile_job|cbn;lia..|]. intros _.
  eapply within_mono; [exact IH|cbn;lia..].
Qed.

(** The first phase makes four calls and visits no more than the jobs there are. *)
Lemma within_prune now : within 4 0 (prune cfg env now).
Proof.
  unfold prune. within. apply (within_bind 3 0); [destruct (filter _ _); within|lia..|]. intros _. within.
Qed.

Lemma prune_visits now st :
  (List.length (prune cfg env now st).1 <= size (jobs st))%nat.
Proof.
  unfold prune, mbind, M_bind, range_order, call, get_jobs, put_jobs, mret, M_ret. cbn [jobs hist].
  match goal with |- context [let '(_, st') := ?saved in _] => destruct saved as [e st1] end.
  cbn [fst].
  rewrite length_fmap. etransitivity; [apply length_filter|].
  rewrite (Permutation_length (shuffle_perm _ _)). by rewrite length_map_to_list.
Qed.

Lemma within_Process ev : within 22 5 (Process cfg env ev).
Proof.
  unfold Process. destruct (String.eqb _ "queued"); [|destruct (String.eqb _ "completed")]; [|within..].
  unfold handleQueued. within.
Qed.

(** C19. The main loop always comes back: in every environment, whatever
    fails, one event is handled with at most 22 calls to the outside, five of
    them requests to GitHub or an agent, and one reconciliation of [n] jobs
    ends after at most [4 + 25 n] calls, [7 n] of them such requests. *)
Theorem main_loop_bounded ev now st :
  (let h := hist (Process cfg env ev st).2 in
   List.length h <= List.length (hist st) + 22 /\ remotes h <= remotes (hist st) + 5)
  /\ (let h := hist (reconcile cfg env now st).2 in
      List.length h <= List.length (hist st) + (4 + 25 * size (jobs st))
      /\ remotes h <= remotes (hist st) + 7 * size (jobs st)).
Proof.
  split; [exact (within_Process ev st)|]. unfold reconcile, mbind, M_bind.
  pose proof (within_prune now st) as Hp. pose proof (prune_visits now st) as Hn.
  destruct (prune cfg env now st) as [ids st1]. pose proof (within_reconcile_jobs now ids st1) as Hr.
  cbn [fst snd] in *. nia.
Qed.
End manager.

(** ** Time *)

Section timeouts.
Context `{Unicode}.

(** What the manager asks an agent for survives the wire. *)
Lemma job_spec_sendable cfg id r jit :
  storable r -> utf8 (RunnerImage cfg) = true -> utf8 (jit_EncodedConfig jit) = true ->
  in_int64 (RunnerTimeout cfg) -> sendable_spec (job_spec cfg id r jit).
Proof.
  intros [Hi Hs _] Himg Hjit Ht. unfold utf8s in Hs.
  rewrite !Forall_cons in Hi. rewrite !Forall_cons in Hs. destruct_and? Hi. destruct_and? Hs.
  split; unfold utf8s; cbn; [forall_list|forall_list|forall_list|..|constructor]; try done.
  - unfold duration_seconds, in_int64, int64_min, int64_max in *. unfold Second.
    pose proof (Z.quot_rem' (RunnerTimeout cfg) (10 ^ 9)).
    pose proof (Z.rem_bound_abs (RunnerTimeout cfg) (10 ^ 9)). lia.
  - apply utf8_ascii. unfold containerJobID. by rewrite sforall_app, FormatInt_ascii.
  - do 2 (apply map_Forall_insert_2; [done|]). apply map_Forall_empty.
Qed.

(** C20. The time a job gets is the configured one: the specification the
    manager sends for a job is decoded by the agent, from a body within the
    limit, as a specification whose effective timeout is the manager's
    [RunnerTimeout] in whole seconds, whatever the agent's own default, with
    no overflow in the conversions to seconds and back; only a timeout below
    one second is lost, and gives the agent's default. *)
Theorem timeout_arrives conf id r jit fallback :
  let cfg := with_defaults conf in
  in_int64 (RunnerTimeout conf) ->
  storable r -> utf8 (RunnerImage cfg) = true -> utf8 (jit_EncodedConfig jit) = true ->
  (slen (marshal_spec (job_spec cfg id r jit)) <= maxBody)%Z ->
  exists spec, decode_job (marshal_spec (job_spec cfg id r jit)) = Ok spec
    /\ EffectiveTimeout spec fallback
       = (if RunnerTimeout cfg <? Second then fallback
          else RunnerTimeout cfg - RunnerTimeout cfg mod Second)%Z.
Proof.
  intros cfg Ht Hr Himg Hjit Hlen.
  assert (Hpos : (0 < RunnerTimeout cfg)%Z /\ in_int64 (RunnerTimeout cfg)).
  { unfold cfg. cbn. destruct (Z.leb_spec (RunnerTimeout conf) 0); [|done]. by split. }
  exists (transmitted (job_spec cfg id r jit)). split.
  - unfold decode_job. rewrite stake_all by done.
    rewrite decode_marshal_spec by (apply job_spec_sendable; tauto). done.
  - unfold EffectiveTimeout, transmitted, job_spec, duration_seconds.
    cbn [spec_Timeout spec_TimeoutSeconds]. cbn [Z.ltb Z.compare].
    rewrite Z.quot_div_nonneg by (unfold Second; lia).
    pose proof (Z.div_mod (RunnerTimeout cfg) Second) as Hd.
    pose proof (Z.mod_pos_bound (RunnerTimeout cfg) Second) as Hm.
    destruct Hpos as [Hpos Hrange]. unfold in_int64, int64_min, int64_max in Hrange.
    unfold Second in *.
    destruct (Z.ltb_spec (RunnerTimeout cfg) (10 ^ 9)) as [Hlt|Hge].
    + by rewrite Z.div_small by lia.
    + assert (0 < RunnerTimeout cfg / 10 ^ 9)%Z by (apply Z.div_str_pos; lia).
      destruct (Z.ltb_spec 0 (RunnerTimeout cfg / 10 ^ 9)); [|lia].
      rewrite wrap64_id; [lia|]. unfold in_int64, int64_min, int64_max. lia.
Qed.
End timeouts.

(** ** Witnesses *)

Definition hour_conf : RunnerManagerConfig :=
  mkConfig "" 0 "" 2 1024 (Hour + 1)%Z "/var/lib/cifleet/state.json" 0%Z 0%Z 0.

Lemma pending_storable : storable pending_job.
Proof. split; unfold utf8s; forall_list; done. Qed.

Lemma hour_body_short :
  (slen (marshal_spec (job_spec (with_defaults hour_conf) 12 pending_job (mkJITConfig 77 "jit")))
   <= maxBody)%Z.
Proof. vm_compute. discriminate. Qed.

Lemma timeout_arrives_witness :
  exists spec,
    decode_job (marshal_spec (job_spec (with_defaults hour_conf) 12 pending_job (mkJITConfig 77 "jit")))
    = Ok spec /\ EffectiveTimeout spec Minute = Hour.
Proof.
  exact (timeout_arrives hour_conf 12 pending_job (mkJITConfig 77 "jit") Minute
           ltac:(done) pending_storable eq_refl eq_refl hour_body_short).
Defined.
