(* ===== verification/Commands.v ===== *)
(** * The two commands: [cmd/agent/main.go] and [cmd/controller/main.go]

    From the environment and the command line to a configured process: the
    settings with their fallbacks, the TLS material, the secrets, the state
    file, and what [main] builds of them.  A start that fails ends in
    [Exited] with the line that is logged; what [Started] carries is what the
    listeners serve.  The theorems tie the start to what the process then
    lets happen: over TLS only the controller's certificate reaches a
    backend, a node's entry changes only under its own certificate, and a
    started controller meets the assumptions of the manager's theorems. *)

From S2P Require Import Prelude GoTime GoStrings Sha256 GoConv GoFlag GoDate GoUtf8 GoJson GoUrl Model Http Scheduler Policy Jobs Wire WireOk Server Env Manager Machine Refinement Scenario System Webhook Agent Api AgentService AgentClient Docker GithubApp Tls.
From stdpp Require Import base list strings gmap.
From Stdlib Require Import ZArith Ascii String Lia.
Open Scope string_scope.
Open Scope list_scope.
Open Scope Z_scope.

(** How [main] begins. *)
Inductive Start (A : Type) : Type :=
| Exited (msg : string) (err : option error)
| Started (process : A).
Arguments Exited {A}.
Arguments Started {A}.

(** ** Settings from the environment *)

Section settings.
(** [os.Getenv]: the empty string when a variable is not set. *)
Context (Getenv : string -> string).

Definition env (key fallback : string) : string :=
  if String.eqb (Getenv key) "" then fallback else Getenv key.

Definition envDuration (key : string) (fallback : Duration) : Duration :=
  if String.eqb (Getenv key) "" then fallback else default fallback (ParseDuration (Getenv key)).

Definition envInt (key : string) (fallback : Z) : Z :=
  if String.eqb (Getenv key) "" then fallback else default fallback (Atoi (Getenv key)).

Definition envInt64 (key : string) (fallback : Z) : Z :=
  if String.eqb (Getenv key) "" then fallback else default fallback (ParseInt (Getenv key)).

Definition splitCSV (value : string) : list string :=
  if String.eqb (TrimSpace value) "" then []
  else filter (fun part => part <> "") (map TrimSpace (Split value ","%char)).

(** ** The agent's options *)

Record AgentOptions : Set := mkAgentOptions {
  ao_listen : string;
  ao_nodeID : string;
  ao_endpoint : string;
  ao_controllerURL : string;
  ao_caFile : string;
  ao_certFile : string;
  ao_keyFile : string;
  ao_serverName : string;
  ao_controllerIdentity : string;
  ao_dockerBin : string;
  ao_cacheRoot : string;
  ao_heartbeatInterval : Duration;
  ao_cleanupInterval : Duration;
  ao_jobTimeout : Duration;
  ao_capabilities : string;
  ao_labels : string;
  ao_insecureHTTP : bool;
}.

Definition agent_flags : list (string * FlagKind) :=
  [("listen", FString); ("node-id", FString); ("endpoint", FString); ("controller-url", FString);
   ("ca-file", FString); ("cert-file", FString); ("key-file", FString);
   ("controller-server-name", FString); ("controller-identity", FString); ("docker-bin", FString);
   ("cache-root", FString); ("heartbeat-interval", FDuration); ("cleanup-interval", FDuration);
   ("job-timeout", FDuration); ("capabilities", FString); ("labels", FString);
   ("insecure-http", FBool)].

Definition agent_options (vals : gmap string FlagValue) : AgentOptions :=
  mkAgentOptions
    (string_flag vals "listen" (env "CIFLEET_LISTEN" ":8090"))
    (string_flag vals "node-id" (env "CIFLEET_NODE_ID" "node"))
    (string_flag vals "endpoint" (env "CIFLEET_ENDPOINT" ""))
    (string_flag vals "controller-url" (env "CIFLEET_CONTROLLER_URL" ""))
    (string_flag vals "ca-file" (env "CIFLEET_CA_FILE" "/etc/cifleet/pki/ca.crt"))
    (string_flag vals "cert-file" (env "CIFLEET_CERT_FILE" "/etc/cifleet/pki/agent.crt"))
    (string_flag vals "key-file" (env "CIFLEET_KEY_FILE" "/etc/cifleet/pki/agent.key"))
    (string_flag vals "controller-server-name" (env "CIFLEET_CONTROLLER_SERVER_NAME" ""))
    (string_flag vals "controller-identity" (env "CIFLEET_CONTROLLER_IDENTITY" "controller"))
    (string_flag vals "docker-bin" (env "CIFLEET_DOCKER_BIN" "docker"))
    (string_flag vals "cache-root" (env "CIFLEET_CACHE_ROOT" "/var/lib/cifleet/cache"))
    (duration_flag vals "heartbeat-interval" (envDuration "CIFLEET_HEARTBEAT_INTERVAL" (15 * Second)))
    (duration_flag vals "cleanup-interval" (envDuration "CIFLEET_CLEANUP_INTERVAL" Minute))
    (duration_flag vals "job-timeout" (envDuration "CIFLEET_JOB_TIMEOUT" (2 * Hour)))
    (string_flag vals "capabilities" (env "CIFLEET_CAPABILITIES" "container,docker"))
    (string_flag vals "labels" (env "CIFLEET_LABELS" ""))
    (bool_flag vals "insecure-http" false).

(** ** The controller's options *)

Record ControllerOptions : Set := mkControllerOptions {
  co_listen : string;
  co_caFile : string;
  co_certFile : string;
  co_keyFile : string;
  co_nodeTTL : Duration;
  co_insecureHTTP : bool;
  co_webhookListen : string;
  co_githubIssuer : string;
  co_githubPrivateKey : string;
  co_githubWebhookSecret : string;
  co_githubAPIURL : string;
  co_githubAPIVersion : string;
  co_markerLabel : string;
  co_runnerGroupID : Z;
  co_runnerImage : string;
  co_runnerCPU : Z;
  co_runnerMemory : Z;
  co_runnerTimeout : Duration;
  co_stateFile : string;
}.

Definition controller_flags : list (string * FlagKind) :=
  [("listen", FString); ("ca-file", FString); ("cert-file", FString); ("key-file", FString);
   ("node-ttl", FDuration); ("insecure-http", FBool); ("webhook-listen", FString);
   ("github-app-issuer", FString); ("github-app-private-key", FString);
   ("github-webhook-secret-file", FString); ("github-api-url", FString);
   ("github-api-version", FString); ("github-marker-label", FString); ("runner-group-id", FInt);
   ("runner-image", FString); ("runner-cpu", FInt); ("runner-memory-mb", FInt);
   ("runner-timeout", FDuration); ("state-file", FString)].

Definition controller_options (vals : gmap string FlagValue) : ControllerOptions :=
  mkControllerOptions
    (string_flag vals "listen" (env "CIFLEET_LISTEN" ":8080"))
    (string_flag vals "ca-file" (env "CIFLEET_CA_FILE" "/etc/cifleet/pki/ca.crt"))
    (string_flag vals "cert-file" (env "CIFLEET_CERT_FILE" "/etc/cifleet/pki/controller.crt"))
    (string_flag vals "key-file" (env "CIFLEET_KEY_FILE" "/etc/cifleet/pki/controller.key"))
    (duration_flag vals "node-ttl" (envDuration "CIFLEET_NODE_TTL" (45 * Second)))
    (bool_flag vals "insecure-http" false)
    (string_flag vals "webhook-listen" (env "CIFLEET_WEBHOOK_LISTEN" "127.0.0.1:8081"))
    (string_flag vals "github-app-issuer" (env "CIFLEET_GITHUB_APP_ISSUER" ""))
    (string_flag vals "github-app-private-key"
       (env "CIFLEET_GITHUB_APP_PRIVATE_KEY_FILE" "/etc/cifleet/github/app.pem"))
    (string_flag vals "github-webhook-secret-file"
       (env "CIFLEET_GITHUB_WEBHOOK_SECRET_FILE" "/etc/cifleet/github/webhook-secret"))
    (string_flag vals "github-api-url" (env "CIFLEET_GITHUB_API_URL" "https://api.github.com"))
    (string_flag vals "github-api-version" (env "CIFLEET_GITHUB_API_VERSION" "2026-03-10"))
    (string_flag vals "github-marker-label" (env "CIFLEET_GITHUB_MARKER_LABEL" "cifleet"))
    (int_flag vals "runner-group-id" (envInt64 "CIFLEET_RUNNER_GROUP_ID" 1))
    (string_flag vals "runner-image" (env "CIFLEET_RUNNER_IMAGE" "ghcr.io/actions/actions-runner:latest"))
    (int_flag vals "runner-cpu" (envInt "CIFLEET_RUNNER_CPU" 2))
    (int_flag vals "runner-memory-mb" (envInt "CIFLEET_RUNNER_MEMORY_MB" 4096))
    (duration_flag vals "runner-timeout" (envDuration "CIFLEET_RUNNER_TIMEOUT" (2 * Hour)))
    (string_flag vals "state-file" (env "CIFLEET_STATE_FILE" "/var/lib/cifleet/controller-state.json")).
End settings.

(** ** [main] *)

Section main.
Context `{Unicode} {CertPool Certificate Peer PrivateKey : Type}.
Context `{TlsLibrary CertPool Certificate Peer}.
Context (Getenv : string -> string) (args : list string).
(** [os.ReadFile] while the process starts. *)
Context (ReadFile : string -> result string).
(** The checks of the key and of the base URL of the GitHub API. *)
Context (pem_Decode : string -> option string) (ParsePKCS1PrivateKey : string -> result PrivateKey)
  (ParsePKCS8PrivateKey : string -> result (option PrivateKey)) (url_error : string -> option error).

(** *** The agent *)

(** A TLS configuration, or none with [-insecure-http]. *)
Abbreviation TLSOption := (option (TLSConfig CertPool Certificate)).

Record AgentProcess : Type := mkAgentProcess {
  ap_Addr : string;
  ap_TLS : TLSOption;
  ap_Server : AgentServer DHistory;
  (** The heartbeat service with its HTTP client's TLS, unless there is no
      controller URL. *)
  ap_Service : option (ServiceConfig * TLSOption);
}.

Definition agent_tls (o : AgentOptions) : Start (TLSOption * TLSOption) :=
  if ao_insecureHTTP o then Started (None, None)
  else match LoadClientConfig ReadFile (ao_caFile o) (ao_certFile o) (ao_keyFile o) (ao_serverName o) with
  | Err err => Exited "load controller mTLS configuration" (Some err)
  | Ok clientTLS =>
      match LoadServerConfig ReadFile (ao_caFile o) (ao_certFile o) (ao_keyFile o) with
      | Err err => Exited "load agent mTLS configuration" (Some err)
      | Ok serverTLS => Started (Some clientTLS, Some serverTLS)
      end
  end.

Definition agent_docker (o : AgentOptions) : Config :=
  Docker.New (mkDockerConfig (ao_dockerBin o) (ao_nodeID o) (ao_cacheRoot o) (ao_jobTimeout o)).

Definition agent_service (o : AgentOptions) : ServiceConfig :=
  NewService (mkServiceConfig (ao_nodeID o) (ao_endpoint o) (TrimRight (ao_controllerURL o) "/")
    (ao_heartbeatInterval o) (ao_cleanupInterval o) (splitCSV (ao_capabilities o))
    (splitCSV (ao_labels o))).

Definition agent_main (host : DockerHost) : Start AgentProcess :=
  match flag_Parse agent_flags args ∅ with
  | None => Exited "usage" None
  | Some vals =>
      let o := agent_options Getenv vals in
      let backend := docker_backend (agent_docker o) host in
      match agent_tls o with
      | Exited msg err => Exited msg err
      | Started (clientTLS, serverTLS) =>
          Started (mkAgentProcess (ao_listen o) serverTLS
            (mkAgentServer _ (ao_nodeID o) (ao_controllerIdentity o) (Some backend))
            (if String.eqb (ao_controllerURL o) "" then None
             else Some (agent_service o, clientTLS)))
      end
  end.

(** *** The controller *)

Definition readSecret (path : string) : result string :=
  match ReadFile path with
  | Err err => Err err
  | Ok data =>
      let secret := TrimSpace data in
      if String.eqb secret "" then Err (ErrFmt "secret file %s is empty" [path]) else Ok secret
  end.

Record GitHubProcess : Type := mkGitHubProcess {
  gp_Client : Client;
  gp_Key : PrivateKey;
  gp_Manager : RunnerManagerConfig;   (** the manager's, with its defaults *)
  gp_Webhook : WebhookServer;
  gp_Addr : string;
}.

Record ControllerProcess : Type := mkControllerProcess {
  cp_Addr : string;
  cp_TLS : TLSOption;
  cp_Server : Server;
  cp_AgentTLS : TLSOption;            (** of the client that calls the agents *)
  cp_AllowHTTP : bool;                (** whether that client accepts plain endpoints *)
  cp_GitHub : option GitHubProcess;   (** [None]: the integration is disabled *)
}.

Definition controller_tls (o : ControllerOptions) : Start (TLSOption * TLSOption) :=
  if co_insecureHTTP o then Started (None, None)
  else match LoadServerConfig ReadFile (co_caFile o) (co_certFile o) (co_keyFile o) with
  | Err err => Exited "load control-plane mTLS server configuration" (Some err)
  | Ok serverTLS =>
      match LoadClientConfig ReadFile (co_caFile o) (co_certFile o) (co_keyFile o) "" with
      | Err err => Exited "load worker mTLS client configuration" (Some err)
      | Ok clientTLS => Started (Some serverTLS, Some clientTLS)
      end
  end.

Definition manager_config (o : ControllerOptions) : RunnerManagerConfig :=
  mkConfig (co_markerLabel o) (co_runnerGroupID o) (co_runnerImage o) (co_runnerCPU o)
    (co_runnerMemory o) (co_runnerTimeout o) (co_stateFile o) 0 0 0.

(** [menv] is the environment of the manager, whose state file is read here. *)
Definition github_start (menv : Env) (o : ControllerOptions) : M (Start GitHubProcess) :=
  match LoadPrivateKey pem_Decode ParsePKCS1PrivateKey ParsePKCS8PrivateKey
          (ReadFile (co_githubPrivateKey o)) with
  | Err err => mret (Exited "load GitHub App private key" (Some err))
  | Ok privateKey =>
      match NewClient (co_githubIssuer o) true (co_githubAPIURL o) (co_githubAPIVersion o) url_error with
      | Err err => mret (Exited "initialize GitHub App client" (Some err))
      | Ok githubClient =>
          match readSecret (co_githubWebhookSecret o) with
          | Err err => mret (Exited "read GitHub webhook secret" (Some err))
          | Ok secret =>
              manager ← NewRunnerManager menv true (manager_config o);
              match manager with
              | Err err => mret (Exited "initialize runner manager" (Some err))
              | Ok cfg =>
                  match NewWebhookServer secret (co_markerLabel o) true with
                  | Err err => mret (Exited "initialize GitHub webhook server" (Some err))
                  | Ok webhook =>
                      mret (Started (mkGitHubProcess githubClient privateKey cfg webhook
                                       (co_webhookListen o)))
                  end
              end
          end
      end
  end.

Definition controller_main (menv : Env) : M (Start ControllerProcess) :=
  match flag_Parse controller_flags args ∅ with
  | None => mret (Exited "usage" None)
  | Some vals =>
      let o := controller_options Getenv vals in
      match controller_tls o with
      | Exited msg err => mret (Exited msg err)
      | Started (serverTLS, clientTLS) =>
          let process :=
            mkControllerProcess (co_listen o) serverTLS (Server.New [co_nodeTTL o]) clientTLS
              (co_insecureHTTP o) in
          if String.eqb (TrimSpace (co_githubIssuer o)) "" then mret (Started (process None))
          else
            started ← github_start menv o;
            match started with
            | Exited msg err => mret (Exited msg err)
            | Started github => mret (Started (process (Some github)))
            end
      end
  end.

(** ** What a started agent lets happen *)

Definition agent_parsed (o : AgentOptions) : Prop :=
  exists vals, flag_Parse agent_flags args ∅ = Some vals /\ o = agent_options Getenv vals.

Lemma agent_main_inv host p :
  agent_main host = Started p ->
  exists o, agent_parsed o
    /\ ap_Server p = mkAgentServer _ (ao_nodeID o) (ao_controllerIdentity o)
                       (Some (docker_backend (agent_docker o) host))
    /\ (ao_insecureHTTP o = false -> exists conf, ap_TLS p = Some conf
         /\ LoadServerConfig ReadFile (ao_caFile o) (ao_certFile o) (ao_keyFile o) = Ok conf).
Proof.
  unfold agent_main. destruct (flag_Parse _ _ _) as [vals|] eqn:Ef; [|done].
  set (o := agent_options Getenv vals). unfold agent_tls.
  destruct (ao_insecureHTTP o) eqn:Ei.
  - intros [= <-]. exists o. split; [by exists vals|]. split; [done|]. congruence.
  - destruct (LoadClientConfig _ _ _ _ _) as [clientTLS|e]; [|done].
    destruct (LoadServerConfig _ _ _ _) as [serverTLS|e] eqn:Es; [|done].
    intros [= <-]. exists o. split; [by exists vals|]. split; [done|]. intros _. by exists serverTLS.
Qed.

(** Without [-insecure-http], who makes the agent act is the controller. *)
Lemma agent_acts_for_controller `{ErrorText} host p :
  agent_main host = Started p ->
  exists o, agent_parsed o
    /\ ap_Server p = mkAgentServer _ (ao_nodeID o) (ao_controllerIdentity o)
                       (Some (docker_backend (agent_docker o) host))
    /\ (ao_insecureHTTP o = false ->
        forall peer tls method path text goos goarch now w ans w',
          admitted (ap_TLS p) peer = Some tls ->
          agent_handler (ap_Server p) method path text tls goos goarch now w = Some (ans, w') ->
          w' <> w -> vouched ReadFile (ao_caFile o) peer (wanted_identity (ap_Server p))).
Proof.
  intros (o & Ho & Hs & Htls)%agent_main_inv. exists o. split_and!; [done|done|]. intros Hsec.
  destruct (Htls Hsec) as (conf & Hconf & Hload).
  intros peer tls method path text goos goarch now w ans w' Had Hh Hw. rewrite Hconf in Had.
  destruct (LoadServerConfig_admits _ _ _ _ _ _ _ Hload Had) as (name & chain & -> & Hv).
  unfold agent_handler in Hh. destruct (route method path) as [r|]; [|done].
  cbn [mbind option_bind] in Hh.
  pose proof (serve_acts (ap_Server p) r goos goarch now (decode_job text) (Some (name :: chain)) w
                ltac:(done)) as Hact.
  destruct (serve _ _ _ _ _ _ _ _) as [resp w1]. injection Hh as _ <-.
  by destruct (Hact Hw) as (cns & [= -> _]).
Qed.

(** C11. Only the controller reaches a deployed agent's Docker: when an agent
    starts without [-insecure-http], any request, whatever its bytes, that
    makes the agent touch its host (run a docker command, read the clock or
    the memory, create a directory) came over TLS 1.3 from a peer whose
    certificate chain verifies against the configured CA file and whose leaf
    is named as the configured controller identity ([controller] unless
    set). *)
Theorem deployed_agent_only_controller `{ErrorText} host p :
  agent_main host = Started p ->
  exists o, agent_parsed o /\ (ao_insecureHTTP o = false ->
    forall peer tls method path text goos goarch now w ans w',
      admitted (ap_TLS p) peer = Some tls ->
      agent_handler (ap_Server p) method path text tls goos goarch now w = Some (ans, w') ->
      w' <> w ->
      vouched ReadFile (ao_caFile o) peer
        (if String.eqb (ao_controllerIdentity o) "" then "controller" else ao_controllerIdentity o)).
Proof.
  intros (o & Ho & Hs & Hacts)%agent_acts_for_controller. exists o. split; [done|].
  intros Hsec. specialize (Hacts Hsec). by rewrite Hs in *.
Qed.

(** ** What a started controller lets happen *)

Definition controller_parsed (o : ControllerOptions) : Prop :=
  exists vals, flag_Parse controller_flags args ∅ = Some vals /\ o = controller_options Getenv vals.

Lemma controller_main_inv menv st p st' :
  controller_main menv st = (Started p, st') ->
  exists o, controller_parsed o
    /\ cp_Server p = Server.New [co_nodeTTL o] /\ cp_AllowHTTP p = co_insecureHTTP o
    /\ (co_insecureHTTP o = false -> exists conf, cp_TLS p = Some conf
         /\ LoadServerConfig ReadFile (co_caFile o) (co_certFile o) (co_keyFile o) = Ok conf)
    /\ (forall g, cp_GitHub p = Some g -> (github_start menv o st).1 = Started g).
Proof.
  unfold controller_main. destruct (flag_Parse _ _ _) as [vals|] eqn:Ef; [|done].
  set (o := controller_options Getenv vals). unfold controller_tls.
  assert (Hrest : forall (conf clientTLS : TLSOption),
    (let process := mkControllerProcess (co_listen o) conf (Server.New [co_nodeTTL o]) clientTLS
                      (co_insecureHTTP o) in
     if String.eqb (TrimSpace (co_githubIssuer o)) "" then mret (Started (process None))
     else started ← github_start menv o;
          match started with
          | Exited msg err => mret (Exited msg err)
          | Started github => mret (Started (process (Some github)))
          end) st = (Started p, st') ->
    cp_Server p = Server.New [co_nodeTTL o] /\ cp_AllowHTTP p = co_insecureHTTP o
    /\ cp_TLS p = conf
    /\ (forall g, cp_GitHub p = Some g -> (github_start menv o st).1 = Started g)).
  { intros conf clientTLS. cbv zeta. destruct (String.eqb _ "").
    - unfold mret, M_ret. by intros [= <- _].
    - unfold mbind, M_bind, mret, M_ret.
      destruct (github_start menv o st) as [[msg err|github] st1]; [done|]. intros [= <- _].
      split_and!; try done. cbn. by intros g [= <-]. }
  destruct (co_insecureHTTP o) eqn:Ei.
  - intros Hm%Hrest. destruct Hm as (Hsrv & Hallow & _ & Hg). exists o.
    split; [by exists vals|]. rewrite Ei. by split_and!.
  - destruct (LoadServerConfig _ _ _ _) as [serverTLS|e] eqn:Es; [|done].
    destruct (LoadClientConfig _ _ _ _ _) as [clientTLS|e]; [|done].
    intros Hm%Hrest. destruct Hm as (Hsrv & Hallow & Htls & Hg). exists o.
    split; [by exists vals|]. rewrite Ei. split_and!; try done. intros _. by exists serverTLS.
Qed.

(** C12. A deployed controller is only changed, and only calls, under TLS: when
    a controller starts without [-insecure-http], a request that changes the
    registry entry of a node, whatever its bytes, came over TLS 1.3 from a
    peer whose certificate chain verifies against the configured CA file and
    whose leaf is named as that node; and its agent client accepts no endpoint
    that is not an HTTPS URL. *)
Theorem deployed_controller_entries `{ErrorText} `{UrlParser} menv st p st' :
  controller_main menv st = (Started p, st') ->
  exists o, controller_parsed o /\ (co_insecureHTTP o = false ->
    (forall peer tls method path text picks now s s' ans id,
       admitted (cp_TLS p) peer = Some tls ->
       controller_handler s method path text tls picks now = Some (s', ans) ->
       nodes s' !! id <> nodes s !! id ->
       vouched ReadFile (co_caFile o) peer id)
    /\ forall W (hc : option (HttpClient W)) node base,
         endpoint (mkHTTPAgentClient W hc (cp_AllowHTTP p)) node = Ok base ->
         exists u, url_Parse base = Some u /\ url_Scheme u = "https").
Proof.
  intros (o & Ho & _ & Hallow & Htls & _)%controller_main_inv. exists o. split; [done|].
  intros Hsec. destruct (Htls Hsec) as (conf & Hconf & Hload). split.
  - intros peer tls method path text picks now s s' ans id Had Hh Hid. rewrite Hconf in Had.
    destruct (LoadServerConfig_admits _ _ _ _ _ _ _ Hload Had) as (name & chain & -> & Hv).
    unfold controller_handler in Hh. destruct (controller_route method path) as [r|]; [|done].
    cbn [mbind option_bind] in Hh.
    destruct (controller_serve _ _ _ _ _ _) as [s1 resp] eqn:Es. injection Hh as <- _.
    destruct r; cbn [controller_serve] in Es; try (by injection Es as <- _).
    destruct (heartbeat_cases s (decode_node (stake maxBody text)) (Some (name :: chain)) now)
      as [[E _]|(n & _ & _ & Hcn & E)]; rewrite Es in E; cbn [fst] in E; [by subst|].
    injection E as -> _. specialize (Hcn name chain eq_refl). subst name. cbn [nodes] in Hid.
    destruct (decide (id = node_ID n)) as [->|]; [done|]. by rewrite lookup_insert_ne in Hid.
  - intros W hc node base He. apply endpoint_Ok in He as (_ & _ & u & Hu & _ & Hsch).
    exists u. split; [done|]. destruct Hsch as [?|[Hal _]]; [done|]. cbn in Hal. congruence.
Qed.

(** ** A started controller meets the manager's assumptions *)

(** The registries its API can build. *)
Inductive api_step `{ErrorText} (s : Server) : Server -> Prop :=
| api_request method path text tls picks now s' ans :
    controller_handler s method path text tls picks now = Some (s', ans) -> api_step s s'.

Lemma api_registry `{ErrorText} ttls s :
  rtc api_step (Server.New ttls) s ->
  registry_ok s /\ forall id n, nodes s !! id = Some n -> utf8 (node_ID n) = true.
Proof.
  revert s. apply rtc_ind_r; [split; [apply registry_ok_New|]|].
  { intros id n Hn. cbn in Hn. by rewrite lookup_empty in Hn. }
  intros s s' _ [method path text tls picks now s1 ans Hh] [Hok Hutf].
  unfold controller_handler in Hh. destruct (controller_route method path) as [r|]; [|done].
  cbn [mbind option_bind] in Hh.
  destruct (controller_serve _ _ _ _ _ _) as [s2 resp] eqn:Es. injection Hh as <- _.
  destruct r; cbn [controller_serve] in Es; try (by injection Es as <- _).
  pose proof (registry_ok_step _ _ (step_heartbeat s (decode_node (stake maxBody text)) tls now) Hok)
    as Hok'.
  destruct (heartbeat_cases s (decode_node (stake maxBody text)) tls now)
    as [[E _]|(n & Hn & _ & _ & E)]; rewrite Es in *; cbn [fst] in *; [by subst|].
  split; [done|]. injection E as -> _. intros id m Hm. cbn [nodes] in Hm.
  apply lookup_insert_Some in Hm as [[_ <-]|[_ Hm]]; [|by eapply Hutf].
  cbn. by eapply decode_node_utf8.
Qed.

Lemma github_start_inv menv o st g :
  (github_start menv o st).1 = Started g ->
  gp_Manager g = with_defaults (manager_config o)
  /\ exists secret, readSecret (co_githubWebhookSecret o) = Ok secret
       /\ NewWebhookServer secret (co_markerLabel o) true = Ok (gp_Webhook g)
       /\ (NewRunnerManager menv true (manager_config o) st).1 = Ok (gp_Manager g).
Proof.
  unfold github_start. destruct (LoadPrivateKey _ _ _ _) as [key|e]; [|done].
  destruct (NewClient _ _ _ _ _) as [client|e]; [|done].
  destruct (readSecret _) as [secret|e] eqn:Es; [|done].
  unfold mbind, M_bind. destruct (NewRunnerManager menv true (manager_config o) st) as [[cfg|e] st1] eqn:Em;
    [|done].
  destruct (NewWebhookServer secret _ true) as [wh|e] eqn:Ew; [|done].
  cbn. intros [= <-]. cbn. split.
  - revert Em. unfold NewRunnerManager. cbn [negb]. unfold mbind, M_bind, put_jobs.
    destruct (loadState _ _ _) as [[e|] st2]; [done|]. by intros [= <- _].
  - exists secret. by split_and!.
Qed.

(** C14. A deployed ingress takes work only from GitHub: when a controller
    starts with the integration on, its secret is the non-empty trimmed
    content of the configured file, a request that reaches the manager's queue
    carries the HMAC of its complete body under that secret, and ingress and
    manager look for the same, non-blank marker label, so that no job the
    ingress accepts is dropped by the manager's own label check. *)
Theorem deployed_ingress_signed `{ErrorText} menv st p st' g :
  controller_main menv st = (Started p, st') -> cp_GitHub p = Some g ->
  exists o data, controller_parsed o /\ ReadFile (co_githubWebhookSecret o) = Ok data
    /\ TrimSpace data <> ""
    /\ wh_marker (gp_Webhook g) = MarkerLabel (gp_Manager g)
    /\ TrimSpace (wh_marker (gp_Webhook g)) <> ""
    /\ forall Q (sub : EventSubmitter Q) method path r (q : Q) ans q',
         webhook_handler (gp_Webhook g) method path r q = Some (ans, q') -> q' <> q ->
         slen (wr_stream r) <= maxWebhookBody
         /\ signed (TrimSpace data) (wr_stream r) (wr_Signature r).
Proof.
  intros (o & Ho & _ & _ & _ & Hg)%controller_main_inv Hgh.
  apply Hg, github_start_inv in Hgh as (Hcfg & secret & Hsec & Hwh & _). exists o.
  unfold readSecret in Hsec. destruct (ReadFile _) as [data|e] eqn:Ef; [|done].
  destruct (String.eqb_spec (TrimSpace data) "") as [|Hne]; [done|]. injection Hsec as <-.
  exists data. unfold NewWebhookServer in Hwh.
  destruct (String.eqb_spec (TrimSpace data) ""); [done|]. cbn [negb] in Hwh. injection Hwh as Hwh.
  split_and!; [done|done|done|rewrite <- Hwh, Hcfg; done| |].
  - rewrite <- Hwh. cbn. by destruct (String.eqb_spec (TrimSpace (co_markerLabel o)) "").
  - intros Q sub method path r q ans q' Hh Hq. rewrite <- Hwh in Hh. unfold webhook_handler in Hh.
    destruct (is_get method && _); [by injection Hh as _ <-|].
    destruct (String.eqb method "POST" && _); [|done].
    destruct (webhook _ r q) as [resp q1] eqn:Ew. injection Hh as _ <-.
    pose proof (webhook_acts (mkWebhookServer (TrimSpace data)
      (if String.eqb (TrimSpace (co_markerLabel o)) "" then "cifleet" else co_markerLabel o)) r q Hne) as Ha.
    rewrite Ew in Ha. by apply Ha.
Qed.

(** The runner's size is an [int], wherever it was set. *)
Lemma env_int_range key fallback : in_int64 fallback -> in_int64 (envInt Getenv key fallback).
Proof.
  intros Hf. unfold envInt. destruct (String.eqb _ ""); [done|]. unfold Atoi.
  destruct (ParseInt _) as [n|] eqn:E; [|done]. by apply ParseInt_range in E.
Qed.

Lemma manager_config_range o :
  controller_parsed o ->
  in_int64 (RunnerCPU (with_defaults (manager_config o)))
  /\ in_int64 (RunnerMemoryM (with_defaults (manager_config o))).
Proof.
  intros (vals & Hvals & ->).
  assert (Hok : map_Forall (fun _ => value_ok) vals)
    by (eapply flag_Parse_ok; [|exact Hvals]; apply map_Forall_empty).
  split; cbn [RunnerCPU RunnerMemoryM with_defaults manager_config controller_options co_runnerCPU
    co_runnerMemory]; (destruct (_ <=? 0); [done|]); by apply int_flag_ok, env_int_range.
Qed.

(** C13. A started controller meets every assumption of the manager's theorems:
    with the GitHub integration on, the registry changed by requests to its
    own API only, instances created by its HTTP agent client and JIT
    configurations by its GitHub client, and a state file that is absent or
    holds a job map of the machine, the environment satisfies [EnvOk]; so the
    refinement and the safety theorems of [System.v] hold of the whole process. *)
Theorem deployed_controller_env `{ErrorText} `{UrlParser} {W}
  menv st p st' g (c : HTTPAgentClient W) (world : History -> W) (host : GHost)
  (ghub : History -> GState) :
  controller_main menv st = (Started p, st') -> cp_GitHub p = Some g ->
  (forall h, rtc api_step (cp_Server p) (env_server menv h)) ->
  (forall h n spec, env_CreateInstance menv h n spec = (CreateInstance c n spec (world h)).1) ->
  (forall h i o r name grp ls, env_GenerateJITConfig menv h i o r name grp ls
     = (GithubApp.GenerateJITConfig (gp_Client g) host i o r name grp ls (ghub h)).1) ->
  let seen n := exists s id, rtc api_step (cp_Server p) s /\ nodes s !! id = Some n in
  disk_ok (gp_Manager g) menv seen [] ->
  EnvOk (gp_Manager g) menv seen.
Proof.
  intros (o & Ho & Hsrv & _ & _ & Hg)%controller_main_inv Hgh Hreg Hcreate Hjit seen Hdisk.
  apply Hg, github_start_inv in Hgh as [Hcfg _].
  apply http_env_ok with c world; try done.
  - intros h. specialize (Hreg h). rewrite Hsrv in Hreg. by apply api_registry in Hreg as [? _].
  - intros h id n Hn. exists (env_server menv h), id. by split.
  - intros n (s & id & Hs & Hn). rewrite Hsrv in Hs. apply api_registry in Hs as [_ Hu]. by eapply Hu.
  - intros h i ow r name grp ls jit. rewrite Hjit.
    destruct (GithubApp.GenerateJITConfig _ _ _ _ _ _ _ _ _) as [res gst] eqn:E. cbn. intros ->.
    by eapply GenerateJITConfig_ok.
  - rewrite Hcfg. by apply manager_config_range.
Qed.
End main.

(** ** Witnesses *)

(** A file system with the material both commands read, and TLS libraries that
    take a certificate authority to be its file. *)
Definition demo_files (path : string) : result string :=
  if String.eqb path "/etc/cifleet/pki/ca.crt" then Ok "root"
  else if String.eqb path "/etc/cifleet/github/app.pem" then Ok "key"
  else if String.eqb path "/etc/cifleet/github/webhook-secret" then Ok "secret"
  else Err (ErrMsg "no such file").

(** A peer: the authority of its chain, and the names in it. *)
#[local] Instance demo_tls : TlsLibrary string string (string * list string) := {|
  AppendCertsFromPEM pem := if String.eqb pem "" then None else Some pem;
  LoadX509KeyPair certFile _ := Ok certFile;
  peer_version _ := VersionTLS13;
  peer_chain := snd;
  chain_verifies pool peer := bool_decide (pool = Some peer.1);
|}.

#[local] Instance plain_errors : ErrorText := fun _ => "error".

#[local] Instance demo_parser : UrlParser := fun raw =>
  if HasPrefix raw "https://" then Some (mkURL "https" (TrimPrefix raw "https://")) else None.

Definition no_args : list string := [].

Definition agent_getenv (key : string) : string :=
  if String.eqb key "CIFLEET_NODE_ID" then "e5" else "".

Definition process_of {A} (idle : A) (s : Start A) : A :=
  match s with Started p => p | Exited _ _ => idle end.
Definition started {A} (s : Start A) : bool :=
  match s with Started _ => true | Exited _ _ => false end.

Lemma started_process {A} (idle : A) s : started s = true -> s = Started (process_of idle s).
Proof. by destruct s. Qed.

Definition demo_agent : AgentProcess :=
  process_of (mkAgentProcess "" None (mkAgentServer _ "" "" None) None)
    (agent_main agent_getenv no_args demo_files test_host).

Lemma demo_agent_starts : agent_main agent_getenv no_args demo_files test_host = Started demo_agent.
Proof. apply started_process. vm_compute. reflexivity. Qed.

Lemma demo_agent_admits :
  admitted (ap_TLS demo_agent) ("root", ["controller"]) = Some (Some ["controller"])
  /\ admitted (ap_TLS demo_agent) ("elsewhere", ["controller"]) = None.
Proof. vm_compute. split; reflexivity. Qed.

Definition probe (tls : TLS) : option (HttpAnswer * DHistory) :=
  agent_handler (ap_Server demo_agent) "GET" "/v1/capacity" "" tls "linux" "amd64" T0 [].

Definition probed : HttpAnswer * DHistory :=
  default (mkHttpAnswer 0 "", []) (probe (Some ["controller"])).

Lemma demo_probe : probe (Some ["controller"]) = Some probed /\ probed.2 <> [].
Proof. vm_compute. split; [reflexivity|discriminate]. Qed.

Lemma deployed_agent_only_controller_witness :
  vouched demo_files "/etc/cifleet/pki/ca.crt" ("root", ["controller"]) "controller".
Proof.
  destruct (deployed_agent_only_controller agent_getenv no_args demo_files test_host demo_agent
              demo_agent_starts) as (o & (vals & Hvals & ->) & Hv).
  injection Hvals as <-.
  exact (Hv eq_refl ("root", ["controller"]) (Some ["controller"]) "GET" "/v1/capacity" ""
           "linux" "amd64" T0 [] probed.1 probed.2 (proj1 demo_agent_admits)
           (eq_trans (proj1 demo_probe) (f_equal Some (surjective_pairing probed)))
           (proj2 demo_probe)).
Defined.

(** A controller with the GitHub integration, and a heartbeat it takes. *)
Definition controller_getenv (key : string) : string :=
  if String.eqb key "CIFLEET_GITHUB_APP_ISSUER" then "12345" else "".

Abbreviation DemoController :=
  (ControllerProcess (CertPool := string) (Certificate := string) (PrivateKey := string)).

Definition any_pem (data : string) : option string := Some data.
Definition any_key (block : string) : result string := Ok block.
Definition not_pkcs8 (_ : string) : result (option string) := Err (ErrMsg "not PKCS #8").
Definition any_url (_ : string) : option error := None.

Abbreviation demo_controller_main :=
  (controller_main (CertPool := string) (Certificate := string) (PrivateKey := string)
     controller_getenv no_args demo_files any_pem any_key not_pkcs8 any_url).

Definition heartbeat_body : string := default "" (print compact 0 <$> enc_node e5).

Definition demo_hub : GHost := {|
  gh_now _ := T0;
  gh_Sign _ digest := Ok digest;
  gh_NewRequest _ _ := None;
  gh_Do _ req := Ok (mkHttpAnswer 201 (print compact 0 (JObj
    (mem "token" (enc_string "t") ++ mem "expires_at" (enc_string "2026-01-01T00:00:00Z")
     ++ mem "runner" (JObj (mem "id" (enc_int 77)))
     ++ mem "encoded_jit_config" (enc_string "jit")))));
|}.

(** Before the first heartbeat, and after it. *)
Definition fresh : Server := Server.New [45 * Second].

Abbreviation take_heartbeat tls :=
  (controller_handler fresh "POST" "/v1/nodes/heartbeat" heartbeat_body tls [] T0).

Definition accepted : Server * HttpAnswer :=
  default (fresh, mkHttpAnswer 0 "") (take_heartbeat (Some ["e5"])).

(** The manager's world: the registry after a heartbeat, the agent's own HTTP
    API, and the GitHub client. *)
Definition demo_gclient : Client := mkClient "12345" "https://api.github.com" "2026-03-10".

Definition deployed_env : Env := {|
  env_files := ∅;
  env_now _ := T0;
  env_server _ := accepted.1;
  env_picks _ := [];
  env_GetWorkflowRun _ _ _ _ _ := Ok trusted_run;
  env_GenerateJITConfig _ i o r n g ls :=
    (GithubApp.GenerateJITConfig demo_gclient demo_hub i o r n g ls (mkGState ∅ [])).1;
  env_DeleteRunner _ _ _ _ _ := None;
  env_CreateInstance _ n spec := (AgentClient.CreateInstance AgentClient.demo_client n spec []).1;
  env_DestroyInstance _ _ _ := None;
  env_ReadFile _ _ := None;
  env_MkdirAll _ _ := None;
  env_WriteFile _ _ _ := None;
  env_Rename _ _ _ := None;
|}.

Definition idle_controller : DemoController :=
  mkControllerProcess "" None fresh None true None.

Definition demo_controller : DemoController :=
  process_of idle_controller (demo_controller_main deployed_env empty_st).1.

Lemma demo_controller_starts :
  demo_controller_main deployed_env empty_st
  = (Started demo_controller, (demo_controller_main deployed_env empty_st).2).
Proof.
  rewrite (surjective_pairing (demo_controller_main deployed_env empty_st)) at 1.
  apply (f_equal (fun p => (p, _))), started_process. vm_compute. reflexivity.
Qed.

Lemma demo_heartbeat :
  admitted (cp_TLS demo_controller) ("root", ["e5"]) = Some (Some ["e5"])
  /\ take_heartbeat (Some ["e5"]) = Some (accepted.1, accepted.2)
  /\ nodes accepted.1 !! "e5" <> nodes fresh !! "e5".
Proof. vm_compute. split_and!; [reflexivity..|discriminate]. Qed.

Lemma deployed_controller_entries_witness :
  vouched demo_files "/etc/cifleet/pki/ca.crt" ("root", ["e5"]) "e5".
Proof.
  destruct (deployed_controller_entries controller_getenv no_args demo_files any_pem any_key
              not_pkcs8 any_url deployed_env empty_st
              demo_controller (demo_controller_main deployed_env empty_st).2
              demo_controller_starts) as (o & (vals & Hvals & ->) & Hv).
  injection Hvals as <-.
  exact (proj1 (Hv eq_refl) ("root", ["e5"]) (Some ["e5"]) "POST" "/v1/nodes/heartbeat"
           heartbeat_body [] T0 fresh accepted.1 accepted.2 "e5" (proj1 demo_heartbeat)
           (proj1 (proj2 demo_heartbeat))
           (proj2 (proj2 demo_heartbeat))).
Defined.

Definition demo_github : GitHubProcess (PrivateKey := string) :=
  default (mkGitHubProcess demo_gclient "" demo_cfg (mkWebhookServer "" "") "")
    (cp_GitHub demo_controller).

Lemma demo_github_on :
  cp_GitHub demo_controller = Some demo_github /\ gp_Client demo_github = demo_gclient
  /\ cp_Server demo_controller = fresh.
Proof. vm_compute. split_and!; reflexivity. Qed.

Lemma demo_registry : rtc api_step (cp_Server demo_controller) accepted.1.
Proof.
  rewrite (proj2 (proj2 demo_github_on)). apply rtc_once.
  exact (api_request fresh "POST" "/v1/nodes/heartbeat" heartbeat_body (Some ["e5"]) [] T0
           accepted.1 accepted.2
           (proj1 (proj2 demo_heartbeat))).
Qed.

Lemma demo_jit h i o r n g ls :
  env_GenerateJITConfig deployed_env h i o r n g ls
  = (GithubApp.GenerateJITConfig (gp_Client demo_github) demo_hub i o r n g ls (mkGState ∅ [])).1.
Proof. by rewrite (proj1 (proj2 demo_github_on)). Qed.

(** What its registry can hold. *)
Definition registrable (n : Node) : Prop :=
  exists s id, rtc api_step (cp_Server demo_controller) s /\ nodes s !! id = Some n.

Lemma demo_disk : disk_ok (gp_Manager demo_github) deployed_env registrable [].
Proof. intros data js. unfold disk. cbn. by rewrite lookup_empty. Qed.

Lemma deployed_controller_env_witness : EnvOk (gp_Manager demo_github) deployed_env registrable.
Proof.
  exact (deployed_controller_env controller_getenv no_args demo_files any_pem any_key
           not_pkcs8 any_url deployed_env empty_st
           demo_controller (demo_controller_main deployed_env empty_st).2 demo_github
           AgentClient.demo_client (fun _ => []) demo_hub (fun _ => mkGState ∅ [])
           demo_controller_starts (proj1 demo_github_on) (fun _ => demo_registry)
           (fun _ _ _ => eq_refl) demo_jit demo_disk).
Defined.

Definition demo_push : WebhookRequest :=
  mkWebhookRequest demo_body false
    ("sha256=" +:+ hex_EncodeToString (hmac_sha256 "secret" demo_body)) "workflow_job" "delivery-1".

#[local] Instance demo_queue : EventSubmitter (list WorkflowJobEvent) := manager_submitter demo_cfg.

Definition pushed : HttpAnswer * list WorkflowJobEvent :=
  default (mkHttpAnswer 0 "", [])
    (webhook_handler (gp_Webhook demo_github) "POST" "/github/webhook" demo_push []).

Lemma demo_push_queued :
  webhook_handler (gp_Webhook demo_github) "POST" "/github/webhook" demo_push []
  = Some (pushed.1, pushed.2) /\ pushed.2 <> [].
Proof. vm_compute. split; [reflexivity|discriminate]. Qed.

Lemma deployed_ingress_signed_witness : signed "secret" demo_body (wr_Signature demo_push).
Proof.
  destruct (deployed_ingress_signed controller_getenv no_args demo_files any_pem any_key
              not_pkcs8 any_url deployed_env empty_st
              demo_controller (demo_controller_main deployed_env empty_st).2 demo_github
              demo_controller_starts (proj1 demo_github_on))
    as (o & data & (vals & Hvals & ->) & Hdata & _ & _ & _ & Hq).
  injection Hvals as <-. injection Hdata as <-.
  exact (proj2 (Hq _ _ "POST" "/github/webhook" demo_push [] pushed.1 pushed.2
                  (proj1 demo_push_queued) (proj2 demo_push_queued))).
Defined.
