(* ===== verification/Lifetime.v ===== *)
(** * The life of the two processes: the goroutines of [cmd/*/main.go]

    [Commands.v] says what [main] builds; here it runs.  Each goroutine is a
    thread of a labelled step relation: the listeners and their requests, the
    heartbeat service or the runner manager, the goroutine that waits for the
    context and shuts the servers down, and [main] itself, whose last call is
    [ListenAndServe].  The environment sends requests and signals.  When [main]
    returns or calls [os.Exit] the process is over, whatever the others do.

    Of [net/http] this uses what its documentation says: [ListenAndServe]
    returns [ErrServerClosed] as soon as [Shutdown] was called, and another
    error only before; [Shutdown] refuses new requests at once and returns
    when the ones in progress are done or its context ends.

    The manager's part of the controller is the [Sys] of [System.v]: the
    process refines it, so its theorems hold for the whole life of the
    process, restarts included.  Fair executions always stop when they are
    told to.  Four more state defects of the way they stop. *)

From S2P Require Import Prelude Fair GoTime GoStrings GoDate GoUtf8 GoJson GoUrl Model Http Scheduler Policy Jobs Wire WireOk Server Env Manager Machine Refinement Scenario System Webhook Agent Api AgentService AgentClient Docker GithubApp Tls Commands.
From stdpp Require Import base list strings gmap relations.
From Stdlib Require Import ZArith String Lia.
Open Scope string_scope.
Open Scope list_scope.
Open Scope Z_scope.

(** ** What both processes share *)

(** An [http.Server]: the requests in progress, and whether [Shutdown] was
    called. *)
Record Listener : Set := mkListener { ln_active : nat; ln_closing : bool }.

Definition ln_open : Listener := mkListener 0 false.
Definition ln_accept (l : Listener) : Listener := mkListener (S (ln_active l)) (ln_closing l).
Definition ln_answer (l : Listener) : Listener := mkListener (pred (ln_active l)) (ln_closing l).
Definition ln_shut (l : Listener) : Listener := mkListener (ln_active l) true.

(** The statuses a process exits with. *)
Definition ExitOk : Z := 0.
Definition ExitFailure : Z := 1.
Definition ExitUsage : Z := 2.

(** How a start that fails ends: [flag.Parse] exits with 2, the rest with 1. *)
Definition start_status {A} (s : Start A) : option Z :=
  match s with
  | Started _ => None
  | Exited "usage" None => Some ExitUsage
  | Exited _ _ => Some ExitFailure
  end.

(** The life of a process as [systemd] sees it, with [Restart=on-failure]. *)
Definition restarts (status : Z) : bool := negb (status =? ExitOk).

(** ** The agent *)

(** The heartbeat service: [SvcLoop n] after [n] of its first two ticks. *)
Inductive SvcState : Set := SvcOff | SvcLoop (n : nat) | SvcDone.

(** The goroutine that waits for the context. *)
Inductive AgentShutdown : Set := AWaiting | AShutting | AShut.

Inductive AgentThread : Set := AWorld | AService | AShutter | AMain.

Record AgentLife : Type := mkAgentLife {
  al_signalled : bool;               (** a signal arrived *)
  al_cancelled : bool;               (** the context is done *)
  al_service : SvcState;
  al_listener : Listener;
  al_shutdown : AgentShutdown;
  al_world : DHistory;               (** the host, with what docker was asked *)
  al_errors : list string;           (** what [log.Error] wrote *)
  al_exit : option Z;
}.

(** The tick the service makes next: a heartbeat and a cleanup, then any. *)
Definition svc_allowed (n : nat) (t : Tick) : Prop :=
  match n with 0%nat => t = THeartbeat | 1%nat => exists now, t = TCleanup now | _ => True end.
Definition svc_next (n : nat) : nat := match n with 0%nat => 1 | _ => 2 end.

Section agent.
Context `{Unicode} `{ErrorText} {CertPool Certificate Peer : Type} `{TlsLibrary CertPool Certificate Peer}.
Context (p : AgentProcess (CertPool := CertPool) (Certificate := Certificate)).
Context (client : HttpClient DHistory) (goos goarch : string).

(** What [svc.Run] returns before its loop. *)
Definition service_error (scfg : ServiceConfig) (w : DHistory) : option error :=
  (Run scfg (as_Backend (ap_Server p)) (Some client) goos goarch zeroTime [] w).1.

Definition agent_born (w : DHistory) : AgentLife :=
  mkAgentLife false false (match ap_Service p with Some _ => SvcLoop 0 | None => SvcOff end)
    ln_open AWaiting w [] None.

Inductive agent_step : AgentThread -> AgentLife -> AgentLife -> Prop :=
| agent_signal sg ca sv ln sh w er :
    agent_step AWorld (mkAgentLife sg ca sv ln sh w er None) (mkAgentLife true true sv ln sh w er None)
| agent_request sg ca sv ln sh w er peer tls method path text now ans w' :
    ln_closing ln = false -> admitted (ap_TLS p) peer = Some tls ->
    agent_handler (ap_Server p) method path text tls goos goarch now w = Some (ans, w') ->
    agent_step AWorld (mkAgentLife sg ca sv ln sh w er None)
      (mkAgentLife sg ca sv (ln_accept ln) sh w' er None)
| agent_answer sg ca sv ln sh w er :
    (0 < ln_active ln)%nat ->
    agent_step AWorld (mkAgentLife sg ca sv ln sh w er None)
      (mkAgentLife sg ca sv (ln_answer ln) sh w er None)
| agent_service_fails sg ca ln sh w er scfg tls err :
    ap_Service p = Some (scfg, tls) -> service_error scfg w = Some err ->
    agent_step AService (mkAgentLife sg ca (SvcLoop 0) ln sh w er None)
      (mkAgentLife sg true SvcDone ln sh w (er ++ ["agent service stopped"]) None)
| agent_service_tick sg ca n ln sh w er scfg tls b t :
    ap_Service p = Some (scfg, tls) -> service_error scfg w = None ->
    as_Backend (ap_Server p) = Some b -> svc_allowed n t ->
    agent_step AService (mkAgentLife sg ca (SvcLoop n) ln sh w er None)
      (mkAgentLife sg ca (SvcLoop (svc_next n)) ln sh (service_tick scfg b client goos goarch w t) er None)
| agent_service_stops sg ln sh w er :
    agent_step AService (mkAgentLife sg true (SvcLoop 2) ln sh w er None)
      (mkAgentLife sg true SvcDone ln sh w er None)
| agent_shutdown sg sv ln w er :
    agent_step AShutter (mkAgentLife sg true sv ln AWaiting w er None)
      (mkAgentLife sg true sv (ln_shut ln) AShutting w er None)
| agent_shut sg ca sv ln w er :
    (** the requests are done, or ten seconds have passed *)
    agent_step AShutter (mkAgentLife sg ca sv ln AShutting w er None)
      (mkAgentLife sg ca sv ln AShut w er None)
| agent_closed sg ca sv ln sh w er :
    (** [ListenAndServe] returns [ErrServerClosed], [main] returns *)
    ln_closing ln = true ->
    agent_step AMain (mkAgentLife sg ca sv ln sh w er None) (mkAgentLife sg ca sv ln sh w er (Some ExitOk))
| agent_listen_fails sg ca sv ln sh w er :
    (** it returns another error *)
    ln_closing ln = false ->
    agent_step AWorld (mkAgentLife sg ca sv ln sh w er None)
      (mkAgentLife sg ca sv ln sh w (er ++ ["agent stopped"]) (Some ExitFailure)).

Definition agent_life (s s' : AgentLife) : Prop := exists t, agent_step t s s'.
Definition agent_reachable (s : AgentLife) : Prop := exists w, rtc agent_life (agent_born w) s.

(** *** What its state means *)

Record agent_inv (s : AgentLife) : Prop := {
  ai_closing : ln_closing (al_listener s) = true <-> al_shutdown s <> AWaiting;
  ai_shutdown : al_shutdown s <> AWaiting -> al_cancelled s = true;
  ai_cancelled : al_cancelled s = true -> al_signalled s = true \/ "agent service stopped" ∈ al_errors s;
  ai_exit c : al_exit s = Some c ->
    c = ExitOk /\ ln_closing (al_listener s) = true
    \/ c = ExitFailure /\ "agent stopped" ∈ al_errors s /\ ln_closing (al_listener s) = false;
}.

Lemma agent_step_inv t s s' : agent_inv s -> agent_step t s s' -> agent_inv s'.
Proof.
  intros [Hc Hs Hca He] Hstep. destruct Hstep; cbn in *; split; cbn;
    try solve [intros c; discriminate | tauto | split; congruence]; try (intros c [= <-]);
    rewrite ?elem_of_app, ?list_elem_of_singleton; first [tauto | intuition congruence].
Qed.

Lemma agent_reachable_inv s : agent_reachable s -> agent_inv s.
Proof.
  intros [w Hs]. revert s Hs. apply rtc_ind_r; [by split|].
  intros s s' _ [t Hstep] Hi. by eapply agent_step_inv.
Qed.

(** An agent stops for a reason: in every life of it, status 0 means that a
    signal arrived or the heartbeat service refused its configuration, and
    status 1 that the listener failed while no shutdown was under way; nothing
    else ends the process, and no request ever does. *)
Theorem agent_exit_reason s c :
  agent_reachable s -> al_exit s = Some c ->
  c = ExitOk /\ al_cancelled s = true
    /\ (al_signalled s = true \/ "agent service stopped" ∈ al_errors s)
  \/ c = ExitFailure /\ "agent stopped" ∈ al_errors s /\ al_shutdown s = AWaiting.
Proof.
  intros Hi%agent_reachable_inv Hc. destruct (ai_exit _ Hi _ Hc) as [[-> Hcl]|(-> & Her & Hcl)].
  - apply (ai_closing _ Hi), (ai_shutdown _ Hi) in Hcl. left. split_and!; try done.
    by apply (ai_cancelled _ Hi).
  - right. split_and!; try done. destruct (al_shutdown s) eqn:Es; [done| |];
      (assert (ln_closing (al_listener s) = true); [|congruence]);
      apply (ai_closing _ Hi); by rewrite Es.
Qed.

(** *** It stops when it is told to *)

Definition al_over (s : AgentLife) : Prop := exists c, al_exit s = Some c.

(** Told to stop, an agent stops: in every execution that is fair to the
    shutdown goroutine and to [main], however many requests keep arriving and
    whatever the service does, a process whose context is done exits. *)
Theorem agent_stops (e : Execution agent_step) :
  (exists w, ex_state e 0 = agent_born w) ->
  fair agent_step AShutter e -> fair agent_step AMain e ->
  leads_to agent_step e (fun s => al_cancelled s = true) al_over.
Proof.
  intros [w Hborn] Hshutter Hmain.
  assert (Hinv : forall i, agent_inv (ex_state e i)).
  { intros i. eapply (exec_stable agent_step e agent_inv); [|apply Nat.le_0_l|by rewrite Hborn].
    eauto using agent_step_inv. }
  apply (leads_to_under agent_step e agent_inv); [done|].
  set (waiting s := agent_inv s /\ al_cancelled s = true /\ al_shutdown s = AWaiting /\ al_exit s = None).
  set (closing s := agent_inv s /\ ln_closing (al_listener s) = true /\ al_exit s = None).
  apply (leads_to_trans _ e _ (fun s => waiting s \/ closing s \/ al_over s)).
  - apply leads_to_impl. intros s [Hs Hca]. unfold waiting, closing.
    destruct (al_exit s) as [c|] eqn:Ex; [right; right; by exists c|].
    destruct (al_shutdown s) eqn:Esh; [left; by split_and!|right; left..];
      (split_and!; [done| |done]); apply (ai_closing _ Hs); by rewrite Esh.
  - apply (ensures_twice agent_step e AShutter AMain); [done|done|..].
    + intros [] (_ & Hca & Hsh & Hx). cbn in *. subst. eexists. by constructor.
    + intros [] (_ & Hl & Hx). cbn in *. subst. eexists. by constructor.
    + intros s s' (Hs & _ & Hw & _) Hstep. pose proof (agent_step_inv _ _ _ Hs Hstep) as Hs'.
      inversion Hstep; subst; cbn in *; [left; by split_and!|done..].
    + intros s s' _ Hstep. inversion Hstep; subst. by eexists.
    + intros t s s' (Hs & Hca & Hsh & Hx) Hstep. pose proof (agent_step_inv _ _ _ Hs Hstep) as Hs'.
      destruct Hstep; cbn in *; subst; try done;
        first [left; split_and!; done | right; left; split_and!; done | right; right; by eexists].
    + intros t s s' (Hs & Hl & Hx) Hstep. pose proof (agent_step_inv _ _ _ Hs Hstep) as Hs'.
      destruct Hstep; cbn in *; first [by right; eexists | left; by split_and!].
Qed.

(** *** How it stops *)

(** A shutdown of the agent does not wait for the requests it has taken:
    [main] returns as soon as [ListenAndServe] does, which is before
    [Shutdown] returns.  From any state that accepts requests, the next one
    can be the last: it was carried out on the host, and the process is gone
    with status 0 while [Shutdown] still waits for its answer. *)
Theorem agent_shutdown_cuts_requests s peer tls method path text now ans w' :
  agent_reachable s -> al_exit s = None -> ln_closing (al_listener s) = false ->
  admitted (ap_TLS p) peer = Some tls ->
  agent_handler (ap_Server p) method path text tls goos goarch now (al_world s) = Some (ans, w') ->
  exists s', rtc agent_life s s' /\ al_exit s' = Some ExitOk /\ al_world s' = w'
    /\ al_shutdown s' = AShutting
    /\ ln_active (al_listener s') = S (ln_active (al_listener s)).
Proof.
  intros Hi%agent_reachable_inv Hx Hopen Hadm Hh.
  destruct s as [sg ca sv ln sh w er ex]; cbn in *; subst ex.
  assert (sh = AWaiting) as ->.
  { destruct sh; [done|..]; exfalso; pose proof (ai_closing _ Hi) as Hc; cbn in Hc;
      rewrite Hopen in Hc; by assert (false = true) by (by apply Hc). }
  eexists. split.
  - eapply rtc_l; [exists AWorld; by eapply agent_request|].
    eapply rtc_l; [exists AWorld; apply agent_signal|].
    eapply rtc_l; [exists AShutter; apply agent_shutdown|].
    eapply rtc_once. exists AMain. by apply agent_closed.
  - by split_and!.
Qed.

(** An agent whose service refuses its configuration exits as if it had been
    told to, and is not restarted. *)
Lemma agent_failure_looks_clean scfg tls w :
  ap_Service p = Some (scfg, tls) -> svc_NodeID scfg = "" ->
  exists s c, rtc agent_life (agent_born w) s /\ al_exit s = Some c /\ restarts c = false
    /\ al_signalled s = false /\ "agent service stopped" ∈ al_errors s.
Proof.
  intros Hp Hid. eexists _, _. split.
  - unfold agent_born. rewrite Hp.
    eapply rtc_l; [exists AService; eapply agent_service_fails; [done|by unfold service_error, Run; rewrite Hid]|].
    eapply rtc_l; [exists AShutter; apply agent_shutdown|].
    eapply rtc_once. exists AMain. by apply agent_closed.
  - split_and!; try done. cbn. by apply list_elem_of_singleton.
Qed.
End agent.

(** ** The controller *)

Inductive Goroutine : Set := GOff | GRunning | GDone.

(** It closes the control plane first, then the ingress. *)
Inductive ControllerShutdown : Set := CWaiting | CControl | CIngress | CShut.

Inductive ControllerThread : Set := CWorld | CManager | CIngressServer | CShutter | CMain.

Record ControllerLife : Type := mkControllerLife {
  cl_signalled : bool;
  cl_cancelled : bool;
  cl_manager : Goroutine;            (** [manager.Run] *)
  cl_webhook : Goroutine;            (** [webhookServer.ListenAndServe] *)
  cl_control : Listener;
  cl_ingress : Listener;
  cl_shutdown : ControllerShutdown;
  cl_sys : Sys;                      (** the manager's jobs, calls and queue *)
  cl_errors : list string;
  cl_exit : option Z;
}.

Section controller.
Context `{Unicode} (cfg : RunnerManagerConfig) (env : Env).
(** Whether the GitHub integration is configured ([cp_GitHub]). *)
Context (github : bool).

Definition goroutine : Goroutine := if github then GRunning else GOff.

Definition controller_born (y : Sys) : ControllerLife :=
  mkControllerLife false false goroutine goroutine ln_open ln_open CWaiting y [] None.

Inductive controller_step : ControllerThread -> ControllerLife -> ControllerLife -> Prop :=
| controller_signal sg ca mg wb co ig sh y er :
    controller_step CWorld (mkControllerLife sg ca mg wb co ig sh y er None)
      (mkControllerLife true true mg wb co ig sh y er None)
| controller_request sg ca mg wb co ig sh y er :
    (** the control plane; what it does to the registry is the environment's *)
    ln_closing co = false ->
    controller_step CWorld (mkControllerLife sg ca mg wb co ig sh y er None)
      (mkControllerLife sg ca mg wb (ln_accept co) ig sh y er None)
| controller_answer sg ca mg wb co ig sh y er :
    (0 < ln_active co)%nat ->
    controller_step CWorld (mkControllerLife sg ca mg wb co ig sh y er None)
      (mkControllerLife sg ca mg wb (ln_answer co) ig sh y er None)
| controller_delivery sg ca mg co ig sh y er ev :
    (** a delivery that the webhook handler submits *)
    ln_closing ig = false -> storable_event ev ->
    controller_step CWorld (mkControllerLife sg ca mg GRunning co ig sh y er None)
      (mkControllerLife sg ca mg GRunning co (ln_accept ig) sh
         (mkSys (sys_st y) (Submit cfg (sys_queue y) ev).1) er None)
| ingress_answer sg ca mg wb co ig sh y er :
    (0 < ln_active ig)%nat ->
    controller_step CWorld (mkControllerLife sg ca mg wb co ig sh y er None)
      (mkControllerLife sg ca mg wb co (ln_answer ig) sh y er None)
| manager_event sg ca wb co ig sh y er ev q :
    sys_queue y = ev :: q ->
    controller_step CManager (mkControllerLife sg ca GRunning wb co ig sh y er None)
      (mkControllerLife sg ca GRunning wb co ig sh (mkSys (Process cfg env ev (sys_st y)).2 q) er None)
| manager_tick sg ca wb co ig sh y er now :
    controller_step CManager (mkControllerLife sg ca GRunning wb co ig sh y er None)
      (mkControllerLife sg ca GRunning wb co ig sh
         (mkSys (reconcile cfg env now (sys_st y)).2 (sys_queue y)) er None)
| manager_stops sg wb co ig sh y er :
    (** [Run] only returns when the context is done, and returns nil *)
    controller_step CManager (mkControllerLife sg true GRunning wb co ig sh y er None)
      (mkControllerLife sg true GDone wb co ig sh y er None)
| ingress_fails sg ca mg co ig sh y er :
    ln_closing ig = false ->
    controller_step CWorld (mkControllerLife sg ca mg GRunning co ig sh y er None)
      (mkControllerLife sg true mg GDone co ig sh y (er ++ ["GitHub webhook server stopped"]) None)
| ingress_closed sg ca mg co ig sh y er :
    ln_closing ig = true ->
    controller_step CIngressServer (mkControllerLife sg ca mg GRunning co ig sh y er None)
      (mkControllerLife sg ca mg GDone co ig sh y er None)
| controller_shutdown sg mg wb co ig y er :
    controller_step CShutter (mkControllerLife sg true mg wb co ig CWaiting y er None)
      (mkControllerLife sg true mg wb (ln_shut co) ig CControl y er None)
| controller_shut sg ca mg wb co ig y er :
    controller_step CShutter (mkControllerLife sg ca mg wb co ig CControl y er None)
      (if github then mkControllerLife sg ca mg wb co (ln_shut ig) CIngress y er None
       else mkControllerLife sg ca mg wb co ig CShut y er None)
| ingress_shut sg ca mg wb co ig y er :
    controller_step CShutter (mkControllerLife sg ca mg wb co ig CIngress y er None)
      (mkControllerLife sg ca mg wb co ig CShut y er None)
| controller_closed sg ca mg wb co ig sh y er :
    ln_closing co = true ->
    controller_step CMain (mkControllerLife sg ca mg wb co ig sh y er None)
      (mkControllerLife sg ca mg wb co ig sh y er (Some ExitOk))
| controller_listen_fails sg ca mg wb co ig sh y er :
    ln_closing co = false ->
    controller_step CWorld (mkControllerLife sg ca mg wb co ig sh y er None)
      (mkControllerLife sg ca mg wb co ig sh y (er ++ ["controller stopped"]) (Some ExitFailure)).

(** The process moves, or is replaced by a new one: restarted after its exit,
    or killed between any two calls of the manager. *)
Inductive controller_life (s : ControllerLife) : ControllerLife -> Prop :=
| controller_moves t s' : controller_step t s s' -> controller_life s s'
| controller_restarts h y :
    h `suffix_of` hist (sys_st (cl_sys s)) -> boots cfg env h y ->
    controller_life s (controller_born y).

Definition controller_reachable (s : ControllerLife) : Prop :=
  exists y, boots cfg env [] y /\ rtc controller_life (controller_born y) s.

(** *** The process refines the system of [System.v] *)

Lemma controller_step_refines t s s' :
  controller_step t s s' -> rtc (sys_step cfg env) (cl_sys s) (cl_sys s').
Proof.
  destruct 1; cbn; try apply rtc_refl.
  - apply rtc_once. by constructor.
  - apply rtc_once. by constructor.
  - apply rtc_once. constructor.
  - destruct github; apply rtc_refl.
Qed.

Lemma controller_reachable_sys s : controller_reachable s -> sys_reachable cfg env (cl_sys s).
Proof.
  intros (y & Hy & Hs). exists y. split; [done|]. revert s Hs. apply rtc_ind_r; [apply rtc_refl|].
  intros s s' _ [t s1 Hstep|h z Hh Hz] IH; (etransitivity; [exact IH|]).
  - by eapply controller_step_refines.
  - apply rtc_once. by eapply sys_crash.
Qed.

Record controller_inv (s : ControllerLife) : Prop := {
  ci_closing : ln_closing (cl_control s) = true <-> cl_shutdown s <> CWaiting;
  ci_shutdown : cl_shutdown s <> CWaiting -> cl_cancelled s = true;
  ci_cancelled : cl_cancelled s = true ->
    cl_signalled s = true \/ "GitHub webhook server stopped" ∈ cl_errors s;
  ci_ingress : ln_closing (cl_ingress s) = true -> cl_shutdown s = CIngress \/ cl_shutdown s = CShut;
  ci_manager : github = true -> cl_cancelled s = false -> cl_manager s = GRunning;
  ci_exit c : cl_exit s = Some c ->
    c = ExitOk /\ ln_closing (cl_control s) = true
    \/ c = ExitFailure /\ "controller stopped" ∈ cl_errors s /\ ln_closing (cl_control s) = false;
}.

Lemma controller_step_inv t s s' : controller_inv s -> controller_step t s s' -> controller_inv s'.
Proof.
  intros [Hc Hs Hca Hig Hm He] Hstep. destruct Hstep; try destruct github eqn:Eg; cbn in *; split; cbn;
    try solve [intros c; discriminate | tauto | split; congruence | intuition congruence];
    try (intros c [= <-]);
    rewrite ?elem_of_app, ?list_elem_of_singleton; first [tauto | intuition congruence].
Qed.

Lemma controller_born_inv y : controller_inv (controller_born y).
Proof. split; cbn; try done. unfold goroutine. by intros ->. Qed.

Lemma controller_reachable_inv s : controller_reachable s -> controller_inv s.
Proof.
  intros (y & _ & Hs). revert s Hs. apply rtc_ind_r; [apply controller_born_inv|].
  intros s s' _ [t s1 Hstep|h z _ _] Hi; [by eapply controller_step_inv|apply controller_born_inv].
Qed.

(** C15. The controller process refines the abstract system for its whole life:
    the requests, deliveries, ticks, shutdowns, exits and restarts of the
    process only ever take its jobs and its queue where the system's steps do,
    so every theorem about [sys_reachable] holds of it; its manager runs as
    long as nothing told the process to stop; and it only exits with status 0
    when a signal arrived or the ingress listener failed, and with status 1
    when the listener of the control plane failed. *)
Theorem controller_refines_system s :
  controller_reachable s ->
  sys_reachable cfg env (cl_sys s)
  /\ (github = true -> cl_cancelled s = false -> cl_manager s = GRunning)
  /\ (forall c, cl_exit s = Some c ->
        c = ExitOk /\ (cl_signalled s = true \/ "GitHub webhook server stopped" ∈ cl_errors s)
        \/ c = ExitFailure /\ "controller stopped" ∈ cl_errors s).
Proof.
  intros Hs. split; [by apply controller_reachable_sys|].
  apply controller_reachable_inv in Hs as Hi. split; [apply (ci_manager _ Hi)|].
  intros c Hc. destruct (ci_exit _ Hi _ Hc) as [[-> Hcl]|(-> & Her & _)]; [left|by right].
  split; [done|]. by apply (ci_cancelled _ Hi), (ci_shutdown _ Hi), (ci_closing _ Hi).
Qed.

(** *** It stops when it is told to *)

Definition cl_over (s : ControllerLife) : Prop := exists c, cl_exit s = Some c.

(** C16. Told to stop, a controller stops: in every execution that is fair to
    the shutdown goroutine and to [main], whatever requests, deliveries and
    manager's work go on, a process whose context is done exits. *)
Theorem controller_stops (e : Execution controller_step) :
  (exists y, ex_state e 0 = controller_born y) ->
  fair controller_step CShutter e -> fair controller_step CMain e ->
  leads_to controller_step e (fun s => cl_cancelled s = true) cl_over.
Proof.
  intros [y Hborn] Hshutter Hmain.
  assert (Hinv : forall i, controller_inv (ex_state e i)).
  { intros i. eapply (exec_stable controller_step e controller_inv); [|apply Nat.le_0_l|].
    - eauto using controller_step_inv.
    - rewrite Hborn. apply controller_born_inv. }
  apply (leads_to_under controller_step e controller_inv); [done|].
  set (waiting s := controller_inv s /\ cl_cancelled s = true /\ cl_shutdown s = CWaiting /\ cl_exit s = None).
  set (closing s := controller_inv s /\ ln_closing (cl_control s) = true /\ cl_exit s = None).
  apply (leads_to_trans _ e _ (fun s => waiting s \/ closing s \/ cl_over s)).
  - apply leads_to_impl. intros s [Hs Hca]. unfold waiting, closing.
    destruct (cl_exit s) as [c|] eqn:Ex; [right; right; by exists c|].
    destruct (cl_shutdown s) eqn:Esh; [left; by split_and!|right; left..];
      (split_and!; [done| |done]); apply (ci_closing _ Hs); by rewrite Esh.
  - apply (ensures_twice controller_step e CShutter CMain); [done|done|..].
    + intros [] (_ & Hca & Hsh & Hx). cbn in *. subst. eexists. by constructor.
    + intros [] (_ & Hl & Hx). cbn in *. subst. eexists. by constructor.
    + intros s s' (Hs & _ & Hw & _) Hstep. pose proof (controller_step_inv _ _ _ Hs Hstep) as Hs'.
      inversion Hstep; subst; cbn in *; [left; by split_and!|done..].
    + intros s s' _ Hstep. inversion Hstep; subst. by eexists.
    + intros t s s' (Hs & Hca & Hsh & Hx) Hstep. pose proof (controller_step_inv _ _ _ Hs Hstep) as Hs'.
      destruct Hstep; cbn in *; subst; try done;
        first [left; split_and!; done | right; left; split_and!; done | right; right; by eexists].
    + intros t s s' (Hs & Hl & Hx) Hstep. pose proof (controller_step_inv _ _ _ Hs Hstep) as Hs'.
      destruct Hstep; try destruct github; cbn in *; first [by right; eexists | left; by split_and!].
Qed.

(** A controller whose webhook listener fails (its port is taken, say) stops
    for good: [main] then returns with status 0, as after a signal, and a
    service manager that restarts on failure does not restart it. *)
Theorem ingress_failure_looks_clean y :
  github = true -> boots cfg env [] y ->
  exists s c, controller_reachable s /\ cl_exit s = Some c /\ restarts c = false
    /\ cl_signalled s = false /\ "GitHub webhook server stopped" ∈ cl_errors s.
Proof.
  intros Hg Hy.
  assert (Hborn : controller_born y = mkControllerLife false false GRunning GRunning ln_open ln_open
                                        CWaiting y [] None)
    by (unfold controller_born, goroutine; by rewrite Hg).
  clear Hg. eexists _, _. split.
  - exists y. split; [done|]. rewrite Hborn.
    eapply rtc_l; [eapply controller_moves, ingress_fails; done|].
    eapply rtc_l; [eapply controller_moves, controller_shutdown|].
    eapply rtc_once. eapply controller_moves. by apply controller_closed.
  - split_and!; try done. cbn. by apply list_elem_of_singleton.
Qed.
End controller.

(** ** Witnesses *)

Lemma demo_boots : boots demo_cfg happy_env [] demo_boot.
Proof. exact (boots_ok demo_cfg happy_env [] demo_boot T0 _ demo_load eq_refl). Qed.

(** The demo controller takes a delivery. *)
Definition delivered : ControllerLife :=
  mkControllerLife false false GRunning GRunning ln_open (mkListener 1 false) CWaiting demo_submitted [] None.

Lemma delivered_reachable : controller_reachable demo_cfg happy_env true delivered.
Proof.
  exists demo_boot. split; [exact demo_boots|]. apply rtc_once. eapply controller_moves.
  exact (controller_delivery demo_cfg happy_env true false false GRunning ln_open ln_open CWaiting
           demo_boot [] (demo_event "queued") eq_refl (demo_storable "queued")).
Qed.

Lemma controller_refines_system_witness : sys_reachable demo_cfg happy_env demo_submitted.
Proof. exact (proj1 (controller_refines_system demo_cfg happy_env true delivered delivered_reachable)). Defined.

(** A signal, the shutdown, the exit. *)
Definition stopping (i : nat) : ControllerLife :=
  let life sg co sh ex :=
    mkControllerLife sg sg GRunning GRunning co ln_open sh demo_boot [] ex in
  match i with
  | 0%nat => life false ln_open CWaiting None
  | 1%nat => life true ln_open CWaiting None
  | 2%nat => life true (ln_shut ln_open) CControl None
  | _ => life true (ln_shut ln_open) CControl (Some ExitOk)
  end.

Definition stopping_thread (i : nat) : option ControllerThread :=
  match i with 0%nat => Some CWorld | 1%nat => Some CShutter | 2%nat => Some CMain | _ => None end.

Lemma stopping_moves i :
  moves (controller_step demo_cfg happy_env true) (stopping_thread i) (stopping i) (stopping (S i)).
Proof. destruct i as [|[|[|i]]]; cbn; by constructor. Qed.

Definition stopping_run : Execution (controller_step demo_cfg happy_env true) :=
  mkExecution stopping stopping_thread stopping_moves.

Lemma stopping_fair t : fair (controller_step demo_cfg happy_env true) t stopping_run.
Proof.
  intros i. exists (3 + i)%nat. split; [lia|]. right. intros [s' Hs]. cbn in Hs. inversion Hs.
Qed.

Lemma controller_stops_witness : exists j, (1 <= j)%nat /\ cl_over (stopping j).
Proof.
  exact (controller_stops demo_cfg happy_env true stopping_run (ex_intro _ demo_boot eq_refl)
           (stopping_fair CShutter) (stopping_fair CMain) 1%nat eq_refl).
Defined.

Lemma ingress_failure_looks_clean_witness :
  exists s c, controller_reachable demo_cfg happy_env true s /\ cl_exit s = Some c /\ restarts c = false
    /\ cl_signalled s = false /\ "GitHub webhook server stopped" ∈ cl_errors s.
Proof. exact (ingress_failure_looks_clean demo_cfg happy_env true demo_boot eq_refl demo_boots). Defined.

(** A delivery that was acknowledged can be lost: the demo controller takes it,
    is told to stop, and its successor knows nothing of the job. *)
Example acknowledged_delivery_lost :
  exists s, rtc (controller_life demo_cfg happy_env true) delivered s
    /\ cl_exit delivered = None /\ sys_queue (cl_sys delivered) = [demo_event "queued"]
    /\ sys_queue (cl_sys s) = [] /\ jobs (sys_st (cl_sys s)) !! 12 = None
    /\ cl_errors s = [].
Proof.
  exists (controller_born true demo_boot). split.
  - eapply rtc_l; [eapply controller_moves, controller_signal|].
    eapply rtc_l; [eapply controller_moves, controller_shutdown|].
    eapply rtc_l; [eapply controller_moves, controller_closed; done|].
    apply rtc_once. apply (controller_restarts _ _ _ _ [] demo_boot); [apply suffix_nil|exact demo_boots].
  - split_and!; vm_compute; reflexivity.
Qed.

(** The demo agent, stopped while it answers a probe. *)
Definition idle_client : HttpClient DHistory :=
  mkHttpClient _ (fun _ _ => Some (ErrMsg "no network")) (fun _ w => (Err (ErrMsg "no network"), w)).

#[local] Existing Instance Commands.demo_tls.
#[local] Existing Instance Commands.plain_errors.

Definition demo_agent_born : AgentLife := agent_born demo_agent [].

Lemma demo_agent_reachable : agent_reachable demo_agent idle_client "linux" "amd64" demo_agent_born.
Proof. exists []. apply rtc_refl. Qed.

Lemma demo_probe_pair :
  agent_handler (ap_Server demo_agent) "GET" "/v1/capacity" "" (Some ["controller"]) "linux" "amd64" T0
    (al_world demo_agent_born)
  = Some (probed.1, probed.2).
Proof. exact (eq_trans (proj1 demo_probe) (f_equal Some (surjective_pairing probed))). Qed.

Lemma agent_shutdown_cuts_requests_witness :
  exists s', rtc (agent_life demo_agent idle_client "linux" "amd64") demo_agent_born s'
    /\ al_exit s' = Some ExitOk /\ al_world s' = probed.2
    /\ al_shutdown s' = AShutting /\ ln_active (al_listener s') = 1%nat.
Proof.
  exact (agent_shutdown_cuts_requests demo_agent idle_client "linux" "amd64" demo_agent_born
           ("root", ["controller"]) (Some ["controller"]) "GET" "/v1/capacity" "" T0 probed.1 probed.2
           demo_agent_reachable eq_refl eq_refl (proj1 demo_agent_admits) demo_probe_pair).
Defined.
