(* ===== verification/Fleet.v ===== *)
(** * The whole fleet: a controller, its network, and its workers

    Both programs together.  The controller is a process of [Lifetime.v] whose
    calls to agents go through its HTTP client ([AgentClient.v]); a network
    that may refuse a request, lose its answer, or deliver it to a worker that
    is still at work when the client's timeout ends, carries them, over TLS, to
    workers that [agent_main] of [Commands.v] started; each worker runs the
    handlers of [Api.v] over the Docker backend of [Docker.v], next to its
    own heartbeats, its sweeps, and the requests of strangers.

    A history of the controller determines what every worker's docker was
    asked ([fleet_world]).  A request that was abandoned stays with the worker
    and is carried out at any later moment, or never.  Two theorems compose the
    development from the webhook's trust gate down to the docker command line:
    a container runs only for a trusted job that is on the controller's disk,
    and an instance the controller believes in is a container some worker
    started.  A third says when the cleanup of a failed request works, and an
    example when it does not. *)

From S2P Require Import Prelude GoTime GoStrings GoConv GoFlag GoDate GoUtf8 GoJson GoUrl Model Http Scheduler Policy Jobs Wire WireOk Server Env Manager Machine Refinement Scenario System Lifecycle Webhook Agent Api AgentService AgentClient Docker Containers Bounds Tls Commands Lifetime.
From stdpp Require Import base list strings gmap relations.
From Stdlib Require Import ZArith Ascii String Lia.
Open Scope string_scope.
Open Scope list_scope.
Open Scope Z_scope.

(** ** Workers and their network *)

Section fleet.
Context `{Unicode} `{ErrorText} `{UrlParser} {CertPool Certificate Peer : Type}.
Context `{TlsLibrary CertPool Certificate Peer}.

(** A machine with the process that [agent_main] started on it. *)
Record Worker : Type := mkWorker {
  wk_Getenv : string -> string;
  wk_args : list string;
  wk_ReadFile : string -> result string;
  wk_host : DockerHost;
  wk_GOOS : string;
  wk_GOARCH : string;
  wk_process : AgentProcess (CertPool := CertPool) (Certificate := Certificate);
}.

Definition wk_started (w : Worker) : Prop :=
  agent_main (wk_Getenv w) (wk_args w) (wk_ReadFile w) (wk_host w) = Started (wk_process w).
Definition wk_options (w : Worker) (o : AgentOptions) : Prop :=
  agent_parsed (wk_Getenv w) (wk_args w) o.
Abbreviation wk_server w := (ap_Server (wk_process w)).

(** What a worker did and does: its log of calls to docker, newest first, and
    the requests (a path with each) that are still running although whoever
    sent them has given up. *)
Record WorkerState : Type := mkWorkerState {
  ws_log : DHistory;
  ws_running : list (string * HttpRequest);
}.
Definition idle : WorkerState := mkWorkerState [] [].

(** The workers' states, by their addresses. *)
Abbreviation FleetWorld := (gmap string WorkerState).
Definition worker_at (W : FleetWorld) (addr : string) : WorkerState := default idle (W !! addr).
Definition docker_log (W : FleetWorld) (addr : string) : DHistory := ws_log (worker_at W addr).
Definition running_at (W : FleetWorld) (addr : string) : list (string * HttpRequest) :=
  ws_running (worker_at W addr).

(** What becomes of a request: it never arrives; it is carried out, and its
    answer is lost or comes back; or it arrives, and the client's timeout is
    over before it is carried out, which may still happen, or never. *)
Inductive Fate : Set := Refused | TimedOut | AnswerLost | Answered.

(** What else happens on a worker. *)
Inductive Chore : Type :=
| CTick (t : Tick)
| CRequest (peer : Peer) (method path text : string) (now : Time)
| CFinish (n : nat).     (** the [n]-th of the running requests is carried out *)

Context (workers : gmap string Worker) (controller : Peer).
(** Name resolution, and the path of a URL. *)
Context (resolve : string -> option (string * string)).
Context (fate : History -> HttpRequest -> Fate) (chores : History -> list (string * Chore)).
(** What the workers' own requests are answered. *)
Context (tell : DHistory -> HttpRequest -> result HttpAnswer).

(** A worker carries out a request of a peer. *)
Definition carry_out (w : Worker) (peer : Peer) (method path text : string) (now : Time)
  (d : DHistory) : option (HttpAnswer * DHistory) :=
  tls ← admitted (ap_TLS (wk_process w)) peer;
  agent_handler (wk_server w) method path text tls (wk_GOOS w) (wk_GOARCH w) now d.

(** A request of the controller, from its connection to its answer. *)
Definition fleet_Do (h : History) (rq : HttpRequest) (W : FleetWorld) : result HttpAnswer * FleetWorld :=
  match resolve (hr_URL rq) with
  | None => (Err (ErrMsg "no such host"), W)
  | Some (addr, path) =>
      let s := worker_at W addr in
      match workers !! addr, fate h rq with
      | None, _ | _, Refused => (Err (ErrMsg "connection refused"), W)
      | Some w, fate =>
          match admitted (ap_TLS (wk_process w)) controller, fate with
          | None, _ => (Err (ErrMsg "remote error: tls: bad certificate"), W)
          | Some _, TimedOut =>
              (Err (ErrMsg "context deadline exceeded"),
               <[addr := mkWorkerState (ws_log s) ((path, rq) :: ws_running s)]> W)
          | Some _, _ =>
              match carry_out w controller (hr_Method rq) path (hr_Body rq) 0 (ws_log s) with
              | None => (Ok (mkHttpAnswer StatusNotFound ""), W)
              | Some (ans, d) =>
                  (match fate with AnswerLost => Err (ErrMsg "EOF") | _ => Ok ans end,
                   <[addr := mkWorkerState d (ws_running s)]> W)
              end
          end
      end
  end.

Definition fleet_client (h : History) : HTTPAgentClient FleetWorld :=
  mkHTTPAgentClient _ (Some (mkHttpClient _ (fun _ _ => None) (fleet_Do h))) false.

Definition do_chore (w : Worker) (c : Chore) (s : WorkerState) : WorkerState :=
  let log := ws_log s in
  match c with
  | CTick t =>
      match ap_Service (wk_process w), as_Backend (wk_server w) with
      | Some (scfg, _), Some b =>
          mkWorkerState
            (service_tick scfg b (mkHttpClient _ (fun _ _ => None) (fun rq d => (tell d rq, d)))
               (wk_GOOS w) (wk_GOARCH w) log t) (ws_running s)
      | _, _ => s
      end
  | CRequest peer method path text now =>
      mkWorkerState (default log (snd <$> carry_out w peer method path text now log)) (ws_running s)
  | CFinish n =>
      match ws_running s !! n with
      | None => s
      | Some (path, rq) =>
          mkWorkerState
            (default log (snd <$> carry_out w controller (hr_Method rq) path (hr_Body rq) 0 log))
            (delete n (ws_running s))
      end
  end.

Definition run_chore (W : FleetWorld) (c : string * Chore) : FleetWorld :=
  match workers !! c.1 with
  | Some w => <[c.1 := do_chore w c.2 (worker_at W c.1)]> W
  | None => W
  end.

(** One event of the controller, at the workers. *)
Definition fleet_event (h : History) (e : Event) (W : FleetWorld) : FleetWorld :=
  match e with
  | ECreateInstance node spec _ => (AgentClient.CreateInstance (fleet_client h) node spec W).2
  | EDestroyInstance node id _ => (AgentClient.DestroyInstance (fleet_client h) node id W).2
  | _ => W
  end.

Fixpoint fleet_world (h : History) : FleetWorld :=
  match h with
  | [] => foldl run_chore ∅ (chores [])
  | e :: h' => foldl run_chore (fleet_event h' e (fleet_world h')) (chores h)
  end.

(** The environment of the manager, with this fleet for agents. *)
Definition with_fleet (env : Env) : Env := {|
  env_files := env_files env;
  env_now := env_now env;
  env_server := env_server env;
  env_picks := env_picks env;
  env_GetWorkflowRun := env_GetWorkflowRun env;
  env_GenerateJITConfig := env_GenerateJITConfig env;
  env_DeleteRunner := env_DeleteRunner env;
  env_CreateInstance h node spec :=
    (AgentClient.CreateInstance (fleet_client h) node spec (fleet_world h)).1;
  env_DestroyInstance h node id :=
    (AgentClient.DestroyInstance (fleet_client h) node id (fleet_world h)).1;
  env_ReadFile := env_ReadFile env;
  env_MkdirAll := env_MkdirAll env;
  env_WriteFile := env_WriteFile env;
  env_Rename := env_Rename env;
|}.

Lemma with_fleet_ok cfg env seen : EnvOk cfg env seen -> EnvOk cfg (with_fleet env) seen.
Proof.
  intros [Hr Hs Hn _ Hj Hc Hd]. split; try done. intros h n spec inst. cbn.
  destruct (AgentClient.CreateInstance _ n spec _) as [res W] eqn:E. cbn. intros ->.
  by eapply CreateInstance_named.
Qed.

(** The fleet is deployed as intended: every worker was started by its
    [main], without [-insecure-http], and nobody but the controller holds a
    certificate with the controller's name. *)
Class FleetOk : Prop := {
  fleet_started addr w : workers !! addr = Some w -> wk_started w;
  fleet_secure addr w o : workers !! addr = Some w -> wk_options w o -> ao_insecureHTTP o = false;
  fleet_strangers h addr w o peer method path text now :
    (addr, CRequest peer method path text now) ∈ chores h ->
    workers !! addr = Some w -> wk_options w o ->
    ~ vouched (wk_ReadFile w) (ao_caFile o) peer (wanted_identity (wk_server w));
}.
Context `{Hfleet : !FleetOk}.

(** ** What an event adds to the logs *)

Lemma wk_docker addr w :
  workers !! addr = Some w ->
  exists o, wk_options w o
    /\ as_Backend (wk_server w) = Some (docker_backend (agent_docker o) (wk_host w)).
Proof.
  intros Hw%fleet_started. unfold wk_started in Hw.
  apply agent_main_inv in Hw as (o & Ho & -> & _). by exists o.
Qed.

Lemma wk_options_det w o o' : wk_options w o -> wk_options w o' -> o = o'.
Proof. intros (v & Hv & ->) (v' & Hv' & ->). congruence. Qed.

(** What docker on the worker at [addr] may be asked on behalf of requests
    that satisfy [A]. *)
Definition made (A : HttpRequest -> Prop) (addr : string) (c : DCall) : Prop :=
  calm c \/ exists rq w o spec, A rq /\ hr_Method rq = "POST"
    /\ workers !! addr = Some w /\ wk_options w o
    /\ decode_job (hr_Body rq) = Ok spec /\ creates (agent_docker o) spec c.

Section evolution.
(** A kind of requests, and a worker. *)
Context (A : HttpRequest -> Prop) (addr : string).

Definition only (s : WorkerState) : Prop := Forall (fun x => A x.2) (ws_running s).

(** As long as only such requests run on the worker, this remains so, and its
    log is extended on behalf of such requests. *)
Definition evolves (s s' : WorkerState) : Prop :=
  only s -> only s' /\ exists k, ws_log s' = k ++ ws_log s /\ Forall (made A addr) k.

Lemma evolves_refl s : evolves s s.
Proof. intros Hs. split; [done|]. by exists []. Qed.

Lemma evolves_trans s1 s2 s3 : evolves s1 s2 -> evolves s2 s3 -> evolves s1 s3.
Proof.
  intros H12 H23 (Hs2 & k & E & Hk)%H12. destruct (H23 Hs2) as (Hs3 & k' & E' & Hk').
  split; [done|]. exists (k' ++ k). rewrite E', E, app_assoc. split; [done|]. by apply Forall_app.
Qed.

Lemma evolves_calm s k :
  Forall calm k -> evolves s (mkWorkerState (k ++ ws_log s) (ws_running s)).
Proof.
  intros Hk Hs. split; [done|]. exists k. split; [done|]. eapply Forall_impl; [exact Hk|by left].
Qed.

(** A request of that kind, carried out. *)
Lemma evolves_carry_out w rq peer path now s ans d running :
  workers !! addr = Some w -> A rq ->
  (forall x, x ∈ running -> x ∈ ws_running s) ->
  carry_out w peer (hr_Method rq) path (hr_Body rq) now (ws_log s) = Some (ans, d) ->
  evolves s (mkWorkerState d running).
Proof.
  intros Hw Hrq Hrun. unfold carry_out. destruct (admitted _ peer) as [tls|]; [|done].
  cbn [mbind option_bind]. intros Hh Hs. destruct (wk_docker _ _ Hw) as (o & Ho & Hb).
  destruct (agent_handler_asked _ _ _ _ _ _ _ Hb _ _ _ _ _ _ Hh) as (k & -> & Hk).
  unfold only in *. rewrite Forall_forall in Hs. split.
  - cbn. apply Forall_forall. eauto.
  - exists k. split; [done|]. eapply Forall_impl; [exact Hk|].
    intros c [Hc|(Hm & spec & Hspec & Hc)]; [by left|right]. by exists rq, w, o, spec.
Qed.

(** A peer that is not the controller changes nothing. *)
Lemma carry_out_stranger h w peer method path text now d ans d' :
  workers !! addr = Some w -> (addr, CRequest peer method path text now) ∈ chores h ->
  carry_out w peer method path text now d = Some (ans, d') -> d' = d.
Proof.
  intros Hw Hc. unfold carry_out. destruct (admitted _ peer) as [tls|] eqn:Had; [|done].
  cbn [mbind option_bind]. intros Hh.
  destruct (wk_docker _ _ Hw) as (o & Ho & Hb).
  destruct (agent_acts_for_controller _ _ _ _ _ (fleet_started _ _ Hw)) as (o' & Ho' & _ & Hacts).
  pose proof (wk_options_det _ _ _ Ho Ho') as <-.
  specialize (Hacts (fleet_secure _ _ _ Hw Ho) peer tls method path text _ _ now d ans d' Had Hh).
  destruct (agent_handler_asked _ _ _ _ _ _ _ Hb _ _ _ _ _ _ Hh) as ([|c k] & -> & _); [done|].
  exfalso. apply (fleet_strangers _ _ _ _ _ _ _ _ _ Hc Hw Ho), Hacts. intros E.
  apply (f_equal List.length) in E. rewrite length_app in E. cbn in E. lia.
Qed.

Lemma do_chore_evolves h w c s :
  workers !! addr = Some w -> (addr, c) ∈ chores h -> evolves s (do_chore w c s).
Proof.
  intros Hw Hc. destruct c as [t|peer method path text now|n]; cbn [do_chore].
  - destruct (ap_Service _) as [[scfg tls]|]; [|apply evolves_refl].
    destruct (wk_docker _ _ Hw) as (o & _ & ->).
    destruct (service_tick_calm (agent_docker o) (wk_host w) scfg
      (mkHttpClient _ (fun _ _ => None) (fun rq d => (tell d rq, d))) (wk_GOOS w) (wk_GOARCH w) t
      (fun _ _ => eq_refl) (ws_log s)) as (k & E & Hk). cbn [snd] in E. rewrite E.
    by apply evolves_calm.
  - destruct (carry_out _ _ _ _ _ _ _) as [[ans d]|] eqn:Eh.
    + apply (carry_out_stranger h) in Eh as ->; [|done..]. by apply (evolves_calm s []).
    + by apply (evolves_calm s []).
  - destruct (ws_running s !! n) as [[path rq]|] eqn:En; [|apply evolves_refl]. intros Hs.
    assert (Hrq : A rq) by exact (Forall_lookup_1 _ _ _ _ Hs En).
    destruct (carry_out _ _ _ _ _ _ _) as [[ans d]|] eqn:Eh.
    + eapply (evolves_carry_out w rq); [done|done| |exact Eh|done].
      intros x Hx. eapply elem_of_sublist; [exact Hx|apply sublist_delete].
    + split; [by apply Forall_delete|by exists []].
Qed.

(** The same for the worker among the others. *)
Definition fleet_evolves (W W' : FleetWorld) : Prop := evolves (worker_at W addr) (worker_at W' addr).

Lemma fleet_evolves_insert W a s :
  (a = addr -> evolves (worker_at W addr) s) -> fleet_evolves W (<[a := s]> W).
Proof.
  intros Hs. unfold fleet_evolves, worker_at at 2. destruct (decide (a = addr)) as [->|Hne].
  - rewrite lookup_insert_eq. by apply Hs.
  - rewrite lookup_insert_ne by done. apply evolves_refl.
Qed.

Lemma run_chores_evolve h W : fleet_evolves W (foldl run_chore W (chores h)).
Proof.
  enough (Hgo : forall l, (forall c, c ∈ l -> c ∈ chores h) -> fleet_evolves W (foldl run_chore W l))
    by by apply Hgo.
  intros l. revert W. induction l as [|c l IH]; intros W Hl; [apply evolves_refl|].
  cbn [foldl]. eapply evolves_trans; [|apply IH; intros; apply Hl; by right].
  specialize (Hl c ltac:(by left)). destruct c as [a c]. unfold run_chore. cbn [fst snd].
  destruct (workers !! a) as [w|] eqn:Hw; [|apply evolves_refl].
  apply fleet_evolves_insert. intros ->. by apply (do_chore_evolves h).
Qed.

Lemma fleet_Do_evolves h rq W : A rq -> fleet_evolves W (fleet_Do h rq W).2.
Proof.
  intros Hrq. unfold fleet_Do. destruct (resolve _) as [[a path]|]; [|apply evolves_refl].
  destruct (workers !! a) as [w|] eqn:Hw; [|apply evolves_refl].
  assert (Hdone : forall ans d res, carry_out w controller (hr_Method rq) path (hr_Body rq) 0
                    (ws_log (worker_at W a)) = Some (ans, d) ->
    fleet_evolves W (@snd (result HttpAnswer) FleetWorld
      (res, <[a := mkWorkerState d (ws_running (worker_at W a))]> W))).
  { intros ans d res Hc. apply fleet_evolves_insert. intros ->. by eapply evolves_carry_out. }
  destruct (fate h rq); [apply evolves_refl|..];
    (destruct (admitted _ controller) as [tls|]; [|apply evolves_refl]).
  - apply fleet_evolves_insert. intros -> Hs. split; [by constructor|]. by exists [].
  - destruct (carry_out _ _ _ _ _ _ _) as [[ans d]|] eqn:Eh; [by eapply Hdone|apply evolves_refl].
  - destruct (carry_out _ _ _ _ _ _ _) as [[ans d]|] eqn:Eh; [by eapply Hdone|apply evolves_refl].
Qed.

(** The requests an event of the controller sends. *)
Definition sends (e : Event) (rq : HttpRequest) : Prop :=
  match e with
  | ECreateInstance node spec _ => hr_Method rq = "POST" /\ hr_Body rq = marshal_spec spec
  | EDestroyInstance node id _ => hr_Method rq = "DELETE"
  | _ => False
  end.

Lemma fleet_event_evolves h e W :
  (forall rq, sends e rq -> A rq) -> fleet_evolves W (fleet_event h e W).
Proof.
  intros HA. destruct e; cbn [fleet_event]; try apply evolves_refl.
  - unfold AgentClient.CreateInstance. destruct (endpoint _ _) as [base|e]; [|apply evolves_refl].
    cbn [ac_client fleet_client hc_NewRequest hc_Do].
    pose proof (fleet_Do_evolves h (mkHttpRequest "POST" (base +:+ "/v1/instances") (marshal_spec spec)) W
                  ltac:(by apply HA)) as HW.
    destruct (fleet_Do h _ W) as [[resp|e] W']; [|exact HW]. by repeat destruct_match.
  - unfold AgentClient.DestroyInstance. destruct (endpoint _ _) as [base|e]; [|apply evolves_refl].
    cbn [ac_client fleet_client hc_NewRequest hc_Do].
    destruct (String.eqb _ ""); [apply evolves_refl|]. set (rq := mkHttpRequest "DELETE" _ "").
    pose proof (fleet_Do_evolves h rq W ltac:(by apply HA)) as HW.
    destruct (fleet_Do h rq W) as [[resp|e] W']; [|exact HW]. by repeat destruct_match.
Qed.

Lemma fleet_world_step h e :
  (forall rq, sends e rq -> A rq) -> fleet_evolves (fleet_world h) (fleet_world (e :: h)).
Proof.
  intros HA. cbn [fleet_world]. eapply evolves_trans; [by apply fleet_event_evolves|].
  apply (run_chores_evolve (e :: h)).
Qed.
End evolution.

(** The logs only grow. *)
Lemma fleet_world_grows h1 h2 addr :
  docker_log (fleet_world h2) addr `suffix_of` docker_log (fleet_world (h1 ++ h2)) addr.
Proof.
  induction h1 as [|e h1 IH]; [done|]. etransitivity; [exact IH|].
  destruct (fleet_world_step (fun _ => True) addr (h1 ++ h2) e ltac:(done)) as (_ & k & E & _).
  { by apply Forall_forall. }
  by exists k.
Qed.

(** Everything that runs or ran on a worker was sent by the controller. *)
Definition sent (h : History) (rq : HttpRequest) : Prop := exists e, e ∈ h /\ sends e rq.

Lemma made_mono (A B : HttpRequest -> Prop) addr c :
  (forall rq, A rq -> B rq) -> made A addr c -> made B addr c.
Proof.
  intros HAB [Hc|(rq & w & o & spec & HA & H')]; [by left|right]. exists rq, w, o, spec. split; [eauto|done].
Qed.

Lemma fleet_world_sent h addr :
  only (sent h) (worker_at (fleet_world h) addr)
  /\ Forall (made (sent h) addr) (docker_log (fleet_world h) addr).
Proof.
  induction h as [|e h [IHr IHl]].
  - cbn [fleet_world]. destruct (run_chores_evolve (sent []) addr [] ∅) as (Hr & k & E & Hk);
      [by apply Forall_nil|].
    split; [done|]. unfold docker_log. rewrite E. by rewrite app_nil_r.
  - assert (Hmono : forall rq, sent h rq -> sent (e :: h) rq)
      by (intros rq (e' & He & Hs); exists e'; split; [by right|done]).
    destruct (fleet_world_step (sent (e :: h)) addr h e) as (Hr & k & E & Hk).
    { intros rq Hs. exists e. split; [by left|done]. }
    { eapply Forall_impl; [exact IHr|]. auto. }
    split; [done|]. unfold docker_log. rewrite E. apply Forall_app. split; [done|].
    eapply Forall_impl; [exact IHl|]. intros c. by apply made_mono.
Qed.

(** Where every container comes from. *)
Lemma fleet_world_created h addr args out err :
  CRun ("run" :: args) out err ∈ docker_log (fleet_world h) addr ->
  exists h1 node spec res h2 w o spec',
    h = h1 ++ ECreateInstance node spec res :: h2
    /\ workers !! addr = Some w /\ wk_options w o
    /\ decode_job (marshal_spec spec) = Ok spec'
    /\ job_command (agent_docker o) spec' ("run" :: args).
Proof.
  intros Hc. destruct (fleet_world_sent h addr) as [_ Hall]. rewrite Forall_forall in Hall.
  apply Hall in Hc as [[]|(rq & w & o & spec' & (e & He & Hs) & Hm & Hw & Ho & Hdec & Hc)].
  destruct e as [| | | | | |node spec res|node id res| | | |]; try done; cbn [sends] in Hs.
  2: { by rewrite Hs in Hm. }
  destruct Hs as [_ Hbody]. rewrite Hbody in Hdec.
  destruct Hc as [[]|(args' & out' & err' & [= <- <- <-] & Hj)].
  apply list_elem_of_split in He as (h1 & h2 & ->). by exists h1, node, spec, res, h2, w, o, spec'.
Qed.

(** An answer the client takes for an instance: the worker's [Create] made it. *)
Lemma CreateInstance_made h node spec W inst W' :
  AgentClient.CreateInstance (fleet_client h) node spec W = (Ok inst, W') ->
  exists addr w o spec' args out d made,
    workers !! addr = Some w /\ wk_options w o
    /\ decode_job (marshal_spec spec) = Ok spec'
    /\ docker_log W' addr = CRun args out None :: d
    /\ job_command (agent_docker o) spec' args
    /\ inst_ID made = TrimSpace out /\ (announced made -> inst = made).
Proof.
  intros HC. eapply CreateInstance_promise in HC as (_ & base & resp & _ & _ & HD & Hs & Hdec & _);
    [|done]. cbn [hc_Do] in HD. revert HD. unfold fleet_Do, carry_out. cbn [hr_URL hr_Method hr_Body].
  destruct (resolve _) as [[addr path]|]; [|done].
  destruct (workers !! addr) as [w|] eqn:Hw; [|done].
  destruct (wk_docker _ _ Hw) as (o & Ho & Hb). destruct (fate h _); [done|..];
    (destruct (admitted _ controller) as [tls|]; [|done]); [done|..]; cbn [mbind option_bind];
    destruct (agent_handler _ _ _ _ _ _ _ _ _) as [[ans d]|] eqn:Eh;
    try done; try (by intros [= <- _]).
  intros [= -> <-].
  destruct (agent_handler_created _ _ _ _ _ _ _ Hb _ _ _ _ _ Eh Hs)
    as (spec' & made & Hspec & Hmade & ->).
  apply Create_runs in Hmade as (args & out & d0 & -> & Hj & Hid).
  exists addr, w, o, spec', args, out, d0, made. split_and!; try done.
  - unfold docker_log, worker_at. by rewrite lookup_insert_eq.
  - intros Ha%announced_decodes. congruence.
Qed.

(** ** The theorems *)

Context (cfg : RunnerManagerConfig) (env : Env) (github : bool).
Context (seen : Node -> Prop) `{Hok : !EnvOk cfg env seen}.

#[local] Instance fleet_env_ok : EnvOk cfg (with_fleet env) seen := with_fleet_ok cfg env seen Hok.

(** The specification that arrives is the one that was sent. *)
Lemma job_arrives id r jit spec' :
  storable r -> utf8 (jit_EncodedConfig jit) = true ->
  utf8 (RunnerImage cfg) = true -> in_int64 (RunnerTimeout cfg) ->
  slen (marshal_spec (job_spec cfg id r jit)) <= maxBody ->
  decode_job (marshal_spec (job_spec cfg id r jit)) = Ok spec' ->
  spec' = transmitted (job_spec cfg id r jit).
Proof.
  intros Hr Hj Hi Ht Hlen. unfold decode_job. rewrite stake_all by done.
  rewrite decode_marshal_spec by by apply job_spec_sendable. by intros [= <-].
Qed.

(** C2. A container runs only for a trusted job: in every life of the
    controller, restarts included, whatever GitHub, the network, the hosts and
    the other peers of the workers do, each [docker run] on any worker comes
    from one request for an instance in the controller's history, made after
    the workflow run was fetched and found trusted for the repository, for a
    job that was on the controller's disk as being provisioned; the command is
    that of the specification in the request, and when that fits the API's
    limit, the container has the job's deterministic name, is labelled with
    the trusted repository, gets the JIT configuration, and runs the
    configured image with the runner's entry point. *)
Theorem containers_run_trusted_jobs s addr args out err :
  controller_reachable cfg (with_fleet env) github s ->
  CRun ("run" :: args) out err ∈ docker_log (fleet_world (hist (sys_st (cl_sys s)))) addr ->
  exists h1 node spec res h2 run id r jit w o spec',
    hist (sys_st (cl_sys s)) = h1 ++ ECreateInstance node spec res :: h2
    /\ last_run h2 = Some (Ok run) /\ (trustedWorkflowRun run (spec_Repository spec)).1 = true
    /\ spec = job_spec cfg id r jit
    /\ (StateFile cfg <> "" -> exists data js, disk cfg env h2 = Some data
          /\ unmarshalState data = Ok (Some js) /\ js !! id = Some r
          /\ rec_Status r = jobProvisioning)
    /\ workers !! addr = Some w /\ wk_options w o
    /\ decode_job (marshal_spec spec) = Ok spec'
    /\ job_command (agent_docker o) spec' ("run" :: args)
    /\ (utf8 (RunnerImage cfg) = true -> in_int64 (RunnerTimeout cfg) ->
        slen (marshal_spec spec) <= maxBody ->
        take 3 args = ["-d"; "--name"; containerName id]
        /\ has_flag "--label" ("io.cifleet.repository=" +:+ spec_Repository spec) ("run" :: args)
        /\ has_flag "--env" ("ACTIONS_RUNNER_INPUT_JITCONFIG=" +:+ jit_EncodedConfig jit) ("run" :: args)
        /\ exists front, "run" :: args = front ++ [RunnerImage cfg; "/home/runner/run.sh"]).
Proof.
  intros Hs%controller_reachable_sys Hc. apply (sys_reachable_Inv _ _ seen) in Hs as [_ Hg].
  destruct (fleet_world_created _ _ _ _ _ Hc)
    as (h1 & node & spec & res & h2 & w & o & spec' & E & Hw & Ho & Hdec & Hj).
  rewrite E in Hg. apply good_create in Hg as [[(run & Hrun & Htr) Hjob] _].
  destruct Hjob as (id & r & jit & _ & Hjit & -> & Hrok & Hst & _ & _ & Hdisk).
  exists h1, node, (job_spec cfg id r jit), res, h2, run, id, r, jit, w, o, spec'.
  split_and!; try done.
  - intros Hsf. destruct (Hdisk Hsf) as (data & js & ? & ? & ?). by exists data, js.
  - intros Himg Ht Hlen. assert (spec' = transmitted (job_spec cfg id r jit)) as ->.
    { by eapply job_arrives; [apply (ro_storable _ _ _ Hrok)|..]. }
    apply job_command_says in Hj as (Hname & _ & Hrepo & Henv & front & Hcmd).
    split_and!; [|done| |by exists front].
    + injection Hname as Hname. rewrite Hname, sanitizeName_safeName. cbn [spec_ID transmitted job_spec].
      rewrite safeName_containerJobID; [done|]. pose proof (ro_pos _ _ _ Hrok). lia.
    + apply (Henv "ACTIONS_RUNNER_INPUT_JITCONFIG"). cbn. by rewrite lookup_insert_eq.
Qed.

(** Requests that start nothing. *)
Definition not_create (rq : HttpRequest) : Prop := hr_Method rq <> "POST".

Lemma made_not_create addr c : made not_create addr c -> calm c.
Proof. intros [Hc|(rq & ? & ? & ? & Hrq & Hm & _)]; [done|by destruct Hrq]. Qed.

(** Local calls leave the workers to their chores. *)
Lemma fleet_world_local A addr new h :
  Lifecycle.remote new = [] -> fleet_evolves A addr (fleet_world h) (fleet_world (new ++ h)).
Proof.
  induction new as [|e new IH]; [intros _; apply evolves_refl|]. unfold Lifecycle.remote. cbn [List.filter].
  destruct (is_remote e) eqn:He; [done|]. intros Hnew%IH. eapply evolves_trans; [exact Hnew|].
  cbn [app]. apply fleet_world_step. by destruct e.
Qed.

(** The controller's DELETE of a job's container, delivered. *)
Lemma DestroyInstance_delivered h node base addr w cns id W :
  workers !! addr = Some w ->
  admitted (ap_TLS (wk_process w)) controller = Some (Some (wanted_identity (wk_server w) :: cns)) ->
  endpoint (fleet_client h) node = Ok base -> (forall path, resolve (base +:+ path) = Some (addr, path)) ->
  0 <= id ->
  (forall rq, hr_Method rq = "DELETE" -> fate h rq = AnswerLost \/ fate h rq = Answered) ->
  exists out err, worker_at (AgentClient.DestroyInstance (fleet_client h) node (containerName id) W).2 addr
    = mkWorkerState (CRun (rm_args (containerName id)) out err :: docker_log W addr) (running_at W addr).
Proof.
  intros Hw Had Hend Hres Hid Hfate. unfold AgentClient.DestroyInstance. rewrite Hend.
  cbn [ac_client fleet_client hc_NewRequest hc_Do]. rewrite TrimSpace_containerName by done.
  destruct (String.eqb_spec (containerName id) "") as [|_]; [done|].
  destruct (wk_docker _ _ Hw) as (o & _ & Hb).
  destruct (agent_handler_destroys (agent_docker o) (wk_host w) (wk_server w) _ (wk_GOOS w) (wk_GOARCH w) 0
              Hb cns id (docker_log W addr) Hid eq_refl) as (ans & out & err & Hh).
  exists out, err. set (rq := mkHttpRequest "DELETE" _ ""). specialize (Hfate rq eq_refl).
  assert (E : worker_at (fleet_Do h rq W).2 addr
    = mkWorkerState (CRun (rm_args (containerName id)) out err :: docker_log W addr) (running_at W addr)).
  { unfold fleet_Do, carry_out, rq. cbn [hr_URL hr_Method hr_Body]. fold rq. rewrite Hres, Hw, Had.
    cbn [mbind option_bind]. fold (docker_log W addr). rewrite Hh.
    destruct Hfate as [-> | ->]; unfold worker_at at 1; cbn [snd]; by rewrite lookup_insert_eq. }
  destruct (fleet_Do h rq W) as [[resp|e] W']; [|exact E]. by repeat destruct_match.
Qed.

(** C6. A failed request leaves no container behind, unless it is still
    running: when the request for an instance fails and is not still being
    carried out when the controller cleans up (it may never have arrived, or
    the container may have been started and the answer lost, or the client's
    timeout may have ended before the worker did), and the controller's next
    request reaches the worker and is answered or executed in time, then
    [launch] has had the worker's docker remove the container of that name
    after everything the failed request did, and nothing has started on the
    worker since.  [late_container_survives] shows that the condition is
    needed: a request that outlives the client's timeout can start its
    container after the removal. *)
Theorem lost_answer_undone id node r jit st e base addr w cns :
  0 <= id -> workers !! addr = Some w ->
  admitted (ap_TLS (wk_process w)) controller = Some (Some (wanted_identity (wk_server w) :: cns)) ->
  endpoint (fleet_client (hist st)) node = Ok base ->
  (forall path, resolve (base +:+ path) = Some (addr, path)) ->
  env_CreateInstance (with_fleet env) (hist st) node (job_spec cfg id r jit) = Err e ->
  let h1 := ECreateInstance node (job_spec cfg id r jit) (Err e) :: hist st in
  Forall (fun x => hr_Method x.2 <> "POST") (running_at (fleet_world h1) addr) ->
  (forall rq, hr_Method rq = "DELETE" -> fate h1 rq = AnswerLost \/ fate h1 rq = Answered) ->
  let '(err, st') := launch cfg (with_fleet env) id node r jit st in
  err <> None
  /\ exists out res after,
       docker_log (fleet_world (hist st')) addr
       = after ++ CRun ["rm"; "-f"; containerName id] out res :: docker_log (fleet_world h1) addr
       /\ Forall calm after.
Proof.
  intros Hid Hw Had Hend Hres Hfail h1 Hrun Hfate. apply wp_let. unfold launch.
  apply wp_bind, wp_call. intros res Hr. rewrite Hfail in Hr. subst res.
  apply wp_bind, wp_call. intros d1 _. apply wp_bind, wp_call. intros d2 _. cbn [jobs hist]. fold h1.
  set (h2 := EDestroyInstance node (containerName id) d1 :: h1).
  set (h3 := EDeleteRunner _ _ _ _ d2 :: h2).
  destruct (DestroyInstance_delivered h1 node base addr w cns id (fleet_world h1) Hw Had Hend Hres Hid Hfate)
    as (out & err & Hrm).
  assert (Hdone : forall st', (exists new, hist st' = new ++ h3 /\ Lifecycle.remote new = []) ->
    exists out res after,
       docker_log (fleet_world (hist st')) addr
       = after ++ CRun ["rm"; "-f"; containerName id] out res :: docker_log (fleet_world h1) addr
       /\ Forall calm after).
  { intros st' (new & -> & Hnew).
    pose proof (evolves_trans not_create addr _ _ _
      (run_chores_evolve not_create addr h2 (fleet_event h1 (EDestroyInstance node (containerName id) d1) (fleet_world h1)))
      (evolves_trans not_create addr _ _ _
         (fleet_world_step not_create addr h2 (EDeleteRunner _ _ _ _ d2) (fun _ Hf => False_ind _ Hf))
         (fleet_world_local not_create addr new h3 Hnew))) as Hev.
    cbn [fleet_event] in Hev. rewrite Hrm in Hev. destruct (Hev Hrun) as (_ & k & E & Hk).
    exists out, err, k. split; [exact E|]. eapply Forall_impl; [exact Hk|]. apply made_not_create. }
  apply wp_bind, (wp_mono _ (fun _ st' => exists new, hist st' = new ++ h3 /\ Lifecycle.remote new = [])).
  - unfold update_job_now. apply wp_bind, wp_call. intros t _. unfold update_job.
    apply wp_bind, wp_get_jobs, wp_bind, wp_put_jobs, wp_save.
    intros se st' (_ & new & Hh & Hnew). exists (new ++ [ENow t]).
    unfold Lifecycle.extends in Hh. rewrite Hh, <- app_assoc. split; [done|].
    by rewrite remote_app, Hnew.
  - intros [se|] st' Hst'; apply wp_ret; (split; [done|by apply Hdone]).
Qed.

(** C7. The controller believes in no phantom: whenever an agent answered
    it with an instance, a worker's docker had just run the command of the
    specification that was sent, with success, and it is still in that
    worker's log; and the identifier the controller records is the one docker
    printed (when that is UTF-8 and the deadline is a date JSON can carry). *)
Theorem instances_are_containers s h1 node spec inst h2 :
  controller_reachable cfg (with_fleet env) github s ->
  hist (sys_st (cl_sys s)) = h1 ++ ECreateInstance node spec (Ok inst) :: h2 ->
  exists addr w o spec' args out made,
    workers !! addr = Some w /\ wk_options w o
    /\ decode_job (marshal_spec spec) = Ok spec'
    /\ job_command (agent_docker o) spec' args
    /\ CRun args out None ∈ docker_log (fleet_world (hist (sys_st (cl_sys s)))) addr
    /\ inst_ID made = TrimSpace out /\ (announced made -> inst = made).
Proof.
  intros Hs%controller_reachable_sys E. apply (sys_reachable_Inv _ _ seen) in Hs as [_ Hg].
  rewrite E in *. apply good_create in Hg as [_ Hres]. cbn in Hres.
  destruct (AgentClient.CreateInstance (fleet_client h2) node spec (fleet_world h2)) as [res W] eqn:EC.
  cbn in Hres. subst res.
  destruct (CreateInstance_made _ _ _ _ _ _ EC)
    as (addr & w & o & spec' & args & out & d & made & Hw & Ho & Hdec & Hlog & Hj & Hid & Hann).
  exists addr, w, o, spec', args, out, made. split_and!; try done.
  set (e := ECreateInstance node spec (Ok inst)).
  assert (Hin : CRun args out None ∈ docker_log (fleet_world (e :: h2)) addr).
  { cbn [fleet_world]. unfold e at 1. cbn [fleet_event]. rewrite EC. cbn [snd].
    destruct (run_chores_evolve (fun _ => True) addr (e :: h2) W) as (_ & k & Hk & _).
    { by apply Forall_forall. }
    unfold docker_log in *. rewrite Hk. apply elem_of_app. right. rewrite Hlog. by left. }
  destruct (fleet_world_grows h1 (e :: h2) addr) as [k ->]. apply elem_of_app. by right.
Qed.
End fleet.

(** ** Witnesses: the demo controller and a deployed agent *)

#[local] Existing Instance Commands.demo_tls.
#[local] Existing Instance Commands.demo_parser.
#[local] Existing Instance Commands.plain_errors.

Definition demo_worker : Worker (CertPool := string) (Certificate := string) :=
  mkWorker agent_getenv no_args demo_files test_host "linux" "amd64" demo_agent.

Definition demo_workers : gmap string (Worker (CertPool := string) (Certificate := string)) :=
  {["e5:8090" := demo_worker]}.

Definition demo_resolve (url : string) : option (string * string) :=
  if HasPrefix url "https://e5:8090" then Some ("e5:8090", TrimPrefix url "https://e5:8090") else None.

(** An expiry sweep, and two peers that try to use the worker's API. *)
Definition demo_chores (h : History) : list (string * Chore (Peer := string * list string)) :=
  match h with
  | [] => [("e5:8090", CTick (TCleanup T0));
           ("e5:8090", CRequest ("elsewhere", ["controller"]) "GET" "/v1/capacity" "" T0);
           ("e5:8090", CRequest ("root", ["pi"]) "POST" "/v1/instances" (marshal_spec AgentClient.demo_spec) T0)]
  | _ => []
  end.

Definition demo_fate (_ : History) (_ : HttpRequest) : Fate := Answered.
Definition demo_tell (_ : DHistory) (_ : HttpRequest) : result HttpAnswer := Err (ErrMsg "no controller").

Abbreviation the_fleet :=
  (with_fleet demo_workers ("root", ["controller"]) demo_resolve demo_fate demo_chores demo_tell).
Abbreviation the_world :=
  (fleet_world demo_workers ("root", ["controller"]) demo_resolve demo_fate demo_chores demo_tell).

Lemma demo_worker_at addr w : demo_workers !! addr = Some w -> w = demo_worker.
Proof. unfold demo_workers. by intros [_ <-]%lookup_singleton_Some. Qed.

#[local] Instance demo_fleet_ok : FleetOk demo_workers demo_chores.
Proof.
  split.
  - intros addr w ->%demo_worker_at. exact demo_agent_starts.
  - intros addr w o ->%demo_worker_at (vals & Hv & ->). by injection Hv as <-.
  - intros h addr w o peer method path text now Hc ->%demo_worker_at (vals & Hv & ->).
    injection Hv as <-. intros (pem & pool & chain & Hpem & Hpool & Hver & Hchain & _).
    destruct h; [|by apply not_elem_of_nil in Hc]. cbn [demo_chores] in Hc.
    rewrite !elem_of_cons in Hc. destruct Hc as [[=]|[[= -> -> -> -> -> ->]|[[= -> -> -> -> -> ->]|[]%not_elem_of_nil]]].
    + vm_compute in Hpem. injection Hpem as <-. vm_compute in Hpool. injection Hpool as <-. done.
    + by vm_compute in Hchain.
Qed.

(** It boots, takes a delivery, and starts the runner on the worker. *)
Definition fleet_boot : Sys :=
  mkSys (reconcile demo_cfg (the_fleet happy_env) T0
           (loadState demo_cfg (the_fleet happy_env) empty_st).2).2 [].
Definition fleet_submitted : Sys :=
  mkSys (sys_st fleet_boot) (Submit demo_cfg (sys_queue fleet_boot) (demo_event "queued")).1.
Definition fleet_running : Sys :=
  mkSys (Process demo_cfg (the_fleet happy_env) (demo_event "queued") (sys_st fleet_submitted)).2 [].
Definition fleet_life (ig : Listener) (y : Sys) : ControllerLife :=
  mkControllerLife false false GRunning GRunning ln_open ig CWaiting y [] None.

Lemma fleet_load :
  loadState demo_cfg (the_fleet happy_env) empty_st
  = (None, (loadState demo_cfg (the_fleet happy_env) empty_st).2).
Proof. vm_compute. reflexivity. Qed.

Lemma fleet_queue : sys_queue fleet_submitted = [demo_event "queued"].
Proof. vm_compute. reflexivity. Qed.

Lemma demo_fleet_reachable :
  controller_reachable demo_cfg (the_fleet happy_env) true (fleet_life (mkListener 1 false) fleet_running).
Proof.
  exists fleet_boot. split.
  { exact (boots_ok demo_cfg (the_fleet happy_env) [] fleet_boot T0 _ fleet_load eq_refl). }
  eapply rtc_l.
  - eapply controller_moves.
    exact (controller_delivery demo_cfg (the_fleet happy_env) true false false GRunning ln_open ln_open
             CWaiting fleet_boot [] (demo_event "queued") eq_refl (demo_storable "queued")).
  - apply rtc_once. eapply controller_moves.
    exact (manager_event demo_cfg (the_fleet happy_env) true false false GRunning ln_open
             (mkListener 1 false) CWaiting fleet_submitted [] (demo_event "queued") [] fleet_queue).
Qed.

(** The worker's log, and the command that started the container. *)
Definition fleet_log : DHistory := docker_log (the_world (hist (sys_st fleet_running))) "e5:8090".
Definition fleet_args : list string :=
  match fleet_log with CRun (_ :: args) _ _ :: _ => args | _ => [] end.

Lemma fleet_ran : fleet_log = CRun ("run" :: fleet_args) "container123" None :: tl fleet_log.
Proof. vm_compute. reflexivity. Qed.

Example fleet_container : take 3 fleet_args = ["-d"; "--name"; "cifleet-gh-12"].
Proof. vm_compute. reflexivity. Qed.

Lemma containers_run_trusted_jobs_witness :
  CRun ("run" :: fleet_args) "container123" None ∈ fleet_log
  /\ exists h1 node spec res h2 run,
       hist (sys_st fleet_running) = h1 ++ ECreateInstance node spec res :: h2
       /\ last_run h2 = Some (Ok run) /\ (trustedWorkflowRun run (spec_Repository spec)).1 = true.
Proof.
  assert (Hin : CRun ("run" :: fleet_args) "container123" None ∈ fleet_log)
    by (rewrite fleet_ran at 1; left).
  split; [exact Hin|].
  destruct (containers_run_trusted_jobs demo_workers ("root", ["controller"]) demo_resolve demo_fate
              demo_chores demo_tell demo_cfg happy_env true demo_seen _ "e5:8090" fleet_args
              "container123" None demo_fleet_reachable Hin)
    as (h1 & node & spec & res & h2 & run & _ & _ & _ & _ & _ & _ & E & Hrun & Htr & _).
  exact (ex_intro _ h1 (ex_intro _ node (ex_intro _ spec (ex_intro _ res (ex_intro _ h2
           (ex_intro _ run (conj E (conj Hrun Htr)))))))).
Defined.

(** The request for the instance, and its answer. *)
Definition fleet_history : History := hist (sys_st fleet_running).
Definition fleet_create : Node * JobSpec * Instance_ :=
  match fleet_history !! 4%nat with
  | Some (ECreateInstance n spec (Ok inst)) => (n, spec, inst)
  | _ => (zeroNode, AgentClient.demo_spec, test_instance)
  end.

Lemma fleet_split :
  fleet_history = take 4 fleet_history
    ++ ECreateInstance fleet_create.1.1 fleet_create.1.2 (Ok fleet_create.2) :: drop 5 fleet_history.
Proof. vm_compute. reflexivity. Qed.

Example fleet_instance :
  inst_ID fleet_create.2 = "container123"
  /\ status_of (sys_st fleet_running) 12 = Some jobRunning.
Proof. vm_compute. split; reflexivity. Qed.

Lemma instances_are_containers_witness :
  exists addr w args out,
    demo_workers !! addr = Some w
    /\ CRun args out None ∈ docker_log (the_world fleet_history) addr.
Proof.
  destruct (instances_are_containers demo_workers ("root", ["controller"]) demo_resolve demo_fate
              demo_chores demo_tell demo_cfg happy_env true demo_seen _ (take 4 fleet_history)
              fleet_create.1.1 fleet_create.1.2 fleet_create.2 (drop 5 fleet_history)
              demo_fleet_reachable fleet_split)
    as (addr & w & o & spec' & args & out & made & Hw & _ & _ & _ & Hin & _).
  exact (ex_intro _ addr (ex_intro _ w (ex_intro _ args (ex_intro _ out (conj Hw Hin))))).
Defined.

(** A network that loses every answer to a POST. *)
Definition losing_fate (_ : History) (rq : HttpRequest) : Fate :=
  if String.eqb (hr_Method rq) "POST" then AnswerLost else Answered.

Abbreviation losing_env :=
  (with_fleet demo_workers ("root", ["controller"]) demo_resolve losing_fate demo_chores demo_tell happy_env).
Abbreviation losing_log h :=
  (docker_log (fleet_world demo_workers ("root", ["controller"]) demo_resolve losing_fate demo_chores
                 demo_tell h) "e5:8090").

Definition launching : St := mkSt {[12 := test_record]} [].
Definition test_jit : JITConfig := mkJITConfig 77 "jit".
Definition lost : Event :=
  ECreateInstance e5 (job_spec demo_cfg 12 test_record test_jit)
    (Err (ErrWrap "agent e5 create instance" (ErrMsg "EOF"))).

Lemma demo_resolves path : demo_resolve ("https://e5:8090" +:+ path) = Some ("e5:8090", path).
Proof.
  unfold demo_resolve. rewrite (proj2 (HasPrefix_spec _ _)) by eauto. by rewrite TrimPrefix_app.
Qed.

Lemma losing_deletes h rq :
  hr_Method rq = "DELETE" -> losing_fate h rq = AnswerLost \/ losing_fate h rq = Answered.
Proof. unfold losing_fate. intros ->. by right. Qed.

Lemma losing_running :
  Forall (fun x => hr_Method x.2 <> "POST")
    (running_at (fleet_world demo_workers ("root", ["controller"]) demo_resolve losing_fate demo_chores
                   demo_tell [lost]) "e5:8090").
Proof.
  assert (E : running_at (fleet_world demo_workers ("root", ["controller"]) demo_resolve losing_fate
                demo_chores demo_tell [lost]) "e5:8090" = []) by (vm_compute; reflexivity).
  rewrite E. constructor.
Qed.

(** The container was started all the same. *)
Example lost_but_started :
  match losing_log [lost] with CRun ("run" :: _) _ None :: _ => true | _ => false end = true.
Proof. vm_compute. reflexivity. Qed.

Lemma lost_answer :
  env_CreateInstance losing_env [] e5 (job_spec demo_cfg 12 test_record test_jit)
  = Err (ErrWrap "agent e5 create instance" (ErrMsg "EOF")).
Proof. vm_compute. reflexivity. Qed.

Lemma demo_worker_admits :
  admitted (ap_TLS (wk_process demo_worker)) ("root", ["controller"])
  = Some (Some (wanted_identity (ap_Server (wk_process demo_worker)) :: [])).
Proof. vm_compute. reflexivity. Qed.

Lemma lost_answer_undone_witness :
  let '(err, st') := launch demo_cfg losing_env 12 e5 test_record test_jit launching in
  err <> None
  /\ exists out res after,
       losing_log (hist st') = after ++ CRun ["rm"; "-f"; "cifleet-gh-12"] out res :: losing_log [lost]
       /\ Forall calm after.
Proof.
  pose proof (lost_answer_undone demo_workers ("root", ["controller"]) demo_resolve losing_fate demo_chores
                demo_tell demo_cfg happy_env 12 e5 test_record test_jit launching
                (ErrWrap "agent e5 create instance" (ErrMsg "EOF")) "https://e5:8090" "e5:8090" demo_worker []
                ltac:(lia) eq_refl demo_worker_admits eq_refl demo_resolves lost_answer
                losing_running (losing_deletes _)) as Hw.
  exact Hw.
Defined.

(** The other case: the client's timeout ends while the worker is still at
    work, and the worker only gets to its container after the cleanup. *)
Definition late_fate (_ : History) (rq : HttpRequest) : Fate :=
  if String.eqb (hr_Method rq) "POST" then TimedOut else Answered.
Definition late_chores (h : History) : list (string * Chore (Peer := string * list string)) :=
  match h with EDeleteRunner _ _ _ _ _ :: _ => [("e5:8090", CFinish 0)] | _ => [] end.

Definition late_launched : St :=
  (launch demo_cfg
     (with_fleet demo_workers ("root", ["controller"]) demo_resolve late_fate late_chores demo_tell happy_env)
     12 e5 test_record test_jit launching).2.
Definition late_log : DHistory :=
  docker_log (fleet_world demo_workers ("root", ["controller"]) demo_resolve late_fate late_chores demo_tell
                (hist late_launched)) "e5:8090".

Definition removes (name : string) (c : DCall) : bool :=
  match c with CRun ["rm"; "-f"; n] _ _ => String.eqb n name | _ => false end.

(** The job is pending again, its name was removed, and the container of the
    abandoned attempt was started after that. *)
Example late_container_survives :
  status_of late_launched 12 = Some jobPending
  /\ match late_log with
     | CRun ("run" :: args) _ None :: older =>
         take 3 args = ["-d"; "--name"; "cifleet-gh-12"] /\ existsb (removes "cifleet-gh-12") older = true
     | _ => False
     end.
Proof. vm_compute. split_and!; reflexivity. Qed.
